(* ===== verification/_CoqProject ===== *)
-Q . S2P
Prelude.v
GoLib.v
Json.v
JsonText.v
JsonSpec.v
NetUrl.v
Sha256.v
PyLib.v
PyJson.v
Sql.v
Schema.v
Fixtures.v
Rollup.v
Lifecycle.v
Store.v
PortalSql.v
Fleet.v
FleetSpec.v
ReadCommitted.v
ReadCommittedSpec.v
OverlapSpec.v
Claims.v
ClaimsSpec.v
Session.v
Queue.v
QueueSpec.v
Config.v
Http.v
Auth.v
Handlers.v
Uploads.v
Router.v
ApiFixtures.v
Portal.v
PortalSpec.v
Login.v
LoginSpec.v
Dashboard.v
ApiSafe.v
ApiSpec.v
ApiAuthz.v
RefSpec.v
RequestSpec.v
PyConfig.v
Metrics.v
Runner.v
RunnerSpec.v
MetricsSpec.v
SubmitSpec.v
OwnerSpec.v
Storage.v
StorageSpec.v
ObjectSpec.v
Sdk.v
SdkSpec.v
Controller.v
Operator.v
ControllerSpec.v
ConvergeSpec.v
DeepCopy.v
DeepCopySpec.v
Migrate.v
Boot.v
