(* ===== verification/Prelude.v ===== *)
(** * SynergyPlus: a verification library for the simulation queue and its API

    SynergyPlus runs EnergyPlus simulations for many users. The apiserver
    (src/cmd/apiserver, src/internal/api, src/internal/queue,
    src/internal/store, src/internal/storage) accepts simulations and batches
    over HTTP and writes them as rows of a Postgres database; Runners
    (src/runner) claim rows through SQL functions, run them and write results;
    the apiserver's Reaper gives back the rows of dead Runners; and the
    operator (src/cmd/operator, src/internal/controller, src/api/v1) keeps one
    pool of Runners per engine version, scaled by KEDA on the number of
    claimable rows. The web portal (src/portal) makes users and API keys. The
    database is the only thing the processes share, and a trigger in it keeps
    every batch's counts and state. Researchers submit with the Python SDK
    (src/sdk/python), which uploads their files to object storage.

    ** Files

    Libraries. [Prelude]: Go results and state passing, 64-bit wrap-around,
    automation. [GoLib]: the Go standard-library functions the sources call, on
    byte strings. [Json], [JsonText]: encoding/json, reading (the grammar, and
    decode.go's rules for storing a value into a variable) and writing, with
    strconv's float64 conversions and fmt's %q; [JsonSpec] proves that what is
    written is read back. [Sha256]: crypto/sha256 and encoding/hex, executable.
    [NetUrl]: net/url's Parse, with the facts about the URLs the sources parse.
    [PyLib]: the Python the Runner is written in: exceptions as results, str,
    int(), float(), repr, json.dumps and urlparse on byte strings. [PyJson]:
    Python's json, as a dialect of [JsonText]'s writer that is read back. [Sql]:
    updates, counts and ordering on row lists.

    The database. [Schema]: the tables of db/migrations/0001_init.sql and the
    trigger app.sync_batch_counts of 0004; every statement on app.simulations
    fires it as the migration declares. [Rollup]: what the trigger maintains,
    and Store.ResyncStuckBatches. [Lifecycle]: the SQL functions of 0006 and
    0007, one definition each, and the Runner's own two statements
    (runner/synergy_runner/db.py). [Fixtures]: small databases for examples.

    The apiserver. [Store]: the queries of internal/store/store.go, first as
    functions on a database ([pg_*]), then as calls of a process ([st_*],
    [PgStore]) among others: a stream of [tick]s says, per statement, what
    other transactions did before it and whether it fails, before or after
    being applied. [DataStore] is the interface of server.go that everything
    above the store is written against. [Migrate]: store.Migrate. [Queue]:
    internal/queue (ContentHash, Expand, ExpandAsync, the Reaper). [Config]:
    internal/api/config.go. [Http]: the Server, the request types with the
    decoders their JSON tags give, and responses as bytes. [Auth], [Handlers],
    [Uploads], [Router]: auth.go, handlers.go, uploads.go and Router of
    server.go, one definition per handler. [Storage]:
    internal/storage/presign.go and the presigner main builds. [ApiFixtures]: a
    concrete deployment for examples. [Boot]: main of cmd/apiserver, with
    store.New and Close, as a process with a trace and an exit code; main of
    cmd/operator likewise.

    The Runner. [PyConfig]: config.py, what a Runner takes from its
    environment. [Metrics]: metrics.py and engine.py, the metrics of a run,
    around the EnergyPlus process and SQLite ([EngineIO]). [Runner]: the pull loop of
    runner/synergy_runner (loop.py, heartbeat.py, parse_err.py, storage.py and
    the statements of db.py), with exceptions as results and its statements run
    one by one among the other processes'.

    The portal and the SDK. [PortalSql], [Portal]: the portal's statements on
    users and keys (portal/src/lib) and its routes under /api/keys. [Login]: its
    allow-list and the delivery of sign-in links around Better Auth.
    [Dashboard]: the queries of its dashboard, and what they show. [Sdk]:
    models.py, storage.py and client.py of the Python SDK.

    The operator. [Controller]: api/v1 and internal/controller over the
    Kubernetes client interface. [Operator]: what cmd/operator reads from its
    environment. [DeepCopy]: api/v1's generated deep copies, over a memory with
    pointers and slices that can share.

    The system. [Fleet]: every writer of the queue as one transition system; an
    [event] is a committed transaction of any process, a run is a list of
    events one after the other, so all orders of transactions, crashes, late
    wake-ups and clock readings are runs. [ReadCommitted]: the same writers as transactions that overlap at
    READ COMMITTED, each statement with its snapshot and its row locks.
    [Claims]: app.claim_simulation statement by statement among them, with its
    advisory lock, the snapshot its UPDATE takes once it has the lock, and SKIP
    LOCKED row by row.
    [Session]: [keeps], the rule by which Go code is checked against any
    database invariant under interference and failures, and [quiet] worlds, in
    which a process is alone and its statements succeed.

    ** What is shown

    The queue ([Lifecycle], [FleetSpec], [ClaimsSpec]). Every transaction refines
    the simulation state machine; no user exceeds the cap and no simulation is
    claimed twice, however claims and other transactions overlap; a Runner that lost its
    row cannot write it; a simulation changes phase at most six times, and can
    always be finished; a claim takes the best eligible row; the scaler's depth
    is positive exactly when a claim succeeds; the Reaper acts on the expired
    leases and nothing else.

    Batches ([Rollup], [FleetSpec], [QueueSpec], [SubmitSpec],
    [ReadCommittedSpec], [OverlapSpec]). The counts and the state of a batch are
    those its rows determine as long as no two open transactions work on the
    batch at once, whatever else overlaps at READ COMMITTED; so they are in
    every database of the serial [Fleet]. Two overlapping finishes of one batch
    always lose the rollup of the first, until a later one or the resync sweep
    repairs it; but done is never premature, however transactions overlap. A
    transaction that runs alone is the atomic step of [Fleet], and the Reaper
    and a late finish can wait for each other. Expansion creates exactly the
    rows submitted, in the state the cache says; submission is idempotent per
    key, also in a race; pages partition a batch; a batch that misses rows stays
    expanding for ever, which is what a failed expansion leaves behind.

    The HTTP surface ([ApiSafe], [ApiSpec], [ApiAuthz], [RefSpec],
    [SubmitSpec], [RequestSpec]). A request written by a JSON encoder is
    decoded to itself; a body is taken exactly when its members have the types
    the request's Go type declares, and refused before anything happens
    otherwise; every answer is a JSON document of the type of its endpoint.
    Requests preserve every invariant of the fleet under any interference; they
    run as the owner of a live key or are refused; what another user has cannot
    be told from any read endpoint (two databases that agree on the caller's
    objects, and on the results stored for the content hashes of the caller's
    own rows, give the same answers); only references into the right buckets are
    accepted, and those the upload endpoint mints are among them. What one
    submits one can read in every later database ([OwnerSpec]), and nobody else
    can. A key the portal shows is its user's identity until that user revokes
    it ([PortalSpec]); the links it signs users in with reach allowed addresses
    only ([LoginSpec]); its dashboard is of the user's own rows.

    The Runner ([RunnerSpec], [MetricsSpec], [ObjectSpec]). What
    process_simulation returns is what happened to the row, under any failures:
    after a success the row carries the digests of the bytes downloaded for its
    own references and the content hash the apiserver computes from them, and
    the result is cached under it; nothing is left half done but a row for the
    Reaper. The metrics stored are those of the model file and of the cells of
    EnergyPlus's tables named for each, and one that is not a finite number
    fails the run. A Runner and the apiserver with the same bucket settings mean the
    same object by every reference the API accepts, what was uploaded under a
    minted reference is what the Runner fetches, and the artifacts it uploads
    are the ones the apiserver lists, name by name. From end to end
    ([SdkSpec]): when the SDK's submit_simulation returns for two local files,
    the row that was made is for exactly their bytes, by content hash and by
    what a Runner downloads.

    Configuration, object storage, the operator and boot ([Config],
    [StorageSpec], [Migrate], [ControllerSpec], [ConvergeSpec], [DeepCopySpec],
    [Boot]). The configuration is in bounds in every environment; the URLs the
    handlers give out are minio's, signed by the client of the public endpoint
    for at most fifteen minutes, and listings, made by the in-cluster client,
    skip directories; an endpoint is a URL, or a host with a port whose
    host is not an IP address; migrations run in order up to the first failure;
    scaler and Runners of a pool use the same version and cap, a Runner pod is
    configured with the operator's environment, a reconcile never writes the
    autoscaler's replicas and reports every failure however the API server
    answers, and on a server that stores what it is sent it converges and then
    changes nothing; deep copies share nothing with their originals; neither
    process starts serving before what it needs is in place.

    ** Bounds and fuel

    [GoLib.trim_left] gets the length of the string it trims as fuel; every
    round removes at least one byte. [Json.parse_value] gets two rounds per
    byte ([Json.enough]), which [Json.parse_enough] proves enough.
    [JsonText.shortest] tries 1 to 17 digits, which a float64 never exceeds,
    and [JsonText.decimal_size] corrects an estimate that is at most two off.
    [Runner.run_forever] takes the number of rounds until the shutdown and
    [Sdk.wait] the number of polls it is watched for. Other
    recursions are structural. Integers are Z; where Go's int or time.Duration
    can overflow ([envInt], [LoadConfig], [sweep]) the wrap-around is written
    out, int4 columns are range-checked by [Store.int4], and the int32 fields
    of a pool are bounded by hypotheses of the theorems that need it. SQL
    timestamps are microseconds.

    ** Parameters

    Code that is not in the repository is a parameter: Postgres's uuid input
    ([PgUuid]), Unicode's printable characters ([UnicodeLib]), the decoding of
    Kubernetes' tolerations ([TolerationJson]), bracketed IP literals in URLs
    ([IPLiteral], and [NetlocLib] in Python), Python's Unicode tables
    ([PyUnicode]), the minio client ([Minio]), the Kubernetes client and
    libraries ([Kube], [KubeLib], [ManagerLib]), apimachinery's metadata types
    under the deep copies ([MetaTypes], [MetaLib]), the presigner under the
    handlers ([presignClient]), pgx's pool ([PoolIO]), the operating system
    under Migrate ([BootIO]), the EnergyPlus process with its SQLite output
    ([EngineIO]), what surrounds the Runner's loop ([RunnerIO]) and the SDK
    ([SdkIO]), and JavaScript's text functions in the portal ([JsText]) and
    Python's case mappings in the SDK ([PyCase]) beyond ASCII. Theorems
    that need something of one state it as a hypothesis or through a class of
    laws ([KubeServer]), and their witnesses instantiate it.

    ** What is not modelled

    [Fleet] takes transactions one after the other; [ReadCommitted] and [Claims]
    let those of the lifecycle and the trigger overlap (Postgres's detection of
    deadlocks shows as an abort), but the theorems about the HTTP
    surface and the Runner are over serial ones: their store is one statement
    per call, each its own transaction, and what overlap changes is the rollup
    by the trigger, which [ReadCommitted] has. Encoding errors of text
    columns appear as failing statements; jsonb's normal form of a JSON text is
    the text itself, and an artifact's days to live are days of 24 hours. chi has selected the route and
    net/http has read the body. A session of the portal is what Better Auth says
    it is, and the portal's pages only render. A pod's environment is taken
    without the kubelet's $(VAR) expansion; [KubeServer] has no admission checks
    (quotas, webhooks, validation), and what others add to an object's metadata
    and the operator's Update of a ScaledObject drops is not a field of
    [ScaledObject]. The EnergyPlus process itself,
    the Go programs' logging, timeouts of the SDK, the deployment charts and the
    test suites are left out.

    ** Plan

    Every operation of the Go sources, the SQL functions, the Runner, the SDK
    and the portal's server has its definition. What is left is the HTTP surface
    over [ReadCommitted] in place of [Fleet]. *)
From stdpp Require Export base tactics option list strings pretty gmap sorting.
From Stdlib Require Export ZArith Lia Ascii.
Export List.ListNotations.

#[export] Set Default Goal Selector "!".

Declare Scope go_scope.
Delimit Scope go_scope with go.

(** ** Go results

    A Go function that returns [(T, error)] returns a [result E T]. *)
Inductive result (E A : Type) : Type :=
  | Ok (a : A)
  | Err (e : E).
Arguments Ok {E A} a.
Arguments Err {E A} e.

#[export] Instance result_eq_dec `{EqDecision E, EqDecision A} :
  EqDecision (result E A).
Proof. solve_decision. Defined.

(** ** State passing

    An effectful Go function is a state transformer; stdpp's [x ← m; k] is its
    sequencing. *)
Definition state_t (W A : Type) : Type := W → W * A.

#[export] Instance state_ret W : MRet (state_t W) := λ A a w, (w, a).
#[export] Instance state_bind W : MBind (state_t W) :=
  λ A B k m w, let '(w', a) := m w in k a w'.

Lemma state_bind_run {W A B} (m : state_t W A) (k : A → state_t W B) w :
  (x ← m; k x) w = k (m w).2 (m w).1.
Proof. unfold mbind, state_bind. by destruct (m w). Qed.

(** ** Machine integers: Go's [int] (64 bits) and [int32] wrap around. *)
Definition wrap64 (z : Z) : Z := (z + 2 ^ 63) mod 2 ^ 64 - 2 ^ 63.

Lemma wrap64_range z : (- 2 ^ 63 ≤ wrap64 z < 2 ^ 63)%Z.
Proof.
  unfold wrap64. pose proof (Z.mod_pos_bound (z + 2 ^ 63) (2 ^ 64)). lia.
Qed.

Lemma wrap64_id z : (- 2 ^ 63 ≤ z < 2 ^ 63)%Z → wrap64 z = z.
Proof. intros H. unfold wrap64. rewrite Z.mod_small; lia. Qed.

Lemma wrap64_wrap64_add a b : wrap64 (wrap64 a + b) = wrap64 (a + b).
Proof.
  unfold wrap64.
  replace ((a + 2 ^ 63) mod 2 ^ 64 - 2 ^ 63 + b + 2 ^ 63)%Z
    with ((a + 2 ^ 63) mod 2 ^ 64 + b)%Z by lia.
  rewrite Zplus_mod_idemp_l.
  by replace (a + 2 ^ 63 + b)%Z with (a + b + 2 ^ 63)%Z by lia.
Qed.

Lemma wrap64_wrap64_mul_add a b c :
  wrap64 (wrap64 a * b + c) = wrap64 (a * b + c).
Proof.
  unfold wrap64. f_equal.
  rewrite <-(Zplus_mod_idemp_l (_ * b + c)), <-(Zplus_mod_idemp_l (a * b + c)).
  f_equal. f_equal.
  rewrite <-(Zplus_mod_idemp_l (_ * b)), <-(Zplus_mod_idemp_l (a * b)).
  do 2 f_equal.
  rewrite <-(Z.mul_mod_idemp_l a), <-Z.mul_mod_idemp_l by lia.
  do 2 f_equal.
  rewrite Zminus_mod, Zmod_mod, <-Zminus_mod. f_equal. lia.
Qed.

(** ** Automation *)
Create HintDb keeps.

(** Closes a goal that follows from the hypotheses' conjuncts. *)
Ltac crush := destruct_and?; split_and?; eauto; try done; try lia.
