(* ===== verification/GoLib.v ===== *)
(** * The Go standard-library functions the sources call

    [strings], [path], [strconv], [unicode/utf8] and the one regular expression
    of internal/api/uploads.go, as executable functions on byte strings (a Go
    string is a sequence of bytes, a [string] here is a list of 8-bit
    [ascii]s).  Nothing in this file models code of the repository itself. *)
From S2P Require Import Prelude.

Local Open Scope string_scope.

(** ** Bytes *)
Definition byte_val (c : ascii) : Z := Z.of_N (N_of_ascii c).

Definition in_range (lo hi : Z) (c : ascii) : bool :=
  (lo <=? byte_val c)%Z && (byte_val c <=? hi)%Z.

Lemma byte_val_range c : (0 ≤ byte_val c < 256)%Z.
Proof.
  unfold byte_val. pose proof (N_ascii_bounded c). lia.
Qed.

Lemma byte_val_inj a b : byte_val a = byte_val b → a = b.
Proof.
  unfold byte_val. intros H%N2Z.inj.
  by rewrite <-(ascii_N_embedding a), <-(ascii_N_embedding b), H.
Qed.

Fixpoint string_rev_app (s acc : string) : string :=
  match s with
  | EmptyString => acc
  | String c r => string_rev_app r (String c acc)
  end.
Definition string_rev (s : string) : string := string_rev_app s "".

Fixpoint string_forallb (p : ascii → bool) (s : string) : bool :=
  match s with
  | EmptyString => true
  | String c r => p c && string_forallb p r
  end.

(** [s] does not contain the byte [c]. *)
Definition lacks (c : ascii) (s : string) : bool :=
  string_forallb (λ d, negb (Ascii.eqb c d)) s.

(** [s[:n]] and [s[n:]], for [n] at most the length of [s]. *)
Fixpoint slice_to (n : nat) (s : string) : string :=
  match n, s with
  | S n', String c r => String c (slice_to n' r)
  | _, _ => ""
  end.
Fixpoint slice_from (n : nat) (s : string) : string :=
  match n, s with
  | S n', String _ r => slice_from n' r
  | _, _ => s
  end.

(** ** The environment of a process; an empty variable is not an unset one. *)
Definition environ := string → option string.

(** ** package strings *)

(** [strings.CutPrefix(s, p)]: [Some rest] when [s] starts with [p]. *)
Fixpoint CutPrefix (s p : string) {struct p} : option string :=
  match p, s with
  | EmptyString, _ => Some s
  | String a p', String b s' => if Ascii.eqb a b then CutPrefix s' p' else None
  | String _ _, EmptyString => None
  end.

Definition HasPrefix (s p : string) : bool :=
  match CutPrefix s p with Some _ => true | None => false end.

Definition TrimPrefix (s p : string) : string := default s (CutPrefix s p).

Definition HasSuffix (s p : string) : bool :=
  HasPrefix (string_rev s) (string_rev p).

(** [strings.Cut(s, c)] for a one-byte separator: (before, after, found). *)
Fixpoint Cut (s : string) (c : ascii) : string * string * bool :=
  match s with
  | EmptyString => ("", "", false)
  | String d r =>
      if Ascii.eqb d c then ("", r, true)
      else let '(b, a, f) := Cut r c in (String d b, a, f)
  end.

(** [strings.Join(l, sep)] *)
Fixpoint join (sep : string) (l : list string) : string :=
  match l with
  | [] => ""
  | [x] => x
  | x :: r => x +:+ sep +:+ join sep r
  end.

(** [strings.Split(s, c)] for a one-byte separator. *)
Fixpoint Split (s : string) (c : ascii) : list string :=
  match s with
  | EmptyString => [""]
  | String d r =>
      if Ascii.eqb d c then "" :: Split r c
      else match Split r c with
           | [] => [String d ""]
           | h :: t => String d h :: t
           end
  end.

(** The UTF-8 encodings of the code points for which [unicode.IsSpace] holds:
    U+0009-000D, U+0020, U+0085, U+00A0, U+1680, U+2000-200A, U+2028, U+2029,
    U+202F, U+205F, U+3000. *)
Definition bytes_str (l : list Z) : string :=
  fold_right (λ z s, String (ascii_of_N (Z.to_N z)) s) "" l.

Definition space_encodings : list string := Eval vm_compute in
  map bytes_str
    ([[9]; [10]; [11]; [12]; [13]; [32]; [194; 133]; [194; 160];
      [225; 154; 128]; [226; 128; 168]; [226; 128; 169]; [226; 128; 175];
      [226; 129; 159]; [227; 128; 128]]%Z
     ++ map (λ k, [226; 128; 128 + Z.of_nat k]%Z) (seq 0 11)).

Fixpoint cut_any (s : string) (ps : list string) : option string :=
  match ps with
  | [] => None
  | p :: ps' => match CutPrefix s p with Some r => Some r | None => cut_any s ps' end
  end.

(** Removes prefixes in [ps] as long as there is one; every prefix removed is
    not empty, so [String.length s] rounds are enough. *)
Fixpoint trim_left (fuel : nat) (ps : list string) (s : string) : string :=
  match fuel with
  | O => s
  | S n => match cut_any s ps with Some r => trim_left n ps r | None => s end
  end.

Definition trim_both (ps : list string) (s : string) : string :=
  let l := trim_left (String.length s) ps s in
  string_rev (trim_left (String.length l) (map string_rev ps) (string_rev l)).

Definition TrimSpace (s : string) : string := trim_both space_encodings s.

Definition ascii_lower (c : ascii) : ascii :=
  if in_range 65 90 c then ascii_of_N (N_of_ascii c + 32) else c.

(** [strings.EqualFold] against a string whose letters fold only within ASCII
    (none of k, s: their Unicode orbits have a third member). *)
Fixpoint EqualFold (s t : string) : bool :=
  match s, t with
  | EmptyString, EmptyString => true
  | String a s', String b t' =>
      Ascii.eqb (ascii_lower a) (ascii_lower b) && EqualFold s' t'
  | _, _ => false
  end.

(** ** package path *)
Fixpoint strip_leading_slashes (s : string) : string :=
  match s with
  | String c r => if Ascii.eqb c "/" then strip_leading_slashes r else s
  | EmptyString => s
  end.

(** The bytes of a reversed path up to its first slash. *)
Fixpoint upto_slash (s : string) : string :=
  match s with
  | String c r => if Ascii.eqb c "/" then "" else String c (upto_slash r)
  | EmptyString => ""
  end.

Definition path_Base (p : string) : string :=
  if decide (p = "") then "."
  else
    let last := string_rev (upto_slash (strip_leading_slashes (string_rev p))) in
    if decide (strip_leading_slashes (string_rev p) = "") then "/" else last.

(** ** package strconv *)
Definition digit_val (c : ascii) : option Z :=
  if in_range 48 57 c then Some (byte_val c - 48)%Z else None.

Fixpoint parse_digits (acc : Z) (s : string) : option Z :=
  match s with
  | EmptyString => Some acc
  | String c r =>
      match digit_val c with
      | Some d => parse_digits (acc * 10 + d)%Z r
      | None => None
      end
  end.

Definition parse_unsigned (s : string) : option Z :=
  if decide (s = "") then None else parse_digits 0 s.

(** [strconv.Atoi]: [None] is a syntax or range error. *)
Definition Atoi (s : string) : option Z :=
  let checked (neg : bool) (r : string) :=
    match parse_unsigned r with
    | Some v =>
        let z := if neg then (- v)%Z else v in
        if (- 2 ^ 63 <=? z)%Z && (z <? 2 ^ 63)%Z then Some z else None
    | None => None
    end in
  match s with
  | String "-" r => checked true r
  | String "+" r => checked false r
  | _ => checked false s
  end.

(** ** package unicode/utf8: the width in bytes of the first rune of a string;
    an invalid encoding is a rune of width 1 (utf8.RuneError). *)
Definition second_ok (b0 b1 : ascii) : bool :=
  if in_range 224 224 b0 then in_range 160 191 b1
  else if in_range 237 237 b0 then in_range 128 159 b1
  else if in_range 240 240 b0 then in_range 144 191 b1
  else if in_range 244 244 b0 then in_range 128 143 b1
  else in_range 128 191 b1.

Definition cont (b : ascii) : bool := in_range 128 191 b.

Definition rune_width (s : string) : nat :=
  match s with
  | String b0 (String b1 r) =>
      if in_range 194 223 b0 then (if cont b1 then 2 else 1)
      else if in_range 224 239 b0 then
        match r with
        | String b2 _ => if second_ok b0 b1 && cont b2 then 3 else 1
        | _ => 1
        end
      else if in_range 240 244 b0 then
        match r with
        | String b2 (String b3 _) =>
            if second_ok b0 b1 && cont b2 && cont b3 then 4 else 1
        | _ => 1
        end
      else 1
  | _ => 1
  end.

(** [regexp.MustCompile(`[^set]`).ReplaceAllString(s, "_")] for a set of ASCII
    bytes: every rune outside the set, whatever its width, becomes one byte. *)
Fixpoint replace_outside (set : ascii → bool) (skip : nat) (s : string) : string :=
  match s with
  | EmptyString => ""
  | String c r =>
      match skip with
      | S k => replace_outside set k r
      | O => if set c then String c (replace_outside set 0 r)
             else String "_" (replace_outside set (rune_width s - 1) r)
      end
  end.

(** ** Facts *)

Lemma string_app_cons c (s t : string) : String c s +:+ t = String c (s +:+ t).
Proof. done. Qed.

Lemma string_app_nil_l (t : string) : "" +:+ t = t.
Proof. done. Qed.

Lemma string_app_nil_r (s : string) : s +:+ "" = s.
Proof. induction s as [|c s IH]; [done|]. by rewrite string_app_cons, IH. Qed.

Lemma string_app_assoc (a b c : string) : a +:+ (b +:+ c) = (a +:+ b) +:+ c.
Proof. induction a as [|d a IH]; [done|]. by rewrite !string_app_cons, IH. Qed.

Lemma string_app_inj (p s t : string) : p +:+ s = p +:+ t → s = t.
Proof.
  induction p as [|c p IH]; [done|]. rewrite !string_app_cons. intros [= H]. auto.
Qed.

(** Normalises string literals in front of an append. *)
Ltac str_norm := repeat first [rewrite string_app_cons | rewrite string_app_nil_l].

Lemma CutPrefix_app p s : CutPrefix (p +:+ s) p = Some s.
Proof.
  induction p as [|c p IH]; [done|].
  rewrite string_app_cons. cbn. by rewrite Ascii.eqb_refl.
Qed.

Lemma CutPrefix_Some s p r : CutPrefix s p = Some r → s = p +:+ r.
Proof.
  revert s. induction p as [|c p IH]; intros s; cbn; [by intros [= <-]|].
  destruct s as [|d s]; [done|].
  destruct (Ascii.eqb_spec c d) as [->|]; [|done].
  rewrite string_app_cons. by intros ->%IH.
Qed.

Lemma HasPrefix_true s p : HasPrefix s p = true ↔ ∃ r, s = p +:+ r.
Proof.
  unfold HasPrefix. split.
  - destruct (CutPrefix s p) as [r|] eqn:E; [|done]. eauto using CutPrefix_Some.
  - intros [r ->]. by rewrite CutPrefix_app.
Qed.

Lemma string_forallb_app p a b :
  string_forallb p (a +:+ b) = string_forallb p a && string_forallb p b.
Proof.
  induction a as [|c a IH]; [done|]. rewrite ?string_app_cons. simpl.
  by rewrite IH, andb_assoc.
Qed.

Lemma string_forallb_impl (p q : ascii → bool) s :
  (∀ c, p c = true → q c = true) →
  string_forallb p s = true → string_forallb q s = true.
Proof.
  intros Hpq. induction s as [|c s IH]; simpl; [done|].
  rewrite !andb_true_iff. intros [Hc Hs]. auto.
Qed.

Lemma Cut_lacks b a c : lacks c b = true → Cut (b +:+ String c a) c = (b, a, true).
Proof.
  unfold lacks. induction b as [|d b IH]; simpl.
  { rewrite ?string_app_nil_l. simpl. by rewrite Ascii.eqb_refl. }
  rewrite andb_true_iff, negb_true_iff. intros [Hd Hb].
  rewrite ?string_app_cons. simpl. by rewrite Ascii.eqb_sym, Hd, IH.
Qed.

Lemma Cut_spec s c b a f : Cut s c = (b, a, f) →
  lacks c b = true ∧
  (f = true → s = b +:+ String c a) ∧ (f = false → s = b ∧ a = "").
Proof.
  revert b. induction s as [|d s IH]; intros b; simpl.
  { by intros [= <- <- <-]. }
  destruct (Ascii.eqb_spec d c) as [->|Hne].
  { by intros [= <- <- <-]. }
  destruct (Cut s c) as [[b' a'] f'] eqn:E. intros [= <- <- <-].
  destruct (IH _ eq_refl) as (H1 & H2 & H3). split_and!.
  - unfold lacks in *. simpl. rewrite H1, andb_true_r.
    rewrite negb_true_iff, Ascii.eqb_sym. by apply Ascii.eqb_neq.
  - intros ->. by rewrite string_app_cons, <-H2.
  - intros ->. destruct (H3 eq_refl) as [-> ->]. done.
Qed.

Lemma Cut_absent s c : lacks c s = true → Cut s c = (s, "", false).
Proof.
  destruct (Cut s c) as [[b a] f] eqn:E. apply Cut_spec in E as (_ & Ht & Hf).
  destruct f; [|by destruct (Hf eq_refl) as [-> ->]]. rewrite (Ht eq_refl). unfold lacks.
  rewrite string_forallb_app. cbn [string_forallb]. by rewrite Ascii.eqb_refl, !andb_false_r.
Qed.

Lemma forallb_lacks (p : ascii → bool) c s :
  p c = false → string_forallb p s = true → lacks c s = true.
Proof.
  intros Hc. apply string_forallb_impl. intros d Hd.
  apply negb_true_iff, Ascii.eqb_neq. intros ->. by rewrite Hc in Hd.
Qed.

(** A fact about every byte, checked byte by byte. *)
Lemma all_bytes (p : ascii → bool) :
  forallb p (map ascii_of_nat (seq 0 256)) = true → ∀ c, p c = true.
Proof.
  rewrite forallb_forall. intros H c. apply H. rewrite <-(ascii_nat_embedding c).
  apply in_map, in_seq. pose proof (nat_ascii_bounded c). lia.
Qed.

Lemma bytes_impl (p q : ascii → bool) :
  forallb (λ c, implb (p c) (q c)) (map ascii_of_nat (seq 0 256)) = true →
  ∀ s, string_forallb p s = true → string_forallb q s = true.
Proof.
  intros H s. apply string_forallb_impl. intros c Hp.
  pose proof (all_bytes _ H c) as Hc. cbv beta in Hc. by rewrite Hp in Hc.
Qed.

Lemma string_rev_app_spec s : ∀ acc, string_rev_app s acc = string_rev s +:+ acc.
Proof.
  unfold string_rev. induction s as [|d s IH]; intros acc; [done|]. cbn [string_rev_app].
  rewrite IH, (IH (String d "")). by rewrite <-string_app_assoc.
Qed.

Lemma string_rev_cons d s : string_rev (String d s) = string_rev s +:+ String d "".
Proof. unfold string_rev at 1. cbn [string_rev_app]. apply string_rev_app_spec. Qed.

Lemma string_rev_snoc s d : string_rev (s +:+ String d "") = String d (string_rev s).
Proof.
  induction s as [|e s IH]; [done|]. rewrite string_app_cons, !string_rev_cons, IH. done.
Qed.

Lemma string_rev_involutive s : string_rev (string_rev s) = s.
Proof. induction s as [|d s IH]; [done|]. by rewrite string_rev_cons, string_rev_snoc, IH. Qed.

Lemma string_rev_forallb p s : string_forallb p (string_rev s) = string_forallb p s.
Proof.
  induction s as [|d s IH]; [done|]. rewrite string_rev_cons, string_forallb_app, IH.
  cbn [string_forallb]. by rewrite andb_true_r, andb_comm.
Qed.

(** Trimming a string none of whose bytes starts or ends what is trimmed. *)
Definition outside (f : ascii → bool) (p : string) : bool :=
  match p with String c _ => negb (f c) | EmptyString => false end.

Lemma trim_left_id f n ps s :
  forallb (outside f) ps = true → string_forallb f s = true → trim_left n ps s = s.
Proof.
  intros Hp Hs. destruct n; [done|]. cbn [trim_left].
  assert (E : cut_any s ps = None); [|by rewrite E].
  induction ps as [|p ps IH]; [done|]. cbn [forallb cut_any] in *.
  apply andb_true_iff in Hp as [Hp Hps].
  assert (E : CutPrefix s p = None); [|rewrite E; by apply IH].
  destruct p as [|c p]; [done|]. destruct s as [|d s]; [done|]. cbn [CutPrefix string_forallb] in *.
  apply andb_true_iff in Hs as [Hd _]. destruct (Ascii.eqb_spec c d) as [->|]; [|done].
  simpl in Hp. by rewrite Hd in Hp.
Qed.

Lemma trim_both_id f ps s :
  forallb (outside f) ps && forallb (outside f) (map string_rev ps) = true →
  string_forallb f s = true → trim_both ps s = s.
Proof.
  intros [H1 H2]%andb_true_iff Hs. unfold trim_both. cbv zeta. rewrite (trim_left_id f _ ps s) by done.
  rewrite (trim_left_id f _ _ (string_rev s)) by (done || by rewrite string_rev_forallb). apply string_rev_involutive.
Qed.

Lemma replace_outside_allowed set k s :
  set "_"%char = true → string_forallb set (replace_outside set k s) = true.
Proof.
  intros Hu. revert k. induction s as [|c s IH]; intros k; [done|].
  cbn [replace_outside]. destruct k as [|k]; [|apply IH].
  destruct (set c) eqn:Hc; cbn [string_forallb]; rewrite ?Hc, ?Hu; apply IH.
Qed.

Lemma replace_outside_id set s :
  string_forallb set s = true → replace_outside set 0 s = s.
Proof.
  induction s as [|c s IH]; [done|]. cbn [replace_outside string_forallb].
  rewrite andb_true_iff. intros [-> Hs]. by rewrite IH.
Qed.

Lemma replace_outside_nonempty set s :
  s ≠ "" → replace_outside set 0 s ≠ "".
Proof.
  destruct s as [|c s]; [done|]. cbn [replace_outside]. by destruct (set c).
Qed.

(** ** Decimal numerals: what fmt's %d prints, strconv.Atoi reads back *)
Definition is_digit (c : ascii) : bool := in_range 48 57 c.

Lemma pretty_digit n : (n < 10)%N →
  is_digit (pretty_N_char n) = true ∧ digit_val (pretty_N_char n) = Some (Z.of_N n).
Proof.
  intros H. assert (n = 0 ∨ n = 1 ∨ n = 2 ∨ n = 3 ∨ n = 4 ∨ n = 5 ∨ n = 6 ∨ n = 7 ∨ n = 8 ∨ n = 9)%N
    as Hn by lia. by destruct_or! Hn; subst.
Qed.

Lemma pretty_N_go_digits n : ∀ s, string_forallb is_digit s = true →
  string_forallb is_digit (pretty_N_go n s) = true.
Proof.
  induction (N.lt_wf_0 n) as [n _ IH]. intros s Hs.
  destruct (decide (n = 0)%N) as [->|Hn]; [by rewrite pretty_N_go_0|].
  rewrite pretty_N_go_step by lia. apply IH; [apply N.div_lt; lia|].
  cbn [string_forallb]. rewrite Hs, andb_true_r. apply pretty_digit, N.mod_lt. lia.
Qed.

Lemma parse_pretty_N_go n : ∀ s,
  parse_digits 0 (pretty_N_go n s) = parse_digits (Z.of_N n) s.
Proof.
  induction (N.lt_wf_0 n) as [n _ IH]. intros s.
  destruct (decide (n = 0)%N) as [->|Hn]; [by rewrite pretty_N_go_0|].
  rewrite pretty_N_go_step by lia. rewrite IH by (apply N.div_lt; lia).
  cbn [parse_digits]. rewrite (proj2 (pretty_digit (n mod 10) ltac:(apply N.mod_lt; lia))).
  f_equal. rewrite N2Z.inj_div, N2Z.inj_mod. pose proof (Z.div_mod (Z.of_N n) 10). simpl in *. lia.
Qed.

Lemma pretty_pos_digits z : (0 < z)%Z → string_forallb is_digit (pretty z) = true.
Proof. intros Hz. destruct z as [|p|p]; [lia| |lia]. by apply pretty_N_go_digits. Qed.

Lemma digits_no_sign s : string_forallb is_digit s = true → s ≠ "" →
  Atoi s = match parse_digits 0 s with
           | Some v => if (- 2 ^ 63 <=? v)%Z && (v <? 2 ^ 63)%Z then Some v else None
           | None => None
           end.
Proof.
  intros Hd Hne. destruct s as [|c s]; [done|].
  unfold Atoi, parse_unsigned. rewrite !decide_False by done.
  destruct c as [[] [] [] [] [] [] [] []]; try done.
Qed.

Lemma Atoi_pretty z : (0 < z < 2 ^ 63)%Z → Atoi (pretty z) = Some z.
Proof.
  intros Hz. rewrite digits_no_sign.
  - assert (E : parse_digits 0 (pretty z) = Some z).
    { destruct z as [|p|p]; [lia| |lia]. etrans; [apply parse_pretty_N_go|done]. }
    rewrite E. rewrite (proj2 (Z.leb_le _ _)), (proj2 (Z.ltb_lt _ _)) by lia. done.
  - apply pretty_pos_digits. lia.
  - destruct z as [|p|p]; [lia| |lia]. intros E.
    pose proof (parse_pretty_N_go (N.pos p) "") as H. cbn [parse_digits] in H.
    change (pretty (Z.pos p)) with (pretty_N_go (N.pos p) "") in E. rewrite E in H. done.
Qed.

Example TrimSpace_ex : TrimSpace (bytes_str [32; 194; 160; 97; 32; 98; 226; 128; 131; 9]%Z) = "a b".
Proof. reflexivity. Qed.
Example path_Base_ex : map path_Base [""; "/"; "a/b/"; "../../etc/passwd"; ".."]
  = ["."; "/"; "b"; "passwd"; ".."].
Proof. reflexivity. Qed.
Example Atoi_ex : map Atoi ["12"; "-3"; "+7"; ""; "-"; "1x"; "9223372036854775808"; "-9223372036854775808"]
  = [Some 12; Some (-3); Some 7; None; None; None; None; Some (-9223372036854775808)]%Z.
Proof. reflexivity. Qed.
Example Split_ex : Split "a,,b" "," = ["a"; ""; "b"].
Proof. reflexivity. Qed.
