(* ===== verification/Json.v ===== *)
(** * encoding/json: reading

    The decoder the handlers use, on byte strings: the grammar of scanner.go
    ([parse_value]), the unescaping of string literals ([unquote]), and the
    rules of decode.go by which a value is stored into a Go variable: fields
    are found by exact and then by case-folded name, unknown fields are
    skipped, null leaves strings and structs alone and clears pointers and
    slices, a repeated field is decoded over its first value, and a value of
    the wrong kind anywhere is an error.  [Decode] is Decoder.Decode, which
    reads the first value of the body and ignores what follows it.  A parsed
    value keeps, for every element and member, the source text a
    json.RawMessage would get.  Nothing in this file models code of the
    repository itself. *)
From S2P Require Import Prelude GoLib.
Local Open Scope string_scope.

(** ** Values *)
#[warnings="-register-all"]
Inductive value :=
  | VNull
  | VBool (b : bool)
  | VNum (text : string)
  | VStr (s : string)
  | VArr (l : list (string * value))              (* source text, element *)
  | VObj (l : list (string * (string * value))).  (* key, source text, member *)

Definition quote : ascii := "034".
Definition backslash : ascii := "\".

(** ** Runes *)
Definition rune_bytes (r : Z) : string :=
  if (r <? 128)%Z then bytes_str [r]
  else if (r <? 2048)%Z then bytes_str [192 + r / 64; 128 + r mod 64]%Z
  else if (r <? 65536)%Z
  then bytes_str [224 + r / 4096; 128 + r / 64 mod 64; 128 + r mod 64]%Z
  else bytes_str [240 + r / 262144; 128 + r / 4096 mod 64; 128 + r / 64 mod 64;
                  128 + r mod 64]%Z.

(** utf8.RuneError *)
Definition RuneError : string := bytes_str [239; 191; 189]%Z.

Definition is_surrogate (r : Z) : bool := (55296 <=? r)%Z && (r <? 57344)%Z.

(** utf16.DecodeRune of two surrogate halves. *)
Definition utf16_pair (hi lo : Z) : option Z :=
  if (55296 <=? hi)%Z && (hi <? 56320)%Z && (56320 <=? lo)%Z && (lo <? 57344)%Z
  then Some ((hi - 55296) * 1024 + (lo - 56320) + 65536)%Z else None.

Definition hex_val (c : ascii) : option Z :=
  if in_range 48 57 c then Some (byte_val c - 48)%Z
  else if in_range 97 102 c then Some (byte_val c - 87)%Z
  else if in_range 65 70 c then Some (byte_val c - 55)%Z
  else None.

Definition hex4 (a b c d : ascii) : option Z :=
  a ← hex_val a; b ← hex_val b; c ← hex_val c; d ← hex_val d;
  Some (a * 4096 + b * 256 + c * 16 + d)%Z.

(** ** String literals *)

(** The byte a one-letter escape stands for. *)
Definition escape_byte (c : ascii) : option ascii :=
  if Ascii.eqb c "b" then Some "008"%char
  else if Ascii.eqb c "f" then Some "012"%char
  else if Ascii.eqb c "n" then Some "010"%char
  else if Ascii.eqb c "r" then Some "013"%char
  else if Ascii.eqb c "t" then Some "009"%char
  else if Ascii.eqb c backslash || Ascii.eqb c "/" || Ascii.eqb c quote then Some c
  else None.

Definition cons_fst (c : ascii) (r : option (string * string)) : option (string * string) :=
  match r with Some (a, b) => Some (String c a, b) | None => None end.

(** The text of a literal up to its closing quote, and what follows. *)
Fixpoint scan_string (s : string) : option (string * string) :=
  match s with
  | EmptyString => None
  | String c r =>
      if Ascii.eqb c quote then Some ("", r)
      else if Ascii.eqb c backslash then
        match r with
        | EmptyString => None
        | String e r1 =>
            match escape_byte e with
            | Some _ => cons_fst c (cons_fst e (scan_string r1))
            | None =>
                if Ascii.eqb e "u" then
                  match r1 with
                  | String h1 (String h2 (String h3 (String h4 r5))) =>
                      match hex4 h1 h2 h3 h4 with
                      | Some _ =>
                          cons_fst c (cons_fst e (cons_fst h1 (cons_fst h2
                            (cons_fst h3 (cons_fst h4 (scan_string r5))))))
                      | None => None
                      end
                  | _ => None
                  end
                else None
            end
        end
      else if (byte_val c <? 32)%Z then None
      else cons_fst c (scan_string r)
  end.

(** unquoteBytes: escapes are replaced, surrogate pairs joined, and everything
    that is not UTF-8 becomes U+FFFD.  [copy] bytes of the rune read last are
    still to be copied. *)
Fixpoint unquote (copy : nat) (s : string) : string :=
  match s with
  | EmptyString => ""
  | String c r =>
      match copy with
      | S k => String c (unquote k r)
      | O =>
          if Ascii.eqb c backslash then
            match r with
            | String e r1 =>
                match escape_byte e with
                | Some b => String b (unquote 0 r1)
                | None =>
                    match r1 with
                    | String h1 (String h2 (String h3 (String h4 r5))) =>
                        let rr := default 0%Z (hex4 h1 h2 h3 h4) in
                        if is_surrogate rr then
                          match r5 with
                          | String b (String u (String g1 (String g2 (String g3 (String g4 r11))))) =>
                              match (if Ascii.eqb b backslash && Ascii.eqb u "u"
                                     then lo ← hex4 g1 g2 g3 g4; utf16_pair rr lo else None) with
                              | Some x => rune_bytes x +:+ unquote 0 r11
                              | None => RuneError +:+ unquote 0 r5
                              end
                          | _ => RuneError +:+ unquote 0 r5
                          end
                        else rune_bytes rr +:+ unquote 0 r5
                    | _ => ""
                    end
                end
            | EmptyString => ""
            end
          else if (byte_val c <? 128)%Z then String c (unquote 0 r)
          else match rune_width s with
               | S (S k) => String c (unquote (S k) r)
               | _ => RuneError +:+ unquote 0 r
               end
      end
  end.

(** ** Numbers *)
Fixpoint span (p : ascii → bool) (s : string) : string * string :=
  match s with
  | String c r => if p c then let '(a, b) := span p r in (String c a, b) else ("", s)
  | EmptyString => ("", "")
  end.

(** One digit or more. *)
Definition digits1 (s : string) : option (string * string) :=
  let '(d, r) := span is_digit s in if decide (d = "") then None else Some (d, r).

Definition scan_int (s : string) : option (string * string) :=
  match s with
  | String c r => if Ascii.eqb c "0" then Some ("0", r) else digits1 s
  | EmptyString => None
  end.

Definition scan_frac (s : string) : option (string * string) :=
  match s with
  | String c r => if Ascii.eqb c "." then cons_fst c (digits1 r) else Some ("", s)
  | EmptyString => Some ("", s)
  end.

Definition scan_exp (s : string) : option (string * string) :=
  match s with
  | String c r =>
      if Ascii.eqb c "e" || Ascii.eqb c "E" then
        cons_fst c (match r with
                    | String g r' => if Ascii.eqb g "+" || Ascii.eqb g "-"
                                     then cons_fst g (digits1 r') else digits1 r
                    | EmptyString => None
                    end)
      else Some ("", s)
  | EmptyString => Some ("", s)
  end.

Definition scan_unsigned (s : string) : option (string * string) :=
  '(i, r1) ← scan_int s;
  '(f, r2) ← scan_frac r1;
  '(e, r3) ← scan_exp r2;
  Some (i +:+ f +:+ e, r3).

Definition scan_number (s : string) : option (string * string) :=
  match s with
  | String c r => if Ascii.eqb c "-" then cons_fst c (scan_unsigned r) else scan_unsigned s
  | EmptyString => None
  end.

(** ** The grammar *)
Definition is_ws (c : ascii) : bool :=
  Ascii.eqb c " " || Ascii.eqb c "009" || Ascii.eqb c "010" || Ascii.eqb c "013".

Fixpoint skip_ws (s : string) : string :=
  match s with
  | String c r => if is_ws c then skip_ws r else s
  | EmptyString => ""
  end.

(** The text of [s] that was read when [rest] is left. *)
Definition source_text (s rest : string) : string :=
  slice_to (String.length s - String.length rest) s.

Inductive presult (A : Type) :=
  | POk (a : A) (rest : string)
  | PBad            (* a syntax error, or the end of the input *)
  | PFuel.
Arguments POk {A}.
Arguments PBad {A}.
Arguments PFuel {A}.

Definition pmap {A B} (f : A → B) (r : presult A) : presult B :=
  match r with POk a rest => POk (f a) rest | PBad => PBad | PFuel => PFuel end.

Definition pscan {A} (f : string → A) (r : option (string * string)) : presult A :=
  match r with Some (a, rest) => POk (f a) rest | None => PBad end.

Definition pliteral (s lit : string) (v : value) : presult value :=
  match CutPrefix s lit with Some rest => POk v rest | None => PBad end.

Definition maxNestingDepth : N := 10000.

Fixpoint parse_value (fuel : nat) (depth : N) (s : string) : presult value :=
  match fuel with
  | O => PFuel
  | S f =>
      match s with
      | EmptyString => PBad
      | String c r =>
          if Ascii.eqb c "{" then
            if (maxNestingDepth <=? depth)%N then PBad
            else match skip_ws r with
                 | String c' r' =>
                     if Ascii.eqb c' "}" then POk (VObj []) r'
                     else pmap VObj (parse_members f (depth + 1) (String c' r'))
                 | EmptyString => PBad
                 end
          else if Ascii.eqb c "[" then
            if (maxNestingDepth <=? depth)%N then PBad
            else match skip_ws r with
                 | String c' r' =>
                     if Ascii.eqb c' "]" then POk (VArr []) r'
                     else pmap VArr (parse_elems f (depth + 1) (String c' r'))
                 | EmptyString => PBad
                 end
          else if Ascii.eqb c quote then pscan (λ t, VStr (unquote 0 t)) (scan_string r)
          else if Ascii.eqb c "t" then pliteral s "true" (VBool true)
          else if Ascii.eqb c "f" then pliteral s "false" (VBool false)
          else if Ascii.eqb c "n" then pliteral s "null" VNull
          else if Ascii.eqb c "-" || is_digit c then pscan VNum (scan_number s)
          else PBad
      end
  end
with parse_elems (fuel : nat) (depth : N) (s : string) : presult (list (string * value)) :=
  match fuel with
  | O => PFuel
  | S f =>
      match parse_value f depth s with
      | POk v rest =>
          let item := (source_text s rest, v) in
          match skip_ws rest with
          | String c r =>
              if Ascii.eqb c "," then pmap (cons item) (parse_elems f depth (skip_ws r))
              else if Ascii.eqb c "]" then POk [item] r
              else PBad
          | EmptyString => PBad
          end
      | PBad => PBad
      | PFuel => PFuel
      end
  end
with parse_members (fuel : nat) (depth : N) (s : string) :
    presult (list (string * (string * value))) :=
  match fuel with
  | O => PFuel
  | S f =>
      match s with
      | String q s' =>
          if Ascii.eqb q quote then
            match scan_string s' with
            | None => PBad
            | Some (key, r1) =>
                match skip_ws r1 with
                | String c r2 =>
                    if Ascii.eqb c ":" then
                      let start := skip_ws r2 in
                      match parse_value f depth start with
                      | POk v rest =>
                          let item := (unquote 0 key, (source_text start rest, v)) in
                          match skip_ws rest with
                          | String c r =>
                              if Ascii.eqb c ","
                              then pmap (cons item) (parse_members f depth (skip_ws r))
                              else if Ascii.eqb c "}" then POk [item] r
                              else PBad
                          | EmptyString => PBad
                          end
                      | PBad => PBad
                      | PFuel => PFuel
                      end
                    else PBad
                | EmptyString => PBad
                end
            end
          else PBad
      | EmptyString => PBad
      end
  end.

(** Every call but the one from an array or object to its first element reads a
    byte first, hence two rounds per byte. *)
Definition enough (s : string) : nat := 2 * String.length s + 2.

(** Decoder.Decode's first value: the whole body after it is ignored. *)
Definition first_value (body : string) : option value :=
  let s := skip_ws body in
  match parse_value (enough s) 0 s with POk v _ => Some v | _ => None end.

(** json.Unmarshal's: nothing but white space may follow. *)
Definition whole_value (text : string) : option value :=
  let s := skip_ws text in
  match parse_value (enough s) 0 s with
  | POk v rest => if decide (skip_ws rest = "") then Some v else None
  | _ => None
  end.

(** ** Storing a value: decode.go

    A decoder takes what the variable holds, the source text of the value and
    the value, and gives what the variable holds afterwards.  [None] is any
    error: Decode goes on after a value of the wrong kind, but returns it. *)
Definition decoder (A : Type) : Type := A → string → value → option A.

(** A string: null leaves it alone. *)
Definition dec_string : decoder string := λ old _ v,
  match v with VNull => Some old | VStr s => Some s | _ => None end.

(** An *int: a number must be an integer in decimal digits that fits. *)
Definition dec_int_ptr : decoder (option Z) := λ _ _ v,
  match v with
  | VNull => Some None
  | VNum t => n ← Atoi t; Some (Some n)
  | _ => None
  end.

(** A json.RawMessage takes the text as it is, null included. *)
Definition dec_raw : decoder string := λ _ raw _, Some raw.

(** The name foldName looks a field up by, for names in ASCII: letters in upper
    case, and the two other runes whose fold is an ASCII letter, U+017F and
    U+212A. *)
Definition ascii_upper (c : ascii) : ascii :=
  if in_range 97 122 c then ascii_of_N (N_of_ascii c - 32) else c.

Definition long_s : string := bytes_str [197; 191]%Z.
Definition kelvin_sign : string := bytes_str [226; 132; 170]%Z.

Fixpoint fold_name (skip : nat) (s : string) : string :=
  match s with
  | EmptyString => ""
  | String c r =>
      match skip with
      | S k => fold_name k r
      | O => if HasPrefix s long_s then String "S" (fold_name 1 r)
             else if HasPrefix s kelvin_sign then String "K" (fold_name 2 r)
             else String (ascii_upper c) (fold_name 0 r)
      end
  end.
Definition foldName : string → string := fold_name 0.

(** A struct: the fields with their JSON names, each with the decoder that
    stores into it.  Members are stored in order, a repeated one over the value
    of the first. *)
Definition lookup_field {A} (fields : list (string * decoder A)) (key : string) :
    option (decoder A) :=
  match List.filter (λ f, String.eqb f.1 key) fields with
  | f :: _ => Some f.2
  | [] => match List.filter (λ f, String.eqb (foldName f.1) (foldName key)) fields with
          | f :: _ => Some f.2
          | [] => None
          end
  end.

Fixpoint store_members {A} (fields : list (string * decoder A)) (old : A)
    (l : list (string * (string * value))) : option A :=
  match l with
  | [] => Some old
  | (key, (raw, v)) :: r =>
      match lookup_field fields key with
      | None => store_members fields old r
      | Some dec => new ← dec old raw v; store_members fields new r
      end
  end.

Definition dec_struct {A} (fields : list (string * decoder A)) : decoder A := λ old _ v,
  match v with
  | VNull => Some old
  | VObj l => store_members fields old l
  | _ => None
  end.

(** Decodes into a part of the variable. *)
Definition dec_field {A B} (get : A → B) (set : B → A → A) (dec : decoder B) : decoder A :=
  λ old raw v, new ← dec (get old) raw v; Some (set new old).

(** A slice: the elements of its array that were ever written, and its length.
    An array is decoded over the old elements, one by one, also over those
    past the length; an empty one makes a new slice, null the nil one. *)
Record gslice (A : Type) := mkSlice { backing : list A; len : nat }.
Arguments mkSlice {A}.
Arguments backing {A}.
Arguments len {A}.

Definition nil_slice {A} : gslice A := mkSlice [] 0.
Definition slice_elems {A} (x : gslice A) : list A := take (len x) (backing x).

Fixpoint store_elems {A} (zero : A) (dec : decoder A) (old : list A)
    (l : list (string * value)) : option (list A) :=
  match l with
  | [] => Some old
  | (raw, v) :: r =>
      new ← dec (default zero (head old)) raw v;
      rest ← store_elems zero dec (tail old) r;
      Some (new :: rest)
  end.

Definition dec_slice {A} (zero : A) (dec : decoder A) : decoder (gslice A) := λ old _ v,
  match v with
  | VNull => Some nil_slice
  | VArr [] => Some nil_slice
  | VArr l => b ← store_elems zero dec (backing old) l; Some (mkSlice b (length l))
  | _ => None
  end.

(** json.NewDecoder(body).Decode(&x), for an [x] that holds [zero]. *)
Definition Decode {A} (dec : decoder A) (zero : A) (body : string) : option A :=
  v ← first_value body; dec zero "" v.

(** ** Reading terminates: [enough] fuel is enough *)
Local Open Scope nat_scope.

Lemma length_cons c s : String.length (String c s) = S (String.length s).
Proof. done. Qed.

Lemma string_length_app s t :
  String.length (s +:+ t) = String.length s + String.length t.
Proof.
  induction s as [|c s IH]; [done|]. rewrite string_app_cons. simpl. by rewrite IH.
Qed.

Lemma skip_ws_length s : String.length (skip_ws s) ≤ String.length s.
Proof. induction s as [|c s IH]; [done|]. cbn [skip_ws]. case_match; simpl; lia. Qed.

(** [r] leaves less of [s]. *)
Definition shorter {A} (s : string) (r : option (A * string)) : Prop :=
  match r with Some (_, rest) => String.length rest < String.length s | None => True end.

Lemma shorter_cons_fst c d s r : shorter s r → shorter (String d s) (cons_fst c r).
Proof. destruct r as [[a b]|]; simpl; [lia|done]. Qed.

Lemma shorter_weaken {A} c s (r : option (A * string)) : shorter s r → shorter (String c s) r.
Proof. destruct r as [[a b]|]; simpl; [lia|done]. Qed.

Lemma scan_string_shorter s : shorter s (scan_string s).
Proof.
  remember (String.length s) as n eqn:En. revert s En.
  induction (lt_wf n) as [n _ IH]. intros [|c s] ->; [done|]. cbn [scan_string].
  destruct (Ascii.eqb c quote); [simpl; lia|].
  assert (Hrec : ∀ t, String.length t ≤ String.length s → shorter t (scan_string t)).
  { intros t Ht. apply (IH (String.length t)); [simpl; lia|done]. }
  destruct (Ascii.eqb c backslash).
  - destruct s as [|e r1]; [done|]. destruct (escape_byte e).
    + do 2 apply shorter_cons_fst. apply Hrec. simpl. lia.
    + destruct (Ascii.eqb e "u"); [|done].
      destruct r1 as [|h1 [|h2 [|h3 [|h4 r5]]]]; try done.
      destruct (hex4 _ _ _ _); [|done].
      do 6 apply shorter_cons_fst. apply Hrec. simpl. lia.
  - destruct (_ <? _)%Z; [done|]. apply shorter_cons_fst. by apply Hrec.
Qed.

Lemma span_length p s : String.length (span p s).2 ≤ String.length s.
Proof.
  induction s as [|c s IH]; [done|]. cbn [span]. destruct (p c); [|done].
  destruct (span p s) as [a b]. simpl in *. lia.
Qed.

Lemma digits1_shorter s : shorter s (digits1 s).
Proof.
  unfold digits1. destruct s as [|c s]; [done|]. cbn [span].
  pose proof (span_length is_digit s). destruct (is_digit c); [|done].
  destruct (span is_digit s) as [d r]. simpl in *. lia.
Qed.

(** [r] leaves no more than [s]. *)
Definition no_longer {A} (s : string) (r : option (A * string)) : Prop :=
  match r with Some (_, rest) => String.length rest ≤ String.length s | None => True end.

Lemma shorter_no_longer {A} c s (r : option (A * string)) :
  shorter s r → no_longer (String c s) r.
Proof. destruct r as [[a b]|]; simpl; [lia|done]. Qed.

Lemma scan_frac_length s : no_longer s (scan_frac s).
Proof.
  destruct s as [|c s]; [simpl; lia|]. cbn [scan_frac]. destruct (Ascii.eqb c "."); [|simpl; lia].
  apply shorter_no_longer. pose proof (digits1_shorter s).
  by destruct (digits1 s) as [[]|].
Qed.

Lemma scan_exp_length s : no_longer s (scan_exp s).
Proof.
  destruct s as [|c s]; [simpl; lia|]. cbn [scan_exp]. destruct (_ || _); [|simpl; lia].
  apply shorter_no_longer. destruct s as [|g s]; [done|].
  destruct (Ascii.eqb g "+" || Ascii.eqb g "-").
  - pose proof (digits1_shorter s). destruct (digits1 s) as [[]|]; simpl in *; [lia|done].
  - pose proof (digits1_shorter (String g s)). by destruct (digits1 _) as [[]|].
Qed.

Lemma scan_unsigned_shorter s : shorter s (scan_unsigned s).
Proof.
  unfold scan_unsigned.
  assert (H : shorter s (scan_int s)).
  { destruct s as [|c s]; [done|]. cbn [scan_int].
    destruct (Ascii.eqb c "0"); [simpl; lia|apply digits1_shorter]. }
  destruct (scan_int s) as [[i r1]|]; [|done]. cbn [mbind option_bind].
  pose proof (scan_frac_length r1) as H2.
  destruct (scan_frac r1) as [[f r2]|]; [|done]. cbn [mbind option_bind].
  pose proof (scan_exp_length r2) as H3.
  destruct (scan_exp r2) as [[e r3]|]; [|done]. simpl in *. lia.
Qed.

Lemma scan_number_shorter s : shorter s (scan_number s).
Proof.
  destruct s as [|c s]; [done|]. cbn [scan_number]. destruct (Ascii.eqb c "-").
  - apply shorter_cons_fst, scan_unsigned_shorter.
  - apply scan_unsigned_shorter.
Qed.

(** A result that read something, and did not run out of fuel. *)
Definition progress {A} (s : string) (r : presult A) : Prop :=
  match r with
  | POk _ rest => String.length rest < String.length s
  | PBad => True
  | PFuel => False
  end.

Lemma progress_pscan {A} (f : string → A) s r : shorter s r → progress s (pscan f r).
Proof. by destruct r as [[a b]|]. Qed.

Lemma progress_pmap {A B} (f : A → B) s t r :
  String.length t ≤ String.length s → progress t r → progress s (pmap f r).
Proof. destruct r; simpl; [lia|done|done]. Qed.

Lemma progress_literal s lit v : lit ≠ "" → progress s (pliteral s lit v).
Proof.
  intros Hne. unfold pliteral. destruct (CutPrefix s lit) as [rest|] eqn:E; [|done].
  apply CutPrefix_Some in E as ->. destruct lit as [|c lit]; [done|].
  cbn [progress]. rewrite string_length_app. simpl. lia.
Qed.

Lemma parse_progress fuel :
  (∀ d s, 2 * String.length s + 1 ≤ fuel → progress s (parse_value fuel d s)) ∧
  (∀ d s, 2 * String.length s + 2 ≤ fuel → progress s (parse_elems fuel d s)) ∧
  (∀ d s, 2 * String.length s + 2 ≤ fuel → progress s (parse_members fuel d s)).
Proof.
  induction fuel as [|f (IHv & IHe & IHm)]; [by split_and!; intros; lia|]. split_and!.
  - intros d [|c r] Hf; [done|]. cbn [parse_value]. simpl in Hf.
    pose proof (skip_ws_length r) as Hw.
    destruct (Ascii.eqb c "{").
    { destruct (_ <=? _)%N; [done|]. destruct (skip_ws r) as [|c' r'] eqn:E; [done|].
      destruct (Ascii.eqb c' "}"); [simpl in *; lia|].
      eapply progress_pmap; [|apply IHm]; simpl in *; lia. }
    destruct (Ascii.eqb c "[").
    { destruct (_ <=? _)%N; [done|]. destruct (skip_ws r) as [|c' r'] eqn:E; [done|].
      destruct (Ascii.eqb c' "]"); [simpl in *; lia|].
      eapply progress_pmap; [|apply IHe]; simpl in *; lia. }
    destruct (Ascii.eqb c quote).
    { apply progress_pscan, shorter_weaken, scan_string_shorter. }
    repeat (case_match; [by apply progress_literal|]).
    case_match; [|done]. apply progress_pscan, scan_number_shorter.
  - intros d s Hf. cbn [parse_elems].
    pose proof (IHv d s ltac:(lia)) as Hv. destruct (parse_value f d s) as [v rest| |]; [|done..].
    pose proof (skip_ws_length rest) as Hw. cbn [progress] in Hv.
    destruct (skip_ws rest) as [|c r]; [done|]. simpl in Hw.
    destruct (Ascii.eqb c ","); [|case_match; simpl; [lia|done]].
    pose proof (skip_ws_length r). eapply progress_pmap; [|apply IHe]; lia.
  - intros d [|q s] Hf; [done|]. cbn [parse_members]. simpl in Hf.
    destruct (Ascii.eqb q quote); [|done].
    pose proof (scan_string_shorter s) as Hs.
    destruct (scan_string s) as [[key r1]|]; [|done]. cbn [shorter] in Hs.
    pose proof (skip_ws_length r1) as Hw. destruct (skip_ws r1) as [|c r2]; [done|].
    simpl in Hw. destruct (Ascii.eqb c ":"); [|done]. cbv zeta.
    pose proof (skip_ws_length r2) as Hw2.
    pose proof (IHv d (skip_ws r2) ltac:(lia)) as Hv.
    destruct (parse_value f d (skip_ws r2)) as [v rest| |]; [|done..].
    cbn [progress] in Hv. pose proof (skip_ws_length rest) as Hw3.
    destruct (skip_ws rest) as [|c' r]; [done|]. simpl in Hw3.
    destruct (Ascii.eqb c' ","); [|case_match; simpl; [lia|done]].
    pose proof (skip_ws_length r). eapply progress_pmap; [|apply IHm]; simpl; lia.
Qed.

Lemma parse_enough d s : parse_value (enough s) d s ≠ PFuel.
Proof.
  destruct (parse_progress (enough s)) as [H _]. specialize (H d s). unfold enough in *.
  intros E. rewrite E in H. apply H. lia.
Qed.
