(* ===== verification/JsonText.v ===== *)
(** * encoding/json: writing, and reading into an [any]

    The values the handlers answer with ([json]) and the bytes Encoder.Encode
    writes for them, with the members of maps in the order of their keys and
    HTML-escaped strings; strconv's float64 conversions, which decide what a
    number of a document decoded into an [any] is written back as; and fmt's %q,
    which needs Unicode's table of printable characters as a parameter.  Nothing
    in this file models code of the repository itself. *)
From S2P Require Import Prelude GoLib Json.
Local Open Scope string_scope.

(** A finite float64: its sign, and [m * 2^e] with [m < 2^53], [-1074 <= e]. *)
Record float64 := mkFloat { f_neg : bool; f_m : N; f_e : Z }.

(** ** Values to be written

    [JObj] is a map, whose members the encoder sorts; [JStruct] is a struct, in
    the order of its fields. *)
#[warnings="-register-all"]
Inductive json :=
  | JNull
  | JBool (b : bool)
  | JInt (z : Z)
  | JFloat (f : float64)
  | JStr (s : string)
  | JArr (l : list json)
  | JObj (l : list (string * json))
  | JStruct (l : list (string * json)).

(** ** float64 *)

(** Round to nearest, ties to even: [n / d] in units of [2^e]. *)
Definition div_even (n d : Z) : Z :=
  let q := (n / d)%Z in let r := (n mod d)%Z in
  if (2 * r <? d)%Z then q
  else if (d <? 2 * r)%Z then (q + 1)%Z
  else if Z.even q then q else (q + 1)%Z.

Definition scaled (n d e : Z) : Z * Z :=
  if (0 <=? e)%Z then (n, d * 2 ^ e)%Z else (n * 2 ^ (- e), d)%Z.

(** The exponent of the last bit of [n / d]: 53 bits, but not below -1074. *)
Definition float_exp (n d : Z) : Z :=
  let e := (Z.log2 n - Z.log2 d - 53)%Z in
  let '(a, b) := scaled n d e in
  let e := if (2 ^ 53 <=? a / b)%Z then (e + 1)%Z else e in
  Z.max e (-1074).

(** The float nearest to [n / d] (both positive); [None] when it is too large. *)
Definition round_ratio (n d : Z) : option (Z * Z) :=
  let e := float_exp n d in
  let '(a, b) := scaled n d e in
  let m := div_even a b in
  let '(m, e) := if (2 ^ 53 <=? m)%Z then (2 ^ 52, e + 1)%Z else (m, e) in
  if (971 <? e)%Z then None else Some (m, e).

(** A JSON number [-]i[.f][e[+-]x] as sign, digits and decimal exponent. *)
Definition decimal_parts (text : string) : bool * string * Z :=
  let '(neg, s) := match CutPrefix text "-" with Some r => (true, r) | None => (false, text) end in
  let '(i, r1) := span is_digit s in
  let '(f, r2) := match CutPrefix r1 "." with Some r => span is_digit r | None => ("", r1) end in
  let x := match r2 with
           | String _ r =>
               let '(neg_x, d) := match r with
                                  | String "-" d => (true, d)
                                  | String "+" d => (false, d)
                                  | _ => (false, r)
                                  end in
               let v := default 0%Z (parse_unsigned d) in if neg_x then (- v)%Z else v
           | EmptyString => 0%Z
           end in
  (neg, i +:+ f, (x - Z.of_nat (String.length f))%Z).

Fixpoint strip_zeros (s : string) : string :=
  match s with
  | String "0" r => strip_zeros r
  | _ => s
  end.

(** strconv.ParseFloat(text, 64): [None] is a range error.  A number of [k]
    digits and exponent [x] is below 10^(k+x), and not below 10^(k+x-1). *)
Definition ParseFloat (text : string) : option float64 :=
  let '(neg, ds, x) := decimal_parts text in
  let ds := strip_zeros ds in
  let size := (Z.of_nat (String.length ds) + x)%Z in
  let n := default 0%Z (parse_unsigned ds) in
  if (n =? 0)%Z || (size <? -330)%Z then Some (mkFloat neg 0 (-1074))
  else if (310 <? size)%Z then None
  else
    '(m, e) ← (if (0 <=? x)%Z then round_ratio (n * 10 ^ x) 1 else round_ratio n (10 ^ (- x)));
    Some (mkFloat neg (Z.to_N m) e).

(** The shortest decimal that reads back as [m * 2^e]: with [k] digits there is
    one just below and one just above the value, and the nearer of those that
    read back is taken, for the least [k] that has one; 17 digits always do. *)
Definition ratio_of (m e : Z) : Z * Z :=
  if (0 <=? e)%Z then (m * 2 ^ e, 1)%Z else (m, 2 ^ (- e))%Z.

Definition decimal_ratio (dig x : Z) : Z * Z :=
  if (0 <=? x)%Z then (dig * 10 ^ x, 1)%Z else (dig, 10 ^ (- x))%Z.

Definition reads_back (m e dig x : Z) : bool :=
  let '(n, d) := decimal_ratio dig x in
  match round_ratio n d with
  | Some (m', e') =>
      let '(a, b) := ratio_of m e in let '(a', b') := ratio_of m' e' in (a * b' =? a' * b)%Z
  | None => false
  end.

(** [p] such that [10^(p-1) <= n / d < 10^p], from an estimate that is at most
    two too small. *)
Fixpoint decimal_size (fuel : nat) (p n d : Z) : Z :=
  match fuel with
  | O => p
  | S f => let '(a, b) := decimal_ratio 1 p in
           if (a * d <=? n * b)%Z then decimal_size f (p + 1) n d else p
  end.

Fixpoint shortest (fuel : nat) (k p m e : Z) : Z * Z :=
  let '(n, d) := ratio_of m e in
  let x := (p - k)%Z in
  let '(a, b) := decimal_ratio 1 x in
  let lo := (n * b / (d * a))%Z in
  let hi := (lo + 1)%Z in
  match fuel with
  | O => (hi, x)
  | S f =>
      match reads_back m e lo x, reads_back m e hi x with
      | true, true => if (2 * (n * b - lo * (d * a)) <=? d * a)%Z then (lo, x) else (hi, x)
      | true, false => (lo, x)
      | false, true => (hi, x)
      | false, false => shortest f (k + 1) p m e
      end
  end.

Fixpoint zeros (n : nat) : string :=
  match n with O => "" | S k => String "0" (zeros k) end.

(** floatEncoder: the digits [ds] with the point after [point] of them, in
    exponent form below 1e-6 and from 1e21 on. *)
Definition float_digits (ds : string) (point : Z) : string :=
  let nd := Z.of_nat (String.length ds) in
  let x := (point - 1)%Z in
  if (x <? -6)%Z || (21 <=? x)%Z then
    let sign := if (x <? 0)%Z then "-" else "+" in
    slice_to 1 ds +:+ (if (1 <? nd)%Z then "." +:+ slice_from 1 ds else "")
    +:+ "e" +:+ sign +:+ pretty (Z.abs x)
  else if (point <=? 0)%Z then "0." +:+ zeros (Z.to_nat (- point)) +:+ ds
  else if (nd <=? point)%Z then ds +:+ zeros (Z.to_nat (point - nd))
  else slice_to (Z.to_nat point) ds +:+ "." +:+ slice_from (Z.to_nat point) ds.

(** Without the zeros at the end. *)
Fixpoint drop_zeros (s : string) : string :=
  match s with
  | EmptyString => ""
  | String c r =>
      let r' := drop_zeros r in
      if Ascii.eqb c "0" && String.eqb r' "" then "" else String c r'
  end.

Definition float_text (f : float64) : string :=
  let sign := if f_neg f then "-" else "" in
  let m := Z.of_N (f_m f) in
  if (m =? 0)%Z then sign +:+ "0"
  else
    let '(n, d) := ratio_of m (f_e f) in
    let guess := ((Z.log2 n - Z.log2 d - 1) * 30103 / 100000)%Z in
    let p := decimal_size 4 guess n d in
    let '(dig, x) := shortest 17 1 p m (f_e f) in
    let all := pretty dig in
    let point := (Z.of_nat (String.length all) + x)%Z in
    sign +:+ float_digits (drop_zeros all) point.

(** ** Reading into an [any] or a dict

    [num] is what becomes of a number; an object is a map in which the last of
    repeated members stays. *)
Fixpoint set_member (k : string) (x : json) (l : list (string * json)) : list (string * json) :=
  match l with
  | [] => [(k, x)]
  | (k', x') :: r => if String.eqb k' k then (k, x) :: r else (k', x') :: set_member k x r
  end.

Fixpoint read_value (num : string → json) (v : value) : json :=
  match v with
  | VNull => JNull
  | VBool b => JBool b
  | VNum t => num t
  | VStr s => JStr s
  | VArr l => JArr (map (λ x, read_value num x.2) l)
  | VObj l => JObj (fold_left (λ acc m, set_member m.1 m.2 acc)
                      (map (λ m, (m.1, read_value num m.2.2)) l) [])
  end.

(** json.Unmarshal: a number becomes a float64 (null when there is none, the
    error being ignored). *)
Definition any_of : value → json :=
  read_value (λ t, match ParseFloat t with Some f => JFloat f | None => JNull end).

(** [var x any; _ = json.Unmarshal(text, &x)]. *)
Definition json_Unmarshal (text : string) : json :=
  match whole_value text with Some v => any_of v | None => JNull end.

(** ** Strings *)
Definition hex_digit (n : Z) : ascii :=
  ascii_of_N (Z.to_N (if (n <? 10)%Z then 48 + n else 87 + n)).

Definition hex2 (n : Z) : string := String (hex_digit (n / 16)) (String (hex_digit (n mod 16)) "").

(** appendString with HTML escaping: a byte below 0x80. *)
Definition escape_ascii (c : ascii) : string :=
  if Ascii.eqb c quote then String backslash (String quote "")
  else if Ascii.eqb c backslash then String backslash (String backslash "")
  else if Ascii.eqb c "008" then "\b"
  else if Ascii.eqb c "012" then "\f"
  else if Ascii.eqb c "010" then "\n"
  else if Ascii.eqb c "013" then "\r"
  else if Ascii.eqb c "009" then "\t"
  else if (byte_val c <? 32)%Z || Ascii.eqb c "<" || Ascii.eqb c ">" || Ascii.eqb c "&"
  then "\u00" +:+ hex2 (byte_val c)
  else String c "".

Definition line_sep : string := bytes_str [226; 128; 168]%Z.
Definition paragraph_sep : string := bytes_str [226; 128; 169]%Z.

(** [skip] bytes of the rune written last are still in [s]. *)
Fixpoint escape (skip : nat) (s : string) : string :=
  match s with
  | EmptyString => ""
  | String c r =>
      match skip with
      | S k => escape k r
      | O =>
          if (byte_val c <? 128)%Z then escape_ascii c +:+ escape 0 r
          else match rune_width s with
               | S (S k) =>
                   (if HasPrefix s line_sep then "\u2028"
                    else if HasPrefix s paragraph_sep then "\u2029"
                    else slice_to (S (S k)) s) +:+ escape (S k) r
               | _ => "\ufffd" +:+ escape 0 r
               end
      end
  end.

(** ** Dialects

    What encoders of the same value may differ in: how a string is escaped, the
    white space after a comma or a colon, and how a number that is not an integer
    is written. *)
Record dialect := mkDialect {
  d_escape : string → string;
  d_space : string;
  d_float : float64 → string;
}.

(** encoding/json's. *)
Definition go_json : dialect := mkDialect (escape 0) "" float_text.

(** ** Documents *)
Definition key_le (a b : string * json) : bool :=
  match String.compare a.1 b.1 with Gt => false | _ => true end.

Fixpoint insert_member (m : string * json) (l : list (string * json)) : list (string * json) :=
  match l with
  | [] => [m]
  | x :: r => if key_le m x then m :: l else x :: insert_member m r
  end.
Definition sort_members (l : list (string * json)) : list (string * json) :=
  fold_right insert_member [] l.

Section writer.
Context (D : dialect).

Definition quoted (s : string) : string := String quote (d_escape D s +:+ String quote "").

Fixpoint sep (l : list string) : string :=
  match l with
  | [] => ""
  | [x] => x
  | x :: r => x +:+ String "," (d_space D +:+ sep r)
  end.

Definition member_text (m : string * string) : string :=
  quoted m.1 +:+ String ":" (d_space D +:+ m.2).
Definition array_text (l : list string) : string := "[" +:+ sep l +:+ "]".
Definition object_text (l : list (string * string)) : string :=
  "{" +:+ sep (map member_text l) +:+ "}".

Fixpoint write (v : json) : string :=
  match v with
  | JNull => "null"
  | JBool b => if b then "true" else "false"
  | JInt z => pretty z
  | JFloat f => d_float D f
  | JStr s => quoted s
  | JArr l => array_text (map write l)
  | JObj l | JStruct l => object_text (map (λ m, (m.1, write m.2)) l)
  end.
End writer.

(** Maps become structs whose fields are in the order of the keys. *)
Fixpoint normalise (v : json) : json :=
  match v with
  | JArr l => JArr (map normalise l)
  | JObj l => JStruct (sort_members (map (λ m, (m.1, normalise m.2)) l))
  | JStruct l => JStruct (map (λ m, (m.1, normalise m.2)) l)
  | _ => v
  end.

(** json.NewEncoder(w).Encode(v) *)
Definition Encode (v : json) : string := write go_json (normalise v) +:+ String "010" "".

(** ** fmt's %q: strconv.Quote *)

(** [unicode.IsPrint] of the code points from U+0080 on. *)
Class UnicodeLib := IsPrint : Z → bool.

(** The code point of a valid encoding of [n] bytes. *)
Definition rune_value (n : nat) (s : string) : Z :=
  match n, s with
  | 2, String a (String b _) => (byte_val a mod 32 * 64 + byte_val b mod 64)%Z
  | 3, String a (String b (String c _)) =>
      (byte_val a mod 16 * 4096 + byte_val b mod 64 * 64 + byte_val c mod 64)%Z
  | 4, String a (String b (String c (String d _))) =>
      (byte_val a mod 8 * 262144 + byte_val b mod 64 * 4096 + byte_val c mod 64 * 64
       + byte_val d mod 64)%Z
  | _, _ => 65533%Z
  end.

Definition hex4_text (r : Z) : string := hex2 (r / 256) +:+ hex2 (r mod 256).

Section quote.
Context {UL : UnicodeLib}.

Definition quote_ascii (c : ascii) : string :=
  if Ascii.eqb c quote || Ascii.eqb c backslash then String backslash (String c "")
  else if (32 <=? byte_val c)%Z && (byte_val c <? 127)%Z then String c ""
  else if Ascii.eqb c "007" then "\a"
  else if Ascii.eqb c "008" then "\b"
  else if Ascii.eqb c "012" then "\f"
  else if Ascii.eqb c "010" then "\n"
  else if Ascii.eqb c "013" then "\r"
  else if Ascii.eqb c "009" then "\t"
  else if Ascii.eqb c "011" then "\v"
  else "\x" +:+ hex2 (byte_val c).

Fixpoint quote_runes (skip : nat) (s : string) : string :=
  match s with
  | EmptyString => ""
  | String c r =>
      match skip with
      | S k => quote_runes k r
      | O =>
          if (byte_val c <? 128)%Z then quote_ascii c +:+ quote_runes 0 r
          else match rune_width s with
               | S (S k) =>
                   let x := rune_value (S (S k)) s in
                   (if IsPrint x then slice_to (S (S k)) s
                    else if (x <? 65536)%Z then "\u" +:+ hex4_text x
                    else "\U" +:+ hex4_text (x / 65536) +:+ hex4_text (x mod 65536))
                   +:+ quote_runes (S k) r
               | _ => "\x" +:+ hex2 (byte_val c) +:+ quote_runes 0 r
               end
      end
  end.

Definition Quote (s : string) : string := String quote (quote_runes 0 s +:+ String quote "").
End quote.

(** ** Examples *)
Example float_ex : map (λ t, float_text <$> ParseFloat t)
    ["1.0"; "0.1"; "100"; "9007199254740993"; "1e21"; "123456789012345680000"; "0.000001";
     "1e-7"; "5E-324"; "1e309"; "-0.0"; "0.30000000000000004"; "1e-400"; "-12.50"; "1e23";
     "33.33333333333333333333"] =
  [Some "1"; Some "0.1"; Some "100"; Some "9007199254740992"; Some "1e+21";
   Some "123456789012345680000"; Some "0.000001"; Some "1e-7"; Some "5e-324";
   None; Some "-0"; Some "0.30000000000000004"; Some "0"; Some "-12.5"; Some "1e+23";
   Some "33.333333333333336"].
Proof. vm_compute. reflexivity. Qed.
