(* ===== verification/JsonSpec.v ===== *)
(** * What Encode writes, a JSON reader reads back

    The encoder's output for any value is one document of the grammar of
    Json.v, and stands for that value: strings that are not UTF-8 come back with
    U+FFFD for the invalid bytes, numbers as their text.  Proved for every
    [dialect] whose parts are read back ([dialect_ok]), relative to the text that
    follows a value, by induction on the value. *)
From S2P Require Import Prelude GoLib Json JsonText.
Local Open Scope string_scope.
Local Open Scope nat_scope.

(** A string as a reader gets it. *)
Fixpoint clean (skip : nat) (s : string) : string :=
  match s with
  | EmptyString => ""
  | String c r =>
      match skip with
      | S k => String c (clean k r)
      | O =>
          if (byte_val c <? 128)%Z then String c (clean 0 r)
          else match rune_width s with
               | S (S k) => String c (clean (S k) r)
               | _ => RuneError +:+ clean 0 r
               end
      end
  end.

(** utf8.ValidString *)
Definition ValidString (s : string) : bool := String.eqb (clean 0 s) s.

(** What a reader gets for a value. *)
Fixpoint value_of (D : dialect) (v : json) : value :=
  match v with
  | JNull => VNull
  | JBool b => VBool b
  | JInt z => VNum (pretty z)
  | JFloat f => VNum (d_float D f)
  | JStr s => VStr (clean 0 s)
  | JArr l => VArr (map (λ x, (write D x, value_of D x)) l)
  | JObj l | JStruct l => VObj (map (λ m, (clean 0 m.1, (write D m.2, value_of D m.2))) l)
  end.

(** How deep arrays and objects are nested. *)
Fixpoint nesting (v : json) : N :=
  match v with
  | JArr l => (1 + foldr N.max 0 (map nesting l))%N
  | JObj l | JStruct l => (1 + foldr N.max 0 (map (λ m, nesting m.2) l))%N
  | _ => 0%N
  end.

Section json_ind'.
Context (P : json → Prop).
Context (Hnull : P JNull) (Hbool : ∀ b, P (JBool b)) (Hint : ∀ z, P (JInt z)).
Context (Hfloat : ∀ f, P (JFloat f)) (Hstr : ∀ s, P (JStr s)).
Context (Harr : ∀ l, Forall P l → P (JArr l)).
Context (Hobj : ∀ l, Forall (λ m, P m.2) l → P (JObj l)).
Context (Hstruct : ∀ l, Forall (λ m, P m.2) l → P (JStruct l)).

Fixpoint json_ind' (v : json) : P v :=
  let members := fix go l : Forall (λ m, P m.2) l :=
    match l with
    | [] => Forall_nil_2 _
    | m :: l' => Forall_cons_2 _ m l' (json_ind' m.2) (go l')
    end in
  match v with
  | JNull => Hnull
  | JBool b => Hbool b
  | JInt z => Hint z
  | JFloat f => Hfloat f
  | JStr s => Hstr s
  | JArr l => Harr l ((fix go l : Forall P l :=
      match l with
      | [] => Forall_nil_2 _
      | x :: l' => Forall_cons_2 _ x l' (json_ind' x) (go l')
      end) l)
  | JObj l => Hobj l (members l)
  | JStruct l => Hstruct l (members l)
  end.
End json_ind'.

(** ** Strings *)
Definition prefix_fst (p : string) (r : option (string * string)) : option (string * string) :=
  match r with Some (a, b) => Some (p +:+ a, b) | None => None end.

Lemma hex_val_digit n : (0 <= n < 16)%Z → hex_val (hex_digit n) = Some n.
Proof.
  intros H.
  assert (n = 0 ∨ n = 1 ∨ n = 2 ∨ n = 3 ∨ n = 4 ∨ n = 5 ∨ n = 6 ∨ n = 7 ∨ n = 8 ∨ n = 9 ∨
          n = 10 ∨ n = 11 ∨ n = 12 ∨ n = 13 ∨ n = 14 ∨ n = 15)%Z as Hn by lia.
  by destruct_or! Hn; subst.
Qed.

Lemma hex4_byte c : (byte_val c <? 128)%Z = true →
  hex4 "0" "0" (hex_digit (byte_val c / 16)) (hex_digit (byte_val c mod 16)) = Some (byte_val c).
Proof.
  intros Hc%Z.ltb_lt. pose proof (byte_val_range c).
  unfold hex4. rewrite !hex_val_digit.
  - change (hex_val "0") with (Some 0%Z). cbn [mbind option_bind]. f_equal.
    pose proof (Z.div_mod (byte_val c) 16). lia.
  - split; [by apply Z.div_pos; lia|]. apply Z.div_lt_upper_bound; lia.
  - apply Z.mod_pos_bound. lia.
Qed.

Lemma rune_bytes_ascii c : (byte_val c <? 128)%Z = true → rune_bytes (byte_val c) = String c "".
Proof.
  intros Hc. unfold rune_bytes. rewrite Hc. cbn. f_equal. unfold byte_val.
  by rewrite N2Z.id, ascii_N_embedding.
Qed.

Lemma escape_ascii_spec c t : (byte_val c <? 128)%Z = true →
  unquote 0 (escape_ascii c +:+ t) = String c (unquote 0 t) ∧
  scan_string (escape_ascii c +:+ t) = prefix_fst (escape_ascii c) (scan_string t).
Proof.
  intros Hc. unfold escape_ascii.
  repeat match goal with
  | |- context [if Ascii.eqb c ?d then _ else _] =>
      destruct (Ascii.eqb_spec c d) as [->|?];
        [split; [reflexivity|]; str_norm; cbn [scan_string]; by destruct (scan_string t) as [[]|]|]
  end.
  destruct (_ || _ || _ || _) eqn:E.
  - unfold hex2. rewrite <-string_app_assoc. str_norm. cbn [unquote scan_string].
    change (Ascii.eqb "\" backslash) with true. change (Ascii.eqb "\" quote) with false.
    change (escape_byte "u") with (@None ascii). change (Ascii.eqb "u" "u") with true.
    cbv iota. rewrite hex4_byte by done.
    change (default 0%Z (Some (byte_val c))) with (byte_val c).
    unfold is_surrogate. rewrite (proj2 (Z.leb_gt _ _)) by (apply Z.ltb_lt in Hc; clear -Hc; lia).
    cbn [andb]. rewrite rune_bytes_ascii by done. split; [done|].
    by destruct (scan_string t) as [[]|].
  - apply orb_false_iff in E as [[[E _]%orb_false_iff _]%orb_false_iff _].
    str_norm. cbn [unquote scan_string].
    rewrite (proj2 (Ascii.eqb_neq c quote)), (proj2 (Ascii.eqb_neq c backslash)) by done.
    rewrite Hc, E. split; [done|]. by destruct (scan_string t) as [[]|].
Qed.

Definition high (c : ascii) : bool := (128 <=? byte_val c)%Z.

(** A rune of several bytes: its encoding, whatever follows. *)
Lemma rune_width_split s k : rune_width s = S (S k) →
  ∃ c p r, s = String c (p +:+ r) ∧ String.length p = S k ∧
    high c = true ∧ string_forallb high p = true ∧
    ∀ t, rune_width (String c (p +:+ t)) = S (S k).
Proof.
  assert (Hh : ∀ lo hi c, (128 ≤ lo)%Z → in_range lo hi c = true → high c = true).
  { unfold in_range, high. intros lo hi c Hlo [H _]%andb_true_iff. apply Z.leb_le in H.
    apply Z.leb_le. lia. }
  assert (Hsecond : ∀ a b, second_ok a b = true → high b = true).
  { unfold second_ok. intros a b H. repeat case_match; eapply Hh; eauto; lia. }
  destruct s as [|a [|b r]]; [done..|]. cbn [rune_width].
  destruct (in_range 194 223 a) eqn:E2.
  { destruct (cont b) eqn:Eb; [|done]. intros [= <-]. exists a, (String b ""), r.
    split_and!; [done|done|eapply Hh; [|done]; lia|cbn; rewrite (Hh _ _ _ (Z.le_refl _) Eb); done|].
    intros t. cbn [rune_width]. rewrite string_app_cons. by rewrite E2, Eb. }
  destruct (in_range 224 239 a) eqn:E3.
  { destruct r as [|d r]; [done|]. destruct (second_ok a b && cont d) eqn:Eb; [|done].
    intros [= <-]. exists a, (String b (String d "")), r.
    apply andb_true_iff in Eb as Ebd. destruct Ebd as [Hb Hd].
    split_and!; [done|done|eapply Hh; [|done]; lia| |].
    - cbn. by rewrite (Hsecond _ _ Hb), (Hh _ _ _ (Z.le_refl _) Hd).
    - intros t. rewrite !string_app_cons. cbn [rune_width]. by rewrite E2, E3, Eb. }
  destruct (in_range 240 244 a) eqn:E4; [|done].
  destruct r as [|d [|f r]]; [done..|].
  destruct (second_ok a b && cont d && cont f) eqn:Eb; [|done].
  intros [= <-]. exists a, (String b (String d (String f ""))), r.
  apply andb_true_iff in Eb as Ebd. destruct Ebd as [[Hb Hd]%andb_true_iff Hf].
  split_and!; [done|done|eapply Hh; [|done]; lia| |].
  - cbn. by rewrite (Hsecond _ _ Hb), (Hh _ _ _ (Z.le_refl _) Hd), (Hh _ _ _ (Z.le_refl _) Hf).
  - intros t. rewrite !string_app_cons. cbn [rune_width]. by rewrite E2, E3, E4, Eb.
Qed.

Lemma unquote_copy p t : unquote (String.length p) (p +:+ t) = p +:+ unquote 0 t.
Proof. induction p as [|c p IH]; [by destruct t|]. rewrite !string_app_cons. cbn. by rewrite IH. Qed.

Lemma clean_copy p t : clean (String.length p) (p +:+ t) = p +:+ clean 0 t.
Proof. induction p as [|c p IH]; [by destruct t|]. rewrite !string_app_cons. cbn. by rewrite IH. Qed.

Lemma escape_skip p t : escape (String.length p) (p +:+ t) = escape 0 t.
Proof. induction p as [|c p IH]; [by destruct t|]. rewrite !string_app_cons. cbn. by rewrite IH. Qed.

Lemma slice_to_app p t : slice_to (String.length p) (p +:+ t) = p.
Proof. induction p as [|c p IH]; [by destruct t|]. rewrite string_app_cons. cbn. by rewrite IH. Qed.

Lemma high_not c d : high c = true → (byte_val d <? 128)%Z = true → Ascii.eqb c d = false.
Proof.
  unfold high. rewrite Z.leb_le, Z.ltb_lt. intros Hc Hd. apply Ascii.eqb_neq. intros ->. lia.
Qed.

Lemma high_ltb c : high c = true → (byte_val c <? 128)%Z = false.
Proof. unfold high. rewrite Z.leb_le, Z.ltb_ge. lia. Qed.

Lemma scan_string_high p t :
  string_forallb high p = true → scan_string (p +:+ t) = prefix_fst p (scan_string t).
Proof.
  induction p as [|c p IH];
    [intros _; rewrite string_app_nil_l; by destruct (scan_string t) as [[]|]|].
  cbn [string_forallb]. rewrite andb_true_iff. intros [Hc Hp]. rewrite string_app_cons.
  cbn [scan_string]. rewrite !high_not by done.
  rewrite (proj2 (Z.ltb_ge _ _)) by (unfold high in Hc; apply Z.leb_le in Hc; lia).
  rewrite IH by done. by destruct (scan_string t) as [[]|].
Qed.

(** Induction on the runes of a string. *)
Lemma rune_ind (P : string → Prop) :
  P "" →
  (∀ c r, (byte_val c <? 128)%Z = true → P r → P (String c r)) →
  (∀ c p r k, rune_width (String c (p +:+ r)) = S (S k) → String.length p = S k →
     high c = true → string_forallb high p = true →
     (∀ t, rune_width (String c (p +:+ t)) = S (S k)) → P r → P (String c (p +:+ r))) →
  (∀ c r, (byte_val c <? 128)%Z = false → (∀ k, rune_width (String c r) ≠ S (S k)) →
     P r → P (String c r)) →
  ∀ s, P s.
Proof.
  intros H0 H1 H2 H3 s. remember (String.length s) as n eqn:En. revert s En.
  induction (lt_wf n) as [n _ IH]. intros [|c s] ->; [done|].
  destruct (byte_val c <? 128)%Z eqn:Ec.
  { apply H1; [done|]. apply (IH (String.length s)); [simpl; lia|done]. }
  destruct (rune_width (String c s)) as [|[|k]] eqn:Ew.
  1, 2: apply H3; [done|by rewrite Ew|]; apply (IH (String.length s)); [simpl; lia|done].
  destruct (rune_width_split _ _ Ew) as (c' & p & r & E & Hl & Hc & Hp & Ht).
  injection E as <- ->. apply (H2 c p r k); [done..|].
  apply (IH (String.length r)); [|done]. rewrite length_cons, string_length_app. lia.
Qed.

Lemma escape_multi c p r k :
  high c = true → String.length p = S k → rune_width (String c (p +:+ r)) = S (S k) →
  escape 0 (String c (p +:+ r)) =
    (if HasPrefix (String c (p +:+ r)) line_sep then "\u2028"
     else if HasPrefix (String c (p +:+ r)) paragraph_sep then "\u2029"
     else String c p) +:+ escape 0 r.
Proof.
  intros Hc Hl Hw. cbn [escape]. rewrite (high_ltb _ Hc), Hw.
  cbv iota. rewrite <-Hl, escape_skip. do 2 (case_match; [done|]).
  cbn [slice_to]. by rewrite slice_to_app.
Qed.

(** The separator a rune of three bytes is. *)
Lemma sep_rune sep c p r k : String.length sep = 3 → rune_width sep = 3 →
  (∀ t, rune_width (sep +:+ t) = 3) →
  rune_width (String c (p +:+ r)) = S (S k) → String.length p = S k →
  HasPrefix (String c (p +:+ r)) sep = true → String c p = sep.
Proof.
  intros Hl _ Hw Hk Hp [t E]%HasPrefix_true. rewrite E, Hw in Hk. injection Hk as <-.
  rewrite <-string_app_cons in E.
  rewrite <-(slice_to_app (String c p) r), E, length_cons, Hp, <-Hl. apply slice_to_app.
Qed.

Lemma unquote_escape s : unquote 0 (escape 0 s) = clean 0 s.
Proof.
  induction s as [|c r Hc IH|c p r k Hw Hl Hc Hp Ht IH|c r Hc Hw IH] using rune_ind; [done|..].
  - cbn [escape clean]. rewrite Hc. rewrite (proj1 (escape_ascii_spec c _ Hc)). by rewrite IH.
  - rewrite (escape_multi _ _ _ _ Hc Hl Hw). cbn [clean].
    rewrite (high_ltb _ Hc), Hw. cbv iota. rewrite <-Hl, clean_copy.
    destruct (HasPrefix _ line_sep) eqn:E1.
    { apply (sep_rune line_sep _ _ _ k) in E1; [|done..]. rewrite <-string_app_cons, E1.
      rewrite <-IH. reflexivity. }
    destruct (HasPrefix _ paragraph_sep) eqn:E2.
    { apply (sep_rune paragraph_sep _ _ _ k) in E2; [|done..]. rewrite <-string_app_cons, E2.
      rewrite <-IH. reflexivity. }
    rewrite string_app_cons. cbn [unquote]. rewrite high_not, (high_ltb _ Hc), Ht by done.
    by rewrite <-Hl, unquote_copy, IH.
  - cbn [escape clean]. rewrite Hc.
    destruct (rune_width (String c r)) as [|[|k]] eqn:E; [..|by destruct (Hw k)];
      rewrite <-IH; reflexivity.
Qed.

Lemma scan_escape s t : scan_string (escape 0 s +:+ String quote t) = Some (escape 0 s, t).
Proof.
  assert (Hone : ∀ p u, scan_string (p +:+ u +:+ String quote t) =
      prefix_fst p (scan_string (u +:+ String quote t)) →
    scan_string (u +:+ String quote t) = Some (u, t) →
    scan_string ((p +:+ u) +:+ String quote t) = Some (p +:+ u, t)).
  { intros p u E1 E2. by rewrite <-string_app_assoc, E1, E2. }
  induction s as [|c r Hc IH|c p r k Hw Hl Hc Hp Ht IH|c r Hc Hw IH] using rune_ind; [done|..].
  - cbn [escape]. rewrite Hc. apply Hone; [|done]. by apply escape_ascii_spec.
  - rewrite (escape_multi _ _ _ _ Hc Hl Hw). apply Hone; [|done].
    destruct (HasPrefix _ line_sep);
      [|destruct (HasPrefix _ paragraph_sep); [|apply scan_string_high; cbn; by rewrite Hc]];
      str_norm; cbn [scan_string]; cbn; by rewrite IH.
  - cbn [escape]. rewrite Hc.
    destruct (rune_width (String c r)) as [|[|k]] eqn:E; [..|by destruct (Hw k)];
      apply Hone; try done; str_norm; cbn; by rewrite IH.
Qed.

(** ** Numbers *)
Abbreviation digits := (string_forallb is_digit).

(** A text that does not go on with a digit. *)
Definition stops (rest : string) : Prop :=
  match rest with String c _ => is_digit c = false | EmptyString => True end.

(** What follows a value: the end, or what closes or separates. *)
Definition is_delim (c : ascii) : bool :=
  Ascii.eqb c "," || Ascii.eqb c "]" || Ascii.eqb c "}" || Ascii.eqb c "010".

Definition delim (rest : string) : Prop :=
  match rest with String c _ => is_delim c = true | EmptyString => True end.

Lemma delim_cases c : is_delim c = true →
  c = ","%char ∨ c = "]"%char ∨ c = "}"%char ∨ c = "010"%char.
Proof. unfold is_delim. rewrite !orb_true_iff, !Ascii.eqb_eq. tauto. Qed.

Lemma digit_not c d : is_digit c = true → is_digit d = false → Ascii.eqb c d = false.
Proof. intros Hc Hd. apply Ascii.eqb_neq. congruence. Qed.

Lemma span_digits d rest : digits d = true → stops rest → span is_digit (d +:+ rest) = (d, rest).
Proof.
  intros Hd Hr. induction d as [|c d IH].
  - rewrite string_app_nil_l. destruct rest as [|c rest]; [done|]. cbn in *. by rewrite Hr.
  - cbn [string_forallb] in Hd. apply andb_true_iff in Hd as [Hc Hd].
    rewrite string_app_cons. cbn [span]. by rewrite Hc, IH.
Qed.

Lemma digits1_app d rest : d ≠ "" → digits d = true → stops rest →
  digits1 (d +:+ rest) = Some (d, rest).
Proof. intros Hne Hd Hr. unfold digits1. rewrite span_digits by done. by rewrite decide_False. Qed.

(** The parts of a number. *)
Inductive int_part : string → Prop :=
  | int_zero : int_part "0"
  | int_digits c r : is_digit c = true → c ≠ "0"%char → digits r = true → int_part (String c r).

Inductive frac_part : string → Prop :=
  | frac_none : frac_part ""
  | frac_digits d : d ≠ "" → digits d = true → frac_part (String "." d).

Inductive exp_part : string → Prop :=
  | exp_none : exp_part ""
  | exp_digits g d : g = "+"%char ∨ g = "-"%char → d ≠ "" → digits d = true →
      exp_part (String "e" (String g d)).

Inductive number : string → Prop :=
  | number_of sign i f e : sign = "" ∨ sign = "-" → int_part i → frac_part f → exp_part e →
      number (sign +:+ i +:+ f +:+ e).

Lemma scan_int_app i rest : int_part i → stops rest → scan_int (i +:+ rest) = Some (i, rest).
Proof.
  intros [|c r Hc Hz Hr] Hs; [done|]. rewrite string_app_cons. cbn [scan_int].
  rewrite (proj2 (Ascii.eqb_neq _ _) Hz).
  rewrite <-string_app_cons. apply digits1_app; [done| |done]. cbn. by rewrite Hc.
Qed.

Lemma delim_scans rest : delim rest →
  stops rest ∧ scan_frac rest = Some ("", rest) ∧ scan_exp rest = Some ("", rest).
Proof.
  destruct rest as [|c rest]; [done|]. cbn [delim].
  by intros [-> | [-> | [-> | ->]]]%delim_cases.
Qed.

Lemma scan_exp_app e rest : exp_part e → delim rest →
  scan_exp (e +:+ rest) = Some (e, rest) ∧ stops (e +:+ rest) ∧
  scan_frac (e +:+ rest) = Some ("", e +:+ rest).
Proof.
  intros [|g d Hg Hne Hd] Hr; [by apply delim_scans in Hr as (? & ? & ?)|].
  apply delim_scans in Hr as (Hs & _ & _). split_and!; [|done|done].
  rewrite !string_app_cons. cbn [scan_exp]. change (Ascii.eqb "e" "e") with true. cbn [orb].
  rewrite digits1_app by done. by destruct Hg as [-> | ->].
Qed.

Lemma scan_unsigned_app i f e rest : int_part i → frac_part f → exp_part e → delim rest →
  scan_unsigned (i +:+ f +:+ e +:+ rest) = Some (i +:+ f +:+ e, rest).
Proof.
  intros Hi Hf He Hr. destruct (scan_exp_app e rest He Hr) as (E & Hs & Ef).
  unfold scan_unsigned.
  assert (Hsf : stops (f +:+ e +:+ rest) ∧
    scan_frac (f +:+ e +:+ rest) = Some (f, e +:+ rest)).
  { destruct Hf as [|d Hne Hd]; [done|]. split; [done|]. rewrite string_app_cons.
    cbn [scan_frac]. change (Ascii.eqb "." ".") with true. cbv iota.
    by rewrite digits1_app. }
  destruct Hsf as [Hst Efr]. rewrite scan_int_app by done. cbn [mbind option_bind].
  rewrite Efr. cbn [mbind option_bind]. by rewrite E.
Qed.

Lemma int_part_head i : int_part i → ∃ c r, i = String c r ∧ is_digit c = true.
Proof. destruct 1; eauto. Qed.

Lemma scan_number_app t rest : number t → delim rest →
  scan_number (t +:+ rest) = Some (t, rest).
Proof.
  intros [sign i f e Hsign Hi Hf He] Hr. rewrite <-!string_app_assoc.
  destruct (int_part_head i Hi) as (c & r & -> & Hc).
  destruct Hsign as [-> | ->]; rewrite ?string_app_cons, !string_app_nil_l.
  - cbn [scan_number]. rewrite digit_not by done. rewrite <-!string_app_cons.
    by apply scan_unsigned_app.
  - cbn [scan_number]. change (Ascii.eqb "-" "-") with true. cbv iota.
    rewrite <-!string_app_cons. by rewrite scan_unsigned_app.
Qed.

(** How a number starts. *)
Lemma number_head t : number t →
  ∃ c r, t = String c r ∧ Ascii.eqb c "-" || is_digit c = true.
Proof.
  intros [sign i f e [-> | ->] Hi _ _]; [|by eexists _, _].
  destruct (int_part_head i Hi) as (c & r & -> & Hc). eexists c, _.
  split; [by rewrite string_app_nil_l, string_app_cons|]. by rewrite Hc, orb_true_r.
Qed.

(** Decimal numerals. *)
Lemma pretty_N_go_lead n : (0 < n)%N → ∀ s, digits s = true →
  ∃ c r, pretty_N_go n s = String c r ∧ is_digit c = true ∧ c ≠ "0"%char ∧ digits r = true.
Proof.
  induction (N.lt_wf_0 n) as [n _ IH]. intros Hn s Hs. rewrite pretty_N_go_step by done.
  destruct (pretty_digit (n mod 10)) as [Hd _]; [by apply N.mod_lt|].
  destruct (decide (n / 10 = 0)%N) as [E|E].
  - rewrite E, pretty_N_go_0. eexists _, s. split_and!; [done|done| |done].
    apply N.div_small_iff in E; [|done]. rewrite N.mod_small by done.
    assert (n = 1 ∨ n = 2 ∨ n = 3 ∨ n = 4 ∨ n = 5 ∨ n = 6 ∨ n = 7 ∨ n = 8 ∨ n = 9)%N as H by lia.
    by destruct_or! H; subst.
  - apply IH; [apply N.div_lt; lia|by apply N.neq_0_lt_0|]. cbn. by rewrite Hd.
Qed.

Lemma pretty_pos_lead z : (0 < z)%Z →
  ∃ c r, pretty z = String c r ∧ is_digit c = true ∧ c ≠ "0"%char ∧ digits r = true.
Proof. intros Hz. destruct z as [|p|p]; [lia| |lia]. by apply pretty_N_go_lead. Qed.

Lemma pretty_int_part (z : Z) : (0 <= z)%Z → int_part (pretty z).
Proof.
  intros Hz. destruct (decide (z = 0)%Z) as [->|]; [constructor|].
  destruct (pretty_pos_lead z) as (c & r & -> & Hc & Hne & Hr); [lia|]. by constructor.
Qed.

Lemma number_pretty (z : Z) : number (pretty z).
Proof.
  destruct (Z.lt_ge_cases z 0) as [Hz|Hz].
  - destruct z as [|p|p]; [lia|lia|].
    change (number ("-" +:+ pretty (Z.pos p))). rewrite <-(string_app_nil_r (pretty (Z.pos p))).
    apply (number_of "-" _ "" ""); [by right|by apply pretty_int_part|constructor..].
  - rewrite <-(string_app_nil_r (pretty z)).
    apply (number_of "" _ "" ""); [by left|by apply pretty_int_part|constructor..].
Qed.

(** Floats. *)
Lemma reads_back_pos m e x : (0 < m)%Z → reads_back m e 0 x = false.
Proof.
  intros Hm. unfold reads_back.
  assert (H : ∀ d, (0 < d)%Z → match round_ratio 0 d with
    | Some (m', e') => let '(a, b) := ratio_of m e in let '(a', b') := ratio_of m' e' in
                       (a * b' =? a' * b)%Z
    | None => false end = false).
  { intros d Hd. unfold round_ratio. set (e' := float_exp 0 d).
    destruct (scaled 0 d e') as [a b] eqn:Es.
    assert (a = 0 ∧ 0 < b)%Z as [-> Hb].
    { unfold scaled in Es. destruct (Z.leb_spec 0 e'); injection Es as <- <-; [|lia].
      split; [done|]. pose proof (Z.pow_pos_nonneg 2 e'). lia. }
    unfold div_even. rewrite Z.div_0_l, Z.mod_0_l by lia.
    rewrite (proj2 (Z.ltb_lt _ _)) by lia. change (2 ^ 53 <=? 0)%Z with false. cbv iota.
    destruct (_ <? e')%Z; [done|].
    unfold ratio_of. destruct (Z.leb_spec 0 e); destruct (Z.leb_spec 0 e'); apply Z.eqb_neq.
    all: pose proof (Z.pow_pos_nonneg 2 e); pose proof (Z.pow_pos_nonneg 2 (- e)).
    all: pose proof (Z.pow_pos_nonneg 2 e'); pose proof (Z.pow_pos_nonneg 2 (- e')).
    all: rewrite ?Z.mul_0_l, ?Z.mul_1_r; nia. }
  unfold decimal_ratio. destruct (Z.leb_spec 0 x); [rewrite Z.mul_0_l|]; apply H; [lia|].
  apply Z.pow_pos_nonneg; lia.
Qed.

Lemma ratio_of_pos m e : (0 < m)%Z → (0 < (ratio_of m e).1 ∧ 0 < (ratio_of m e).2)%Z.
Proof.
  intros Hm. unfold ratio_of. destruct (Z.leb_spec 0 e); cbn [fst snd].
  - pose proof (Z.pow_pos_nonneg 2 e). nia.
  - pose proof (Z.pow_pos_nonneg 2 (- e)). lia.
Qed.

Lemma decimal_ratio_pos x : (0 < (decimal_ratio 1 x).1 ∧ 0 < (decimal_ratio 1 x).2)%Z.
Proof.
  unfold decimal_ratio. destruct (Z.leb_spec 0 x); cbn [fst snd].
  - pose proof (Z.pow_pos_nonneg 10 x). lia.
  - pose proof (Z.pow_pos_nonneg 10 (- x)). lia.
Qed.

Lemma shortest_pos fuel : ∀ k p m e, (0 < m)%Z → (0 < (shortest fuel k p m e).1)%Z.
Proof.
  induction fuel as [|f IH]; intros k p m e Hm; cbn [shortest];
    pose proof (ratio_of_pos m e Hm) as [Hn Hd]; destruct (ratio_of m e) as [n d];
    pose proof (decimal_ratio_pos (p - k)) as [Ha Hb];
    destruct (decimal_ratio 1 (p - k)) as [a b]; cbn [fst snd] in *;
    assert (Hlo : (0 <= n * b / (d * a))%Z) by (apply Z.div_pos; nia);
    set (lo := (n * b / (d * a))%Z) in *; [lia|].
  destruct (reads_back m e lo (p - k)) eqn:El.
  - assert (lo ≠ 0)%Z by (intros E; rewrite E, reads_back_pos in El; done).
    destruct (reads_back m e (lo + 1) _); [destruct (_ <=? _)%Z|]; cbn [fst]; lia.
  - destruct (reads_back m e (lo + 1) _); [cbn [fst]; lia|]. by apply IH.
Qed.

Lemma digits_app a b : digits (a +:+ b) = digits a && digits b.
Proof. apply string_forallb_app. Qed.

Lemma zeros_digits n : digits (zeros n) = true.
Proof. by induction n. Qed.

Lemma slice_digits n s : digits s = true →
  digits (slice_to n s) = true ∧ digits (slice_from n s) = true.
Proof.
  revert s. induction n as [|n IH]; intros [|c s]; try done. cbn. rewrite andb_true_iff.
  intros [-> Hs]. by apply IH.
Qed.

Lemma slice_from_nonempty n s : n < String.length s → slice_from n s ≠ "".
Proof.
  revert s. induction n as [|n IH]; intros [|c s]; cbn; try lia; [done|].
  intros H. apply IH. lia.
Qed.

Lemma float_digits_number c r point :
  is_digit c = true → c ≠ "0"%char → digits r = true →
  ∃ i f e, float_digits (String c r) point = i +:+ f +:+ e ∧
    int_part i ∧ frac_part f ∧ exp_part e.
Proof.
  intros Hc Hz Hr. unfold float_digits. cbv zeta.
  assert (Hall : digits (String c r) = true) by (cbn; by rewrite Hc).
  destruct (_ || _).
  { exists (String c ""), (if (1 <? Z.of_nat (String.length (String c r)))%Z then "." +:+ r else "").
    eexists. split; [reflexivity|]. split_and!; [by constructor| |].
    - destruct (Z.ltb_spec 1 (Z.of_nat (String.length (String c r)))) as [Hl|]; [|constructor].
      constructor; [|done]. intros ->. simpl in Hl. lia.
    - rewrite string_app_cons, string_app_nil_l.
      assert (Hx : pretty (Z.abs (point - 1)) ≠ "" ∧ digits (pretty (Z.abs (point - 1))) = true).
      { destruct (pretty_int_part (Z.abs (point - 1))); [lia|done|]. split; [done|].
        cbn. by apply andb_true_iff. }
      destruct (_ <? 0)%Z; str_norm; constructor; try apply Hx; auto. }
  destruct (Z.leb_spec point 0).
  { exists "0", ("." +:+ zeros (Z.to_nat (- point)) +:+ String c r), "".
    split_and!; [by rewrite !string_app_nil_r|constructor| |constructor].
    constructor; [by destruct (zeros _)|]. by rewrite digits_app, zeros_digits. }
  destruct (Z.leb_spec (Z.of_nat (String.length (String c r))) point).
  { exists (String c (r +:+ zeros (Z.to_nat (point - Z.of_nat (String.length (String c r)))))), "", "".
    split_and!; [by rewrite !string_app_nil_r| |constructor..].
    constructor; [done..|]. by rewrite digits_app, Hr, zeros_digits. }
  destruct (Z.to_nat point) as [|n] eqn:En; [lia|].
  eexists (slice_to (S n) (String c r)), ("." +:+ slice_from (S n) (String c r)), "".
  split_and!; [by rewrite string_app_nil_r| | |constructor].
  - cbn. constructor; [done..|]. by apply slice_digits.
  - constructor; [|by apply (slice_digits n r)]. apply slice_from_nonempty. lia.
Qed.

Lemma drop_zeros_digits s : digits s = true → digits (drop_zeros s) = true.
Proof.
  induction s as [|c s IH]; [done|]. cbn. rewrite andb_true_iff. intros [Hc Hs].
  case_match; [done|]. cbn. rewrite Hc. by apply IH.
Qed.

Lemma number_float f : number (float_text f).
Proof.
  unfold float_text. cbv zeta.
  assert (Hsign : (if f_neg f then "-" else "") = "" ∨ (if f_neg f then "-" else "") = "-")
    by (destruct (f_neg f); auto).
  set (sign := if f_neg f then "-" else "") in *. clearbody sign.
  destruct (Z.eqb_spec (Z.of_N (f_m f)) 0).
  { change (sign +:+ "0") with (sign +:+ "0" +:+ "" +:+ ""). by constructor; [|constructor..]. }
  set (m := Z.of_N (f_m f)) in *. assert (0 < m)%Z by lia.
  destruct (ratio_of m (f_e f)) as [num den].
  set (p := decimal_size _ _ _ _). pose proof (shortest_pos 17 1 p m (f_e f) ltac:(done)) as Hpos.
  destruct (shortest 17 1 p m (f_e f)) as [dig x]. cbn [fst] in Hpos.
  destruct (pretty_pos_lead dig Hpos) as (c & r & E & Hc & Hz & Hr). rewrite E.
  assert (Ed : drop_zeros (String c r) = String c (drop_zeros r)).
  { cbn. by rewrite (proj2 (Ascii.eqb_neq _ _) Hz). }
  rewrite Ed.
  destruct (float_digits_number c (drop_zeros r)
    (Z.of_nat (String.length (String c r)) + x) Hc Hz (drop_zeros_digits _ Hr))
    as (i & fr & e & -> & Hi & Hf & He). by constructor.
Qed.

(** ** Documents *)
Lemma source_text_app t rest : source_text (t +:+ rest) rest = t.
Proof.
  unfold source_text. rewrite string_length_app.
  replace (_ + _ - _) with (String.length t) by lia. apply slice_to_app.
Qed.

(** What an encoder must keep to for its documents to be read. *)
Record dialect_ok (D : dialect) : Prop := {
  ok_scan : ∀ s t, scan_string (d_escape D s +:+ String quote t) = Some (d_escape D s, t);
  ok_unquote : ∀ s, unquote 0 (d_escape D s) = clean 0 s;
  ok_space : ∀ t, skip_ws (d_space D +:+ t) = skip_ws t;
  ok_float : ∀ f, number (d_float D f);
}.

Lemma go_json_ok : dialect_ok go_json.
Proof.
  split; [exact scan_escape|exact unquote_escape|done|exact number_float].
Qed.

(** How a document starts: no white space, and not the end of an array. *)
Definition starts (t : string) : Prop :=
  ∃ c r, t = String c r ∧ is_ws c = false ∧ Ascii.eqb c "]" = false ∧ Ascii.eqb c "}" = false.

Lemma starts_app t u : starts t → starts (t +:+ u).
Proof. intros (c & r & -> & H). by eexists c, _. Qed.

Lemma skip_ws_starts t : starts t → skip_ws t = t.
Proof. intros (c & r & -> & H & _). cbn [skip_ws]. by rewrite H. Qed.

Lemma number_char c : Ascii.eqb c "-" || is_digit c = true →
  is_ws c = false ∧ Ascii.eqb c "]" = false ∧ Ascii.eqb c "}" = false ∧
  Ascii.eqb c "{" = false ∧ Ascii.eqb c "[" = false ∧ Ascii.eqb c quote = false ∧
  Ascii.eqb c "t" = false ∧ Ascii.eqb c "f" = false ∧ Ascii.eqb c "n" = false.
Proof.
  intros H. assert (Hn : ∀ d, Ascii.eqb d "-" || is_digit d = false → Ascii.eqb c d = false).
  { intros d Hd. apply Ascii.eqb_neq. congruence. }
  unfold is_ws. by rewrite !Hn.
Qed.

Lemma number_starts t : number t → starts t.
Proof.
  intros (c & r & -> & H)%number_head. exists c, r. apply number_char in H. tauto.
Qed.

Section documents.
Context (D : dialect) (Hok : dialect_ok D).

Lemma write_starts v : starts (write D v).
Proof.
  destruct v; cbn [write]; try (by eexists _, _).
  - by destruct b; eexists _, _.
  - apply number_starts, number_pretty.
  - apply number_starts, Hok.
Qed.

Lemma quoted_starts s : starts (quoted D s).
Proof. by eexists _, _. Qed.

(** A value is read back, whatever follows it. *)
Definition reads (v : json) : Prop := ∀ d fuel rest,
  (d + nesting v <= maxNestingDepth)%N → 2 * String.length (write D v) + 1 ≤ fuel → delim rest →
  parse_value fuel d (write D v +:+ rest) = POk (value_of D v) rest.

Lemma reads_number v t : number t → write D v = t → value_of D v = VNum t → reads v.
Proof.
  intros Ht Ew Ev d [|f] rest _ Hf Hr; [lia|]. rewrite Ew, Ev. clear Hf.
  pose proof (scan_number_app t rest Ht Hr) as Hs.
  destruct (number_head t Ht) as (c & r & -> & Hc).
  pose proof (number_char c Hc) as (_ & _ & _ & H1 & H2 & H3 & H4 & H5 & H6).
  rewrite string_app_cons in *. cbn [parse_value]. rewrite H1, H2, H3, H4, H5, H6, Hc.
  by rewrite Hs.
Qed.

Lemma sep_cons x y l : sep D (x :: y :: l) = x +:+ String "," (d_space D +:+ sep D (y :: l)).
Proof. done. Qed.

Lemma sep_starts x l : starts x → starts (sep D (x :: l)).
Proof. destruct l; [done|]. rewrite sep_cons. apply starts_app. Qed.

Lemma parse_elems_sep d rest l : Forall reads l → l ≠ [] →
  (∀ x, x ∈ l → (d + nesting x <= maxNestingDepth)%N) → ∀ fuel,
  2 * String.length (sep D (map (write D) l)) + 2 ≤ fuel →
  parse_elems fuel d (sep D (map (write D) l) +:+ String "]" rest) =
  POk (map (λ x, (write D x, value_of D x)) l) rest.
Proof.
  intros Hl Hne Hd. induction Hl as [|x l Hx Hl IH]; [done|]. intros [|f] Hf; [lia|].
  destruct l as [|y l].
  - cbn [map sep] in *. cbn [parse_elems]. rewrite Hx; [|apply Hd; left|lia|done].
    by rewrite source_text_app.
  - cbn [map] in *. rewrite sep_cons in *. rewrite <-string_app_assoc, string_app_cons.
    rewrite string_length_app, length_cons, string_length_app in Hf.
    cbn [parse_elems]. rewrite Hx; [|apply Hd; left|lia|done]. rewrite source_text_app.
    change (skip_ws (String "," ?z)) with (String "," z). cbv iota beta zeta.
    change (Ascii.eqb "," ",") with true. cbv iota.
    rewrite <-string_app_assoc, (ok_space _ Hok).
    rewrite skip_ws_starts by apply starts_app, sep_starts, write_starts.
    rewrite IH; [done|done|intros z Hz; apply Hd; by right|lia].
Qed.

Abbreviation member_write := (λ m : string * json, member_text D (m.1, write D m.2)).

Lemma parse_members_sep d rest l : Forall (λ m, reads m.2) l → l ≠ [] →
  (∀ m, m ∈ l → (d + nesting m.2 <= maxNestingDepth)%N) → ∀ fuel,
  2 * String.length (sep D (map member_write l)) + 2 ≤ fuel →
  parse_members fuel d (sep D (map member_write l) +:+ String "}" rest) =
  POk (map (λ m, (clean 0 m.1, (write D m.2, value_of D m.2))) l) rest.
Proof.
  intros Hl Hne Hd.
  assert (Hone : ∀ f k v tail, reads v → (d + nesting v <= maxNestingDepth)%N → delim tail →
    2 * String.length (member_text D (k, write D v)) + 1 ≤ f →
    parse_members (S f) d (member_text D (k, write D v) +:+ tail) =
    match skip_ws tail with
    | String c r =>
        if Ascii.eqb c "," then pmap (cons (clean 0 k, (write D v, value_of D v)))
                                  (parse_members f d (skip_ws r))
        else if Ascii.eqb c "}" then POk [(clean 0 k, (write D v, value_of D v))] r else PBad
    | EmptyString => PBad
    end).
  { intros f k v tail Hv Hdv Ht Hf. unfold member_text, quoted in *. cbn [fst snd] in *.
    rewrite !string_app_cons in Hf. repeat rewrite ?length_cons, ?string_length_app in Hf.
    rewrite !string_app_cons, <-!string_app_assoc. cbn [parse_members].
    rewrite Ascii.eqb_refl, !string_app_cons, string_app_nil_l, (ok_scan _ Hok).
    change (skip_ws (String ":" ?z)) with (String ":" z). cbv iota beta zeta.
    change (Ascii.eqb ":" ":") with true. cbv iota.
    rewrite <-string_app_assoc, (ok_space _ Hok).
    rewrite skip_ws_starts by apply starts_app, write_starts.
    rewrite Hv by (done || lia). by rewrite source_text_app, (ok_unquote _ Hok). }
  induction Hl as [|[k v] l Hv Hl IH]; [done|]. intros [|f] Hf; [lia|].
  cbn [snd] in Hv. pose proof (Hd (k, v) (list_elem_of_here _ _)) as Hdv. cbn [snd] in Hdv.
  destruct l as [|m l].
  - cbn [map sep] in *. rewrite Hone; [done|done|done|done|lia].
  - cbn [map] in *. rewrite sep_cons in *. rewrite <-string_app_assoc, string_app_cons.
    rewrite string_length_app, length_cons, string_length_app in Hf.
    rewrite Hone; [|done|done|done|cbn [fst snd] in *; lia].
    change (skip_ws (String "," ?z)) with (String "," z). cbv iota beta zeta.
    change (Ascii.eqb "," ",") with true. cbv iota.
    rewrite <-string_app_assoc, (ok_space _ Hok).
    rewrite skip_ws_starts
      by (apply starts_app, sep_starts; unfold member_text; apply starts_app, quoted_starts).
    rewrite IH; [done|done|intros z Hz; apply Hd; by right|lia].
Qed.

Lemma foldr_max_le {A} (f : A → N) l x : x ∈ l → (f x <= foldr N.max 0 (map f l))%N.
Proof. induction 1; simpl; lia. Qed.

Lemma reads_array l : Forall reads l → reads (JArr l).
Proof.
  intros Hl d [|f] rest Hd Hf Hr; [lia|]. cbn [write value_of nesting] in *.
  unfold array_text in *. rewrite string_app_cons, string_app_nil_l in Hf.
  str_norm. rewrite <-string_app_assoc. str_norm. cbn [parse_value].
  change (Ascii.eqb "[" "{") with false. change (Ascii.eqb "[" "[") with true. cbv iota.
  rewrite (proj2 (N.leb_gt _ _)) by lia.
  rewrite length_cons, string_length_app in Hf. cbn [String.length] in Hf.
  destruct l as [|x l]; [done|].
  assert (Hst : starts (sep D (map (write D) (x :: l)))) by apply sep_starts, write_starts.
  rewrite skip_ws_starts by by apply starts_app.
  pose proof (parse_elems_sep (d + 1) rest (x :: l) Hl ltac:(done)) as H.
  destruct Hst as (c & r & E & _ & Hc & _). rewrite E in *. rewrite string_app_cons in *.
  rewrite Hc. rewrite H; [done| |lia].
  intros y Hy. pose proof (foldr_max_le nesting _ _ Hy). lia.
Qed.

Lemma reads_members v l : Forall (λ m, reads m.2) l →
  write D v = object_text D (map (λ m, (m.1, write D m.2)) l) →
  nesting v = (1 + foldr N.max 0 (map (λ m, nesting m.2) l))%N →
  value_of D v = VObj (map (λ m, (clean 0 m.1, (write D m.2, value_of D m.2))) l) → reads v.
Proof.
  intros Hl Ew En Ev d [|f] rest Hd Hf Hr; [lia|]. rewrite Ew, Ev in *. rewrite En in Hd.
  unfold object_text in *. rewrite map_map in *. rewrite string_app_cons, string_app_nil_l in Hf.
  str_norm. rewrite <-string_app_assoc. str_norm. cbn [parse_value].
  change (Ascii.eqb "{" "{") with true. cbv iota.
  rewrite (proj2 (N.leb_gt _ _)) by lia.
  rewrite length_cons, string_length_app in Hf. cbn [String.length] in Hf.
  destruct l as [|m l]; [done|].
  assert (Hst : starts (sep D (map member_write (m :: l)))).
  { apply sep_starts. unfold member_text. apply starts_app, quoted_starts. }
  rewrite skip_ws_starts by by apply starts_app.
  pose proof (parse_members_sep (d + 1) rest (m :: l) Hl ltac:(done)) as H.
  destruct Hst as (c & r & E & _ & _ & Hc). cbn [fst snd] in *. rewrite E in *.
  rewrite string_app_cons in *. rewrite Hc. rewrite H; [done| |lia].
  intros y Hy. pose proof (foldr_max_le (λ m, nesting m.2) _ _ Hy). cbn beta in *. lia.
Qed.

Lemma write_reads v : reads v.
Proof.
  induction v as [|b|z|f|s|l IH|l IH|l IH] using json_ind'.
  - intros d [|f] rest _ Hf Hr; [lia|done].
  - intros d [|f] rest _ Hf Hr; [lia|]. by destruct b.
  - by eapply reads_number; [apply number_pretty|..].
  - by eapply reads_number; [apply Hok|..].
  - intros d [|f] rest _ Hf Hr; [lia|]. cbn [write value_of]. unfold quoted.
    rewrite string_app_cons, <-string_app_assoc, string_app_cons, string_app_nil_l.
    cbn [parse_value]. change (Ascii.eqb quote "{") with false.
    change (Ascii.eqb quote "[") with false. change (Ascii.eqb quote quote) with true. cbv iota.
    rewrite (ok_scan _ Hok). cbn [pscan]. by rewrite (ok_unquote _ Hok).
  - by apply reads_array.
  - by apply (reads_members (JObj l) l).
  - by apply (reads_members (JStruct l) l).
Qed.

(** What an encoder writes is one document, read back as the value, by a
    Decoder whatever follows it (if it can follow a value). *)
Lemma write_first v rest : (nesting v <= maxNestingDepth)%N → delim rest →
  first_value (write D v +:+ rest) = Some (value_of D v).
Proof.
  intros Hn Hr. unfold first_value.
  rewrite skip_ws_starts by apply starts_app, write_starts.
  rewrite write_reads; [done|done| |done].
  unfold enough. rewrite string_length_app. lia.
Qed.

Lemma write_whole v rest : (nesting v <= maxNestingDepth)%N → delim rest → skip_ws rest = "" →
  whole_value (write D v +:+ rest) = Some (value_of D v).
Proof.
  intros Hn Hr Hs. unfold whole_value.
  rewrite skip_ws_starts by apply starts_app, write_starts.
  rewrite write_reads; [by rewrite decide_True|done| |done].
  unfold enough. rewrite string_length_app. lia.
Qed.
End documents.

Lemma Encode_first v rest : (nesting (normalise v) <= maxNestingDepth)%N →
  first_value (Encode v +:+ rest) = Some (value_of go_json (normalise v)).
Proof.
  intros Hn. unfold Encode. rewrite <-string_app_assoc, string_app_cons.
  by apply write_first; [apply go_json_ok|..].
Qed.

Lemma Encode_whole v : (nesting (normalise v) <= maxNestingDepth)%N →
  whole_value (Encode v) = Some (value_of go_json (normalise v)).
Proof. intros Hn. by apply write_whole; [apply go_json_ok|..]. Qed.
