(* ===== verification/NetUrl.v ===== *)
(** * net/url: Parse

    [url_Parse] of Go 1.25, for the two components of the URL the sources read:
    the scheme and the host.  The query is cut off and not looked at, the user,
    the path and the fragment are checked for malformed escapes and dropped.
    Hosts with an opening bracket are IP literals, whose syntax (RFC 4291
    addresses with a zone) changed within the 1.25 releases: they are a parameter
    ([IPLiteral]).  Nothing in this file models code of the repository itself. *)
From S2P Require Import Prelude GoLib Json JsonText.
Local Open Scope string_scope.

(** What parseHost makes of a host that contains an opening bracket. *)
Class IPLiteral := parse_ip_literal : string → result string string.

Record URL := mkURL { url_Scheme : string; url_Host : string }.

Inductive encoding := encodePath | encodeHost | encodeUserPassword | encodeFragment.

#[export] Instance encoding_eq_dec : EqDecision encoding.
Proof. solve_decision. Defined.

(** ** Bytes *)
Definition has (c : ascii) (s : string) : bool := negb (lacks c s).

Definition is_alpha (c : ascii) : bool := in_range 65 90 c || in_range 97 122 c.

(** shouldEscape(c, encodeHost), negated: letters, digits, the marks and the
    sub-delimiters of RFC 3986, and brackets, angles and the quotation mark. *)
Definition host_mark : string := "-_.~!$&'()*+,;=:[]<>" +:+ String quote "".
Definition host_byte (c : ascii) : bool := is_alpha c || is_digit c || has c host_mark.

Definition ishex (c : ascii) : bool :=
  is_digit c || in_range 65 70 c || in_range 97 102 c.

Definition unhex (c : ascii) : Z :=
  if is_digit c then byte_val c - 48
  else if in_range 97 102 c then byte_val c - 87 else byte_val c - 55.

(** validUserinfo *)
Definition user_byte (c : ascii) : bool :=
  is_alpha c || is_digit c || has c "-._:~!$&'()*+,;=%@".

Definition ctl_byte (c : ascii) : bool := (byte_val c <? 32)%Z || (byte_val c =? 127)%Z.

(** The parts before and after the last [c]. *)
Fixpoint CutLast (s : string) (c : ascii) : option (string * string) :=
  match s with
  | EmptyString => None
  | String d r =>
      match CutLast r c with
      | Some (b, a) => Some (String d b, a)
      | None => if Ascii.eqb d c then Some ("", r) else None
      end
  end.

Fixpoint string_map (f : ascii → ascii) (s : string) : string :=
  match s with
  | EmptyString => ""
  | String c r => String (f c) (string_map f r)
  end.

Section url.
Context {UL : UnicodeLib} {IP : IPLiteral}.

Definition EscapeError (s : string) : string := "invalid URL escape " +:+ Quote s.
Definition InvalidHostError (s : string) : string :=
  "invalid character " +:+ Quote s +:+ " in host name".

(** unescape: in a host only bytes that are not ASCII, and the percent sign, may
    be written as escapes. *)
Fixpoint unescape (mode : encoding) (s : string) : result string string :=
  match s with
  | EmptyString => Ok ""
  | String c r =>
      if Ascii.eqb c "%" then
        match r with
        | String a (String b r') =>
            if negb (ishex a && ishex b) then Err (EscapeError (slice_to 3 s))
            else if bool_decide (mode = encodeHost) && (unhex a <? 8)%Z
                    && negb (String.eqb (slice_to 3 s) "%25")
            then Err (EscapeError (slice_to 3 s))
            else match unescape mode r' with
                 | Err e => Err e
                 | Ok t => Ok (String (ascii_of_N (Z.to_N (unhex a * 16 + unhex b))) t)
                 end
        | _ => Err (EscapeError s)
        end
      else if bool_decide (mode = encodeHost) && (byte_val c <? 128)%Z && negb (host_byte c)
      then Err (InvalidHostError (String c ""))
      else match unescape mode r with Err e => Err e | Ok t => Ok (String c t) end
  end.

(** The loop of getScheme over [s], after the prefix [pre] of the URL: the end
    of the scheme, if there is one. *)
Fixpoint scheme_end (first : bool) (s : string) : option (result string (string * string)) :=
  match s with
  | EmptyString => None
  | String c r =>
      if is_alpha c || negb first && (is_digit c || has c "+-.") then
        match scheme_end false r with
        | Some (Ok (scheme, rest)) => Some (Ok (String c scheme, rest))
        | other => other
        end
      else if Ascii.eqb c ":" then
        Some (if first then Err "missing protocol scheme" else Ok ("", r))
      else None
  end.

Definition getScheme (rawURL : string) : result string (string * string) :=
  default (Ok ("", rawURL)) (scheme_end true rawURL).

(** [host] without brackets: a port of digits after the last colon. *)
Definition parseHost (host : string) : result string string :=
  if has "[" host then parse_ip_literal host
  else match CutLast host ":" with
       | Some (_, port) =>
           if string_forallb is_digit port then unescape encodeHost host
           else Err ("invalid port " +:+ Quote (String ":" port) +:+ " after host")
       | None => unescape encodeHost host
       end.

(** The user and the password are unescaped one by one. *)
Definition parseUser (userinfo : string) : result string () :=
  if negb (string_forallb user_byte userinfo) then Err "net/url: invalid userinfo"
  else
    let '(user, password, _) := Cut userinfo ":" in
    match unescape encodeUserPassword user, unescape encodeUserPassword password with
    | Err e, _ | Ok _, Err e => Err e
    | Ok _, Ok _ => Ok tt
    end.

Definition parseAuthority (authority : string) : result string string :=
  match CutLast authority "@" with
  | None => parseHost authority
  | Some (userinfo, host) =>
      match parseHost host with
      | Err e => Err e
      | Ok h => match parseUser userinfo with Err e => Err e | Ok _ => Ok h end
      end
  end.

(** parse(u, false): the path, and with it its escapes, follows the authority. *)
Definition parse (rawURL : string) : result string URL :=
  if negb (string_forallb (λ c, negb (ctl_byte c)) rawURL)
  then Err "net/url: invalid control character in URL"
  else if String.eqb rawURL "*" then Ok (mkURL "" "")
  else match getScheme rawURL with
  | Err e => Err e
  | Ok (scheme, rest) =>
      let scheme := string_map ascii_lower scheme in
      let rest := (Cut rest "?").1.1 in
      let with_path host path :=
        match unescape encodePath path with
        | Err e => Err e
        | Ok _ => Ok (mkURL scheme host)
        end in
      if negb (HasPrefix rest "/") && negb (String.eqb scheme "") then Ok (mkURL scheme "")
      else if negb (HasPrefix rest "/") && has ":" (Cut rest "/").1.1
      then Err "first path segment in URL cannot contain colon"
      else if (negb (String.eqb scheme "") || negb (HasPrefix rest "///")) && HasPrefix rest "//"
      then
        let '(authority, path, found) := Cut (TrimPrefix rest "//") "/" in
        match parseAuthority authority with
        | Err e => Err e
        | Ok host => with_path host (if found then String "/" path else "")
        end
      else with_path "" rest
  end.

(** The error names the URL without its fragment, unless the fragment is what is
    wrong. *)
Definition url_Parse (rawURL : string) : result string URL :=
  let '(u, frag, _) := Cut rawURL "#" in
  match parse u with
  | Err e => Err ("parse " +:+ Quote u +:+ ": " +:+ e)
  | Ok url =>
      match unescape encodeFragment frag with
      | Err e => Err ("parse " +:+ Quote rawURL +:+ ": " +:+ e)
      | Ok _ => Ok url
      end
  end.
End url.

(** ** Facts *)
Lemma has_app c a b : has c (a +:+ b) = has c a || has c b.
Proof. unfold has, lacks. by rewrite string_forallb_app, negb_andb. Qed.

Lemma CutLast_absent s c : lacks c s = true → CutLast s c = None.
Proof.
  unfold lacks. induction s as [|d s IH]; cbn [string_forallb CutLast]; [done|].
  intros [Hd Hs]%andb_true_iff. rewrite IH by done.
  by rewrite Ascii.eqb_sym, (proj1 (negb_true_iff _) Hd).
Qed.

Lemma CutLast_app b a c : lacks c a = true → CutLast (b +:+ String c a) c = Some (b, a).
Proof.
  intros Ha. induction b as [|d b IH]; str_norm; cbn [CutLast].
  - by rewrite CutLast_absent, Ascii.eqb_refl.
  - by rewrite IH.
Qed.

(** *** Common URLs *)

(** The bytes of a DNS name or an IPv4 address. *)
Definition dns_byte (c : ascii) : bool := is_alpha c || is_digit c || has c "-.".

(** The bytes of a path without escapes, query and fragment; and all bytes of a
    URL of such parts. *)
Definition path_byte (c : ascii) : bool := dns_byte c || has c "_~/".
Definition url_byte (c : ascii) : bool := path_byte c || Ascii.eqb c ":".

(** [host] or [host:port]. *)
Definition host_port (host : string) (port : option string) : string :=
  match port with Some p => host +:+ ":" +:+ p | None => host end.

Section facts.
Context {UL : UnicodeLib} {IP : IPLiteral}.

(** Bytes that unescape copies. *)
Definition copied (mode : encoding) (c : ascii) : bool :=
  negb (Ascii.eqb c "%") &&
  negb (bool_decide (mode = encodeHost) && (byte_val c <? 128)%Z && negb (host_byte c)).

Lemma unescape_copy mode s : string_forallb (copied mode) s = true → unescape mode s = Ok s.
Proof.
  induction s as [|c s IH]; cbn [string_forallb unescape]; [done|].
  unfold copied at 1. intros [[Hc Hb]%andb_true_iff Hs]%andb_true_iff.
  rewrite (proj1 (negb_true_iff _) Hc), (proj1 (negb_true_iff _) Hb). by rewrite IH.
Qed.

Context (host : string) (port : option string).
Hypothesis Hhost : string_forallb dns_byte host = true.
Hypothesis Hport : from_option (string_forallb is_digit) true port = true.

Lemma host_port_bytes :
  string_forallb (λ c, dns_byte c || Ascii.eqb c ":") (host_port host port) = true.
Proof.
  assert (H : string_forallb (λ c, dns_byte c || Ascii.eqb c ":") host = true)
    by (revert Hhost; by apply bytes_impl).
  destruct port as [p|]; [|done]. cbn [host_port from_option] in *.
  rewrite !string_forallb_app, H. apply andb_true_iff. split; [done|].
  revert Hport. by apply bytes_impl.
Qed.

Lemma parseHost_dns : parseHost (host_port host port) = Ok (host_port host port).
Proof.
  pose proof host_port_bytes as Hb. unfold parseHost.
  assert (Hbr : has "[" (host_port host port) = false).
  { unfold has. apply negb_false_iff. revert Hb. by apply forallb_lacks. }
  assert (Hu : unescape encodeHost (host_port host port) = Ok (host_port host port)).
  { apply unescape_copy. revert Hb. by apply bytes_impl. }
  rewrite Hbr. destruct port as [p|]; cbn [host_port from_option] in *.
  - change (host +:+ ":" +:+ p) with (host +:+ String ":" p) in *.
    rewrite CutLast_app; [by rewrite Hport|]. revert Hport. by apply forallb_lacks.
  - rewrite CutLast_absent; [done|]. revert Hhost. by apply forallb_lacks.
Qed.

Lemma parseAuthority_dns : parseAuthority (host_port host port) = Ok (host_port host port).
Proof.
  unfold parseAuthority. rewrite CutLast_absent; [apply parseHost_dns|].
  pose proof host_port_bytes as Hb. revert Hb. by apply forallb_lacks.
Qed.

(** A URL without query, fragment and escapes whose scheme is http or https. *)
Lemma url_Parse_http scheme path :
  scheme ∈ ["http"; "https"] →
  path = "" ∨ HasPrefix path "/" = true → string_forallb path_byte path = true →
  url_Parse (scheme +:+ "://" +:+ host_port host port +:+ path) =
  Ok (mkURL scheme (host_port host port)).
Proof.
  intros Hs Hp Hpb. pose proof host_port_bytes as Hb. pose proof parseAuthority_dns as Ha.
  revert Hb Ha. generalize (host_port host port) as hp. intros hp Hb Ha.
  assert (Hr : string_forallb url_byte ("//" +:+ hp +:+ path) = true).
  { rewrite !string_forallb_app. apply andb_true_iff. split; [done|]. apply andb_true_iff.
    split; [revert Hb; by apply bytes_impl|revert Hpb; by apply bytes_impl]. }
  assert (Hall : string_forallb url_byte (scheme +:+ "://" +:+ hp +:+ path) = true).
  { apply elem_of_cons in Hs as [->| ->%list_elem_of_singleton]; revert Hr; str_norm;
      cbn [string_forallb]; by intros ->. }
  assert (Hg : getScheme (scheme +:+ "://" +:+ hp +:+ path) =
               Ok (scheme, "//" +:+ hp +:+ path)).
  { apply elem_of_cons in Hs as [->| ->%list_elem_of_singleton]; str_norm; reflexivity. }
  assert (Hl : string_map ascii_lower scheme = scheme)
    by (apply elem_of_cons in Hs as [->| ->%list_elem_of_singleton]; reflexivity).
  assert (Hne : String.eqb scheme "" = false)
    by (apply elem_of_cons in Hs as [->| ->%list_elem_of_singleton]; reflexivity).
  assert (Hstar : String.eqb (scheme +:+ "://" +:+ hp +:+ path) "*" = false)
    by (apply elem_of_cons in Hs as [->| ->%list_elem_of_singleton]; reflexivity).
  unfold url_Parse. rewrite Cut_absent by (revert Hall; by apply forallb_lacks).
  unfold parse. rewrite Hstar, Hg.
  assert (Hctl : string_forallb (λ c, negb (ctl_byte c))
    (scheme +:+ "://" +:+ hp +:+ path) = true) by (revert Hall; by apply bytes_impl).
  rewrite Hctl. cbn [negb]. cbv zeta. rewrite Hl, Hne.
  rewrite Cut_absent by (revert Hr; by apply forallb_lacks). cbn [fst negb].
  assert (H2 : HasPrefix ("//" +:+ hp +:+ path) "/" = true) by (str_norm; done).
  assert (H3 : HasPrefix ("//" +:+ hp +:+ path) "//" = true) by (str_norm; done).
  rewrite H2, H3. cbn [negb andb orb]. unfold TrimPrefix. rewrite CutPrefix_app. cbn [default id].
  assert (Hns : lacks "/" hp = true) by (revert Hb; by apply forallb_lacks).
  assert (Hpath : unescape encodePath path = Ok path)
    by (apply unescape_copy; revert Hpb; by apply bytes_impl).
  destruct Hp as [->|Hp].
  - rewrite string_app_nil_r, Cut_absent by done. rewrite Ha. reflexivity.
  - apply HasPrefix_true in Hp as [r ->]. change ("/" +:+ r) with (String "/" r) in *.
    rewrite Cut_lacks by done. rewrite Ha, Hpath. reflexivity.
Qed.

(** *** Without a scheme: a host before a colon is taken for one *)
Lemma dns_byte_scheme c :
  dns_byte c = true → is_alpha c || negb false && (is_digit c || has c "+-.") = true.
Proof.
  intros H. pose proof (all_bytes (λ c, implb (dns_byte c)
    (is_alpha c || (is_digit c || has c "+-."))) eq_refl c) as E.
  cbv beta in E. by rewrite H in E.
Qed.

Lemma scheme_end_colon s r : string_forallb dns_byte s = true →
  scheme_end false (s +:+ String ":" r) = Some (Ok (s, r)).
Proof.
  induction s as [|c s IH]; str_norm; [done|]. cbn [string_forallb scheme_end].
  intros [Hc Hs]%andb_true_iff. by rewrite dns_byte_scheme, IH.
Qed.

Lemma scheme_end_none b s : string_forallb dns_byte s = true → scheme_end b s = None.
Proof.
  revert b. induction s as [|c s IH]; intros b; [done|]. cbn [string_forallb scheme_end].
  intros [Hc Hs]%andb_true_iff. rewrite IH by done.
  destruct (is_alpha c || _); [done|]. destruct (Ascii.eqb_spec c ":") as [->|]; [|done].
  by vm_compute in Hc.
Qed.

(** Whether a host can be a scheme. *)
Definition scheme_like (s : string) : bool :=
  match s with String c _ => is_alpha c | EmptyString => false end.

Lemma scheme_end_host p : host ≠ "" →
  scheme_end true (host +:+ String ":" p) =
  if scheme_like host then Some (Ok (host, p)) else None.
Proof.
  intros Hne. revert Hhost. destruct host as [|c s]; [done|]. str_norm.
  cbn [string_forallb scheme_end scheme_like]. intros [Hc Hs]%andb_true_iff.
  rewrite scheme_end_colon by done. destruct (is_alpha c); [done|].
  cbn [negb orb andb]. destruct (Ascii.eqb_spec c ":") as [->|]; [|done].
  by vm_compute in Hc.
Qed.

(** What is not all of a host or a port does not start with a slash. *)
Lemma no_slash_first f s : f "/"%char = false → string_forallb f s = true →
  HasPrefix s "/" = false.
Proof.
  intros Hf. unfold HasPrefix. destruct s as [|c s]; [done|]. cbn [string_forallb CutPrefix].
  intros [Hc _]%andb_true_iff. destruct (Ascii.eqb_spec "/" c) as [<-|]; [congruence|done].
Qed.

Definition colon_error : string := "first path segment in URL cannot contain colon".

Lemma url_Parse_bare : host ≠ "" →
  match url_Parse (host_port host port) with
  | Ok u => url_Host u = "" ∧ (port = None ∨ scheme_like host = true)
  | Err e => e = "parse " +:+ Quote (host_port host port) +:+ ": " +:+ colon_error ∧
      port ≠ None ∧ scheme_like host = false
  end.
Proof.
  intros Hne. pose proof host_port_bytes as Hb.
  assert (Hu : string_forallb url_byte (host_port host port) = true)
    by (revert Hb; by apply bytes_impl).
  pose proof (no_slash_first _ _ eq_refl Hb) as Hfirst.
  assert (Hctl : string_forallb (λ c, negb (ctl_byte c)) (host_port host port) = true)
    by (revert Hu; by apply bytes_impl).
  assert (Hstar : String.eqb (host_port host port) "*" = false).
  { apply String.eqb_neq. intros E. rewrite E in Hb. by vm_compute in Hb. }
  unfold url_Parse. rewrite Cut_absent by (revert Hu; by apply forallb_lacks).
  unfold parse, getScheme. rewrite Hctl, Hstar. cbn [negb].
  destruct port as [p|]; cbn [host_port from_option] in *.
  - change (host +:+ ":" +:+ p) with (host +:+ String ":" p) in *.
    rewrite scheme_end_host by done. destruct (scheme_like host) eqn:Es; cbn [default id].
    + rewrite Cut_absent by (revert Hport; by apply forallb_lacks). cbn [fst].
      rewrite (no_slash_first _ _ eq_refl Hport). cbn [negb andb].
      destruct host as [|c s]; [done|]. cbn [string_map String.eqb negb].
      split; [done|by right].
    + rewrite Cut_absent by (revert Hu; by apply forallb_lacks). cbn [fst].
      rewrite Hfirst. cbn [string_map String.eqb negb andb].
      rewrite (Cut_absent _ "/") by (revert Hb; by apply forallb_lacks). cbn [fst].
      assert (Hcolon : has ":" (host +:+ String ":" p) = true).
      { rewrite has_app. unfold has at 2, lacks. cbn [string_forallb].
        by rewrite Ascii.eqb_refl, orb_true_r. }
      rewrite Hcolon. done.
  - rewrite scheme_end_none by done. cbn [default id].
    rewrite Cut_absent by (revert Hu; by apply forallb_lacks). cbn [fst].
    rewrite Hfirst. cbn [string_map String.eqb negb andb].
    rewrite (Cut_absent _ "/") by (revert Hb; by apply forallb_lacks). cbn [fst].
    assert (Hcolon : has ":" host = false)
      by (unfold has; apply negb_false_iff; revert Hhost; by apply forallb_lacks).
    assert (Hss : HasPrefix host "//" = false).
    { destruct (HasPrefix host "//") eqn:E; [|done].
      apply HasPrefix_true in E as [r ->]. by vm_compute in Hfirst. }
    rewrite Hcolon, Hss, andb_false_r.
    rewrite unescape_copy by (revert Hhost; by apply bytes_impl). split; [done|by left].
Qed.
End facts.
