(* ===== verification/Sha256.v ===== *)
(** * crypto/sha256 and encoding/hex, as internal/queue and internal/api use them

    [Sum256] is SHA-256 as FIPS 180-4 defines it, on lists of byte values, with
    the round constants computed from their definition (the first 32 bits of the
    fractional parts of the roots of the first primes).  [EncodeToString] is
    lower-case hex.  The facts exported are the shape of a digest (32 bytes, 64
    hex digits) and the injectivity of the hex encoding; nothing is assumed
    about collisions. *)
From S2P Require Import Prelude GoLib.
Local Open Scope Z_scope.

(** ** 32-bit words *)
Definition word (z : Z) : Z := z mod 2 ^ 32.
Definition rotr (n x : Z) : Z :=
  Z.lor (Z.shiftr x n) (word (Z.shiftl x (32 - n))).
Definition wnot (x : Z) : Z := Z.lxor x (2 ^ 32 - 1).

Definition xor3 (a b c : Z) : Z := Z.lxor (Z.lxor a b) c.
Definition big_sigma0 (x : Z) : Z := xor3 (rotr 2 x) (rotr 13 x) (rotr 22 x).
Definition big_sigma1 (x : Z) : Z := xor3 (rotr 6 x) (rotr 11 x) (rotr 25 x).
Definition small_sigma0 (x : Z) : Z := xor3 (rotr 7 x) (rotr 18 x) (Z.shiftr x 3).
Definition small_sigma1 (x : Z) : Z := xor3 (rotr 17 x) (rotr 19 x) (Z.shiftr x 10).
Definition choose (x y z : Z) : Z := Z.lxor (Z.land x y) (Z.land (wnot x) z).
Definition majority (x y z : Z) : Z := xor3 (Z.land x y) (Z.land x z) (Z.land y z).

(** ** Constants *)

(** The largest [r < 2 ^ bits] with [r ^ 3 <= n], bit by bit. *)
Fixpoint cube_root (bits : nat) (r n : Z) : Z :=
  match bits with
  | O => r
  | S b => let r' := r + 2 ^ Z.of_nat b in
           cube_root b (if r' * r' * r' <=? n then r' else r) n
  end.

Definition is_prime (n : Z) : bool :=
  forallb (λ d, negb (n mod Z.of_nat d =? 0)) (seq 2 (Z.to_nat n - 2)).

(** 311 is the 64th prime. *)
Definition primes64 : list Z := Eval vm_compute in
  List.filter is_prime (map Z.of_nat (seq 2 310)).

Definition round_constants : list Z := Eval vm_compute in
  map (λ p, word (cube_root 40 0 (p * 2 ^ 96))) primes64.

Definition initial_state : list Z := Eval vm_compute in
  map (λ p, word (Z.sqrt (p * 2 ^ 64))) (firstn 8 primes64).

(** ** The hash *)

(** The [n] low bytes of [z], most significant first. *)
Fixpoint be_bytes (n : nat) (z : Z) : list Z :=
  match n with
  | O => []
  | S k => (z / 256 ^ Z.of_nat k) mod 256 :: be_bytes k z
  end.

Definition padding (len : Z) : list Z :=
  128 :: repeat 0 (Z.to_nat ((55 - len) mod 64)) ++ be_bytes 8 (8 * len).

Fixpoint words_of (bs : list Z) : list Z :=
  match bs with
  | a :: b :: c :: d :: r => ((a * 256 + b) * 256 + c) * 256 + d :: words_of r
  | _ => []
  end.

(** The message schedule, latest word first. *)
Fixpoint extend (n : nat) (w : list Z) : list Z :=
  match n with
  | O => w
  | S k =>
      extend k (word (small_sigma1 (nth 1 w 0) + nth 6 w 0 +
                      small_sigma0 (nth 14 w 0) + nth 15 w 0) :: w)
  end.
Definition schedule (block : list Z) : list Z := rev (extend 48 (rev block)).

Record regs := Regs { ra : Z; rb : Z; rc : Z; rd : Z; re : Z; rf : Z; rg : Z; rh : Z }.

Definition round (s : regs) (kw : Z * Z) : regs :=
  let t1 := rh s + big_sigma1 (re s) + choose (re s) (rf s) (rg s) + kw.1 + kw.2 in
  let t2 := big_sigma0 (ra s) + majority (ra s) (rb s) (rc s) in
  Regs (word (t1 + t2)) (ra s) (rb s) (rc s) (word (rd s + t1)) (re s) (rf s) (rg s).

Definition add_regs (s t : regs) : regs :=
  Regs (word (ra s + ra t)) (word (rb s + rb t)) (word (rc s + rc t))
       (word (rd s + rd t)) (word (re s + re t)) (word (rf s + rf t))
       (word (rg s + rg t)) (word (rh s + rh t)).

Definition compress (s : regs) (block : list Z) : regs :=
  add_regs s (fold_left round (combine round_constants (schedule block)) s).

Fixpoint blocks (fuel : nat) (ws : list Z) (s : regs) : regs :=
  match fuel with
  | O => s
  | S n => match ws with
           | [] => s
           | _ => blocks n (skipn 16 ws) (compress s (firstn 16 ws))
           end
  end.

Definition regs_of (l : list Z) : regs :=
  Regs (nth 0 l 0) (nth 1 l 0) (nth 2 l 0) (nth 3 l 0)
       (nth 4 l 0) (nth 5 l 0) (nth 6 l 0) (nth 7 l 0).

Definition regs_words (s : regs) : list Z :=
  [ra s; rb s; rc s; rd s; re s; rf s; rg s; rh s].

(** One round of [blocks] consumes 16 words, so the number of words is enough
    fuel. *)
Definition Sum256 (msg : list Z) : list Z :=
  let ws := words_of (msg ++ padding (Z.of_nat (length msg))) in
  concat (map (be_bytes 4) (regs_words (blocks (length ws) ws (regs_of initial_state)))).

(** ** encoding/hex *)
Definition hex_digit (n : Z) : ascii :=
  ascii_of_N (Z.to_N (if n <? 10 then 48 + n else 87 + n)).

Fixpoint EncodeToString (bs : list Z) : string :=
  match bs with
  | [] => ""
  | b :: r => String (hex_digit (b / 16)) (String (hex_digit (b mod 16)) (EncodeToString r))
  end.

(** [[]byte(s)] *)
Fixpoint bytes_of (s : string) : list Z :=
  match s with
  | EmptyString => []
  | String c r => byte_val c :: bytes_of r
  end.

Definition sha256_hex (s : string) : string := EncodeToString (Sum256 (bytes_of s)).

Definition is_hex (c : ascii) : bool := in_range 48 57 c || in_range 97 102 c.

Definition unhex_digit (c : ascii) : Z :=
  if byte_val c <? 58 then byte_val c - 48 else byte_val c - 87.

(** ** Facts *)
Lemma length_be_bytes n z : length (be_bytes n z) = n.
Proof. induction n as [|n IH]; simpl; congruence. Qed.

Lemma be_bytes_range n z : Forall (λ b, 0 <= b < 256) (be_bytes n z).
Proof.
  induction n as [|n IH]; constructor; [|done]. by apply Z.mod_pos_bound.
Qed.

Lemma length_Sum256 msg : length (Sum256 msg) = 32%nat.
Proof.
  unfold Sum256, regs_words. cbn [map concat].
  by rewrite !length_app, !length_be_bytes.
Qed.

Lemma Sum256_range msg : Forall (λ b, 0 <= b < 256) (Sum256 msg).
Proof.
  unfold Sum256, regs_words. cbn [map concat]. rewrite !Forall_app.
  split_and!; try apply be_bytes_range. constructor.
Qed.

Lemma nibble_ind (P : Z → Prop) :
  Forall P [0; 1; 2; 3; 4; 5; 6; 7; 8; 9; 10; 11; 12; 13; 14; 15] →
  ∀ n, 0 <= n < 16 → P n.
Proof.
  rewrite List.Forall_forall. intros HP n Hn. apply HP. simpl. lia.
Qed.

Lemma hex_digit_is_hex n : 0 <= n < 16 → is_hex (hex_digit n) = true.
Proof. revert n. apply nibble_ind. repeat constructor. Qed.

Lemma unhex_hex_digit n : 0 <= n < 16 → unhex_digit (hex_digit n) = n.
Proof. revert n. apply nibble_ind. repeat constructor. Qed.

Lemma hex_digit_inj a b :
  0 <= a < 16 → 0 <= b < 16 → hex_digit a = hex_digit b → a = b.
Proof. intros Ha Hb E. by rewrite <-(unhex_hex_digit a), E, unhex_hex_digit. Qed.

Lemma nibbles b : 0 <= b < 256 → 0 <= b / 16 < 16 ∧ 0 <= b mod 16 < 16.
Proof.
  intros H. split; [|by apply Z.mod_pos_bound].
  split; [apply Z.div_pos; lia|apply Z.div_lt_upper_bound; lia].
Qed.

Lemma EncodeToString_hex bs :
  Forall (λ b, 0 <= b < 256) bs → string_forallb is_hex (EncodeToString bs) = true.
Proof.
  induction 1 as [|b bs Hb _ IH]; [done|]. cbn [EncodeToString string_forallb].
  destruct (nibbles b Hb). by rewrite !hex_digit_is_hex.
Qed.

Lemma length_EncodeToString bs :
  String.length (EncodeToString bs) = (2 * length bs)%nat.
Proof. induction bs as [|b bs IH]; simpl; [done|]. rewrite IH. lia. Qed.

Lemma EncodeToString_inj xs ys :
  Forall (λ b, 0 <= b < 256) xs → Forall (λ b, 0 <= b < 256) ys →
  EncodeToString xs = EncodeToString ys → xs = ys.
Proof.
  intros Hx. revert ys. induction Hx as [|x xs Hx _ IH]; intros [|y ys] Hy; try done.
  inversion_clear Hy as [|?? Hy' Hys]. cbn [EncodeToString].
  destruct (nibbles x Hx), (nibbles y Hy').
  intros [= E1%hex_digit_inj E2%hex_digit_inj E3]; try done.
  f_equal; [|by apply IH].
  rewrite (Z.div_mod x 16), (Z.div_mod y 16) by lia. congruence.
Qed.

Lemma bytes_of_inj s t : bytes_of s = bytes_of t → s = t.
Proof.
  revert t. induction s as [|c s IH]; intros [|d t]; simpl; try done.
  intros [= H1%byte_val_inj H2]. f_equal; auto.
Qed.

Lemma sha256_hex_shape s :
  String.length (sha256_hex s) = 64%nat ∧ string_forallb is_hex (sha256_hex s) = true.
Proof.
  unfold sha256_hex. rewrite length_EncodeToString, length_Sum256.
  split; [done|]. apply EncodeToString_hex, Sum256_range.
Qed.

Lemma sha256_hex_nonempty s : String.eqb (sha256_hex s) "" = false.
Proof.
  apply String.eqb_neq. intros E. pose proof (proj1 (sha256_hex_shape s)) as H.
  by rewrite E in H.
Qed.

Lemma sha256_hex_inj s t :
  sha256_hex s = sha256_hex t → Sum256 (bytes_of s) = Sum256 (bytes_of t).
Proof. apply EncodeToString_inj; apply Sum256_range. Qed.

(** The FIPS 180-4 one-block test message. *)
Example sha256_abc :
  sha256_hex "abc" = "ba7816bf8f01cfea414140de5dae2223b00361a396177a9cb410ff61f20015ad".
Proof. vm_compute. reflexivity. Qed.
