(* ===== verification/PyLib.v ===== *)
(** * Python's standard library, as far as src/runner and src/sdk use it

    Exceptions, str.strip and slices, int() and float() of a text, repr of a
    float, json.dumps of numbers, and urllib.parse.urlparse, of Python 3.10 (the
    image of src/runner/Dockerfile) on UTF-8 byte strings.  Parameters: the digits
    of other scripts ([PyUnicode]), and the checks urlparse makes on a network
    location that has brackets or is not ASCII ([NetlocLib]; they changed within
    the 3.10 releases).  Nothing in this file models code of the repository
    itself. *)
From S2P Require Import Prelude GoLib Json JsonText NetUrl.
Local Open Scope string_scope.

(** ** Exceptions

    A Python function that may raise returns a [result], [Err] the text of the
    exception; [let*] is a statement, which an exception leaves. *)
Abbreviation py W A := (state_t W (result string A)).

Definition py_bind {W A B} (m : py W A) (k : A → py W B) : py W B :=
  r ← m; match r with Ok a => k a | Err e => mret (Err e) end.

Declare Scope py_scope.
Notation "'let*' x ':=' m 'in' k" := (py_bind m (λ x, k))
  (at level 10, x pattern, m at level 100, k at level 200) : py_scope.

Definition py_ret {W A} (a : A) : py W A := mret (Ok a).
Definition raise {W A} (e : string) : py W A := mret (Err e).

(** [try: m except Exception as exc: h] *)
Definition try_except {W A} (m : py W A) (h : string → py W A) : py W A :=
  r ← m; match r with Ok a => mret (Ok a) | Err e => h e end.

(** A statement that ended without an exception. *)
Lemma py_bind_inv {W A B} (m : py W A) (k : A → py W B) w w' b :
  py_bind m k w = (w', Ok b) → ∃ a w1, m w = (w1, Ok a) ∧ k a w1 = (w', Ok b).
Proof.
  unfold py_bind. rewrite state_bind_run. destruct (m w) as [w1 [a|e]]; cbn [fst snd]; [|done].
  intros E. by exists a, w1.
Qed.

Lemma py_bind_Ok {W A B} (m : py W A) (k : A → py W B) w b :
  (py_bind m k w).2 = Ok b → ∃ a w', (m w).2 = Ok a ∧ (k a w').2 = Ok b.
Proof.
  destruct (py_bind m k w) as [w' r] eqn:E. cbn [snd]. intros ->.
  apply py_bind_inv in E as (a & w1 & Ea & Eb). exists a, w1. by rewrite Ea, Eb.
Qed.

Lemma try_except_raise {W A} (m : py W A) (h : string → string) w w' a :
  try_except m (λ e, raise (h e)) w = (w', Ok a) → m w = (w', Ok a).
Proof.
  unfold try_except. rewrite state_bind_run. by destruct (m w) as [w1 [b|e]].
Qed.

(** ** str *)

(** [s[:n]]: code points. *)
Fixpoint take_runes (n skip : nat) (s : string) : string :=
  match s with
  | EmptyString => ""
  | String c r =>
      match skip with
      | S k => String c (take_runes n k r)
      | O => match n with
             | O => ""
             | S n' => String c (take_runes n' (rune_width s - 1) r)
             end
      end
  end.

(** str.isspace, which is also what [\s] matches in a str pattern. *)
Definition py_spaces : list string :=
  (map bytes_str [[28]; [29]; [30]; [31]]%Z ++ space_encodings)%list.

Definition py_strip (s : string) : string := trim_both py_spaces s.

(** [s.replace(c, "")] for the characters [p] holds of. *)
Fixpoint remove (p : ascii → bool) (s : string) : string :=
  match s with
  | EmptyString => ""
  | String c r => if p c then remove p r else String c (remove p r)
  end.

(** [s.lstrip(chars)] *)
Fixpoint lstrip (p : ascii → bool) (s : string) : string :=
  match s with
  | EmptyString => ""
  | String c r => if p c then lstrip p r else s
  end.

(** ** Numbers *)

(** The number in [s] with the decimal digits and the spaces of Unicode replaced
    by those of ASCII. *)
Class PyUnicode := decimals_to_ascii : string → string.

Definition is_ascii (s : string) : bool := string_forallb (λ c, (byte_val c <? 128)%Z) s.

Section numbers.
Context {PyU : PyUnicode}.

Definition number_text (s : string) : string :=
  py_strip (if is_ascii s then s else decimals_to_ascii s).

(** Underscores may stand between digits. *)
Fixpoint drop_underscores (after_digit : bool) (s : string) : option string :=
  match s with
  | EmptyString => Some ""
  | String c r =>
      if Ascii.eqb c "_" then
        match r with
        | String d _ => if after_digit && is_digit d then drop_underscores false r else None
        | EmptyString => None
        end
      else t ← drop_underscores (is_digit c) r; Some (String c t)
  end.

Definition split_sign (s : string) : bool * string :=
  match s with
  | String "-" r => (true, r)
  | String "+" r => (false, r)
  | _ => (false, s)
  end.

(** int(s): [None] is a ValueError, also for more than 4300 digits. *)
Definition py_int (s : string) : option Z :=
  t ← drop_underscores false (number_text s);
  let '(neg, d) := split_sign t in
  if (4300 <? Z.of_nat (String.length d))%Z then None
  else n ← parse_unsigned d; Some (if neg then (- n)%Z else n).

Inductive pyfloat := Finite (f : float64) | Inf (neg : bool) | NaN.

(** float(s): [None] is a ValueError; a number that is too large is infinite. *)
Definition py_float (s : string) : option pyfloat :=
  t ← drop_underscores false (number_text s);
  let '(neg, u) := split_sign t in
  if EqualFold u "inf" || EqualFold u "infinity" then Some (Inf neg)
  else if EqualFold u "nan" then Some NaN
  else
    let '(i, r1) := span is_digit u in
    let '(f, r2) := match CutPrefix r1 "." with Some r => span is_digit r | None => ("", r1) end in
    '(_, r3) ← scan_exp r2;
    if String.eqb (i +:+ f) "" || negb (String.eqb r3 "") then None
    else Some match ParseFloat ((if neg then "-" else "") +:+ u) with
              | Some x => Finite x
              | None => Inf neg
              end.
End numbers.

(** float.__repr__ of a finite number: its shortest digits [ds], the point after
    [point] of them; in exponent form up to 1e-5 and from 1e16 on, with at least
    two digits of exponent, and otherwise always with a point. *)
Definition repr_digits (ds : string) (point : Z) : string :=
  let nd := Z.of_nat (String.length ds) in
  if (point <=? -4)%Z || (16 <? point)%Z then
    let x := (point - 1)%Z in
    slice_to 1 ds +:+ (if (1 <? nd)%Z then "." +:+ slice_from 1 ds else "")
    +:+ "e" +:+ (if (x <? 0)%Z then "-" else "+")
    +:+ (if (Z.abs x <? 10)%Z then "0" else "") +:+ pretty (Z.abs x)
  else if (point <=? 0)%Z then "0." +:+ zeros (Z.to_nat (- point)) +:+ ds
  else if (nd <=? point)%Z then ds +:+ zeros (Z.to_nat (point - nd)) +:+ ".0"
  else slice_to (Z.to_nat point) ds +:+ "." +:+ slice_from (Z.to_nat point) ds.

Definition float_repr (f : float64) : string :=
  let sign := if f_neg f then "-" else "" in
  let m := Z.of_N (f_m f) in
  if (m =? 0)%Z then sign +:+ "0.0"
  else
    let '(n, d) := ratio_of m (f_e f) in
    let guess := ((Z.log2 n - Z.log2 d - 1) * 30103 / 100000)%Z in
    let p := decimal_size 4 guess n d in
    let '(dig, x) := shortest 17 1 p m (f_e f) in
    let all := pretty dig in
    sign +:+ repr_digits (drop_zeros all) (Z.of_nat (String.length all) + x).

(** ** json.dumps of a dict of numbers and Nones; what is not finite is written
    as no JSON number is. *)
Definition dumps_number (v : option pyfloat) : string :=
  match v with
  | None => "null"
  | Some (Finite f) => float_repr f
  | Some (Inf neg) => if neg then "-Infinity" else "Infinity"
  | Some NaN => "NaN"
  end.

(** The keys have no characters that are escaped. *)
Definition dumps_dict (l : list (string * option pyfloat)) : string :=
  "{" +:+ join ", " (map (λ m, String quote m.1 +:+ String quote ": " +:+ dumps_number m.2) l)
  +:+ "}".

(** ** urllib.parse *)
Record url_parts := mkUrl { u_scheme : string; u_netloc : string; u_path : string }.

(** The error of a network location with brackets, or that is not ASCII. *)
Class NetlocLib := netloc_error : string → option string.

Definition ctl_or_space (c : ascii) : bool := (byte_val c <=? 32)%Z.
Definition unsafe_byte (c : ascii) : bool := has c (bytes_str [9; 10; 13]%Z).
Definition scheme_byte (c : ascii) : bool := is_alpha c || is_digit c || has c "+-.".

Definition uses_params : list string :=
  [""; "ftp"; "hdl"; "prospero"; "http"; "imap"; "https"; "shttp"; "rtsp"; "rtspu"; "sip";
   "sips"; "mms"; "sftp"; "tel"].

Fixpoint split_netloc (s : string) : string * string :=
  match s with
  | EmptyString => ("", "")
  | String c r => if has c "/?#" then ("", s)
                  else let '(n, p) := split_netloc r in (String c n, p)
  end.

(** Without the parameters of the last segment. *)
Definition drop_params (path : string) : string :=
  match CutLast path "/" with
  | Some (dir, last) => dir +:+ String "/" ((Cut last ";").1.1)
  | None => (Cut path ";").1.1
  end.

Section urlparse.
Context {NL : NetlocLib}.

(** Path without query, fragment and parameters. *)
Definition urlparse (url : string) : result string url_parts :=
  let url := remove unsafe_byte (lstrip ctl_or_space url) in
  let '(scheme, rest) :=
    match Cut url ":" with
    | (s, r, true) => if negb (String.eqb s "") && string_forallb scheme_byte s
                      then (string_map ascii_lower s, r) else ("", url)
    | _ => ("", url)
    end in
  let '(netloc, path) :=
    match CutPrefix rest "//" with Some r => split_netloc r | None => ("", rest) end in
  let error :=
    if xorb (has "[" netloc) (has "]" netloc) then Some "Invalid IPv6 URL"
    else if has "[" netloc || negb (is_ascii netloc) then netloc_error netloc else None in
  match error with
  | Some e => Err e
  | None =>
      let path := (Cut (Cut path "#").1.1 "?").1.1 in
      Ok (mkUrl scheme netloc
            (if bool_decide (scheme ∈ uses_params) && has ";" path then drop_params path
             else path))
  end.
End urlparse.

(** ** Facts *)
Local Open Scope nat_scope.
Lemma py_strip_digits s : string_forallb is_digit s = true → py_strip s = s.
Proof. by apply (trim_both_id is_digit). Qed.

Lemma drop_underscores_digits b s :
  string_forallb is_digit s = true → drop_underscores b s = Some s.
Proof.
  revert b. induction s as [|c s IH]; intros b; [done|]. cbn [string_forallb drop_underscores].
  intros [Hc Hs]%andb_true_iff. destruct (Ascii.eqb_spec c "_") as [->|]; [by vm_compute in Hc|].
  by rewrite IH.
Qed.

Lemma pretty_N_go_length k : ∀ n s, (n < 10 ^ N.of_nat k)%N →
  String.length (pretty_N_go n s) ≤ k + String.length s.
Proof.
  induction k as [|k IH]; intros n s Hn.
  - assert (n = 0)%N as -> by (simpl in Hn; lia). by rewrite pretty_N_go_0.
  - destruct (decide (n = 0)%N) as [->|Hne]; [rewrite pretty_N_go_0; lia|].
    rewrite pretty_N_go_step by lia. etrans; [apply IH|simpl; lia].
    apply N.Div0.div_lt_upper_bound. rewrite Nat2N.inj_succ, N.pow_succ_r' in Hn. lia.
Qed.

(** An int32 printed in decimal is read back by int(). *)
Lemma py_int_pretty {PyU : PyUnicode} z : (0 < z < 2 ^ 31)%Z → py_int (pretty z) = Some z.
Proof.
  intros Hz. pose proof (pretty_pos_digits z ltac:(lia)) as Hd. unfold py_int, number_text.
  assert (Ha : is_ascii (pretty z) = true) by (revert Hd; by apply bytes_impl).
  rewrite Ha, py_strip_digits, drop_underscores_digits by done. cbn [mbind option_bind].
  assert (Hs : split_sign (pretty z) = (false, pretty z)).
  { destruct (pretty z) as [|c s]; [done|]. cbn [string_forallb] in Hd.
    apply andb_true_iff in Hd as [Hc _]. by destruct c as [[] [] [] [] [] [] [] []]. }
  rewrite Hs. destruct z as [|p|p]; [lia| |lia].
  change (pretty (Z.pos p)) with (pretty_N_go (N.pos p) "") in *.
  assert (Hl : String.length (pretty_N_go (N.pos p) "") ≤ 10).
  { etrans; [apply (pretty_N_go_length 10)|done]. change (10 ^ N.of_nat 10)%N with 10000000000%N. lia. }
  rewrite (proj2 (Z.ltb_ge _ _)) by lia.
  assert (Hp : parse_unsigned (pretty_N_go (N.pos p) "") = Some (Z.pos p)).
  { pose proof (parse_pretty_N_go (N.pos p) "") as E. cbn [parse_digits] in E.
    unfold parse_unsigned. rewrite decide_False; [done|]. intros Hn. by rewrite Hn in E. }
  by rewrite Hp.
Qed.

(** ** Examples *)
#[local] Instance ascii_only : PyUnicode := λ s, s.

Example py_float_ex : map (λ t, option_map (λ f, dumps_number (Some f)) (py_float t))
    ["12"; " 1.50 "; "1e16"; "0.0001"; "0.00001234"; "-.5"; "7."; "1_0"; "1__0"; "_1"; "."; "";
     "abc"; "1e400"; "-Infinity"; "nan"; "123456789012345678"; "1e"; "0"; "1 2"] =
  [Some "12.0"; Some "1.5"; Some "1e+16"; Some "0.0001"; Some "1.234e-05"; Some "-0.5"; Some "7.0";
   Some "10.0"; None; None; None; None; None; Some "Infinity"; Some "-Infinity"; Some "NaN";
   Some "1.2345678901234568e+17"; None; Some "0.0"; None].
Proof. vm_compute. reflexivity. Qed.

Example py_int_ex : map py_int [" 42 "; "-7"; "+1_000"; "1.0"; ""; "0x1"; "007"] =
  [Some 42; Some (-7); Some 1000; None; None; None; Some 7]%Z.
Proof. vm_compute. reflexivity. Qed.

#[local] Instance no_brackets : NetlocLib := λ _, None.

Example urlparse_ex : map urlparse
    ["s3://models/a/b.idf"; "S3://m?x/y"; "/tmp/a;b"; "file:///tmp/a;b"; "s3://m/k#1?2";
     "  s3://m/a?b"; "a b://x"; "s3://[m/k"] =
  [Ok (mkUrl "s3" "models" "/a/b.idf"); Ok (mkUrl "s3" "m" ""); Ok (mkUrl "" "" "/tmp/a");
   Ok (mkUrl "file" "" "/tmp/a;b"); Ok (mkUrl "s3" "m" "/k"); Ok (mkUrl "s3" "m" "/a");
   Ok (mkUrl "" "" "a b://x"); Err "Invalid IPv6 URL"].
Proof. vm_compute. reflexivity. Qed.
