(* ===== verification/PyJson.v ===== *)
(** * Python's json

    The dialect of Python's json encoder with its defaults (ensure_ascii, and
    separators with a space), on values whose floats are finite, and that what it
    writes is read back; and json.loads of a standard document.  A byte that is not UTF-8 stands for the surrogate that
    the surrogateescape error handler makes of it. *)
From S2P Require Import Prelude GoLib Json JsonText JsonSpec NetUrl PyLib.
Local Open Scope string_scope.
Local Open Scope nat_scope.

(** ESCAPE_ASCII and ESCAPE_DCT of json.encoder: a character below U+0080. *)
Definition py_escape_ascii (c : ascii) : string :=
  if Ascii.eqb c quote then String backslash (String quote "")
  else if Ascii.eqb c backslash then String backslash (String backslash "")
  else if Ascii.eqb c "008" then "\b"
  else if Ascii.eqb c "012" then "\f"
  else if Ascii.eqb c "010" then "\n"
  else if Ascii.eqb c "013" then "\r"
  else if Ascii.eqb c "009" then "\t"
  else if (byte_val c <? 32)%Z || (126 <? byte_val c)%Z then "\u" +:+ hex4_text (byte_val c)
  else String c "".

(** A character above it: one escape, or the two of a surrogate pair. *)
Definition py_escape_rune (x : Z) : string :=
  if (x <? 65536)%Z then "\u" +:+ hex4_text x
  else "\u" +:+ hex4_text (55296 + (x - 65536) / 1024)
       +:+ "\u" +:+ hex4_text (56320 + (x - 65536) mod 1024).

Fixpoint py_escape (skip : nat) (s : string) : string :=
  match s with
  | EmptyString => ""
  | String c r =>
      match skip with
      | S k => py_escape k r
      | O =>
          if (byte_val c <? 128)%Z then py_escape_ascii c +:+ py_escape 0 r
          else match rune_width s with
               | S (S k) => py_escape_rune (rune_value (S (S k)) s) +:+ py_escape (S k) r
               | _ => "\u" +:+ hex4_text (56320 + byte_val c) +:+ py_escape 0 r
               end
      end
  end.

Definition py_json : dialect := mkDialect (py_escape 0) " " float_repr.

(** json.dumps(v) *)
Definition dumps (v : json) : string := write py_json v.

Example dumps_ex : dumps (JStruct [("a", JArr [JStr (bytes_str [195; 169; 240; 159; 152; 128]%Z); JInt 3])])
  = String "{" (String quote ("a" +:+ String quote (": [" +:+ String quote ("\u00e9\ud83d\ude00" +:+ String quote ", 3]}")))).
Proof. vm_compute. reflexivity. Qed.

(** A number without a fraction and an exponent is an int, another one a float;
    one that is beyond a float64, infinite in Python, is taken for None. *)
Definition py_number (text : string) : json :=
  let '(neg, d) := match CutPrefix text "-" with Some d => (true, d) | None => (false, text) end in
  match parse_unsigned d with
  | Some z => JInt (if neg then (- z)%Z else z)
  | None => match ParseFloat text with Some f => JFloat f | None => JNull end
  end.

(** json.loads(text) of a document of RFC 8259. *)
Definition loads (text : string) : result string json :=
  match whole_value text with
  | Some v => Ok (read_value py_number v)
  | None => Err "JSONDecodeError"
  end.

(** ** Numbers *)
Lemma repr_digits_number c r point :
  is_digit c = true → c ≠ "0"%char → digits r = true →
  ∃ i f e, repr_digits (String c r) point = i +:+ f +:+ e ∧
    int_part i ∧ frac_part f ∧ exp_part e.
Proof.
  intros Hc Hz Hr. unfold repr_digits. cbv zeta.
  assert (Hall : digits (String c r) = true) by (cbn; by rewrite Hc).
  destruct (_ || _).
  { exists (String c ""), (if (1 <? Z.of_nat (String.length (String c r)))%Z then "." +:+ r else "").
    eexists. split; [reflexivity|]. split_and!; [by constructor| |].
    - destruct (Z.ltb_spec 1 (Z.of_nat (String.length (String c r)))) as [Hl|]; [|constructor].
      constructor; [|done]. intros ->. simpl in Hl. lia.
    - set (n := pretty (Z.abs (point - 1))).
      assert (Hx : n ≠ "" ∧ digits n = true).
      { unfold n. destruct (pretty_int_part (Z.abs (point - 1))); [lia|done|]. split; [done|].
        cbn. by apply andb_true_iff. }
      rewrite string_app_cons, string_app_nil_l.
      destruct (_ <? 0)%Z; destruct (_ <? 10)%Z; str_norm; constructor; try apply Hx; auto. }
  destruct (Z.leb_spec point 0).
  { exists "0", ("." +:+ zeros (Z.to_nat (- point)) +:+ String c r), "".
    split_and!; [by rewrite !string_app_nil_r|constructor| |constructor].
    constructor; [by destruct (zeros _)|]. by rewrite digits_app, zeros_digits. }
  destruct (Z.leb_spec (Z.of_nat (String.length (String c r))) point).
  { exists (String c (r +:+ zeros (Z.to_nat (point - Z.of_nat (String.length (String c r)))))),
      ".0", "".
    split_and!; [|  |by apply (frac_digits "0")|constructor].
    - rewrite string_app_nil_r. by rewrite !string_app_cons, string_app_assoc.
    - constructor; [done..|]. by rewrite digits_app, Hr, zeros_digits. }
  destruct (Z.to_nat point) as [|n] eqn:En; [lia|].
  eexists (slice_to (S n) (String c r)), ("." +:+ slice_from (S n) (String c r)), "".
  split_and!; [by rewrite string_app_nil_r| | |constructor].
  - cbn. constructor; [done..|]. by apply slice_digits.
  - constructor; [|by apply (slice_digits n r)]. apply slice_from_nonempty. lia.
Qed.

Lemma number_repr f : number (float_repr f).
Proof.
  unfold float_repr. cbv zeta.
  assert (Hsign : (if f_neg f then "-" else "") = "" ∨ (if f_neg f then "-" else "") = "-")
    by (destruct (f_neg f); auto).
  set (sign := if f_neg f then "-" else "") in *. clearbody sign.
  destruct (Z.eqb_spec (Z.of_N (f_m f)) 0).
  { change (sign +:+ "0.0") with (sign +:+ "0" +:+ ".0" +:+ "").
    constructor; [done|constructor|by apply (frac_digits "0")|constructor]. }
  set (m := Z.of_N (f_m f)) in *. assert (0 < m)%Z by lia.
  destruct (ratio_of m (f_e f)) as [num den].
  set (p := decimal_size _ _ _ _). pose proof (shortest_pos 17 1 p m (f_e f) ltac:(done)) as Hpos.
  destruct (shortest 17 1 p m (f_e f)) as [dig x]. cbn [fst] in Hpos.
  destruct (pretty_pos_lead dig Hpos) as (c & r & E & Hc & Hz & Hr). rewrite E.
  assert (Ed : drop_zeros (String c r) = String c (drop_zeros r)).
  { cbn. by rewrite (proj2 (Ascii.eqb_neq _ _) Hz). }
  rewrite Ed.
  destruct (repr_digits_number c (drop_zeros r)
    (Z.of_nat (String.length (String c r)) + x) Hc Hz (drop_zeros_digits _ Hr))
    as (i & fr & e & -> & Hi & Hf & He). by constructor.
Qed.

(** ** Strings *)
Lemma hex2_spec n : (0 <= n < 256)%Z → ∃ a b, hex2 n = String a (String b "") ∧
  hex_val a = Some (n / 16)%Z ∧ hex_val b = Some (n mod 16)%Z.
Proof.
  intros Hn. eexists _, _. split; [reflexivity|]. rewrite !hex_val_digit; [done|..].
  - apply Z.mod_pos_bound. lia.
  - split; [by apply Z.div_pos; lia|]. apply Z.div_lt_upper_bound; lia.
Qed.

Lemma hex4_text_spec x : (0 <= x < 65536)%Z → ∃ a b c d,
  hex4_text x = String a (String b (String c (String d ""))) ∧ hex4 a b c d = Some x.
Proof.
  intros Hx. unfold hex4_text.
  destruct (hex2_spec (x / 256)) as (a & b & -> & Ea & Eb).
  { split; [by apply Z.div_pos; lia|]. apply Z.div_lt_upper_bound; lia. }
  destruct (hex2_spec (x mod 256)) as (c & d & -> & Ec & Ed); [apply Z.mod_pos_bound; lia|].
  exists a, b, c, d. split; [done|]. unfold hex4. rewrite Ea, Eb, Ec, Ed. cbn [mbind option_bind].
  f_equal. Z.to_euclidean_division_equations. lia.
Qed.

(** An escape of a code unit that is no surrogate, and of one. *)
Lemma u_escape_unquote x t : (0 <= x < 65536)%Z → is_surrogate x = false →
  unquote 0 ("\u" +:+ hex4_text x +:+ t) = rune_bytes x +:+ unquote 0 t.
Proof.
  intros Hx Hs. destruct (hex4_text_spec x Hx) as (a & b & c & d & -> & E). str_norm.
  cbn [unquote]. change (Ascii.eqb "\" backslash) with true.
  change (escape_byte "u") with (@None ascii). cbv iota. rewrite E.
  change (default 0%Z (Some x)) with x. cbv zeta. by rewrite Hs.
Qed.

Lemma u_escape_scan x t : (0 <= x < 65536)%Z →
  scan_string ("\u" +:+ hex4_text x +:+ t) = prefix_fst ("\u" +:+ hex4_text x) (scan_string t).
Proof.
  intros Hx. destruct (hex4_text_spec x Hx) as (a & b & c & d & -> & E). str_norm.
  cbn [scan_string]. change (Ascii.eqb "\" quote) with false.
  change (Ascii.eqb "\" backslash) with true. change (escape_byte "u") with (@None ascii).
  change (Ascii.eqb "u" "u") with true. cbv iota. rewrite E. by destruct (scan_string t) as [[]|].
Qed.

Lemma unquote_pair a b c d a' b' c' d' t hi lo x :
  hex4 a b c d = Some hi → is_surrogate hi = true → hex4 a' b' c' d' = Some lo →
  utf16_pair hi lo = Some x →
  unquote 0 (String "\" (String "u" (String a (String b (String c (String d
    (String "\" (String "u" (String a' (String b' (String c' (String d' t)))))))))))) =
  rune_bytes x +:+ unquote 0 t.
Proof.
  intros E Hs E' Hp. set (r5 := String "\" (String "u" (String a' _))).
  transitivity (let rr := default 0%Z (hex4 a b c d) in
    if is_surrogate rr then
      match (lo ← hex4 a' b' c' d'; utf16_pair rr lo) with
      | Some x => rune_bytes x +:+ unquote 0 t
      | None => RuneError +:+ unquote 0 r5
      end
    else rune_bytes rr +:+ unquote 0 r5); [done|].
  rewrite E, E'. change (default 0%Z (Some hi)) with hi. cbv zeta. rewrite Hs.
  cbn [mbind option_bind]. by rewrite Hp.
Qed.

(** Two escapes that make one character. *)
Lemma pair_unquote x t : (65536 <= x < 1114112)%Z →
  unquote 0 ("\u" +:+ hex4_text (55296 + (x - 65536) / 1024)
             +:+ "\u" +:+ hex4_text (56320 + (x - 65536) mod 1024) +:+ t) =
  rune_bytes x +:+ unquote 0 t.
Proof.
  intros Hx. set (hi := (55296 + (x - 65536) / 1024)%Z). set (lo := (56320 + (x - 65536) mod 1024)%Z).
  assert (Hhi : (55296 <= hi < 56320)%Z).
  { unfold hi. Z.to_euclidean_division_equations. lia. }
  assert (Hlo : (56320 <= lo < 57344)%Z).
  { unfold lo. pose proof (Z.mod_pos_bound (x - 65536) 1024). lia. }
  destruct (hex4_text_spec hi) as (a & b & c & d & -> & E); [lia|].
  destruct (hex4_text_spec lo) as (a' & b' & c' & d' & -> & E'); [lia|]. str_norm.
  apply (unquote_pair _ _ _ _ _ _ _ _ _ hi lo); [done| |done|].
  - unfold is_surrogate. rewrite andb_true_iff, Z.leb_le, Z.ltb_lt. lia.
  - unfold utf16_pair. rewrite !(proj2 (Z.leb_le _ _)), !(proj2 (Z.ltb_lt _ _)) by lia.
    cbn [andb]. f_equal. unfold hi, lo. Z.to_euclidean_division_equations. lia.
Qed.

(** A character of several bytes is its code point. *)
Lemma rune_value_spec c p r k :
  rune_width (String c (p +:+ r)) = S (S k) → String.length p = S k →
  let x := rune_value (S (S k)) (String c (p +:+ r)) in
  (128 <= x < 1114112)%Z ∧ is_surrogate x = false ∧ rune_bytes x = String c p.
Proof.
  assert (Hin : ∀ lo hi b, in_range lo hi b = true ↔ (lo <= byte_val b <= hi)%Z).
  { intros lo hi b. unfold in_range. rewrite andb_true_iff, !Z.leb_le. done. }
  assert (Hb : ∀ b, ascii_of_N (Z.to_N (byte_val b)) = b).
  { intros b. unfold byte_val. by rewrite N2Z.id, ascii_N_embedding. }
  assert (Hs : ∀ a b, second_ok a b = true → (128 <= byte_val b <= 191)%Z ∧
    (byte_val a = 224 → 160 <= byte_val b)%Z ∧ (byte_val a = 237 → byte_val b <= 159)%Z ∧
    (byte_val a = 240 → 144 <= byte_val b)%Z ∧ (byte_val a = 244 → byte_val b <= 143)%Z).
  { assert (Hone : ∀ n a, in_range n n a = bool_decide (byte_val a = n)).
    { intros n a. apply eq_true_iff_eq. rewrite Hin, bool_decide_eq_true. lia. }
    intros a b. unfold second_ok. rewrite !Hone.
    repeat (case_bool_decide; [intros ?%Hin; lia|]). intros ?%Hin.
    split; [lia|]. split_and!; congruence. }
  assert (Hx : ∀ x, (128 <= x < 1114112)%Z → ¬ (55296 <= x < 57344)%Z → is_surrogate x = false).
  { intros x _ Hx. unfold is_surrogate. apply not_true_iff_false.
    rewrite andb_true_iff, Z.leb_le, Z.ltb_lt. lia. }
  intros Hw Hl. cbv zeta.
  destruct p as [|b p]; [done|]. rewrite !string_app_cons in *. cbn [rune_width] in Hw.
  destruct (in_range 194 223 c) eqn:E2.
  { destruct (cont b) eqn:Eb; [|done]. injection Hw as <-. destruct p; [|done].
    apply Hin in E2. apply Hin in Eb. cbn [rune_value].
    assert (E : rune_bytes (byte_val c mod 32 * 64 + byte_val b mod 64) = String c (String b "")).
    { unfold rune_bytes. rewrite (proj2 (Z.ltb_ge _ _)), (proj2 (Z.ltb_lt _ _))
        by (Z.to_euclidean_division_equations; lia). cbn [bytes_str fold_right].
      f_equal; [|f_equal]; rewrite <-Hb; do 2 f_equal; Z.to_euclidean_division_equations; lia. }
    split_and!; [..|done]; [| |apply Hx]; Z.to_euclidean_division_equations; lia. }
  destruct (in_range 224 239 c) eqn:E3.
  { destruct (p +:+ r) as [|d q] eqn:Eq; [done|].
    destruct (second_ok c b && cont d) eqn:Eb; [|done]. injection Hw as <-.
    destruct p as [|d' [|? ?]]; [done| |done]. rewrite string_app_cons, string_app_nil_l in Eq.
    injection Eq as -> ->. clear Hl. apply andb_true_iff in Eb as [(Hc1 & Hc2 & Hc3 & _)%Hs Eb].
    apply Hin in E3. apply Hin in Eb. cbn [rune_value].
    set (x := (byte_val c mod 16 * 4096 + byte_val b mod 64 * 64 + byte_val d mod 64)%Z).
    assert (Ex : (x = (byte_val c - 224) * 4096 + (byte_val b - 128) * 64 + (byte_val d - 128))%Z).
    { unfold x. Z.to_euclidean_division_equations. lia. }
    clearbody x. split_and!; [lia..|apply Hx; lia|].
    unfold rune_bytes. rewrite !(proj2 (Z.ltb_ge _ _)), (proj2 (Z.ltb_lt _ _)) by lia.
    cbn [bytes_str fold_right]. f_equal; [|f_equal; [|f_equal]]; rewrite <-Hb; do 2 f_equal;
      Z.to_euclidean_division_equations; lia. }
  destruct (in_range 240 244 c) eqn:E4; [|done].
  destruct (p +:+ r) as [|d [|e q]] eqn:Eq; [done..|].
  destruct (second_ok c b && cont d && cont e) eqn:Eb; [|done]. injection Hw as <-.
  destruct p as [|d' [|e' [|? ?]]]; [done|done| |done]. rewrite !string_app_cons, string_app_nil_l in Eq.
  injection Eq as -> -> ->. clear Hl.
  apply andb_true_iff in Eb as [[(Hc1 & _ & _ & Hc2 & Hc3)%Hs Ed]%andb_true_iff Ee].
  apply Hin in E4. apply Hin in Ed. apply Hin in Ee. cbn [rune_value].
  set (x := (byte_val c mod 8 * 262144 + byte_val b mod 64 * 4096 + byte_val d mod 64 * 64
             + byte_val e mod 64)%Z).
  assert (Ex : (x = (byte_val c - 240) * 262144 + (byte_val b - 128) * 4096
                    + (byte_val d - 128) * 64 + (byte_val e - 128))%Z).
  { unfold x. Z.to_euclidean_division_equations. lia. }
  clearbody x. split_and!; [lia..|apply Hx; lia|].
  unfold rune_bytes. rewrite !(proj2 (Z.ltb_ge _ _)) by lia.
  cbn [bytes_str fold_right]. f_equal; [|f_equal; [|f_equal; [|f_equal]]]; rewrite <-Hb; do 2 f_equal;
    Z.to_euclidean_division_equations; lia.
Qed.

Lemma py_escape_ascii_spec c t : (byte_val c <? 128)%Z = true →
  unquote 0 (py_escape_ascii c +:+ t) = String c (unquote 0 t) ∧
  scan_string (py_escape_ascii c +:+ t) = prefix_fst (py_escape_ascii c) (scan_string t).
Proof.
  intros Hc. unfold py_escape_ascii.
  repeat match goal with
  | |- context [if Ascii.eqb c ?d then _ else _] =>
      destruct (Ascii.eqb_spec c d) as [->|?];
        [split; [reflexivity|]; str_norm; cbn [scan_string]; by destruct (scan_string t) as [[]|]|]
  end.
  pose proof (byte_val_range c). apply Z.ltb_lt in Hc as Hc'.
  destruct (_ || _) eqn:E.
  - rewrite <-string_app_assoc. rewrite u_escape_unquote, u_escape_scan; [|lia..|].
    + by rewrite rune_bytes_ascii.
    + unfold is_surrogate. by rewrite (proj2 (Z.leb_gt _ _)) by lia.
  - apply orb_false_iff in E as [E _]. str_norm. cbn [unquote scan_string].
    rewrite (proj2 (Ascii.eqb_neq c quote)), (proj2 (Ascii.eqb_neq c backslash)) by done.
    rewrite Hc, E. split; [done|]. by destruct (scan_string t) as [[]|].
Qed.

Lemma py_escape_rune_spec x t : (128 <= x < 1114112)%Z → is_surrogate x = false →
  unquote 0 (py_escape_rune x +:+ t) = rune_bytes x +:+ unquote 0 t ∧
  scan_string (py_escape_rune x +:+ t) = prefix_fst (py_escape_rune x) (scan_string t).
Proof.
  intros Hx Hs. unfold py_escape_rune. destruct (Z.ltb_spec x 65536).
  - rewrite <-string_app_assoc.
    split; [apply u_escape_unquote; [lia|done]|].
    apply u_escape_scan; lia.
  - rewrite <-!string_app_assoc. split; [apply pair_unquote; lia|].
    rewrite !u_escape_scan.
    + destruct (scan_string t) as [[]|]; cbn [prefix_fst]; [|done]. by rewrite <-!string_app_assoc.
    + pose proof (Z.mod_pos_bound (x - 65536) 1024). lia.
    + Z.to_euclidean_division_equations. lia.
Qed.

(** A lone low surrogate is read as U+FFFD. *)
Lemma lone_spec c t :
  let e := "\u" +:+ hex4_text (56320 + byte_val c) in
  unquote 0 (e +:+ t) = RuneError +:+ unquote 0 t ∧
  scan_string (e +:+ t) = prefix_fst e (scan_string t).
Proof.
  pose proof (byte_val_range c). cbv zeta. rewrite <-string_app_assoc.
  split; [|apply u_escape_scan; lia].
  destruct (hex4_text_spec (56320 + byte_val c)) as (a & b & d & e & -> & E); [lia|].
  str_norm. set (x := (56320 + byte_val c)%Z) in *.
  transitivity (let rr := default 0%Z (hex4 a b d e) in
    if is_surrogate rr then
      match t with
      | String b (String u (String g1 (String g2 (String g3 (String g4 r11))))) =>
          match (if Ascii.eqb b backslash && Ascii.eqb u "u"
                 then lo ← hex4 g1 g2 g3 g4; utf16_pair rr lo else None) with
          | Some x => rune_bytes x +:+ unquote 0 r11
          | None => RuneError +:+ unquote 0 t
          end
      | _ => RuneError +:+ unquote 0 t
      end
    else rune_bytes rr +:+ unquote 0 t); [done|].
  rewrite E. change (default 0%Z (Some x)) with x. cbv zeta. unfold is_surrogate.
  rewrite (proj2 (Z.leb_le _ _)), (proj2 (Z.ltb_lt _ _)) by lia. cbn [andb].
  assert (Hp : ∀ lo, utf16_pair x lo = None).
  { intros lo. unfold utf16_pair. by rewrite (proj2 (Z.ltb_ge x 56320)), andb_false_r by lia. }
  destruct t as [|a0 [|a1 [|a2 [|a3 [|a4 [|a5 t]]]]]]; try done. destruct (_ && _); [|done].
  destruct (hex4 a2 a3 a4 a5) as [lo|]; [|done].
  change (Some lo ≫= λ lo, utf16_pair x lo) with (utf16_pair x lo). by rewrite Hp.
Qed.

Lemma py_escape_skip p t : py_escape (String.length p) (p +:+ t) = py_escape 0 t.
Proof. induction p as [|c p IH]; [by destruct t|]. rewrite !string_app_cons. cbn. by rewrite IH. Qed.

(** What py_escape writes, character by character. *)
Lemma py_escape_spec s t :
  unquote 0 (py_escape 0 s) = clean 0 s ∧
  scan_string (py_escape 0 s +:+ String quote t) = Some (py_escape 0 s, t).
Proof.
  assert (Hone : ∀ e x c u, clean 0 c = x +:+ clean 0 u →
    (∀ t, unquote 0 (e +:+ t) = x +:+ unquote 0 t ∧
          scan_string (e +:+ t) = prefix_fst e (scan_string t)) →
    unquote 0 (py_escape 0 u) = clean 0 u ∧
      scan_string (py_escape 0 u +:+ String quote t) = Some (py_escape 0 u, t) →
    unquote 0 (e +:+ py_escape 0 u) = clean 0 c ∧
      scan_string ((e +:+ py_escape 0 u) +:+ String quote t) = Some (e +:+ py_escape 0 u, t)).
  { intros e x c u Ec He [E1 E2]. rewrite <-string_app_assoc. split.
    - by rewrite (proj1 (He _)), E1, Ec.
    - by rewrite (proj2 (He _)), E2. }
  induction s as [|c r Hc IH|c p r k Hw Hl Hc Hp Ht IH|c r Hc Hw IH] using rune_ind; [done|..].
  - cbn [py_escape]. rewrite Hc. apply (Hone _ (String c "")); [|intros u|exact IH].
    + cbn [clean]. by rewrite Hc.
    + by apply py_escape_ascii_spec.
  - cbn [py_escape]. rewrite (high_ltb _ Hc), Hw. cbv iota. rewrite <-Hl, py_escape_skip, Hl.
    destruct (rune_value_spec c p r k Hw Hl) as (Hx & Hs & Eb).
    apply (Hone _ (String c p)); [|intros u|exact IH].
    + cbn [clean]. rewrite (high_ltb _ Hc), Hw. cbv iota. by rewrite <-Hl, clean_copy.
    + rewrite <-Eb. by apply py_escape_rune_spec.
  - cbn [py_escape]. rewrite Hc. rewrite string_app_assoc.
    assert (E : clean 0 (String c r) = RuneError +:+ clean 0 r).
    { cbn [clean]. rewrite Hc. by destruct (rune_width (String c r)) as [|[|k]] eqn:E; [..|by destruct (Hw k)]. }
    destruct (rune_width (String c r)) as [|[|k]] eqn:E'; [..|by destruct (Hw k)];
      (apply (Hone _ RuneError); [exact E|intros u; apply lone_spec|exact IH]).
Qed.

(** ** Documents *)
Lemma py_json_ok : dialect_ok py_json.
Proof.
  split; cbn [py_json d_escape d_space d_float].
  - intros s t. apply py_escape_spec.
  - intros s. by apply (py_escape_spec s "").
  - done.
  - exact number_repr.
Qed.
