(* ===== verification/Sql.v ===== *)
(** * Tables as lists of rows

    The SQL of db/migrations and internal/store is translated statement by
    statement onto lists of rows in heap order: [update_where] is
    [UPDATE .. SET f WHERE p], [List.filter] is [SELECT .. WHERE p], [count] is
    [count( * ) FILTER (WHERE p)], [order_by] is [ORDER BY].  [sql_eq] and
    [sql_lt] are the comparisons of a nullable column: NULL makes them not
    true. *)
From S2P Require Import Prelude.

Section sql.
Context {A : Type}.
Implicit Types (p q : A → bool) (f : A → A) (l : list A).

Definition update_where p f l : list A := map (λ r, if p r then f r else r) l.
Definition count p l : nat := length (List.filter p l).

Lemma count_app p l k : count p (l ++ k) = count p l + count p k.
Proof. unfold count. by rewrite List.filter_app, length_app. Qed.

Lemma count_cons p x l : count p (x :: l) = (if p x then 1 else 0) + count p l.
Proof. unfold count. simpl. by destruct (p x). Qed.

Lemma count_le_length p l : count p l ≤ length l.
Proof.
  induction l as [|x l IH]; [done|]. rewrite count_cons. simpl.
  destruct (p x); lia.
Qed.

Lemma count_ext_in p q l : (∀ x, x ∈ l → p x = q x) → count p l = count q l.
Proof.
  induction l as [|x l IH]; intros H; [done|]. rewrite !count_cons.
  rewrite (H x), IH; [done| |left]. intros y Hy. apply H. by right.
Qed.

Lemma count_mono p q l :
  (∀ x, x ∈ l → p x = true → q x = true) → count p l ≤ count q l.
Proof.
  induction l as [|x l IH]; intros H; [done|]. rewrite !count_cons.
  assert (count p l ≤ count q l) by (apply IH; intros y Hy; apply H; by right).
  pose proof (H x (list_elem_of_here x l)) as Hx.
  destruct (p x); [rewrite (Hx eq_refl); lia|lia].
Qed.

Lemma count_pos p l : 0 < count p l ↔ ∃ x, x ∈ l ∧ p x = true.
Proof.
  induction l as [|x l IH].
  { split; [unfold count; simpl; lia|]. intros (? & []%not_elem_of_nil & _). }
  rewrite count_cons. destruct (p x) eqn:E.
  - split; [|lia]. intros _. exists x. split; [left|done].
  - simpl. rewrite IH. split.
    + intros (y & Hy & Hp). exists y. split; [by right|done].
    + intros (y & [->|Hy]%elem_of_cons & Hp); [congruence|eauto].
Qed.

Lemma count_split p q l :
  count p l = count (λ x, p x && q x) l + count (λ x, p x && negb (q x)) l.
Proof.
  induction l as [|x l IH]; [done|]. rewrite !count_cons, IH.
  destruct (p x), (q x); simpl; lia.
Qed.

Lemma count_filter p q l : count q (List.filter p l) = count (λ x, p x && q x) l.
Proof.
  induction l as [|x l IH]; [done|]. rewrite count_cons. simpl.
  destruct (p x); rewrite ?count_cons, IH; done.
Qed.

Lemma filter_conj p q l : List.filter (λ x, p x && q x) l = List.filter q (List.filter p l).
Proof.
  induction l as [|x l IH]; [done|]. cbn [List.filter]. rewrite IH.
  destruct (p x); simpl; by destruct (q x).
Qed.

Lemma filter_none p l : (∀ x, x ∈ l → p x = false) → List.filter p l = [].
Proof.
  intros H. rewrite (List.filter_ext_in p (λ _, false) l), filter_false; [done|].
  intros x. rewrite <-list_elem_of_In. auto.
Qed.

Lemma filter_update_where_untouched p f q l :
  (∀ x, x ∈ l → p x = true → q x = false ∧ q (f x) = false) →
  List.filter q (update_where p f l) = List.filter q l.
Proof.
  induction l as [|x l IH]; intros H; [done|].
  cbn [update_where map List.filter]. fold (update_where p f l). rewrite IH.
  - destruct (p x) eqn:E; [|done].
    by destruct (H x (list_elem_of_here x l) E) as [-> ->].
  - intros y Hy. apply H. by right.
Qed.

Lemma elem_of_update_where p f l y :
  y ∈ update_where p f l ↔ ∃ x, x ∈ l ∧ y = (if p x then f x else x).
Proof.
  unfold update_where. rewrite list_elem_of_In, in_map_iff.
  setoid_rewrite list_elem_of_In. split; intros (x & H1 & H2); eauto.
Qed.

Lemma elem_of_filter p l x : x ∈ List.filter p l ↔ x ∈ l ∧ p x = true.
Proof. rewrite !list_elem_of_In, List.filter_In. done. Qed.

Lemma find_update_where p f q l :
  (∀ x, p x = true → q (f x) = q x) →
  List.find q (update_where p f l) = (λ x, if p x then f x else x) <$> List.find q l.
Proof.
  intros H. induction l as [|x l IH]; [done|].
  cbn [update_where map List.find]. fold (update_where p f l). rewrite IH.
  destruct (p x) eqn:E; [rewrite H by done|]; destruct (q x); simpl; rewrite ?E; done.
Qed.

Lemma find_app p l k :
  List.find p (l ++ k) =
  match List.find p l with Some x => Some x | None => List.find p k end.
Proof. induction l as [|x l IH]; [done|]. simpl. by destruct (p x). Qed.

Lemma find_Some_elem p l x : List.find p l = Some x → x ∈ l ∧ p x = true.
Proof. intros H%List.find_some. by rewrite list_elem_of_In. Qed.

Lemma length_update_where p f l : length (update_where p f l) = length l.
Proof. apply length_map. Qed.

(** Counting after an update, when the update keeps [q] on the rows it hits. *)
Lemma count_update_where p f q l :
  (∀ x, x ∈ l → p x = true → q (f x) = q x) →
  count q (update_where p f l) = count q l.
Proof.
  induction l as [|x l IH]; intros H; [done|].
  cbn [update_where map]. rewrite !count_cons.
  fold (update_where p f l). rewrite IH.
  - destruct (p x) eqn:E; [|done]. rewrite H; [done|left|done].
  - intros y Hy. apply H. by right.
Qed.

Lemma count_update_where_le p f q l :
  (∀ x, x ∈ l → p x = true → q (f x) = true → q x = true) →
  count q (update_where p f l) ≤ count q l.
Proof.
  induction l as [|x l IH]; intros H; [done|].
  cbn [update_where map]. rewrite !count_cons. fold (update_where p f l).
  assert (count q (update_where p f l) ≤ count q l)
    by (apply IH; intros y Hy; apply H; by right).
  pose proof (H x (list_elem_of_here x l)) as Hx.
  destruct (p x); [|lia]. destruct (q (f x)); [|lia]. rewrite Hx by done. lia.
Qed.

(** An update that hits at most [n] rows adds at most [n] to any count. *)
Lemma count_update_where_bound p f q l :
  count q (update_where p f l) ≤ count q l + count p l.
Proof.
  induction l as [|x l IH]; [done|].
  cbn [update_where map]. rewrite !count_cons. fold (update_where p f l).
  destruct (p x), (q x), (q (f x)); lia.
Qed.

Lemma update_where_none p f l :
  (∀ x, x ∈ l → p x = false) → update_where p f l = l.
Proof.
  induction l as [|x l IH]; intros H; [done|].
  cbn [update_where map]. fold (update_where p f l).
  rewrite (H x) by left. f_equal. apply IH. intros y Hy. apply H. by right.
Qed.

Lemma update_where_id p f l :
  (∀ x, x ∈ l → p x = true → f x = x) → update_where p f l = l.
Proof.
  induction l as [|x l IH]; intros H; [done|].
  cbn [update_where map]. fold (update_where p f l). rewrite IH.
  - destruct (p x) eqn:E; [|done]. f_equal. apply H; [left|done].
  - intros y Hy. apply H. by right.
Qed.

(** A projection the update keeps. *)
Lemma map_update_where {B} (g : A → B) p f l :
  (∀ x, p x = true → g (f x) = g x) → map g (update_where p f l) = map g l.
Proof.
  intros H. unfold update_where. rewrite map_map. apply map_ext.
  intros x. destruct (p x) eqn:E; auto.
Qed.

Lemma count_key_NoDup {K} (key : A → K) p l :
  NoDup (map key l) → (∀ x y, x ∈ l → y ∈ l → p x = true → p y = true → key x = key y) →
  count p l ≤ 1.
Proof.
  induction l as [|x l IH]; simpl; intros Hnd H; [unfold count; simpl; lia|].
  inversion_clear Hnd as [|?? Hx Hnd']. rewrite count_cons.
  destruct (p x) eqn:E.
  - enough (¬ 0 < count p l) by lia.
    intros (y & Hy & Hp)%count_pos. apply Hx.
    rewrite (H x y); [|left|by right|done|done].
    apply list_elem_of_In, in_map, list_elem_of_In, Hy.
  - apply IH; [done|]. intros y z Hy Hz. apply H; by right.
Qed.

(** Two rows with the same key are the same row. *)
Lemma NoDup_key_inj {K} (key : A → K) l x y :
  NoDup (map key l) → x ∈ l → y ∈ l → key x = key y → x = y.
Proof.
  induction l as [|z l IH]; simpl; [by intros _ ?%not_elem_of_nil|].
  intros Hnd. inversion_clear Hnd as [|?? Hz Hnd'].
  assert (Hin : ∀ w, w ∈ l → key w ∈ map key l).
  { intros w Hw. apply list_elem_of_In, in_map, list_elem_of_In, Hw. }
  intros [->|Hx]%elem_of_cons [->|Hy]%elem_of_cons E; auto.
  - destruct Hz. rewrite E. auto.
  - destruct Hz. rewrite <-E. auto.
Qed.
End sql.

(** ** Boolean searches *)
Lemma elem_of_map_1 {A B} (f : A → B) x (l : list A) : x ∈ l → f x ∈ map f l.
Proof. intros H. by apply list_elem_of_In, in_map, list_elem_of_In. Qed.

Lemma elem_of_map_2 {A B} (f : A → B) y (l : list A) :
  y ∈ map f l → ∃ x, x ∈ l ∧ f x = y.
Proof.
  intros (x & E & H)%list_elem_of_In%in_map_iff. exists x. by rewrite list_elem_of_In.
Qed.

Lemma existsb_elem {A} (p : A → bool) l : existsb p l = true ↔ ∃ x, x ∈ l ∧ p x = true.
Proof. rewrite existsb_exists. by setoid_rewrite list_elem_of_In. Qed.

Lemma existsb_eqb_elem (x : string) l : existsb (String.eqb x) l = true ↔ x ∈ l.
Proof.
  rewrite existsb_elem. setoid_rewrite String.eqb_eq. split.
  - by intros (? & ? & <-).
  - eauto.
Qed.

Lemma existsb_key_false {A} (key : A → string) k l :
  existsb (λ x, String.eqb (key x) k) l = false ↔ ∀ x, x ∈ l → key x ≠ k.
Proof.
  rewrite <-not_true_iff_false, existsb_elem. setoid_rewrite String.eqb_eq.
  split; [intros H x Hx E; eauto|]. intros H (x & Hx & E). by apply (H x).
Qed.

Lemma filter_key_NoDup {A} (key : A → string) l x :
  NoDup (map key l) → x ∈ l →
  List.filter (λ y, String.eqb (key y) (key x)) l = [x].
Proof.
  intros Hnd Hx. induction Hx as [l|x y l Hx IH]; cbn [List.filter map] in *;
    inversion_clear Hnd as [|?? Hn Hnd'].
  - rewrite String.eqb_refl. f_equal. apply filter_none. intros y Hy.
    apply String.eqb_neq. intros E. apply Hn. rewrite <-E.
    by apply list_elem_of_In, in_map, list_elem_of_In.
  - destruct (String.eqb_spec (key y) (key x)) as [E|]; [|auto].
    destruct Hn. rewrite E. by apply list_elem_of_In, in_map, list_elem_of_In.
Qed.

(** ** Nullable columns *)
Definition sql_eq (o : option string) (x : string) : bool :=
  match o with Some y => String.eqb y x | None => false end.
Definition sql_lt (o : option Z) (x : Z) : bool :=
  match o with Some y => (y <? x)%Z | None => false end.

Lemma sql_eq_true o x : sql_eq o x = true ↔ o = Some x.
Proof.
  destruct o as [y|]; simpl; [|done]. rewrite String.eqb_eq.
  split; congruence.
Qed.

Lemma sql_lt_true o x : sql_lt o x = true ↔ ∃ y, o = Some y ∧ (y < x)%Z.
Proof.
  destruct o as [y|]; simpl; [|split; [done|by intros (?&?&_)]]. rewrite Z.ltb_lt.
  split; [eauto|]. by intros (? & [= <-] & ?).
Qed.

(** ** ORDER BY *)
Definition order_by {A} (R : relation A) `{∀ x y, Decision (R x y)} (l : list A) : list A :=
  merge_sort R l.

Section order.
Context {A} (R : relation A) `{!∀ x y, Decision (R x y)} `{!Total R, !Transitive R}.

Lemma elem_of_order_by l x : x ∈ order_by R l ↔ x ∈ l.
Proof. unfold order_by. by rewrite merge_sort_Permutation. Qed.

Lemma length_order_by l : length (order_by R l) = length l.
Proof. apply Permutation_length, merge_sort_Permutation. Qed.

Lemma head_filter_sorted (q : A → bool) k x :
  StronglySorted R k → head (List.filter q k) = Some x →
  x ∈ k ∧ q x = true ∧ ∀ y, y ∈ k → q y = true → R x y.
Proof.
  intros Hs. induction Hs as [|z k _ IH Hz]; [done|]. cbn [List.filter].
  destruct (q z) eqn:Eq; cbn [head].
  - intros [= ->]. split_and!; [left|done|].
    intros y [->|Hy]%elem_of_cons _.
    + by destruct (total R x x).
    + rewrite Forall_forall in Hz. auto.
  - intros (Hx & Hq & Hmin)%IH. split_and!; [by right|done|].
    intros y [->|Hy]%elem_of_cons Hqy; [congruence|auto].
Qed.

(** ORDER BY .. LIMIT 1 over the rows [q] lets through. *)
Lemma head_filter_order_by (q : A → bool) l x :
  head (List.filter q (order_by R l)) = Some x →
  x ∈ l ∧ q x = true ∧ ∀ y, y ∈ l → q y = true → R x y.
Proof.
  intros (Hx & Hq & Hmin)%head_filter_sorted.
  - rewrite elem_of_order_by in Hx. split_and!; [done..|].
    intros y Hy. apply Hmin. by rewrite elem_of_order_by.
  - apply (StronglySorted_merge_sort R).
Qed.

Lemma head_filter_order_by_None (q : A → bool) l :
  head (List.filter q (order_by R l)) = None → ∀ y, y ∈ l → q y = false.
Proof.
  intros Hh y Hy. apply not_true_iff_false. intros Hq.
  assert (Hin : y ∈ List.filter q (order_by R l)).
  { by rewrite elem_of_filter, elem_of_order_by. }
  destruct (List.filter q (order_by R l)); [by apply not_elem_of_nil in Hin|done].
Qed.

(** The first row is below every row. *)
Lemma order_by_head l x r : order_by R l = x :: r → ∀ y, y ∈ l → R x y.
Proof.
  intros E y Hy. pose proof (StronglySorted_merge_sort R l) as Hs.
  fold (order_by R l) in Hs. rewrite E in Hs.
  inversion_clear Hs as [|?? _ Hall].
  apply (elem_of_order_by l) in Hy. rewrite E in Hy.
  apply elem_of_cons in Hy as [->|Hy].
  - by destruct (total R x x).
  - rewrite Forall_forall in Hall. auto.
Qed.
End order.
