(* ===== verification/Schema.v ===== *)
(** * The app schema and the batch rollup trigger

    The tables of db/migrations/0001_init.sql as one record of row lists, and
    app.sync_batch_counts (db/migrations/0004_batch_rollup_authoritative.sql),
    the trigger that owns [succeeded], [failed] and [state] of a batch.  A
    statement on app.simulations goes through [insert_simulations] or
    [update_simulations_state], which fire the trigger for every row they
    touched, or through [update_simulations], which does not (the trigger is
    declared AFTER INSERT OR UPDATE OF state).  Timestamps are microseconds. *)
From S2P Require Import Prelude Sql.

(** ** Columns with a CHECK constraint *)
Inductive SimState := Queued | Running | Succeeded | Failed.
Inductive BatchState := Expanding | BQueued | BRunning | BDone.

#[export] Instance SimState_eq_dec : EqDecision SimState.
Proof. solve_decision. Defined.
#[export] Instance BatchState_eq_dec : EqDecision BatchState.
Proof. solve_decision. Defined.

Definition sim_state_text (s : SimState) : string :=
  match s with
  | Queued => "queued" | Running => "running"
  | Succeeded => "succeeded" | Failed => "failed"
  end.

(** CHECK (state IN ('queued','running','succeeded','failed')). *)
Definition sim_state_of (s : string) : option SimState :=
  if String.eqb s "queued" then Some Queued
  else if String.eqb s "running" then Some Running
  else if String.eqb s "succeeded" then Some Succeeded
  else if String.eqb s "failed" then Some Failed
  else None.

Definition batch_state_text (s : BatchState) : string :=
  match s with
  | Expanding => "expanding" | BQueued => "queued"
  | BRunning => "running" | BDone => "done"
  end.

Definition is_state (a b : SimState) : bool := bool_decide (a = b).
Definition terminal (s : SimState) : bool := is_state s Succeeded || is_state s Failed.

(** ** Rows *)
Record SimRow := mkSim {
  s_id : string;
  s_batch_id : option string;
  s_user_id : string;
  s_engine_version : string;
  s_priority : Z;
  s_model_ref : string;
  s_weather_ref : string;
  s_model_sha256 : option string;
  s_weather_sha256 : option string;
  s_extraction_spec : option string;
  s_content_hash : option string;
  s_state : SimState;
  s_runner_id : option string;
  s_lease_expires_at : option Z;
  s_attempts : Z;
  s_max_attempts : Z;
  s_error : option string;
  s_created_at : Z;
  s_started_at : option Z;
  s_finished_at : option Z;
}.

Record BatchRow := mkBatch {
  b_id : string;
  b_user_id : string;
  b_state : BatchState;
  b_total : Z;
  b_succeeded : Z;
  b_failed : Z;
  b_idempotency_key : option string;
  b_created_at : Z;
}.

Record ResultRow := mkResult {
  r_content_hash : string;
  r_verdict : string;
  r_metrics : string;
  r_artifact_uri : option string;
  r_artifact_expires_at : option Z;
  r_created_at : Z;
}.

Record UserRow := mkUser { u_id : string; u_email : string; u_created_at : Z }.

Record KeyRow := mkKey {
  k_id : string;
  k_user_id : string;
  k_key_hash : string;
  k_name : string;
  k_created_at : Z;
  k_revoked_at : option Z;
}.

Record DB := mkDB {
  users : list UserRow;
  api_keys : list KeyRow;
  batches : list BatchRow;
  simulations : list SimRow;
  results : list ResultRow;
}.

(** The primary keys app.users.id, which the foreign keys refer to. *)
Definition user_ids (db : DB) : list string := map u_id (users db).

Definition empty_db : DB := mkDB [] [] [] [] [].

#[export] Instance SimRow_eq_dec : EqDecision SimRow.
Proof. solve_decision. Defined.
#[export] Instance BatchRow_eq_dec : EqDecision BatchRow.
Proof. solve_decision. Defined.

Definition with_users (db : DB) (us : list UserRow) : DB :=
  mkDB us (api_keys db) (batches db) (simulations db) (results db).
Definition with_api_keys (db : DB) (ks : list KeyRow) : DB :=
  mkDB (users db) ks (batches db) (simulations db) (results db).
Definition with_batches (db : DB) (bs : list BatchRow) : DB :=
  mkDB (users db) (api_keys db) bs (simulations db) (results db).
Definition with_simulations (db : DB) (ss : list SimRow) : DB :=
  mkDB (users db) (api_keys db) (batches db) ss (results db).
Definition with_results (db : DB) (rs : list ResultRow) : DB :=
  mkDB (users db) (api_keys db) (batches db) (simulations db) rs.

(** The running-phase columns of a row, the ones the lifecycle functions set. *)
Definition set_run (s : SimRow) (st : SimState) (runner : option string)
    (lease : option Z) (attempts : Z) (err : option string)
    (started finished : option Z) : SimRow :=
  mkSim (s_id s) (s_batch_id s) (s_user_id s) (s_engine_version s) (s_priority s)
    (s_model_ref s) (s_weather_ref s) (s_model_sha256 s) (s_weather_sha256 s)
    (s_extraction_spec s) (s_content_hash s) st runner lease attempts
    (s_max_attempts s) err (s_created_at s) started finished.

(** The three columns the Runner back-fills. *)
Definition set_hashes (s : SimRow) (m w h : string) : SimRow :=
  mkSim (s_id s) (s_batch_id s) (s_user_id s) (s_engine_version s) (s_priority s)
    (s_model_ref s) (s_weather_ref s) (Some m) (Some w)
    (s_extraction_spec s) (Some h) (s_state s) (s_runner_id s)
    (s_lease_expires_at s) (s_attempts s) (s_max_attempts s) (s_error s)
    (s_created_at s) (s_started_at s) (s_finished_at s).

(** ** app.sync_batch_counts *)
Definition is_child (bid : string) (s : SimRow) : bool := sql_eq (s_batch_id s) bid.

Record Sub := mkSub {
  sub_inserted : Z; sub_succeeded : Z; sub_failed : Z; sub_done : Z; sub_running : Z;
}.

Definition sub_of (bid : string) (ss : list SimRow) : Sub :=
  let cs := List.filter (is_child bid) ss in
  mkSub (Z.of_nat (length cs))
    (Z.of_nat (count (λ s, is_state (s_state s) Succeeded) cs))
    (Z.of_nat (count (λ s, is_state (s_state s) Failed) cs))
    (Z.of_nat (count (λ s, terminal (s_state s)) cs))
    (Z.of_nat (count (λ s, is_state (s_state s) Running) cs)).

Definition sync_state (total : Z) (sub : Sub) : BatchState :=
  if (sub_inserted sub <? total)%Z then Expanding
  else if (0 <? total)%Z && (total <=? sub_done sub)%Z then BDone
  else if (0 <? sub_running sub)%Z then BRunning
  else BQueued.

Definition sync_row (sub : Sub) (b : BatchRow) : BatchRow :=
  mkBatch (b_id b) (b_user_id b) (sync_state (b_total b) sub) (b_total b)
    (sub_succeeded sub) (sub_failed sub) (b_idempotency_key b) (b_created_at b).

Definition sync_batch_counts (batch_id : option string) (db : DB) : DB :=
  match batch_id with
  | None => db
  | Some bid =>
      with_batches db
        (update_where (λ b, String.eqb (b_id b) bid)
           (sync_row (sub_of bid (simulations db))) (batches db))
  end.

(** ** Statements on app.simulations *)

(** The row triggers of a statement, fired after it for each row in turn. *)
Definition fire_triggers (rows : list SimRow) (db : DB) : DB :=
  fold_left (λ d s, sync_batch_counts (s_batch_id s) d) rows db.

Definition insert_simulations (rows : list SimRow) (db : DB) : DB :=
  fire_triggers rows (with_simulations db (simulations db ++ rows)).

(** UPDATE .. SET state = .., ..: rows as returned by RETURNING, and the new
    database. *)
Definition update_simulations_state (p : SimRow → bool) (f : SimRow → SimRow)
    (db : DB) : list SimRow * DB :=
  let hit := map f (List.filter p (simulations db)) in
  (hit, fire_triggers hit (with_simulations db (update_where p f (simulations db)))).

(** UPDATE that does not set [state]: ROW_COUNT and the new database. *)
Definition update_simulations (p : SimRow → bool) (f : SimRow → SimRow)
    (db : DB) : Z * DB :=
  (Z.of_nat (count p (simulations db)),
   with_simulations db (update_where p f (simulations db))).

(** ** What the trigger maintains

    [rolled_up db]: every batch row is the recompute of its children. *)
Definition rolled_up (db : DB) : Prop :=
  ∀ b, b ∈ batches db → b = sync_row (sub_of (b_id b) (simulations db)) b.

(** ** Facts *)
Lemma is_state_true a b : is_state a b = true ↔ a = b.
Proof. apply bool_decide_eq_true. Qed.

Lemma sim_state_of_text s : sim_state_of (sim_state_text s) = Some s.
Proof. by destruct s. Qed.

Lemma sim_state_of_Some s st : sim_state_of s = Some st → s = sim_state_text st.
Proof.
  unfold sim_state_of.
  repeat match goal with
  | |- context [String.eqb s ?t] =>
      destruct (String.eqb_spec s t) as [->|]; [by intros [= <-]|]
  end.
  done.
Qed.

Lemma sync_row_idemp sub b : sync_row sub (sync_row sub b) = sync_row sub b.
Proof. done. Qed.

Lemma simulations_sync bid db :
  simulations (sync_batch_counts bid db) = simulations db.
Proof. by destruct bid. Qed.

Lemma results_sync bid db : results (sync_batch_counts bid db) = results db.
Proof. by destruct bid. Qed.

Lemma users_sync bid db : users (sync_batch_counts bid db) = users db.
Proof. by destruct bid. Qed.

Lemma api_keys_sync bid db : api_keys (sync_batch_counts bid db) = api_keys db.
Proof. by destruct bid. Qed.

Lemma fire_triggers_cons s rows db :
  fire_triggers (s :: rows) db = fire_triggers rows (sync_batch_counts (s_batch_id s) db).
Proof. done. Qed.

Lemma fire_triggers_tables rows db :
  simulations (fire_triggers rows db) = simulations db ∧
  results (fire_triggers rows db) = results db ∧
  users (fire_triggers rows db) = users db ∧
  api_keys (fire_triggers rows db) = api_keys db.
Proof.
  revert db. induction rows as [|s rows IH]; intros db; [done|].
  rewrite fire_triggers_cons.
  destruct (IH (sync_batch_counts (s_batch_id s) db)) as (-> & -> & -> & ->).
  by rewrite simulations_sync, results_sync, users_sync, api_keys_sync.
Qed.

Lemma simulations_fire rows db : simulations (fire_triggers rows db) = simulations db.
Proof. apply fire_triggers_tables. Qed.
Lemma results_fire rows db : results (fire_triggers rows db) = results db.
Proof. apply fire_triggers_tables. Qed.
Lemma users_fire rows db : users (fire_triggers rows db) = users db.
Proof. apply fire_triggers_tables. Qed.
Lemma api_keys_fire rows db : api_keys (fire_triggers rows db) = api_keys db.
Proof. apply fire_triggers_tables. Qed.
