(* ===== verification/Fixtures.v ===== *)
(** * Small concrete databases the witnesses evaluate *)
From S2P Require Import Prelude Schema.
Local Open Scope Z_scope.

Definition demo_user (id : string) : UserRow := mkUser id (id +:+ "@lab.edu") 0.

Definition demo_sim (id : string) (batch : option string) (st : SimState)
    (runner : option string) (lease : option Z) (attempts : Z) : SimRow :=
  mkSim id batch "alice" "24.1.0" 1 "s3://models/m.idf" "s3://weather/w.epw" None None
    None (Some "hash") st runner lease attempts 3 None 10
    (match st with Queued => None | _ => Some 20 end)
    (if terminal st then Some 30 else None).

(** A batch of two whose rollup was lost: both children terminal, counts zero. *)
Definition demo_missed : DB :=
  mkDB [demo_user "alice"] [] [mkBatch "b1" "alice" BRunning 2 0 0 None 5]
    [demo_sim "s1" (Some "b1") Succeeded (Some "runner-1") None 1;
     demo_sim "s2" (Some "b1") Failed (Some "runner-1") None 3] [].

(** Two queued simulations of different priority and one running one whose
    lease runs out at 500. *)
Definition demo_queue : DB :=
  mkDB [demo_user "alice"] [] []
    [demo_sim "s1" None Queued None None 0;
     demo_sim "s2" None Queued None None 1;
     demo_sim "s3" None Running (Some "runner-1") (Some 500) 1] [].
