(* ===== verification/Rollup.v ===== *)
(** * The batch rollup: what app.sync_batch_counts maintains

    [rolled_up_insert], [rolled_up_update_state] and [rolled_up_update]: every
    kind of statement on app.simulations leaves every batch row equal to the
    recompute of its children.  [ResyncStuckBatches] (internal/store/store.go)
    is the Reaper's second sweep over the same data: it does nothing where the
    trigger has run, and where it has not it writes what the trigger would
    have. *)
From S2P Require Import Prelude Sql Schema Fixtures.

(** ** internal/store: ResyncStuckBatches *)
Definition resync_hit (ss : list SimRow) (b : BatchRow) : bool :=
  let cs := List.filter (is_child (b_id b)) ss in
  negb (Nat.eqb (length cs) 0)
  && (bool_decide (b_state b = Expanding) || bool_decide (b_state b = BQueued)
      || bool_decide (b_state b = BRunning))
  && (0 <? b_total b)%Z
  && (b_total b <=? Z.of_nat (length cs))%Z
  && Nat.eqb (count (λ s, is_state (s_state s) Queued || is_state (s_state s) Running) cs) 0.

Definition resync_row (ss : list SimRow) (b : BatchRow) : BatchRow :=
  let sub := sub_of (b_id b) ss in
  mkBatch (b_id b) (b_user_id b) BDone (b_total b)
    (sub_succeeded sub) (sub_failed sub) (b_idempotency_key b) (b_created_at b).

Definition ResyncStuckBatches (db : DB) : Z * DB :=
  let hit := resync_hit (simulations db) in
  (Z.of_nat (count hit (batches db)),
   with_batches db (update_where hit (resync_row (simulations db)) (batches db))).

(** The batches some row of [rows] belongs to. *)
Definition touched (rows : list SimRow) (b : BatchRow) : bool :=
  existsb (is_child (b_id b)) rows.

Definition resynced (ss : list SimRow) (b : BatchRow) : BatchRow :=
  sync_row (sub_of (b_id b) ss) b.

(** ** The trigger, statement by statement *)
Lemma batches_fire rows db :
  batches (fire_triggers rows db) =
  update_where (touched rows) (resynced (simulations db)) (batches db).
Proof.
  revert db. induction rows as [|s rows IH]; intros db.
  { by rewrite update_where_none. }
  rewrite fire_triggers_cons, IH, simulations_sync.
  unfold touched at 2. cbn [existsb]. unfold is_child at 1.
  destruct (s_batch_id s) as [bid|] eqn:Eb; [|done].
  cbn [sync_batch_counts batches with_batches sql_eq].
  unfold update_where. rewrite map_map. apply map_ext. intros b.
  rewrite String.eqb_sym.
  destruct (String.eqb_spec bid (b_id b)) as [->|]; [|done].
  unfold touched. cbn [b_id sync_row orb]. by case_match.
Qed.

(** An update that runs the triggers of [rows] re-establishes the rollup when
    the batches it does not touch kept their children's counts. *)
Lemma rolled_up_fire rows db ss :
  rolled_up db →
  (∀ b, b ∈ batches db → touched rows b = false →
        sub_of (b_id b) ss = sub_of (b_id b) (simulations db)) →
  rolled_up (fire_triggers rows (with_simulations db ss)).
Proof.
  intros Hr Hs b. rewrite batches_fire, simulations_fire. cbn [simulations with_simulations batches].
  rewrite elem_of_update_where. intros (b0 & Hb & ->).
  destruct (touched rows b0) eqn:Et; [done|].
  rewrite Hs by done. auto.
Qed.

Lemma sub_of_counts bid ss :
  sub_of bid ss =
  mkSub (Z.of_nat (count (is_child bid) ss))
    (Z.of_nat (count (λ s, is_child bid s && is_state (s_state s) Succeeded) ss))
    (Z.of_nat (count (λ s, is_child bid s && is_state (s_state s) Failed) ss))
    (Z.of_nat (count (λ s, is_child bid s && terminal (s_state s)) ss))
    (Z.of_nat (count (λ s, is_child bid s && is_state (s_state s) Running) ss)).
Proof. unfold sub_of. by rewrite !count_filter. Qed.

Lemma sub_of_filter bid ss ss' :
  List.filter (is_child bid) ss = List.filter (is_child bid) ss' →
  sub_of bid ss = sub_of bid ss'.
Proof. unfold sub_of. by intros ->. Qed.

(** An update that keeps [batch_id] and [state] keeps every count. *)
Lemma sub_of_update bid p f ss :
  (∀ s, s ∈ ss → p s = true → s_batch_id (f s) = s_batch_id s ∧ s_state (f s) = s_state s) →
  sub_of bid (update_where p f ss) = sub_of bid ss.
Proof.
  intros H. rewrite !sub_of_counts.
  rewrite !count_update_where; [done|..]; intros s Hs Hp;
    destruct (H s Hs Hp) as [E1 E2]; unfold is_child; by rewrite E1, ?E2.
Qed.

Lemma touched_false rows b s :
  touched rows b = false → s ∈ rows → is_child (b_id b) s = false.
Proof.
  unfold touched. intros H Hs. apply not_true_iff_false. intros Hc.
  apply not_true_iff_false in H. apply H, existsb_exists.
  exists s. by rewrite <-list_elem_of_In.
Qed.

Lemma rolled_up_insert rows db :
  rolled_up db → rolled_up (insert_simulations rows db).
Proof.
  intros H. apply rolled_up_fire; [done|]. intros b _ Ht.
  apply sub_of_filter. rewrite List.filter_app.
  rewrite (filter_none _ rows), app_nil_r; [done|].
  intros s. by apply touched_false.
Qed.

Lemma rolled_up_update_state p f db :
  (∀ s, s_batch_id (f s) = s_batch_id s) →
  rolled_up db → rolled_up (update_simulations_state p f db).2.
Proof.
  intros Hf H. apply rolled_up_fire; [done|]. intros b _ Ht.
  apply sub_of_filter, filter_update_where_untouched. intros s Hs Hp.
  assert (Hc : is_child (b_id b) (f s) = false).
  { apply touched_false with (1 := Ht). apply list_elem_of_In, in_map.
    by apply List.filter_In; rewrite <-list_elem_of_In. }
  unfold is_child in *. by rewrite <-Hf.
Qed.

Lemma rolled_up_update p f db :
  (∀ s, s_batch_id (f s) = s_batch_id s) → (∀ s, s_state (f s) = s_state s) →
  rolled_up db → rolled_up (update_simulations p f db).2.
Proof.
  intros H1 H2 H b Hb. cbn [update_simulations snd simulations with_simulations batches] in *.
  rewrite sub_of_update by auto. auto.
Qed.

(** A new batch with a positive total and no children is already rolled up. *)
Lemma rolled_up_new_batch db b :
  rolled_up db →
  b_state b = Expanding → b_succeeded b = 0%Z → b_failed b = 0%Z → (0 < b_total b)%Z →
  (∀ s, s ∈ simulations db → is_child (b_id b) s = false) →
  rolled_up (with_batches db (batches db ++ [b])).
Proof.
  intros Hr Hst Hs Hf Ht Hc b'. cbn [with_batches batches simulations].
  intros [Hb| ->%list_elem_of_singleton]%elem_of_app; [auto|].
  unfold sub_of. rewrite (filter_none _ _ Hc). unfold sync_row, sync_state, count.
  cbn [sub_inserted sub_succeeded sub_failed List.filter length Z.of_nat].
  change (Z.of_nat 0) with 0%Z. rewrite (proj2 (Z.ltb_lt _ _) Ht).
  destruct b; simpl in *. by subst.
Qed.

(** ** The states of a rolled-up batch *)
Lemma terminal_pending ss :
  count (λ s, is_state (s_state s) Queued || is_state (s_state s) Running) ss +
  count (λ s, terminal (s_state s)) ss = length ss.
Proof.
  induction ss as [|s ss IH]; [done|]. rewrite !count_cons. simpl length.
  rewrite <-IH. unfold terminal. destruct (s_state s); simpl; lia.
Qed.

Lemma done_children ss :
  count (λ s, terminal (s_state s)) ss =
  count (λ s, is_state (s_state s) Succeeded) ss +
  count (λ s, is_state (s_state s) Failed) ss.
Proof.
  induction ss as [|s ss IH]; [done|]. rewrite !count_cons, IH.
  unfold terminal. destruct (s_state s); simpl; lia.
Qed.

Lemma rolled_up_done db b :
  rolled_up db → b ∈ batches db → (0 < b_total b)%Z →
  b_state b = BDone ↔
  (b_total b ≤ Z.of_nat (count (is_child (b_id b)) (simulations db)))%Z ∧
  (b_total b ≤ b_succeeded b + b_failed b)%Z.
Proof.
  intros Hr Hb Ht. rewrite (Hr b Hb) at 1 5 6. unfold sync_row, sync_state, sub_of. simpl.
  rewrite (proj2 (Z.ltb_lt _ _) Ht), done_children. simpl.
  fold (count (is_child (b_id b)) (simulations db)).
  repeat case_match; rewrite ?Z.ltb_lt, ?Z.ltb_ge, ?Z.leb_le, ?Z.leb_gt in *;
    unfold count in *; split; try done; lia.
Qed.

(** What a reader of an exact row with a positive total can take from it. *)
Lemma exact_row_reads ss b :
  (0 < b_total b)%Z → b = sync_row (sub_of (b_id b) ss) b →
  let children := List.filter (is_child (b_id b)) ss in
  let terminal_children := count (λ s, terminal (s_state s)) children in
  b_succeeded b = Z.of_nat (count (λ s, is_state (s_state s) Succeeded) children) ∧
  b_failed b = Z.of_nat (count (λ s, is_state (s_state s) Failed) children) ∧
  (b_state b = Expanding ↔ Z.of_nat (length children) < b_total b)%Z ∧
  (b_state b = BDone ↔ b_total b <= Z.of_nat (length children) ∧
                       b_total b <= Z.of_nat terminal_children)%Z ∧
  (b_state b = BDone → Z.of_nat (length children) = b_total b →
     ∀ s, s ∈ children → terminal (s_state s) = true).
Proof.
  intros Ht E. cbn zeta. set (cs := List.filter _ _) in *.
  assert (Est : b_state b = sync_state (b_total b) (sub_of (b_id b) ss))
    by (rewrite E at 1; done).
  unfold sync_state, sub_of in Est. fold cs in Est. simpl in Est.
  rewrite (proj2 (Z.ltb_lt _ _) Ht) in Est. simpl in Est.
  assert (Hdone : b_state b = BDone ↔ (b_total b <= Z.of_nat (length cs) ∧
                  b_total b <= Z.of_nat (count (λ s, terminal (s_state s)) cs))%Z).
  { rewrite Est. destruct (Z.ltb_spec (Z.of_nat (length cs)) (b_total b)); [split; [done|lia]|].
    destruct (Z.leb_spec (b_total b) (Z.of_nat (count (λ s, terminal (s_state s)) cs)));
      [by split|]. case_match; split; try done; lia. }
  split_and!; [by rewrite E at 1|by rewrite E at 1| |done|].
  - rewrite Est. destruct (Z.ltb_spec (Z.of_nat (length cs)) (b_total b)); [done|].
    split; [|lia]. by repeat case_match.
  - intros [_ Hall]%Hdone Hlen s Hs.
    pose proof (terminal_pending cs) as Hc.
    destruct (terminal (s_state s)) eqn:Et; [done|].
    assert (0 < count (λ s, is_state (s_state s) Queued || is_state (s_state s) Running) cs)%nat;
      [|lia].
    apply count_pos. exists s. split; [done|]. by destruct (s_state s).
Qed.

(** ** ResyncStuckBatches against the trigger *)

(** What the sweep writes on a row it hits is what the trigger would write. *)
Lemma resync_row_resynced ss b :
  resync_hit ss b = true → resync_row ss b = resynced ss b.
Proof.
  unfold resync_hit. rewrite !andb_true_iff, Z.ltb_lt, Z.leb_le, Nat.eqb_eq.
  intros [[[_ Ht] Hi] Hp]. unfold resync_row, resynced, sync_row, sync_state, sub_of. simpl.
  pose proof (terminal_pending (List.filter (is_child (b_id b)) ss)) as Hc.
  rewrite (proj2 (Z.ltb_ge _ _)) by lia.
  rewrite (proj2 (Z.ltb_lt 0 (b_total b))) by lia.
  by rewrite (proj2 (Z.leb_le _ _)) by lia.
Qed.

Lemma resync_hit_done ss b :
  resync_hit ss b = true → b_state b ≠ BDone.
Proof.
  unfold resync_hit. rewrite !andb_true_iff, !orb_true_iff, !bool_decide_eq_true.
  intros [[[[_ [[->| ->]| ->]] _] _] _]; done.
Qed.

Lemma resync_noop db : rolled_up db → ResyncStuckBatches db = (0%Z, db).
Proof.
  intros Hr. assert (Hno : ∀ b, b ∈ batches db → resync_hit (simulations db) b = false).
  { intros b Hb. apply not_true_iff_false. intros Hh.
    pose proof (resync_row_resynced _ _ Hh) as E.
    apply resync_hit_done in Hh. apply Hh.
    rewrite (Hr b Hb). fold (resynced (simulations db) b). by rewrite <-E. }
  unfold ResyncStuckBatches. rewrite update_where_none by done.
  unfold count. rewrite filter_none by done. by destruct db.
Qed.

Lemma resync_rolled_up db : rolled_up db → rolled_up (ResyncStuckBatches db).2.
Proof. intros H. by rewrite resync_noop. Qed.

(** A batch the trigger missed, all of whose children are present and terminal,
    is the recompute of its children after one sweep. *)
Lemma resync_repairs_row db b :
  b ∈ batches db → (0 < b_total b)%Z →
  (b_total b ≤ Z.of_nat (count (is_child (b_id b)) (simulations db)))%Z →
  (∀ s, s ∈ simulations db → is_child (b_id b) s = true → terminal (s_state s) = true) →
  b_state b ≠ BDone →
  resync_hit (simulations db) b = true.
Proof.
  intros Hb Ht Hi Hterm Hst. unfold resync_hit.
  rewrite !andb_true_iff, !orb_true_iff, !bool_decide_eq_true, Z.ltb_lt, Z.leb_le,
    negb_true_iff, Nat.eqb_neq, Nat.eqb_eq.
  unfold count in *. split_and!; try lia.
  - destruct (b_state b); naive_solver.
  - rewrite filter_none; [done|]. intros s [Hs Hc]%elem_of_filter.
    specialize (Hterm s Hs Hc). by destruct (s_state s).
Qed.

(** ** Properties *)

(** The Reaper's second sweep (ResyncStuckBatches) never disagrees with the
    rollup trigger.  On any database, consistent or not, it touches no
    simulation, and it leaves every batch row either as it was or exactly as
    app.sync_batch_counts would recompute it, in state done; on a database the
    trigger has kept up to date it repairs no row at all. *)
Theorem resync_agrees_with_trigger db :
  simulations (ResyncStuckBatches db).2 = simulations db ∧
  (∀ b', b' ∈ batches (ResyncStuckBatches db).2 →
     b' ∈ batches db ∨
     ∃ b, b ∈ batches db ∧ b_state b ≠ BDone ∧ b_state b' = BDone ∧
          b' = sync_row (sub_of (b_id b) (simulations db)) b) ∧
  (rolled_up db → ResyncStuckBatches db = (0%Z, db)).
Proof.
  split_and!; [done| |apply resync_noop].
  intros b'. cbn [ResyncStuckBatches snd batches with_batches].
  rewrite elem_of_update_where. intros (b & Hb & ->).
  destruct (resync_hit (simulations db) b) eqn:E; [right|by left].
  exists b. split_and!; [done|by apply resync_hit_done in E|done|].
  by apply resync_row_resynced.
Qed.

(** The sweep repairs every batch whose rollup the trigger missed.  If all
    of a batch's rows exist and are terminal but the batch is not done, then
    after one sweep its row is done and carries the exact numbers of succeeded
    and failed children. *)
Theorem resync_repairs_missed_rollup db b :
  b ∈ batches db → (0 < b_total b)%Z →
  (b_total b ≤ Z.of_nat (count (is_child (b_id b)) (simulations db)))%Z →
  (∀ s, s ∈ simulations db → is_child (b_id b) s = true → terminal (s_state s) = true) →
  b_state b ≠ BDone →
  ∃ b', b' ∈ batches (ResyncStuckBatches db).2 ∧
    b_id b' = b_id b ∧ b_state b' = BDone ∧
    b_succeeded b' = Z.of_nat (count (λ s, is_child (b_id b) s && is_state (s_state s) Succeeded)
                                 (simulations db)) ∧
    b_failed b' = Z.of_nat (count (λ s, is_child (b_id b) s && is_state (s_state s) Failed)
                              (simulations db)).
Proof.
  intros Hb Ht Hi Hterm Hst.
  pose proof (resync_repairs_row db b Hb Ht Hi Hterm Hst) as Hhit.
  exists (resync_row (simulations db) b). split_and!; [|done|done|..].
  - cbn [ResyncStuckBatches snd batches with_batches].
    apply elem_of_update_where. exists b. by rewrite Hhit.
  - unfold resync_row, sub_of. simpl. by rewrite count_filter.
  - unfold resync_row, sub_of. simpl. by rewrite count_filter.
Qed.

Lemma resync_repairs_missed_rollup_witness :
  ∃ b', b' ∈ batches (ResyncStuckBatches demo_missed).2 ∧
    b_id b' = "b1" ∧ b_state b' = BDone ∧ b_succeeded b' = 1%Z ∧ b_failed b' = 1%Z.
Proof.
  apply (resync_repairs_missed_rollup demo_missed (mkBatch "b1" "alice" BRunning 2 0 0 None 5)).
  - left.
  - done.
  - done.
  - intros s [->|[->|[]%not_elem_of_nil]%elem_of_cons]%elem_of_cons _; reflexivity.
  - done.
Defined.
