(* ===== verification/Lifecycle.v ===== *)
(** * The running-phase lifecycle of a simulation

    db/migrations/0006_eligible_simulations.sql and 0007_lifecycle_functions.sql:
    [eligible_simulations], [claim_simulation], [renew_lease],
    [finish_simulation] and [reap_expired_leases], one definition per SQL
    function, and the two statements the Runner runs outside them (the hash
    back-fill and the result upsert of runner/synergy_runner/db.py).  Each is a
    function on the whole database; [now] is the transaction's now(), and
    [locked] the rows other transactions hold locked, which FOR UPDATE SKIP
    LOCKED passes over. *)
From S2P Require Import Prelude Sql Schema Fixtures Rollup.
Local Open Scope Z_scope.

(** make_interval(secs => n), in microseconds. *)
Definition secs (n : Z) : Z := n * 1000000.

(** ** app.eligible_simulations *)
Definition running_of (u : string) (s : SimRow) : bool :=
  String.eqb (s_user_id s) u && is_state (s_state s) Running.

Definition running_count (u : string) (ss : list SimRow) : Z :=
  Z.of_nat (count (running_of u) ss).

Definition eligible (version : string) (cap : Z) (ss : list SimRow) (s : SimRow) : bool :=
  is_state (s_state s) Queued
  && String.eqb (s_engine_version s) version
  && (running_count (s_user_id s) ss <? cap).

(** ORDER BY priority DESC, created_at ASC *)
Definition claim_le (a b : SimRow) : Prop :=
  s_priority b < s_priority a ∨
  (s_priority a = s_priority b ∧ s_created_at a <= s_created_at b).

#[export] Instance claim_le_dec a b : Decision (claim_le a b).
Proof. unfold claim_le. apply _. Defined.
#[export] Instance claim_le_total : Total claim_le.
Proof. intros a b. unfold claim_le. lia. Qed.
#[export] Instance claim_le_trans : Transitive claim_le.
Proof. intros a b c. unfold claim_le. lia. Qed.

Definition eligible_simulations (version : string) (cap : Z) (db : DB) : list SimRow :=
  order_by claim_le (List.filter (eligible version cap (simulations db)) (simulations db)).

(** The KEDA trigger's query: SELECT count( * ) FROM app.eligible_simulations(..). *)
Definition eligible_depth (version : string) (cap : Z) (db : DB) : Z :=
  Z.of_nat (length (eligible_simulations version cap db)).

(** ** app.claim_simulation *)

(** The subquery: base table JOIN eligible ON id, ordered. *)
Definition claim_candidates (version : string) (cap : Z) (db : DB) : list SimRow :=
  let e := eligible_simulations version cap db in
  order_by claim_le
    (List.filter (λ s2, existsb (λ r, String.eqb (s_id r) (s_id s2)) e) (simulations db)).

(** FOR UPDATE SKIP LOCKED LIMIT 1. *)
Definition claim_pick (version : string) (cap : Z) (locked : string → bool)
    (db : DB) : option SimRow :=
  head (List.filter (λ s, negb (locked (s_id s))) (claim_candidates version cap db)).

Definition claim_row (runner : string) (lease now : Z) (s : SimRow) : SimRow :=
  set_run s Running (Some runner) (Some (now + secs lease)) (s_attempts s + 1)
    (s_error s) (Some now) (s_finished_at s).

Definition claim_simulation (runner version : string) (cap lease : Z)
    (locked : string → bool) (now : Z) (db : DB) : list SimRow * DB :=
  match claim_pick version cap locked db with
  | None => ([], db)
  | Some p =>
      update_simulations_state (λ s, String.eqb (s_id s) (s_id p))
        (claim_row runner lease now) db
  end.

(** ** The fenced transitions: WHERE id = .. AND runner_id = .. AND state = 'running' *)
Definition fence (sim runner : string) (s : SimRow) : bool :=
  String.eqb (s_id s) sim && sql_eq (s_runner_id s) runner && is_state (s_state s) Running.

Definition renew_row (lease now : Z) (s : SimRow) : SimRow :=
  set_run s (s_state s) (s_runner_id s) (Some (now + secs lease)) (s_attempts s)
    (s_error s) (s_started_at s) (s_finished_at s).

Definition renew_lease (sim runner : string) (lease now : Z) (db : DB) : Z * DB :=
  update_simulations (fence sim runner) (renew_row lease now) db.

Definition finish_row (succeeded : bool) (err : option string) (now : Z)
    (s : SimRow) : SimRow :=
  set_run s (if succeeded then Succeeded else Failed) (s_runner_id s) None
    (s_attempts s) err (s_started_at s) (Some now).

Definition finish_simulation (sim runner : string) (succeeded : bool)
    (err : option string) (now : Z) (db : DB) : Z * DB :=
  let u := update_simulations_state (fence sim runner)
             (finish_row succeeded err now) db in
  (Z.of_nat (length u.1), u.2).

(** ** app.reap_expired_leases: two statements in one transaction *)
Definition expired (now : Z) (s : SimRow) : bool :=
  is_state (s_state s) Running && sql_lt (s_lease_expires_at s) now.

Definition requeue_row (s : SimRow) : SimRow :=
  set_run s Queued None None (s_attempts s) (s_error s) (s_started_at s)
    (s_finished_at s).

Definition fail_row (now : Z) (s : SimRow) : SimRow :=
  set_run s Failed (s_runner_id s) (s_lease_expires_at s) (s_attempts s)
    (Some "lease expired") (s_started_at s) (Some now).

Definition reap_retry (now : Z) (s : SimRow) : bool :=
  expired now s && (s_attempts s <? s_max_attempts s).
Definition reap_give_up (now : Z) (s : SimRow) : bool :=
  expired now s && (s_max_attempts s <=? s_attempts s).

Definition reap_expired_leases (now : Z) (db : DB) : (Z * Z) * DB :=
  let r := update_simulations_state (reap_retry now) requeue_row db in
  let f := update_simulations_state (reap_give_up now) (fail_row now) r.2 in
  ((Z.of_nat (length r.1), Z.of_nat (length f.1)), f.2).

(** ** The Runner's own statements *)
Definition backfill_hashes (sim model_sha weather_sha hash : string) (db : DB) : DB :=
  (update_simulations (λ s, String.eqb (s_id s) sim)
     (λ s, set_hashes s model_sha weather_sha hash) db).2.

(** INSERT .. ON CONFLICT (content_hash) DO UPDATE.  make_interval(days => n) is
    taken as n times 24 hours; in a session whose time zone has daylight saving
    Postgres can add an hour more or less. *)
Definition upsert_result (hash verdict metrics : string) (uri : option string)
    (ttl_days : option Z) (now : Z) (db : DB) : DB :=
  let expires := (λ d, now + secs (d * 86400)) <$> ttl_days in
  let conflict r := String.eqb (r_content_hash r) hash in
  with_results db
    (if existsb conflict (results db)
     then update_where conflict
            (λ r, mkResult hash verdict metrics uri expires (r_created_at r)) (results db)
     else results db ++ [mkResult hash verdict metrics uri expires now]).

(** ** Facts: the shape of the statements *)
Lemma simulations_update_state p f db :
  simulations (update_simulations_state p f db).2 = update_where p f (simulations db).
Proof. unfold update_simulations_state. cbn [snd]. by rewrite simulations_fire. Qed.

Lemma returning_update_state p f db :
  (update_simulations_state p f db).1 = map f (List.filter p (simulations db)).
Proof. done. Qed.

Lemma returning_length p f db :
  length (update_simulations_state p f db).1 = count p (simulations db).
Proof. unfold count. by rewrite returning_update_state, length_map. Qed.

(** A statement that hits no row changes nothing. *)
Lemma update_state_none p f db :
  (∀ s, s ∈ simulations db → p s = false) → update_simulations_state p f db = ([], db).
Proof.
  intros H. unfold update_simulations_state.
  rewrite filter_none, update_where_none by done. by destruct db.
Qed.

Lemma update_none p f db :
  (∀ s, s ∈ simulations db → p s = false) → update_simulations p f db = (0, db).
Proof.
  intros H. unfold update_simulations, count.
  rewrite filter_none, update_where_none by done. by destruct db.
Qed.

Lemma finish_count sim runner ok err now db :
  (finish_simulation sim runner ok err now db).1 =
  Z.of_nat (count (fence sim runner) (simulations db)).
Proof. unfold finish_simulation. cbn [fst]. by rewrite returning_length. Qed.

Lemma simulations_finish sim runner ok err now db :
  simulations (finish_simulation sim runner ok err now db).2 =
  update_where (fence sim runner) (finish_row ok err now) (simulations db).
Proof. apply simulations_update_state. Qed.

(** Both reap statements at once: a row the first requeues is out of reach of
    the second. *)
Definition reap_row (now : Z) (s : SimRow) : SimRow :=
  if s_attempts s <? s_max_attempts s then requeue_row s else fail_row now s.

Lemma simulations_reap now db :
  simulations (reap_expired_leases now db).2 =
  update_where (expired now) (reap_row now) (simulations db).
Proof.
  unfold reap_expired_leases. cbn [snd]. rewrite !simulations_update_state.
  unfold update_where. rewrite map_map. apply map_ext. intros s.
  unfold reap_retry, reap_give_up, reap_row.
  destruct (expired now s) eqn:Ee; cbn [andb]; [|by rewrite Ee].
  destruct (Z.ltb_spec (s_attempts s) (s_max_attempts s)); [done|].
  by rewrite Ee, (proj2 (Z.leb_le _ _)).
Qed.

Lemma reap_counts now db :
  (reap_expired_leases now db).1 =
  (Z.of_nat (count (reap_retry now) (simulations db)),
   Z.of_nat (count (reap_give_up now) (simulations db))).
Proof.
  unfold reap_expired_leases. cbn [fst]. rewrite !returning_length.
  rewrite simulations_update_state.
  do 2 f_equal. apply count_update_where. intros s _ Hp.
  unfold reap_retry, reap_give_up in *. apply andb_true_iff in Hp as [_ Hlt].
  apply Z.ltb_lt in Hlt. rewrite (proj2 (Z.leb_gt _ _) Hlt), andb_false_r. done.
Qed.

Lemma reap_total now db :
  (reap_expired_leases now db).1.1 + (reap_expired_leases now db).1.2 =
  Z.of_nat (count (expired now) (simulations db)).
Proof.
  rewrite reap_counts. cbn [fst snd].
  rewrite (count_split (expired now) (λ s, s_attempts s <? s_max_attempts s)), Nat2Z.inj_add.
  do 2 f_equal. apply count_ext_in. intros s _.
  unfold reap_give_up. by rewrite Z.leb_antisym.
Qed.

(** ** Facts: the claim *)
Lemma eligible_true v cap ss s :
  eligible v cap ss s = true ↔
  s_state s = Queued ∧ s_engine_version s = v ∧ running_count (s_user_id s) ss < cap.
Proof.
  unfold eligible.
  rewrite !andb_true_iff, is_state_true, String.eqb_eq, Z.ltb_lt. tauto.
Qed.

Lemma elem_of_eligible v cap db s :
  s ∈ eligible_simulations v cap db ↔
  s ∈ simulations db ∧ eligible v cap (simulations db) s = true.
Proof. unfold eligible_simulations. by rewrite elem_of_order_by, elem_of_filter. Qed.

Lemma fence_true sim runner s :
  fence sim runner s = true ↔
  s_id s = sim ∧ s_runner_id s = Some runner ∧ s_state s = Running.
Proof.
  unfold fence.
  rewrite !andb_true_iff, String.eqb_eq, sql_eq_true, is_state_true. tauto.
Qed.

(** The join with the eligible set keeps exactly the eligible rows. *)
Lemma elem_of_joined v cap db s :
  NoDup (map s_id (simulations db)) →
  s ∈ List.filter (λ s2, existsb (λ r, String.eqb (s_id r) (s_id s2))
                           (eligible_simulations v cap db)) (simulations db) ↔
  s ∈ eligible_simulations v cap db.
Proof.
  intros Hnd. rewrite elem_of_filter, existsb_elem. split.
  - intros (Hs & r & Hr & E%String.eqb_eq).
    pose proof (proj1 (elem_of_eligible _ _ _ _) Hr) as [Hr' _].
    by rewrite <-(NoDup_key_inj s_id (simulations db) r s).
  - intros Hs. pose proof (proj1 (elem_of_eligible _ _ _ _) Hs) as [Hs' _].
    split; [done|]. exists s. split; [done|by apply String.eqb_eq].
Qed.

Lemma claim_pick_Some v cap locked db s :
  NoDup (map s_id (simulations db)) →
  claim_pick v cap locked db = Some s →
  s ∈ eligible_simulations v cap db ∧ locked (s_id s) = false ∧
  ∀ y, y ∈ eligible_simulations v cap db → locked (s_id y) = false → claim_le s y.
Proof.
  intros Hnd (Hs & Hl & Hmin)%head_filter_order_by; try apply _.
  rewrite elem_of_joined in Hs by done. apply negb_true_iff in Hl.
  split_and!; [done..|]. intros y Hy Hly. apply Hmin; [by rewrite elem_of_joined|].
  by rewrite Hly.
Qed.

Lemma claim_pick_None v cap locked db s :
  NoDup (map s_id (simulations db)) →
  claim_pick v cap locked db = None →
  s ∈ eligible_simulations v cap db → locked (s_id s) = true.
Proof.
  intros Hnd Hn Hs. apply head_filter_order_by_None with (y := s) in Hn.
  - by apply negb_false_iff.
  - by apply elem_of_joined.
Qed.

(** A claim returns one row, or finds every eligible row locked. *)
Lemma claim_simulation_cases runner v cap lease locked now db :
  NoDup (map s_id (simulations db)) →
  (claim_simulation runner v cap lease locked now db = ([], db) ∧
   ∀ s, s ∈ eligible_simulations v cap db → locked (s_id s) = true) ∨
  ∃ s, claim_pick v cap locked db = Some s ∧
    s ∈ simulations db ∧ eligible v cap (simulations db) s = true ∧
    (claim_simulation runner v cap lease locked now db).1 = [claim_row runner lease now s] ∧
    simulations (claim_simulation runner v cap lease locked now db).2 =
      update_where (λ r, String.eqb (s_id r) (s_id s)) (claim_row runner lease now)
        (simulations db).
Proof.
  intros Hnd. unfold claim_simulation.
  destruct (claim_pick v cap locked db) as [s|] eqn:Ep.
  - right. exists s. apply claim_pick_Some in Ep as Hp; [|done].
    destruct Hp as ([Hs He]%elem_of_eligible & _ & _).
    split_and!; [done..| |apply simulations_update_state].
    rewrite returning_update_state. erewrite filter_key_NoDup; [done|done|done].
  - left. split; [done|]. intros s. by apply claim_pick_None.
Qed.

(** ** Facts: the eligible depth *)
Lemma eligible_depth_count v cap db :
  eligible_depth v cap db = Z.of_nat (count (eligible v cap (simulations db)) (simulations db)).
Proof. unfold eligible_depth, eligible_simulations. by rewrite length_order_by. Qed.

Lemma running_count_claimed u s runner lease now ss :
  s_state s = Queued → NoDup (map s_id ss) → s ∈ ss →
  running_count u ss <=
  running_count u (update_where (λ r, String.eqb (s_id r) (s_id s)) (claim_row runner lease now) ss).
Proof.
  intros Hst Hnd Hs. unfold running_count. apply inj_le.
  induction ss as [|x ss IH]; [done|].
  cbn [update_where map] in *. rewrite !count_cons.
  inversion_clear Hnd as [|?? Hx Hnd'].
  destruct (String.eqb_spec (s_id x) (s_id s)) as [E|Hne].
  - fold (update_where (λ r, String.eqb (s_id r) (s_id s)) (claim_row runner lease now) ss).
    rewrite update_where_none.
    + apply elem_of_cons in Hs as [<-|Hs].
      * unfold running_of at 1. rewrite Hst. simpl. rewrite andb_false_r. lia.
      * destruct Hx. rewrite E. by apply elem_of_map_1.
    + intros y Hy. apply String.eqb_neq. intros Ey. apply Hx. rewrite E, <-Ey.
      by apply elem_of_map_1.
  - apply elem_of_cons in Hs as [->|Hs]; [done|].
    specialize (IH Hnd' Hs). unfold update_where in IH. lia.
Qed.

(** A claim takes its row out of the eligible set and puts nothing in. *)
Lemma eligible_depth_claim runner v cap lease locked now db s :
  NoDup (map s_id (simulations db)) →
  claim_pick v cap locked db = Some s →
  eligible_depth v cap (claim_simulation runner v cap lease locked now db).2 <
  eligible_depth v cap db.
Proof.
  intros Hnd Hp. rewrite !eligible_depth_count.
  destruct (claim_pick_Some _ _ _ _ _ Hnd Hp) as ([Hs He]%elem_of_eligible & _).
  pose proof He as (Hst & _)%eligible_true.
  unfold claim_simulation. rewrite Hp, simulations_update_state.
  set (q := λ r, String.eqb (s_id r) (s_id s)).
  set (ss' := update_where q (claim_row runner lease now) (simulations db)).
  rewrite (count_split (eligible v cap (simulations db)) q (simulations db)).
  assert (Hone : (0 < count (λ x, eligible v cap (simulations db) x && q x) (simulations db))%nat).
  { apply count_pos. exists s. split; [done|]. rewrite He. apply String.eqb_refl. }
  enough (Hle : (count (eligible v cap ss') ss' <=
    count (λ x, eligible v cap (simulations db) x && negb (q x)) (simulations db))%nat) by lia.
  assert (Hsub : ∀ x, eligible v cap ss' x = true → eligible v cap (simulations db) x = true).
  { intros x (H1 & H2 & H3)%eligible_true. apply eligible_true. split_and!; [done..|].
    pose proof (running_count_claimed (s_user_id x) s runner lease now _ Hst Hnd Hs).
    fold q ss' in H. lia. }
  etrans.
  - apply (count_mono _ (λ x, eligible v cap (simulations db) x && negb (q x))).
    intros x Hx Hex. rewrite (Hsub x Hex). simpl. apply negb_true_iff, not_true_iff_false.
    intros Hq. apply elem_of_update_where in Hx as (x0 & _ & ->).
    destruct (q x0) eqn:E0; [|by rewrite E0 in Hq].
    by apply eligible_true in Hex as (Hst' & _).
  - apply count_update_where_le. intros x _ Hq. rewrite !andb_true_iff, !negb_true_iff.
    intros [_ Hn]. unfold q in *. simpl in Hn. congruence.
Qed.

(** ** Properties *)

(** C19: a claim takes the right row and only that row.  app.claim_simulation
    either returns no row, leaves the database as it was and found every
    eligible simulation locked by another transaction, or returns exactly one:
    a queued simulation of the Runner's version whose user is under the cap,
    not locked, and with no unlocked eligible simulation of higher priority, or
    of equal priority and older; that row becomes running, owned by the Runner
    with a lease of p_lease_seconds and one more attempt, and every other row
    keeps every column. *)
Theorem claim_takes_best_eligible runner v cap lease locked now db :
  NoDup (map s_id (simulations db)) →
  (claim_simulation runner v cap lease locked now db = ([], db) ∧
   ∀ s, s ∈ eligible_simulations v cap db → locked (s_id s) = true) ∨
  ∃ s, s ∈ simulations db ∧
    s_state s = Queued ∧ s_engine_version s = v ∧
    running_count (s_user_id s) (simulations db) < cap ∧ locked (s_id s) = false ∧
    (∀ y, y ∈ eligible_simulations v cap db → locked (s_id y) = false → claim_le s y) ∧
    (claim_simulation runner v cap lease locked now db).1 =
      [set_run s Running (Some runner) (Some (now + lease * 1000000)) (s_attempts s + 1)
         (s_error s) (Some now) (s_finished_at s)] ∧
    ∀ y, y ∈ simulations (claim_simulation runner v cap lease locked now db).2 ↔
      y = claim_row runner lease now s ∨ (y ∈ simulations db ∧ s_id y ≠ s_id s).
Proof.
  intros Hnd. destruct (claim_simulation_cases runner v cap lease locked now db Hnd)
    as [H|(s & Hp & Hs & He & Hret & Hsims)]; [by left|right].
  destruct (claim_pick_Some _ _ _ _ _ Hnd Hp) as (_ & Hl & Hmin).
  apply eligible_true in He as (Hst & Hv & Hc).
  exists s. split_and!; [done..|]. intros y. rewrite Hsims, elem_of_update_where. split.
  - intros (x & Hx & ->). destruct (String.eqb_spec (s_id x) (s_id s)) as [E|Hne].
    + left. by rewrite (NoDup_key_inj s_id (simulations db) x s).
    + by right.
  - intros [->|[Hy Hne]].
    + exists s. by rewrite String.eqb_refl.
    + exists y. by rewrite (proj2 (String.eqb_neq _ _) Hne).
Qed.

Lemma claim_takes_best_eligible_witness :
  (claim_simulation "r2" "24.1.0" 5 90 (λ _, false) 100 demo_queue = ([], demo_queue) ∧
   ∀ s, s ∈ eligible_simulations "24.1.0" 5 demo_queue → false = true) ∨
  ∃ s, s ∈ simulations demo_queue ∧ s_state s = Queued ∧ s_engine_version s = "24.1.0" ∧
    running_count (s_user_id s) (simulations demo_queue) < 5 ∧ false = false ∧
    (∀ y, y ∈ eligible_simulations "24.1.0" 5 demo_queue → false = false → claim_le s y) ∧
    (claim_simulation "r2" "24.1.0" 5 90 (λ _, false) 100 demo_queue).1 =
      [set_run s Running (Some "r2"%string) (Some (100 + 90 * 1000000)) (s_attempts s + 1)
         (s_error s) (Some 100) (s_finished_at s)] ∧
    ∀ y, y ∈ simulations (claim_simulation "r2" "24.1.0" 5 90 (λ _, false) 100 demo_queue).2 ↔
      y = claim_row "r2" 90 100 s ∨ (y ∈ simulations demo_queue ∧ s_id y ≠ s_id s).
Proof.
  apply (claim_takes_best_eligible "r2" "24.1.0" 5 90 (λ _, false) 100 demo_queue).
  apply (bool_decide_unpack _). reflexivity.
Defined.

(** C20: the scaler and the claimer agree (ADR-0005, ADR-0011).  The eligible
    depth KEDA scales on is positive exactly when a Runner whose rows nobody
    else holds locked gets a simulation, and every claim that gets one lowers
    the depth, so at most that many claims in a row succeed. *)
Theorem scaler_agrees_with_claim runner v cap lease now db :
  NoDup (map s_id (simulations db)) →
  (0 < eligible_depth v cap db ↔
   (claim_simulation runner v cap lease (λ _, false) now db).1 ≠ []) ∧
  ∀ locked, (claim_simulation runner v cap lease locked now db).1 ≠ [] →
    eligible_depth v cap (claim_simulation runner v cap lease locked now db).2 <
    eligible_depth v cap db.
Proof.
  intros Hnd. split.
  - rewrite eligible_depth_count.
    destruct (claim_simulation_cases runner v cap lease (λ _, false) now db Hnd)
      as [[-> Hall]|(s & Hp & Hs & He & -> & _)]; split; try done.
    + intros H. assert (H' : (0 < count (eligible v cap (simulations db)) (simulations db))%nat) by lia.
      apply count_pos in H' as (s & Hs & He).
      by specialize (Hall s (proj2 (elem_of_eligible _ _ _ _) (conj Hs He))).
    + intros _. assert (H' : (0 < count (eligible v cap (simulations db)) (simulations db))%nat);
        [|lia]. apply count_pos. eauto.
  - intros locked Hne. destruct (claim_pick v cap locked db) as [s|] eqn:Hp.
    + by apply eligible_depth_claim with s.
    + destruct Hne. unfold claim_simulation. by rewrite Hp.
Qed.

Lemma scaler_agrees_with_claim_witness :
  eligible_depth "24.1.0" 5 demo_queue = 2 ∧
  (0 < eligible_depth "24.1.0" 5 demo_queue ↔
   (claim_simulation "r2" "24.1.0" 5 90 (λ _, false) 100 demo_queue).1 ≠ []).
Proof.
  split; [reflexivity|].
  apply (scaler_agrees_with_claim "r2" "24.1.0" 5 90 100 demo_queue).
  apply (bool_decide_unpack _). reflexivity.
Defined.

(** C27: one Reaper pass acts on the expired running leases and on nothing else.
    The two counts it returns add up to the number of running rows whose lease
    is before now(); each such row with attempts left is queued again without
    owner and lease, each other one is failed with error 'lease expired' (and
    keeps its owner and lease columns); all other rows keep every column, no
    expired lease is left, and a second pass at the same instant does nothing. *)
Theorem reap_acts_on_expired_leases now db :
  let '((requeued, failed), db') := reap_expired_leases now db in
  requeued + failed = Z.of_nat (count (expired now) (simulations db)) ∧
  simulations db' = map (λ s,
    if negb (is_state (s_state s) Running && sql_lt (s_lease_expires_at s) now) then s
    else if s_attempts s <? s_max_attempts s
    then set_run s Queued None None (s_attempts s) (s_error s) (s_started_at s) (s_finished_at s)
    else set_run s Failed (s_runner_id s) (s_lease_expires_at s) (s_attempts s)
           (Some "lease expired"%string) (s_started_at s) (Some now)) (simulations db) ∧
  (∀ s, s ∈ simulations db' → expired now s = false) ∧
  reap_expired_leases now db' = ((0, 0), db').
Proof.
  destruct (reap_expired_leases now db) as [[requeued failed] db'] eqn:E.
  assert (Hs : simulations db' = update_where (expired now) (reap_row now) (simulations db)).
  { by rewrite <-simulations_reap, E. }
  pose proof (reap_total now db) as Hc. rewrite E in Hc. cbn [fst snd] in Hc.
  assert (Hno : ∀ s, s ∈ simulations db' → expired now s = false).
  { intros s. rewrite Hs, elem_of_update_where. intros (s0 & _ & ->).
    destruct (expired now s0) eqn:Ee; [|done]. unfold reap_row. by case_match. }
  split_and!; [done| |done|].
  - rewrite Hs. unfold update_where. apply map_ext. intros s. unfold expired at 1.
    destruct (is_state _ _ && _); simpl; [|done]. unfold reap_row, requeue_row, fail_row. done.
  - unfold reap_expired_leases.
    rewrite (update_state_none (reap_retry now)).
    + cbn [snd fst length]. rewrite (update_state_none (reap_give_up now)); [done|].
      intros s Hin. unfold reap_give_up. by rewrite Hno.
    + intros s Hin. unfold reap_retry. by rewrite Hno.
Qed.
