(* ===== verification/Store.v ===== *)
(** * internal/store: the typed queries of the apiserver

    Two layers.  The [pg_*] definitions are the SQL statements of store.go on a
    database, with the constraint errors Postgres raises.  Above them,
    [PgStore] is the [*store.Store] the rest of the apiserver calls: every call
    runs one statement against a database other processes also write, and may
    fail.  What the surroundings do is a stream of [tick]s, one per statement:
    the interference [t_env] of other transactions before it, the failure
    [t_fault] (before the statement is applied, or after, when only the answer
    is lost), the transaction's now(), the caller's clock and the uuid that
    gen_random_uuid() draws.  [DataStore] is the interface of
    internal/api/server.go that the handlers are written against. *)
From S2P Require Import Prelude Sql Schema Rollup.

(** ** Errors *)
Inductive pg_error :=
  | UniqueViolation
  | ForeignKeyViolation
  | CheckViolation
  | InvalidText            (* not the text of a uuid *)
  | OutOfRange             (* not an int4, or a negative LIMIT or OFFSET *)
  | Unavailable (msg : string).

Inductive error := ErrNotFound | PgErr (e : pg_error).

#[export] Instance pg_error_eq_dec : EqDecision pg_error.
Proof. solve_decision. Defined.
#[export] Instance error_eq_dec : EqDecision error.
Proof. solve_decision. Defined.

(** uuid input: the canonical text of a uuid literal, [None] when the text is
    not one.  It is Postgres's, hence a parameter. *)
Class PgUuid := uuid_in : string → option string.

(** An instance for concrete runs: every text but the empty one. *)
Definition demo_uuid : PgUuid := λ t, if decide (t = "") then None else Some t.

(** ** The Go values *)
Record Simulation := mkSimulation {
  ID : string;
  BatchID : option string;
  UserID : string;
  EngineVersion : string;
  Priority : Z;
  ModelRef : string;
  WeatherRef : string;
  ModelSHA256 : option string;
  WeatherSHA256 : option string;
  ExtractionSpec : string;
  ContentHash : option string;
  State : string;
  RunnerID : option string;
  Attempts : Z;
  Error : option string;
  CreatedAt : Z;
  StartedAt : option Z;
  FinishedAt : option Z;
}.

Record Batch := mkBatchV {
  BID : string;
  BUserID : string;
  BState : string;
  BTotal : Z;
  NSucceeded : Z;
  NFailed : Z;
  IdempotencyKey : option string;
  BCreatedAt : Z;
}.

Record Result := mkResultV {
  RContentHash : string;
  Verdict : string;
  Metrics : string;
  ArtifactURI : option string;
  ArtifactExpiresAt : option Z;
  RCreatedAt : Z;
}.

Record InsertSimulationParams := mkParams {
  pBatchID : option string;
  pUserID : string;
  pEngineVersion : string;
  pPriority : Z;
  pModelRef : string;
  pWeatherRef : string;
  pModelSHA256 : option string;
  pWeatherSHA256 : option string;
  pExtractionSpec : string;
  pContentHash : string;
  pState : string;
}.

(** A nil or empty []byte is the empty string here, as len tells no more.  The
    column is jsonb: Postgres normalises the text (spaces, order and repetition of
    members), which is not modelled, so what is stored is the text sent. *)
Definition nullableJSON (b : string) : option string :=
  if decide (b = "") then None else Some b.

Definition int4 (z : Z) : bool := (- 2 ^ 31 <=? z)%Z && (z <? 2 ^ 31)%Z.

(** simulationColumns / scanSimulation *)
Definition scanSimulation (s : SimRow) : Simulation :=
  mkSimulation (s_id s) (s_batch_id s) (s_user_id s) (s_engine_version s)
    (s_priority s) (s_model_ref s) (s_weather_ref s) (s_model_sha256 s)
    (s_weather_sha256 s) (default "" (s_extraction_spec s)) (s_content_hash s)
    (sim_state_text (s_state s)) (s_runner_id s) (s_attempts s) (s_error s)
    (s_created_at s) (s_started_at s) (s_finished_at s).

(** batchColumns and the Scan of getBatchWhere *)
Definition scanBatch (b : BatchRow) : Batch :=
  mkBatchV (b_id b) (b_user_id b) (batch_state_text (b_state b)) (b_total b)
    (b_succeeded b) (b_failed b) (b_idempotency_key b) (b_created_at b).

Definition scanResult (r : ResultRow) : Result :=
  mkResultV (r_content_hash r) (r_verdict r) (r_metrics r) (r_artifact_uri r)
    (r_artifact_expires_at r) (r_created_at r).

(** QueryRow: the first row, or pgx.ErrNoRows mapped to ErrNotFound. *)
Definition first_row {A} (l : list A) : result error A :=
  match l with [] => Err ErrNotFound | x :: _ => Ok x end.

Definition map_ok {A B} (f : A → B) (r : result error A) : result error B :=
  match r with Ok a => Ok (f a) | Err e => Err e end.

Section pg.
Context {PU : PgUuid}.

(** A uuid parameter: the statement fails when its text is not a uuid. *)
Definition with_uuid {A} (t : string) (k : string → result error A) : result error A :=
  match uuid_in t with Some u => k u | None => Err (PgErr InvalidText) end.

(** *** Auth *)
Definition pg_user_id_for_key_hash (keyHash : string) (db : DB) : result error string :=
  map_ok k_user_id (first_row (List.filter
    (λ k, String.eqb (k_key_hash k) keyHash
          && match k_revoked_at k with None => true | Some _ => false end)
    (api_keys db))).

(** *** Results *)
Definition pg_get_result (hash : string) (db : DB) : result error Result :=
  map_ok scanResult (first_row
    (List.filter (λ r, String.eqb (r_content_hash r) hash) (results db))).

Definition pg_has_result (hash : string) (db : DB) : bool :=
  existsb (λ r, String.eqb (r_content_hash r) hash) (results db).

(** *** Simulations *)
Definition insert_row (id : string) (now clock : Z) (batch : option string)
    (user : string) (st : SimState) (p : InsertSimulationParams) : SimRow :=
  mkSim id batch user (pEngineVersion p) (pPriority p) (pModelRef p)
    (pWeatherRef p) (pModelSHA256 p) (pWeatherSHA256 p)
    (nullableJSON (pExtractionSpec p)) (Some (pContentHash p)) st
    None None 0 3 None now None
    (if String.eqb (pState p) "succeeded" then Some clock else None).

Definition with_uuid_opt {A} (t : option string)
    (k : option string → result error A) : result error A :=
  match t with None => k None | Some b => with_uuid b (λ u, k (Some u)) end.

(** The constraints of app.simulations, on parsed uuids. *)
Definition check_insert (id user : string) (batch : option string)
    (p : InsertSimulationParams) (db : DB) : result error SimState :=
  match sim_state_of (pState p) with
  | None => Err (PgErr CheckViolation)
  | Some st =>
      if negb (int4 (pPriority p)) then Err (PgErr OutOfRange)
      else if existsb (λ s, String.eqb (s_id s) id) (simulations db)
      then Err (PgErr UniqueViolation)
      else if existsb (String.eqb user) (user_ids db)
              && match batch with
                 | None => true
                 | Some b => existsb (λ r, String.eqb (b_id r) b) (batches db)
                 end
      then Ok st
      else Err (PgErr ForeignKeyViolation)
  end.

(** The row of the INSERT, or the error that refuses it. *)
Definition insert_values (id : string) (now clock : Z) (p : InsertSimulationParams)
    (db : DB) : result error SimRow :=
  with_uuid (pUserID p) (λ user, with_uuid_opt (pBatchID p) (λ batch,
    map_ok (λ st, insert_row id now clock batch user st p)
      (check_insert id user batch p db))).

Definition pg_insert_simulation (id : string) (now clock : Z)
    (p : InsertSimulationParams) (db : DB) : DB * result error string :=
  match insert_values id now clock p db with
  | Ok r => (insert_simulations [r] db, Ok id)
  | Err e => (db, Err e)
  end.

Definition pg_get_simulation (id : string) (db : DB) : result error Simulation :=
  with_uuid id (λ u, map_ok scanSimulation
    (first_row (List.filter (λ s, String.eqb (s_id s) u) (simulations db)))).

(** ORDER BY created_at ASC, id ASC *)
Definition page_le (a b : SimRow) : Prop :=
  (s_created_at a < s_created_at b)%Z ∨
  (s_created_at a = s_created_at b ∧ String.le (s_id a) (s_id b)).
#[export] Instance page_le_dec a b : Decision (page_le a b).
Proof. unfold page_le. apply _. Defined.

Definition pg_count_batch_simulations (batch : string) (db : DB) : result error Z :=
  with_uuid batch (λ u, Ok (Z.of_nat (count (is_child u) (simulations db)))).

Definition pg_page_batch_simulations (batch : string) (limit offset : Z)
    (db : DB) : result error (list Simulation) :=
  with_uuid batch (λ u,
    if (limit <? 0)%Z || (offset <? 0)%Z then Err (PgErr OutOfRange)
    else Ok (map scanSimulation
      (take (Z.to_nat limit) (drop (Z.to_nat offset)
        (order_by page_le (List.filter (is_child u) (simulations db))))))).

(** *** Batches *)
Definition pg_get_batch_where (p : BatchRow → bool) (db : DB) : result error Batch :=
  map_ok scanBatch (first_row (List.filter p (batches db))).

(** The unique index (user_id, idempotency_key); NULL keys never conflict. *)
Definition same_key (user : string) (key : option string) (b : BatchRow) : bool :=
  match key with
  | Some k => String.eqb (b_user_id b) user && sql_eq (b_idempotency_key b) k
  | None => false
  end.

Definition pg_create_batch (id : string) (now : Z) (userID : string) (total : Z)
    (key : option string) (db : DB) : DB * result error string :=
  let row := with_uuid userID (λ user,
    if negb (int4 total) then Err (PgErr OutOfRange)
    else if existsb (λ b, String.eqb (b_id b) id) (batches db)
         || existsb (same_key user key) (batches db)
    then Err (PgErr UniqueViolation)
    else if negb (existsb (String.eqb user) (user_ids db))
    then Err (PgErr ForeignKeyViolation)
    else Ok (mkBatch id user Expanding total 0 0 key now)) in
  match row with
  | Ok b => (with_batches db (batches db ++ [b]), Ok id)
  | Err e => (db, Err e)
  end.
End pg.

(** ** The store as the rest of the apiserver calls it *)

(** A failed call: [applied] says whether the statement took effect before the
    answer was lost. *)
Record fault := mkFault { applied : bool; fault_msg : string }.

Record tick := mkTick {
  t_env : DB → DB;
  t_fault : option fault;
  t_now : Z;
  t_clock : Z;
  t_uuid : string;
}.

Record World := mkWorld { w_db : DB; w_time : nat }.

(** internal/api/server.go: type dataStore interface *)
Class DataStore (W : Type) := {
  UserIDForKeyHash : string → state_t W (result error string);
  GetSimulation : string → state_t W (result error Simulation);
  GetResult : string → state_t W (result error Result);
  HasResult : string → state_t W (result error bool);
  InsertSimulation : InsertSimulationParams → state_t W (result error string);
  ListBatchSimulations :
    string → Z → Z → state_t W (result error (list Simulation * Z));
  CreateBatch : string → Z → option string → state_t W (result error string);
  GetBatch : string → state_t W (result error Batch);
  FindBatchByIdempotencyKey : string → string → state_t W (result error Batch);
}.

Section store.
Context {PU : PgUuid} (ticks : nat → tick).

(** One statement sent to the database. *)
Definition exec {A} (q : tick → DB → DB * result error A) : state_t World (result error A) :=
  λ w,
    let t := ticks (w_time w) in
    let d := t_env t (w_db w) in
    let '(d', r) := q t d in
    match t_fault t with
    | None => (mkWorld d' (S (w_time w)), r)
    | Some f => (mkWorld (if applied f then d' else d) (S (w_time w)),
                 Err (PgErr (Unavailable (fault_msg f))))
    end.

Definition query {A} (q : DB → result error A) : state_t World (result error A) :=
  exec (λ _ d, (d, q d)).

Definition st_insert_simulation (p : InsertSimulationParams) :
    state_t World (result error string) :=
  exec (λ t d, pg_insert_simulation (t_uuid t) (t_now t) (t_clock t) p d).

Definition st_list_batch_simulations (batch : string) (limit offset : Z) :
    state_t World (result error (list Simulation * Z)) :=
  total ← query (pg_count_batch_simulations batch);
  match total with
  | Err e => mret (Err e)
  | Ok n =>
      rows ← query (pg_page_batch_simulations batch limit offset);
      match rows with
      | Err e => mret (Err e)
      | Ok l => mret (Ok (l, n))
      end
  end.

Definition st_create_batch (userID : string) (total : Z) (key : option string) :
    state_t World (result error string) :=
  exec (λ t d, pg_create_batch (t_uuid t) (t_now t) userID total key d).

Definition st_get_batch (id : string) : state_t World (result error Batch) :=
  query (λ d, with_uuid id (λ u, pg_get_batch_where (λ b, String.eqb (b_id b) u) d)).

Definition st_find_batch (userID key : string) : state_t World (result error Batch) :=
  query (λ d, with_uuid userID (λ u,
    pg_get_batch_where (same_key u (Some key)) d)).

(** The second sweep of the Reaper: ROW_COUNT of the UPDATE. *)
Definition st_resync_stuck_batches : state_t World (result error Z) :=
  exec (λ _ d, let '(n, d') := ResyncStuckBatches d in (d', Ok n)).

#[export] Instance PgStore : DataStore World := {|
  UserIDForKeyHash := λ h, query (pg_user_id_for_key_hash h);
  GetSimulation := λ id, query (pg_get_simulation id);
  GetResult := λ h, query (pg_get_result h);
  HasResult := λ h, query (λ d, Ok (pg_has_result h d));
  InsertSimulation := st_insert_simulation;
  ListBatchSimulations := st_list_batch_simulations;
  CreateBatch := st_create_batch;
  GetBatch := st_get_batch;
  FindBatchByIdempotencyKey := st_find_batch;
|}.
End store.

(** ** Facts *)
#[export] Instance page_le_total : Total page_le.
Proof.
  intros a b. unfold page_le.
  destruct (Z.lt_total (s_created_at a) (s_created_at b)) as [|[E|]]; [auto| |auto].
  destruct (String.le_total (s_id a) (s_id b)); auto.
Qed.

#[export] Instance page_le_trans : Transitive page_le.
Proof.
  intros a b c. unfold page_le.
  intros [H1|[H1 H1']] [H2|[H2 H2']]; [left; lia..|].
  right. split; [lia|]. by transitivity (s_id b).
Qed.

Lemma first_row_filter {A} (p : A → bool) l x :
  first_row (List.filter p l) = Ok x → x ∈ l ∧ p x = true.
Proof.
  destruct (List.filter p l) as [|y k] eqn:E; [done|]. intros [= ->].
  apply elem_of_filter. rewrite E. left.
Qed.

(** What an accepted insert knows about the database. *)
Record insertable (id user : string) (batch : option string)
    (p : InsertSimulationParams) (db : DB) (st : SimState) : Prop := {
  ins_fresh : ∀ s, s ∈ simulations db → s_id s ≠ id;
  ins_user : user ∈ user_ids db;
  ins_batch : ∀ b, batch = Some b → ∃ br, br ∈ batches db ∧ b_id br = b;
  ins_state : pState p = sim_state_text st;
}.

Lemma check_insert_Ok id user batch p db st :
  check_insert id user batch p db = Ok st → insertable id user batch p db st.
Proof.
  unfold check_insert. destruct (sim_state_of (pState p)) as [st'|] eqn:Est; [|done].
  destruct (int4 (pPriority p)); cbn [negb]; [|done].
  destruct (existsb _ (simulations db)) eqn:Eid; [done|].
  destruct (_ && _) eqn:E; [|done]. intros [= <-].
  apply andb_true_iff in E as [Eu%existsb_eqb_elem Eb].
  split; [by apply existsb_key_false|done| |by apply sim_state_of_Some].
  intros b ->. apply existsb_elem in Eb as (br & Hbr & E%String.eqb_eq). eauto.
Qed.

Lemma pg_insert_simulation_Ok {PU : PgUuid} id now clock p db db' r :
  pg_insert_simulation id now clock p db = (db', Ok r) →
  ∃ user batch st, r = id ∧ uuid_in (pUserID p) = Some user ∧
    match pBatchID p with
    | None => batch = None
    | Some b => uuid_in b = batch ∧ is_Some batch
    end ∧
    insertable id user batch p db st ∧
    db' = insert_simulations [insert_row id now clock batch user st p] db.
Proof.
  unfold pg_insert_simulation, insert_values, with_uuid, with_uuid_opt, with_uuid.
  destruct (uuid_in (pUserID p)) as [u|]; [|done].
  destruct (pBatchID p) as [b|].
  - destruct (uuid_in b) as [ub|] eqn:Eub; [|done].
    destruct (check_insert id u (Some ub) p db) as [st|] eqn:Ec; [|done].
    intros [= <- <-]. exists u, (Some ub), st. eauto 10 using check_insert_Ok.
  - destruct (check_insert id u None p db) as [st|] eqn:Ec; [|done].
    intros [= <- <-]. exists u, None, st. eauto 10 using check_insert_Ok.
Qed.

Lemma pg_create_batch_Ok {PU : PgUuid} id now userID total key db db' r :
  pg_create_batch id now userID total key db = (db', Ok r) →
  ∃ user, r = id ∧ uuid_in userID = Some user ∧ user ∈ user_ids db ∧
    (∀ b, b ∈ batches db → b_id b ≠ id) ∧
    (∀ b, b ∈ batches db → same_key user key b = false) ∧
    db' = with_batches db (batches db ++ [mkBatch id user Expanding total 0 0 key now]).
Proof.
  unfold pg_create_batch, with_uuid. destruct (uuid_in userID) as [u|]; [|done].
  destruct (int4 total); cbn [negb]; [|done].
  destruct (existsb _ (batches db) || _) eqn:E1; [done|].
  destruct (existsb (String.eqb u) (user_ids db)) eqn:E2; cbn [negb]; [|done].
  intros [= <- <-]. apply orb_false_iff in E1 as [E1 E1'].
  exists u. split_and!; [done|done|by apply existsb_eqb_elem|by apply existsb_key_false| |done].
  intros b Hb. apply not_true_iff_false. intros Hk.
  apply not_true_iff_false in E1'. apply E1', existsb_elem. eauto.
Qed.
