(* ===== verification/PortalSql.v ===== *)
(** * The portal's statements on app.users and app.api_keys

    portal/src/lib/db.ts and api-keys.ts: one definition per statement, with the
    row's id, from gen_random_uuid(), and now() as arguments.  They are the only
    statements of the system that write these two tables. *)
From S2P Require Import Prelude Sql Schema Store.
Local Open Scope Z_scope.

(** ORDER BY created_at DESC *)
Definition newest_first (a b : KeyRow) : Prop := k_created_at b <= k_created_at a.
#[export] Instance newest_first_dec a b : Decision (newest_first a b).
Proof. unfold newest_first. apply _. Defined.

Section pg.
Context {PU : PgUuid}.

(** INSERT .. ON CONFLICT (email) DO UPDATE SET email = EXCLUDED.email RETURNING id:
    the update writes the email the row already has. *)
Definition pg_upsert_user (id : string) (now : Z) (email : string) (db : DB) :
    DB * result error string :=
  match List.find (λ u, String.eqb (u_email u) email) (users db) with
  | Some u => (db, Ok (u_id u))
  | None =>
      if existsb (String.eqb id) (user_ids db) then (db, Err (PgErr UniqueViolation))
      else (with_users db (users db ++ [mkUser id email now]), Ok id)
  end.

(** INSERT INTO app.api_keys (user_id, key_hash, name) .. RETURNING id *)
Definition pg_insert_key (id : string) (now : Z) (user hash name : string) (db : DB) :
    DB * result error string :=
  let row := with_uuid user (λ u,
    if existsb (λ k, String.eqb (k_id k) id) (api_keys db)
       || existsb (λ k, String.eqb (k_key_hash k) hash) (api_keys db)
    then Err (PgErr UniqueViolation)
    else if negb (existsb (String.eqb u) (user_ids db)) then Err (PgErr ForeignKeyViolation)
    else Ok (mkKey id u hash name now None)) in
  match row with
  | Ok k => (with_api_keys db (api_keys db ++ [k]), Ok id)
  | Err e => (db, Err e)
  end.

(** UPDATE .. SET revoked_at = now() WHERE id = $1 AND user_id = $2 AND revoked_at
    IS NULL: the number of rows *)
Definition revocable (key user : string) (k : KeyRow) : bool :=
  String.eqb (k_id k) key && String.eqb (k_user_id k) user
  && match k_revoked_at k with None => true | Some _ => false end.

Definition revoke_row (now : Z) (k : KeyRow) : KeyRow :=
  mkKey (k_id k) (k_user_id k) (k_key_hash k) (k_name k) (k_created_at k) (Some now).

Definition pg_revoke_key (now : Z) (key user : string) (db : DB) : DB * result error Z :=
  match with_uuid key (λ k, with_uuid user (λ u, Ok (k, u))) with
  | Err e => (db, Err e)
  | Ok (k, u) =>
      (with_api_keys db (update_where (revocable k u) (revoke_row now) (api_keys db)),
       Ok (Z.of_nat (count (revocable k u) (api_keys db))))
  end.

(** SELECT .. WHERE user_id = $1 ORDER BY created_at DESC *)
Definition pg_list_keys (user : string) (db : DB) : result error (list KeyRow) :=
  with_uuid user (λ u,
    Ok (order_by newest_first (List.filter (λ k, String.eqb (k_user_id k) u) (api_keys db)))).

(** ** As transactions *)
Inductive portal_stmt :=
  | UpsertUser (id : string) (now : Z) (email : string)
  | InsertKey (id : string) (now : Z) (user hash name : string)
  | RevokeKey (now : Z) (key user : string).

Definition portal_apply (q : portal_stmt) (db : DB) : DB :=
  match q with
  | UpsertUser id now email => (pg_upsert_user id now email db).1
  | InsertKey id now user hash name => (pg_insert_key id now user hash name db).1
  | RevokeKey now key user => (pg_revoke_key now key user db).1
  end.

(** They leave the queue alone. *)
Lemma portal_apply_queue q db : ∃ us ks,
  portal_apply q db = mkDB us ks (batches db) (simulations db) (results db).
Proof.
  destruct q; unfold portal_apply, pg_upsert_user, pg_insert_key, pg_revoke_key.
  - repeat case_match; (exists (users db), (api_keys db); by destruct db) || by do 2 eexists.
  - repeat case_match; (exists (users db), (api_keys db); by destruct db) || by do 2 eexists.
  - repeat case_match; (exists (users db), (api_keys db); by destruct db) || by do 2 eexists.
Qed.
End pg.
