(* ===== verification/Fleet.v ===== *)
(** * The fleet: every process that writes the queue, as one transition system

    The apiserver inserts simulations and batches and runs the Reaper's two
    sweeps; runners claim, renew, finish, back-fill and write results.  An
    [event] is one committed transaction of any of them, [apply] its effect on
    the database, and a run is a list of events: all interleavings, runners
    that die (no more events of theirs) or wake up late (a renew or finish long
    after), and clocks that disagree are runs.  [admissible] records what the
    callers guarantee: CreateBatch gets a positive total, InsertSimulation one
    of the two states its comment names.  The portal's transactions are events
    too; they leave the queue alone. *)
From S2P Require Import Prelude Sql Schema Fixtures Rollup Lifecycle Store PortalSql.
Local Open Scope Z_scope.

Inductive event :=
  | EInsertSimulation (id : string) (now clock : Z) (p : InsertSimulationParams)
  | ECreateBatch (id : string) (now : Z) (user : string) (total : Z) (key : option string)
  | EClaim (runner version : string) (cap lease : Z) (locked : string → bool) (now : Z)
  | ERenew (sim runner : string) (lease now : Z)
  | EFinish (sim runner : string) (succeeded : bool) (err : option string) (now : Z)
  | EReap (now : Z)
  | EResync
  | EBackfill (sim model_sha weather_sha hash : string)
  | EUpsertResult (hash verdict metrics : string) (uri : option string)
      (ttl : option Z) (now : Z)
  | EPortal (q : portal_stmt).

(** ** The abstract lifecycle of one simulation *)
Inductive phase :=
  | PQueued (attempts : Z)
  | PRunning (attempts : Z) (runner : string)
  | PSucceeded
  | PFailed.

Definition phase_of (s : SimRow) : phase :=
  match s_state s with
  | Queued => PQueued (s_attempts s)
  | Running => PRunning (s_attempts s) (default "" (s_runner_id s))
  | Succeeded => PSucceeded
  | Failed => PFailed
  end.

(** The legal transitions, with the default max_attempts of 3. *)
Inductive astep : phase → phase → Prop :=
  | AClaim n r : n < 3 → astep (PQueued n) (PRunning (n + 1) r)
  | AFinish n r ok : astep (PRunning n r) (if ok : bool then PSucceeded else PFailed)
  | ARequeue n r : n < 3 → astep (PRunning n r) (PQueued n)
  | AExpire n r : n = 3 → astep (PRunning n r) PFailed.

Definition find_sim (x : string) (db : DB) : option SimRow :=
  List.find (λ s, String.eqb (s_id s) x) (simulations db).

Definition phase_at (x : string) (db : DB) : option phase := phase_of <$> find_sim x db.

Section fleet.
Context {PU : PgUuid}.

Definition apply (e : event) (db : DB) : DB :=
  match e with
  | EInsertSimulation id now clock p => (pg_insert_simulation id now clock p db).1
  | ECreateBatch id now user total key => (pg_create_batch id now user total key db).1
  | EClaim runner version cap lease locked now =>
      (claim_simulation runner version cap lease locked now db).2
  | ERenew sim runner lease now => (renew_lease sim runner lease now db).2
  | EFinish sim runner ok err now => (finish_simulation sim runner ok err now db).2
  | EReap now => (reap_expired_leases now db).2
  | EResync => (ResyncStuckBatches db).2
  | EBackfill sim m w h => backfill_hashes sim m w h db
  | EUpsertResult h v m uri ttl now => upsert_result h v m uri ttl now db
  | EPortal q => portal_apply q db
  end.

Definition admissible (e : event) : bool :=
  match e with
  | EInsertSimulation _ _ _ p =>
      String.eqb (pState p) "queued" || String.eqb (pState p) "succeeded"
  | ECreateBatch _ _ _ total _ => 0 <? total
  | _ => true
  end.

Definition run (es : list event) (db : DB) : DB := fold_left (λ d e, apply e d) es db.

(** ** Well-formed databases *)
Definition phase_wf (s : SimRow) : Prop :=
  match s_state s with
  | Queued => s_runner_id s = None ∧ s_lease_expires_at s = None ∧
              s_finished_at s = None ∧ s_attempts s < 3
  | Running => is_Some (s_runner_id s) ∧ is_Some (s_lease_expires_at s) ∧
               is_Some (s_started_at s) ∧ s_finished_at s = None ∧ 1 <= s_attempts s
  | Succeeded => s_lease_expires_at s = None ∧ is_Some (s_finished_at s)
  | Failed => is_Some (s_started_at s) ∧ is_Some (s_finished_at s)
  end.

Record row_wf (s : SimRow) : Prop := {
  rw_max : s_max_attempts s = 3;
  rw_attempts : 0 <= s_attempts s <= 3;
  rw_phase : phase_wf s;
}.

Record db_wf (db : DB) : Prop := {
  wf_sim_ids : NoDup (map s_id (simulations db));
  wf_batch_ids : NoDup (map b_id (batches db));
  wf_batch_fk : ∀ s b, s ∈ simulations db → s_batch_id s = Some b → b ∈ map b_id (batches db);
  wf_totals : ∀ b, b ∈ batches db → 0 < b_total b;
  wf_keys : ∀ b1 b2 k, b1 ∈ batches db → b2 ∈ batches db →
    same_key (b_user_id b1) (Some k) b2 = true → b_idempotency_key b1 = Some k → b1 = b2;
  wf_rows : ∀ s, s ∈ simulations db → row_wf s;
  wf_rollup : rolled_up db;
}.

(** A database before any submission: users and keys exist, nothing else. *)
Definition initial (db : DB) : Prop := batches db = [] ∧ simulations db = [].

(** Transactions one after the other, each with its triggers; [ReadCommitted] has
    them overlap. *)
Inductive reachable : DB → Prop :=
  | reach_init db : initial db → reachable db
  | reach_step db e : reachable db → admissible e = true → reachable (apply e db).
End fleet.

(** The row [x] is owned by [runner]. *)
Definition owned (x runner : string) (db : DB) : bool :=
  existsb (fence x runner) (simulations db).

Definition claims_as (runner : string) (e : event) : bool :=
  match e with EClaim r _ _ _ _ _ => String.eqb r runner | _ => false end.

(** ** A concrete run: a batch of two, a Runner that dies, one that takes over *)
Definition demo_params (batch : option string) (st : string) : InsertSimulationParams :=
  mkParams batch "alice" "24.1.0" 1 "s3://models/m.idf" "s3://weather/w.epw"
    None None "" "h" st.

Definition demo_start : DB := mkDB [demo_user "alice"] [] [] [] [].

Definition demo_submit : list event :=
  [ECreateBatch "b1" 1 "alice" 2 (Some "key-1");
   EInsertSimulation "s1" 2 2 (demo_params (Some "b1") "queued");
   EInsertSimulation "s2" 3 3 (demo_params (Some "b1") "succeeded")].

Definition demo_takeover : list event :=
  [EClaim "r1" "24.1.0" 1 90 (λ _, false) 10;
   EReap 90000011;
   EClaim "r2" "24.1.0" 1 90 (λ _, false) 90000012].

(** ** Preservation, one kind of statement at a time *)
Section preservation.
Context {PU : PgUuid}.

Lemma db_wf_initial db : initial db → db_wf db.
Proof.
  intros [Hb Hs]. split; rewrite ?Hb, ?Hs; simpl; try set_solver.
  - constructor.
  - constructor.
  - intros b. rewrite Hb. set_solver.
Qed.

(** Rows of a batches table whose ids, users, totals and keys are kept. *)
Definition batch_key (b : BatchRow) :=
  (b_id b, b_user_id b, b_total b, b_idempotency_key b, b_created_at b).

Lemma map_b_id bs bs' : map batch_key bs' = map batch_key bs → map b_id bs' = map b_id bs.
Proof.
  intros H. apply (f_equal (map (λ x, x.1.1.1.1))) in H. by rewrite !map_map in H.
Qed.

Lemma batch_keys_fire rows db :
  map batch_key (batches (fire_triggers rows db)) = map batch_key (batches db).
Proof. rewrite batches_fire. by apply map_update_where. Qed.

(** The batch half of [db_wf] depends on the keys alone, and the rollup. *)
Lemma db_wf_batches db db' :
  map batch_key (batches db') = map batch_key (batches db) →
  db_wf db →
  NoDup (map s_id (simulations db')) →
  (∀ s b, s ∈ simulations db' → s_batch_id s = Some b → b ∈ map b_id (batches db)) →
  (∀ s, s ∈ simulations db' → row_wf s) → rolled_up db' → db_wf db'.
Proof.
  intros Hk Hwf Hnd Hfk Hrows Hr.
  assert (Hin : ∀ b, b ∈ batches db' → ∃ b0, b0 ∈ batches db ∧ batch_key b0 = batch_key b).
  { intros b Hb.
    apply (elem_of_map_2 batch_key). rewrite <-Hk. by apply elem_of_map_1. }
  pose proof (map_b_id _ _ Hk) as Hids.
  split; rewrite ?Hids; try done.
  - apply Hwf.
  - intros b (b0 & Hb0 & E)%Hin. pose proof (wf_totals _ Hwf b0 Hb0).
    injection E as _ _ <- _ _. done.
  - intros b1 b2 k H1 H2 Hs Hk1.
    destruct (Hin b1 H1) as (c1 & Hc1 & E1), (Hin b2 H2) as (c2 & Hc2 & E2).
    injection E1 as Ei1 Eu1 _ Ek1 _. injection E2 as Ei2 Eu2 _ Ek2 _.
    apply (NoDup_key_inj b_id (batches db')); [rewrite Hids; apply Hwf|done..|].
    rewrite <-Ei1, <-Ei2. f_equal.
    apply (wf_keys _ Hwf c1 c2 k); [done..| |congruence].
    unfold same_key in *. congruence.
Qed.

(** An UPDATE of the running-phase columns. *)
Lemma db_wf_update_state p f db :
  (∀ s, s_id (f s) = s_id s) → (∀ s, s_batch_id (f s) = s_batch_id s) →
  (∀ s, s ∈ simulations db → p s = true → row_wf s → row_wf (f s)) →
  db_wf db → db_wf (update_simulations_state p f db).2.
Proof.
  intros Hid Hb Hrow Hwf. apply (db_wf_batches db).
  - etrans; [apply batch_keys_fire|done].
  - done.
  - rewrite simulations_update_state, map_update_where by auto. apply Hwf.
  - intros s b. rewrite simulations_update_state, elem_of_update_where.
    intros (s0 & Hs0 & ->) E. apply (wf_batch_fk _ Hwf s0); [done|].
    destruct (p s0); [by rewrite Hb in E|done].
  - intros s. rewrite simulations_update_state, elem_of_update_where.
    intros (s0 & Hs0 & ->). pose proof (wf_rows _ Hwf s0 Hs0).
    destruct (p s0) eqn:E; auto.
  - apply rolled_up_update_state; [done|apply Hwf].
Qed.

Lemma db_wf_update p f db :
  (∀ s, s_id (f s) = s_id s) → (∀ s, s_batch_id (f s) = s_batch_id s) →
  (∀ s, s_state (f s) = s_state s) →
  (∀ s, s ∈ simulations db → p s = true → row_wf s → row_wf (f s)) →
  db_wf db → db_wf (update_simulations p f db).2.
Proof.
  intros Hid Hb Hst Hrow Hwf. apply (db_wf_batches db); [done|done|..];
    cbn [update_simulations snd with_simulations simulations].
  - rewrite map_update_where by auto. apply Hwf.
  - intros s b. rewrite elem_of_update_where.
    intros (s0 & Hs0 & ->) E. apply (wf_batch_fk _ Hwf s0); [done|].
    destruct (p s0); [by rewrite Hb in E|done].
  - intros s. rewrite elem_of_update_where.
    intros (s0 & Hs0 & ->). pose proof (wf_rows _ Hwf s0 Hs0).
    destruct (p s0) eqn:E; auto.
  - apply (rolled_up_update p f); [done..|apply Hwf].
Qed.
End preservation.

(** ** Row-level preservation of the lifecycle updates *)
Lemma row_wf_claim runner lease now s :
  s_state s = Queued → row_wf s → row_wf (claim_row runner lease now s).
Proof.
  intros Hst [Hm Ha Hp]. unfold phase_wf in Hp. rewrite Hst in Hp.
  destruct Hp as (_ & _ & Hf & Hlt). split; unfold phase_wf; simpl; [done|lia|].
  rewrite Hf. split_and!; eauto. lia.
Qed.

Lemma row_wf_renew lease now s : row_wf s → s_state s = Running → row_wf (renew_row lease now s).
Proof.
  intros [Hm Ha Hp] Hst. split; [done..|]. unfold phase_wf in *. simpl.
  rewrite Hst in *. crush.
Qed.

Lemma row_wf_finish ok err now s :
  row_wf s → s_state s = Running → row_wf (finish_row ok err now s).
Proof.
  intros [Hm Ha Hp] Hst. split; [done..|]. unfold phase_wf in *. simpl.
  rewrite Hst in Hp. destruct ok; simpl; crush.
Qed.

Lemma row_wf_requeue s :
  row_wf s → s_state s = Running → s_attempts s < s_max_attempts s → row_wf (requeue_row s).
Proof.
  intros [Hm Ha Hp] Hst Hlt. split; [done..|]. unfold phase_wf in *. simpl.
  rewrite Hst in Hp. rewrite Hm in Hlt. crush.
Qed.

Lemma row_wf_fail now s : row_wf s → s_state s = Running → row_wf (fail_row now s).
Proof.
  intros [Hm Ha Hp] Hst. split; [done..|]. unfold phase_wf in *. simpl.
  rewrite Hst in Hp. crush.
Qed.

Lemma row_wf_insert id now clock batch user st p :
  pState p = sim_state_text st →
  String.eqb (pState p) "queued" || String.eqb (pState p) "succeeded" = true →
  row_wf (insert_row id now clock batch user st p).
Proof.
  intros E Hp. split; [done|simpl; lia|]. unfold phase_wf. simpl. rewrite E in *.
  by destruct st.
Qed.

Lemma expired_true now s :
  expired now s = true ↔ s_state s = Running ∧ ∃ t, s_lease_expires_at s = Some t ∧ t < now.
Proof. unfold expired. by rewrite andb_true_iff, is_state_true, sql_lt_true. Qed.

Section invariant.
Context {PU : PgUuid}.

Lemma db_wf_insert id now clock p db :
  admissible (EInsertSimulation id now clock p) = true →
  db_wf db → db_wf (pg_insert_simulation id now clock p db).1.
Proof.
  intros Hadm Hwf. destruct (pg_insert_simulation id now clock p db) as [db' [r|e]] eqn:E.
  2: { unfold pg_insert_simulation in E. by case_match; simplify_eq. }
  apply pg_insert_simulation_Ok in E as (user & batch & st & -> & _ & _ & [Hf Hu Hb Hs] & ->).
  cbn [fst]. set (row := insert_row id now clock batch user st p).
  apply (db_wf_batches db).
  - etrans; [apply batch_keys_fire|done].
  - done.
  - unfold insert_simulations. rewrite simulations_fire. cbn [simulations with_simulations].
    rewrite map_app. apply NoDup_app. split_and!; [apply Hwf| |apply NoDup_singleton].
    intros x Hx ->%list_elem_of_singleton.
    apply list_elem_of_In, in_map_iff in Hx as (s & E & Hin%list_elem_of_In).
    by apply (Hf s).
  - intros s b. unfold insert_simulations. rewrite simulations_fire.
    cbn [simulations with_simulations]. rewrite elem_of_app, list_elem_of_singleton.
    intros [Hin| ->]; [by apply Hwf|]. intros E.
    destruct (Hb b E) as (br & Hbr & <-). by apply elem_of_map_1.
  - intros s. unfold insert_simulations. rewrite simulations_fire.
    cbn [simulations with_simulations]. rewrite elem_of_app, list_elem_of_singleton.
    intros [Hin| ->]; [by apply Hwf|]. by apply row_wf_insert.
  - apply rolled_up_insert, Hwf.
Qed.

Lemma db_wf_create_batch id now userID total key db :
  0 < total → db_wf db → db_wf (pg_create_batch id now userID total key db).1.
Proof.
  intros Ht Hwf. destruct (pg_create_batch id now userID total key db) as [db' [r|e]] eqn:E.
  2: { unfold pg_create_batch in E. by case_match; simplify_eq. }
  apply pg_create_batch_Ok in E as (user & -> & _ & Hu & Hid & Hk & ->). cbn [fst].
  set (row := mkBatch id user Expanding total 0 0 key now).
  assert (Hfresh : id ∉ map b_id (batches db)).
  { intros Hx. apply list_elem_of_In, in_map_iff in Hx as (b & E & Hin%list_elem_of_In).
    by apply (Hid b). }
  split; cbn [simulations batches with_batches].
  - apply Hwf.
  - rewrite map_app. apply NoDup_app. split_and!; [apply Hwf| |apply NoDup_singleton].
    by intros x Hx ->%list_elem_of_singleton.
  - intros s b Hs E. rewrite map_app. apply elem_of_app. left. by apply (wf_batch_fk _ Hwf s).
  - intros b [Hin| ->%list_elem_of_singleton]%elem_of_app; [by apply Hwf|done].
  - intros b1 b2 k [H1| ->%list_elem_of_singleton]%elem_of_app
      [H2| ->%list_elem_of_singleton]%elem_of_app Hs Hk1; [by apply (wf_keys _ Hwf b1 b2 k)|..|done].
    + unfold same_key in Hs. simpl in Hs.
      apply andb_true_iff in Hs as [E%String.eqb_eq ->%sql_eq_true].
      assert (Hf := Hk b1 H1). unfold same_key in Hf. rewrite Hk1 in Hf. simpl in Hf.
      by rewrite E, !String.eqb_refl in Hf.
    + change (b_user_id row) with user in Hs. change (b_idempotency_key row) with key in Hk1.
      subst key. by rewrite Hk in Hs.
  - apply Hwf.
  - apply rolled_up_new_batch; try done; [apply Hwf|].
    intros s Hs. apply not_true_iff_false. intros E%sql_eq_true.
    apply Hfresh. by apply (wf_batch_fk _ Hwf s).
Qed.

Lemma db_wf_apply e db : admissible e = true → db_wf db → db_wf (apply e db).
Proof.
  intros Hadm Hwf. destruct e as [id now clock p|id now user total key
    |runner v cap lease locked now|sim runner lease now|sim runner ok err now
    |now| |sim m w h|h v m uri ttl now|q]; cbn [apply].
  - by apply db_wf_insert.
  - apply db_wf_create_batch; [by apply Z.ltb_lt|done].
  - unfold claim_simulation. destruct (claim_pick v cap locked db) as [s|] eqn:Ep; [|done].
    apply claim_pick_Some in Ep as ([Hs He]%elem_of_eligible & _); [|apply Hwf].
    apply eligible_true in He as (Hst & _).
    apply db_wf_update_state; [done..| |done].
    intros r Hr E%String.eqb_eq Hrw.
    assert (r = s) as -> by (apply (NoDup_key_inj s_id (simulations db)); [apply Hwf|done..]).
    by apply row_wf_claim.
  - apply db_wf_update; [done..| |done].
    intros s Hs (_ & _ & Hst)%fence_true Hrw. by apply row_wf_renew.
  - unfold finish_simulation. cbn [snd]. apply db_wf_update_state; [done..| |done].
    intros s Hs (_ & _ & Hst)%fence_true Hrw. by apply row_wf_finish.
  - unfold reap_expired_leases. cbn [snd].
    apply db_wf_update_state; [done..| |apply db_wf_update_state; [done..| |done]].
    + intros s _ [(Hst & _)%expired_true _]%andb_true_iff Hrw. by apply row_wf_fail.
    + intros s _ [(Hst & _)%expired_true Hlt%Z.ltb_lt]%andb_true_iff Hrw.
      by apply row_wf_requeue.
  - rewrite resync_noop by apply Hwf. done.
  - apply db_wf_update; [done..| |done].
    intros s Hs _ [Hm Ha Hp]. by split.
  - unfold upsert_result. by destruct Hwf; split.
  - destruct (portal_apply_queue q db) as (us & ks & ->). by destruct Hwf; split.
Qed.

Lemma reachable_wf db : reachable db → db_wf db.
Proof. induction 1; [by apply db_wf_initial|by apply db_wf_apply]. Qed.
End invariant.

(** ** What one event does to one simulation *)

(** Every event either appends rows or updates rows in place. *)
Lemma find_sim_update x p f ss :
  (∀ s, s_id (f s) = s_id s) →
  List.find (λ s, String.eqb (s_id s) x) (update_where p f ss) =
  (λ s, if p s then f s else s) <$> List.find (λ s, String.eqb (s_id s) x) ss.
Proof. intros H. apply find_update_where. intros s _. by rewrite H. Qed.

Lemma find_sim_elem db s :
  NoDup (map s_id (simulations db)) → s ∈ simulations db → find_sim (s_id s) db = Some s.
Proof.
  intros Hnd Hs. unfold find_sim. destruct (List.find _ _) as [s'|] eqn:E.
  - apply find_Some_elem in E as [Hs' E%String.eqb_eq]. f_equal.
    by apply (NoDup_key_inj s_id (simulations db)).
  - apply List.find_none with (x := s) in E; [|by apply list_elem_of_In].
    by rewrite String.eqb_refl in E.
Qed.

Lemma find_sim_after db db' p f s :
  simulations db' = update_where p f (simulations db) → (∀ s, s_id (f s) = s_id s) →
  find_sim (s_id s) db = Some s →
  find_sim (s_id s) db' = Some (if p s then f s else s).
Proof.
  intros E Hf Hs. unfold find_sim in *. by rewrite E, find_sim_update, Hs.
Qed.

Definition phase_step (o o' : option phase) : Prop :=
  match o, o' with
  | None, None => True
  | None, Some p' => p' = PQueued 0 ∨ p' = PSucceeded
  | Some p, Some p' => p' = p ∨ astep p p'
  | Some _, None => False
  end.

Lemma phase_step_refl o : phase_step o o.
Proof. destruct o; simpl; auto. Qed.

Lemma phase_step_update x p f db db' :
  simulations db' = update_where p f (simulations db) →
  (∀ s, s_id (f s) = s_id s) →
  (∀ s, s ∈ simulations db → p s = true →
     phase_of (f s) = phase_of s ∨ astep (phase_of s) (phase_of (f s))) →
  phase_step (phase_at x db) (phase_at x db').
Proof.
  intros E Hid H. unfold phase_at, find_sim. rewrite E, find_sim_update by done.
  destruct (List.find _ (simulations db)) as [s|] eqn:Ef; [|done].
  apply find_Some_elem in Ef as [Hs _]. simpl.
  destruct (p s) eqn:Ep; [|by left]. auto.
Qed.

Section steps.
Context {PU : PgUuid}.

Lemma simulations_insert id now clock p db :
  simulations (pg_insert_simulation id now clock p db).1 = simulations db ∨
  ∃ user batch st, insertable id user batch p db st ∧
    simulations (pg_insert_simulation id now clock p db).1 =
    simulations db ++ [insert_row id now clock batch user st p].
Proof.
  destruct (pg_insert_simulation id now clock p db) as [db' [r|e]] eqn:E.
  - right. apply pg_insert_simulation_Ok in E as (user & batch & st & _ & _ & _ & Hi & ->).
    exists user, batch, st. split; [done|]. unfold insert_simulations. cbn [fst].
    by rewrite simulations_fire.
  - left. unfold pg_insert_simulation in E. by case_match; simplify_eq.
Qed.

Lemma simulations_create_batch id now user total key db :
  simulations (pg_create_batch id now user total key db).1 = simulations db.
Proof. unfold pg_create_batch. by case_match. Qed.

Lemma phase_insert id now clock batch user st p :
  pState p = sim_state_text st →
  String.eqb (pState p) "queued" || String.eqb (pState p) "succeeded" = true →
  let ph := phase_of (insert_row id now clock batch user st p) in
  ph = PQueued 0 ∨ ph = PSucceeded.
Proof. intros ->. by destruct st; simpl; auto. Qed.

Lemma phase_step_apply e db x :
  admissible e = true → db_wf db → phase_step (phase_at x db) (phase_at x (apply e db)).
Proof.
  intros Hadm Hwf. destruct e as [id now clock p|id now user total key
    |runner v cap lease locked now|sim runner lease now|sim runner ok err now
    |now| |sim m w h|h v m uri ttl now|q]; cbn [apply].
  - destruct (simulations_insert id now clock p db)
      as [E|(user & batch & st & [Hf _ _ Hs] & E)].
    { unfold phase_at, find_sim. rewrite E. apply phase_step_refl. }
    unfold phase_at, find_sim. rewrite E, find_app.
    destruct (List.find _ (simulations db)) as [s|]; [by left|]. cbn [List.find].
    case_match; simpl; [|done]. by apply phase_insert.
  - unfold phase_at, find_sim. rewrite simulations_create_batch. apply phase_step_refl.
  - unfold claim_simulation. destruct (claim_pick v cap locked db) as [s|] eqn:Ep;
      [|apply phase_step_refl].
    apply claim_pick_Some in Ep as ([Hs He]%elem_of_eligible & _); [|apply Hwf].
    apply eligible_true in He as (Hst & _).
    eapply phase_step_update; [apply simulations_update_state|done|].
    intros r Hr E%String.eqb_eq.
    assert (r = s) as -> by (apply (NoDup_key_inj s_id (simulations db)); [apply Hwf|done..]).
    right. destruct (wf_rows _ Hwf s Hs) as [_ _ Hp]. unfold phase_wf in Hp.
    unfold phase_of at 1. rewrite Hst in *. apply AClaim. tauto.
  - eapply phase_step_update; [done|done|].
    intros s Hs (_ & _ & Hst)%fence_true. left. unfold phase_of. simpl. by rewrite Hst.
  - eapply phase_step_update; [apply simulations_finish|done|].
    intros s Hs (_ & _ & Hst)%fence_true. right. unfold phase_of at 1. rewrite Hst.
    replace (phase_of (finish_row ok err now s)) with (if ok then PSucceeded else PFailed)
      by by destruct ok.
    apply AFinish.
  - eapply phase_step_update; [apply simulations_reap|intros s; unfold reap_row; by case_match|].
    intros s Hs (Hst & _)%expired_true. right. unfold phase_of at 1. rewrite Hst.
    destruct (wf_rows _ Hwf s Hs) as [Hm Ha _]. unfold reap_row. rewrite Hm.
    destruct (Z.ltb_spec (s_attempts s) 3); [by apply ARequeue|apply AExpire; lia].
  - unfold phase_at, find_sim. apply phase_step_refl.
  - eapply phase_step_update; [done|done|]. by left.
  - unfold phase_at, find_sim. apply phase_step_refl.
  - destruct (portal_apply_queue q db) as (us & ks & ->).
    unfold phase_at, find_sim. apply phase_step_refl.
Qed.

(** *** The measure: transitions a simulation has left *)
Definition phase_measure (p : phase) : Z :=
  match p with
  | PQueued n => 2 * (3 - n)
  | PRunning n _ => 2 * (3 - n) + 1
  | PSucceeded | PFailed => 0
  end.

Definition phase_ok (p : phase) : Prop :=
  match p with PQueued n => 0 <= n <= 3 | PRunning n _ => 1 <= n <= 3 | _ => True end.

Lemma astep_measure p p' : astep p p' → phase_ok p → phase_measure p' < phase_measure p.
Proof. destruct 1; simpl; try lia. destruct ok; simpl; lia. Qed.

Lemma phase_measure_nonneg p : phase_ok p → 0 <= phase_measure p.
Proof. destruct p; simpl; lia. Qed.

Lemma phase_at_ok db x p : db_wf db → phase_at x db = Some p → phase_ok p.
Proof.
  intros Hwf. unfold phase_at, find_sim.
  destruct (List.find _ _) as [s|] eqn:E; [|done]. intros [= <-].
  apply find_Some_elem in E as [Hs _]. destruct (wf_rows _ Hwf s Hs) as [_ Ha Hp].
  unfold phase_of, phase_wf in *. destruct (s_state s); simpl; [lia| |done..].
  destruct_and?. lia.
Qed.

(** The number of events of a run that change the phase of [x]. *)
#[export] Instance phase_eq_dec : EqDecision phase.
Proof. solve_decision. Defined.

Fixpoint transitions (x : string) (es : list event) (db : DB) : Z :=
  match es with
  | [] => 0
  | e :: es' =>
      (match phase_at x db, phase_at x (apply e db) with
       | Some p, Some p' => if decide (p = p') then 0 else 1
       | _, _ => 0
       end) + transitions x es' (apply e db)
  end.

Definition phase_budget (o : option phase) : Z :=
  match o with Some p => phase_measure p | None => 6 end.

Lemma phase_budget_step o o' :
  phase_step o o' → (∀ p, o = Some p → phase_ok p) →
  (match o, o' with Some p, Some p' => if decide (p = p') then 0 else 1 | _, _ => 0 end)
    + phase_budget o' <= phase_budget o.
Proof.
  intros Hs Hok. destruct o as [p|], o' as [p'|]; simpl in Hs; try done.
  - specialize (Hok p eq_refl). case_decide; [subst; simpl; lia|].
    destruct Hs as [|Hs]; [congruence|]. apply astep_measure in Hs; [simpl; lia|done].
  - destruct Hs; subst; simpl; lia.
Qed.

Lemma transitions_budget es : ∀ db x,
  db_wf db → Forall (λ e, admissible e = true) es →
  transitions x es db + phase_budget (phase_at x (run es db)) <= phase_budget (phase_at x db).
Proof.
  induction es as [|e es IH]; intros db x Hwf Hadm; [simpl; lia|].
  inversion_clear Hadm as [|?? He Hes]. cbn [transitions run fold_left].
  pose proof (phase_step_apply e db x He Hwf) as Hs.
  apply phase_budget_step in Hs; [|intros p; by apply phase_at_ok].
  specialize (IH (apply e db) x (db_wf_apply e db He Hwf) Hes). unfold run in IH. lia.
Qed.

Lemma db_wf_run es : ∀ db,
  db_wf db → Forall (λ e, admissible e = true) es → db_wf (run es db).
Proof.
  induction es as [|e es IH]; intros db Hwf Hadm; [done|].
  inversion_clear Hadm. apply IH; [by apply db_wf_apply|done].
Qed.

(** *** The per-user cap *)
Definition cap_of (e : event) : option Z :=
  match e with EClaim _ _ cap _ _ _ => Some cap | _ => None end.

Definition capped (K : Z) (e : event) : Prop :=
  match cap_of e with Some cap => cap <= K | None => True end.

Lemma running_count_update u p f db db' :
  simulations db' = update_where p f (simulations db) →
  (∀ s, s_user_id (f s) = s_user_id s) →
  (∀ s, s ∈ simulations db → p s = true → s_state (f s) = Running → s_state s = Running) →
  running_count u (simulations db') <= running_count u (simulations db).
Proof.
  intros E Hu Hst. unfold running_count. rewrite E. apply inj_le, count_update_where_le.
  intros s Hs Hp. unfold running_of. rewrite Hu, !andb_true_iff, !is_state_true.
  intros [-> Hr]. auto.
Qed.

Lemma running_count_claim u runner v cap lease locked now db :
  NoDup (map s_id (simulations db)) →
  let db' := (claim_simulation runner v cap lease locked now db).2 in
  running_count u (simulations db') <= Z.max (running_count u (simulations db)) cap.
Proof.
  intros Hnd.
  destruct (claim_simulation_cases runner v cap lease locked now db Hnd)
    as [[-> _]|(s & _ & Hs & He & _ & E)]; [simpl; lia|].
  cbn zeta. rewrite E. apply eligible_true in He as (Hst & _ & Hcap).
  assert (Hp : ∀ r, r ∈ simulations db → String.eqb (s_id r) (s_id s) = true → r = s).
  { intros r Hr Er%String.eqb_eq. by apply (NoDup_key_inj s_id (simulations db)). }
  destruct (decide (s_user_id s = u)) as [<-|Hne].
  - unfold running_count in *.
    pose proof (count_update_where_bound (λ r, String.eqb (s_id r) (s_id s))
      (claim_row runner lease now) (running_of (s_user_id s)) (simulations db)).
    pose proof (count_key_NoDup s_id (λ r, String.eqb (s_id r) (s_id s)) (simulations db) Hnd).
    assert (count (λ r, String.eqb (s_id r) (s_id s)) (simulations db) ≤ 1)%nat; [|lia].
    apply H0. intros x y _ _ Ex%String.eqb_eq Ey%String.eqb_eq. congruence.
  - unfold running_count. rewrite count_update_where; [lia|].
    intros r Hr Er. rewrite (Hp r Hr Er). unfold running_of. simpl.
    by rewrite (proj2 (String.eqb_neq _ _) Hne).
Qed.

Lemma running_count_apply u K e db :
  0 <= K → capped K e → admissible e = true → db_wf db →
  running_count u (simulations db) <= K → running_count u (simulations (apply e db)) <= K.
Proof.
  intros HK Hcap Hadm Hwf Hle. destruct e as [id now clock p|id now user total key
    |runner v cap lease locked now|sim runner lease now|sim runner ok err now
    |now| |sim m w h|h v m uri ttl now|q]; cbn [apply]; try done.
  - destruct (simulations_insert id now clock p db)
      as [->|(user & batch & st & [_ _ _ Hs] & ->)]; [done|].
    unfold running_count in *. rewrite count_app.
    assert (count (running_of u) [insert_row id now clock batch user st p] = 0%nat) as ->; [|lia].
    unfold count, running_of. simpl in *. rewrite Hs in Hadm.
    destruct st; simpl in *; try done; by rewrite andb_false_r.
  - by rewrite simulations_create_batch.
  - pose proof (running_count_claim u runner v cap lease locked now db (wf_sim_ids _ Hwf)).
    unfold capped in Hcap. simpl in *. lia.
  - etrans; [|exact Hle]. eapply running_count_update; done.
  - etrans; [|exact Hle]. eapply running_count_update; [apply simulations_finish|done|].
    intros s _ _. simpl. by destruct ok.
  - etrans; [|exact Hle].
    eapply running_count_update; [apply simulations_reap|intros s; unfold reap_row; by case_match|].
    intros s _ _. unfold reap_row. by case_match.
  - etrans; [|exact Hle]. eapply running_count_update; done.
  - by destruct (portal_apply_queue q db) as (us & ks & ->).
Qed.

Lemma running_count_run u K es : ∀ db,
  0 <= K → Forall (capped K) es → Forall (λ e, admissible e = true) es → db_wf db →
  running_count u (simulations db) <= K → running_count u (simulations (run es db)) <= K.
Proof.
  induction es as [|e es IH]; intros db HK Hc Ha Hwf Hle; [done|].
  inversion_clear Hc. inversion_clear Ha. cbn [run fold_left]. apply IH; try done.
  - by apply db_wf_apply.
  - by apply running_count_apply.
Qed.
End steps.

(** ** Ownership *)
Lemma owned_true x r db :
  owned x r db = true ↔
  ∃ s, s ∈ simulations db ∧ s_id s = x ∧ s_runner_id s = Some r ∧ s_state s = Running.
Proof. unfold owned. rewrite existsb_elem. by setoid_rewrite fence_true. Qed.

Lemma owned_false x r db s :
  owned x r db = false → s ∈ simulations db → fence x r s = false.
Proof.
  intros H Hs. apply not_true_iff_false. intros Hf.
  apply not_true_iff_false in H. apply H, existsb_elem. eauto.
Qed.

(** Updates that give no row to [r] on [x] do not make it the owner. *)
Lemma not_owned_update x r p f db db' :
  simulations db' = update_where p f (simulations db) →
  (∀ s, s ∈ simulations db → p s = true → fence x r (f s) = true → fence x r s = true) →
  owned x r db = false → owned x r db' = false.
Proof.
  intros E H Hno. apply not_true_iff_false. unfold owned.
  rewrite E, existsb_elem. intros (s' & Hs' & Hf).
  apply elem_of_update_where in Hs' as (s & Hs & ->).
  pose proof (owned_false _ _ _ _ Hno Hs).
  destruct (p s) eqn:Ep; [|congruence]. by rewrite (H s Hs Ep Hf) in *.
Qed.

Section ownership.
Context {PU : PgUuid}.

Lemma not_owned_apply x r e db :
  admissible e = true → claims_as r e = false →
  owned x r db = false → owned x r (apply e db) = false.
Proof.
  intros Hadm Hcl Hno. destruct e as [id now clock p|id now user total key
    |runner v cap lease locked now|sim runner lease now|sim runner ok err now
    |now| |sim m w h|h v m uri ttl now|q]; cbn [apply]; try done.
  - destruct (simulations_insert id now clock p db)
      as [E|(user & batch & st & _ & E)]; unfold owned in *; rewrite E; [done|].
    rewrite existsb_app, Hno. simpl. unfold fence. simpl.
    by rewrite andb_false_r.
  - unfold owned in *. by rewrite simulations_create_batch.
  - unfold claim_simulation. destruct (claim_pick v cap locked db) as [s|] eqn:Ep; [|done].
    eapply not_owned_update; [apply simulations_update_state| |done].
    intros s' _ _ (_ & E & _)%fence_true. simpl in *. injection E as ->.
    by rewrite String.eqb_refl in Hcl.
  - eapply not_owned_update; [done| |done].
    intros s _ Hf (E1 & E2 & _)%fence_true. simpl in *.
    apply fence_true in Hf as (_ & _ & Hst). by apply fence_true.
  - eapply not_owned_update; [apply simulations_finish| |done].
    intros s _ _ (_ & _ & E)%fence_true. by destruct ok.
  - eapply not_owned_update; [apply simulations_reap| |done].
    intros s _ _ (_ & _ & E)%fence_true. unfold reap_row in E. by destruct (_ <? _).
  - eapply not_owned_update; [done| |done].
    intros s _ _ (E1 & E2 & E3)%fence_true. by apply fence_true.
  - by destruct (portal_apply_queue q db) as (us & ks & ->).
Qed.

Lemma not_owned_run x r es : ∀ db,
  Forall (λ e, admissible e = true) es → Forall (λ e, claims_as r e = false) es →
  owned x r db = false → owned x r (run es db) = false.
Proof.
  induction es as [|e es IH]; intros db Ha Hc Hno; [done|].
  inversion_clear Ha. inversion_clear Hc. cbn [run fold_left]. apply IH; [done..|].
  by apply not_owned_apply.
Qed.

Lemma fence_noop x r lease ok err now db :
  owned x r db = false →
  renew_lease x r lease now db = (0, db) ∧ finish_simulation x r ok err now db = (0, db).
Proof.
  intros Hno. assert (H : ∀ s, s ∈ simulations db → fence x r s = false)
    by eauto using owned_false.
  split; [by apply update_none|].
  unfold finish_simulation. by rewrite update_state_none.
Qed.

Lemma reachable_run es : ∀ db,
  reachable db → Forall (λ e, admissible e = true) es → reachable (run es db).
Proof.
  induction es as [|e es IH]; intros db Hr Ha; [done|].
  inversion_clear Ha. cbn [run fold_left]. apply IH; [by apply reach_step|done].
Qed.
End ownership.

(** ** A batch that misses rows *)

(** [e] inserts a row of batch [bid]. *)
Definition inserts_into {PU : PgUuid} (bid : string) (e : event) : bool :=
  match e with
  | EInsertSimulation _ _ _ p =>
      match pBatchID p with
      | Some t => sql_eq (uuid_in t) bid
      | None => false
      end
  | _ => false
  end.

Section batch_children.
Context {PU : PgUuid}.

Definition children (bid : string) (db : DB) : nat := count (is_child bid) (simulations db).

Lemma children_update bid p f db db' :
  simulations db' = update_where p f (simulations db) →
  (∀ s, s_batch_id (f s) = s_batch_id s) → children bid db' = children bid db.
Proof.
  intros E Hf. unfold children. rewrite E. apply count_update_where.
  intros s _ _. unfold is_child. by rewrite Hf.
Qed.

Lemma children_apply bid e db :
  inserts_into bid e = false → children bid (apply e db) = children bid db.
Proof.
  intros Hno. destruct e as [id now clock p|id now user total key
    |runner v cap lease locked now|sim runner lease now|sim runner ok err now
    |now| |sim m w h|h v m uri ttl now|q]; cbn [apply]; try done.
  - destruct (pg_insert_simulation id now clock p db) as [db' [r|e]] eqn:E.
    2: { unfold pg_insert_simulation in E. by case_match; simplify_eq. }
    apply pg_insert_simulation_Ok in E as (user & batch & st & _ & _ & Hb & _ & ->).
    unfold children, insert_simulations. cbn [fst]. rewrite simulations_fire.
    cbn [simulations with_simulations]. rewrite count_app.
    assert (count (is_child bid) [insert_row id now clock batch user st p] = 0%nat) as ->; [|lia].
    unfold inserts_into in Hno. unfold count, is_child. simpl.
    destruct (pBatchID p) as [t|]; [|by subst]. destruct Hb as [<- _]. by rewrite Hno.
  - unfold children. by rewrite simulations_create_batch.
  - unfold claim_simulation. destruct (claim_pick v cap locked db); [|done].
    by eapply children_update; [apply simulations_update_state|].
  - by eapply children_update.
  - by eapply children_update; [apply simulations_finish|].
  - eapply children_update; [apply simulations_reap|]. intros s. unfold reap_row. by case_match.
  - by eapply children_update.
  - by destruct (portal_apply_queue q db) as (us & ks & ->).
Qed.

Lemma batch_keys_update_state p f db :
  map batch_key (batches (update_simulations_state p f db).2) = map batch_key (batches db).
Proof. etrans; [apply batch_keys_fire|done]. Qed.

(** No event removes a batch or changes its id, user, total, key or creation. *)
Lemma batch_key_apply k e db :
  k ∈ map batch_key (batches db) → k ∈ map batch_key (batches (apply e db)).
Proof.
  intros Hk. destruct e as [id now clock p|id now user total key
    |runner v cap lease locked now|sim runner lease now|sim runner ok err now
    |now| |sim m w h|h v m uri ttl now|q]; cbn [apply]; try done.
  - destruct (pg_insert_simulation id now clock p db) as [db' [r|e]] eqn:E.
    2: { unfold pg_insert_simulation in E. by case_match; simplify_eq. }
    apply pg_insert_simulation_Ok in E as (user & batch & st & _ & _ & _ & _ & ->).
    unfold insert_simulations. cbn [fst]. by rewrite batch_keys_fire.
  - destruct (pg_create_batch id now user total key db) as [db' [r|e]] eqn:E.
    2: { unfold pg_create_batch in E. by case_match; simplify_eq. }
    apply pg_create_batch_Ok in E as (u & _ & _ & _ & _ & _ & ->).
    cbn [fst batches with_batches]. rewrite map_app. apply elem_of_app. by left.
  - unfold claim_simulation. destruct (claim_pick v cap locked db); [|done].
    by rewrite batch_keys_update_state.
  - unfold finish_simulation. cbn [snd]. by rewrite batch_keys_update_state.
  - unfold reap_expired_leases. cbn [snd]. by rewrite !batch_keys_update_state.
  - unfold ResyncStuckBatches. cbn [snd batches with_batches].
    by rewrite map_update_where.
  - by destruct (portal_apply_queue q db) as (us & ks & ->).
Qed.

Lemma batch_run bid es : ∀ db k,
  Forall (λ e, inserts_into bid e = false) es → k ∈ map batch_key (batches db) →
  children bid (run es db) = children bid db ∧ k ∈ map batch_key (batches (run es db)).
Proof.
  induction es as [|e es IH]; intros db k Hno Hk; [done|].
  inversion_clear Hno. cbn [run fold_left].
  destruct (IH (apply e db) k) as [E H']; [done|by apply batch_key_apply|].
  split; [|done]. etrans; [exact E|by apply children_apply].
Qed.
End batch_children.
