(* ===== verification/FleetSpec.v ===== *)
(** * What every run of the fleet guarantees

    The theorems about all reachable databases and all runs: the lifecycle
    refines its abstract state machine, a simulation changes state a bounded
    number of times, the per-user cap and the batch rollup hold everywhere, a
    Runner that lost its row can no longer write it, and a batch that misses
    rows never completes. *)
From S2P Require Import Prelude Sql Schema Fixtures Rollup Lifecycle Store Fleet.
Local Open Scope Z_scope.

#[local] Instance demo_uuid_instance : PgUuid := demo_uuid.

Lemma demo_start_initial : initial demo_start.
Proof. by split. Qed.

Lemma demo_reachable es :
  Forall (λ e, admissible e = true) es → reachable (run es demo_start).
Proof. apply reachable_run, reach_init, demo_start_initial. Qed.

(** C1: the SQL functions of the fleet implement the simulation state machine
    of ADR-0013.  In every reachable database, every transaction of any process
    leaves the phase of every simulation unchanged or moves it along one legal
    transition: a claim from queued with fewer than three attempts to running
    with one more attempt, a finish from running to succeeded or failed, a
    requeue from running with attempts left, an expiry of the third attempt to
    failed.  A simulation is born queued with no attempt or succeeded (a cache
    hit), and none ever disappears. *)
Theorem lifecycle_refines_state_machine {PU : PgUuid} db e x :
  reachable db → admissible e = true →
  match phase_at x db, phase_at x (apply e db) with
  | Some p, Some p' => p' = p ∨ astep p p'
  | None, Some p' => p' = PQueued 0 ∨ p' = PSucceeded
  | None, None => True
  | Some _, None => False
  end.
Proof. intros Hr Ha. by apply phase_step_apply; [|apply reachable_wf]. Qed.

Lemma lifecycle_refines_state_machine_witness :
  phase_at "s1" (run demo_submit demo_start) = Some (PQueued 0) ∧
  phase_at "s1" (apply (EClaim "r1" "24.1.0" 1 90 (λ _, false) 10)
                   (run demo_submit demo_start)) = Some (PRunning 1 "r1") ∧
  (PRunning 1 "r1" = PQueued 0 ∨ astep (PQueued 0) (PRunning 1 "r1")).
Proof.
  split; [reflexivity|]. split; [reflexivity|].
  assert (Hr : reachable (run demo_submit demo_start))
    by (apply demo_reachable; by repeat constructor).
  exact (lifecycle_refines_state_machine (run demo_submit demo_start)
           (EClaim "r1" "24.1.0" 1 90 (λ _, false) 10) "s1" Hr eq_refl).
Defined.

(** C15: retries are bounded.  From any reachable database, however long the
    processes go on and whatever they interleave, one simulation changes phase
    at most six times (three claims, two requeues, one terminal transition),
    and at most as often as its phase has transitions left. *)
Theorem simulation_transitions_bounded {PU : PgUuid} db es x :
  reachable db → Forall (λ e, admissible e = true) es →
  transitions x es db <= 6 ∧
  ∀ p, phase_at x db = Some p → transitions x es db <= phase_measure p.
Proof.
  intros Hr Ha. apply reachable_wf in Hr as Hwf.
  pose proof (transitions_budget es db x Hwf Ha) as H.
  assert (0 <= phase_budget (phase_at x (run es db))).
  { destruct (phase_at x (run es db)) as [p|] eqn:E; simpl; [|lia].
    apply phase_measure_nonneg, (phase_at_ok (run es db) x); [by apply db_wf_run|done]. }
  split.
  - destruct (phase_at x db) as [p|] eqn:E; simpl in H; [|lia].
    apply phase_at_ok in E; [|done]. destruct p; simpl in *; lia.
  - intros p E. rewrite E in H. simpl in H. lia.
Qed.

Lemma simulation_transitions_bounded_witness :
  transitions "s1" demo_takeover (run demo_submit demo_start) = 3 ∧
  transitions "s1" demo_takeover (run demo_submit demo_start) <= 6.
Proof.
  split; [reflexivity|].
  apply (simulation_transitions_bounded (run demo_submit demo_start) demo_takeover "s1").
  - apply demo_reachable. by repeat constructor.
  - by repeat constructor.
Defined.

(** The per-user cap is a hard ceiling (H-2).  If no Runner claims with a
    cap above K, then at no point of any run does a user have more than K
    running simulations, over all engine versions together. *)
Theorem user_cap_is_hard {PU : PgUuid} K db es u :
  initial db → 0 <= K → Forall (λ e, admissible e = true) es → Forall (capped K) es →
  running_count u (simulations (run es db)) <= K.
Proof.
  intros Hi HK Ha Hc. apply running_count_run; try done.
  - by apply db_wf_initial.
  - destruct Hi as [_ Hs]. by rewrite Hs.
Qed.

Lemma user_cap_is_hard_witness :
  running_count "alice" (simulations (run (demo_submit ++ demo_takeover) demo_start)) <= 1.
Proof.
  apply (user_cap_is_hard 1 demo_start (demo_submit ++ demo_takeover) "alice").
  - by split.
  - lia.
  - by repeat constructor.
  - by repeat constructor.
Defined.

(** The batch rollup is exact when transactions follow one another.  In every
    database the serial fleet reaches, a batch's succeeded and failed columns
    count its terminal children, it is expanding exactly while fewer rows than
    its total exist, and done exactly when all of them exist and at least total
    children are terminal.  With overlapping transactions this is
    [OverlapSpec.rollup_is_exact_without_overlap]. *)
Theorem batch_rollup_exact {PU : PgUuid} db b :
  reachable db → b ∈ batches db →
  let children := List.filter (is_child (b_id b)) (simulations db) in
  let terminal_children := count (λ s, terminal (s_state s)) children in
  b_succeeded b = Z.of_nat (count (λ s, is_state (s_state s) Succeeded) children) ∧
  b_failed b = Z.of_nat (count (λ s, is_state (s_state s) Failed) children) ∧
  (b_state b = Expanding ↔ Z.of_nat (length children) < b_total b) ∧
  (b_state b = BDone ↔ b_total b <= Z.of_nat (length children) ∧
                       b_total b <= Z.of_nat terminal_children) ∧
  (b_state b = BDone → Z.of_nat (length children) = b_total b →
     ∀ s, s ∈ children → terminal (s_state s) = true).
Proof.
  intros Hr Hb. apply reachable_wf in Hr as Hwf.
  apply exact_row_reads; [by apply (wf_totals _ Hwf)|by apply (wf_rollup _ Hwf)].
Qed.

Lemma batch_rollup_exact_witness :
  let db := run (demo_submit ++ demo_takeover ++ [EFinish "s1" "r2" true None 90000020]) demo_start in
  let b := mkBatch "b1" "alice" BDone 2 2 0 (Some "key-1") 1 in
  b ∈ batches db ∧ b_succeeded b =
    Z.of_nat (count (λ s, is_state (s_state s) Succeeded)
                (List.filter (is_child (b_id b)) (simulations db))).
Proof.
  intros db b. assert (Hb : b ∈ batches db) by (vm_compute; left).
  split; [exact Hb|].
  apply (batch_rollup_exact db b); [|exact Hb].
  apply demo_reachable. by repeat constructor.
Defined.

(** C3: a Runner that lost its row cannot clobber the new owner (M-4).  Once
    the row of a simulation is not running under a Runner, then as long as that
    Runner does not claim again, its late renew_lease and finish_simulation on
    that simulation return 0 rows and change nothing, whatever other Runners
    and the Reaper did in between. *)
Theorem zombie_is_fenced {PU : PgUuid} db es x r lease ok err now :
  reachable db → Forall (λ e, admissible e = true) es →
  Forall (λ e, claims_as r e = false) es →
  (∀ n, phase_at x db ≠ Some (PRunning n r)) →
  renew_lease x r lease now (run es db) = (0, run es db) ∧
  finish_simulation x r ok err now (run es db) = (0, run es db).
Proof.
  intros Hr Ha Hc Hno. apply reachable_wf in Hr as Hwf.
  apply fence_noop, not_owned_run; [done..|].
  apply not_true_iff_false. intros (s & Hs & Hx & Hrun & Hst)%owned_true.
  apply (Hno (s_attempts s)). unfold phase_at, find_sim.
  destruct (List.find _ (simulations db)) as [s'|] eqn:E.
  - apply find_Some_elem in E as [Hs' Ex%String.eqb_eq].
    assert (s' = s) as ->.
    { apply (NoDup_key_inj s_id (simulations db)); [apply Hwf|done|done|congruence]. }
    simpl. unfold phase_of. by rewrite Hst, Hrun.
  - apply List.find_none with (x := s) in E; [|by apply list_elem_of_In].
    by rewrite Hx, String.eqb_refl in E.
Qed.

Lemma zombie_is_fenced_witness :
  let db := run (demo_submit ++ [EClaim "r1" "24.1.0" 1 90 (λ _, false) 10; EReap 90000011]) demo_start in
  let es := [EClaim "r2" "24.1.0" 1 90 (λ _, false) 90000012] in
  phase_at "s1" (run es db) = Some (PRunning 2 "r2") ∧
  finish_simulation "s1" "r1" true None 90000020 (run es db) = (0, run es db).
Proof.
  intros db es. split; [reflexivity|].
  apply (zombie_is_fenced db es "s1" "r1" 90 true None 90000020).
  - apply demo_reachable. by repeat constructor.
  - by repeat constructor.
  - by repeat constructor.
  - intros n. by vm_compute.
Defined.

(** C30: a batch that misses rows never completes.  In any reachable database,
    a batch with fewer simulations than its total stays expanding in every run
    in which nobody inserts a simulation into it: claims, finishes, the Reaper
    and its resync sweep never move it on.  (The Expander stops at its first
    error and nothing resumes it, so such a batch is left after a failed
    expansion.) *)
Theorem incomplete_batch_stays_expanding {PU : PgUuid} db es b :
  reachable db → Forall (λ e, admissible e = true) es →
  b ∈ batches db →
  Z.of_nat (count (is_child (b_id b)) (simulations db)) < b_total b →
  Forall (λ e, inserts_into (b_id b) e = false) es →
  ∃ b', b' ∈ batches (run es db) ∧ b_id b' = b_id b ∧ b_user_id b' = b_user_id b ∧
    b_idempotency_key b' = b_idempotency_key b ∧ b_state b' = Expanding.
Proof.
  intros Hr Ha Hb Hlt Hno. apply reachable_wf in Hr as Hwf.
  destruct (batch_run (b_id b) es db (batch_key b) Hno) as [Hc Hk]; [by apply elem_of_map_1|].
  apply elem_of_map_2 in Hk as (b' & Hb' & E). injection E as Ei Eu Et Ek _.
  exists b'. split_and!; [done..|].
  pose proof (wf_rollup _ (db_wf_run es db Hwf Ha) b' Hb') as Eb. rewrite Eb.
  unfold sync_row, sync_state, sub_of. cbn [b_state sub_inserted].
  change (length (List.filter (is_child (b_id b')) (simulations (run es db))))
    with (children (b_id b') (run es db)).
  rewrite Ei, Hc, Et. by rewrite (proj2 (Z.ltb_lt _ _)).
Qed.

Lemma incomplete_batch_stays_expanding_witness :
  let db := run [ECreateBatch "b1" 1 "alice" 2 (Some "key-1");
                 EInsertSimulation "s1" 2 2 (demo_params (Some "b1") "queued")] demo_start in
  let b := mkBatch "b1" "alice" Expanding 2 0 0 (Some "key-1") 1 in
  ∃ b', b' ∈ batches (run (demo_takeover ++ [EFinish "s1" "r2" true None 90000020; EResync]) db) ∧
    b_id b' = b_id b ∧ b_state b' = Expanding.
Proof.
  intros db b.
  destruct (incomplete_batch_stays_expanding db
    (demo_takeover ++ [EFinish "s1" "r2" true None 90000020; EResync]) b)
    as (b' & H1 & H2 & _ & _ & H5).
  - apply demo_reachable. by repeat constructor.
  - by repeat constructor.
  - vm_compute. left.
  - vm_compute. reflexivity.
  - by repeat constructor.
  - by exists b'.
Defined.

(** C16: no simulation is stuck.  In every reachable database each simulation
    that is not terminal has a way to finish: if it runs, its owner's finish
    succeeds; if it is queued, a claim of its version under a cap its user is
    below takes it when it is the only unlocked candidate, and the finish then
    succeeds.  A running simulation whose lease is over is given back (or
    failed, on the third attempt) by the next Reaper pass even if its Runner
    is dead. *)
Theorem every_simulation_can_finish {PU : PgUuid} db s runner lease ok err now :
  reachable db → s ∈ simulations db →
  (s_state s = Running → ∀ r, s_runner_id s = Some r →
     phase_at (s_id s) (apply (EFinish (s_id s) r ok err now) db) =
       Some (if ok : bool then PSucceeded else PFailed)) ∧
  (s_state s = Queued → ∀ cap, running_count (s_user_id s) (simulations db) < cap →
     phase_at (s_id s) (run [EClaim runner (s_engine_version s) cap lease
                               (λ i, negb (String.eqb i (s_id s))) now;
                             EFinish (s_id s) runner ok err now] db) =
       Some (if ok then PSucceeded else PFailed)) ∧
  (expired now s = true →
     phase_at (s_id s) (apply (EReap now) db) =
       Some (if s_attempts s <? 3 then PQueued (s_attempts s) else PFailed)).
Proof.
  intros Hr Hs. apply reachable_wf in Hr as Hwf. pose proof (wf_sim_ids _ Hwf) as Hnd.
  apply find_sim_elem in Hs as Hf; [|done].
  split_and!.
  - intros Hst r Hrun. unfold phase_at, apply.
    erewrite find_sim_after; [|apply simulations_finish|done|done].
    rewrite (proj2 (fence_true _ _ _)) by done. simpl. unfold phase_of. by destruct ok.
  - intros Hst cap Hcap. cbn [run fold_left apply]. set (db1 := (claim_simulation _ _ _ _ _ _ db).2).
    assert (Hf1 : find_sim (s_id s) db1 = Some (claim_row runner lease now s)).
    { destruct (claim_simulation_cases runner (s_engine_version s) cap lease
        (λ i, negb (String.eqb i (s_id s))) now db Hnd) as [[_ Hall]|(s' & Hp & Hs' & _ & _ & E)].
      - assert (He : s ∈ eligible_simulations (s_engine_version s) cap db)
          by (apply elem_of_eligible; split; [done|by apply eligible_true]).
        specialize (Hall s He). by rewrite String.eqb_refl in Hall.
      - apply claim_pick_Some in Hp as (_ & Hl & _); [|done].
        apply negb_false_iff, String.eqb_eq in Hl.
        assert (s' = s) as -> by (by apply (NoDup_key_inj s_id (simulations db))).
        erewrite find_sim_after; [|exact E|done|done]. cbv beta. by rewrite String.eqb_refl. }
    unfold phase_at. change (s_id s) with (s_id (claim_row runner lease now s)).
    erewrite find_sim_after; [|apply simulations_finish|done|exact Hf1].
    rewrite (proj2 (fence_true _ _ _)) by done. simpl. unfold phase_of. by destruct ok.
  - intros He. unfold phase_at. cbn [apply].
    erewrite find_sim_after; [|apply simulations_reap|intros s'; unfold reap_row; by case_match|done].
    rewrite He. simpl. unfold reap_row. rewrite (rw_max _ (wf_rows _ Hwf s Hs)).
    by destruct (s_attempts s <? 3).
Qed.

Lemma every_simulation_can_finish_witness :
  let db := run demo_submit demo_start in
  let s := insert_row "s1" 2 2 (Some "b1") "alice" Queued (demo_params (Some "b1") "queued") in
  phase_at "s1" (run [EClaim "r1" "24.1.0" 1 90 (λ i, negb (String.eqb i "s1")) 10;
                      EFinish "s1" "r1" true None 10] db) = Some PSucceeded.
Proof.
  intros db s. change "s1"%string with (s_id s).
  apply (every_simulation_can_finish db s "r1" 90 true None 10).
  - apply demo_reachable. by repeat constructor.
  - vm_compute. left.
  - reflexivity.
  - reflexivity.
Defined.
