(* ===== verification/ReadCommitted.v ===== *)
(** * Overlapping transactions

    [Fleet] lets transactions commit one after the other.  Here they overlap, as
    Postgres runs them at READ COMMITTED, its default, which the sources never
    change: a transaction sees the committed rows overlaid with its own, takes a
    row lock per row it writes and holds it to the end, every statement has a
    snapshot of its own, and a statement that waited for a row lock writes the
    newest version of that row from the snapshot it began with.  The trigger's
    UPDATE of app.batches (migration 0004) is two steps, its snapshot
    ([RTrigger]) and its write once the batch's row lock is free ([RRollup]);
    the sweep of Store.ResyncStuckBatches is the same two steps per batch
    ([RSweep]).  [RWrite] evaluates a statement's WHERE on the newest version of
    a row, when its lock is free. *)
From S2P Require Import Prelude Sql Schema Fixtures Rollup Lifecycle Store Fleet.
Local Open Scope Z_scope.

(** ** The row statements of the lifecycle *)
Inductive row_op :=
  | OpClaim (runner : string) (lease now : Z)
  | OpRenew (runner : string) (lease now : Z)
  | OpFinish (runner : string) (succeeded : bool) (err : option string) (now : Z)
  | OpRequeue (now : Z)
  | OpExpire (now : Z)
  | OpBackfill (model_sha weather_sha hash : string).

Definition op_guard (x : string) (op : row_op) (s : SimRow) : bool :=
  match op with
  | OpClaim _ _ _ => is_state (s_state s) Queued
  | OpRenew runner _ _ | OpFinish runner _ _ _ => fence x runner s
  | OpRequeue now => reap_retry now s
  | OpExpire now => reap_give_up now s
  | OpBackfill _ _ _ => true
  end.

Definition op_set (op : row_op) : SimRow → SimRow :=
  match op with
  | OpClaim runner lease now => claim_row runner lease now
  | OpRenew _ lease now => renew_row lease now
  | OpFinish _ ok err now => finish_row ok err now
  | OpRequeue _ => requeue_row
  | OpExpire now => fail_row now
  | OpBackfill m w h => λ s, set_hashes s m w h
  end.

(** The trigger is declared AFTER INSERT OR UPDATE OF state. *)
Definition op_fires (op : row_op) : bool :=
  match op with OpRenew _ _ _ | OpBackfill _ _ _ => false | _ => true end.

(** ** Transactions *)

(** A batch statement that has taken its snapshot and waits for the row. *)
Inductive batch_stmt := ByTrigger | BySweep.

Record Snap := mkSnap { sn_stmt : batch_stmt; sn_bid : string; sn_rows : list SimRow }.

Record Txn := mkTxn {
  x_upd : gmap string SimRow;       (* own versions of committed rows *)
  x_ins : list SimRow;              (* own new rows *)
  x_bat : gmap string BatchRow;     (* own versions of batch rows *)
  x_fired : list (option string);   (* triggers yet to run: their batch_id *)
  x_snap : option Snap;
}.

Record RC := mkRC { rc_db : DB; rc_open : gmap nat Txn }.

Definition empty_txn : Txn := mkTxn ∅ [] ∅ [] None.

Definition overlay (u : gmap string SimRow) (ss : list SimRow) : list SimRow :=
  map (λ s, default s (u !! s_id s)) ss.

(** What a statement of the transaction sees of app.simulations. *)
Definition view (x : Txn) (db : DB) : list SimRow :=
  overlay (x_upd x) (simulations db) ++ x_ins x.

Definition batch_overlay (u : gmap string BatchRow) (bs : list BatchRow) : list BatchRow :=
  map (λ b, default b (u !! b_id b)) bs.

Definition commit (x : Txn) (db : DB) : DB :=
  with_batches (with_simulations db (view x db)) (batch_overlay (x_bat x) (batches db)).

(** No other open transaction satisfies [p]. *)
Definition no_other (t : nat) (σ : RC) (p : Txn → bool) : bool :=
  bool_decide (map_Forall (λ u y, u = t ∨ p y = false) (rc_open σ)).

Definition locks_sim (k : string) (y : Txn) : bool :=
  bool_decide (is_Some (x_upd y !! k)) || existsb (λ s, String.eqb (s_id s) k) (x_ins y).
Definition locks_batch (k : string) (y : Txn) : bool := bool_decide (is_Some (x_bat y !! k)).

Definition put (t : nat) (x : Txn) (σ : RC) : RC := mkRC (rc_db σ) (<[t:=x]> (rc_open σ)).

(** What the batch statement writes on the row [b] it locked. *)
Definition batch_set (sn : Snap) (b : BatchRow) : BatchRow :=
  match sn_stmt sn with
  | ByTrigger => sync_row (sub_of (sn_bid sn) (sn_rows sn)) b
  | BySweep => if resync_hit (sn_rows sn) b then resync_row (sn_rows sn) b else b
  end.

Inductive rc_event :=
  | RBegin (t : nat)
  | RInsert (t : nat) (id : string) (now clock : Z) (p : InsertSimulationParams)
  | RWrite (t : nat) (x : string) (op : row_op)
  | RTrigger (t : nat)
  | RSweep (t : nat) (bid : string)
  | RRollup (t : nat)
  | RCommit (t : nat)
  | RAbort (t : nat)
  | RCreateBatch (id : string) (now : Z) (user : string) (total : Z) (key : option string).

Section steps.
Context {PU : PgUuid}.

(** One step; [None] when it is not enabled (it waits, or does not apply). *)
Definition rc_step (e : rc_event) (σ : RC) : option RC :=
  let db := rc_db σ in
  match e with
  | RBegin t =>
      match rc_open σ !! t with Some _ => None | None => Some (put t empty_txn σ) end
  | RInsert t id now clock p =>
      x ← rc_open σ !! t;
      if existsb (λ s, String.eqb (s_id s) id) (x_ins x)
         || negb (no_other t σ (locks_sim id)) then None
      else match insert_values id now clock p db with
      | Err _ => None
      | Ok r => Some (put t (mkTxn (x_upd x) (x_ins x ++ [r]) (x_bat x)
                               (x_fired x ++ [s_batch_id r]) (x_snap x)) σ)
      end
  | RWrite t k op =>
      x ← rc_open σ !! t;
      s ← List.find (λ s, String.eqb (s_id s) k) (overlay (x_upd x) (simulations db));
      if op_guard k op s && no_other t σ (locks_sim k) then
        Some (put t (mkTxn (<[k:=op_set op s]> (x_upd x)) (x_ins x) (x_bat x)
                (if op_fires op then x_fired x ++ [s_batch_id s] else x_fired x)%list
                (x_snap x)) σ)
      else None
  | RTrigger t =>
      x ← rc_open σ !! t;
      match x_fired x, x_snap x with
      | bid :: rest, None =>
          Some (put t (mkTxn (x_upd x) (x_ins x) (x_bat x) rest
                  ((λ b, mkSnap ByTrigger b (view x db)) <$> bid)) σ)
      | _, _ => None
      end
  | RSweep t bid =>
      x ← rc_open σ !! t;
      match x_snap x with
      | None => Some (put t (mkTxn (x_upd x) (x_ins x) (x_bat x) (x_fired x)
                        (Some (mkSnap BySweep bid (view x db)))) σ)
      | Some _ => None
      end
  | RRollup t =>
      x ← rc_open σ !! t;
      sn ← x_snap x;
      if no_other t σ (locks_batch (sn_bid sn)) then
        let row := List.find (λ b, String.eqb (b_id b) (sn_bid sn))
                     (batch_overlay (x_bat x) (batches db)) in
        Some (put t (mkTxn (x_upd x) (x_ins x)
                (match row with
                 | Some b => <[sn_bid sn:=batch_set sn b]> (x_bat x)
                 | None => x_bat x
                 end) (x_fired x) None) σ)
      else None
  | RCommit t =>
      x ← rc_open σ !! t;
      match x_fired x, x_snap x with
      | [], None => Some (mkRC (commit x db) (delete t (rc_open σ)))
      | _, _ => None
      end
  | RAbort t =>
      _ ← rc_open σ !! t;
      Some (mkRC db (delete t (rc_open σ)))
  | RCreateBatch id now user total key =>
      Some (mkRC (pg_create_batch id now user total key db).1 (rc_open σ))
  end.

Fixpoint rc_run (es : list rc_event) (σ : RC) : option RC :=
  match es with
  | [] => Some σ
  | e :: es' => σ' ← rc_step e σ; rc_run es' σ'
  end.

Inductive rc_reachable : RC → Prop :=
  | rc_init db : initial db → rc_reachable (mkRC db ∅)
  | rc_next σ e σ' : rc_reachable σ → rc_step e σ = Some σ' → rc_reachable σ'.
End steps.
