(* ===== verification/ReadCommittedSpec.v ===== *)
(** * What the rollup still guarantees when transactions overlap

    [grows]: how committed and own rows evolve, an order on row lists under
    which a count taken from an old snapshot is a lower bound.  Every version of
    a batch row, committed or not, is [sound] for the rows its writer sees,
    which is the invariant behind [done_is_never_premature].
    [lone_transaction_is_atomic] ties the steps to the one-step transactions of
    [Fleet]; [reaper_and_finish_can_deadlock] is an interleaving that only the
    abort of a transaction resolves. *)
From S2P Require Import Prelude Sql Schema Fixtures Rollup Lifecycle Store Fleet ReadCommitted.
Local Open Scope Z_scope.

(** ** Rows only move forward *)
Record row_le (s s' : SimRow) : Prop := {
  rl_id : s_id s' = s_id s;
  rl_batch : s_batch_id s' = s_batch_id s;
  rl_terminal : terminal (s_state s) = true → s_state s' = s_state s;
}.

#[export] Instance row_le_preorder : PreOrder row_le.
Proof.
  split; [done|]. intros a b c [H1 H2 H3] [H4 H5 H6].
  split; [congruence..|]. intros Ht. rewrite H6; [auto|]. by rewrite H3.
Qed.

(** Predicates a row keeps once it has them. *)
Definition stable (q : SimRow → bool) : Prop :=
  ∀ s s', row_le s s' → q s = true → q s' = true.

Definition grows (ss ss' : list SimRow) : Prop :=
  ∀ q, stable q → (count q ss ≤ count q ss')%nat.

#[export] Instance grows_preorder : PreOrder grows.
Proof.
  split; [intros ss q Hq; done|]. intros a b c H1 H2 q Hq. specialize (H1 q Hq). specialize (H2 q Hq). lia.
Qed.

Lemma grows_app a b c d : grows a b → grows c d → grows (a ++ c) (b ++ d).
Proof.
  intros H1 H2 q Hq. specialize (H1 q Hq). specialize (H2 q Hq). rewrite !count_app. lia.
Qed.

Lemma grows_nil ss : grows [] ss.
Proof. intros q _. apply Nat.le_0_l. Qed.

Lemma grows_map (f g : SimRow → SimRow) ss : (∀ s, s ∈ ss → row_le (f s) (g s)) → grows (map f ss) (map g ss).
Proof.
  intros H q Hq. induction ss as [|s ss IH]; [done|]. cbn [map]. rewrite !count_cons.
  assert (count q (map f ss) ≤ count q (map g ss))%nat
    by (apply IH; intros y Hy; apply H; by right).
  specialize (Hq (f s) (g s) (H s (list_elem_of_here s ss))).
  destruct (q (f s)); [rewrite Hq by done|]; lia.
Qed.

Lemma grows_map_id (f : SimRow → SimRow) ss : (∀ s, s ∈ ss → row_le s (f s)) → grows ss (map f ss).
Proof. intros H. rewrite <-(map_id ss) at 1. by apply grows_map. Qed.

Lemma stable_child bid : stable (is_child bid).
Proof. intros s s' [_ E _]. unfold is_child. by rewrite E. Qed.

Lemma stable_child_state bid st :
  terminal st = true → stable (λ s, is_child bid s && is_state (s_state s) st).
Proof.
  intros Ht s s' Hle. rewrite !andb_true_iff, !is_state_true. intros [Hc E].
  split; [by apply (stable_child bid s s')|]. by rewrite (rl_terminal _ _ Hle), E by by rewrite E.
Qed.

(** ** Sound batch rows *)
Definition n_children (bid : string) (ss : list SimRow) : Z :=
  Z.of_nat (count (is_child bid) ss).
Definition n_state (bid : string) (st : SimState) (ss : list SimRow) : Z :=
  Z.of_nat (count (λ s, is_child bid s && is_state (s_state s) st) ss).

Lemma n_children_grows bid ss ss' :
  grows ss ss' → n_children bid ss <= n_children bid ss'.
Proof. intros H. apply inj_le, H, stable_child. Qed.

Lemma n_state_grows bid st ss ss' :
  terminal st = true → grows ss ss' → n_state bid st ss <= n_state bid st ss'.
Proof. intros Ht H. by apply inj_le, H, stable_child_state. Qed.

Record sound (ss : list SimRow) (b : BatchRow) : Prop := {
  so_succeeded : b_succeeded b <= n_state (b_id b) Succeeded ss;
  so_failed : b_failed b <= n_state (b_id b) Failed ss;
  so_present : b_state b ≠ Expanding → b_total b <= n_children (b_id b) ss;
  so_done : b_state b = BDone → b_total b <= b_succeeded b + b_failed b;
}.

Lemma sound_grows ss ss' b : grows ss ss' → sound ss b → sound ss' b.
Proof.
  intros Hg [H1 H2 H3 H4]. split; [..|done].
  - etrans; [exact H1|by apply n_state_grows].
  - etrans; [exact H2|by apply n_state_grows].
  - intros Hst. etrans; [by apply H3|by apply n_children_grows].
Qed.

Lemma sub_of_n bid ss :
  let sub := sub_of bid ss in
  sub_inserted sub = n_children bid ss ∧
  sub_succeeded sub = n_state bid Succeeded ss ∧
  sub_failed sub = n_state bid Failed ss ∧
  sub_done sub = n_state bid Succeeded ss + n_state bid Failed ss.
Proof.
  unfold sub_of, n_children, n_state. simpl. rewrite done_children, Nat2Z.inj_add, !count_filter.
  done.
Qed.

(** The trigger's write, whatever the age of its snapshot. *)
Lemma sound_resynced rows ss b : grows rows ss → sound ss (resynced rows b).
Proof.
  intros Hg. pose proof (sub_of_n (b_id b) rows) as (Ei & Es & Ef & Ed).
  pose proof (n_state_grows (b_id b) Succeeded _ _ eq_refl Hg).
  pose proof (n_state_grows (b_id b) Failed _ _ eq_refl Hg).
  pose proof (n_children_grows (b_id b) _ _ Hg).
  unfold resynced, sync_row.
  split; cbn [b_id b_state b_total b_succeeded b_failed]; [lia..| |].
  - unfold sync_state. rewrite Ei. case_match eqn:E; [done|]. apply Z.ltb_ge in E. lia.
  - unfold sync_state. rewrite Ei, Ed, Es, Ef.
    case_match; [done|]. case_match eqn:E.
    + apply andb_true_iff in E as [_ E%Z.leb_le]. lia.
    + by case_match.
Qed.

Lemma sound_batch_set sn ss b :
  b_id b = sn_bid sn → grows (sn_rows sn) ss → sound ss b → sound ss (batch_set sn b).
Proof.
  intros E Hg Hb. unfold batch_set. destruct (sn_stmt sn).
  - rewrite <-E. by apply sound_resynced.
  - destruct (resync_hit _ _) eqn:Eh; [|done].
    rewrite resync_row_resynced by done. by apply sound_resynced.
Qed.

Lemma batch_set_key sn b :
  b_id (batch_set sn b) = b_id b ∧ b_total (batch_set sn b) = b_total b.
Proof. unfold batch_set. destruct (sn_stmt sn); [done|]. by destruct (resync_hit _ _). Qed.

(** ** The statements move rows forward *)
Lemma op_row_le k op s : op_guard k op s = true → row_le s (op_set op s).
Proof.
  unfold op_guard. destruct op as [r l n|r l n|r ok e n|n|n|m w h]; simpl.
  - intros E%is_state_true. split; [done..|]. by rewrite E.
  - done.
  - intros (_ & _ & E)%fence_true. split; [done..|]. by rewrite E.
  - unfold reap_retry, expired. intros [[E%is_state_true _]%andb_true_iff _]%andb_true_iff.
    split; [done..|]. by rewrite E.
  - unfold reap_give_up, expired. intros [[E%is_state_true _]%andb_true_iff _]%andb_true_iff.
    split; [done..|]. by rewrite E.
  - done.
Qed.

(** ** The invariant *)
Record txn_ok (x : Txn) (db : DB) : Prop := {
  ti_upd : ∀ s s', s ∈ simulations db → x_upd x !! s_id s = Some s' → row_le s s';
  ti_dom : ∀ k s', x_upd x !! k = Some s' → k ∈ map s_id (simulations db);
  ti_new : ∀ s, s ∈ x_ins x → s_id s ∉ map s_id (simulations db);
  ti_nodup : NoDup (map s_id (x_ins x));
  ti_bat : ∀ k b, x_bat x !! k = Some b → b_id b = k ∧ sound (view x db) b;
  ti_snap : ∀ sn, x_snap x = Some sn → grows (sn_rows sn) (view x db);
}.

Record rc_ok (σ : RC) : Prop := {
  ok_ids : NoDup (map s_id (simulations (rc_db σ)));
  ok_batches : ∀ b, b ∈ batches (rc_db σ) → sound (simulations (rc_db σ)) b;
  ok_txns : ∀ t x, rc_open σ !! t = Some x → txn_ok x (rc_db σ);
  ok_apart : ∀ t u x y k, t ≠ u → rc_open σ !! t = Some x → rc_open σ !! u = Some y →
    locks_sim k x = true → locks_sim k y = false;
}.

Lemma no_other_true t σ p :
  no_other t σ p = true ↔ ∀ u y, u ≠ t → rc_open σ !! u = Some y → p y = false.
Proof.
  unfold no_other. rewrite bool_decide_eq_true. split.
  - intros H u y Hne Hy. by destruct (H u y Hy).
  - intros H u y Hy. destruct (decide (u = t)); eauto.
Qed.

Lemma locks_sim_true k x :
  locks_sim k x = true ↔ is_Some (x_upd x !! k) ∨ ∃ s, s ∈ x_ins x ∧ s_id s = k.
Proof.
  unfold locks_sim. rewrite orb_true_iff, bool_decide_eq_true, existsb_elem.
  by setoid_rewrite String.eqb_eq.
Qed.

(** *** The overlay *)
Lemma overlay_row_le x db s :
  txn_ok x db → s ∈ simulations db → row_le s (default s (x_upd x !! s_id s)).
Proof.
  intros Hok Hs. destruct (x_upd x !! s_id s) as [s'|] eqn:E; [|done].
  by apply (ti_upd _ _ Hok).
Qed.

Lemma overlay_ids x db :
  txn_ok x db → map s_id (overlay (x_upd x) (simulations db)) = map s_id (simulations db).
Proof.
  intros Hok. unfold overlay. rewrite map_map. apply map_ext_in. intros s Hs.
  by destruct (overlay_row_le x db s Hok) as [-> _ _]; [apply list_elem_of_In|].
Qed.

Lemma view_grows x db : txn_ok x db → grows (simulations db) (view x db).
Proof.
  intros Hok. rewrite <-(app_nil_r (simulations db)) at 1.
  apply grows_app; [|apply grows_nil].
  apply grows_map_id. intros s. by apply overlay_row_le.
Qed.

Lemma find_overlay x db k s :
  txn_ok x db → NoDup (map s_id (simulations db)) →
  List.find (λ s, String.eqb (s_id s) k) (overlay (x_upd x) (simulations db)) = Some s →
  (∃ s0, s0 ∈ simulations db ∧ s_id s0 = k) ∧
  ∀ s0, s0 ∈ simulations db → s_id s0 = k → default s0 (x_upd x !! k) = s.
Proof.
  intros Hok Hnd [Hs E%String.eqb_eq]%find_Some_elem.
  apply elem_of_map_2 in Hs as (s1 & Hs1 & E1).
  assert (s_id s1 = k) as Hk.
  { rewrite <-E, <-E1. by destruct (overlay_row_le x db s1 Hok Hs1). }
  split; [by eauto|]. intros s0 Hs0 Hk0.
  assert (s0 = s1) as -> by (apply (NoDup_key_inj s_id (simulations db)); congruence).
  by rewrite <-Hk.
Qed.

(** A transaction whose rows and snapshot grow keeps its batch versions. *)
Lemma txn_ok_grows x x' db db' :
  txn_ok x db → grows (view x db) (view x' db') →
  x_bat x' = x_bat x → x_snap x' = x_snap x →
  (∀ s s', s ∈ simulations db' → x_upd x' !! s_id s = Some s' → row_le s s') →
  (∀ k s', x_upd x' !! k = Some s' → k ∈ map s_id (simulations db')) →
  (∀ s, s ∈ x_ins x' → s_id s ∉ map s_id (simulations db')) →
  NoDup (map s_id (x_ins x')) → txn_ok x' db'.
Proof.
  intros Hok Hg Eb Es H1 H2 H3 H4. split; [done..| |].
  - intros k b. rewrite Eb. intros [E Hs]%(ti_bat _ _ Hok).
    split; [done|]. by apply sound_grows with (1 := Hg).
  - intros sn. rewrite Es. intros H%(ti_snap _ _ Hok). by etrans.
Qed.

Lemma rc_ok_put t x x' σ :
  rc_ok σ → rc_open σ !! t = Some x → txn_ok x' (rc_db σ) →
  (∀ k, locks_sim k x' = true →
        locks_sim k x = true ∨ no_other t σ (locks_sim k) = true) →
  rc_ok (put t x' σ).
Proof.
  intros [H1 H2 H3 H4] Hx Hx' Hl. unfold put. split; cbn [rc_db rc_open]; [done..| |].
  - intros u y [[-> ->]|[Hne Hy]]%lookup_insert_Some; eauto.
  - intros u v y z k Hne Hy Hz Hk.
    apply lookup_insert_Some in Hy as [[<- <-]|[Hu Hy]];
      apply lookup_insert_Some in Hz as [[<- <-]|[Hv Hz]]; [done|..].
    + destruct (Hl k Hk) as [Hk'|Hno]; [by eapply (H4 t v)|].
      rewrite no_other_true in Hno. by eapply Hno.
    + apply not_true_iff_false. intros Hk'. destruct (Hl k Hk') as [Hx0|Hno].
      * by rewrite (H4 t u x y k) in Hk.
      * rewrite no_other_true in Hno. by rewrite (Hno u y) in Hk.
    + by eapply (H4 u v).
Qed.

(** ** Every step keeps the invariant *)
Section invariant.
Context {PU : PgUuid}.

Lemma insert_values_row id now clock p db r :
  insert_values id now clock p db = Ok r → ∃ user batch st,
    r = insert_row id now clock batch user st p ∧ insertable id user batch p db st.
Proof.
  intros E. unfold insert_values, with_uuid, with_uuid_opt, with_uuid in E.
  destruct (uuid_in (pUserID p)) as [u|]; [|done].
  destruct (pBatchID p) as [t|]; [destruct (uuid_in t) as [b|]; [|done]|].
  - destruct (check_insert id u (Some b) p db) eqn:Ec; simplify_eq/=.
    eauto 10 using check_insert_Ok.
  - destruct (check_insert id u None p db) eqn:Ec; simplify_eq/=.
    eauto 10 using check_insert_Ok.
Qed.

Lemma insert_values_Ok id now clock p db r :
  insert_values id now clock p db = Ok r →
  s_id r = id ∧ id ∉ map s_id (simulations db).
Proof.
  intros (user & batch & st & -> & Hi)%insert_values_row. split; [done|].
  intros (s & E' & Hs)%list_elem_of_In%in_map_iff.
  apply (ins_fresh _ _ _ _ _ _ Hi s); [by apply list_elem_of_In|done].
Qed.

Lemma txn_ok_empty db : txn_ok empty_txn db.
Proof.
  split; simpl; try done; [by intros s ?%not_elem_of_nil|constructor].
Qed.

Lemma txn_ok_insert x db id now clock p r :
  txn_ok x db → insert_values id now clock p db = Ok r →
  existsb (λ s, String.eqb (s_id s) id) (x_ins x) = false →
  txn_ok (mkTxn (x_upd x) (x_ins x ++ [r]) (x_bat x) (x_fired x ++ [s_batch_id r]) (x_snap x)) db.
Proof.
  intros Hok [<- Hfresh]%insert_values_Ok Hown.
  rewrite existsb_key_false in Hown.
  apply (txn_ok_grows x _ db); try done; try apply Hok; cbn [x_ins].
  - unfold view. cbn [x_upd x_ins]. rewrite (app_assoc (overlay _ _)).
    rewrite <-(app_nil_r (_ ++ x_ins x)) at 1. by apply grows_app, grows_nil.
  - intros s [Hs| ->%list_elem_of_singleton]%elem_of_app; [by apply Hok|done].
  - rewrite map_app. apply NoDup_app. split_and!; [apply Hok| |apply NoDup_singleton].
    intros k (s & Hs & <-)%elem_of_map_2 E%list_elem_of_singleton. by apply (Hown s).
Qed.

Lemma txn_ok_write x db k op s fired :
  txn_ok x db → NoDup (map s_id (simulations db)) →
  List.find (λ s, String.eqb (s_id s) k) (overlay (x_upd x) (simulations db)) = Some s →
  op_guard k op s = true →
  txn_ok (mkTxn (<[k:=op_set op s]> (x_upd x)) (x_ins x) (x_bat x) fired (x_snap x)) db.
Proof.
  intros Hok Hnd Hf Hg. destruct (find_overlay _ _ _ _ Hok Hnd Hf) as [(s0 & Hs0 & Hk) Hov].
  apply op_row_le in Hg.
  apply (txn_ok_grows x _ db); try done; try apply Hok; cbn [x_upd].
  - unfold view, overlay. cbn [x_upd x_ins]. apply grows_app; [|done].
    apply grows_map. intros s1 Hs1. destruct (decide (s_id s1 = k)) as [<-|Hne].
    + by rewrite (Hov s1), lookup_insert_eq.
    + by rewrite lookup_insert_ne.
  - intros s1 s' Hs1 [[E <-]|[_ H]]%lookup_insert_Some; [|by apply (ti_upd _ _ Hok)].
    etrans; [|exact Hg]. rewrite <-(Hov s1), E by done. by apply (overlay_row_le x db).
  - intros k' s' [[<- _]|[_ H]]%lookup_insert_Some; [|by apply (ti_dom _ _ Hok k' s')].
    rewrite <-Hk. by apply elem_of_map_1.
Qed.

(** The snapshot of a batch statement is the present view. *)
Lemma txn_ok_snap x db fired (sn : option Snap) :
  txn_ok x db → (∀ n, sn = Some n → sn_rows n = view x db) →
  txn_ok (mkTxn (x_upd x) (x_ins x) (x_bat x) fired sn) db.
Proof.
  intros [H1 H2 H3 H4 H5 _] Hsn. split; [done..|]. by intros n ->%Hsn.
Qed.

Lemma sound_batch_overlay x db b :
  txn_ok x db → (∀ b, b ∈ batches db → sound (simulations db) b) →
  b ∈ batch_overlay (x_bat x) (batches db) → sound (view x db) b.
Proof.
  intros Hok Hb (b0 & Hb0 & <-)%elem_of_map_2.
  destruct (x_bat x !! b_id b0) as [b1|] eqn:E; simpl.
  - by apply (ti_bat _ _ Hok _ _ E).
  - apply sound_grows with (simulations db); [by apply view_grows|auto].
Qed.

Lemma txn_ok_rollup x db sn :
  txn_ok x db → (∀ b, b ∈ batches db → sound (simulations db) b) → x_snap x = Some sn →
  txn_ok (mkTxn (x_upd x) (x_ins x)
            (match List.find (λ b, String.eqb (b_id b) (sn_bid sn))
                     (batch_overlay (x_bat x) (batches db)) with
             | Some b => <[sn_bid sn:=batch_set sn b]> (x_bat x)
             | None => x_bat x
             end) (x_fired x) None) db.
Proof.
  intros Hok Hbs Hsn. destruct (List.find _ _) as [b|] eqn:Ef.
  2: { destruct Hok as [H1 H2 H3 H4 H5 H6]. by split. }
  apply find_Some_elem in Ef as [Hb E%String.eqb_eq].
  pose proof (sound_batch_overlay _ _ _ Hok Hbs Hb) as Hs.
  destruct Hok as [H1 H2 H3 H4 H5 H6]. split; [done..| |done]. cbn [x_bat].
  intros k b' [[<- <-]|[_ Hk]]%lookup_insert_Some; [|by apply H5].
  split; [by destruct (batch_set_key sn b) as [-> _]|].
  apply sound_batch_set; [done|by apply H6|done].
Qed.

(** The commit of [x]. *)
Lemma commit_ids x db :
  txn_ok x db → map s_id (simulations (commit x db)) =
                (map s_id (simulations db) ++ map s_id (x_ins x))%list.
Proof.
  intros Hok. unfold commit, view. cbn [simulations with_batches with_simulations].
  rewrite map_app. f_equal. by apply overlay_ids.
Qed.

Lemma upd_apart x y :
  (∀ k, locks_sim k x = true → locks_sim k y = false) →
  ∀ k s', x_upd x !! k = Some s' → x_upd y !! k = None.
Proof.
  intros Hap k s' E. destruct (x_upd y !! k) eqn:Ey; [|done].
  assert (locks_sim k y = false) as Hl by (apply Hap, locks_sim_true; eauto).
  apply not_true_iff_false in Hl. destruct Hl. apply locks_sim_true. eauto.
Qed.

Lemma txn_ok_commit x y db :
  txn_ok x db → txn_ok y db →
  (∀ k, locks_sim k x = true → locks_sim k y = false) → txn_ok y (commit x db).
Proof.
  intros Hx Hy Hap. pose proof (upd_apart x y Hap) as Hno.
  apply (txn_ok_grows y _ db); try done.
  - unfold view at 2. unfold commit. cbn [simulations with_batches with_simulations].
    unfold view, overlay. rewrite map_app, <-app_assoc.
    apply grows_app; [|rewrite <-(app_nil_l (x_ins y)) at 1; by apply grows_app; [apply grows_nil|]].
    rewrite map_map. apply grows_map. intros s Hs.
    destruct (overlay_row_le x db s Hx Hs) as [-> _ _].
    destruct (x_upd y !! s_id s); [done|]. by apply (overlay_row_le x db).
  - unfold commit, view. cbn [simulations with_batches with_simulations].
    intros s s' [(s0 & Hs0 & <-)%elem_of_map_2|Hs]%elem_of_app E.
    + destruct (x_upd x !! s_id s0) as [s1|] eqn:Ex; simpl in E.
      * destruct (ti_upd _ _ Hx s0 s1 Hs0 Ex) as [Hid _ _].
        by rewrite Hid, (Hno _ _ Ex) in E.
      * by apply (ti_upd _ _ Hy).
    + apply (ti_dom _ _ Hy) in E. by apply (ti_new _ _ Hx) in Hs.
  - intros k s' E%(ti_dom _ _ Hy). rewrite commit_ids by done. apply elem_of_app. by left.
  - intros s Hs. rewrite commit_ids by done.
    intros [H|(s' & Hs' & E)%elem_of_map_2]%elem_of_app; [by apply (ti_new _ _ Hy s)|].
    assert (locks_sim (s_id s) y = false) as Hl by (apply Hap, locks_sim_true; eauto).
    apply not_true_iff_false in Hl. destruct Hl. apply locks_sim_true. eauto.
  - apply Hy.
Qed.

Lemma rc_ok_commit t x σ :
  rc_ok σ → rc_open σ !! t = Some x →
  rc_ok (mkRC (commit x (rc_db σ)) (delete t (rc_open σ))).
Proof.
  intros [H1 H2 H3 H4] Hx. pose proof (H3 t x Hx) as Hok.
  split; cbn [rc_db rc_open].
  - rewrite commit_ids by done. apply NoDup_app. split_and!; [done| |apply Hok].
    intros k Hk (s & Hs & <-)%elem_of_map_2. by apply (ti_new _ _ Hok s).
  - intros b Hb. by apply sound_batch_overlay.
  - intros u y [Hne Hy]%lookup_delete_Some.
    apply txn_ok_commit; [done|by eapply H3|]. intros k. by apply (H4 t u).
  - intros u v y z k Hne [_ Hy]%lookup_delete_Some [_ Hz]%lookup_delete_Some. eauto.
Qed.

Lemma txn_ok_same_simulations x db db' :
  simulations db' = simulations db → txn_ok x db → txn_ok x db'.
Proof.
  intros E [H1 H2 H3 H4 H5 H6]. split; unfold view in *; by rewrite ?E.
Qed.

Lemma rc_ok_create_batch id now user total key σ :
  rc_ok σ → rc_ok (mkRC (pg_create_batch id now user total key (rc_db σ)).1 (rc_open σ)).
Proof.
  intros [H1 H2 H3 H4].
  assert (E := simulations_create_batch id now user total key (rc_db σ)).
  split; cbn [rc_db rc_open]; [by rewrite E| |eauto using txn_ok_same_simulations|done].
  rewrite E. destruct (pg_create_batch _ _ _ _ _ _) as [db' [r|e]] eqn:Ec.
  2: { unfold pg_create_batch in Ec. by case_match; simplify_eq. }
  apply pg_create_batch_Ok in Ec as (u & _ & _ & _ & _ & _ & ->). cbn [fst batches with_batches].
  intros b [Hb| ->%list_elem_of_singleton]%elem_of_app; [auto|].
  split; simpl; try done; apply Nat2Z.is_nonneg.
Qed.

Lemma rc_ok_begin t σ : rc_ok σ → rc_ok (put t empty_txn σ).
Proof.
  intros [H1 H2 H3 H4]. unfold put. split; cbn [rc_db rc_open]; [done..| |].
  - intros u y [[_ <-]|[_ Hy]]%lookup_insert_Some; [apply txn_ok_empty|eauto].
  - intros u v y z k Hne [[<- <-]|[_ Hy]]%lookup_insert_Some
      [[<- <-]|[_ Hz]]%lookup_insert_Some; try done; eauto.
Qed.

Lemma rc_ok_abort t σ : rc_ok σ → rc_ok (mkRC (rc_db σ) (delete t (rc_open σ))).
Proof.
  intros [H1 H2 H3 H4]. split; cbn [rc_db rc_open]; [done..| |].
  - intros u y [_ Hy]%lookup_delete_Some. eauto.
  - intros u v y z k Hne [_ Hy]%lookup_delete_Some [_ Hz]%lookup_delete_Some. eauto.
Qed.

Lemma rc_ok_step e σ σ' : rc_ok σ → rc_step e σ = Some σ' → rc_ok σ'.
Proof.
  intros Hok Hst. pose proof Hok as [Hids Hbs Htx _].
  destruct e as [t|t id now clock p|t k op|t|t bid|t|t|t|id now user total key];
    cbn [rc_step] in Hst.
  - destruct (rc_open σ !! t) eqn:E; [done|]. injection Hst as <-. by apply rc_ok_begin.
  - apply bind_Some in Hst as (x & Hx & Hst).
    destruct (existsb _ _) eqn:Eo; [done|]. cbn [orb] in Hst.
    destruct (no_other t σ (locks_sim id)) eqn:En; [|done]. cbn [negb] in Hst.
    destruct (insert_values _ _ _ _ _) as [r|] eqn:Ei; [|done]. injection Hst as <-.
    eapply rc_ok_put; [done|exact Hx|by eapply txn_ok_insert; [apply (Htx t)|..]|].
    intros k [H|(s & Hs & E)]%locks_sim_true; [left; apply locks_sim_true; by left|].
    cbn [x_ins] in Hs. apply elem_of_app in Hs as [Hs| ->%list_elem_of_singleton].
    + left. apply locks_sim_true. eauto.
    + right. apply insert_values_Ok in Ei as [Er _]. congruence.
  - apply bind_Some in Hst as (x & Hx & Hst). apply bind_Some in Hst as (s & Hs & Hst).
    destruct (op_guard k op s && _) eqn:Eg; [|done]. injection Hst as <-.
    apply andb_true_iff in Eg as [Eg En].
    eapply rc_ok_put; [done|exact Hx|by apply txn_ok_write; [apply (Htx t)|..]|].
    intros j [[s' H]|H]%locks_sim_true; cbn [x_upd x_ins] in H.
    + apply lookup_insert_Some in H as [[<- _]|[_ H]]; [by right|].
      left. apply locks_sim_true. eauto.
    + left. apply locks_sim_true. by right.
  - apply bind_Some in Hst as (x & Hx & Hst).
    destruct (x_fired x) as [|bid rest]; [done|]. destruct (x_snap x); [done|].
    injection Hst as <-. eapply rc_ok_put; [done|exact Hx| |by left].
    apply txn_ok_snap; [by apply (Htx t)|]. by destruct bid; intros n [= <-].
  - apply bind_Some in Hst as (x & Hx & Hst). destruct (x_snap x); [done|].
    injection Hst as <-. eapply rc_ok_put; [done|exact Hx| |by left].
    apply txn_ok_snap; [by apply (Htx t)|]. by intros n [= <-].
  - apply bind_Some in Hst as (x & Hx & Hst). apply bind_Some in Hst as (sn & Hsn & Hst).
    destruct (no_other _ _ _); [|done]. injection Hst as <-.
    eapply rc_ok_put; [done|exact Hx| |by left].
    apply txn_ok_rollup; [by apply (Htx t)|done..].
  - apply bind_Some in Hst as (x & Hx & Hst).
    destruct (x_fired x); [|done]. destruct (x_snap x); [done|]. injection Hst as <-.
    by apply rc_ok_commit.
  - apply bind_Some in Hst as (x & Hx & [= <-]). by apply rc_ok_abort.
  - injection Hst as <-. by apply rc_ok_create_batch.
Qed.

Lemma rc_ok_reachable σ : rc_reachable σ → rc_ok σ.
Proof.
  induction 1 as [db [Hb Hs]|σ e σ' _ IH Hst]; [|by eapply rc_ok_step].
  split; cbn [rc_db rc_open]; rewrite ?Hb, ?Hs; simpl.
  - constructor.
  - by intros b ?%not_elem_of_nil.
  - by intros t x ?%lookup_empty_Some.
  - intros t u x y k _ ?%lookup_empty_Some. done.
Qed.

Lemma rc_reachable_run es : ∀ σ σ',
  rc_reachable σ → rc_run es σ = Some σ' → rc_reachable σ'.
Proof.
  induction es as [|e es IH]; intros σ σ' Hr; [by intros [= <-]|].
  cbn [rc_run]. intros (σ1 & H1 & H2)%bind_Some. eapply IH; [|done]. by eapply rc_next.
Qed.
End invariant.

(** ** A transaction that runs alone *)

(** Its script: the row, the trigger's snapshot, the rollup, the commit. *)
Definition alone (t : nat) (k : string) (op : row_op) (batch : option string) :
    list rc_event :=
  [RBegin t; RWrite t k op; RTrigger t]
  ++ match batch with Some _ => [RRollup t] | None => [] end ++ [RCommit t].

Definition row_at (k : string) (s : SimRow) : bool := String.eqb (s_id s) k.

Lemma overlay_singleton k s ss :
  overlay (<[k:=s]> ∅) ss = update_where (row_at k) (λ _, s) ss.
Proof.
  unfold overlay, update_where. apply map_ext. intros r. unfold row_at.
  destruct (String.eqb_spec (s_id r) k) as [->|Hne].
  - by rewrite lookup_insert_eq.
  - by rewrite lookup_insert_ne, lookup_empty by congruence.
Qed.

Lemma overlay_empty ss : overlay ∅ ss = ss.
Proof. unfold overlay. rewrite <-(map_id ss) at 2. apply map_ext. intros s. by rewrite lookup_empty. Qed.

Lemma batch_overlay_empty bs : batch_overlay ∅ bs = bs.
Proof. unfold batch_overlay. rewrite <-(map_id bs) at 2. apply map_ext. intros s. by rewrite lookup_empty. Qed.

(** A row written alone, and the batch its trigger rolls up. *)
Lemma batch_overlay_singleton bid b bs g :
  NoDup (map b_id bs) → b ∈ bs → b_id b = bid →
  batch_overlay (<[bid:=g b]> ∅) bs = update_where (λ r, String.eqb (b_id r) bid) g bs.
Proof.
  intros Hnd Hb E. unfold batch_overlay, update_where. apply map_ext_in. intros r Hr.
  destruct (String.eqb_spec (b_id r) bid) as [Er|Hne].
  - rewrite Er, lookup_insert_eq. simpl. f_equal.
    apply (NoDup_key_inj b_id bs); [done..|by apply list_elem_of_In|congruence].
  - by rewrite lookup_insert_ne, lookup_empty by congruence.
Qed.

Section alone.
Context {PU : PgUuid} (t : nat).

(** The system with [x] as its only open transaction. *)
Definition only (x : Txn) (db : DB) : RC := mkRC db (<[t:=x]> ∅).

Lemma no_other_only x db p : no_other t (only x db) p = true.
Proof.
  apply no_other_true. unfold only. cbn [rc_open].
  intros u y Hne [[E _]|[_ ?%lookup_empty_Some]]%lookup_insert_Some; [congruence|done].
Qed.

Lemma put_only x y db : put t y (only x db) = only y db.
Proof. unfold put, only. cbn [rc_db rc_open]. by rewrite insert_insert_eq. Qed.

Lemma bind_only {B} x db (k : Txn → option B) : (y ← rc_open (only x db) !! t; k y) = k x.
Proof. unfold only. cbn [rc_open]. by rewrite lookup_insert_eq. Qed.

Lemma step_begin db : rc_step (RBegin t) (mkRC db ∅) = Some (only empty_txn db).
Proof. cbn [rc_step rc_open]. by rewrite lookup_empty. Qed.

Lemma step_write x db k op s :
  List.find (row_at k) (overlay (x_upd x) (simulations db)) = Some s →
  op_guard k op s = true → op_fires op = true →
  rc_step (RWrite t k op) (only x db) =
  Some (only (mkTxn (<[k:=op_set op s]> (x_upd x)) (x_ins x) (x_bat x)
                (x_fired x ++ [s_batch_id s]) (x_snap x)) db).
Proof.
  intros Hf Hg Ho. cbn [rc_step]. rewrite bind_only. cbn [rc_db only].
  fold (row_at k). rewrite Hf. cbn [mbind option_bind].
  rewrite Hg, Ho, no_other_only. cbn [andb]. by rewrite put_only.
Qed.

Lemma step_trigger x db bid rest :
  x_fired x = bid :: rest → x_snap x = None →
  rc_step (RTrigger t) (only x db) =
  Some (only (mkTxn (x_upd x) (x_ins x) (x_bat x) rest
                ((λ b, mkSnap ByTrigger b (view x db)) <$> bid)) db).
Proof.
  intros Hf Hs. cbn [rc_step]. rewrite bind_only, Hf, Hs. cbn [rc_db only]. by rewrite put_only.
Qed.

Lemma step_rollup x db sn :
  x_snap x = Some sn →
  rc_step (RRollup t) (only x db) =
  Some (only (mkTxn (x_upd x) (x_ins x)
    (match List.find (λ b, String.eqb (b_id b) (sn_bid sn))
             (batch_overlay (x_bat x) (batches db)) with
     | Some b => <[sn_bid sn:=batch_set sn b]> (x_bat x)
     | None => x_bat x
     end) (x_fired x) None) db).
Proof.
  intros Hs. cbn [rc_step]. rewrite bind_only, Hs. cbn [mbind option_bind].
  rewrite no_other_only. cbn [rc_db only]. by rewrite put_only.
Qed.

Lemma step_commit x db :
  x_fired x = [] → x_snap x = None →
  rc_step (RCommit t) (only x db) = Some (mkRC (commit x db) ∅).
Proof.
  intros Hf Hs. cbn [rc_step]. rewrite bind_only, Hf, Hs. unfold only. cbn [rc_open rc_db].
  by rewrite delete_insert_id.
Qed.

Lemma find_row_at s ss :
  NoDup (map s_id ss) → s ∈ ss → List.find (row_at (s_id s)) ss = Some s.
Proof.
  intros Hnd Hs. destruct (List.find _ _) as [r|] eqn:E.
  - apply find_Some_elem in E as [Hr E%String.eqb_eq]. f_equal.
    by apply (NoDup_key_inj s_id ss).
  - eapply List.find_none in E; [|by apply list_elem_of_In].
    unfold row_at in E. by rewrite String.eqb_refl in E.
Qed.

(** Its commit is the statement and its trigger on the whole database. *)
Lemma run_alone op s db :
  NoDup (map s_id (simulations db)) → NoDup (map b_id (batches db)) →
  s ∈ simulations db → op_guard (s_id s) op s = true → op_fires op = true →
  rc_run (alone t (s_id s) op (s_batch_id s)) (mkRC db ∅) =
  Some (mkRC (sync_batch_counts (s_batch_id s)
          (with_simulations db
             (update_where (row_at (s_id s)) (λ _, op_set op s) (simulations db)))) ∅).
Proof.
  intros Hs Hb Hin Hg Hf. unfold alone. cbn [app rc_run].
  rewrite step_begin. cbn [mbind option_bind].
  rewrite (step_write _ _ _ _ s); [|by rewrite overlay_empty, find_row_at|done..].
  cbn [mbind option_bind x_upd x_ins x_bat x_fired x_snap empty_txn app].
  rewrite (step_trigger _ _ (s_batch_id s) []) by done.
  cbn [mbind option_bind x_upd x_ins x_bat x_fired x_snap].
  unfold view at 1. cbn [x_upd x_ins]. rewrite overlay_singleton, app_nil_r.
  destruct (s_batch_id s) as [bid|]; cbn [fmap option_fmap option_map app rc_run].
  - erewrite step_rollup by done. cbn [mbind option_bind x_upd x_ins x_bat x_fired].
    erewrite step_commit by done. cbn [mbind option_bind]. do 2 f_equal.
    rewrite batch_overlay_empty. cbn [sn_bid sync_batch_counts].
    unfold commit, view. cbn [x_upd x_ins x_bat]. rewrite overlay_singleton, app_nil_r.
    unfold with_batches, with_simulations. cbn [users api_keys batches simulations results].
    f_equal. destruct (List.find _ (batches db)) as [b|] eqn:E.
    + apply find_Some_elem in E as [Hbin E%String.eqb_eq].
      by rewrite (batch_overlay_singleton _ b _ _ Hb Hbin E).
    + rewrite batch_overlay_empty, update_where_none; [done|].
      intros b Hbin. eapply List.find_none in E; [exact E|by apply list_elem_of_In].
  - erewrite step_commit by done. cbn [mbind option_bind sync_batch_counts]. do 2 f_equal.
    unfold commit, view. cbn [x_upd x_ins x_bat]. rewrite overlay_singleton, app_nil_r.
    by rewrite batch_overlay_empty.
Qed.

(** A state-setting UPDATE of one row, as [Schema] writes it. *)
Lemma update_state_one p f s db :
  NoDup (map s_id (simulations db)) → s ∈ simulations db → p s = true →
  (∀ r, p r = true → s_id r = s_id s) → s_batch_id (f s) = s_batch_id s →
  (update_simulations_state p f db).2 =
  sync_batch_counts (s_batch_id s)
    (with_simulations db (update_where (row_at (s_id s)) (λ _, f s) (simulations db))).
Proof.
  intros Hnd Hs Hp Hid Hb.
  assert (Hone : ∀ r, r ∈ simulations db → p r = row_at (s_id s) r).
  { intros r Hr. unfold row_at. destruct (String.eqb_spec (s_id r) (s_id s)) as [E|Hne].
    - by rewrite (NoDup_key_inj s_id (simulations db) r s).
    - apply not_true_iff_false. auto. }
  unfold update_simulations_state. cbn [snd].
  rewrite (List.filter_ext_in p (row_at (s_id s)))
    by (intros r Hr; apply Hone; by apply list_elem_of_In).
  unfold row_at at 1. rewrite (filter_key_NoDup s_id _ _ Hnd Hs). cbn [map].
  unfold fire_triggers. cbn [fold_left]. rewrite Hb. f_equal. f_equal.
  unfold update_where. apply map_ext_in. intros r Hr%list_elem_of_In.
  rewrite Hone by done. unfold row_at.
  destruct (String.eqb_spec (s_id r) (s_id s)); [|done].
  by rewrite (NoDup_key_inj s_id (simulations db) r s).
Qed.
End alone.

(** ** Properties *)

(** C4: however transactions overlap, a batch is never reported further than it
    is.  In every state Postgres can reach at READ COMMITTED (inserts, claims,
    heartbeats, finishes, reaps, back-fills and resync sweeps in any
    interleaving, with rollups computed from snapshots that are stale by the
    time they are written), the committed counts of a batch never exceed its
    succeeded and failed simulations; a batch in state done has at least its
    total rows; and as long as it has no more rows than its total, done means
    that every one of its rows is terminal and both counts are exact. *)
Theorem done_is_never_premature {PU : PgUuid} σ b :
  rc_reachable σ → b ∈ batches (rc_db σ) →
  let ss := simulations (rc_db σ) in
  b_succeeded b <= n_state (b_id b) Succeeded ss ∧
  b_failed b <= n_state (b_id b) Failed ss ∧
  (b_state b = BDone →
     b_total b <= n_children (b_id b) ss ∧
     (n_children (b_id b) ss <= b_total b →
        b_succeeded b = n_state (b_id b) Succeeded ss ∧
        b_failed b = n_state (b_id b) Failed ss ∧
        ∀ s, s ∈ ss → is_child (b_id b) s = true → terminal (s_state s) = true)).
Proof.
  intros Hr Hb ss. destruct (ok_batches _ (rc_ok_reachable _ Hr) b Hb) as [H1 H2 H3 H4].
  fold ss in H1, H2, H3. split_and!; [done..|]. intros Hd. rewrite Hd in H3.
  specialize (H3 ltac:(done)). specialize (H4 Hd). split; [done|]. intros Hle.
  destruct (sub_of_n (b_id b) ss) as (_ & _ & _ & Ed).
  rewrite sub_of_counts in Ed. cbn [sub_done] in Ed. unfold n_children in *.
  pose proof (count_split (is_child (b_id b)) (λ s, terminal (s_state s)) ss) as Hsp.
  cbn beta in Hsp.
  split_and!; [lia..|]. intros s Hs Hc. apply not_false_iff_true. intros Ht.
  assert (0 < count (λ x, is_child (b_id b) x && negb (terminal (s_state x))) ss)%nat; [|lia].
  apply count_pos. exists s. by rewrite Hc, Ht.
Qed.

(** The one-step transactions of the fleet model are what Postgres does when
    a transaction runs alone: the row statement, the trigger's snapshot, its
    rollup and the commit, one after the other, end in exactly the database of
    [finish_simulation], or of [claim_simulation] for the row it picks, with
    nothing left open. *)
Theorem lone_transaction_is_atomic {PU : PgUuid} t db :
  db_wf db →
  (∀ s runner ok err now, s ∈ simulations db → fence (s_id s) runner s = true →
     rc_run (alone t (s_id s) (OpFinish runner ok err now) (s_batch_id s)) (mkRC db ∅) =
     Some (mkRC (finish_simulation (s_id s) runner ok err now db).2 ∅)) ∧
  (∀ s runner version cap lease locked now, claim_pick version cap locked db = Some s →
     rc_run (alone t (s_id s) (OpClaim runner lease now) (s_batch_id s)) (mkRC db ∅) =
     Some (mkRC (claim_simulation runner version cap lease locked now db).2 ∅)).
Proof.
  intros [Hs Hb _ _ _ _ _]. split.
  - intros s runner ok err now Hin Hf. rewrite run_alone by done. do 2 f_equal. symmetry.
    apply update_state_one; try done. by intros r (-> & _)%fence_true.
  - intros s runner v cap lease locked now Hp.
    pose proof (claim_pick_Some _ _ _ _ _ Hs Hp) as ([Hin He]%elem_of_eligible & _).
    apply eligible_true in He as [Hst _].
    rewrite run_alone by (done || by apply is_state_true). do 2 f_equal. symmetry.
    unfold claim_simulation. rewrite Hp.
    apply update_state_one; try done; [by apply String.eqb_refl|by intros r ?%String.eqb_eq].
Qed.

(** A batch of two. *)
Definition race_rows : list rc_event :=
  [RCreateBatch "b1" 1 "alice" 2 None;
   RBegin 0; RInsert 0 "s1" 2 2 (demo_params (Some "b1") "queued");
   RTrigger 0; RRollup 0; RCommit 0;
   RBegin 0; RInsert 0 "s2" 3 3 (demo_params (Some "b1") "queued");
   RTrigger 0; RRollup 0; RCommit 0].

(** Two Runners claim its simulations, and finish them at the same time: the second
    rollup's snapshot misses the first finish. *)
Definition race_submit : list rc_event :=
  race_rows ++ alone 0 "s1" (OpClaim "r1" 90 10) (Some "b1")
  ++ alone 0 "s2" (OpClaim "r2" 90 11) (Some "b1").

Definition race_finish : list rc_event :=
  [RBegin 1; RWrite 1 "s1" (OpFinish "r1" true None 20); RTrigger 1; RRollup 1;
   RBegin 2; RWrite 2 "s2" (OpFinish "r2" true None 21); RTrigger 2;
   RCommit 1; RRollup 2; RCommit 2].

(** *** A deadlock *)

(** s1 and s2 are running with expired leases, s2 for the last time. *)
Definition expired_leases : list rc_event :=
  race_rows ++
  alone 0 "s1" (OpClaim "r1" 0 10) (Some "b1") ++ alone 0 "s2" (OpClaim "r2" 0 10) (Some "b1") ++
  alone 0 "s2" (OpRequeue 11) (Some "b1") ++ alone 0 "s2" (OpClaim "r2" 0 12) (Some "b1") ++
  alone 0 "s2" (OpRequeue 13) (Some "b1") ++ alone 0 "s2" (OpClaim "r2" 0 14) (Some "b1").

(** The Reaper has requeued s1 and rolled up its batch; r2 finishes s2 late. *)
Definition race_reap : list rc_event :=
  [RBegin 1; RWrite 1 "s1" (OpRequeue 20); RTrigger 1; RRollup 1;
   RBegin 2; RWrite 2 "s2" (OpFinish "r2" true None 21); RTrigger 2].

(** app.reap_expired_leases takes a batch's lock before it takes the rows of its
    second UPDATE, finish_simulation a row's before its batch's: the two can wait
    for each other, until one of them is aborted. *)
Lemma reaper_and_finish_can_deadlock : ∃ σ,
  rc_reachable (PU := demo_uuid) σ ∧
  rc_step (PU := demo_uuid) (RRollup 2) σ = None ∧
  rc_step (PU := demo_uuid) (RWrite 1 "s2" (OpExpire 20)) σ = None ∧
  is_Some (rc_run (PU := demo_uuid) [RAbort 1; RRollup 2; RCommit 2] σ) ∧
  is_Some (rc_run (PU := demo_uuid)
    [RAbort 2; RWrite 1 "s2" (OpExpire 20); RTrigger 1; RRollup 1; RCommit 1] σ).
Proof.
  destruct (rc_run (PU := demo_uuid) (expired_leases ++ race_reap) (mkRC demo_start ∅)) as [σ|] eqn:E;
    [|by vm_compute in E].
  exists σ. split; [exact (rc_reachable_run (PU := demo_uuid) _ _ _
                      (rc_init (PU := demo_uuid) demo_start (conj eq_refl eq_refl)) E)|].
  vm_compute in E. injection E as <-. split_and!; vm_compute; [reflexivity..|by eexists|by eexists].
Qed.

(** *** Witnesses *)
Lemma done_is_never_premature_witness :
  ∃ σ b, rc_reachable (PU := demo_uuid) σ ∧ b ∈ batches (rc_db σ) ∧ b_state b = BDone ∧
    b_total b <= n_children (b_id b) (simulations (rc_db σ)).
Proof.
  destruct (rc_run (PU := demo_uuid)
    (race_submit ++ race_finish ++ [RBegin 3; RSweep 3 "b1"; RRollup 3; RCommit 3])
    (mkRC demo_start ∅)) as [σ|] eqn:E; [|by vm_compute in E].
  assert (Hr : rc_reachable (PU := demo_uuid) σ).
  { exact (rc_reachable_run (PU := demo_uuid) _ _ _
             (rc_init (PU := demo_uuid) demo_start (conj eq_refl eq_refl)) E). }
  set (b := mkBatch "b1" "alice" BDone 2 2 0 None 1).
  assert (Hb : b ∈ batches (rc_db σ)).
  { vm_compute in E. injection E as <-. left. }
  exists σ, b. split_and!; [done..|].
  by apply (done_is_never_premature (PU := demo_uuid) σ b Hr Hb).
Defined.

Lemma lone_transaction_is_atomic_witness :
  ∃ db, db_wf db ∧
    rc_run (PU := demo_uuid) (alone 0 "s1" (OpClaim "r1" 90 10) (Some "b1")) (mkRC db ∅) =
    Some (mkRC (claim_simulation "r1" "24.1.0" 5 90 (λ _, false) 10 db).2 ∅).
Proof.
  pose (db := run (PU := demo_uuid) demo_submit demo_start).
  assert (Hwf : db_wf db).
  { apply (db_wf_run (PU := demo_uuid)); [by apply db_wf_initial|by repeat constructor]. }
  assert (Hp : ∃ s, claim_pick "24.1.0" 5 (λ _, false) db = Some s ∧
                    s_id s = "s1" ∧ s_batch_id s = Some "b1").
  { eexists. split; [vm_compute; reflexivity|split; reflexivity]. }
  clearbody db. destruct Hp as (s & E & <- & <-). exists db. split; [exact Hwf|].
  exact (proj2 (lone_transaction_is_atomic (PU := demo_uuid) 0 db Hwf)
    s "r1" "24.1.0" 5 90 (λ _, false) 10 E).
Defined.
