(* ===== verification/OverlapSpec.v ===== *)
(** * When overlapping transactions keep the rollup exact, and when they lose it

    [works_on]: a transaction has changed a simulation of a batch, or has a
    trigger to run for it.  As long as no two open transactions work on the same
    batch at once, the batch's committed row is exact in every state
    ([rollup_is_exact_without_overlap]), whatever else overlaps; two finishes that
    do overlap always lose one of them
    ([overlapping_finishes_lose_the_rollup]). *)
From S2P Require Import Prelude Sql Schema Fixtures Rollup Lifecycle Store Fleet ReadCommitted ReadCommittedSpec.
Local Open Scope Z_scope.

(** ** Working on a batch *)

(** A trigger for the batch is to run, or has its snapshot and waits. *)
Definition pending (bid : string) (x : Txn) : bool :=
  existsb (λ o, sql_eq o bid) (x_fired x)
  || match x_snap x with
     | Some sn => match sn_stmt sn with ByTrigger => String.eqb (sn_bid sn) bid | BySweep => false end
     | None => false
     end.

(** A simulation of the batch is new, or has another state than its committed
    row. *)
Definition changes (bid : string) (db : DB) (x : Txn) : bool :=
  existsb (is_child bid) (x_ins x)
  || existsb (λ s, is_child bid s && match x_upd x !! s_id s with
                                     | Some s' => negb (is_state (s_state s') (s_state s))
                                     | None => false
                                     end) (simulations db).

Definition works_on (bid : string) (db : DB) (x : Txn) : bool :=
  pending bid x || changes bid db x.

(** At most one open transaction works on the batch. *)
Definition alone_on (bid : string) (σ : RC) : Prop :=
  map_Forall (λ t x, works_on bid (rc_db σ) x = false ∨
                     no_other t σ (works_on bid (rc_db σ)) = true) (rc_open σ).

Definition positive_total (e : rc_event) : bool :=
  match e with RCreateBatch _ _ _ total _ => 0 <? total | _ => true end.

(** What can be reached with no overlap on the batch; other batches, heartbeats,
    back-fills and sweeps overlap as they like. *)
Inductive rc_apart {PU : PgUuid} (bid : string) : RC → Prop :=
  | apart_init db : initial db → rc_apart bid (mkRC db ∅)
  | apart_next σ e σ' : rc_apart bid σ → positive_total e = true →
      rc_step e σ = Some σ' → alone_on bid σ' → rc_apart bid σ'.

(** ** The states of a batch's simulations, in order *)
Definition shape (bid : string) (ss : list SimRow) : list SimState :=
  map s_state (List.filter (is_child bid) ss).

Lemma shape_app bid a b : shape bid (a ++ b) = (shape bid a ++ shape bid b)%list.
Proof. unfold shape. by rewrite List.filter_app, map_app. Qed.

Lemma shape_none bid ss : (∀ s, s ∈ ss → is_child bid s = false) → shape bid ss = [].
Proof. intros H. unfold shape. by rewrite filter_none. Qed.

(** The same as far as the batch is concerned. *)
Definition alike (bid : string) (s s' : SimRow) : Prop :=
  s_batch_id s = s_batch_id s' ∧ (is_child bid s = true → s_state s = s_state s').

Lemma shape_map bid (f g : SimRow → SimRow) ss :
  (∀ s, s ∈ ss → alike bid (f s) (g s)) → shape bid (map f ss) = shape bid (map g ss).
Proof.
  intros H. induction ss as [|s ss IH]; [done|]. unfold shape in *. cbn [map List.filter].
  destruct (H s (list_elem_of_here s ss)) as [Eb Es].
  assert (Ec : is_child bid (f s) = is_child bid (g s)) by (unfold is_child; by rewrite Eb).
  rewrite <-Ec. destruct (is_child bid (f s)) eqn:E; cbn [map].
  - rewrite Es by done. f_equal. apply IH. intros y Hy. apply H. by right.
  - apply IH. intros y Hy. apply H. by right.
Qed.

Lemma shape_map_id bid (f : SimRow → SimRow) ss :
  (∀ s, s ∈ ss → alike bid (f s) s) → shape bid (map f ss) = shape bid ss.
Proof. intros H. rewrite <-(map_id ss) at 2. by apply shape_map. Qed.

Lemma count_map {A B} (f : A → B) p l : count p (map f l) = count (λ a, p (f a)) l.
Proof. induction l as [|a l IH]; [done|]. cbn [map]. by rewrite !count_cons, IH. Qed.

Lemma sub_of_shape bid ss ss' : shape bid ss = shape bid ss' → sub_of bid ss = sub_of bid ss'.
Proof.
  unfold shape, sub_of. set (cs := List.filter _ ss). set (cs' := List.filter _ ss'). intros E.
  assert (Hp : ∀ p, count (λ s, p (s_state s)) cs = count (λ s, p (s_state s)) cs').
  { intros p. by rewrite <-!(count_map s_state p), E. }
  assert (Hl : length cs = length cs') by (by rewrite <-(length_map s_state cs), E, length_map).
  f_equal; f_equal; [done|apply (Hp (λ st, is_state st Succeeded))|
    apply (Hp (λ st, is_state st Failed))|apply (Hp terminal)|apply (Hp (λ st, is_state st Running))].
Qed.

Lemma alike_refl bid s : alike bid s s.
Proof. done. Qed.

(** ** Exact rows *)
Definition exact (ss : list SimRow) (b : BatchRow) : Prop := b = resynced ss b.

Lemma exact_shape ss ss' b : shape (b_id b) ss = shape (b_id b) ss' → exact ss b → exact ss' b.
Proof. intros E. unfold exact, resynced. by rewrite (sub_of_shape _ _ _ E). Qed.

Lemma exact_resynced ss ss' b :
  shape (b_id b) ss = shape (b_id b) ss' → exact ss' (resynced ss b).
Proof. intros E. unfold exact, resynced. by rewrite (sub_of_shape _ _ _ E). Qed.

(** The sweep, however old its snapshot, leaves an exact row alone. *)
Lemma sweep_exact rows ss b :
  0 < b_total b → grows rows ss → exact ss b → resync_hit rows b = false.
Proof.
  intros Ht Hg He. apply not_true_iff_false. intros Hh.
  apply (resync_hit_done rows b Hh).
  destruct (exact_row_reads ss b Ht He) as (_ & _ & _ & Hd & _). apply Hd. clear Hd He.
  unfold resync_hit in Hh. rewrite !andb_true_iff, Z.ltb_lt, Z.leb_le, Nat.eqb_eq in Hh.
  destruct Hh as [[_ Hi] Hp].
  pose proof (terminal_pending (List.filter (is_child (b_id b)) rows)) as Hc. rewrite Hp in Hc.
  assert (Hst : stable (λ s, is_child (b_id b) s && terminal (s_state s))).
  { intros s s' Hle. rewrite !andb_true_iff. intros [H1 H2].
    split; [by apply (stable_child _ s s')|]. by rewrite (rl_terminal _ _ Hle). }
  specialize (Hg _ Hst). rewrite <-!count_filter in Hg.
  pose proof (count_le_length (λ s, terminal (s_state s)) (List.filter (is_child (b_id b)) ss)).
  lia.
Qed.

(** ** The invariant *)
Record ov_txn (bid : string) (x : Txn) (db : DB) : Prop := {
  ot_total : ∀ k b, x_bat x !! k = Some b → 0 < b_total b;
  ot_fk_ins : ∀ r k, r ∈ x_ins x → s_batch_id r = Some k → k ∈ map b_id (batches db);
  ot_fk_fired : ∀ k, Some k ∈ x_fired x → k ∈ map b_id (batches db);
  ot_fk_snap : ∀ sn, x_snap x = Some sn → sn_stmt sn = ByTrigger →
    sn_bid sn ∈ map b_id (batches db);
  ot_locked : changes bid db x = true → pending bid x = true ∨ is_Some (x_bat x !! bid);
  ot_exact : ∀ b, pending bid x = false → x_bat x !! bid = Some b → exact (view x db) b;
  ot_snap : ∀ sn, x_snap x = Some sn → sn_stmt sn = ByTrigger → sn_bid sn = bid →
    Some bid ∉ x_fired x → shape bid (sn_rows sn) = shape bid (view x db);
}.

Record ov_ok (bid : string) (σ : RC) : Prop := {
  ov_fk : ∀ s k, s ∈ simulations (rc_db σ) → s_batch_id s = Some k →
    k ∈ map b_id (batches (rc_db σ));
  ov_totals : ∀ b, b ∈ batches (rc_db σ) → 0 < b_total b;
  ov_exact : ∀ b, b ∈ batches (rc_db σ) → b_id b = bid → exact (simulations (rc_db σ)) b;
  ov_txns : ∀ t x, rc_open σ !! t = Some x → ov_txn bid x (rc_db σ);
  ov_locks : ∀ t u x y k, t ≠ u → rc_open σ !! t = Some x → rc_open σ !! u = Some y →
    is_Some (x_bat x !! k) → x_bat y !! k = None;
}.

Lemma pending_true bid x :
  pending bid x = true ↔ Some bid ∈ x_fired x ∨
    ∃ sn, x_snap x = Some sn ∧ sn_stmt sn = ByTrigger ∧ sn_bid sn = bid.
Proof.
  unfold pending. rewrite orb_true_iff, existsb_elem. setoid_rewrite sql_eq_true. split.
  - intros [(o & Ho & ->)|H]; [by left|right].
    destruct (x_snap x) as [sn|]; [|done]. exists sn. destruct (sn_stmt sn); [|done].
    by apply String.eqb_eq in H.
  - intros [H|(sn & -> & -> & <-)]; [left; eauto|right]. apply String.eqb_refl.
Qed.

Lemma pending_false bid x :
  pending bid x = false ↔ (Some bid ∉ x_fired x) ∧
    ∀ sn, x_snap x = Some sn → sn_stmt sn = ByTrigger → sn_bid sn ≠ bid.
Proof.
  rewrite <-not_true_iff_false, pending_true. split; [|intros [H1 H2] [?|(sn & ? & ? & ?)]; naive_solver].
  intros H. split; [by intros ?; apply H; left|]. intros sn E1 E2 E3. apply H. right. eauto.
Qed.

Lemma changes_false bid db x :
  changes bid db x = false ↔ (∀ r, r ∈ x_ins x → is_child bid r = false) ∧
    ∀ s s', s ∈ simulations db → x_upd x !! s_id s = Some s' → is_child bid s = true →
      s_state s' = s_state s.
Proof.
  unfold changes. rewrite <-not_true_iff_false, orb_true_iff, !existsb_elem. split.
  - intros H. split.
    + intros r Hr. apply not_true_iff_false. intros Hc. apply H. left. eauto.
    + intros s s' Hs E Hc. destruct (is_state (s_state s') (s_state s)) eqn:Est;
        [by apply is_state_true|]. destruct H. right. exists s. by rewrite Hc, E, Est.
  - intros [H1 H2] [(r & Hr & Hc)|(s & Hs & H)]; [by rewrite H1 in Hc|].
    apply andb_true_iff in H as [Hc H]. destruct (x_upd x !! s_id s) as [s'|] eqn:E; [|done].
    by rewrite (proj2 (is_state_true _ _) (H2 s s' Hs E Hc)) in H.
Qed.

(** A transaction that changes nothing of the batch sees it as it is. *)
Lemma quiet_row bid x db s :
  txn_ok x db → changes bid db x = false → s ∈ simulations db →
  alike bid (default s (x_upd x !! s_id s)) s.
Proof.
  intros Hok [_ Hq]%changes_false Hs. destruct (x_upd x !! s_id s) as [s'|] eqn:E; [|done].
  destruct (ti_upd _ _ Hok s s' Hs E) as [_ Eb _]. split; [done|]. cbn.
  unfold is_child. rewrite Eb. intros Hc. by apply Hq.
Qed.

Lemma quiet_view bid x db :
  txn_ok x db → changes bid db x = false → shape bid (view x db) = shape bid (simulations db).
Proof.
  intros Hok Hq. unfold view. rewrite shape_app, (shape_none bid (x_ins x)), app_nil_r.
  2: { by apply changes_false in Hq as [? _]. }
  apply shape_map_id. intros s Hs. by apply (quiet_row bid _ db).
Qed.

(** ** Another transaction's commit *)
Section commit.
Context (bid : string) (x y : Txn) (db : DB).
Context (Hx : txn_ok x db) (Hy : txn_ok y db).
Context (Hap : ∀ k, locks_sim k y = true → locks_sim k x = false).

Lemma upd_committed s : s ∈ simulations (commit y db) → is_Some (x_upd x !! s_id s) →
  s ∈ simulations db.
Proof.
  unfold commit, view. cbn [simulations with_batches with_simulations].
  intros [(s0 & Hs0 & <-)%elem_of_map_2|Hs]%elem_of_app [s' E].
  - destruct (x_upd y !! s_id s0) as [s1|] eqn:Ey; cbn in *; [|done].
    destruct (ti_upd _ _ Hy s0 s1 Hs0 Ey) as [Hid _ _]. rewrite Hid in E.
    by rewrite (upd_apart y x Hap _ _ Ey) in E.
  - apply (ti_dom _ _ Hx) in E. by apply (ti_new _ _ Hy) in Hs.
Qed.

Lemma changes_commit : changes bid db x = false → changes bid (commit y db) x = false.
Proof.
  rewrite !changes_false. intros [H1 H2]. split; [done|]. intros s s' Hs E Hc.
  apply H2; [|done..]. by apply upd_committed; [|rewrite E].
Qed.

Lemma view_commit : changes bid db y = false →
  shape bid (view x (commit y db)) = shape bid (view x db).
Proof.
  intros Hq. unfold view. rewrite !shape_app. f_equal.
  unfold commit, view, overlay. cbn [simulations with_batches with_simulations].
  rewrite map_app, shape_app, map_map. rewrite (shape_none bid (map _ (x_ins y))), app_nil_r.
  - apply shape_map. intros s Hs.
    destruct (overlay_row_le y db s Hy Hs) as [-> _ _].
    destruct (x_upd x !! s_id s); [done|]. by apply (quiet_row bid _ db).
  - intros s (r & Hr & <-)%elem_of_map_2. apply changes_false in Hq as [Hins _].
    destruct (x_upd x !! s_id r) as [s'|] eqn:E; [|by apply Hins].
    apply (ti_dom _ _ Hx) in E. by apply (ti_new _ _ Hy) in Hr.
Qed.
End commit.

Lemma batch_overlay_ids x db : txn_ok x db →
  map b_id (batch_overlay (x_bat x) (batches db)) = map b_id (batches db).
Proof.
  intros Hok. unfold batch_overlay. rewrite map_map. apply map_ext. intros b.
  destruct (x_bat x !! b_id b) as [b'|] eqn:E; [|done]. by destruct (ti_bat _ _ Hok _ _ E).
Qed.

(** ** Every step keeps the invariant *)
Section invariant.
Context {PU : PgUuid} (bid : string).

Lemma ov_txn_commit x y db :
  txn_ok x db → txn_ok y db → (∀ k, locks_sim k y = true → locks_sim k x = false) →
  ov_txn bid x db → ov_txn bid y db → pending bid y = false →
  works_on bid db x = false ∨ works_on bid db y = false →
  (is_Some (x_bat y !! bid) → x_bat x !! bid = None) →
  ov_txn bid x (commit y db).
Proof.
  intros Hx Hy Hap [H1 H2 H3 H4 H5 H6 H7] Hoy Hpy Hw Hl.
  assert (Hids : map b_id (batches (commit y db)) = map b_id (batches db))
    by (by apply batch_overlay_ids).
  split; rewrite ?Hids; try done.
  - intros Hc. apply H5. apply not_false_iff_true. intros Hf.
    by rewrite (changes_commit bid x y db Hx Hy Hap Hf) in Hc.
  - intros b Hp Hb. apply exact_shape with (view x db); [|by apply H6].
    destruct (ti_bat _ _ Hx _ _ Hb) as [-> _]. symmetry. apply (view_commit bid x y db Hx Hy).
    apply not_true_iff_false. intros Hc. destruct (ot_locked _ _ _ Hoy Hc) as [?|HS]; [congruence|].
    by rewrite (Hl HS) in Hb.
  - intros sn Es Et Eb Hf. rewrite (H7 sn) by done. symmetry.
    apply (view_commit bid x y db Hx Hy). unfold works_on in Hw.
    assert (Hp : pending bid x = true) by (apply pending_true; right; eauto).
    rewrite Hp, orb_true_l in Hw. destruct Hw as [?|Hw]; [done|]. by apply orb_false_iff in Hw as [_ ?].
Qed.

Lemma ov_put t x x' σ :
  ov_ok bid σ → rc_open σ !! t = Some x → ov_txn bid x' (rc_db σ) →
  (∀ k, is_Some (x_bat x' !! k) → is_Some (x_bat x !! k) ∨ no_other t σ (locks_batch k) = true) →
  ov_ok bid (put t x' σ).
Proof.
  intros [H1 H2 H3 H4 H5] Hx Hx' Hl. unfold put. split; cbn [rc_db rc_open]; [done..| |].
  - intros u y [[_ <-]|[_ Hy]]%lookup_insert_Some; eauto.
  - assert (Hno : ∀ u y k, u ≠ t → rc_open σ !! u = Some y → is_Some (x_bat x' !! k) →
      x_bat y !! k = None).
    { intros u y k Hu Hy Hk. destruct (Hl k Hk) as [Hk'|Hno]; [by apply (H5 t u x y k)|].
      rewrite no_other_true in Hno. specialize (Hno u y Hu Hy).
      apply bool_decide_eq_false in Hno. by apply eq_None_not_Some. }
    intros u v y z k Hne [[<- <-]|[Hu Hy]]%lookup_insert_Some [[<- <-]|[Hv Hz]]%lookup_insert_Some Hk.
    + done.
    + eauto.
    + destruct (x_bat x' !! k) eqn:E; [|done].
      rewrite (Hno u y k) in Hk by eauto. by destruct Hk.
    + by apply (H5 u v y z k).
Qed.

(** The rollup, of the batch or of another one. *)
Lemma rolled_row_exact x db sn b :
  txn_ok x db → ov_txn bid x db → x_snap x = Some sn → sn_bid sn = bid → b_id b = bid →
  Some bid ∉ x_fired x → 0 < b_total b → (pending bid x = false → exact (view x db) b) →
  exact (view x db) (batch_set sn b).
Proof.
  intros Hok Hov Esn Eb Ek Hf Ht Hex. unfold batch_set. destruct (sn_stmt sn) eqn:Est.
  - fold (resynced (sn_rows sn) b). rewrite <-Ek in Eb. rewrite Eb. apply exact_resynced.
    rewrite Ek. apply (ot_snap _ _ _ Hov sn); [done..|congruence|done].
  - rewrite (sweep_exact _ (view x db)); [|done|by apply (ti_snap _ _ Hok)|]; apply Hex.
    all: apply pending_false; split; [done|]; intros sn' E' Et'; congruence.
Qed.

(** What RRollup finds. *)
Lemma find_batch x db k b :
  txn_ok x db → List.find (λ b, String.eqb (b_id b) k) (batch_overlay (x_bat x) (batches db)) = Some b →
  b_id b = k ∧ (x_bat x !! k = Some b ∨ (x_bat x !! k = None ∧ b ∈ batches db)).
Proof.
  intros Hok (Hb & E%String.eqb_eq)%find_Some_elem. split; [done|].
  apply elem_of_map_2 in Hb as (b0 & Hb0 & <-).
  destruct (x_bat x !! b_id b0) as [b1|] eqn:E1; cbn in *.
  - destruct (ti_bat _ _ Hok _ _ E1) as [Eid _]. left. by rewrite <-E, Eid.
  - right. by rewrite <-E.
Qed.

Lemma find_batch_None x db k :
  txn_ok x db → List.find (λ b, String.eqb (b_id b) k) (batch_overlay (x_bat x) (batches db)) = None →
  k ∉ map b_id (batches db).
Proof.
  intros Hok Hn. rewrite <-(batch_overlay_ids x db Hok).
  intros (b & Hb & E)%elem_of_map_2. eapply List.find_none in Hn; [|by apply list_elem_of_In].
  by rewrite E, String.eqb_refl in Hn.
Qed.

Lemma ov_txn_rollup t x σ sn :
  rc_ok σ → ov_ok bid σ → rc_open σ !! t = Some x → x_snap x = Some sn →
  let db := rc_db σ in
  ov_txn bid (mkTxn (x_upd x) (x_ins x)
            (match List.find (λ b, String.eqb (b_id b) (sn_bid sn))
                     (batch_overlay (x_bat x) (batches db)) with
             | Some b => <[sn_bid sn:=batch_set sn b]> (x_bat x)
             | None => x_bat x
             end) (x_fired x) None) db.
Proof.
  intros Hrc Hov Hx Esn db. pose proof (ok_txns _ Hrc t x Hx) as Hok.
  pose proof (ov_txns _ _ Hov t x Hx) as Hot. pose proof Hot as [H1 H2 H3 H4 H5 H6 H7].
  fold db in Hok, Hot, H1, H2, H3, H4, H5, H6, H7.
  assert (Hpend : ∀ m, pending bid (mkTxn (x_upd x) (x_ins x) m (x_fired x) None) = false →
    (Some bid ∉ x_fired x) ∧ (sn_stmt sn = BySweep ∨ sn_bid sn ≠ bid → pending bid x = false)).
  { intros m [Hf _]%pending_false. split; [done|]. intros Hsn. apply pending_false.
    split; [done|]. intros sn' E' Et Eb. rewrite Esn in E'. injection E' as <-.
    destruct Hsn; congruence. }
  assert (Hkeep : pending bid x = true → (Some bid ∈ x_fired x) ∨ sn_stmt sn = ByTrigger ∧ sn_bid sn = bid).
  { intros [?|(sn' & E' & Et & Eb)]%pending_true; [by left|]. right.
    rewrite Esn in E'. by injection E' as <-. }
  destruct (List.find _ _) as [b|] eqn:Ef.
  - destruct (find_batch x db _ b Hok Ef) as [Ek Hb].
    assert (Ht : 0 < b_total b) by (destruct Hb as [Hb|[_ Hb]]; [by apply (H1 _ _ Hb)|by apply (ov_totals _ _ Hov)]).
    split; try done; cbn [x_bat x_fired x_snap].
    + intros k b' [[_ <-]|[_ Hk]]%lookup_insert_Some; [|by apply (H1 k)].
      by destruct (batch_set_key sn b) as [_ ->].
    + intros Hc. destruct (decide (sn_bid sn = bid)) as [->|Hne].
      { right. rewrite lookup_insert_eq. by eexists. }
      rewrite lookup_insert_ne by done. destruct (H5 Hc) as [[Hf|[_ ?]]%Hkeep|?]; [|done|by right].
      left. apply pending_true. by left.
    + intros b' [Hf Hp]%Hpend [[Eb <-]|[Hne Hk]]%lookup_insert_Some; [|by apply H6; auto].
      change (exact (view x db) (batch_set sn b)).
      apply rolled_row_exact; try done; [congruence|]. intros Hpx.
      rewrite Eb in Hb. destruct Hb as [Hb|[Hn Hb]]; [by apply H6|].
      apply exact_shape with (simulations db); [|apply (ov_exact _ _ Hov); [done|congruence]].
      rewrite Ek, Eb. symmetry. apply quiet_view; [done|]. apply not_true_iff_false. intros Hc.
      destruct (H5 Hc) as [?|HS]; [congruence|]. rewrite Hn in HS. by destruct HS.
  - apply (find_batch_None x db _ Hok) in Ef. split; try done; cbn [x_bat x_fired x_snap].
    + intros Hc. destruct (H5 Hc) as [[Hf|[Et _]]%Hkeep|?]; [|by destruct Ef; apply H4|by right].
      left. apply pending_true. by left.
    + intros b' [Hf Hp]%Hpend Hk. apply H6; [|done]. apply Hp.
      destruct (sn_stmt sn) eqn:Et; [by destruct Ef; apply H4|by left].
Qed.

(** A statement on rows: what it adds to the triggers covers what it changes. *)
Lemma ov_txn_rows x x' db (bid' : option string) fires :
  txn_ok x db → ov_txn bid x db → x_bat x' = x_bat x → x_snap x' = x_snap x →
  x_fired x' = (if fires : bool then x_fired x ++ [bid'] else x_fired x)%list →
  (∀ r k, r ∈ x_ins x' → s_batch_id r = Some k → k ∈ map b_id (batches db)) →
  (∀ k, bid' = Some k → k ∈ map b_id (batches db)) →
  (¬ (fires = true ∧ bid' = Some bid) →
     shape bid (view x' db) = shape bid (view x db) ∧ changes bid db x' = changes bid db x) →
  ov_txn bid x' db.
Proof.
  intros Hok [H1 H2 H3 H4 H5 H6 H7] Eb Es Ef Hins Hfk Hq.
  assert (Hf : ∀ k, Some k ∈ x_fired x' ↔ Some k ∈ x_fired x ∨ fires = true ∧ bid' = Some k).
  { intros k. rewrite Ef. destruct fires; [|by split; [left|intros [?|[? _]]]].
    rewrite elem_of_app, list_elem_of_singleton. split; [intros [?|<-]|intros [?|[_ ->]]]; auto. }
  assert (Hp : pending bid x' = true ↔ pending bid x = true ∨ fires = true ∧ bid' = Some bid).
  { rewrite !pending_true, Es, Hf. tauto. }
  split; rewrite ?Eb, ?Es; try done.
  - intros k [?|[_ ?]]%Hf; eauto.
  - intros Hc. rewrite Hp. destruct (decide (fires = true ∧ bid' = Some bid)) as [?|Hn]; [by left; right|].
    destruct (Hq Hn) as [_ Ec]. rewrite Ec in Hc. destruct (H5 Hc); auto.
  - intros b Hpx Hb. rewrite <-not_true_iff_false, Hp in Hpx.
    destruct (Hq ltac:(tauto)) as [Esh _]. apply exact_shape with (view x db).
    + by destruct (ti_bat _ _ Hok _ _ Hb) as [-> _].
    + apply H6; [apply not_true_iff_false; tauto|done].
  - intros sn E1 Et Esn Hnf. rewrite Hf in Hnf. destruct (Hq ltac:(tauto)) as [-> _].
    apply H7; tauto.
Qed.

Lemma ov_txn_insert x db id now clock p r :
  txn_ok x db → ov_txn bid x db → insert_values id now clock p db = Ok r →
  ov_txn bid (mkTxn (x_upd x) (x_ins x ++ [r]) (x_bat x) (x_fired x ++ [s_batch_id r]) (x_snap x)) db.
Proof.
  intros Hok Hot (user & batch & st & -> & Hi)%insert_values_row.
  assert (Hfk : ∀ k, batch = Some k → k ∈ map b_id (batches db)).
  { intros k ->. destruct (ins_batch _ _ _ _ _ _ Hi k eq_refl) as (b & Hb & <-).
    by apply elem_of_map_1. }
  apply (ov_txn_rows x _ db batch true); try done; cbn [x_ins].
  - intros r k [Hr| ->%list_elem_of_singleton]%elem_of_app; [by apply (ot_fk_ins _ _ _ Hot)|apply Hfk].
  - intros Hn. assert (Hc : is_child bid (insert_row id now clock batch user st p) = false).
    { apply not_true_iff_false. intros ?%sql_eq_true. by apply Hn. }
    unfold view, changes. cbn [x_ins x_upd]. split.
    + rewrite !shape_app, (shape_none bid [_]), app_nil_r; [done|].
      by intros s ->%list_elem_of_singleton.
    + rewrite existsb_app. cbn [existsb]. by rewrite Hc, !orb_false_r.
Qed.

Lemma op_set_batch op s : s_batch_id (op_set op s) = s_batch_id s.
Proof. by destruct op. Qed.
Lemma op_set_quiet op s : op_fires op = false → s_state (op_set op s) = s_state s.
Proof. by destruct op. Qed.

Lemma ov_txn_write x db k op s :
  txn_ok x db → ov_txn bid x db → NoDup (map s_id (simulations db)) →
  (∀ s k, s ∈ simulations db → s_batch_id s = Some k → k ∈ map b_id (batches db)) →
  List.find (λ s, String.eqb (s_id s) k) (overlay (x_upd x) (simulations db)) = Some s →
  ov_txn bid (mkTxn (<[k:=op_set op s]> (x_upd x)) (x_ins x) (x_bat x)
    (if op_fires op then x_fired x ++ [s_batch_id s] else x_fired x)%list (x_snap x)) db.
Proof.
  intros Hok Hot Hnd Hfk Hf. destruct (find_overlay _ _ _ _ Hok Hnd Hf) as [(s0 & Hs0 & Hk) Hs].
  assert (Hb : s_batch_id s = s_batch_id s0).
  { rewrite <-(Hs s0 Hs0 Hk), <-Hk. by destruct (overlay_row_le x db s0 Hok Hs0). }
  apply (ov_txn_rows x _ db (s_batch_id s) (op_fires op)); try done; cbn [x_ins].
  - apply (ot_fk_ins _ _ _ Hot).
  - intros j E. apply (Hfk s0); [done|congruence].
  - intros Hn.
    assert (Ha : alike bid (op_set op s) s).
    { split; [apply op_set_batch|]. unfold is_child. rewrite op_set_batch. intros Hc%sql_eq_true.
      apply op_set_quiet. apply not_true_iff_false. tauto. }
    unfold view, changes. cbn [x_ins x_upd]. split.
    + rewrite !shape_app. f_equal. apply shape_map. intros s1 Hs1.
      destruct (decide (s_id s1 = k)) as [E|Hne]; [|by rewrite lookup_insert_ne].
      by rewrite E, lookup_insert_eq, (Hs s1).
    + f_equal. apply eq_true_iff_eq. rewrite !existsb_elem.
      assert (Hp : ∀ s1, s1 ∈ simulations db →
        (is_child bid s1 && match <[k:=op_set op s]> (x_upd x) !! s_id s1 with
           | Some s' => negb (is_state (s_state s') (s_state s1)) | None => false end) =
        (is_child bid s1 && match x_upd x !! s_id s1 with
           | Some s' => negb (is_state (s_state s') (s_state s1)) | None => false end)).
      { intros s1 Hs1. destruct (decide (s_id s1 = k)) as [E|Hne]; [|by rewrite lookup_insert_ne].
        rewrite E, lookup_insert_eq. destruct (is_child bid s1) eqn:Ec; [|done].
        cbn [andb]. pose proof (Hs s1 Hs1 E) as E1.
        destruct Ha as [_ ->].
        - destruct (x_upd x !! k); cbn in E1; subst s; [done|].
          by rewrite (proj2 (is_state_true _ _) eq_refl).
        - unfold is_child in *. rewrite op_set_batch, Hb.
          by rewrite (NoDup_key_inj s_id (simulations db) s0 s1) by congruence. }
      split; intros (s1 & Hs1 & H); exists s1; (split; [done|]); by rewrite Hp in * by done.
Qed.

Lemma ov_txn_trigger x db o rest :
  ov_txn bid x db → x_fired x = o :: rest → x_snap x = None →
  ov_txn bid (mkTxn (x_upd x) (x_ins x) (x_bat x) rest
                ((λ b, mkSnap ByTrigger b (view x db)) <$> o)) db.
Proof.
  intros [H1 H2 H3 H4 H5 H6 H7] Ef Es.
  assert (Hp : ∀ m, pending bid (mkTxn (x_upd x) (x_ins x) m rest
      ((λ b, mkSnap ByTrigger b (view x db)) <$> o)) = true ↔ pending bid x = true).
  { intros m. rewrite !pending_true, Ef, Es, elem_of_cons. cbn [x_fired x_snap]. split.
    - intros [?|(sn & E & _ & <-)]; [auto|]. destruct o as [b|]; [|done].
      injection E as <-. auto.
    - intros [[<-|?]|(sn & ? & _)]; [right; by eexists|by left|done]. }
  split; try done; cbn [x_bat x_fired x_snap].
  - intros k Hk. apply H3. rewrite Ef. by right.
  - intros sn E _. destruct o as [b|]; [|done]. injection E as <-. apply H3. rewrite Ef. left.
  - intros Hc. rewrite Hp. by apply H5.
  - intros b Hpx. apply H6. apply not_true_iff_false. rewrite <-not_true_iff_false, Hp in Hpx. done.
  - intros sn E _ _ _. destruct o as [b|]; [|done]. by injection E as <-.
Qed.

Lemma ov_txn_sweep x db k :
  ov_txn bid x db → x_snap x = None →
  ov_txn bid (mkTxn (x_upd x) (x_ins x) (x_bat x) (x_fired x)
                (Some (mkSnap BySweep k (view x db)))) db.
Proof.
  intros [H1 H2 H3 H4 H5 H6 H7] Es.
  assert (Hp : pending bid (mkTxn (x_upd x) (x_ins x) (x_bat x) (x_fired x)
                (Some (mkSnap BySweep k (view x db)))) = pending bid x)
    by (unfold pending; by rewrite Es).
  split; rewrite ?Hp; try done; cbn [x_snap].
  - by intros sn [= <-].
  - by intros sn [= <-].
Qed.

Lemma ov_ok_commit t x σ :
  rc_ok σ → ov_ok bid σ → alone_on bid σ → rc_open σ !! t = Some x →
  x_fired x = [] → x_snap x = None →
  ov_ok bid (mkRC (commit x (rc_db σ)) (delete t (rc_open σ))).
Proof.
  intros Hrc Hov Hal Hx Ef Es. pose proof (ok_txns _ Hrc t x Hx) as Hok.
  pose proof (ov_txns _ _ Hov t x Hx) as Hot.
  assert (Hids : map b_id (batches (commit x (rc_db σ))) = map b_id (batches (rc_db σ)))
    by (by apply batch_overlay_ids).
  assert (Hpx : pending bid x = false) by (unfold pending; by rewrite Ef, Es).
  split; cbn [rc_db rc_open]; rewrite ?Hids.
  - unfold commit, view. cbn [simulations with_batches with_simulations].
    intros s k [(s0 & Hs0 & <-)%elem_of_map_2|Hs]%elem_of_app; [|by apply (ot_fk_ins _ _ _ Hot)].
    destruct (overlay_row_le x _ s0 Hok Hs0) as [_ -> _]. by apply (ov_fk _ _ Hov).
  - intros b (b0 & Hb0 & <-)%elem_of_map_2.
    destruct (x_bat x !! b_id b0) as [b1|] eqn:E; [by apply (ot_total _ _ _ Hot _ _ E)|].
    by apply (ov_totals _ _ Hov).
  - intros b (b0 & Hb0 & <-)%elem_of_map_2 Eb.
    change (simulations (commit x (rc_db σ))) with (view x (rc_db σ)).
    destruct (x_bat x !! b_id b0) as [b1|] eqn:E; cbn [default] in *.
    + destruct (ti_bat _ _ Hok _ _ E) as [E1 _]. cbn in Eb. rewrite <-E1, Eb in E.
      by apply (ot_exact _ _ _ Hot).
    + cbn in Eb. apply exact_shape with (simulations (rc_db σ)); [|by apply (ov_exact _ _ Hov)].
      rewrite Eb in *. symmetry. apply quiet_view; [done|]. apply not_true_iff_false. intros Hc.
      destruct (ot_locked _ _ _ Hot Hc) as [?|HS]; [congruence|]. rewrite E in HS. by destruct HS.
  - intros u y [Hne Hy]%lookup_delete_Some.
    apply ov_txn_commit; [by apply (ok_txns _ Hrc u)|done| |by apply (ov_txns _ _ Hov u)|done|done| |].
    + intros k. by apply (ok_apart _ Hrc t u).
    + destruct (Hal u y Hy) as [?|Hno]; [by left|right]. rewrite no_other_true in Hno.
      by apply (Hno t).
    + intros HS. by apply (ov_locks _ _ Hov t u x y bid).
  - intros u v y z k Hne [_ Hy]%lookup_delete_Some [_ Hz]%lookup_delete_Some.
    by apply (ov_locks _ _ Hov u v).
Qed.

Lemma ov_txn_more_batches x db db' :
  simulations db' = simulations db → (∀ k, k ∈ map b_id (batches db) → k ∈ map b_id (batches db')) →
  ov_txn bid x db → ov_txn bid x db'.
Proof.
  intros E Hk [H1 H2 H3 H4 H5 H6 H7]. unfold changes, view in *.
  split; unfold changes, view; rewrite ?E; eauto.
Qed.

Lemma ov_ok_create_batch id now user total key σ :
  ov_ok bid σ → 0 < total →
  ov_ok bid (mkRC (pg_create_batch id now user total key (rc_db σ)).1 (rc_open σ)).
Proof.
  intros Hov Ht.
  destruct (pg_create_batch id now user total key (rc_db σ)) as [db' [r|e]] eqn:Ec; cbn [fst].
  2: { unfold pg_create_batch in Ec. repeat case_match; simplify_eq; by destruct σ. }
  apply pg_create_batch_Ok in Ec as (u & -> & _ & Hu & Hid & _ & ->).
  destruct Hov as [H1 H2 H3 H4 H5].
  assert (Hsub : ∀ k, k ∈ map b_id (batches (rc_db σ)) →
    k ∈ map b_id (batches (rc_db σ) ++ [mkBatch id u Expanding total 0 0 key now])).
  { intros k Hk. rewrite map_app. apply elem_of_app. by left. }
  split; cbn [rc_db rc_open batches simulations with_batches].
  - intros s k Hs Hk. eauto.
  - intros b [Hb| ->%list_elem_of_singleton]%elem_of_app; [auto|done].
  - intros b [Hb| ->%list_elem_of_singleton]%elem_of_app E; [by apply H3|]. cbn [b_id] in E.
    assert (Hn : List.filter (is_child id) (simulations (rc_db σ)) = []).
    { apply filter_none. intros s Hs. apply not_true_iff_false. intros Hc%sql_eq_true.
      destruct (elem_of_map_2 _ _ _ (H1 s id Hs Hc)) as (b & Hb & Eb). by apply (Hid b). }
    unfold exact, resynced, sub_of, sync_row, sync_state, count. cbn [b_id b_total]. rewrite Hn.
    cbn [List.filter length sub_inserted sub_succeeded sub_failed]. change (Z.of_nat 0) with 0.
    by rewrite (proj2 (Z.ltb_lt 0 total)).
  - intros t x Hx. apply (ov_txn_more_batches x (rc_db σ)); eauto.
  - done.
Qed.

Lemma ov_ok_begin t σ : ov_ok bid σ → ov_ok bid (put t empty_txn σ).
Proof.
  intros [H1 H2 H3 H4 H5]. unfold put. split; cbn [rc_db rc_open]; [done..| |].
  - intros u y [[_ <-]|[_ Hy]]%lookup_insert_Some; [|eauto].
    split; cbn; try done; try (by intros ? ?%not_elem_of_nil).
    + by intros r ? ?%not_elem_of_nil.
    + unfold changes. cbn. intros (s & _ & Hc)%existsb_elem. rewrite lookup_empty in Hc.
      by rewrite andb_false_r in Hc.
  - intros u v y z k Hne [[<- <-]|[_ Hy]]%lookup_insert_Some [[<- <-]|[_ Hz]]%lookup_insert_Some HS.
    + done.
    + destruct HS as [b HS]. cbn [empty_txn x_bat] in HS. by apply lookup_empty_Some in HS.
    + apply lookup_empty.
    + eauto.
Qed.

Lemma ov_ok_abort t σ : ov_ok bid σ → ov_ok bid (mkRC (rc_db σ) (delete t (rc_open σ))).
Proof.
  intros [H1 H2 H3 H4 H5]. split; cbn [rc_db rc_open]; try done.
  - intros u y [_ Hy]%lookup_delete_Some. eauto.
  - intros u v y z k Hne [_ Hy]%lookup_delete_Some [_ Hz]%lookup_delete_Some. eauto.
Qed.

Lemma ov_ok_step e σ σ' : rc_ok σ → ov_ok bid σ → alone_on bid σ → positive_total e = true →
  rc_step e σ = Some σ' → ov_ok bid σ'.
Proof.
  intros Hrc Hov Hal Hpos Hst. pose proof Hrc as [Hids _ Htx _]. pose proof (ov_txns _ _ Hov) as Hot.
  assert (Hsame : ∀ t x x', rc_open σ !! t = Some x → x_bat x' = x_bat x →
    ov_txn bid x' (rc_db σ) → ov_ok bid (put t x' σ)).
  { intros t x x' Hx Eb Hx'. apply (ov_put t x); [done..|]. intros k. rewrite Eb. by left. }
  destruct e as [t|t id now clock p|t k op|t|t bd|t|t|t|id now user total key];
    cbn [rc_step] in Hst.
  - destruct (rc_open σ !! t) eqn:E; [done|]. injection Hst as <-. by apply ov_ok_begin.
  - apply bind_Some in Hst as (x & Hx & Hst).
    destruct (existsb _ _) eqn:Eo; [done|]. cbn [orb] in Hst.
    destruct (no_other t σ (locks_sim id)) eqn:En; [|done]. cbn [negb] in Hst.
    destruct (insert_values _ _ _ _ _) as [r|] eqn:Ei; [|done]. injection Hst as <-.
    apply (Hsame t x); [done..|]. eapply ov_txn_insert; eauto.
  - apply bind_Some in Hst as (x & Hx & Hst). apply bind_Some in Hst as (s & Hs & Hst).
    destruct (op_guard k op s && _) eqn:Eg; [|done]. injection Hst as <-.
    apply (Hsame t x); [done..|]. apply ov_txn_write; eauto. apply (ov_fk _ _ Hov).
  - apply bind_Some in Hst as (x & Hx & Hst).
    destruct (x_fired x) as [|o rest] eqn:Ef; [done|]. destruct (x_snap x) eqn:Es; [done|].
    injection Hst as <-. apply (Hsame t x); [done..|]. by eapply ov_txn_trigger; eauto.
  - apply bind_Some in Hst as (x & Hx & Hst). destruct (x_snap x) eqn:Es; [done|].
    injection Hst as <-. apply (Hsame t x); [done..|]. by apply ov_txn_sweep; eauto.
  - apply bind_Some in Hst as (x & Hx & Hst). apply bind_Some in Hst as (sn & Hsn & Hst).
    destruct (no_other _ _ _) eqn:En; [|done]. injection Hst as <-.
    apply (ov_put t x); [done..|by apply (ov_txn_rollup t)|].
    cbn [x_bat]. intros k HS. destruct (List.find _ _); [|by left].
    destruct (decide (sn_bid sn = k)) as [<-|Hne]; [by right|].
    rewrite lookup_insert_ne in HS by done. by left.
  - apply bind_Some in Hst as (x & Hx & Hst).
    destruct (x_fired x) eqn:Ef; [|done]. destruct (x_snap x) eqn:Es; [done|].
    injection Hst as <-. by apply ov_ok_commit.
  - apply bind_Some in Hst as (x & Hx & [= <-]). by apply ov_ok_abort.
  - injection Hst as <-. apply ov_ok_create_batch; [done|]. by apply Z.ltb_lt.
Qed.

Lemma rc_apart_reachable σ : rc_apart bid σ → rc_reachable σ.
Proof. induction 1; [by apply rc_init|by eapply rc_next]. Qed.

Lemma rc_apart_alone σ : rc_apart bid σ → alone_on bid σ.
Proof. destruct 1; [|done]. apply map_Forall_empty. Qed.

Lemma ov_ok_apart σ : rc_apart bid σ → ov_ok bid σ.
Proof.
  induction 1 as [db [Hb Hs]|σ e σ' Hr IH Hpos Hst Hal].
  - split; cbn [rc_db rc_open]; rewrite ?Hb, ?Hs; try (by intros ? ?%not_elem_of_nil).
    + by intros s k ?%not_elem_of_nil.
    + by intros t x ?%lookup_empty_Some.
    + by intros t u x y k _ ?%lookup_empty_Some.
  - apply (ov_ok_step e σ); try done; [|by apply rc_apart_alone].
    by apply rc_ok_reachable, rc_apart_reachable.
Qed.
End invariant.

(** ** Two finishes that overlap *)
Lemma count_update_one q k s f ss :
  NoDup (map s_id ss) → s ∈ ss → s_id s = k →
  (count q (update_where (row_at k) (λ _, f) ss) + (if q s then 1 else 0) =
   count q ss + (if q f then 1 else 0))%nat.
Proof.
  intros Hnd Hs <-. induction ss as [|r ss IH]; [by apply not_elem_of_nil in Hs|].
  cbn [map] in Hnd. apply NoDup_cons in Hnd as [Hr Hnd].
  unfold update_where in *. cbn [map]. rewrite !count_cons. unfold row_at at 1.
  apply elem_of_cons in Hs as [->|Hs].
  - rewrite String.eqb_refl.
    assert (E : map (λ x, if row_at (s_id r) x then f else x) ss = ss); [|rewrite E; lia].
    rewrite <-(map_id ss) at 2. apply map_ext_in. intros x Hx. unfold row_at.
    destruct (String.eqb_spec (s_id x) (s_id r)) as [E|]; [|done].
    destruct Hr. rewrite <-E. apply elem_of_map_1. by apply list_elem_of_In.
  - specialize (IH Hnd Hs). rewrite (proj2 (String.eqb_neq _ _)); [lia|].
    intros E. destruct Hr. rewrite E. by apply elem_of_map_1.
Qed.

(** The script: the second transaction's trigger takes its snapshot before the
    first one commits, and its rollup waits for that commit. *)
Definition overlapping_finishes (t1 t2 : nat) (x1 x2 : string) (op1 op2 : row_op) : list rc_event :=
  [RBegin t1; RWrite t1 x1 op1; RTrigger t1; RRollup t1;
   RBegin t2; RWrite t2 x2 op2; RTrigger t2;
   RCommit t1; RRollup t2; RCommit t2].

Lemma rc_run_app {PU : PgUuid} es es' : ∀ σ, rc_run (es ++ es') σ = (σ' ← rc_run es σ; rc_run es' σ').
Proof.
  induction es as [|e es IH]; intros σ; [done|]. cbn [app rc_run].
  destruct (rc_step e σ); cbn; [apply IH|done].
Qed.

Section lost.
Context {PU : PgUuid} (t1 t2 : nat) (db : DB) (s1 s2 : SimRow) (b : BatchRow).
Context (op1 op2 : row_op).
Context (Hwf : db_wf db) (Ht : t1 ≠ t2) (Hs1 : s1 ∈ simulations db) (Hs2 : s2 ∈ simulations db).
Context (Hne : s_id s1 ≠ s_id s2) (Hb : b ∈ batches db).
Context (Hb1 : s_batch_id s1 = Some (b_id b)) (Hb2 : s_batch_id s2 = Some (b_id b)).
Context (Hg1 : op_guard (s_id s1) op1 s1 = true) (Hg2 : op_guard (s_id s2) op2 s2 = true).
Context (Hf1 : op_fires op1 = true) (Hf2 : op_fires op2 = true).

Abbreviation one s op ss := (update_where (row_at (s_id s)) (λ _, op_set op s) ss).

(** The first transaction's commit, as if it were alone. *)
Definition first_done : DB :=
  sync_batch_counts (Some (b_id b)) (with_simulations db (one s1 op1 (simulations db))).

(** Both are in, with the rollup of the second one's snapshot. *)
Definition both_done : DB :=
  with_batches (with_simulations db (one s2 op2 (one s1 op1 (simulations db))))
    (update_where (λ r, String.eqb (b_id r) (b_id b))
       (sync_row (sub_of (b_id b) (one s2 op2 (simulations db)))) (batches first_done)).

Lemma row_find s : s ∈ simulations db → ∀ db', simulations db' = simulations db →
  List.find (row_at (s_id s)) (overlay ∅ (simulations db')) = Some s.
Proof. intros Hs db' ->. rewrite overlay_empty. apply find_row_at; [apply Hwf|done]. Qed.

Lemma batch_find db' : map b_id (batches db') = map b_id (batches db) →
  ∃ r, List.find (λ r, String.eqb (b_id r) (b_id b)) (batches db') = Some r ∧ r ∈ batches db' ∧
    b_id r = b_id b.
Proof.
  intros E. destruct (List.find _ _) as [r|] eqn:Ef.
  - exists r. apply find_Some_elem in Ef as [Hr Er%String.eqb_eq]. done.
  - assert (Hin : b_id b ∈ map b_id (batches db')) by (rewrite E; by apply elem_of_map_1).
    apply elem_of_map_2 in Hin as (r & Hr & Er).
    eapply List.find_none in Ef; [|by apply list_elem_of_In]. by rewrite Er, String.eqb_refl in Ef.
Qed.

(** A lone transaction up to its commit. *)
Lemma run_to_rollup : ∃ x, rc_run [RBegin t1; RWrite t1 (s_id s1) op1; RTrigger t1; RRollup t1] (mkRC db ∅) =
    Some (only t1 x db) ∧ x_upd x = <[s_id s1 := op_set op1 s1]> ∅ ∧ x_ins x = [] ∧
  x_fired x = [] ∧ x_snap x = None ∧ commit x db = first_done.
Proof.
  pose proof (run_alone t1 op1 s1 db (wf_sim_ids _ Hwf) (wf_batch_ids _ Hwf) Hs1 Hg1 Hf1) as Hrun.
  unfold alone in Hrun. rewrite Hb1 in Hrun. cbn [app rc_run] in *.
  rewrite step_begin in *. cbn [mbind option_bind] in *.
  rewrite (step_write t1 _ _ _ _ s1) in * by (done || by apply row_find).
  cbn [mbind option_bind x_upd x_ins x_bat x_fired x_snap empty_txn app] in *.
  rewrite Hb1 in *. rewrite (step_trigger t1 _ _ (Some (b_id b)) []) in * by done.
  cbn [mbind option_bind fmap option_fmap option_map x_upd x_ins x_bat x_fired x_snap] in *.
  erewrite step_rollup in Hrun by done. erewrite step_rollup by done.
  cbn [mbind option_bind x_upd x_ins x_bat x_fired x_snap] in *.
  eexists. split; [reflexivity|]. cbn [x_upd x_ins x_fired x_snap]. split_and!; try done.
  rewrite step_commit in Hrun by done. cbn [mbind option_bind] in Hrun.
  exact (f_equal (λ o, rc_db (default (mkRC db ∅) o)) Hrun).
Qed.

(** Both transactions open. *)
Definition both (x y : Txn) : RC := mkRC db (<[t2:=y]> (<[t1:=x]> ∅)).

Lemma both_bind {B} x y (k : Txn → option B) : (z ← rc_open (both x y) !! t2; k z) = k y.
Proof. unfold both. cbn [rc_open]. by rewrite lookup_insert_eq. Qed.

Lemma both_put x y y' : put t2 y' (both x y) = both x y'.
Proof. unfold put, both. cbn [rc_db rc_open]. by rewrite insert_insert_eq. Qed.

Lemma both_begin x : rc_step (RBegin t2) (only t1 x db) = Some (both x empty_txn).
Proof. cbn [rc_step only rc_open]. by rewrite lookup_insert_ne, lookup_empty. Qed.

Lemma both_write x : x_upd x = <[s_id s1 := op_set op1 s1]> ∅ → x_ins x = [] →
  rc_step (RWrite t2 (s_id s2) op2) (both x empty_txn) =
  Some (both x (mkTxn (<[s_id s2:=op_set op2 s2]> ∅) [] ∅ [Some (b_id b)] None)).
Proof.
  intros Eu Ei. cbn [rc_step]. rewrite both_bind. cbn [rc_db both x_upd empty_txn].
  fold (row_at (s_id s2)). rewrite (row_find s2) by done. cbn [mbind option_bind].
  assert (Hno : no_other t2 (both x empty_txn) (locks_sim (s_id s2)) = true).
  { apply no_other_true. unfold both. cbn [rc_open]. intros u y Hu [[E _]|[_ [[_ <-]|[_ ?%lookup_empty_Some]]%lookup_insert_Some]]%lookup_insert_Some;
      [congruence| |done].
    unfold locks_sim. rewrite Eu, Ei, lookup_insert_ne, lookup_empty by done. done. }
  rewrite Hg2, Hf2, Hno, Hb2. cbn [andb x_ins x_bat x_fired x_snap empty_txn app]. by rewrite both_put.
Qed.

Lemma both_trigger x y bid : x_fired y = [Some bid] → x_snap y = None →
  rc_step (RTrigger t2) (both x y) = Some (both x (mkTxn (x_upd y) (x_ins y) (x_bat y) []
    (Some (mkSnap ByTrigger bid (view y db))))).
Proof.
  intros Ef Es. cbn [rc_step]. rewrite both_bind, Ef, Es. cbn [rc_db both fmap option_fmap option_map].
  by rewrite both_put.
Qed.

Lemma both_commit x y : x_fired x = [] → x_snap x = None →
  rc_step (RCommit t1) (both x y) = Some (only t2 y (commit x db)).
Proof.
  intros Ef Es. cbn [rc_step both rc_open rc_db].
  rewrite lookup_insert_ne, lookup_insert_eq by done. cbn [mbind option_bind]. rewrite Ef, Es.
  unfold only. do 2 f_equal. rewrite delete_insert_ne by done. f_equal.
  apply delete_insert_id, lookup_empty.
Qed.

(** The rest: the second transaction, and the two commits. *)
Lemma run_overlapping :
  rc_run (overlapping_finishes t1 t2 (s_id s1) (s_id s2) op1 op2) (mkRC db ∅) = Some (mkRC both_done ∅).
Proof.
  destruct run_to_rollup as (x & Hrun & Eu & Ei & Ef & Es & Ec).
  change (overlapping_finishes t1 t2 (s_id s1) (s_id s2) op1 op2) with
    ([RBegin t1; RWrite t1 (s_id s1) op1; RTrigger t1; RRollup t1] ++
     [RBegin t2; RWrite t2 (s_id s2) op2; RTrigger t2; RCommit t1; RRollup t2; RCommit t2])%list.
  rewrite rc_run_app, Hrun. cbn [mbind option_bind]. clear Hrun. cbn [rc_run].
  rewrite both_begin. cbn [mbind option_bind]. rewrite both_write by done. cbn [mbind option_bind].
  rewrite (both_trigger _ _ (b_id b)) by done. cbn [mbind option_bind x_upd x_ins x_bat].
  rewrite both_commit by done. cbn [mbind option_bind]. rewrite Ec.
  erewrite step_rollup by done. cbn [mbind option_bind x_upd x_ins x_bat x_fired].
  erewrite step_commit by done. cbn [mbind option_bind]. do 2 f_equal.
  rewrite batch_overlay_empty. cbn [sn_bid].
  assert (Hk : map b_id (batches first_done) = map b_id (batches db))
    by (cbn [first_done sync_batch_counts batches with_batches]; by rewrite map_update_where).
  destruct (batch_find first_done Hk) as (r & -> & Hr & Er).
  unfold both_done, commit, view. cbn [x_upd x_ins x_bat]. rewrite !overlay_singleton, !app_nil_r.
  change (simulations first_done) with (one s1 op1 (simulations db)).
  unfold with_batches, with_simulations. cbn [users api_keys batches simulations results].
  f_equal. rewrite (batch_overlay_singleton (b_id b) r); [done| |done|done].
  rewrite Hk. apply Hwf.
Qed.
End lost.

Lemma one_ids s f ss : s_id f = s_id s →
  map s_id (update_where (row_at (s_id s)) (λ _, f) ss) = map s_id ss.
Proof.
  intros E. unfold update_where. rewrite map_map. apply map_ext. intros r. unfold row_at.
  by destruct (String.eqb_spec (s_id r) (s_id s)) as [->|].
Qed.

Lemma one_other s f r ss : r ∈ ss → s_id r ≠ s_id s →
  r ∈ update_where (row_at (s_id s)) (λ _, f) ss.
Proof.
  intros Hr Hne. apply elem_of_update_where. exists r. split; [done|].
  unfold row_at. by rewrite (proj2 (String.eqb_neq _ _) Hne).
Qed.

(** A fenced UPDATE writes the one row. *)
Lemma fenced_one s runner f ss :
  NoDup (map s_id ss) → s ∈ ss → fence (s_id s) runner s = true →
  update_where (fence (s_id s) runner) f ss = update_where (row_at (s_id s)) (λ _, f s) ss.
Proof.
  intros Hnd Hs Hf. apply map_ext_in. intros r Hr%list_elem_of_In. unfold row_at.
  destruct (String.eqb_spec (s_id r) (s_id s)) as [E|Hne].
  - assert (r = s) as -> by (by apply (NoDup_key_inj s_id ss)). by rewrite Hf.
  - destruct (fence (s_id s) runner r) eqn:Ef; [|done]. by apply fence_true in Ef as [? _].
Qed.

(** One finish in, one of two: the terminal children. *)
Lemma finish_terminal_child bid runner ok err now s :
  s_batch_id s = Some bid → fence (s_id s) runner s = true →
  let q := λ r, is_child bid r && terminal (s_state r) in
  q s = false ∧ q (op_set (OpFinish runner ok err now) s) = true ∧ is_child bid s = true ∧
  is_child bid (op_set (OpFinish runner ok err now) s) = true.
Proof.
  intros Hb (_ & _ & Hst)%fence_true. cbv zeta.
  assert (Hc : is_child bid s = true) by by apply sql_eq_true.
  split_and!; [by rewrite Hst, andb_false_r| |done|exact Hc].
  change (is_child bid (op_set _ s)) with (is_child bid s). rewrite Hc. by destruct ok.
Qed.

(** With both in there is one terminal child more than with the second alone, which
    leaves the first running. *)
Lemma one_finish_less bid s1 s2 r1 r2 ok1 ok2 err1 err2 now1 now2 ss :
  NoDup (map s_id ss) → s1 ∈ ss → s2 ∈ ss → s_id s1 ≠ s_id s2 →
  s_batch_id s1 = Some bid → s_batch_id s2 = Some bid →
  fence (s_id s1) r1 s1 = true → fence (s_id s2) r2 s2 = true →
  let put s op := update_where (row_at (s_id s)) (λ _, op_set op s) in
  let old := put s2 (OpFinish r2 ok2 err2 now2) ss in
  let new := put s2 (OpFinish r2 ok2 err2 now2) (put s1 (OpFinish r1 ok1 err1 now1) ss) in
  n_state bid Succeeded new + n_state bid Failed new =
    n_state bid Succeeded old + n_state bid Failed old + 1 ∧
  n_children bid new = n_children bid old ∧
  n_state bid Succeeded old + n_state bid Failed old < n_children bid old.
Proof.
  intros Hnd Hs1 Hs2 Hne Hb1 Hb2 Hg1 Hg2. cbv zeta.
  destruct (finish_terminal_child bid r1 ok1 err1 now1 s1 Hb1 Hg1) as (Q1 & Q1' & C1 & C1').
  destruct (finish_terminal_child bid r2 ok2 err2 now2 s2 Hb2 Hg2) as (Q2 & Q2' & C2 & C2').
  set (f1 := op_set _ s1) in *. set (f2 := op_set _ s2) in *.
  set (ss1 := update_where (row_at (s_id s1)) (λ _, f1) ss).
  assert (Hnd1 : NoDup (map s_id ss1)) by (unfold ss1; by rewrite one_ids).
  assert (Hin : s2 ∈ ss1) by (apply one_other; [done|congruence]).
  set (q := λ r, is_child bid r && terminal (s_state r)).
  change (q s1 = false) in Q1. change (q f1 = true) in Q1'.
  change (q s2 = false) in Q2. change (q f2 = true) in Q2'.
  assert (Hn : ∀ l, n_state bid Succeeded l + n_state bid Failed l = Z.of_nat (count q l)).
  { intros l. destruct (sub_of_n bid l) as (_ & _ & _ & <-). by rewrite sub_of_counts. }
  rewrite !Hn. unfold n_children.
  pose proof (count_update_one q _ s1 f1 ss Hnd Hs1 eq_refl) as T1.
  pose proof (count_update_one q _ s2 f2 ss1 Hnd1 Hin eq_refl) as T2.
  pose proof (count_update_one q _ s2 f2 ss Hnd Hs2 eq_refl) as T3.
  pose proof (count_update_one (is_child bid) _ s1 f1 ss Hnd Hs1 eq_refl) as K1.
  pose proof (count_update_one (is_child bid) _ s2 f2 ss1 Hnd1 Hin eq_refl) as K2.
  pose proof (count_update_one (is_child bid) _ s2 f2 ss Hnd Hs2 eq_refl) as K3.
  fold ss1 in T1, K1. rewrite Q1, Q1' in T1. rewrite Q2, Q2' in T2, T3.
  rewrite C1, C1' in K1. rewrite C2, C2' in K2, K3.
  set (old := update_where (row_at (s_id s2)) (λ _, f2) ss) in *.
  pose proof (count_split (is_child bid) (λ s, terminal (s_state s)) old) as Hsp. cbn beta in Hsp.
  assert (0 < count (λ r, is_child bid r && negb (terminal (s_state r))) old)%nat.
  { apply count_pos. exists s1. split; [by apply one_other|].
    unfold q in Q1. rewrite C1 in *. cbn [andb] in *. by rewrite Q1. }
  fold q in Hsp. lia.
Qed.

Lemma finishes_one_after_the_other db s1 s2 b r1 r2 ok1 ok2 err1 err2 now1 now2 :
  NoDup (map s_id (simulations db)) → s1 ∈ simulations db → s2 ∈ simulations db →
  s_id s1 ≠ s_id s2 → fence (s_id s1) r1 s1 = true → fence (s_id s2) r2 s2 = true →
  simulations (finish_simulation (s_id s2) r2 ok2 err2 now2
    (finish_simulation (s_id s1) r1 ok1 err1 now1 db).2).2 =
  simulations (both_done db s1 s2 b (OpFinish r1 ok1 err1 now1) (OpFinish r2 ok2 err2 now2)).
Proof.
  intros Hnd Hs1 Hs2 Hne Hg1 Hg2. rewrite !simulations_finish.
  rewrite (fenced_one s1) by done.
  rewrite (fenced_one s2); [done|by rewrite one_ids|by apply one_other; [|congruence]|done].
Qed.

(** ** Properties *)


(** C32: the rollup of migration 0004 is lost whenever two finishes overlap.  Let
    two Runners each own a running simulation of the same batch in a consistent
    database, and let their finish transactions overlap so that the second
    trigger's statement begins before the first transaction commits (it then
    waits for the batch's row).  Both finishes go through, and the simulations are
    what they would be one after the other; but the batch's counts are together
    one less than the terminal simulations it has, so its row is not the rollup of
    its children, and as long as it has no more rows than its total it is not
    done.  No transaction is open, so nothing fires the trigger again.  If these
    were the last two, so that all rows of the batch exist and are terminal, one
    pass of ResyncStuckBatches makes it done with both counts exact. *)
Theorem overlapping_finishes_lose_the_rollup {PU : PgUuid} t1 t2 db s1 s2 b
    r1 r2 ok1 ok2 err1 err2 now1 now2 :
  db_wf db → t1 ≠ t2 → s1 ∈ simulations db → s2 ∈ simulations db → s_id s1 ≠ s_id s2 →
  b ∈ batches db → s_batch_id s1 = Some (b_id b) → s_batch_id s2 = Some (b_id b) →
  fence (s_id s1) r1 s1 = true → fence (s_id s2) r2 s2 = true →
  ∃ db' b', rc_run (overlapping_finishes t1 t2 (s_id s1) (s_id s2)
      (OpFinish r1 ok1 err1 now1) (OpFinish r2 ok2 err2 now2)) (mkRC db ∅) = Some (mkRC db' ∅) ∧
    simulations db' = simulations (finish_simulation (s_id s2) r2 ok2 err2 now2
      (finish_simulation (s_id s1) r1 ok1 err1 now1 db).2).2 ∧
    b' ∈ batches db' ∧ b_id b' = b_id b ∧ b_total b' = b_total b ∧
    b_succeeded b' + b_failed b' + 1 =
      n_state (b_id b) Succeeded (simulations db') + n_state (b_id b) Failed (simulations db') ∧
    ¬ rolled_up db' ∧
    (n_children (b_id b) (simulations db') <= b_total b → b_state b' ≠ BDone) ∧
    (n_children (b_id b) (simulations db') = b_total b →
     (∀ s, s ∈ simulations db' → is_child (b_id b) s = true → terminal (s_state s) = true) →
     ∃ b'', b'' ∈ batches (ResyncStuckBatches db').2 ∧ b_id b'' = b_id b ∧ b_state b'' = BDone ∧
       b_succeeded b'' = n_state (b_id b) Succeeded (simulations db') ∧
       b_failed b'' = n_state (b_id b) Failed (simulations db')).
Proof.
  intros Hwf Ht Hs1 Hs2 Hne Hb Hb1 Hb2 Hg1 Hg2. pose proof (wf_sim_ids _ Hwf) as Hnd.
  set (op1 := OpFinish r1 ok1 err1 now1). set (op2 := OpFinish r2 ok2 err2 now2).
  destruct (one_finish_less (b_id b) s1 s2 r1 r2 ok1 ok2 err1 err2 now1 now2 (simulations db))
    as (Hterm & Hkids & Hlt); [done..|]. fold op1 op2 in Hterm, Hkids, Hlt.
  pose proof (run_overlapping t1 t2 db s1 s2 b op1 op2 Hwf Ht Hs1 Hs2 Hne Hb Hb1 Hb2 Hg1 Hg2
    eq_refl eq_refl) as Hrun.
  set (db' := both_done db s1 s2 b op1 op2) in *.
  set (old := update_where (row_at (s_id s2)) (λ _, op_set op2 s2) (simulations db)) in *.
  set (b' := sync_row (sub_of (b_id b) old) b).
  change (update_where (row_at (s_id s2)) (λ _, op_set op2 s2)
    (update_where (row_at (s_id s1)) (λ _, op_set op1 s1) (simulations db)))
    with (simulations db') in *.
  destruct (sub_of_n (b_id b) old) as (Ei & Es & Ef & Ed).
  assert (Hin : b' ∈ batches db').
  { apply elem_of_update_where. exists (sync_row (sub_of (b_id b) (simulations (first_done db s1 b op1))) b).
    split; [|cbn [b_id sync_row]; by rewrite String.eqb_refl].
    apply elem_of_update_where. exists b. by rewrite String.eqb_refl. }
  assert (Hcount : b_succeeded b' + b_failed b' + 1 =
    n_state (b_id b) Succeeded (simulations db') + n_state (b_id b) Failed (simulations db')).
  { cbn [b' sync_row b_succeeded b_failed]. rewrite Es, Ef. lia. }
  assert (Hdone : n_children (b_id b) (simulations db') <= b_total b → b_state b' ≠ BDone).
  { intros Hle. cbn [b' sync_row b_state]. unfold sync_state. rewrite Ei, Ed.
    case_match; [done|]. rewrite (proj2 (Z.leb_gt _ _)), andb_false_r by lia. by case_match. }
  exists db', b'. split_and!; try done.
  - symmetry. by apply finishes_one_after_the_other.
  - intros Hr. specialize (Hr b' Hin). destruct (sub_of_n (b_id b) (simulations db')) as (_ & Es' & Ef' & _).
    apply (f_equal (λ r, b_succeeded r + b_failed r)) in Hr.
    cbn [b' sync_row b_succeeded b_failed b_id] in Hr. cbn [b' sync_row b_succeeded b_failed] in Hcount.
    rewrite Es', Ef' in Hr. lia.
  - intros Hall Hterminal.
    destruct (resync_repairs_missed_rollup db' b') as (b'' & H1 & H2 & H3 & H4 & H5); try done.
    + exact (wf_totals _ Hwf b Hb).
    + change (b_total b <= n_children (b_id b) (simulations db')). lia.
    + apply Hdone. lia.
    + exists b''. by split_and!.
Qed.

(** *** Witnesses *)
#[export] Instance alone_on_dec bid σ : Decision (alone_on bid σ).
Proof. unfold alone_on. apply _. Defined.

(** Runs the events, and checks that nothing overlaps on the batch. *)
Fixpoint apart_run {PU : PgUuid} (bid : string) (es : list rc_event) (σ : RC) : option RC :=
  match es with
  | [] => Some σ
  | e :: es' =>
      σ' ← (if positive_total e then rc_step e σ else None);
      if decide (alone_on bid σ') then apart_run bid es' σ' else None
  end.

Lemma apart_run_apart {PU : PgUuid} bid es : ∀ σ σ',
  rc_apart bid σ → apart_run bid es σ = Some σ' → rc_apart bid σ'.
Proof.
  induction es as [|e es IH]; intros σ σ' Hr; cbn [apart_run]; [by intros [= <-]|].
  intros (σ1 & H1 & H2)%bind_Some. destruct (positive_total e) eqn:Hp; [|done].
  destruct (decide (alone_on bid σ1)); [|done]. eapply IH; [|exact H2]. by eapply apart_next.
Qed.

(** s1 of b1 is finished while a simulation of b2 is, a sweep of b1 has its
    snapshot from before, and r2 renews its lease on s2; then s2 is finished. *)
Definition overlap_elsewhere : list rc_event :=
  race_submit ++
  [RCreateBatch "b2" 5 "alice" 1 None;
   RBegin 0; RInsert 0 "s9" 6 6 (demo_params (Some "b2") "queued"); RTrigger 0; RRollup 0; RCommit 0] ++
  alone 0 "s9" (OpClaim "r9" 90 12) (Some "b2") ++
  [RBegin 3; RSweep 3 "b1"; RBegin 4; RWrite 4 "s2" (OpRenew "r2" 90 19);
   RBegin 1; RWrite 1 "s1" (OpFinish "r1" true None 20);
   RBegin 2; RWrite 2 "s9" (OpFinish "r9" true None 20);
   RTrigger 1; RTrigger 2; RRollup 2; RRollup 1; RCommit 1; RRollup 3; RCommit 3; RCommit 2; RCommit 4] ++
  alone 0 "s2" (OpFinish "r2" true None 21) (Some "b1").


(** The two last simulations of a batch of two. *)
Lemma overlapping_finishes_lose_the_rollup_witness :
  ∃ db db' b', rc_run (PU := demo_uuid) (overlapping_finishes 1 2 "s1" "s2"
      (OpFinish "r1" true None 20) (OpFinish "r2" true None 21)) (mkRC db ∅) = Some (mkRC db' ∅) ∧
    b' ∈ batches db' ∧ b_id b' = "b1" ∧ ¬ rolled_up db'.
Proof.
  pose (db := run (PU := demo_uuid)
    [ECreateBatch "b1" 1 "alice" 2 None;
     EInsertSimulation "s1" 2 2 (demo_params (Some "b1") "queued");
     EInsertSimulation "s2" 3 3 (demo_params (Some "b1") "queued");
     EClaim "r1" "24.1.0" 5 90 (λ _, false) 10; EClaim "r2" "24.1.0" 5 90 (λ _, false) 11]
    demo_start).
  assert (Hwf : db_wf db).
  { apply (db_wf_run (PU := demo_uuid)); [by apply db_wf_initial|by repeat constructor]. }
  assert (Hdb : ∃ s1 s2 b, s1 ∈ simulations db ∧ s2 ∈ simulations db ∧ b ∈ batches db ∧
    s_id s1 = "s1" ∧ s_id s2 = "s2" ∧ b_id b = "b1" ∧
    s_batch_id s1 = Some (b_id b) ∧ s_batch_id s2 = Some (b_id b) ∧
    fence (s_id s1) "r1" s1 = true ∧ fence (s_id s2) "r2" s2 = true).
  { eexists _, _, _. split; [vm_compute; left|]. split; [vm_compute; right; left|].
    split; [vm_compute; left|]. split_and!; reflexivity. }
  clearbody db. destruct Hdb as (s1 & s2 & b & H1 & H2 & H3 & E1 & E2 & E3 & B1 & B2 & F1 & F2).
  destruct (overlapping_finishes_lose_the_rollup (PU := demo_uuid) 1 2 db s1 s2 b "r1" "r2"
    true true None None 20 21) as (db' & b' & Hrun & _ & Hb & Eb & _ & _ & Hn & _); try done.
  - rewrite E1, E2. discriminate.
  - exists db, db', b'. rewrite E1, E2 in Hrun. split_and!; [exact Hrun|exact Hb|congruence|exact Hn].
Defined.
