(* ===== verification/Claims.v ===== *)
(** * Overlapping claims and the advisory lock

    app.claim_simulation (migration 0007) inside the transaction of
    [Database.claim] (runner/synergy_runner/db.py), one statement at a time among
    the overlapping transactions of [ReadCommitted]: PERFORM
    pg_advisory_xact_lock(42) waits for the transaction that has the lock; the
    UPDATE then takes its snapshot, because each statement of a VOLATILE PL/pgSQL
    function gets one of its own at READ COMMITTED; its subquery counts and sorts
    on that snapshot and only then, row by row in this order, passes over the rows
    that others hold locked and takes the first free one, which the UPDATE writes
    in its newest version.  Nothing looks at that version's state again
    (Postgres's recheck is of e.id = s2.id and s.id = ..): that it is still queued
    is for the lock to ensure.  The lock is given back by COMMIT or ROLLBACK, after
    the commit has become visible. *)
From S2P Require Import Prelude Sql Schema Lifecycle Store Fleet ReadCommitted.
Local Open Scope Z_scope.

(** The arguments of a call, with the transaction's now(). *)
Record Call := mkCall {
  c_runner : string; c_version : string; c_cap : Z; c_lease : Z; c_now : Z;
}.

(** Where a call is: before PERFORM, before the UPDATE, at a row of the
    subquery's result, or back in the caller. *)
Inductive call_pc :=
  | AtLock
  | AtUpdate
  | AtRow (rows : list SimRow)
  | Returned.

Record CR := mkCR {
  cr_rc : RC;
  cr_lock : option nat;                   (* who has advisory lock 42 *)
  cr_calls : gmap nat (Call * call_pc);   (* the transactions of claim() *)
}.

(** [CBegin] is BEGIN and the call; [CNext] the call's next step; [CStep] a step of
    any other transaction, or of a call's own after it has returned. *)
Inductive cr_event :=
  | CBegin (t : nat) (c : Call)
  | CNext (t : nat)
  | CStep (e : rc_event).

Definition set_call (t : nat) (c : Call) (pc : call_pc) (σ : CR) : CR :=
  mkCR (cr_rc σ) (cr_lock σ) (<[t:=(c, pc)]> (cr_calls σ)).

(** The subquery's rows, on the snapshot a statement of [x] takes. *)
Definition claim_scan (c : Call) (x : Txn) (db : DB) : list SimRow :=
  claim_candidates (c_version c) (c_cap c) (with_simulations db (view x db)).

(** The UPDATE of the row [k], whatever its state, and the trigger it queues. *)
Definition claim_write (t : nat) (c : Call) (k : string) (x : Txn) (ρ : RC) : option RC :=
  s ← List.find (λ s, String.eqb (s_id s) k) (overlay (x_upd x) (simulations (rc_db ρ)));
  Some (put t (mkTxn (<[k:=claim_row (c_runner c) (c_lease c) (c_now c) s]> (x_upd x)) (x_ins x)
                 (x_bat x) (x_fired x ++ [s_batch_id s]) (x_snap x)) ρ).

Definition claim_next (t : nat) (σ : CR) : option CR :=
  '(c, pc) ← cr_calls σ !! t;
  x ← rc_open (cr_rc σ) !! t;
  match pc with
  | AtLock =>
      match cr_lock σ with
      | Some _ => None
      | None => Some (set_call t c AtUpdate (mkCR (cr_rc σ) (Some t) (cr_calls σ)))
      end
  | AtUpdate => Some (set_call t c (AtRow (claim_scan c x (rc_db (cr_rc σ)))) σ)
  | AtRow [] => Some (set_call t c Returned σ)
  | AtRow (s :: rest) =>
      if no_other t (cr_rc σ) (locks_sim (s_id s)) then
        ρ ← claim_write t c (s_id s) x (cr_rc σ);
        Some (set_call t c Returned (mkCR ρ (cr_lock σ) (cr_calls σ)))
      else Some (set_call t c (AtRow rest) σ)
  | Returned => None
  end.

(** The transaction of a step, whether the step ends it, and what is left to a
    call's transaction: the trigger of its UPDATE and the end. *)
Definition event_txn (e : rc_event) : option nat :=
  match e with
  | RBegin t | RInsert t _ _ _ _ | RWrite t _ _ | RTrigger t | RSweep t _ | RRollup t
  | RCommit t | RAbort t => Some t
  | RCreateBatch _ _ _ _ _ => None
  end.

Definition ends (e : rc_event) : bool :=
  match e with RCommit _ | RAbort _ => true | _ => false end.

Definition after_call (pc : call_pc) (e : rc_event) : bool :=
  match e, pc with
  | RAbort _, _ => true
  | (RTrigger _ | RRollup _ | RCommit _), Returned => true
  | _, _ => false
  end.

Definition is_claim (e : rc_event) : bool :=
  match e with RWrite _ _ (OpClaim _ _ _) => true | _ => false end.

Definition may_step (e : rc_event) (σ : CR) : bool :=
  match t ← event_txn e; cr_calls σ !! t with
  | Some (_, pc) => after_call pc e
  | None => negb (is_claim e)
  end.

(** The end of a transaction gives its advisory lock back. *)
Definition release (t : nat) (σ : CR) : CR :=
  mkCR (cr_rc σ) (if decide (cr_lock σ = Some t) then None else cr_lock σ)
    (delete t (cr_calls σ)).

Section steps.
Context {PU : PgUuid}.

Definition cr_step (e : cr_event) (σ : CR) : option CR :=
  match e with
  | CBegin t c =>
      match rc_open (cr_rc σ) !! t with
      | Some _ => None
      | None => Some (set_call t c AtLock
                  (mkCR (put t empty_txn (cr_rc σ)) (cr_lock σ) (cr_calls σ)))
      end
  | CNext t => claim_next t σ
  | CStep e =>
      if may_step e σ then
        ρ ← rc_step e (cr_rc σ);
        let σ' := mkCR ρ (cr_lock σ) (cr_calls σ) in
        Some (match event_txn e with
              | Some t => if ends e then release t σ' else σ'
              | None => σ'
              end)
      else None
  end.

Fixpoint cr_run (es : list cr_event) (σ : CR) : option CR :=
  match es with
  | [] => Some σ
  | e :: es' => σ' ← cr_step e σ; cr_run es' σ'
  end.

Definition cr_start (db : DB) : CR := mkCR (mkRC db ∅) None ∅.

(** What is asked of a run: claims with a cap up to [K], and new rows in the two
    states InsertSimulation's comment names. *)
Definition cr_capped (K : Z) (e : cr_event) : Prop :=
  match e with
  | CBegin _ c => c_cap c <= K
  | CStep (RInsert _ id now clock p) => admissible (EInsertSimulation id now clock p) = true
  | _ => True
  end.
End steps.
