(* ===== verification/ClaimsSpec.v ===== *)
(** * What the advisory lock buys

    [cr_ok] is the invariant of the overlapping claims: nobody but a returned call
    has made a row running, at most the lock's holder is past its PERFORM, and what
    a call has scanned stays claimable until it writes.  It is a lock invariant in
    the usual sense: while the lock is free, the committed rows respect the cap;
    the holder's own view does too when it gives the lock back. *)
From S2P Require Import Prelude Sql Schema Fixtures Rollup Lifecycle Store Fleet.
From S2P Require Import ReadCommitted ReadCommittedSpec Claims.
Local Open Scope Z_scope.

(** ** What everybody but a claim does to a row *)
Record calm (s s' : SimRow) : Prop := {
  ca_user : s_user_id s' = s_user_id s;
  ca_running : s_state s' = Running → s_state s = Running;
  ca_queued : s_state s = Queued → s_state s' = Queued;
}.

#[export] Instance calm_preorder : PreOrder calm.
Proof.
  split; [done|]. intros a b c [H1 H2 H3] [H4 H5 H6]. split; [congruence|auto..].
Qed.

Lemma op_calm t k op s :
  op_guard k op s = true → is_claim (RWrite t k op) = false → calm s (op_set op s).
Proof.
  destruct op as [| |r ok e n| | |]; cbn [op_guard op_set is_claim]; intros Hg Hc; try done.
  - apply fence_true in Hg as (_ & _ & E). split; [done|simpl; by destruct ok|]. by rewrite E.
  - apply andb_true_iff in Hg as [[E _]%expired_true _]. split; [done..|]. by rewrite E.
Qed.

(** A row a scan may have found: queued, its user below the cap. *)
Definition claimable (cap : Z) (k : string) (ss : list SimRow) : Prop :=
  ∃ s, s ∈ ss ∧ s_id s = k ∧ s_state s = Queued ∧ running_count (s_user_id s) ss < cap.

(** Row lists that got calm changes and rows that do not run. *)
Record eases (ss ss' : list SimRow) : Prop := {
  ea_count : ∀ u, running_count u ss' <= running_count u ss;
  ea_rows : ∀ s, s ∈ ss → ∃ s', s' ∈ ss' ∧ s_id s' = s_id s ∧ calm s s';
}.

Lemma eases_claimable cap k ss ss' : eases ss ss' → claimable cap k ss → claimable cap k ss'.
Proof.
  intros [Hc Hr] (s & Hs & <- & Hq & Hlt). destruct (Hr s Hs) as (s' & Hs' & Hid & Hca).
  exists s'. split_and!; [done|done|by apply (ca_queued _ _ Hca)|].
  rewrite (ca_user _ _ Hca). specialize (Hc (s_user_id s)). lia.
Qed.

Lemma count_map_le {A} (q : A → bool) (f g : A → A) l :
  (∀ x, x ∈ l → q (g x) = true → q (f x) = true) → (count q (map g l) <= count q (map f l))%nat.
Proof.
  induction l as [|x l IH]; intros H; [done|]. cbn [map]. rewrite !count_cons.
  assert (count q (map g l) <= count q (map f l))%nat by (apply IH; intros y Hy; apply H; by right).
  specialize (H x (list_elem_of_here x l)). destruct (q (g x)); [rewrite H by done|]; lia.
Qed.

Lemma running_count_none u ss : (∀ s, s ∈ ss → s_state s ≠ Running) → running_count u ss = 0.
Proof.
  intros H. unfold running_count, count. rewrite filter_none; [done|].
  intros s Hs. unfold running_of. apply andb_false_iff. right.
  apply not_true_iff_false. rewrite is_state_true. by apply H.
Qed.

Lemma running_count_app u a b : running_count u (a ++ b) = running_count u a + running_count u b.
Proof. unfold running_count. rewrite count_app. lia. Qed.

Lemma running_count_map u (f g : SimRow → SimRow) ss :
  (∀ s, s ∈ ss → calm (f s) (g s)) → running_count u (map g ss) <= running_count u (map f ss).
Proof.
  intros H. apply inj_le, count_map_le. intros s Hs. destruct (H s Hs) as [Hu Hr _].
  unfold running_of. rewrite !andb_true_iff, !is_state_true, Hu. intros [? ?]. auto.
Qed.

(** ** The invariant *)
Definition calm_txn (x : Txn) (db : DB) : Prop :=
  ∀ s s', s ∈ simulations db → x_upd x !! s_id s = Some s' → calm s s'.

Definition call_ok (K : Z) (lock : option nat) (t : nat) (c : Call) (pc : call_pc) (x : Txn)
    (db : DB) : Prop :=
  match pc with
  | AtLock => x = empty_txn
  | AtUpdate => x = empty_txn ∧ lock = Some t
  | AtRow rows => x = empty_txn ∧ lock = Some t ∧
      ∀ s, s ∈ rows → claimable (c_cap c) (s_id s) (simulations db)
  | Returned => lock = Some t ∧ ∀ u, running_count u (view x db) <= K
  end.

Definition txn_fine (K : Z) (lock : option nat) (t : nat) (oc : option (Call * call_pc)) (x : Txn)
    (db : DB) : Prop :=
  (∀ s, s ∈ x_ins x → s_state s ≠ Running) ∧
  match oc with
  | None => calm_txn x db
  | Some (c, pc) => c_cap c <= K ∧ call_ok K lock t c pc x db
  end.

Record cr_ok (K : Z) (σ : CR) : Prop := {
  co_rc : rc_ok (cr_rc σ);
  co_count : ∀ u, running_count u (simulations (rc_db (cr_rc σ))) <= K;
  co_open : ∀ t, is_Some (cr_calls σ !! t) → is_Some (rc_open (cr_rc σ) !! t);
  co_held : ∀ t, cr_lock σ = Some t → is_Some (cr_calls σ !! t);
  co_txns : ∀ t x, rc_open (cr_rc σ) !! t = Some x →
    txn_fine K (cr_lock σ) t (cr_calls σ !! t) x (rc_db (cr_rc σ));
}.

Lemma view_empty db : view empty_txn db = simulations db.
Proof. unfold view. cbn [x_upd x_ins empty_txn]. by rewrite overlay_empty, app_nil_r. Qed.

(** Only the lock's holder depends on who has the lock. *)
Lemma fine_lock K lock lock' t oc x db :
  lock ≠ Some t → txn_fine K lock t oc x db → txn_fine K lock' t oc x db.
Proof.
  intros Hne [Hi H]. split; [done|]. destruct oc as [[c pc]|]; [|done]. destruct H as [Hc H].
  split; [done|]. destruct pc; simpl in *; destruct_and?; done || congruence.
Qed.

(** A step that leaves a transaction's rows alone. *)
Lemma fine_same K lock t oc x x' db :
  x_upd x' = x_upd x → x_ins x' = x_ins x →
  match oc with Some (_, Returned) | None => true | _ => false end = true →
  txn_fine K lock t oc x db → txn_fine K lock t oc x' db.
Proof.
  unfold txn_fine, calm_txn, call_ok, view. intros -> -> Hoc.
  by destruct oc as [[c []]|].
Qed.

(** ** Commits *)
Section commits.
Context {PU : PgUuid} (K : Z) (lock : option nat) (t : nat) (x : Txn) (db : DB).
Hypothesis Hx : txn_ok x db.
Hypothesis Hnew : ∀ s, s ∈ x_ins x → s_state s ≠ Running.

Lemma commit_simulations : simulations (commit x db) = view x db.
Proof. done. Qed.

Lemma eases_commit : calm_txn x db → eases (simulations db) (simulations (commit x db)).
Proof.
  intros Hc. rewrite commit_simulations. unfold view. split.
  - intros u. rewrite running_count_app, (running_count_none u (x_ins x)) by done.
    rewrite <-(map_id (simulations db)) at 2. unfold overlay.
    pose proof (running_count_map u id (λ s, default s (x_upd x !! s_id s)) (simulations db)) as Hm.
    rewrite Z.add_0_r. apply Hm. intros s Hs. destruct (x_upd x !! s_id s) as [s'|] eqn:E; [|done].
    exact (Hc s s' Hs E).
  - intros s Hs. exists (default s (x_upd x !! s_id s)). split_and!.
    + apply elem_of_app. left. unfold overlay. by apply (elem_of_map_1 (λ s, default s (x_upd x !! s_id s))).
    + by apply (overlay_row_le x db).
    + destruct (x_upd x !! s_id s) as [s'|] eqn:E; [exact (Hc s s' Hs E)|done].
Qed.

(** Another transaction, over the committed rows. *)
Section other.
Context (u : nat) (y : Txn).
Hypothesis Hy : txn_ok y db.
Hypothesis Hapart : ∀ k, locks_sim k x = true → locks_sim k y = false.

Lemma calm_commit : calm_txn y db → calm_txn y (commit x db).
Proof.
  intros Hc s s'. rewrite commit_simulations. unfold view.
  intros [(s0 & Hs0 & <-)%elem_of_map_2|Hs]%elem_of_app E.
  - rewrite (rl_id _ _ (overlay_row_le x db s0 Hx Hs0)) in E.
    destruct (x_upd x !! s_id s0) as [s1|] eqn:Ex; [|by apply Hc].
    by rewrite (upd_apart x y Hapart _ _ Ex) in E.
  - apply (ti_dom _ _ Hy) in E. by apply (ti_new _ _ Hx) in Hs.
Qed.

Lemma view_commit_calm v : calm_txn x db →
  running_count v (view y (commit x db)) <= running_count v (view y db).
Proof.
  intros Hc. unfold view at 1. rewrite commit_simulations. unfold view, overlay.
  rewrite map_app, !running_count_app, map_map.
  rewrite (running_count_none v (map _ (x_ins x))).
  - rewrite Z.add_0_r. apply Z.add_le_mono_r, running_count_map. intros s Hs.
    rewrite (rl_id _ _ (overlay_row_le x db s Hx Hs)).
    destruct (x_upd y !! s_id s); [done|]. destruct (x_upd x !! s_id s) as [s'|] eqn:E; [exact (Hc s s' Hs E)|done].
  - intros s (s1 & Hs1 & <-)%elem_of_map_2. destruct (x_upd y !! s_id s1) eqn:E; [|by apply Hnew].
    apply (ti_dom _ _ Hy) in E. by apply (ti_new _ _ Hx) in Hs1.
Qed.

(** A transaction that is not past its lock, or whatever it is when the one that
    commits is calm. *)
Lemma fine_commit oc : calm_txn x db ∨ lock ≠ Some u →
  txn_fine K lock u oc y db → txn_fine K lock u oc y (commit x db).
Proof.
  intros Hor [Hi H]. split; [done|]. destruct oc as [[c pc]|]; [|by apply calm_commit].
  destruct H as [Hcap H]. split; [done|]. destruct pc as [| |rows|]; [done..| |].
  - destruct H as (-> & Hl & Hr). split_and!; [done..|]. intros s Hs.
    destruct Hor as [Hc|]; [|done]. eapply eases_claimable; [by apply eases_commit|auto].
  - destruct H as [Hl Hr]. split; [done|]. intros v. destruct Hor as [Hc|]; [|done].
    etrans; [by apply view_commit_calm|auto].
Qed.
End other.
End commits.

(** ** Every step keeps the invariant *)
Section invariant.
Context {PU : PgUuid} (K : Z) (σ : CR).
Hypothesis Hok : cr_ok K σ.

(** One transaction, its call and perhaps a free lock change. *)
Lemma cr_ok_update t x' lock' calls' :
  rc_ok (put t x' (cr_rc σ)) →
  lock' = cr_lock σ ∨ cr_lock σ = None ∧ lock' = Some t ∧ is_Some (calls' !! t) →
  (is_Some (cr_calls σ !! t) → is_Some (calls' !! t)) →
  (∀ u, u ≠ t → calls' !! u = cr_calls σ !! u) →
  txn_fine K lock' t (calls' !! t) x' (rc_db (cr_rc σ)) →
  cr_ok K (mkCR (put t x' (cr_rc σ)) lock' calls').
Proof.
  intros Hrc Hl Hi Hc Hf. destruct Hok as [H1 H2 H3 H5 H4].
  split; cbn [cr_rc cr_lock cr_calls put rc_db rc_open]; [done..| | |].
  - intros u Hu. destruct (decide (u = t)) as [->|Hne]; [by rewrite lookup_insert_eq|].
    rewrite lookup_insert_ne by done. rewrite Hc in Hu by done. by apply H3.
  - intros u Hu. destruct Hl as [->|(_ & E & Ht)]; [|congruence]. specialize (H5 u Hu).
    destruct (decide (u = t)) as [->|Hne]; [auto|by rewrite Hc].
  - intros u y [[<- <-]|[Hne Hy]]%lookup_insert_Some; [done|]. rewrite Hc by done.
    destruct Hl as [->|[E _]]; [by apply H4|]. eapply fine_lock; [|by apply H4]. by rewrite E.
Qed.

(** A call advances without writing. *)
Lemma cr_ok_call t x c pc lock' :
  rc_open (cr_rc σ) !! t = Some x → lock' = cr_lock σ ∨ cr_lock σ = None ∧ lock' = Some t →
  txn_fine K lock' t (Some (c, pc)) x (rc_db (cr_rc σ)) →
  cr_ok K (set_call t c pc (mkCR (cr_rc σ) lock' (cr_calls σ))).
Proof.
  intros Hx Hl Hf. unfold set_call. cbn [cr_rc cr_lock cr_calls].
  assert (put t x (cr_rc σ) = cr_rc σ) as Hp.
  { unfold put. rewrite insert_id by done. by destruct (cr_rc σ). }
  rewrite <-Hp at 1. apply cr_ok_update; rewrite ?lookup_insert_eq; [by rewrite Hp; apply Hok|..].
  - destruct Hl as [->|[E ->]]; [by left|by eauto].
  - by eexists.
  - intros u Hne. by rewrite lookup_insert_ne.
  - done.
Qed.

(** One transaction ends. *)
Lemma cr_ok_end t db' :
  rc_ok (mkRC db' (delete t (rc_open (cr_rc σ)))) →
  (∀ u, running_count u (simulations db') <= K) →
  (∀ u y, u ≠ t → rc_open (cr_rc σ) !! u = Some y →
     txn_fine K (cr_lock σ) u (cr_calls σ !! u) y db') →
  cr_ok K (release t (mkCR (mkRC db' (delete t (rc_open (cr_rc σ)))) (cr_lock σ) (cr_calls σ))).
Proof.
  intros Hrc Hc Hf. split; cbn [release cr_rc cr_lock cr_calls rc_db rc_open]; [done..| | |].
  - intros u [p [Hne Hp]%lookup_delete_Some]. rewrite lookup_delete_ne by done.
    apply (co_open _ _ Hok). by eexists.
  - intros u. case_decide as E; [done|]. intros Hu.
    rewrite lookup_delete_ne by congruence. by apply (co_held _ _ Hok).
  - intros u y [Hne Hy]%lookup_delete_Some. rewrite lookup_delete_ne by done.
    destruct (decide (cr_lock σ = Some t)) as [E|]; [|by apply Hf].
    eapply fine_lock; [|by apply Hf]. rewrite E. congruence.
Qed.

Lemma cr_ok_abort t : cr_ok K (release t
  (mkCR (mkRC (rc_db (cr_rc σ)) (delete t (rc_open (cr_rc σ)))) (cr_lock σ) (cr_calls σ))).
Proof.
  apply cr_ok_end; [apply rc_ok_abort|..]; try apply Hok. intros u y _. apply (co_txns _ _ Hok).
Qed.

Lemma cr_ok_commit t x :
  rc_open (cr_rc σ) !! t = Some x →
  match cr_calls σ !! t with Some (_, Returned) | None => true | _ => false end = true →
  cr_ok K (release t (mkCR (mkRC (commit x (rc_db (cr_rc σ))) (delete t (rc_open (cr_rc σ))))
                       (cr_lock σ) (cr_calls σ))).
Proof.
  intros Hx Hoc. pose proof (co_rc _ _ Hok) as Hrc. pose proof (ok_txns _ Hrc t x Hx) as Hxo.
  destruct (co_txns _ _ Hok t x Hx) as [Hnew Hfx].
  apply cr_ok_end; [by apply rc_ok_commit| |].
  - intros u. destruct (cr_calls σ !! t) as [[c []]|]; try done; [by apply Hfx|].
    etrans; [by apply eases_commit|by apply Hok].
  - intros u y Hne Hy. apply fine_commit; try done; [by apply (ok_txns _ Hrc u)| | |by apply Hok].
    + intros k. by apply (ok_apart _ Hrc t u).
    + destruct (cr_calls σ !! t) as [[c []]|]; try done; [right|by left].
      destruct Hfx as (_ & -> & _). congruence.
Qed.

(** *** The other transactions *)
Lemma insert_not_running id now clock p db r :
  admissible (EInsertSimulation id now clock p) = true →
  insert_values id now clock p db = Ok r → s_state r ≠ Running.
Proof.
  unfold insert_values, with_uuid_opt, with_uuid, check_insert. intros Ha E.
  assert (∃ st, sim_state_of (pState p) = Some st ∧ s_state r = st) as (st & Hst%sim_state_of_Some & ->).
  { destruct (uuid_in (pUserID p)); [|done]. destruct (pBatchID p) as [b|];
      [destruct (uuid_in b); [|done]|]; destruct (sim_state_of (pState p)) as [st|]; try done;
      repeat case_match; simplify_eq/=; eauto. }
  cbn [admissible] in Ha. rewrite Hst in Ha. by destruct st.
Qed.

Lemma calm_write x db k op s fired t :
  txn_ok x db → NoDup (map s_id (simulations db)) → calm_txn x db →
  List.find (λ s, String.eqb (s_id s) k) (overlay (x_upd x) (simulations db)) = Some s →
  op_guard k op s = true → is_claim (RWrite t k op) = false →
  calm_txn (mkTxn (<[k:=op_set op s]> (x_upd x)) (x_ins x) (x_bat x) fired (x_snap x)) db.
Proof.
  intros Hxo Hnd Hc Hf Hg Hcl s0 s' Hs0. cbn [x_upd].
  destruct (find_overlay _ _ _ _ Hxo Hnd Hf) as [_ Hov].
  intros [[E <-]|[_ H]]%lookup_insert_Some; [|by apply Hc].
  etrans; [|by eapply op_calm]. rewrite <-(Hov s0 Hs0), E by done.
  destruct (x_upd x !! s_id s0) eqn:Eu; [by apply Hc|done].
Qed.

(** Only triggers, rollups and commits of a returned call, and aborts. *)
Lemma may_step_idle e t : may_step e σ = true → event_txn e = Some t → e ≠ RAbort t →
  match cr_calls σ !! t with Some (_, Returned) | None => true | _ => false end = true.
Proof.
  unfold may_step. intros H E Hne. rewrite E in H. cbn [mbind option_bind] in H.
  destruct (cr_calls σ !! t) as [[c pc]|]; [|done].
  destruct e; cbn [event_txn] in E; try done; destruct pc; done || congruence.
Qed.

Lemma may_step_other e t : may_step e σ = true → event_txn e = Some t →
  after_call Returned e = false → cr_calls σ !! t = None ∧ is_claim e = false.
Proof.
  unfold may_step. intros H E Ha. rewrite E in H. cbn [mbind option_bind] in H.
  destruct (cr_calls σ !! t) as [[c pc]|]; [|split; [done|by apply negb_true_iff]].
  destruct e; try done; by destruct pc.
Qed.

(** A statement of a transaction that leaves its own rows alone. *)
Lemma cr_ok_quiet e t x x' : rc_open (cr_rc σ) !! t = Some x →
  rc_ok (put t x' (cr_rc σ)) → may_step e σ = true → event_txn e = Some t → e ≠ RAbort t →
  x_upd x' = x_upd x → x_ins x' = x_ins x →
  cr_ok K (mkCR (put t x' (cr_rc σ)) (cr_lock σ) (cr_calls σ)).
Proof.
  intros Hx Hrc Hm He Hne Eu Ei. apply cr_ok_update; [done|by left|done..|].
  eapply fine_same; [done|done|by eapply may_step_idle|by apply Hok].
Qed.

(** A statement of a transaction that is no call's. *)
Lemma cr_ok_own e t x' : rc_ok (put t x' (cr_rc σ)) → may_step e σ = true →
  event_txn e = Some t → after_call Returned e = false →
  (∀ s, s ∈ x_ins x' → s_state s ≠ Running) → calm_txn x' (rc_db (cr_rc σ)) →
  cr_ok K (mkCR (put t x' (cr_rc σ)) (cr_lock σ) (cr_calls σ)).
Proof.
  intros Hrc Hm He Ha Hn Hc. apply cr_ok_update; [done|by left|done..|].
  destruct (may_step_other e t) as [-> _]; try done.
Qed.

Lemma calm_own e t x : rc_open (cr_rc σ) !! t = Some x → may_step e σ = true →
  event_txn e = Some t → after_call Returned e = false →
  (∀ s, s ∈ x_ins x → s_state s ≠ Running) ∧ calm_txn x (rc_db (cr_rc σ)).
Proof.
  intros Hx Hm He Ha. pose proof (co_txns _ _ Hok t x Hx) as [Hn Hf].
  destruct (may_step_other e t) as [E _]; try done. by rewrite E in Hf.
Qed.

Lemma cr_ok_create id now user total key : let db := rc_db (cr_rc σ) in
  cr_ok K (mkCR (mkRC (pg_create_batch id now user total key db).1 (rc_open (cr_rc σ)))
             (cr_lock σ) (cr_calls σ)).
Proof.
  intros db. assert (E := simulations_create_batch id now user total key db).
  destruct Hok as [H1 H2 H3 H5 H4]. split; cbn [cr_rc cr_lock cr_calls rc_db rc_open].
  - by apply rc_ok_create_batch.
  - intros u. rewrite E. apply H2.
  - done.
  - done.
  - intros t x Hx. specialize (H4 t x Hx). revert H4.
    unfold txn_fine, calm_txn, call_ok, view. by rewrite E.
Qed.

Lemma cr_ok_step e σ' : cr_capped K (CStep e) → cr_step (CStep e) σ = Some σ' → cr_ok K σ'.
Proof.
  intros Hcap. pose proof (co_rc _ _ Hok) as Hrc. cbn [cr_step].
  destruct (may_step e σ) eqn:Hm; [|done]. intros (ρ & Hst & [= <-])%bind_Some.
  pose proof (rc_ok_step _ _ _ Hrc Hst) as Hrc'. revert Hst Hrc' Hm.
  destruct e as [t|t id now clock p|t k op|t|t bid|t|t|t|id now user total key];
    cbn [rc_step event_txn ends].
  - destruct (rc_open (cr_rc σ) !! t); [done|]. intros [= <-] Hrc' Hm.
    eapply cr_ok_own; [done..| |]; [by intros s ?%not_elem_of_nil|by intros s s' _ ?].
  - intros (x & Hx & Hst)%bind_Some Hrc' Hm. destruct (calm_own _ t x Hx Hm) as [Hn Hc]; [done..|].
    destruct (_ || _); [done|]. destruct (insert_values _ _ _ _ _) as [r|] eqn:Ei; [|done].
    injection Hst as <-. eapply cr_ok_own; [done..| |exact Hc].
    intros s [Hs| ->%list_elem_of_singleton]%elem_of_app; [by apply Hn|].
    by eapply insert_not_running.
  - intros (x & Hx & (s & Hs & Hst)%bind_Some)%bind_Some Hrc' Hm.
    destruct (calm_own _ t x Hx Hm) as [Hn Hc]; [done..|].
    destruct (may_step_other _ t Hm) as [_ Hcl]; [done..|].
    destruct (op_guard k op s && _) eqn:Eg; [|done]. injection Hst as <-.
    apply andb_true_iff in Eg as [Eg _]. eapply cr_ok_own; [done..|].
    eapply calm_write; try done; [by apply (ok_txns _ Hrc t)|apply Hrc].
  - intros (x & Hx & Hst)%bind_Some Hrc' Hm. destruct (x_fired x); [done|].
    destruct (x_snap x); [done|]. injection Hst as <-. by eapply cr_ok_quiet.
  - intros (x & Hx & Hst)%bind_Some Hrc' Hm.
    destruct (x_snap x); [done|]. injection Hst as <-. by eapply cr_ok_quiet.
  - intros (x & Hx & (sn & Hsn & Hst)%bind_Some)%bind_Some Hrc' Hm.
    destruct (no_other _ _ _); [|done]. injection Hst as <-. by eapply cr_ok_quiet.
  - intros (x & Hx & Hst)%bind_Some Hrc' Hm. destruct (x_fired x); [|done].
    destruct (x_snap x); [done|]. injection Hst as <-.
    apply cr_ok_commit; [done|]. by eapply may_step_idle.
  - intros (x & Hx & [= <-])%bind_Some _ _. apply cr_ok_abort.
  - intros [= <-] _ _. apply cr_ok_create.
Qed.

(** *** The calls *)
Lemma cr_ok_begin t c σ' : c_cap c <= K → cr_step (CBegin t c) σ = Some σ' → cr_ok K σ'.
Proof.
  intros Hcap. cbn [cr_step]. destruct (rc_open (cr_rc σ) !! t); [done|]. intros [= <-].
  unfold set_call. cbn [cr_rc cr_lock cr_calls].
  apply cr_ok_update; [apply rc_ok_begin, Hok|by left|rewrite lookup_insert_eq; by eexists|..].
  - intros u Hne. by rewrite lookup_insert_ne.
  - rewrite lookup_insert_eq. split; [by intros s ?%not_elem_of_nil|done].
Qed.

(** The write of a claim is the guarded write of [ReadCommitted]: the row is
    still queued. *)
Lemma claim_write_step t c s rest x :
  cr_calls σ !! t = Some (c, AtRow (s :: rest)) → rc_open (cr_rc σ) !! t = Some x →
  no_other t (cr_rc σ) (locks_sim (s_id s)) = true →
  let ss := simulations (rc_db (cr_rc σ)) in
  ∃ r ρ, r ∈ ss ∧ s_id r = s_id s ∧ s_state r = Queued ∧ running_count (s_user_id r) ss < c_cap c ∧
    claim_write t c (s_id s) x (cr_rc σ) = Some ρ ∧
    rc_step (RWrite t (s_id s) (OpClaim (c_runner c) (c_lease c) (c_now c))) (cr_rc σ) = Some ρ ∧
    ρ = put t (mkTxn (<[s_id s:=claim_row (c_runner c) (c_lease c) (c_now c) r]> ∅) []
                 (x_bat x) [s_batch_id r] None) (cr_rc σ).
Proof.
  intros Hc Hx Hno ss. pose proof (co_txns _ _ Hok t x Hx) as [_ Hf]. rewrite Hc in Hf.
  destruct Hf as (_ & -> & _ & Hr). destruct (Hr s) as (r & Hin & Hid & Hq & Hlt); [by left|].
  pose proof (ok_ids _ (co_rc _ _ Hok)) as Hnd.
  assert (Hfind : List.find (λ y, String.eqb (s_id y) (s_id s)) (overlay ∅ ss) = Some r).
  { rewrite overlay_empty, <-Hid. by apply find_row_at. }
  eexists r, _. split_and!; [done..| | |reflexivity].
  - unfold claim_write. cbn [x_upd empty_txn]. fold ss. by rewrite Hfind.
  - cbn [rc_step]. rewrite Hx. cbn [mbind option_bind x_upd empty_txn]. fold ss. rewrite Hfind.
    cbn [mbind option_bind op_guard]. rewrite Hq, Hno. done.
Qed.

Lemma scan_claimable c s :
  s ∈ claim_scan c empty_txn (rc_db (cr_rc σ)) →
  claimable (c_cap c) (s_id s) (simulations (rc_db (cr_rc σ))).
Proof.
  unfold claim_scan. rewrite view_empty. set (db := rc_db (cr_rc σ)).
  replace (with_simulations db (simulations db)) with db by by destruct db.
  unfold claim_candidates. rewrite elem_of_order_by, elem_of_joined by apply (co_rc _ _ Hok).
  intros [Hs He]%elem_of_eligible. apply eligible_true in He as (Hq & _ & Hlt).
  by exists s.
Qed.

Lemma claimed_count u cap runner lease now r ss :
  NoDup (map s_id ss) → r ∈ ss → running_count (s_user_id r) ss < cap → cap <= K →
  running_count u ss <= K →
  running_count u (update_where (row_at (s_id r)) (λ _, claim_row runner lease now r) ss) <= K.
Proof.
  intros Hnd Hr Hlt Hcap Hle.
  assert (Hrow : ∀ y, y ∈ ss → row_at (s_id r) y = true → y = r).
  { intros y Hy E%String.eqb_eq. by apply (NoDup_key_inj s_id ss). }
  unfold running_count in *. destruct (decide (s_user_id r = u)) as [<-|Hne].
  - pose proof (count_update_where_bound (row_at (s_id r)) (λ _, claim_row runner lease now r)
      (running_of (s_user_id r)) ss).
    assert (count (row_at (s_id r)) ss <= 1)%nat; [|lia].
    apply (count_key_NoDup s_id); [done|]. intros y z Hy Hz Ey Ez. by rewrite (Hrow y), (Hrow z).
  - rewrite count_update_where; [done|]. intros y Hy E. rewrite (Hrow y Hy E).
    unfold running_of. simpl. apply String.eqb_neq in Hne. by rewrite Hne.
Qed.

Lemma cr_ok_next t σ' : cr_step (CNext t) σ = Some σ' → cr_ok K σ'.
Proof.
  cbn [cr_step]. unfold claim_next. intros ([c pc] & Hc & (x & Hx & Hst)%bind_Some)%bind_Some.
  pose proof (co_txns _ _ Hok t x Hx) as [Hn Hf]. rewrite Hc in Hf. destruct Hf as [Hcap Hf].
  pose proof (cr_ok_call t x c) as Hcall. pose proof (co_count _ _ Hok) as Hcount.
  assert (Hσ : σ = mkCR (cr_rc σ) (cr_lock σ) (cr_calls σ)) by by destruct σ.
  destruct pc as [| |[|s rest]|]; simpl in Hf.
  - destruct (cr_lock σ) eqn:El; [done|]. injection Hst as <-.
    apply (Hcall _ _ Hx); [by right|]. by repeat split.
  - destruct Hf as [-> Hl]. injection Hst as <-. rewrite Hσ at 1. apply (Hcall _ _ Hx); [by left|].
    split_and!; [done..|]. split_and!; [done..|]. apply scan_claimable.
  - destruct Hf as (-> & Hl & _). injection Hst as <-. rewrite Hσ. apply (Hcall _ _ Hx); [by left|].
    split_and!; [done..|]. split; [done|]. intros u. by rewrite view_empty.
  - destruct (no_other _ _ _) eqn:Eno.
    + destruct (claim_write_step t c s rest x Hc Hx Eno) as (r & ρ & Hr & Hid & Hq & Hlt & Hw & Hs & Hρ).
      rewrite Hw in Hst. injection Hst as <-.
      assert (rc_ok ρ) as Hrc by (eapply rc_ok_step; [apply Hok|exact Hs]). subst ρ.
      unfold set_call. cbn [cr_rc cr_lock cr_calls]. apply cr_ok_update; [done|by left|rewrite lookup_insert_eq; by eexists|..].
      * intros u Hne. by rewrite lookup_insert_ne.
      * rewrite lookup_insert_eq. split; [by intros y ?%not_elem_of_nil|]. split; [done|].
        split; [apply Hf|]. intros u. unfold view. cbn [x_upd x_ins].
        rewrite overlay_singleton, app_nil_r, <-Hid.
        eapply claimed_count; try done; apply (co_rc _ _ Hok).
    + injection Hst as <-. rewrite Hσ. apply (Hcall _ _ Hx); [by left|].
      split_and!; [done..|]. split_and!; [apply Hf..|]. intros y Hy. apply Hf. by right.
  - done.
Qed.

(** Each step is one of [ReadCommitted]'s, or none. *)
Lemma cr_step_rc e σ' : cr_step e σ = Some σ' →
  cr_rc σ' = cr_rc σ ∨ ∃ e', rc_step e' (cr_rc σ) = Some (cr_rc σ').
Proof.
  destruct e as [t c|t|e]; cbn [cr_step].
  - destruct (rc_open (cr_rc σ) !! t) eqn:E; [done|]. intros [= <-]. right.
    exists (RBegin t). cbn [rc_step]. by rewrite E.
  - unfold claim_next. intros ([c pc] & Hc & (x & Hx & Hst)%bind_Some)%bind_Some.
    destruct pc as [| |[|s rest]|]; [destruct (cr_lock σ); [done|]|..|done];
      try (injection Hst as <-; by left).
    destruct (no_other _ _ _) eqn:Eno; [|injection Hst as <-; by left].
    destruct (claim_write_step t c s rest x Hc Hx Eno) as (r & ρ & _ & _ & _ & _ & Hw & Hs & _).
    rewrite Hw in Hst. injection Hst as <-. right. by eexists.
  - destruct (may_step e σ); [|done]. intros (ρ & Hst & [= <-])%bind_Some. right. exists e.
    rewrite Hst. f_equal. destruct (event_txn e); [|done]. by destruct (ends e).
Qed.
End invariant.

Lemma cr_ok_start {PU : PgUuid} K db : 0 <= K → initial db → cr_ok K (cr_start db).
Proof.
  intros HK Hi. split; cbn [cr_start cr_rc cr_calls rc_db rc_open].
  - by apply rc_ok_reachable, rc_init.
  - intros u. destruct Hi as [_ ->]. done.
  - by intros t [? ?%lookup_empty_Some].
  - done.
  - by intros t x ?%lookup_empty_Some.
Qed.

Lemma cr_ok_run {PU : PgUuid} K es : ∀ σ σ',
  cr_ok K σ → rc_reachable (cr_rc σ) → Forall (cr_capped K) es → cr_run es σ = Some σ' →
  cr_ok K σ' ∧ rc_reachable (cr_rc σ').
Proof.
  induction es as [|e es IH]; intros σ σ' Hok Hr Hes; [by intros [= <-]|].
  inversion_clear Hes as [|?? He Hes']. cbn [cr_run]. intros (σ1 & H1 & H2)%bind_Some.
  eapply IH; [| |done|done].
  - destruct e; [by eapply cr_ok_begin|by eapply cr_ok_next|by eapply cr_ok_step].
  - destruct (cr_step_rc K σ Hok e σ1 H1) as [->|[e' He']]; [done|]. by eapply rc_next.
Qed.

(** ** Property *)

(** C2: the per-user cap is a hard ceiling, also for claims that overlap (H-2).
    Take any interleaving, at READ COMMITTED, of claims with caps up to K and of
    every other transaction of the system.  In every state it can reach no user
    has more than K committed running simulations; a row a claim is about to
    write, however long ago it was found, is still queued, with its user still
    below the cap, so the write is the guarded claim of [ReadCommitted] and no
    simulation is claimed twice; and the advisory lock is only ever held by an
    open transaction, whose death frees it.  Every such state is reachable in
    [ReadCommitted], so what is proved of its states holds here too. *)
Theorem overlapping_claims_respect_the_cap {PU : PgUuid} K db es σ :
  initial db → 0 <= K → Forall (cr_capped K) es → cr_run es (cr_start db) = Some σ →
  let ss := simulations (rc_db (cr_rc σ)) in
  (∀ u, running_count u ss <= K) ∧
  (∀ t c s rest x, cr_calls σ !! t = Some (c, AtRow (s :: rest)) →
     rc_open (cr_rc σ) !! t = Some x → no_other t (cr_rc σ) (locks_sim (s_id s)) = true →
     ∃ r ρ, r ∈ ss ∧ s_id r = s_id s ∧ s_state r = Queued ∧
       running_count (s_user_id r) ss < c_cap c ∧ claim_write t c (s_id s) x (cr_rc σ) = Some ρ ∧
       rc_step (RWrite t (s_id s) (OpClaim (c_runner c) (c_lease c) (c_now c))) (cr_rc σ) = Some ρ) ∧
  (∀ t, cr_lock σ = Some t → ∃ σ', cr_step (CStep (RAbort t)) σ = Some σ' ∧ cr_lock σ' = None) ∧
  rc_reachable (cr_rc σ).
Proof.
  intros Hi HK Hes Hrun ss.
  destruct (cr_ok_run K es _ _ (cr_ok_start K db HK Hi) (rc_init db Hi) Hes Hrun) as [Hok Hr].
  split_and!; [apply Hok| | |done].
  - intros t c s rest x Hc Hx Hno.
    destruct (claim_write_step K σ Hok t c s rest x Hc Hx Hno) as (r & ρ & H1 & H2 & H3 & H4 & H5 & H6 & _).
    by exists r, ρ.
  - intros t Hl. destruct (co_held _ _ Hok t Hl) as [[c pc] Hc].
    destruct (co_open _ _ Hok t) as [x Hx]; [by eexists|].
    cbn [cr_step]. unfold may_step. cbn [event_txn mbind option_bind]. rewrite Hc.
    cbn [after_call rc_step]. rewrite Hx. eexists. split; [reflexivity|].
    cbn [event_txn ends release cr_lock]. by rewrite decide_True.
Qed.

(** Two queued simulations of a user with cap 1 and two Runners: the second waits
    for the lock, and then finds nothing. *)
Definition demo_call (runner : string) : Call := mkCall runner "24.1.0" 1 90 10.

Definition demo_claims : list cr_event :=
  map CStep [RBegin 0; RInsert 0 "s1" 2 2 (demo_params None "queued"); RTrigger 0; RCommit 0;
             RBegin 0; RInsert 0 "s2" 3 3 (demo_params None "queued"); RTrigger 0; RCommit 0]
  ++ [CBegin 1 (demo_call "r1"); CBegin 2 (demo_call "r2"); CNext 1; CNext 1; CNext 1;
      CStep (RTrigger 1); CStep (RCommit 1); CNext 2; CNext 2; CNext 2; CStep (RCommit 2)].

Lemma second_claim_waits : ∃ σ,
  cr_run (PU := demo_uuid) (take 11 demo_claims) (cr_start demo_start) = Some σ ∧
  cr_step (PU := demo_uuid) (CNext 2) σ = None.
Proof.
  destruct (cr_run (PU := demo_uuid) (take 11 demo_claims) (cr_start demo_start)) as [σ|] eqn:E;
    [|by vm_compute in E].
  exists σ. split; [done|]. vm_compute in E. injection E as <-. reflexivity.
Qed.

Lemma overlapping_claims_respect_the_cap_witness :
  ∃ σ, cr_run (PU := demo_uuid) demo_claims (cr_start demo_start) = Some σ ∧
    map s_state (simulations (rc_db (cr_rc σ))) = [Running; Queued] ∧
    running_count "alice" (simulations (rc_db (cr_rc σ))) <= 1.
Proof.
  destruct (cr_run (PU := demo_uuid) demo_claims (cr_start demo_start)) as [σ|] eqn:E;
    [|by vm_compute in E].
  exists σ. split; [done|]. split.
  - vm_compute in E. by injection E as <-.
  - apply (overlapping_claims_respect_the_cap (PU := demo_uuid) 1 demo_start demo_claims);
      [by split|lia| |done].
    by repeat constructor.
Defined.
