(* ===== verification/Session.v ===== *)
(** * Go code against the database

    What the components written in Go may assume of, and promise to, the
    database they share.  [keeps I m]: the computation [m] leaves every
    database property [I] that the apiserver's own events preserve intact,
    whatever the other processes do between its statements (as long as they
    preserve it too) and wherever a statement fails.  The lemmas close [keeps]
    under sequencing and the store's calls, so a component is checked call by
    call; its theorems then hold for every interleaving.  [quiet] worlds are the
    opposite end: no interference and no failure, for functional statements. *)
From S2P Require Import Prelude Sql Schema Rollup Lifecycle Store Fleet.

(** The events of the apiserver. *)
Definition apiserver_event (e : event) : bool :=
  match e with
  | EInsertSimulation _ _ _ _ | ECreateBatch _ _ _ _ _ => admissible e
  | EReap _ | EResync => true
  | _ => false
  end.

(** The caller of InsertSimulation passes one of the two states its comment
    names. *)
Definition good_params (p : InsertSimulationParams) : bool :=
  String.eqb (pState p) "queued" || String.eqb (pState p) "succeeded".

(** ** Worlds without interference or failure *)
Definition quiet_tick (now clock : Z) (uuid : string) : tick :=
  mkTick id None now clock uuid.

Definition quiet (ticks : nat → tick) : Prop :=
  ∀ n, t_env (ticks n) = id ∧ t_fault (ticks n) = None.

Definition faultless (ticks : nat → tick) : Prop := ∀ n, t_fault (ticks n) = None.

(** The ids Postgres generates are in the form it prints. *)
Definition canonical {PU : PgUuid} (x : string) : Prop := uuid_in x = Some x.
Definition ids_generated {PU : PgUuid} (ticks : nat → tick) : Prop :=
  ∀ n, canonical (t_uuid (ticks n)).

(** The uuids u0, u1, .. at the times 1, 2, .. *)
Definition demo_ticks (n : nat) : tick :=
  quiet_tick (Z.of_nat n + 1) (Z.of_nat n + 1) ("u" +:+ pretty n).

Section keeps.
Context {PU : PgUuid} (ticks : nat → tick) (I : DB → Prop).

Definition keeps {A} (m : state_t World A) : Prop :=
  ∀ w, I (w_db w) → I (w_db (m w).1).

(** [I] survives the apiserver's events and the other processes. *)
Record invariant : Prop := {
  inv_event : ∀ e db, apiserver_event e = true → I db → I (apply e db);
  inv_env : ∀ n db, I db → I (t_env (ticks n) db);
}.

Context (HI : invariant).

Lemma keeps_ret {A} (a : A) : keeps (mret a).
Proof. by intros w. Qed.

Lemma keeps_bind {A B} (m : state_t World A) (k : A → state_t World B) :
  keeps m → (∀ a, keeps (k a)) → keeps (x ← m; k x).
Proof. intros Hm Hk w Hw. rewrite state_bind_run. apply Hk, Hm, Hw. Qed.

(** The continuation only has to keep [I] for the answers [m] gives. *)
Lemma keeps_bind_val {A B} (m : state_t World A) (k : A → state_t World B) :
  keeps m → (∀ w w' a, m w = (w', a) → keeps (k a)) → keeps (x ← m; k x).
Proof.
  intros Hm Hk w Hw. rewrite state_bind_run.
  apply (Hk w (m w).1); [by destruct (m w)|]. apply Hm, Hw.
Qed.

Lemma keeps_exec {A} (q : tick → DB → DB * result error A) :
  (∀ t db, I db → I (q t db).1) → keeps (exec ticks q).
Proof.
  intros Hq w Hw. unfold exec. destruct (q _ _) as [d' r] eqn:E.
  pose proof (inv_env HI (w_time w) _ Hw) as Henv.
  pose proof (Hq (ticks (w_time w)) _ Henv) as Hd. rewrite E in Hd. simpl in Hd.
  destruct (t_fault _) as [f|]; [|done]. by destruct (applied f).
Qed.

Lemma keeps_query {A} (q : DB → result error A) : keeps (query ticks q).
Proof. by apply keeps_exec. Qed.

Lemma keeps_insert p : good_params p = true → keeps (st_insert_simulation ticks p).
Proof.
  intros Hp. apply keeps_exec. intros t db Hdb.
  by apply (inv_event HI (EInsertSimulation (t_uuid t) (t_now t) (t_clock t) p)).
Qed.

Lemma keeps_create_batch user total key :
  (0 < total)%Z → keeps (st_create_batch ticks user total key).
Proof.
  intros Ht. apply keeps_exec. intros t db Hdb.
  apply (inv_event HI (ECreateBatch (t_uuid t) (t_now t) user total key)); [|done].
  by apply Z.ltb_lt.
Qed.

Lemma keeps_list batch limit offset :
  keeps (st_list_batch_simulations ticks batch limit offset).
Proof.
  apply keeps_bind; [apply keeps_query|]. intros [n|e]; [|apply keeps_ret].
  apply keeps_bind; [apply keeps_query|]. intros [l|e]; apply keeps_ret.
Qed.

Lemma keeps_resync : keeps (st_resync_stuck_batches ticks).
Proof.
  apply keeps_exec. intros t db Hdb.
  pose proof (inv_event HI EResync db eq_refl Hdb) as H. cbn [apply] in H.
  by destruct (ResyncStuckBatches db).
Qed.
End keeps.

#[export] Hint Resolve keeps_ret keeps_query keeps_insert keeps_create_batch
  keeps_list keeps_resync : keeps.

(** ** Quiet worlds *)
Section quiet.
Context {PU : PgUuid} (ticks : nat → tick).

Lemma exec_quiet {A} (q : tick → DB → DB * result error A) db n :
  quiet ticks →
  exec ticks q (mkWorld db n) = (mkWorld (q (ticks n) db).1 (S n), (q (ticks n) db).2).
Proof.
  intros Hq. unfold exec. simpl. destruct (Hq n) as [-> ->]. simpl.
  by destruct (q (ticks n) db).
Qed.

Lemma query_quiet {A} (q : DB → result error A) db n :
  quiet ticks → query ticks q (mkWorld db n) = (mkWorld db (S n), q db).
Proof. intros Hq. unfold query. by rewrite exec_quiet. Qed.

Lemma query_faultless {A} (q : DB → result error A) db n :
  faultless ticks →
  query ticks q (mkWorld db n) = (mkWorld (t_env (ticks n) db) (S n), q (t_env (ticks n) db)).
Proof. intros Hf. unfold query, exec. cbn [w_db w_time]. by rewrite Hf. Qed.

(** A statement that answered took effect. *)
Lemma exec_Ok {A} (q : tick → DB → DB * result error A) w w' a :
  exec ticks q w = (w', Ok a) →
  q (ticks (w_time w)) (t_env (ticks (w_time w)) (w_db w)) = (w_db w', Ok a).
Proof.
  unfold exec. destruct (q _ _) as [d r]. destruct (t_fault _) as [f|]; [done|].
  by intros [= <- ->].
Qed.

(** The invariant every run of the fleet has, as an instance. *)
Lemma invariant_reachable :
  (∀ n db, reachable db → reachable (t_env (ticks n) db)) →
  invariant ticks reachable.
Proof.
  intros Henv. split; [|done]. intros e db He Hdb. apply reach_step; [done|].
  by destruct e.
Qed.

Lemma invariant_quiet (I : DB → Prop) :
  quiet ticks → (∀ e db, apiserver_event e = true → I db → I (apply e db)) →
  invariant ticks I.
Proof. intros Hq HI. split; [done|]. intros n db. by destruct (Hq n) as [-> _]. Qed.
End quiet.

Lemma demo_ticks_quiet : quiet demo_ticks.
Proof. done. Qed.
