(* ===== verification/Queue.v ===== *)
(** * internal/queue: the content hash, the Batch Expander, the Reaper

    [ContentHash], [Expand] and [ExpandAsync] are queue.go, [sweep] and
    [reaper_pass] reaper.go.  [Expand] is written against the [DataStore]
    interface (HasResult and InsertSimulation are the only calls it makes), the
    Reaper against the database itself.  A goroutine is a computation of its
    own: its statements are separated by whatever [t_env] does. *)
From S2P Require Import Prelude GoLib Sha256 Sql Schema Rollup Lifecycle Store Fleet Session.
Local Open Scope string_scope.

(** ** queue.go *)
Definition ContentHash (modelSHA256 weatherSHA256 engineVersion : string) : string :=
  sha256_hex (modelSHA256 +:+ ":" +:+ weatherSHA256 +:+ ":" +:+ engineVersion).

Definition SyncExpandThreshold : Z := 100.

Record Variant := mkVariant {
  vModelRef : string;
  vModelSHA256 : string;
  vName : string;
}.

Record ExpandSpec := mkSpec {
  eBatchID : string;
  eUserID : string;
  eEngineVersion : string;
  eWeatherRef : string;
  eWeatherSHA256 : string;
  ePriority : Z;
  eExtractionSpec : string;
  eVariants : list Variant;
}.

Definition strPtr (s : string) : option string :=
  if decide (s = "") then None else Some s.

(** Both input digests were supplied. *)
Definition has_digests (model weather : string) : bool :=
  negb (String.eqb model "") && negb (String.eqb weather "").

Definition variant_hash (spec : ExpandSpec) (v : Variant) : string :=
  ContentHash (vModelSHA256 v) (eWeatherSHA256 spec) (eEngineVersion spec).

Definition variant_params (spec : ExpandSpec) (v : Variant) (state : string) :
    InsertSimulationParams :=
  mkParams (Some (eBatchID spec)) (eUserID spec) (eEngineVersion spec)
    (ePriority spec) (vModelRef v) (eWeatherRef spec) (strPtr (vModelSHA256 v))
    (strPtr (eWeatherSHA256 spec)) (eExtractionSpec spec) (variant_hash spec v) state.

(** The log records of the two goroutines. *)
Inductive log_record :=
  | ExpansionFailed (batch : string) (e : error)
  | Expanded (batch : string) (variants : Z)
  | SweepFailed (e : error)
  | Swept (rows : Z)
  | ResyncFailed (e : error)
  | Resynced (batches : Z).

Section expander.
Context {W : Type} `{DataStore W}.

(** The cache part of the loop body: the state the row is born in. *)
Definition resolve_cache (model weather hash : string) : state_t W (result error string) :=
  if has_digests model weather then
    hit ← HasResult hash;
    match hit with
    | Err e => mret (Err e)
    | Ok true => mret (Ok "succeeded")
    | Ok false => mret (Ok "queued")
    end
  else mret (Ok "queued").

Fixpoint expand_variants (spec : ExpandSpec) (vs : list Variant) :
    state_t W (result error unit) :=
  match vs with
  | [] => mret (Ok tt)
  | v :: rest =>
      state ← resolve_cache (vModelSHA256 v) (eWeatherSHA256 spec) (variant_hash spec v);
      match state with
      | Err e => mret (Err e)
      | Ok st =>
          inserted ← InsertSimulation (variant_params spec v st);
          match inserted with
          | Err e => mret (Err e)
          | Ok _ => expand_variants spec rest
          end
      end
  end.

Definition Expand (spec : ExpandSpec) : state_t W (result error unit) :=
  expand_variants spec (eVariants spec).

Definition ExpandAsync (spec : ExpandSpec) : state_t W (list log_record) :=
  r ← Expand spec;
  match r with
  | Err e => mret [ExpansionFailed (eBatchID spec) e]
  | Ok _ => mret [Expanded (eBatchID spec) (Z.of_nat (length (eVariants spec)))]
  end.
End expander.

(** ** reaper.go *)

(** In nanoseconds, as a time.Duration. *)
Definition ReaperInterval : Z := 15 * 10 ^ 9.

Section reaper.
Context (ticks : nat → tick).

Definition sweep : state_t World (result error Z) :=
  exec ticks (λ t db,
    let '((requeued, failed), db') := reap_expired_leases (t_now t) db in
    (db', Ok (wrap64 (requeued + failed)))).

(** The body of Run's loop when the ticker fires. *)
Definition reaper_pass : state_t World (list log_record) :=
  n ← sweep;
  m ← st_resync_stuck_batches ticks;
  mret (match n with
        | Err e => [SweepFailed e]
        | Ok n => if (0 <? n)%Z then [Swept n] else []
        end ++
        match m with
        | Err e => [ResyncFailed e]
        | Ok m => if (0 <? m)%Z then [Resynced m] else []
        end)%list.

(** Run, for a context cancelled after [fires] ticks of the ticker. *)
Fixpoint Run (fires : nat) : state_t World (list log_record) :=
  match fires with
  | O => mret []
  | S n =>
      logs ← reaper_pass;
      rest ← Run n;
      mret (logs ++ rest)%list
  end.
End reaper.

(** ** Facts: the interleaved world *)
Section safety.
Context {PU : PgUuid} (ticks : nat → tick) (I : DB → Prop) (HI : invariant ticks I).

Lemma keeps_sweep : keeps I (sweep ticks).
Proof.
  apply (keeps_exec ticks I HI). intros t db Hdb.
  pose proof (inv_event _ _ HI (EReap (t_now t)) db eq_refl Hdb) as H. cbn [apply] in H.
  by destruct (reap_expired_leases (t_now t) db) as [[r f] db'].
Qed.

Lemma resolve_cache_state model weather hash w w' st :
  resolve_cache (W := World) (H := PgStore ticks) model weather hash w = (w', Ok st) →
  st = "queued" ∨ st = "succeeded".
Proof.
  unfold resolve_cache. destruct (has_digests model weather); [|intros [= <- <-]; auto].
  rewrite state_bind_run. destruct (_.2) as [[]|e]; intros [= <- <-]; auto.
Qed.

Lemma keeps_resolve_cache model weather hash :
  keeps I (resolve_cache (W := World) (H := PgStore ticks) model weather hash).
Proof.
  unfold resolve_cache. destruct (has_digests model weather); [|apply keeps_ret].
  apply keeps_bind; [by apply keeps_query|]. intros [[]|e]; apply keeps_ret.
Qed.

Lemma keeps_expand_variants spec vs :
  keeps I (expand_variants (W := World) (H := PgStore ticks) spec vs).
Proof.
  induction vs as [|v vs IH]; cbn [expand_variants]; [apply keeps_ret|].
  apply keeps_bind_val; [apply keeps_resolve_cache|].
  intros w w' [st|e] E; [|apply keeps_ret]. apply resolve_cache_state in E.
  apply keeps_bind; [|by intros [id|e]; [apply IH|apply keeps_ret]].
  apply (keeps_insert ticks I HI). unfold good_params. simpl. by destruct E as [-> | ->].
Qed.
End safety.

#[export] Hint Resolve keeps_sweep keeps_resolve_cache keeps_expand_variants : keeps.

(** ** Facts: the quiet world *)

(** The state a variant is born in, given the results there are. *)
Definition born (db : DB) (model weather hash : string) : SimState :=
  if has_digests model weather && pg_has_result hash db then Succeeded else Queued.

(** [r] is the row of variant [v], born in the state the cache of [db] says. *)
Definition row_of (spec : ExpandSpec) (batch user : string) (db : DB) (v : Variant)
    (r : SimRow) : Prop :=
  let st := born db (vModelSHA256 v) (eWeatherSHA256 spec) (variant_hash spec v) in
  ∃ t, r = insert_row (t_uuid t) (t_now t) (t_clock t) (Some batch) user st
             (variant_params spec v (sim_state_text st)).

(** gen_random_uuid() draws no uuid twice, nor one that a row has. *)
Definition fresh_uuids (ticks : nat → tick) (n : nat) (db : DB) : Prop :=
  (∀ i j, t_uuid (ticks i) = t_uuid (ticks j) → i = j) ∧
  (∀ i s, n <= i → s ∈ simulations db → s_id s ≠ t_uuid (ticks i)).

(** A spec whose batch and user exist and whose priority is an int4. *)
Record expandable {PU : PgUuid} (spec : ExpandSpec) (batch user : string) (db : DB) : Prop := {
  ex_batch : uuid_in (eBatchID spec) = Some batch;
  ex_user : uuid_in (eUserID spec) = Some user;
  ex_batch_row : batch ∈ map b_id (batches db);
  ex_user_row : user ∈ user_ids db;
  ex_priority : int4 (ePriority spec) = true;
}.

Section quiet_expander.
Context {PU : PgUuid} (ticks : nat → tick) (Hq : quiet ticks).

Lemma check_insert_accepts id user batch p db st :
  insertable id user batch p db st → int4 (pPriority p) = true →
  check_insert id user batch p db = Ok st.
Proof.
  intros [Hf Hu Hb Hs] Hp. unfold check_insert.
  rewrite Hs, sim_state_of_text, Hp. simpl.
  rewrite (proj2 (existsb_key_false s_id _ _)) by done.
  rewrite (proj2 (existsb_eqb_elem _ _) Hu). simpl.
  destruct batch as [b|]; [|done].
  destruct (Hb b eq_refl) as (br & Hbr & <-).
  rewrite (proj2 (existsb_elem _ _)); [done|]. exists br. by rewrite String.eqb_refl.
Qed.

Lemma resolve_cache_quiet model weather hash db n :
  ∃ n', n <= n' ∧
  resolve_cache (W := World) (H := PgStore ticks) model weather hash (mkWorld db n) =
    (mkWorld db n', Ok (sim_state_text (born db model weather hash))).
Proof.
  unfold resolve_cache, born. destruct (has_digests model weather); simpl.
  - exists (S n). split; [lia|]. rewrite state_bind_run. cbn [HasResult PgStore].
    rewrite query_quiet by done. simpl. by destruct (pg_has_result hash db).
  - by exists n.
Qed.

Lemma map_b_id_insert rows db :
  map b_id (batches (insert_simulations rows db)) = map b_id (batches db).
Proof. unfold insert_simulations. etrans; [apply map_b_id, batch_keys_fire|done]. Qed.

Lemma expand_variants_quiet spec batch user vs : ∀ db n,
  expandable spec batch user db → fresh_uuids ticks n db →
  ∃ rows db' n', n <= n' ∧
    expand_variants (W := World) (H := PgStore ticks) spec vs (mkWorld db n) =
      (mkWorld db' n', Ok tt) ∧
    simulations db' = (simulations db ++ rows)%list ∧
    Forall2 (row_of spec batch user db) vs rows ∧
    results db' = results db ∧
    map batch_key (batches db') = map batch_key (batches db).
Proof.
  induction vs as [|v vs IH]; intros db n Hex Hfr; cbn [expand_variants].
  { exists [], db, n. rewrite app_nil_r. by split_and!. }
  destruct (resolve_cache_quiet (vModelSHA256 v) (eWeatherSHA256 spec) (variant_hash spec v) db n)
    as (n1 & Hn1 & E1).
  set (st := born db (vModelSHA256 v) (eWeatherSHA256 spec) (variant_hash spec v)) in *.
  set (p := variant_params spec v (sim_state_text st)).
  set (t := ticks n1). set (row := insert_row (t_uuid t) (t_now t) (t_clock t) (Some batch) user st p).
  set (db1 := insert_simulations [row] db).
  destruct Hfr as [Hinj Hfr], Hex as [Eb Eu Hb Hu Hp].
  assert (Hins : pg_insert_simulation (t_uuid t) (t_now t) (t_clock t) p db = (db1, Ok (t_uuid t))).
  { unfold pg_insert_simulation, insert_values, with_uuid. cbn [pUserID pBatchID p variant_params].
    rewrite Eu. unfold with_uuid_opt, with_uuid. rewrite Eb.
    rewrite (check_insert_accepts _ _ _ _ _ st); [done| |done].
    split; [|done| |done].
    - intros s Hs. apply (Hfr n1); [lia|done].
    - intros b [= <-]. apply elem_of_map_2 in Hb as (br & Hbr & <-). by exists br. }
  destruct (IH db1 (S n1)) as (rows & db' & n' & Hn' & E & Es & Hrows & Er & Ek).
  { split; [done|done|by unfold db1; rewrite map_b_id_insert| |done].
    unfold db1, insert_simulations. unfold user_ids. by rewrite users_fire. }
  { split; [done|]. intros i s Hi. unfold db1, insert_simulations.
    rewrite simulations_fire. cbn [simulations with_simulations].
    rewrite elem_of_app, list_elem_of_singleton. intros [Hs| ->].
    - apply Hfr; [lia|done].
    - cbn [s_id row insert_row]. unfold t. intros Ei%Hinj. lia. }
  exists (row :: rows), db', n'. split_and!; [lia|..].
  - rewrite state_bind_run, E1. cbn [fst snd]. rewrite state_bind_run.
    cbn [InsertSimulation PgStore]. unfold st_insert_simulation.
    rewrite exec_quiet by done. fold t p. rewrite Hins. done.
  - rewrite Es. unfold db1, insert_simulations. rewrite simulations_fire.
    cbn [simulations with_simulations]. by rewrite <-app_assoc.
  - constructor.
    + exists t. done.
    + eapply Forall2_impl; [exact Hrows|]. intros v' r. unfold row_of, born, pg_has_result, db1.
      unfold insert_simulations. by rewrite results_fire.
  - rewrite Er. unfold db1, insert_simulations. by rewrite results_fire.
  - rewrite Ek. unfold db1, insert_simulations. etrans; [apply batch_keys_fire|done].
Qed.
End quiet_expander.

Lemma demo_fresh db n : simulations db = [] → fresh_uuids demo_ticks n db.
Proof.
  intros E. split; [|intros i s _; rewrite E; by intros ?%not_elem_of_nil].
  intros i j H%string_app_inj. by apply (inj pretty) in H.
Qed.
