(* ===== verification/QueueSpec.v ===== *)
(** * What internal/queue guarantees

    The content hash identifies its inputs, the Expander creates exactly the
    rows of a batch in the state the cache says, and no failure of one sweep
    stops the Reaper. *)
From S2P Require Import Prelude GoLib Sha256 Sql Schema Rollup Lifecycle Store Fleet Session Queue.
Local Open Scope string_scope.

(** The string ContentHash hashes. *)
Definition hash_input (m w v : string) : string := m +:+ ":" +:+ w +:+ ":" +:+ v.

(** A batch of three whose second variant has a cached result. *)
Definition demo_spec : ExpandSpec :=
  mkSpec "b1" "alice" "24.1.0" "s3://weather/w.epw" "ww" 1 ""
    [mkVariant "s3://models/1.idf" "" "v1"; mkVariant "s3://models/2.idf" "m2" "v2";
     mkVariant "s3://models/3.idf" "m3" "v3"].

Definition demo_cached : DB :=
  with_results (with_batches demo_start
    [mkBatch "b1" "alice" Expanding 3 0 0 None 1])
    [mkResult (ContentHash "m2" "ww" "24.1.0") "clean" "{}" None None 1].

(** What one statement leaves behind, failed or not. *)
Definition effect (t : tick) (f : DB → DB) (db : DB) : DB :=
  match t_fault t with
  | Some flt => if applied flt then f (t_env t db) else t_env t db
  | None => f (t_env t db)
  end.

Definition sweep_log (t : tick) (db : DB) : list log_record :=
  match t_fault t with
  | Some flt => [SweepFailed (PgErr (Unavailable (fault_msg flt)))]
  | None =>
      let n := wrap64 (Z.of_nat (count (expired (t_now t)) (simulations (t_env t db)))) in
      if (0 <? n)%Z then [Swept n] else []
  end.

Definition resync_log (t : tick) (db : DB) : list log_record :=
  match t_fault t with
  | Some flt => [ResyncFailed (PgErr (Unavailable (fault_msg flt)))]
  | None =>
      let n := (ResyncStuckBatches (t_env t db)).1 in
      if (0 <? n)%Z then [Resynced n] else []
  end.

(** ** The content hash *)
Lemma Cut_colon a b : lacks ":" a = true → Cut (a +:+ ":" +:+ b) ":" = (a, b, true).
Proof. intros H. str_norm. by apply Cut_lacks. Qed.

Lemma hash_input_inj m w v m' w' v' :
  lacks ":" m = true → lacks ":" w = true → lacks ":" m' = true → lacks ":" w' = true →
  hash_input m w v = hash_input m' w' v' → m = m' ∧ w = w' ∧ v = v'.
Proof.
  intros Hm Hw Hm' Hw' E. unfold hash_input in E.
  apply (f_equal (λ s, Cut s ":")) in E. rewrite !Cut_colon in E by done.
  injection E as -> E. apply (f_equal (λ s, Cut s ":")) in E.
  rewrite !Cut_colon in E by done. by injection E as -> ->.
Qed.

(** The vectors of testdata/content_hash_vectors.json, which the Go and the
    Python suites both check. *)
Example content_hash_vectors :
  map (λ '(m, w, v), ContentHash m w v)
    [("", "", "22.2.0");
     ("", "fc77ffa46517e1e2a33c04ffef70b627e8d6910b3ddd5eb960c8aa652e698151", "22.2.0");
     ("97034fe148a68e09e1c8fed7f69db6d24e49c7a0c545616c65fe179ad005f01d", "", "22.2.0");
     ("", "", "");
     ("model-abc", "weather-xyz", "9.6.0");
     ("aaaaaaaaaaaaaaaaaaaaaaaaaaaaaaaaaaaaaaaaaaaaaaaaaaaaaaaaaaaaaaaa",
      "bbbbbbbbbbbbbbbbbbbbbbbbbbbbbbbbbbbbbbbbbbbbbbbbbbbbbbbbbbbbbbbb", "23.1.0");
     ("97034fe148a68e09e1c8fed7f69db6d24e49c7a0c545616c65fe179ad005f01d",
      "fc77ffa46517e1e2a33c04ffef70b627e8d6910b3ddd5eb960c8aa652e698151", "24.1.0")]
  = ["54edf32e449b85358adfb1fa4cadfd06b92aefa0f0dce31981d376bc314b807c";
     "cf806c45d5672a1b513ef5cce901bb04cc46044c4b3558bedad4c71e907aa302";
     "a10018a218373a65f4b4a7108ee2f56179b9a2de037a11421f3261c7085ab304";
     "71546855d6279ef70d20909b292c42c2dcb02cd06bde01485da52d13e304ebf4";
     "d09824d7ce3447385d8af38bdb8573eda8f3a8f6db97c7681cee8cd56e6963d2";
     "d7160e6897f6527de3c125d233f8659a1e9c6b95f9389485e6203fd932eba90f";
     "c779d642e5dd6a7fd9c495b0c7cf797365214288f9b63bd8027f55c0f1566923"].
Proof. vm_compute. reflexivity. Qed.

(** The content hash identifies its inputs (CONTRACT 2.1).  It is always 64
    lower-case hex digits, and whenever no digest contains a colon, two equal
    hashes come from the same model digest, weather digest and engine version,
    unless they exhibit two different byte strings with the same SHA-256. *)
Theorem content_hash_identifies_inputs m w v m' w' v' :
  String.length (ContentHash m w v) = 64 ∧
  string_forallb is_hex (ContentHash m w v) = true ∧
  (lacks ":" m && lacks ":" w && lacks ":" m' && lacks ":" w' = true →
   ContentHash m w v = ContentHash m' w' v' →
   (m = m' ∧ w = w' ∧ v = v') ∨
   (hash_input m w v ≠ hash_input m' w' v' ∧
    Sum256 (bytes_of (hash_input m w v)) = Sum256 (bytes_of (hash_input m' w' v')))).
Proof.
  destruct (sha256_hex_shape (hash_input m w v)) as [H1 H2].
  split_and!; [done..|]. rewrite !andb_true_iff. intros [[[Hm Hw] Hm'] Hw'] E.
  apply sha256_hex_inj in E. fold (hash_input m w v) (hash_input m' w' v') in E.
  destruct (decide (hash_input m w v = hash_input m' w' v')) as [Ei|Hne]; [left|by right].
  by apply hash_input_inj.
Qed.

(** ** The Expander *)
Lemma children_of_rows spec batch user db vs rows :
  Forall2 (row_of spec batch user db) vs rows →
  List.filter (is_child batch) rows = rows.
Proof.
  induction 1 as [|v r vs rows (t & ->) _ IH]; [done|].
  cbn [List.filter]. unfold is_child at 1. cbn [s_batch_id insert_row sql_eq].
  by rewrite String.eqb_refl, IH.
Qed.

Lemma states_of_rows spec batch user db vs rows (P : SimState → bool) :
  Forall2 (row_of spec batch user db) vs rows →
  count (λ s, P (s_state s)) rows =
  count (λ v, P (born db (vModelSHA256 v) (eWeatherSHA256 spec) (variant_hash spec v))) vs.
Proof.
  induction 1 as [|v r vs rows (t & ->) _ IH]; [done|]. by rewrite !count_cons, IH.
Qed.

Definition hits_of (spec : ExpandSpec) (db : DB) : nat :=
  count (λ v, is_state (born db (vModelSHA256 v) (eWeatherSHA256 spec) (variant_hash spec v))
                Succeeded) (eVariants spec).

(** A fresh batch's rows are hits, which are terminal, and queued rows. *)
Lemma sub_of_rows spec batch user db rows :
  Forall2 (row_of spec batch user db) (eVariants spec) rows →
  sub_of batch rows =
  mkSub (Z.of_nat (length (eVariants spec))) (Z.of_nat (hits_of spec db)) 0
    (Z.of_nat (hits_of spec db)) 0.
Proof.
  intros Hrows. unfold sub_of. rewrite (children_of_rows _ _ _ _ _ _ Hrows).
  rewrite <-(Forall2_length _ _ _ Hrows).
  rewrite (states_of_rows _ _ _ _ _ _ (λ st, is_state st Succeeded) Hrows).
  rewrite (states_of_rows _ _ _ _ _ _ (λ st, is_state st Failed) Hrows).
  rewrite (states_of_rows _ _ _ _ _ _ terminal Hrows).
  rewrite (states_of_rows _ _ _ _ _ _ (λ st, is_state st Running) Hrows).
  assert (Hno : ∀ st, st ≠ Succeeded → st ≠ Queued → count (λ v, is_state (born db (vModelSHA256 v)
    (eWeatherSHA256 spec) (variant_hash spec v)) st) (eVariants spec) = 0).
  { intros st H1 H2. unfold count. rewrite filter_none; [done|].
    intros v _. unfold born. apply not_true_iff_false. rewrite is_state_true.
    intros E. case_match; congruence. }
  rewrite (Hno Failed), (Hno Running) by done. unfold hits_of. do 2 f_equal. apply count_ext_in.
  intros v _. unfold born. by case_match.
Qed.

(** C14: expansion creates exactly the batch's rows (ADR-0007).  On a store that
    answers, for a batch and a user that exist, Expand succeeds and appends one
    row per variant, in the order submitted, each with the content hash of its
    inputs, each born succeeded if both digests were given and a result with
    that hash exists, and queued otherwise; no other row and no result changes.
    If the batch had no rows and its total is the number of variants, then it
    has left expanding: it is done if every variant was a cache hit and queued
    otherwise, and its succeeded column counts the hits. *)
Theorem expand_inserts_every_variant {PU : PgUuid} ticks spec batch user db n :
  quiet ticks → fresh_uuids ticks n db → expandable spec batch user db →
  ∃ rows db' n',
    Expand (W := World) (H := PgStore ticks) spec (mkWorld db n) = (mkWorld db' n', Ok tt) ∧
    simulations db' = (simulations db ++ rows)%list ∧
    Forall2 (row_of spec batch user db) (eVariants spec) rows ∧
    results db' = results db ∧
     (reachable db → (∀ s, s ∈ simulations db → is_child batch s = false) →
     ∀ b, b ∈ batches db → b_id b = batch →
       b_total b = Z.of_nat (length (eVariants spec)) →
       let hits := hits_of spec db in
       mkBatch batch (b_user_id b)
         (if decide (hits = length (eVariants spec)) then BDone else BQueued)
         (b_total b) (Z.of_nat hits) 0 (b_idempotency_key b) (b_created_at b)
       ∈ batches db').
Proof.
  intros Hq Hf Hex.
  destruct (expand_variants_quiet ticks Hq spec batch user (eVariants spec) db n Hex Hf)
    as (rows & db' & n' & _ & E & Es & Hrows & Er & Ek).
  exists rows, db', n'. split_and!; [done..|].
  intros Hr Hno b Hb Hid Ht hits.
  assert (Hr' : reachable db').
  { pose proof (keeps_expand_variants ticks reachable (invariant_reachable ticks
      (λ n db H, eq_rect_r (λ f, reachable (f db)) H (proj1 (Hq n)))) spec (eVariants spec)
      (mkWorld db n) Hr) as H. by rewrite E in H. }
  pose proof (wf_totals _ (reachable_wf _ Hr) b Hb) as Hpos.
  assert (Hk : batch_key b ∈ map batch_key (batches db')) by (rewrite Ek; by apply elem_of_map_1).
  apply elem_of_map_2 in Hk as (b' & Hb' & Eb'). injection Eb' as Ei Eu Et Eik Ec.
  pose proof (wf_rollup _ (reachable_wf _ Hr') b' Hb') as Eb.
  assert (Es' : sub_of batch (simulations db') = sub_of batch rows).
  { apply sub_of_filter. by rewrite Es, List.filter_app, filter_none. }
  rewrite Ei, Hid, Es', (sub_of_rows _ _ _ _ _ Hrows) in Eb.
  unfold sync_row, sync_state in Eb. simpl in Eb. rewrite Et, Ht, Z.ltb_irrefl in Eb.
  rewrite <-Ht, (proj2 (Z.ltb_lt _ _) Hpos), Ht in Eb. simpl in Eb.
  rewrite Ei, Hid, Eu, Eik, Ec in Eb. rewrite Eb in Hb'. clear Eb.
  pose proof (count_le_length (λ v, is_state (born db (vModelSHA256 v) (eWeatherSHA256 spec)
    (variant_hash spec v)) Succeeded) (eVariants spec)) as Hle. fold (hits_of spec db) in Hle.
  unfold hits. rewrite Ht.
  destruct (decide (hits_of spec db = length (eVariants spec))) as [Eh|Hne];
    destruct (Z.leb_spec (Z.of_nat (length (eVariants spec))) (Z.of_nat (hits_of spec db)));
    first [done|lia].
Qed.

Lemma expand_inserts_every_variant_witness :
  let _ : PgUuid := demo_uuid in
  let db := run [ECreateBatch "b1" 1 "alice" 3 None;
                 EUpsertResult (ContentHash "m2" "ww" "24.1.0") "clean" "{}" None None 1] demo_start in
  ∃ rows db' n',
    Expand (W := World) (H := PgStore demo_ticks) demo_spec (mkWorld db 0) =
      (mkWorld db' n', Ok tt) ∧
    map s_state rows = [Queued; Succeeded; Queued] ∧
    mkBatch "b1" "alice" BQueued 3 1 0 None 1 ∈ batches db'.
Proof.
  intros PU db.
  assert (Hr : reachable (PU := PU) db).
  { apply (reachable_run (PU := PU)); [by apply reach_init|by repeat constructor]. }
  assert (Eb : batches db = [mkBatch "b1" "alice" Expanding 3 0 0 None 1])
    by (vm_compute; reflexivity).
  assert (Es0 : simulations db = []) by (vm_compute; reflexivity).
  assert (Eu : user_ids db = ["alice"]) by (vm_compute; reflexivity).
  assert (Eh : hits_of demo_spec db = 1) by (vm_compute; reflexivity).
  assert (Eborn : map (λ v, born db (vModelSHA256 v) "ww" (variant_hash demo_spec v))
    (eVariants demo_spec) = [Queued; Succeeded; Queued]) by (vm_compute; reflexivity).
  clearbody db.
  destruct (expand_inserts_every_variant (PU := PU) demo_ticks demo_spec "b1" "alice" db 0)
    as (rows & db' & n' & E & Es & Hrows & _ & Hb).
  - apply demo_ticks_quiet.
  - by apply demo_fresh.
  - split; [done|done|rewrite Eb; by left|rewrite Eu; by left|done].
  - exists rows, db', n'. split_and!; [done| |].
    + rewrite <-Eborn. clear -Hrows.
      induction Hrows as [|v r vs rs (t & ->) _ IH]; [done|]. cbn [map]. by rewrite IH.
    + assert (Hin : mkBatch "b1" "alice" Expanding 3 0 0 None 1 ∈ batches db)
        by (rewrite Eb; left).
      assert (Hno : ∀ s, s ∈ simulations db → is_child "b1" s = false)
        by (intros s Hs; rewrite Es0 in Hs; by apply not_elem_of_nil in Hs).
      pose proof (Hb Hr Hno _ Hin eq_refl eq_refl) as H. cbv zeta in H.
      rewrite Eh in H. exact H.
Defined.

(** ** The Reaper *)
Lemma run_time ticks fires : ∀ w,
  w_time (Run ticks fires w).1 = w_time w + 2 * fires.
Proof.
  assert (Hp : ∀ w, w_time (reaper_pass ticks w).1 = S (S (w_time w))).
  { intros w. unfold reaper_pass, st_resync_stuck_batches, sweep. rewrite !state_bind_run.
    unfold exec. cbn [fst snd]. destruct (reap_expired_leases _ _) as [[a b] d].
    destruct (t_fault _); cbn [fst w_time]; destruct (ResyncStuckBatches _);
      by destruct (t_fault _). }
  induction fires as [|n IH]; intros w; cbn [Run]; [simpl; lia|].
  rewrite !state_bind_run. cbn [mret state_ret fst]. rewrite IH, Hp. lia.
Qed.

(** One pass of the Reaper, on every branch.  Whatever other processes do
    and whichever of its two statements fails, the pass runs both sweeps, each
    on the database as it finds it (a failed statement counts if it was
    applied before the answer was lost); the number logged for the lease sweep
    is the number of running rows whose lease had expired, the number logged
    for the resync the number of batches repaired, and nothing is logged for a
    sweep that found nothing.  No failure ends the loop: n ticks of the ticker
    are n passes of two statements. *)
Theorem reaper_pass_every_branch ticks w :
  (let t0 := ticks (w_time w) in
   let t1 := ticks (S (w_time w)) in
   let db1 := effect t0 (λ db, (reap_expired_leases (t_now t0) db).2) (w_db w) in
   let db2 := effect t1 (λ db, (ResyncStuckBatches db).2) db1 in
   reaper_pass ticks w =
     (mkWorld db2 (S (S (w_time w))), (sweep_log t0 (w_db w) ++ resync_log t1 db1)%list)) ∧
  ∀ fires, w_time (Run ticks fires w).1 = w_time w + 2 * fires.
Proof.
  split; [|intros fires; apply run_time]. cbv zeta.
  set (t0 := ticks (w_time w)). set (t1 := ticks (S (w_time w))).
  unfold reaper_pass. rewrite !state_bind_run.
  assert (E1 : sweep ticks w = (mkWorld (effect t0 (λ db, (reap_expired_leases (t_now t0) db).2)
      (w_db w)) (S (w_time w)),
    match t_fault t0 with
    | Some f => Err (PgErr (Unavailable (fault_msg f)))
    | None => Ok (wrap64 (Z.of_nat (count (expired (t_now t0)) (simulations (t_env t0 (w_db w))))))
    end)).
  { unfold sweep, exec, effect. fold t0. rewrite <-reap_total.
    destruct (reap_expired_leases _ _) as [[r f] d]. cbn [fst snd].
    destruct (t_fault t0) as [flt|]; [|done]. by destruct (applied flt). }
  rewrite E1. cbn [fst snd]. set (db1 := effect t0 _ _).
  assert (E2 : st_resync_stuck_batches ticks (mkWorld db1 (S (w_time w))) =
    (mkWorld (effect t1 (λ db, (ResyncStuckBatches db).2) db1) (S (S (w_time w))),
     match t_fault t1 with
     | Some f => Err (PgErr (Unavailable (fault_msg f)))
     | None => Ok (ResyncStuckBatches (t_env t1 db1)).1
     end)).
  { unfold st_resync_stuck_batches, exec, effect. cbn [w_db w_time]. fold t1.
    destruct (ResyncStuckBatches (t_env t1 db1)) as [n d]. cbn [fst snd].
    destruct (t_fault t1) as [flt|]; [|done]. by destruct (applied flt). }
  rewrite E2. unfold sweep_log, resync_log. cbn [fst snd].
  unfold mret, state_ret. by destruct (t_fault t0), (t_fault t1).
Qed.
