(* ===== verification/Config.v ===== *)
(** * internal/api/config.go: the apiserver's configuration

    [LoadConfig] as a function of the environment ([os.Getenv], the empty string
    for a variable that is not set).  [int] and [time.Duration] are 64-bit: the
    digit loop of [envInt] and the multiplication by time.Second wrap around. *)
From S2P Require Import Prelude GoLib.
Local Open Scope Z_scope.

Definition env := string → string.

Record Config := mkConfig {
  Addr : string;
  DatabaseURL : string;
  MaxBatchVariants : Z;
  AllowedEngineVersions : gset string;
  S3Endpoint : string;
  S3PublicEndpoint : string;
  S3AccessKey : string;
  S3SecretKey : string;
  S3Region : string;
  BucketModels : string;
  BucketWeather : string;
  BucketResults : string;
  PresignExpiry : Z;
}.

Definition Second : Z := 10 ^ 9.
Definition Minute : Z := 60 * Second.

Definition envDefault (e : env) (key def : string) : string :=
  if decide (e key = ""%string) then def else e key.

Fixpoint envInt_loop (def n : Z) (v : string) : Z :=
  match v with
  | EmptyString => n
  | String c r =>
      if negb (in_range 48 57 c) then def
      else envInt_loop def (wrap64 (n * 10 + (byte_val c - 48))) r
  end.

Definition envInt (e : env) (key : string) (def : Z) : Z :=
  if decide (e key = ""%string) then def else envInt_loop def 0 (e key).

Definition parseVersionSet (raw : string) : gset string :=
  fold_left (λ set part,
    let v := TrimSpace part in
    if decide (v = ""%string) then set else {[v]} ∪ set) (Split raw ",") ∅.

Definition EngineVersionAllowed (c : Config) (v : string) : bool :=
  if decide (size (AllowedEngineVersions c) = 0%nat) then true
  else bool_decide (v ∈ AllowedEngineVersions c).

Definition LoadConfig (e : env) : Config :=
  let expiry := wrap64 (envInt e "SP_PRESIGN_EXPIRY_SECONDS" 300 * Second) in
  let expiry := if (expiry <=? 0) || (15 * Minute <? expiry) then 5 * Minute else expiry in
  {|
    Addr := envDefault e "APISERVER_ADDR" ":8090";
    DatabaseURL := e "DATABASE_URL"%string;
    MaxBatchVariants := envInt e "SP_MAX_BATCH_VARIANTS" 10000;
    AllowedEngineVersions := parseVersionSet (e "SP_ALLOWED_ENGINE_VERSIONS"%string);
    S3Endpoint := e "S3_ENDPOINT"%string;
    S3PublicEndpoint := e "S3_PUBLIC_ENDPOINT"%string;
    S3AccessKey := e "S3_ACCESS_KEY"%string;
    S3SecretKey := e "S3_SECRET_KEY"%string;
    S3Region := envDefault e "S3_REGION" "us-east-1";
    BucketModels := envDefault e "S3_BUCKET_MODELS" "models";
    BucketWeather := envDefault e "S3_BUCKET_WEATHER" "weather";
    BucketResults := envDefault e "S3_BUCKET_RESULTS" "results";
    PresignExpiry := expiry;
  |}.

(** ** Facts *)

(** Every byte a decimal digit. *)
Definition all_digits (s : string) : bool := string_forallb (in_range 48 57) s.

(** The number a string of digits denotes. *)
Fixpoint decimal (acc : Z) (s : string) : Z :=
  match s with
  | EmptyString => acc
  | String c r => decimal (acc * 10 + (byte_val c - 48)) r
  end.

Lemma envInt_loop_digits def s : ∀ acc,
  all_digits s = true → envInt_loop def (wrap64 acc) s = wrap64 (decimal acc s).
Proof.
  unfold all_digits. induction s as [|c s IH]; intros acc; [done|].
  cbn [string_forallb envInt_loop decimal]. rewrite andb_true_iff. intros [Hc Hs].
  rewrite Hc. cbn [negb]. by rewrite wrap64_wrap64_mul_add, IH.
Qed.

Lemma envInt_loop_other def s : ∀ acc,
  all_digits s = false → envInt_loop def acc s = def.
Proof.
  unfold all_digits. induction s as [|c s IH]; intros acc; [done|].
  cbn [string_forallb envInt_loop]. by destruct (in_range 48 57 c); simpl; auto.
Qed.

Lemma decimal_nonneg s : ∀ acc, 0 <= acc → all_digits s = true → 0 <= decimal acc s.
Proof.
  unfold all_digits. induction s as [|c s IH]; intros acc Ha; [done|].
  cbn [string_forallb decimal]. rewrite andb_true_iff. intros [Hc Hs].
  apply IH; [|done]. unfold in_range in Hc. apply andb_true_iff in Hc as [Hc%Z.leb_le _]. lia.
Qed.

Lemma presign_expiry_range e :
  0 < PresignExpiry (LoadConfig e) <= 15 * Minute.
Proof.
  cbn [PresignExpiry LoadConfig]. set (x := wrap64 _).
  destruct (Z.leb_spec x 0); cbn [orb]; [by unfold Minute, Second|].
  destruct (Z.ltb_spec (15 * Minute) x); [by unfold Minute, Second|lia].
Qed.

(** The parts of an allow-list that are versions. *)
Definition listed (raw : string) : list string :=
  List.filter (λ p, negb (String.eqb (TrimSpace p) "")) (Split raw ",").

Lemma elem_of_parse_fold v parts : ∀ set : gset string,
  v ∈ fold_left (λ set part,
        let v := TrimSpace part in
        if decide (v = ""%string) then set else {[v]} ∪ set) parts set ↔
  v ∈ map TrimSpace (List.filter (λ p, negb (String.eqb (TrimSpace p) "")) parts) ∨ v ∈ set.
Proof.
  induction parts as [|p parts IH]; intros set; cbn [fold_left List.filter map].
  { split; [by right|]. by intros [?%not_elem_of_nil|]. }
  rewrite IH. cbv zeta. destruct (decide (TrimSpace p = ""%string)) as [E|Hne].
  { by rewrite E, String.eqb_refl. }
  rewrite (proj2 (String.eqb_neq _ _) Hne). cbn [negb map].
  rewrite elem_of_union, elem_of_singleton, elem_of_cons. tauto.
Qed.

Lemma elem_of_parseVersionSet v raw : v ∈ parseVersionSet raw ↔ v ∈ map TrimSpace (listed raw).
Proof.
  unfold parseVersionSet. rewrite elem_of_parse_fold. split; [|by left].
  by intros [|?%elem_of_empty].
Qed.

Lemma parseVersionSet_empty raw : size (parseVersionSet raw) = 0%nat ↔ listed raw = [].
Proof.
  rewrite size_empty_iff, elem_of_equiv_empty. split.
  - intros H. destruct (listed raw) as [|p l] eqn:E; [done|].
    destruct (H (TrimSpace p)). apply elem_of_parseVersionSet. rewrite E. left.
  - intros E v. rewrite elem_of_parseVersionSet, E. apply not_elem_of_nil.
Qed.

(** ** Properties *)

(** C38: the configuration read from any environment is in bounds (ACCEPTANCE
    A6).  Presigned URLs live more than zero and at most fifteen minutes
    whatever SP_PRESIGN_EXPIRY_SECONDS says, overflows of the seconds included;
    unset or malformed numbers mean their defaults; a string of digits means
    its value modulo 2^64 as a signed number, hence its value when that is below
    2^63; and a version is accepted exactly when the trimmed comma-separated
    allow-list is empty or contains it. *)
Theorem config_in_bounds e :
  let c := LoadConfig e in
  0 < PresignExpiry c <= 15 * Minute ∧
  (∀ key def, e key = ""%string ∨ all_digits (e key) = false → envInt e key def = def) ∧
  (∀ key def, e key ≠ ""%string → all_digits (e key) = true →
     envInt e key def = wrap64 (decimal 0 (e key)) ∧
     (decimal 0 (e key) < 2 ^ 63 → envInt e key def = decimal 0 (e key))) ∧
  (∀ v, EngineVersionAllowed c v = true ↔
     let versions := listed (e "SP_ALLOWED_ENGINE_VERSIONS"%string) in
     versions = [] ∨ v ∈ map TrimSpace versions).
Proof.
  cbv zeta. split; [|split; [|split]].
  - apply presign_expiry_range.
  - intros key def H. unfold envInt. destruct (decide _); [done|].
    destruct H as [|H]; [done|]. by apply envInt_loop_other.
  - intros key def Hne Hd. unfold envInt. rewrite decide_False by done.
    pose proof (envInt_loop_digits def (e key) 0 Hd : envInt_loop def 0 (e key) = _) as ->.
    split; [done|]. intros Hlt. pose proof (decimal_nonneg (e key) 0 ltac:(lia) Hd).
    apply wrap64_id. lia.
  - intros v. unfold EngineVersionAllowed. cbn [AllowedEngineVersions LoadConfig].
    destruct (decide _) as [E|Hne].
    + apply parseVersionSet_empty in E. split; [by left|done].
    + rewrite bool_decide_eq_true, elem_of_parseVersionSet.
      split; [by right|]. intros [E|]; [|done]. by apply parseVersionSet_empty in E.
Qed.
