(* ===== verification/Http.v ===== *)
(** * internal/api/server.go: the Server, its dependencies and its responses

    A response is its status, the Content-Type the code sets and its bytes.  A
    request is what the code sees of it after net/http and chi: the
    Authorization header, the route chi selected with its URL parameters, the
    decoded query, and the bytes of the body.  A request type of the code is a
    record and the decoder its JSON tags give. *)
From S2P Require Import Prelude GoLib Json JsonText Store Queue Config.
Local Open Scope string_scope.

(** ** Responses *)
Record response := mkResponse { status : Z; content_type : string; resp_body : string }.

Definition StatusOK : Z := 200.
Definition StatusCreated : Z := 201.
Definition StatusAccepted : Z := 202.
Definition StatusBadRequest : Z := 400.
Definition StatusUnauthorized : Z := 401.
Definition StatusNotFound : Z := 404.
Definition StatusInternalServerError : Z := 500.
Definition StatusServiceUnavailable : Z := 503.

Definition writeJSON (st : Z) (v : json) : response :=
  mkResponse st "application/json" (Encode v).

Definition writeError (st : Z) (msg : string) : response :=
  writeJSON st (JObj [("error", JStr msg)]).

(** ** Dependencies *)
Record storageObject := mkObject { Key : string; Size : Z }.

Record presignClient (W : Type) := mkPresign {
  PresignPut : string → string → state_t W (result string string);
  PresignGet : string → string → state_t W (result string string);
  ListObjects : string → string → state_t W (result string (list storageObject));
  ExpiresIn : Z;
}.
Arguments mkPresign {W}.
Arguments PresignPut {W}.
Arguments PresignGet {W}.
Arguments ListObjects {W}.
Arguments ExpiresIn {W}.

(** The store and the expander's store are the [DataStore] in scope. *)
Record Server (W : Type) := NewServer {
  presigner : option (presignClient W);
  cfg : Config;
}.
Arguments NewServer {W}.
Arguments presigner {W}.
Arguments cfg {W}.

(** ** Requests *)
Record artifactRef := mkRef { Ref : string; SHA256 : string }.

Definition zeroRef : artifactRef := mkRef "" "".

Definition decode_artifactRef : decoder artifactRef :=
  dec_struct
    [("ref", dec_field Ref (λ x r, mkRef x (SHA256 r)) dec_string);
     ("sha256", dec_field SHA256 (λ x r, mkRef (Ref r) x) dec_string)].

Record createSimulationRequest := mkSimReq {
  sEngineVersion : string;
  sModel : artifactRef;
  sWeather : artifactRef;
  sPriority : option Z;
  sExtractionSpec : string;
}.

Definition decode_createSimulationRequest : decoder createSimulationRequest :=
  dec_struct
    [("engineVersion", dec_field sEngineVersion
        (λ x '(mkSimReq _ m w p e), mkSimReq x m w p e) dec_string);
     ("model", dec_field sModel
        (λ x '(mkSimReq v _ w p e), mkSimReq v x w p e) decode_artifactRef);
     ("weather", dec_field sWeather
        (λ x '(mkSimReq v m _ p e), mkSimReq v m x p e) decode_artifactRef);
     ("priority", dec_field sPriority
        (λ x '(mkSimReq v m w _ e), mkSimReq v m w x e) dec_int_ptr);
     ("extractionSpec", dec_field sExtractionSpec
        (λ x '(mkSimReq v m w p _), mkSimReq v m w p x) dec_raw)].

Definition simulation_request (body : string) : option createSimulationRequest :=
  Decode decode_createSimulationRequest (mkSimReq "" zeroRef zeroRef None "") body.

Record variantReq := mkVariantReq { qModel : artifactRef; qName : string }.

Definition decode_variant : decoder variantReq :=
  dec_struct
    [("model", dec_field qModel (λ x v, mkVariantReq x (qName v)) decode_artifactRef);
     ("name", dec_field qName (λ x v, mkVariantReq (qModel v) x) dec_string)].

Record createBatchRequest := mkBatchReq {
  bEngineVersion : string;
  bWeather : artifactRef;
  bVariants : list variantReq;
  bPriority : option Z;
  bMaxParallelism : option Z;
  bIdempotencyKey : string;
  bExtractionSpec : string;
}.

(** While it is decoded, the request goes with the array behind its slice of
    variants. *)
Definition batch_field {B} (get : createBatchRequest → B)
    (set : B → createBatchRequest → createBatchRequest) (dec : decoder B) :
    decoder (createBatchRequest * list variantReq) :=
  dec_field (λ x, get x.1) (λ b x, (set b x.1, x.2)) dec.

Definition decode_createBatchRequest : decoder (createBatchRequest * list variantReq) :=
  dec_struct
    [("engineVersion", batch_field bEngineVersion
        (λ x '(mkBatchReq _ w vs p m k e), mkBatchReq x w vs p m k e) dec_string);
     ("weather", batch_field bWeather
        (λ x '(mkBatchReq v _ vs p m k e), mkBatchReq v x vs p m k e) decode_artifactRef);
     ("variants", dec_field (λ x, mkSlice x.2 (length (bVariants x.1)))
        (λ x '(mkBatchReq v w _ p m k e, _), (mkBatchReq v w (slice_elems x) p m k e, backing x))
        (dec_slice (mkVariantReq zeroRef "") decode_variant));
     ("priority", batch_field bPriority
        (λ x '(mkBatchReq v w vs _ m k e), mkBatchReq v w vs x m k e) dec_int_ptr);
     ("maxParallelism", batch_field bMaxParallelism
        (λ x '(mkBatchReq v w vs p _ k e), mkBatchReq v w vs p x k e) dec_int_ptr);
     ("idempotencyKey", batch_field bIdempotencyKey
        (λ x '(mkBatchReq v w vs p m _ e), mkBatchReq v w vs p m x e) dec_string);
     ("extractionSpec", batch_field bExtractionSpec
        (λ x '(mkBatchReq v w vs p m k _), mkBatchReq v w vs p m k x) dec_raw)].

Definition batch_request (body : string) : option createBatchRequest :=
  fst <$> Decode decode_createBatchRequest
            (mkBatchReq "" zeroRef [] None None "" "", []) body.

Record createUploadRequest := mkUploadReq {
  Kind : string;
  Filename : string;
  uSHA256 : string;
}.

Definition decode_createUploadRequest : decoder createUploadRequest :=
  dec_struct
    [("kind", dec_field Kind (λ x r, mkUploadReq x (Filename r) (uSHA256 r)) dec_string);
     ("filename", dec_field Filename (λ x r, mkUploadReq (Kind r) x (uSHA256 r)) dec_string);
     ("sha256", dec_field uSHA256 (λ x r, mkUploadReq (Kind r) (Filename r) x) dec_string)].

Definition upload_request (body : string) : option createUploadRequest :=
  Decode decode_createUploadRequest (mkUploadReq "" "" "") body.

(** url.Values: the decoded query parameters in order. *)
Definition Values := list (string * string).

Fixpoint query_get (q : Values) (key : string) : string :=
  match q with
  | [] => ""
  | (k, v) :: r => if String.eqb k key then v else query_get r key
  end.

(** The routes registered under /v1. *)
Inductive v1_route :=
  | PostSimulations (body : string)
  | GetSimulationById (id : string)
  | PostBatches (body : string)
  | GetBatchById (id : string)
  | GetBatchSimulations (id : string) (q : Values)
  | GetResultBySim (simId : string)
  | PostUploads (body : string)
  | GetResultArtifacts (simId : string).

Inductive route := GetHealthz | V1 (r : v1_route).

Record request := mkRequest { Authorization : string; req_route : route }.
