(* ===== verification/Auth.v ===== *)
(** * internal/api/auth.go: API keys

    [authMiddleware] around a handler that runs as an authenticated user; the
    request context is the option of its user id. *)
From S2P Require Import Prelude GoLib Sha256 Store Http.
Local Open Scope string_scope.

Definition HashAPIKey (raw : string) : string := sha256_hex raw.

Definition bearerToken (h : string) : string * bool :=
  let prefix := "Bearer " in
  if (String.length h <=? String.length prefix)%nat
     || negb (EqualFold (slice_to (String.length prefix) h) prefix)
  then ("", false)
  else
    let tok := TrimSpace (slice_from (String.length prefix) h) in
    (tok, negb (String.eqb tok "")).

(** The value of userIDKey in the request's context. *)
Definition ctx := option string.
Definition userID (c : ctx) : string := default "" c.

Definition authMiddleware {W A} `{DataStore W} (fail : response → A)
    (next : ctx → state_t W A) (h : string) : state_t W A :=
  let '(raw, ok) := bearerToken h in
  if negb ok then mret (fail (writeError StatusUnauthorized "missing bearer token"))
  else
    user ← UserIDForKeyHash (HashAPIKey raw);
    match user with
    | Err ErrNotFound => mret (fail (writeError StatusUnauthorized "invalid or revoked api key"))
    | Err _ => mret (fail (writeError StatusInternalServerError "auth lookup failed"))
    | Ok u => next (Some u)
    end.

(** ** Facts *)
Example bearer_ok : map bearerToken ["Bearer k1"; "bEARER  k1 "; "Bearer "; "Bearer   "; "Basic k1"; ""]
  = [("k1", true); ("k1", true); ("", false); ("", false); ("", false); ("", false)].
Proof. reflexivity. Qed.
