(* ===== verification/Handlers.v ===== *)
(** * internal/api/handlers.go: the simulation, batch and result endpoints

    One definition per handler and helper, written against [DataStore]; a
    handler runs in the context of the authenticated user and returns the
    response, [handleCreateBatch] also the specification it hands to
    ExpandAsync, if any. *)
From S2P Require Import Prelude GoLib Json JsonText Store Queue Config Http Auth.
Local Open Scope string_scope.

(** ** helpers *)

(** parseS3URI is in uploads.go. *)
Definition parseS3URI (uri : string) : string * string :=
  match CutPrefix uri "s3://" with
  | None => ("", "")
  | Some rest => let '(bucket, key, _) := Cut rest "/" in (bucket, key)
  end.

Definition validateInputRef {UL : UnicodeLib} (c : Config) (ref kind : string) : option string :=
  let '(bucket, key) := parseS3URI ref in
  if String.eqb bucket "" || String.eqb key ""
  then Some (kind +:+ ".ref must be an s3:// URI")
  else
    let check (logical real : string) :=
      if negb (String.eqb bucket logical) && negb (String.eqb bucket real)
      then Some (kind +:+ ".ref bucket " +:+ Quote bucket +:+ " is not allowed") else None in
    if String.eqb kind "model" then check "models" (BucketModels c)
    else if String.eqb kind "weather" then check "weather" (BucketWeather c)
    else Some ("unknown ref kind " +:+ Quote kind).

Definition normalizePriority (p : option Z) : Z :=
  match p with
  | None => 1
  | Some p => if (p <? 0)%Z then 0 else if (2 <? p)%Z then 2 else p
  end.

Definition optStr (s : string) : option string :=
  if decide (s = "") then None else Some s.

(** A nil []byte is the empty one. *)
Definition rawJSON (m : string) : string := m.

Definition queryInt (q : Values) (key : string) (def : Z) : Z :=
  let v := query_get q key in
  if decide (v = "") then def else default def (Atoi v).

Definition pageParams (q : Values) : Z * Z :=
  let limit := queryInt q "limit" 50 in
  let offset := queryInt q "offset" 0 in
  let limit := if (limit <=? 0)%Z || (500 <? limit)%Z then 50%Z else limit in
  let offset := if (offset <? 0)%Z then 0%Z else offset in
  (limit, offset).

Definition opt_json (s : option string) : json :=
  match s with Some t => JStr t | None => JNull end.

Definition resultPayload (res : Result) : json :=
  let metrics :=
    if decide (Metrics res = "") then JObj []
    else json_Unmarshal (Metrics res) in
  JObj [("verdict", JStr (Verdict res)); ("metrics", metrics);
        ("artifactUri", opt_json (ArtifactURI res))].

(** The state a simulation with these inputs is accepted in, and the ids a
    client sees. *)
Definition accepted (batchID state : string) : json :=
  JObj [("batchId", JStr batchID); ("state", JStr state)].

Definition sim_item (sim : Simulation) : json :=
  JObj ([("id", JStr (ID sim)); ("state", JStr (State sim))] ++
        match Error sim with Some e => [("error", JStr e)] | None => [] end)%list.

Section handlers.
Context {W : Type} `{DataStore W} {UL : UnicodeLib} (s : Server W).

(** ** POST /v1/simulations *)
Definition simulation_params (uid : string) (req : createSimulationRequest)
    (priority : Z) (hash state : string) : InsertSimulationParams :=
  mkParams None uid (sEngineVersion req) priority (Ref (sModel req)) (Ref (sWeather req))
    (optStr (SHA256 (sModel req))) (optStr (SHA256 (sWeather req)))
    (rawJSON (sExtractionSpec req)) hash state.

Definition handleCreateSimulation (c : ctx) (body : string) :
    state_t W response :=
  match simulation_request body with
  | None => mret (writeError StatusBadRequest "invalid JSON body")
  | Some req =>
      if String.eqb (sEngineVersion req) "" || String.eqb (Ref (sModel req)) ""
         || String.eqb (Ref (sWeather req)) ""
      then mret (writeError StatusBadRequest
                   "engineVersion, model.ref and weather.ref are required")
      else if negb (EngineVersionAllowed (cfg s) (sEngineVersion req))
      then mret (writeError StatusBadRequest "unsupported engineVersion")
      else match validateInputRef (cfg s) (Ref (sModel req)) "model" with
      | Some e => mret (writeError StatusBadRequest e)
      | None =>
      match validateInputRef (cfg s) (Ref (sWeather req)) "weather" with
      | Some e => mret (writeError StatusBadRequest e)
      | None =>
      let priority := normalizePriority (sPriority req) in
      let hash := ContentHash (SHA256 (sModel req)) (SHA256 (sWeather req))
                    (sEngineVersion req) in
      resolved ← resolve_cache (SHA256 (sModel req)) (SHA256 (sWeather req)) hash;
      match resolved with
      | Err _ => mret (writeError StatusInternalServerError "cache lookup failed")
      | Ok state =>
          inserted ← InsertSimulation (simulation_params (userID c) req priority hash state);
          match inserted with
          | Err _ => mret (writeError StatusInternalServerError "could not create simulation")
          | Ok id => mret (writeJSON StatusCreated
                             (JObj [("id", JStr id); ("state", JStr state)]))
          end
      end
      end
      end
  end.

(** ** GET /v1/simulations/{id} *)
Definition handleGetSimulation (c : ctx) (id : string) : state_t W response :=
  found ← GetSimulation id;
  match found with
  | Err ErrNotFound => mret (writeError StatusNotFound "simulation not found")
  | Err _ => mret (writeError StatusInternalServerError "lookup failed")
  | Ok sim =>
      if negb (String.eqb (UserID sim) (userID c))
      then mret (writeError StatusNotFound "simulation not found")
      else
        let resp := [("id", JStr (ID sim)); ("state", JStr (State sim))] in
        let error := match Error sim with Some e => [("error", JStr e)] | None => [] end in
        match Store.ContentHash sim with
        | None => mret (writeJSON StatusOK (JObj (resp ++ error)%list))
        | Some hash =>
            res ← GetResult hash;
            let result := match res with
              | Ok r => [("verdict", JStr (Verdict r)); ("result", resultPayload r)]
              | Err _ => []
              end in
            mret (writeJSON StatusOK (JObj (resp ++ result ++ error)%list))
        end
  end.

(** ** POST /v1/batches *)

(** The loop over the variants' refs: the first one refused, with its index. *)
Fixpoint validateVariants (i : nat) (vs : list variantReq) : option (nat * string) :=
  match vs with
  | [] => None
  | v :: rest =>
      match validateInputRef (cfg s) (Ref (qModel v)) "model" with
      | Some e => Some (i, e)
      | None => validateVariants (S i) rest
      end
  end.

Definition expand_spec (batchID uid : string) (req : createBatchRequest) (priority : Z) :
    ExpandSpec :=
  mkSpec batchID uid (bEngineVersion req) (Ref (bWeather req)) (SHA256 (bWeather req))
    priority (rawJSON (bExtractionSpec req))
    (map (λ v, mkVariant (Ref (qModel v)) (SHA256 (qModel v)) (qName v)) (bVariants req)).

(** After the idempotency lookup: create the batch and expand it. *)
Definition createBatch (uid : string) (req : createBatchRequest) (priority : Z) :
    state_t W (response * option ExpandSpec) :=
  created ← CreateBatch uid (Z.of_nat (length (bVariants req))) (optStr (bIdempotencyKey req));
  let failed := (writeError StatusInternalServerError "could not create batch", None) in
  match created with
  | Err _ =>
      if String.eqb (bIdempotencyKey req) "" then mret failed
      else
        refetched ← FindBatchByIdempotencyKey uid (bIdempotencyKey req);
        match refetched with
        | Ok b => mret (writeJSON StatusAccepted (accepted (BID b) (BState b)), None)
        | Err _ => mret failed
        end
  | Ok batchID =>
      let spec := expand_spec batchID uid req priority in
      let ok := writeJSON StatusAccepted (accepted batchID "expanding") in
      if (Z.of_nat (length (eVariants spec)) <=? SyncExpandThreshold)%Z then
        expanded ← Expand spec;
        match expanded with
        | Err _ => mret (writeError StatusInternalServerError "batch expansion failed", None)
        | Ok _ => mret (ok, None)
        end
      else mret (ok, Some spec)
  end.

Definition handleCreateBatch (c : ctx) (body : string) :
    state_t W (response * option ExpandSpec) :=
  let bad m := mret (writeError StatusBadRequest m, None) in
  match batch_request body with
  | None => bad "invalid JSON body"
  | Some req =>
      if String.eqb (bEngineVersion req) "" || String.eqb (Ref (bWeather req)) ""
         || Nat.eqb (length (bVariants req)) 0
      then bad "engineVersion, weather.ref and at least one variant are required"
      else if (MaxBatchVariants (cfg s) <? Z.of_nat (length (bVariants req)))%Z
      then bad ("a batch may declare at most " +:+ pretty (MaxBatchVariants (cfg s))
                +:+ " variants")
      else if negb (EngineVersionAllowed (cfg s) (bEngineVersion req))
      then bad "unsupported engineVersion"
      else match validateInputRef (cfg s) (Ref (bWeather req)) "weather" with
      | Some e => mret (writeError StatusBadRequest e, None)
      | None =>
      match validateVariants 0 (bVariants req) with
      | Some (i, e) => mret (writeError StatusBadRequest
                             ("variant " +:+ pretty (Z.of_nat i) +:+ ": " +:+ e), None)
      | None =>
      let uid := userID c in
      let priority := normalizePriority (bPriority req) in
      if String.eqb (bIdempotencyKey req) "" then createBatch uid req priority
      else
        existing ← FindBatchByIdempotencyKey uid (bIdempotencyKey req);
        match existing with
        | Ok b => mret (writeJSON StatusAccepted (accepted (BID b) (BState b)), None)
        | Err ErrNotFound => createBatch uid req priority
        | Err _ => mret (writeError StatusInternalServerError "idempotency lookup failed", None)
        end
      end
      end
  end.

(** ** GET /v1/batches/{id} *)
Definition handleGetBatch (c : ctx) (id : string) : state_t W response :=
  found ← GetBatch id;
  match found with
  | Err ErrNotFound => mret (writeError StatusNotFound "batch not found")
  | Err _ => mret (writeError StatusInternalServerError "lookup failed")
  | Ok b =>
      if negb (String.eqb (BUserID b) (userID c))
      then mret (writeError StatusNotFound "batch not found")
      else mret (writeJSON StatusOK
        (JObj [("id", JStr (BID b)); ("state", JStr (BState b)); ("total", JInt (BTotal b));
               ("succeeded", JInt (NSucceeded b)); ("failed", JInt (NFailed b))]))
  end.

(** ** GET /v1/batches/{id}/simulations *)
Definition handleListBatchSimulations (c : ctx) (id : string) (q : Values) :
    state_t W response :=
  let '(limit, offset) := pageParams q in
  found ← GetBatch id;
  match found with
  | Err ErrNotFound => mret (writeError StatusNotFound "batch not found")
  | Err _ => mret (writeError StatusInternalServerError "lookup failed")
  | Ok b =>
      if negb (String.eqb (BUserID b) (userID c))
      then mret (writeError StatusNotFound "batch not found")
      else
        page ← ListBatchSimulations id limit offset;
        match page with
        | Err _ => mret (writeError StatusInternalServerError "lookup failed")
        | Ok (sims, total) =>
            mret (writeJSON StatusOK
              (JObj [("items", JArr (map sim_item sims)); ("total", JInt total)]))
        end
  end.

(** ** GET /v1/results/{simId} *)
Definition handleGetResult (c : ctx) (simID : string) : state_t W response :=
  found ← GetSimulation simID;
  match found with
  | Err ErrNotFound => mret (writeError StatusNotFound "simulation not found")
  | Err _ => mret (writeError StatusInternalServerError "lookup failed")
  | Ok sim =>
      if negb (String.eqb (UserID sim) (userID c))
      then mret (writeError StatusNotFound "simulation not found")
      else match Store.ContentHash sim with
      | None => mret (writeError StatusNotFound "no result yet")
      | Some hash =>
          res ← GetResult hash;
          match res with
          | Err ErrNotFound => mret (writeError StatusNotFound "no result yet")
          | Err _ => mret (writeError StatusInternalServerError "lookup failed")
          | Ok r => mret (writeJSON StatusOK (resultPayload r))
          end
      end
  end.
End handlers.
