(* ===== verification/Uploads.v ===== *)
(** * internal/api/uploads.go: presigned uploads and artifact downloads

    The two endpoints that hand out presigned URLs, over the [presignClient]
    interface of server.go. *)
From S2P Require Import Prelude GoLib Json JsonText Store Queue Config Http Auth Handlers.
Local Open Scope string_scope.

(** The complement of basenameSanitize: [A-Za-z0-9._-]. *)
Definition basename_char (c : ascii) : bool :=
  in_range 65 90 c || in_range 97 122 c || in_range 48 57 c
  || Ascii.eqb c "." || Ascii.eqb c "_" || Ascii.eqb c "-".

Definition basenameSanitize (s : string) : string := replace_outside basename_char 0 s.

Definition upload_bucket (c : Config) (kind : string) : option string :=
  if String.eqb kind "model" then Some (BucketModels c)
  else if String.eqb kind "weather" then Some (BucketWeather c)
  else None.

Definition upload_base (filename : string) : string :=
  basenameSanitize (path_Base (TrimSpace filename)).

Definition upload_key (uid sha256 base : string) : string :=
  if decide (sha256 = "") then "uploads/" +:+ uid +:+ "/" +:+ base
  else "uploads/" +:+ sha256 +:+ "-" +:+ base.

Definition s3_ref (bucket key : string) : string := "s3://" +:+ bucket +:+ "/" +:+ key.

(** createUploadResponse; Headers is never set, so omitempty drops it.
    ExpiresIn().Seconds() truncated to an int is the whole seconds. *)
Definition upload_response (url ref : string) (expires : Z) : json :=
  JStruct [("url", JStr url); ("ref", JStr ref); ("method", JStr "PUT");
           ("expiresIn", JInt (Z.quot expires Second))].

(** resultPrefix: the bucket and prefix of a result's artifacts. *)
Definition resultPrefix (res : Result) (contentHash defaultBucket : string) : string * string :=
  let fallback := (defaultBucket, contentHash +:+ "/") in
  match ArtifactURI res with
  | Some uri =>
      if HasPrefix uri "s3://" then
        let '(b, key) := parseS3URI uri in
        if String.eqb b "" then fallback
        else (b, if negb (String.eqb key "") && negb (HasSuffix key "/")
                 then key +:+ "/" else key)
      else fallback
  | None => fallback
  end.

Definition artifact_name (prefix key : string) : string :=
  let name := TrimPrefix (TrimPrefix key prefix) "/" in
  if String.eqb name "" then path_Base key else name.

(** artifactEntry: a size of 0 is omitted. *)
Definition artifact_entry (name url : string) (size : Z) : json :=
  JStruct ([("name", JStr name); ("url", JStr url)] ++
           if (size =? 0)%Z then [] else [("size", JInt size)])%list.

Section uploads.
Context {W : Type} `{DataStore W} (s : Server W).

(** ** POST /v1/uploads *)
Definition handleCreateUpload (c : ctx) (body : string) :
    state_t W response :=
  match presigner s with
  | None => mret (writeError StatusServiceUnavailable
                    "presigned uploads not configured (no S3 endpoint)")
  | Some p =>
      match upload_request body with
      | None => mret (writeError StatusBadRequest "invalid JSON body")
      | Some req =>
          match upload_bucket (cfg s) (Kind req) with
          | None => mret (writeError StatusBadRequest
                            ("kind must be " +:+ String "034" ("model" +:+ String "034" " or ")
                             +:+ String "034" ("weather" +:+ String "034" "")))
          | Some bucket =>
              let base := upload_base (Filename req) in
              if String.eqb base "" || String.eqb base "." || String.eqb base "/"
              then mret (writeError StatusBadRequest "filename is required")
              else
                let key := upload_key (userID c) (uSHA256 req) base in
                minted ← PresignPut p bucket key;
                match minted with
                | Err _ => mret (writeError StatusInternalServerError
                                   "could not mint upload url")
                | Ok url => mret (writeJSON StatusOK
                    (upload_response url (s3_ref bucket key) (ExpiresIn p)))
                end
          end
      end
  end.

(** ** GET /v1/results/{simId}/artifacts *)

(** The loop that mints one URL per object, up to the first error. *)
Fixpoint mint_artifacts (p : presignClient W) (bucket prefix : string)
    (objs : list storageObject) : state_t W (result string (list json)) :=
  match objs with
  | [] => mret (Ok [])
  | obj :: rest =>
      minted ← PresignGet p bucket (Key obj);
      match minted with
      | Err e => mret (Err e)
      | Ok url =>
          more ← mint_artifacts p bucket prefix rest;
          match more with
          | Err e => mret (Err e)
          | Ok l => mret (Ok (artifact_entry (artifact_name prefix (Key obj)) url (Size obj) :: l))
          end
      end
  end.

Definition handleListArtifacts (c : ctx) (simID : string) : state_t W response :=
  match presigner s with
  | None => mret (writeError StatusServiceUnavailable
                    "presigned downloads not configured (no S3 endpoint)")
  | Some p =>
  found ← GetSimulation simID;
  match found with
  | Err ErrNotFound => mret (writeError StatusNotFound "simulation not found")
  | Err _ => mret (writeError StatusInternalServerError "lookup failed")
  | Ok sim =>
      if negb (String.eqb (UserID sim) (userID c))
      then mret (writeError StatusNotFound "simulation not found")
      else match Store.ContentHash sim with
      | None => mret (writeError StatusNotFound "no result yet")
      | Some hash =>
          res ← GetResult hash;
          match res with
          | Err ErrNotFound => mret (writeError StatusNotFound "no result yet")
          | Err _ => mret (writeError StatusInternalServerError "lookup failed")
          | Ok r =>
              let '(bucket, prefix) := resultPrefix r hash (BucketResults (cfg s)) in
              objs ← ListObjects p bucket prefix;
              match objs with
              | Err _ => mret (writeError StatusInternalServerError
                                 "could not list artifacts")
              | Ok l =>
                  entries ← mint_artifacts p bucket prefix l;
                  match entries with
                  | Err _ => mret (writeError StatusInternalServerError
                                     "could not mint download url")
                  | Ok artifacts => mret (writeJSON StatusOK
                                            (JStruct [("artifacts", JArr artifacts)]))
                  end
              end
          end
      end
  end
  end.
End uploads.
