(* ===== verification/Router.v ===== *)
(** * internal/api/server.go: Router

    /healthz is open, every route under /v1 goes through [authMiddleware].  The
    result of a request is its response and the expansion it starts in the
    background, if any. *)
From S2P Require Import Prelude GoLib Json JsonText Store Queue Config Http Auth Handlers Uploads.
Local Open Scope string_scope.

Definition outcome : Type := response * option ExpandSpec.

Section router.
Context {W : Type} `{DataStore W} {UL : UnicodeLib} (s : Server W).

Definition respond (m : state_t W response) : state_t W outcome :=
  r ← m; mret (r, None).

(** The handlers registered under /v1. *)
Definition v1 (r : v1_route) (c : ctx) : state_t W outcome :=
  match r with
  | PostSimulations body => respond (handleCreateSimulation s c body)
  | GetSimulationById id => respond (handleGetSimulation c id)
  | PostBatches body => handleCreateBatch s c body
  | GetBatchById id => respond (handleGetBatch c id)
  | GetBatchSimulations id q => respond (handleListBatchSimulations c id q)
  | GetResultBySim simId => respond (handleGetResult c simId)
  | PostUploads body => respond (handleCreateUpload s c body)
  | GetResultArtifacts simId => respond (handleListArtifacts s c simId)
  end.

Definition serve (req : request) : state_t W outcome :=
  match req_route req with
  | GetHealthz => mret (mkResponse StatusOK "" "ok", None)
  | V1 r => authMiddleware (λ resp, (resp, None)) (v1 r) (Authorization req)
  end.
End router.
