(* ===== verification/ApiFixtures.v ===== *)
(** * A concrete deployment for the examples and witnesses of the HTTP surface

    The default configuration without a presigner, and one request of each
    kind that passes every guard. *)
From S2P Require Import Prelude GoLib Json JsonText Store Queue Config Http Auth Handlers Uploads Router.
Local Open Scope string_scope.

#[export] Instance demo_unicode : UnicodeLib := λ _, true.

(** JSON text with single quotes for double ones. *)
Fixpoint json_text (s : string) : string :=
  match s with
  | String c r => String (if Ascii.eqb c "'" then quote else c) (json_text r)
  | EmptyString => ""
  end.

Definition demo_server : Server World := NewServer None (LoadConfig (λ _, "")).

Definition demo_sim_req : createSimulationRequest :=
  mkSimReq "24.1.0" (mkRef "s3://models/uploads/m.idf" "") (mkRef "s3://weather/w.epw" "")
    (Some 9%Z) "".

Definition demo_batch_req : createBatchRequest :=
  mkBatchReq "24.1.0" (mkRef "s3://weather/w.epw" "ww")
    [mkVariantReq (mkRef "s3://models/1.idf" "m1") "v1";
     mkVariantReq (mkRef "s3://models/2.idf" "m2") "v2"] None None "key-1" "".

Definition demo_sim_body : string := json_text
  "{'model': {'ref': 's3://models/uploads/m.idf'}, 'weather': {'ref': 's3://weather/w.epw'},
    'priority': 9, 'engineVersion': '24.1.0', 'client': ['sdk', 1.5, null]}".

Definition demo_batch_body : string := json_text
  "{'engineVersion': '24.1.0', 'weather': {'ref': 's3://weather/w.epw', 'sha256': 'ww'},
    'idempotencyKey': 'key-1',
    'variants': [{'name': 'v1', 'model': {'ref': 's3://models/1.idf', 'sha256': 'm1'}},
                 {'name': 'v2', 'model': {'ref': 's3:\/\/models/2.idf', 'SHA256': 'm\u0032'}}]}".

Example demo_sim_body_decodes : simulation_request demo_sim_body = Some demo_sim_req.
Proof. vm_compute. reflexivity. Qed.
Example demo_batch_body_decodes : batch_request demo_batch_body = Some demo_batch_req.
Proof. vm_compute. reflexivity. Qed.
