(* ===== verification/Portal.v ===== *)
(** * The portal: users and their API keys

    portal/src/lib (db.ts, session.ts, api-keys.ts) and the routes of
    portal/src/app/api/keys, the writers of app.users and app.api_keys that the
    apiserver's authentication reads.  A request is given by what Next.js and
    Better Auth make of it: the email of its session, if it has one, and the
    string member "name" of its JSON body, if it has one; [randomBytes] is the
    argument [rnd].  A rejected query is a thrown exception, which Next.js answers
    with a 500 of its own.  JavaScript's strings are taken in UTF-8. *)
From S2P Require Import Prelude GoLib Sha256 Sql Schema Store PortalSql.
Local Open Scope string_scope.

(** ** JavaScript *)

(** What String.prototype.trim removes: WhiteSpace and LineTerminator, that is
    U+0009-000D, U+0020, U+00A0, U+1680, U+2000-200A, U+2028, U+2029, U+202F,
    U+205F, U+3000 and U+FEFF. *)
Definition js_spaces : list string := Eval vm_compute in
  map bytes_str
    ([[9]; [10]; [11]; [12]; [13]; [32]; [194; 160];
      [225; 154; 128]; [226; 128; 168]; [226; 128; 169]; [226; 128; 175];
      [226; 129; 159]; [227; 128; 128]; [239; 187; 191]]%Z
     ++ map (λ k, [226; 128; 128 + Z.of_nat k]%Z) (seq 0 11)).

Definition js_trim (s : string) : string := trim_both js_spaces s.

(** [s.slice(0, units)], in UTF-16 code units: a character beyond U+FFFF, of four
    bytes, is two units, and half of one is stored as U+FFFD.  [skip] counts the
    bytes left of the current character. *)
Fixpoint js_slice (units skip : nat) (s : string) : string :=
  match s with
  | EmptyString => ""
  | String c r =>
      match skip with
      | S k => String c (js_slice units k r)
      | O =>
          let w := rune_width s in
          match units with
          | O => ""
          | S O => if (w =? 4)%nat then bytes_str [239; 191; 189]%Z
                   else String c (js_slice O (w - 1) r)
          | S (S n as m) => String c (js_slice (if (w =? 4)%nat then n else m) (w - 1) r)
          end
      end
  end.

(** String.prototype.toLowerCase, by Unicode's tables. *)
Class JsText := js_lower : string → string.

(** ** lib/api-keys.ts, pure part *)
Definition generateRawKey (rnd : list Z) : string := "sp_live_" +:+ EncodeToString rnd.
Definition hashKey (rawKey : string) : string := sha256_hex rawKey.

Definition cleanName (name : string) : string :=
  let n := js_slice 80 0 (js_trim name) in
  if String.eqb n "" then "default" else n.

Record ApiKeyRow := mkApiKeyRow {
  kr_id : string; kr_name : string; kr_created_at : Z; kr_revoked_at : option Z; kr_hashTail : string;
}.

(** [r.key_hash.slice(-4)], of hex digits *)
Definition key_row (k : KeyRow) : ApiKeyRow :=
  mkApiKeyRow (k_id k) (k_name k) (k_created_at k) (k_revoked_at k)
    (slice_from (String.length (k_key_hash k) - 4) (k_key_hash k)).

(** ** Responses *)
Inductive portal_body :=
  | PError (msg : string)
  | PKeys (keys : list ApiKeyRow)
  | PCreated (id name rawKey : string)
  | POk.

(** [None] is the body of Next.js's own error page. *)
Record portal_response := mkPortalResponse { p_status : Z; p_body : option portal_body }.

Definition unauthorized : portal_response := mkPortalResponse 401 (Some (PError "unauthorized")).
Definition thrown : portal_response := mkPortalResponse 500 None.

Section portal.
Context {PU : PgUuid} {JS : JsText} (ticks : nat → tick).

Definition upsertAppUser (email : string) : state_t World (result error string) :=
  exec ticks (λ t d, pg_upsert_user (t_uuid t) (t_now t) (js_lower (js_trim email)) d).

(** The userId of getPortalUser; [Ok None] is null. *)
Definition getPortalUser (session : option string) :
    state_t World (result error (option string)) :=
  match session with
  | None => mret (Ok None)
  | Some email =>
      if String.eqb email "" then mret (Ok None)
      else u ← upsertAppUser email; mret (map_ok Some u)
  end.

Definition createApiKey (userId name : string) (rnd : list Z) :
    state_t World (result error (string * string * string)) :=
  let rawKey := generateRawKey rnd in
  row ← exec ticks (λ t d,
    pg_insert_key (t_uuid t) (t_now t) userId (hashKey rawKey) (cleanName name) d);
  mret (map_ok (λ id, (id, rawKey, cleanName name)) row).

Definition listApiKeys (userId : string) : state_t World (result error (list ApiKeyRow)) :=
  rows ← query ticks (pg_list_keys userId); mret (map_ok (map key_row) rows).

Definition revokeApiKey (userId keyId : string) : state_t World (result error bool) :=
  n ← exec ticks (λ t d, pg_revoke_key (t_now t) keyId userId d);
  mret (map_ok (λ n, (0 <? n)%Z) n).

(** ** app/api/keys *)
Definition with_user (session : option string)
    (k : string → state_t World portal_response) : state_t World portal_response :=
  user ← getPortalUser session;
  match user with
  | Err _ => mret thrown
  | Ok None => mret unauthorized
  | Ok (Some userId) => k userId
  end.

Definition GET_keys (session : option string) : state_t World portal_response :=
  with_user session (λ userId,
    keys ← listApiKeys userId;
    mret match keys with
         | Err _ => thrown
         | Ok l => mkPortalResponse 200 (Some (PKeys l))
         end).

Definition POST_keys (session body_name : option string) (rnd : list Z) :
    state_t World portal_response :=
  with_user session (λ userId,
    created ← createApiKey userId (default "" body_name) rnd;
    mret match created with
         | Err _ => thrown
         | Ok (id, rawKey, name) => mkPortalResponse 201 (Some (PCreated id name rawKey))
         end).

Definition DELETE_key (session : option string) (id : string) : state_t World portal_response :=
  with_user session (λ userId,
    ok ← revokeApiKey userId id;
    mret match ok with
         | Err _ => thrown
         | Ok false => mkPortalResponse 404 (Some (PError "not found or already revoked"))
         | Ok true => mkPortalResponse 200 (Some POk)
         end).
End portal.

Example cleanName_ex : map cleanName ["  ci  "; ""; bytes_str [239; 187; 191; 32]%Z]
  = ["ci"; "default"; "default"].
Proof. reflexivity. Qed.

Example js_slice_ex : js_slice 2 0 (bytes_str [97; 240; 159; 152; 128]%Z)
  = bytes_str [97; 239; 191; 189]%Z.
Proof. reflexivity. Qed.
