(* ===== verification/PortalSpec.v ===== *)
(** * What a key of the portal is worth

    The portal and the apiserver meet in app.api_keys: what one hashes and stores,
    the other hashes and looks up.  [tables_ok] holds of the two tables in every
    run, [key_run] follows a key through it. *)
From S2P Require Import Prelude GoLib NetUrl Sha256 Json JsonText Sql Schema Fixtures Rollup Lifecycle Store.
From S2P Require Import PortalSql Fleet Session Queue Config Http Auth Handlers Uploads Router.
From S2P Require Import ApiFixtures Portal.
Local Open Scope string_scope.

(** ** The invariant of the two tables *)
Section tables.
Context {PU : PgUuid}.

Record tables_ok (db : DB) : Prop := {
  to_user_ids : NoDup (user_ids db);
  to_emails : NoDup (map u_email (users db));
  to_canonical : ∀ u, u ∈ user_ids db → canonical u;
  to_key_ids : NoDup (map k_id (api_keys db));
  to_hashes : NoDup (map k_key_hash (api_keys db));
}.

(** Postgres generates the ids of new users. *)
Definition generated (e : event) : Prop :=
  match e with EPortal (UpsertUser id _ _) => canonical id | _ => True end.

(** [e] is a revocation of the key by its owner. *)
Definition revokes (key user : string) (e : event) : bool :=
  match e with
  | EPortal (RevokeKey _ k u) => sql_eq (uuid_in k) key && sql_eq (uuid_in u) user
  | _ => false
  end.

(** What a transaction does to a key: nothing, or its revocation. *)
Record key_step (e : event) (k k' : KeyRow) : Prop := {
  ks_id : k_id k' = k_id k;
  ks_user : k_user_id k' = k_user_id k;
  ks_hash : k_key_hash k' = k_key_hash k;
  ks_dead : k_revoked_at k ≠ None → k_revoked_at k' ≠ None;
  ks_live : revokes (k_id k) (k_user_id k) e = false → k_revoked_at k' = k_revoked_at k;
}.

Lemma key_step_refl e k : key_step e k k.
Proof. done. Qed.

(** Only the portal writes the two tables. *)
Lemma event_tables e db :
  (∃ q, e = EPortal q) ∨ users (apply e db) = users db ∧ api_keys (apply e db) = api_keys db.
Proof.
  destruct e as [id now clock p|id now user total key
    |runner v cap lease locked now|sim runner lease now|sim runner ok err now
    |now| |sim m w h|h v m uri ttl now|q]; cbn [apply];
    [right..|left; by eexists]; try done.
  - unfold pg_insert_simulation. case_match; [|done]. unfold insert_simulations. cbn [fst].
    by rewrite users_fire, api_keys_fire.
  - unfold pg_create_batch. by case_match.
  - unfold claim_simulation. case_match; [|done]. unfold update_simulations_state. cbn [snd].
    by rewrite users_fire, api_keys_fire.
  - unfold finish_simulation, update_simulations_state. cbn [snd]. by rewrite users_fire, api_keys_fire.
  - unfold reap_expired_leases, update_simulations_state. cbn [snd].
    rewrite !users_fire, !api_keys_fire. cbn [users api_keys with_simulations].
    by rewrite !users_fire, !api_keys_fire.
Qed.

Lemma pg_upsert_user_cases id now email db :
  (∃ u, u ∈ users db ∧ u_email u = email ∧ pg_upsert_user id now email db = (db, Ok (u_id u))) ∨
  (email ∉ map u_email (users db)) ∧
    pg_upsert_user id now email db = (db, Err (PgErr UniqueViolation)) ∨
  (id ∉ user_ids db) ∧ (email ∉ map u_email (users db)) ∧
  pg_upsert_user id now email db = (with_users db (users db ++ [mkUser id email now]), Ok id).
Proof.
  unfold pg_upsert_user. destruct (List.find _ _) as [u|] eqn:E.
  - left. apply find_Some_elem in E as [Hu E%String.eqb_eq]. by exists u.
  - right. assert (He : email ∉ map u_email (users db)).
    { intros (u & Hu%list_elem_of_In & <-)%elem_of_map_2. eapply List.find_none in E; [|exact Hu].
      by rewrite String.eqb_refl in E. }
    destruct (existsb _ _) eqn:Ex; [by left|right]. split_and!; [|done..].
    intros H%existsb_eqb_elem. congruence.
Qed.

Lemma pg_insert_key_cases id now user hash nm db :
  (∃ e, pg_insert_key id now user hash nm db = (db, Err e)) ∨
  ∃ u, uuid_in user = Some u ∧ u ∈ user_ids db ∧
    (id ∉ map k_id (api_keys db)) ∧ (hash ∉ map k_key_hash (api_keys db)) ∧
    pg_insert_key id now user hash nm db =
    (with_api_keys db (api_keys db ++ [mkKey id u hash nm now None]), Ok id).
Proof.
  unfold pg_insert_key, with_uuid. destruct (uuid_in user) as [u|]; [|left; by eexists].
  destruct (_ || _) eqn:E; [left; by eexists|]. apply orb_false_iff in E as [E1 E2].
  destruct (existsb (String.eqb u) _) eqn:Eu; cbn [negb]; [|left; by eexists].
  right. exists u. apply existsb_eqb_elem in Eu. rewrite existsb_key_false in E1, E2.
  split_and!; [done|done| | |done]; intros (k & Hk & Ek)%elem_of_map_2; naive_solver.
Qed.

Lemma pg_revoke_key_cases now key user db :
  (∃ e, pg_revoke_key now key user db = (db, Err e)) ∨
  ∃ k u, uuid_in key = Some k ∧ uuid_in user = Some u ∧
    pg_revoke_key now key user db =
    (with_api_keys db (update_where (revocable k u) (revoke_row now) (api_keys db)),
     Ok (Z.of_nat (count (revocable k u) (api_keys db)))).
Proof.
  unfold pg_revoke_key, with_uuid. destruct (uuid_in key) as [k|]; [|left; by eexists].
  destruct (uuid_in user) as [u|]; [|left; by eexists]. right. by exists k, u.
Qed.

Lemma tables_ok_apply e db : generated e → tables_ok db → tables_ok (apply e db).
Proof.
  intros Hg Hok. destruct (event_tables e db) as [[q ->]|[Eu Ek]].
  2: { destruct Hok as [H1 H2 H3 H4 H5]. split; unfold user_ids in *; by rewrite ?Eu, ?Ek. }
  pose proof Hok as [H1 H2 H3 H4 H5].
  destruct q as [id now email|id now user hash nm|now key user]; cbn [apply portal_apply].
  - destruct (pg_upsert_user_cases id now email db) as [(u & _ & _ & ->)|[[_ ->]|(Hid & He & ->)]]; [done..|].
    split; cbn [fst api_keys with_users]; unfold user_ids in *; cbn [users with_users];
      rewrite ?map_app; [| |..|done|done].
    + apply NoDup_app. split_and!; [done| |apply NoDup_singleton].
      by intros x Hx ->%list_elem_of_singleton.
    + apply NoDup_app. split_and!; [done| |apply NoDup_singleton].
      by intros x Hx ->%list_elem_of_singleton.
    + intros u [Hu| ->%list_elem_of_singleton]%elem_of_app; [auto|done].
  - destruct (pg_insert_key_cases id now user hash nm db)
      as [[err ->]|(u & _ & _ & Hid & Hh & ->)]; [done|].
    split; cbn [fst api_keys with_api_keys]; [done..| |]; rewrite map_app;
      apply NoDup_app; (split_and!; [done| |apply NoDup_singleton]);
      by intros x Hx ->%list_elem_of_singleton.
  - destruct (pg_revoke_key_cases now key user db) as [[err ->]|(k & u & _ & _ & ->)]; [done|].
    split; cbn [fst api_keys with_api_keys]; [done..| |]; by rewrite map_update_where.
Qed.

Lemma key_apply e db k : k ∈ api_keys db → ∃ k', k' ∈ api_keys (apply e db) ∧ key_step e k k'.
Proof.
  intros Hk. destruct (event_tables e db) as [[q ->]|[_ E]]; [|exists k; by rewrite E].
  destruct q as [id now email|id now user hash nm|now key user]; cbn [apply portal_apply].
  - destruct (pg_upsert_user_cases id now email db) as [(u & _ & _ & ->)|[[_ ->]|(Hid & _ & ->)]]; by exists k.
  - destruct (pg_insert_key_cases id now user hash nm db)
      as [[err ->]|(u & _ & _ & _ & _ & ->)]; exists k; [done|]. split; [|done].
    apply elem_of_app. by left.
  - destruct (pg_revoke_key_cases now key user db) as [[err ->]|(k0 & u & Ek & Eu & ->)]; [by exists k|].
    exists (if revocable k0 u k then revoke_row now k else k). split.
    + apply elem_of_update_where. by exists k.
    + destruct (revocable k0 u k) eqn:Er; [|done]. split; try done. intros Hno.
      cbn [revokes] in Hno. rewrite Ek, Eu in Hno. unfold revocable in Er.
      apply andb_true_iff in Er as [[Ei Ew]%andb_true_iff _].
      cbn [sql_eq] in Hno. rewrite (String.eqb_sym k0), (String.eqb_sym u), Ei, Ew in Hno. done.
Qed.

Lemma users_apply e db u : u ∈ users db → u ∈ users (apply e db).
Proof.
  intros Hu. destruct (event_tables e db) as [[q ->]|[E _]]; [|by rewrite E].
  destruct q as [id now email|id now user hash nm|now key user]; cbn [apply portal_apply].
  - destruct (pg_upsert_user_cases id now email db) as [(? & _ & _ & ->)|[[_ ->]|(Hid & _ & ->)]]; [done..|].
    apply elem_of_app. by left.
  - by destruct (pg_insert_key_cases id now user hash nm db) as [[err ->]|(? & _ & _ & _ & _ & ->)].
  - by destruct (pg_revoke_key_cases now key user db) as [[err ->]|(? & ? & _ & _ & ->)].
Qed.

(** *** A key in a run *)
Lemma key_run es : ∀ db k, tables_ok db → Forall generated es → k ∈ api_keys db →
  tables_ok (run es db) ∧ (∀ u, u ∈ users db → u ∈ users (run es db)) ∧
  ∃ k', k' ∈ api_keys (run es db) ∧ k_id k' = k_id k ∧ k_user_id k' = k_user_id k ∧
    k_key_hash k' = k_key_hash k ∧ (k_revoked_at k ≠ None → k_revoked_at k' ≠ None) ∧
    (Forall (λ e, revokes (k_id k) (k_user_id k) e = false) es → k_revoked_at k' = k_revoked_at k).
Proof.
  induction es as [|e es IH]; intros db k Hok Hg Hk.
  { split; [done|]. split; [done|]. by exists k. }
  inversion_clear Hg as [|?? Hge Hges]. cbn [run fold_left].
  destruct (key_apply e db k Hk) as (k1 & Hk1 & [Si Su Sh Sd Sl]).
  destruct (IH (apply e db) k1) as (Ho & Hu & k' & Hk' & Ei & Eu & Eh & Ed & El);
    [by apply tables_ok_apply|done|done|].
  split; [done|]. split; [intros u ?; by apply Hu, users_apply|].
  exists k'. rewrite Ei, Eu, Eh, Si, Su, Sh. split_and!; [done..|auto|].
  inversion_clear 1 as [|?? Hr Hrs]. rewrite El, Sl; [done..|]. by rewrite Si, Su.
Qed.

(** *** Looking a key up *)
Lemma key_lookup db k : tables_ok db → k ∈ api_keys db →
  pg_user_id_for_key_hash (k_key_hash k) db =
  match k_revoked_at k with None => Ok (k_user_id k) | Some _ => Err ErrNotFound end.
Proof.
  intros Hok Hk. unfold pg_user_id_for_key_hash.
  rewrite filter_conj, (filter_key_NoDup k_key_hash _ k) by (done || apply Hok).
  cbn [List.filter]. by destruct (k_revoked_at k).
Qed.
End tables.

(** ** The header of a client that has a raw key *)
Definition raw_byte (c : ascii) : bool :=
  in_range 97 122 c || in_range 48 57 c || Ascii.eqb c "_".

Lemma generated_key rnd : Forall (λ b, 0 <= b < 256)%Z rnd →
  bearerToken ("Bearer " +:+ generateRawKey rnd) = (generateRawKey rnd, true).
Proof.
  intros Hr. assert (Hb : string_forallb raw_byte (generateRawKey rnd) = true).
  { unfold generateRawKey. rewrite string_forallb_app. apply andb_true_iff. split; [done|].
    pose proof (EncodeToString_hex rnd Hr) as Hh. revert Hh. apply bytes_impl. reflexivity. }
  unfold bearerToken. unfold generateRawKey in *.
  generalize dependent (EncodeToString rnd). intros hex Hb. cbv zeta.
  change (String.length "Bearer ") with 7%nat. str_norm.
  change (String.length _ <=? 7)%nat with false. cbn [slice_to slice_from].
  change (EqualFold _ "Bearer ") with true. cbn [orb negb].
  unfold TrimSpace. rewrite (trim_both_id raw_byte); [done|reflexivity|done].
Qed.

Section seam.
Context {PU : PgUuid} {UL : UnicodeLib} {JS : JsText} (ticks : nat → tick) (Hq : quiet ticks).

(** The apiserver's answer to the holder of a stored key. *)
Lemma serve_key s r raw k db m :
  tables_ok db → k ∈ api_keys db → k_key_hash k = hashKey raw →
  bearerToken ("Bearer " +:+ raw) = (raw, true) →
  serve (H := PgStore ticks) s (mkRequest ("Bearer " +:+ raw) (V1 r)) (mkWorld db m) =
  match k_revoked_at k with
  | None => v1 (H := PgStore ticks) s r (Some (k_user_id k)) (mkWorld db (S m))
  | Some _ => (mkWorld db (S m),
      (writeError StatusUnauthorized "invalid or revoked api key", None))
  end.
Proof.
  intros Hok Hk Hh Hb. unfold serve. cbn [req_route Authorization].
  unfold authMiddleware. rewrite Hb. cbn [negb].
  rewrite state_bind_run. cbn [UserIDForKeyHash PgStore]. rewrite query_quiet by done.
  change (HashAPIKey raw) with (hashKey raw). rewrite <-Hh, key_lookup by done. cbn [fst snd].
  by destruct (k_revoked_at k).
Qed.

(** The row of a session's user. *)
Definition account (email user : string) (db : DB) : Prop :=
  ∃ u, u ∈ users db ∧ u_email u = js_lower (js_trim email) ∧ u_id u = user.

Lemma account_user email u u' db :
  tables_ok db → account email u db → account email u' db → u = u'.
Proof.
  intros Hok (x & Hx & Ex & <-) (y & Hy & Ey & <-).
  f_equal. apply (NoDup_key_inj u_email (users db)); [apply Hok|done..|congruence].
Qed.

Lemma account_email email email' u db : tables_ok db → account email u db → account email' u db →
  js_lower (js_trim email) = js_lower (js_trim email').
Proof.
  intros Hok (x & Hx & <- & Ex) (y & Hy & <- & Ey).
  f_equal. apply (NoDup_key_inj u_id (users db)); [apply Hok|done..|congruence].
Qed.

Lemma account_kept email u db db' :
  (∀ x, x ∈ users db → x ∈ users db') → account email u db → account email u db'.
Proof. intros H (x & Hx & E). exists x. auto. Qed.

Lemma with_user_run session k db n : ids_generated ticks → tables_ok db →
  (∃ w resp, with_user ticks session k (mkWorld db n) = (w, resp) ∧
     resp ∈ [unauthorized; thrown] ∧
     ∀ email u, session = Some email → String.eqb email "" = false → ¬ account email u db) ∨
  ∃ email user db1, session = Some email ∧ String.eqb email "" = false ∧ account email user db1 ∧ tables_ok db1 ∧
    api_keys db1 = api_keys db ∧ (∀ u, u ∈ users db → u ∈ users db1) ∧
    with_user ticks session k (mkWorld db n) = k user (mkWorld db1 (S n)).
Proof.
  intros Hg Hok. unfold with_user. rewrite state_bind_run.
  destruct session as [email|]; cbn [getPortalUser];
    [|left; by eexists _, _; split_and!; [done|left|]].
  destruct (String.eqb email "") eqn:Ene.
  { left. eexists _, _. split_and!; [done|left|]. intros ? ? [= <-]. by rewrite Ene. }
  rewrite state_bind_run. unfold upsertAppUser. rewrite exec_quiet by done. cbn [fst snd mret state_ret].
  set (q := UpsertUser (t_uuid (ticks n)) (t_now (ticks n)) (js_lower (js_trim email))).
  pose proof (tables_ok_apply (EPortal q) db (Hg n) Hok) as Hok1.
  pose proof (λ x, users_apply (EPortal q) db x) as Hu1. revert Hok1 Hu1.
  unfold q. cbn [apply portal_apply].
  destruct (pg_upsert_user_cases (t_uuid (ticks n)) (t_now (ticks n)) (js_lower (js_trim email)) db)
    as [(u & Hu & Eu & ->)|[[He ->]|(Hid & _ & ->)]]; cbn [fst snd map_ok]; intros Hok1 Hu1.
  - right. exists email, (u_id u), db. split_and!; try done. by exists u.
  - left. eexists _, _. split_and!; [done|right; left|].
    intros ? ? [= <-] _ (x & Hx & Ex & _). apply He. rewrite <-Ex. by apply elem_of_map_1.
  - right. eexists email, _, _. split_and!; try done.
    eexists. split; [apply elem_of_app; right; left|done].
Qed.

Lemma post_created session nm rnd db n w1 id nm' raw : ids_generated ticks → tables_ok db →
  POST_keys ticks session nm rnd (mkWorld db n) =
    (w1, mkPortalResponse 201 (Some (PCreated id nm' raw))) →
  raw = generateRawKey rnd ∧ tables_ok (w_db w1) ∧
  ∃ email k, session = Some email ∧ account email (k_user_id k) (w_db w1) ∧
    canonical id ∧ canonical (k_user_id k) ∧
    k ∈ api_keys (w_db w1) ∧ k_id k = id ∧ k_key_hash k = hashKey raw ∧ k_revoked_at k = None.
Proof.
  intros Hg Hok E. unfold POST_keys in E.
  match type of E with with_user _ _ ?k _ = _ => destruct (with_user_run session k db n Hg Hok)
    as [(w & resp & Er & Hs & _)|(email & user & db1 & -> & _ & Ha & Hok1 & Ek & Hu & Er)] end.
  { rewrite Er in E. injection E as _ ->.
    by apply elem_of_cons in Hs as [?|?%list_elem_of_singleton]. }
  rewrite Er in E. clear Er. rewrite state_bind_run in E. unfold createApiKey in E.
  cbv zeta in E. rewrite state_bind_run, exec_quiet in E by done. cbn [fst snd mret state_ret] in E.
  set (q := InsertKey (t_uuid (ticks (S n))) (t_now (ticks (S n))) user
              (hashKey (generateRawKey rnd)) (cleanName (default "" nm))).
  pose proof (tables_ok_apply (EPortal q) db1 I Hok1) as Hok2. revert Hok2 E. unfold q.
  cbn [apply portal_apply].
  destruct (pg_insert_key_cases (t_uuid (ticks (S n))) (t_now (ticks (S n))) user
    (hashKey (generateRawKey rnd)) (cleanName (default "" nm)) db1)
    as [[err ->]|(u & Eu & Hin & _ & _ & ->)]; [done|]. intros Hok2 [= <- <- _ <-].
  split; [done|]. split; [done|]. pose proof (to_canonical _ Hok1) as Hc.
  destruct Ha as (x & Hx & Ex & <-).
  assert (u = u_id x) as -> by (rewrite (Hc (u_id x)) in Eu; [congruence|by apply elem_of_map_1]).
  exists email, (mkKey (t_uuid (ticks (S n))) (u_id x) (hashKey (generateRawKey rnd))
    (cleanName (default "" nm)) (t_now (ticks (S n))) None).
  split_and!; [done|by exists x|apply Hg|exact (Hc _ Hin)| |done..].
  apply elem_of_app. right. left.
Qed.

Lemma delete_run session kid k db n : ids_generated ticks → tables_ok db → k ∈ api_keys db →
  uuid_in kid = Some (k_id k) →
  let out := DELETE_key ticks session kid (mkWorld db n) in
  (p_body out.2 = Some POk →
     ∃ email k', session = Some email ∧ account email (k_user_id k) (w_db out.1) ∧
       tables_ok (w_db out.1) ∧ (∀ u, u ∈ users db → u ∈ users (w_db out.1)) ∧
       k' ∈ api_keys (w_db out.1) ∧ k_key_hash k' = k_key_hash k ∧ k_revoked_at k' ≠ None) ∧
  (∀ email, session = Some email → String.eqb email "" = false → account email (k_user_id k) db →
     k_revoked_at k = None → p_body out.2 = Some POk).
Proof.
  intros Hg Hok Hk Ekid. cbv zeta. unfold DELETE_key.
  match goal with |- context [with_user ticks session ?k0 _] =>
    destruct (with_user_run session k0 db n Hg Hok)
      as [(w & resp & -> & Hs & Hno)|(email & user & db1 & -> & Hne & Ha & Hok1 & Ek & Hu & ->)] end.
  { cbn [fst snd]. split.
    - intros E. exfalso.
      apply elem_of_cons in Hs as [->| ->%list_elem_of_singleton]; discriminate E.
    - intros email Es Hne Ha. by apply Hno in Ha. }
  rewrite state_bind_run. unfold revokeApiKey. rewrite state_bind_run, exec_quiet by done.
  cbn [fst snd mret state_ret].
  set (q := RevokeKey (t_now (ticks (S n))) kid user).
  pose proof (tables_ok_apply (EPortal q) db1 I Hok1) as Hok2.
  pose proof (λ x, users_apply (EPortal q) db1 x) as Hu2. revert Hok2 Hu2. unfold q. cbn [apply portal_apply].
  unfold pg_revoke_key, with_uuid. rewrite Ekid.
  destruct Ha as (x & Hx & Ex & <-).
  assert (Eux : uuid_in (u_id x) = Some (u_id x)) by by apply (to_canonical _ Hok1), elem_of_map_1.
  rewrite !Eux. cbn [fst snd map_ok w_db]. intros Hok2 Hu2. rewrite Ek in *.
  set (p := revocable (k_id k) (u_id x)) in *. split.
  - destruct (Z.ltb_spec 0 (Z.of_nat (count p (api_keys db)))) as [Hlt|]; [|done]. intros _.
    assert (0 < count p (api_keys db))%nat as (k0 & Hk0 & Hp)%count_pos by lia.
    pose proof Hp as [[Ei%String.eqb_eq Eu%String.eqb_eq]%andb_true_iff _]%andb_true_iff.
    assert (k0 = k) as -> by (apply (NoDup_key_inj k_id (api_keys db)); [apply Hok|done..]).
    exists email, (revoke_row (t_now (ticks (S n))) k). split_and!; try done.
    + exists x. by split_and!.
    + apply elem_of_update_where. exists k. by rewrite Hp.
  - intros email' [= <-] _ Ha Hlive.
    assert (u_id x = k_user_id k) as E.
    { eapply (account_user email); [exact Hok1|by exists x|exact (account_kept email _ db db1 Hu Ha)]. }
    assert (0 < count p (api_keys db))%nat as Hpos.
    { apply count_pos. exists k. split; [done|]. unfold p, revocable.
      by rewrite E, !String.eqb_refl, Hlive. }
    destruct (Z.ltb_spec 0 (Z.of_nat (count p (api_keys db)))); [done|lia].
Qed.
End seam.

(** ** Property *)

(** C8: a key of the portal is its user's identity until the user revokes it.  When
    POST /api/keys answers a session with a raw key, then in every later state of
    the system, whatever the portal and all other processes have done: as long as
    the user has not revoked the key, every /v1 request that bears it is handled
    as this user, and a DELETE of the key in the user's session succeeds; only a
    session of the same (trimmed, lower-case) email can revoke it; and once a
    DELETE has succeeded, every request that bears the key is answered 401 for
    ever, and changes nothing.  No collision-freedom of SHA-256 is assumed: the
    unique index on key_hash is enough. *)
Theorem portal_keys_are_identities {PU : PgUuid} {UL : UnicodeLib} {JS : JsText} ticks s
    session nm rnd db n w1 id nm' raw :
  quiet ticks → ids_generated ticks → tables_ok db → Forall (λ b, 0 <= b < 256)%Z rnd →
  POST_keys ticks session nm rnd (mkWorld db n) =
    (w1, mkPortalResponse 201 (Some (PCreated id nm' raw))) →
  let bearing r db m :=
    serve (H := PgStore ticks) s (mkRequest ("Bearer " +:+ raw) (V1 r)) (mkWorld db m) in
  ∃ email user, session = Some email ∧ account email user (w_db w1) ∧
    ∀ es, Forall generated es → let db2 := run es (w_db w1) in
      (Forall (λ e, revokes id user e = false) es → ∀ m,
         (∀ r, bearing r db2 m = v1 (H := PgStore ticks) s r (Some user) (mkWorld db2 (S m))) ∧
         (email ≠ "" → p_body (DELETE_key ticks session id (mkWorld db2 m)).2 = Some POk)) ∧
      (∀ session' kid m, uuid_in kid = Some id →
         let out := DELETE_key ticks session' kid (mkWorld db2 m) in
         p_body out.2 = Some POk →
         (∃ email', session' = Some email' ∧ js_lower (js_trim email') = js_lower (js_trim email)) ∧
         ∀ es' r m', Forall generated es' → let db4 := run es' (w_db out.1) in
           let out := bearing r db4 m' in
           status out.2.1 = StatusUnauthorized ∧ w_db out.1 = db4).
Proof.
  intros Hq Hg Hok Hrnd E. cbv zeta.
  destruct (post_created ticks Hq session nm rnd db n w1 id nm' raw Hg Hok E)
    as (-> & Hok1 & email & k & -> & Ha & Hcid & _ & Hk & <- & Hh & Hlive).
  pose proof (generated_key rnd Hrnd) as Hb.
  exists email, (k_user_id k). split_and!; [done..|]. intros es Hes.
  destruct (key_run es _ k Hok1 Hes Hk) as (Hok2 & Hu2 & k2 & Hk2 & Ei & Eu & Eh & _ & El).
  split.
  - intros Hno m. rewrite Hlive in El. split.
    + intros r. rewrite (serve_key ticks Hq s r _ k2) by (done || congruence). by rewrite El, Eu.
    + intros Hne. rewrite <-Ei in Hcid. rewrite <-Ei.
      destruct (delete_run ticks Hq (Some email) (k_id k2) k2 _ m Hg Hok2 Hk2 Hcid) as [_ Hown].
      apply (Hown email); [done| | |auto].
      * by apply String.eqb_neq.
      * rewrite Eu. by apply (account_kept email _ (w_db w1)).
  - intros session' kid m Hkid. rewrite <-Ei in Hkid.
    destruct (delete_run ticks Hq session' kid k2 _ m Hg Hok2 Hk2 Hkid) as [Hdel _].
    intros (email' & k3 & -> & Ha' & Hok3 & Hu3 & Hk3 & Eh3 & Hdead)%Hdel. split.
    + exists email'. split; [done|]. eapply (account_email _ _ (k_user_id k)); [done|by rewrite <-Eu|].
      apply (account_kept email _ (w_db w1)); [|done]. auto.
    + intros es' r m' Hes'.
      destruct (key_run es' _ k3 Hok3 Hes' Hk3) as (Hok4 & _ & k4 & Hk4 & _ & _ & Eh4 & Hd & _).
      rewrite (serve_key ticks Hq s r _ k4) by (done || congruence).
      destruct (k_revoked_at k4) eqn:E4; [done|]. by apply Hd in Hdead.
Qed.

(** Alice makes a key, somebody else fails to revoke it, then she does. *)
Definition demo_lower : JsText := string_map ascii_lower.
Definition demo_rnd : list Z := map Z.of_nat (seq 0 24).
Definition no_keys : DB := mkDB [demo_user "alice"] [] [] [] [].

Lemma portal_keys_are_identities_witness :
  ∃ w1 id nm raw,
    POST_keys (PU := demo_uuid) (JS := demo_lower) demo_ticks (Some " Alice@lab.edu") (Some "ci")
      demo_rnd (mkWorld no_keys 0) = (w1, mkPortalResponse 201 (Some (PCreated id nm raw))) ∧
    ∀ r, serve (H := PgStore (PU := demo_uuid) demo_ticks) demo_server
           (mkRequest ("Bearer " +:+ raw) (V1 r)) (mkWorld (w_db w1) 9) =
         v1 (H := PgStore (PU := demo_uuid) demo_ticks) demo_server r (Some "alice")
           (mkWorld (w_db w1) 10).
Proof.
  destruct (POST_keys (PU := demo_uuid) (JS := demo_lower) demo_ticks (Some " Alice@lab.edu")
    (Some "ci") demo_rnd (mkWorld no_keys 0)) as [w1 resp] eqn:E.
  destruct resp as [st [[| |id nm raw|]|]]; try (vm_compute in E; discriminate E).
  assert (st = 201%Z) as -> by (vm_compute in E; congruence).
  exists w1, id, nm, raw. split; [done|].
  assert (Hok : tables_ok (PU := demo_uuid) no_keys).
  { split; try (apply (bool_decide_unpack _); reflexivity).
    intros u Hu. change (u ∈ ["alice"]) in Hu. by apply list_elem_of_singleton in Hu as ->. }
  assert (Hr : Forall (λ b, 0 <= b < 256)%Z demo_rnd) by (apply (bool_decide_unpack _); reflexivity).
  destruct (portal_keys_are_identities (PU := demo_uuid) (JS := demo_lower) demo_ticks demo_server
    _ _ _ _ _ _ _ _ _ demo_ticks_quiet ltac:(done) Hok Hr E)
    as (email & user & _ & (u & Hu & _ & Eu) & H).
  destruct (H [] ltac:(constructor)) as [Hrun _]. intros r.
  assert (user = "alice") as <-.
  { vm_compute in E. injection E as <- _ _ _. cbn [w_db users] in Hu.
    apply list_elem_of_singleton in Hu as ->. by rewrite <-Eu. }
  apply Hrun. constructor.
Defined.
