(* ===== verification/Login.v ===== *)
(** * The portal: who may sign in

    portal/src/lib/allowed-domains.ts, env.ts, auth.ts, mailer.ts and
    dev-magic-link.ts, and the route app/api/dev/last-link.  Better Auth is the
    library around auth.ts: a request to it is what it makes of the body, the
    token, URL and time of the link it generates, whether it takes the address
    for one itself, and how the SMTP server answers.  Its own tables, the port
    and TLS of the SMTP transport and the wording of the mail are left out. *)
From S2P Require Import Prelude GoLib PyLib Portal.
Local Open Scope string_scope.

(** ** lib/allowed-domains.ts *)
Section allowed.
Context {JS : JsText}.

Definition isEmailDomainAllowed (email : string) (domains : list string) : bool :=
  match nth_error (Split email "@") 1 with
  | None => false
  | Some d => let domain := js_lower d in
              negb (String.eqb domain "") && existsb (String.eqb domain) domains
  end.

Definition allowedDomainsLabel (domains : list string) : option string :=
  let at_ := map (String "@") domains in
  match at_ with
  | [] => None
  | [x] => Some x
  | [x; y] => Some (x +:+ " or " +:+ y)
  | _ => Some (join ", " (removelast at_) +:+ ", or " +:+ List.last at_ "")
  end.

(** ** lib/env.ts *)
Context (env : environ).

Definition ALLOWED_DOMAINS : list string :=
  List.filter (λ d, negb (String.eqb d ""))
    (map (λ d, js_lower (js_trim d)) (Split (default "" (env "ALLOWED_EMAIL_DOMAINS")) ",")).

(** [process.env.NAME || def] *)
Definition env_or (name def : string) : string :=
  let v := default "" (env name) in if String.eqb v "" then def else v.

Definition devLoginEnabled : bool := String.eqb (default "" (env "PORTAL_DEV_LOGIN")) "1".
Definition mailFrom : string := env_or "MAIL_FROM" "SynergyPlus <noreply@localhost>".
Definition smtp_host : string := env_or "SMTP_HOST" "".
Definition smtp_user : string := env_or "SMTP_USER" "".
Definition smtp_pass : string := env_or "SMTP_PASS" "".

(** ** lib/auth.ts: the allow-list *)
Definition restrictionMessage : string :=
  match allowedDomainsLabel ALLOWED_DOMAINS with
  | Some label => "Access is restricted to " +:+ label +:+ " email addresses."
  | None => "Access is restricted to approved email addresses."
  end.

(** [None] is not a string. *)
Definition isAllowedEmail (email : option string) : bool :=
  match email with Some e => isEmailDomainAllowed e ALLOWED_DOMAINS | None => false end.

(** hooks.before: the error of the request, if there is one. *)
Definition before_hook (path : string) (email : option string) : option string :=
  if String.eqb path "/sign-in/magic-link" && negb (isAllowedEmail email)
  then Some restrictionMessage else None.

(** databaseHooks.user.create.before *)
Definition user_create_before (email : option string) : result string string :=
  match email with
  | Some e => if isAllowedEmail email then Ok e else Err restrictionMessage
  | None => Err restrictionMessage
  end.

(** ** The state of the portal's process *)
Record DevLink := mkDevLink { dl_email : string; dl_url : string; dl_token : string; dl_at : Z }.

Record Mail := mkMail { m_from : string; m_to : string; m_url : string; m_auth : option (string * string) }.

(** The map of dev-magic-link.ts, what the SMTP server has taken, the console. *)
Record LoginState := mkLogin {
  dev_links : gmap string DevLink; outbox : list Mail; console : list string;
}.

Definition no_logins : LoginState := mkLogin ∅ [] [].

Definition newline : string := String "010" "".

Definition recordDevLink (link : DevLink) (st : LoginState) : LoginState :=
  mkLogin (<[js_lower (dl_email link) := link]> (dev_links st)) (outbox st) (console st).

Definition getDevLink (email : string) (st : LoginState) : option DevLink :=
  dev_links st !! js_lower email.

Definition log (line : string) (st : LoginState) : LoginState :=
  mkLogin (dev_links st) (outbox st) (console st ++ [line])%list.

(** ** lib/mailer.ts *)
Definition no_smtp : string :=
  "SMTP is not configured: set SMTP_HOST (and SMTP_PORT/SMTP_USER/SMTP_PASS) to deliver magic-link "
  +:+ "email in production, or enable PORTAL_DEV_LOGIN to surface links in the UI for "
  +:+ "non-production environments.".

(** [answer] is the SMTP server's. *)
Definition sendMagicLinkEmail (to url : string) (answer : result string ()) (st : LoginState) :
    LoginState * result string () :=
  if String.eqb smtp_host "" then (st, Err no_smtp)
  else
    let auth := if String.eqb smtp_user "" then None else Some (smtp_user, smtp_pass) in
    match answer with
    | Err e => (st, Err e)
    | Ok _ => (mkLogin (dev_links st) (outbox st ++ [mkMail mailFrom to url auth])%list (console st), Ok tt)
    end.

(** ** lib/auth.ts: the magic link *)
Definition sendMagicLink (link : DevLink) (answer : result string ()) (st : LoginState) :
    LoginState * result string () :=
  let '(email, url, token) := (dl_email link, dl_url link, dl_token link) in
  if devLoginEnabled then
    (recordDevLink link (log (newline +:+ "[portal] Magic link for " +:+ email +:+ newline
       +:+ "          " +:+ url +:+ newline +:+ "          (token: " +:+ token +:+ ")" +:+ newline) st),
     Ok tt)
  else
    let '(st, sent) := sendMagicLinkEmail email url answer st in
    match sent with
    | Err e => (st, Err e)
    | Ok _ => (log ("Magic link sent to " +:+ email) st, Ok tt)
    end.

(** A POST of Better Auth's sign-in endpoint. *)
Record SignIn := mkSignIn {
  si_email : option string; si_valid : bool;
  si_url : string; si_token : string; si_at : Z; si_smtp : result string ();
}.

Inductive sign_in_answer := Restricted (msg : string) | Invalid | LinkSent | Failed (error : string).

Definition sign_in (r : SignIn) (st : LoginState) : LoginState * sign_in_answer :=
  match before_hook "/sign-in/magic-link" (si_email r) with
  | Some msg => (st, Restricted msg)
  | None =>
      match si_email r with
      | Some email =>
          if si_valid r then
            let '(st, sent) := sendMagicLink (mkDevLink email (si_url r) (si_token r) (si_at r)) (si_smtp r) st in
            (st, match sent with Ok _ => LinkSent | Err e => Failed e end)
          else (st, Invalid)
      | None => (st, Invalid)
      end
  end.

(** ** app/api/dev/last-link *)
Inductive last_link_body := LinkError (msg : string) | LastLink (link : option (string * string * Z)).

Definition last_link (email : option string) (st : LoginState) : Z * last_link_body :=
  if negb devLoginEnabled then (404%Z, LinkError "disabled")
  else
    let email := js_lower (default "" email) in
    if String.eqb email "" then (400%Z, LinkError "email required")
    else (200%Z, LastLink ((λ l, (dl_url l, dl_token l, dl_at l)) <$> getDevLink email st)).
End allowed.
