(* ===== verification/LoginSpec.v ===== *)
(** * Sign-in links reach allowed addresses only

    The sign-in of the portal, over any sequence of requests. *)
From S2P Require Import Prelude GoLib NetUrl PyLib Sql Portal Login.
Local Open Scope string_scope.

(** ** Addresses *)
Lemma nth_Split s c : nth_error (Split s c) 1 =
  if (Cut s c).2 then Some (Cut (Cut s c).1.2 c).1.1 else None.
Proof.
  assert (Hh : ∀ t, ∃ l, Split t c = (Cut t c).1.1 :: l).
  { induction t as [|d t [l IH]]; [by eexists|]. cbn [Split Cut].
    destruct (Ascii.eqb d c); [by eexists|]. rewrite IH.
    destruct (Cut t c) as [[b a] f]. by eexists. }
  induction s as [|d s IH]; [done|]. cbn [Split Cut].
  destruct (Ascii.eqb d c); cbn [fst snd].
  - destruct (Hh s) as [l ->]. done.
  - destruct (Hh s) as [l E]. rewrite E in *. destruct (Cut s c) as [[b a] f]. exact IH.
Qed.

Section spec.
Context {JS : JsText} (env : environ).

Abbreviation allowed e := (isAllowedEmail env (Some e) = true).

Lemma ALLOWED_DOMAINS_spec d : d ∈ ALLOWED_DOMAINS env ↔ d ≠ "" ∧
  ∃ entry, entry ∈ Split (default "" (env "ALLOWED_EMAIL_DOMAINS")) "," ∧ d = js_lower (js_trim entry).
Proof.
  unfold ALLOWED_DOMAINS. rewrite elem_of_filter, negb_true_iff, String.eqb_neq. split.
  - intros [(entry & He & <-)%elem_of_map_2 Hd]. eauto.
  - intros [Hd (entry & He & ->)]. split; [|done]. by apply (elem_of_map_1 (λ d, js_lower (js_trim d))).
Qed.

(** What is between the first at sign and the second, or the end, decides. *)
Lemma allowed_iff e : allowed e ↔
  (Cut e "@").2 = true ∧ js_lower (Cut (Cut e "@").1.2 "@").1.1 ∈ ALLOWED_DOMAINS env.
Proof.
  unfold isAllowedEmail, isEmailDomainAllowed. rewrite nth_Split.
  destruct (Cut e "@").2; [|split; [done|by intros [? _]]].
  set (d := js_lower _). rewrite andb_true_iff, negb_true_iff, String.eqb_neq, existsb_elem.
  split.
  - intros [_ (x & Hx & <-%String.eqb_eq)]. done.
  - intros [_ Hd]. split; [by apply ALLOWED_DOMAINS_spec in Hd as [? _]|].
    exists d. split; [done|apply String.eqb_refl].
Qed.

Lemma allowed_one_at l d : lacks "@" l = true → lacks "@" d = true →
  (allowed (l +:+ String "@" d) ↔ js_lower d ∈ ALLOWED_DOMAINS env).
Proof.
  intros Hl Hd. rewrite allowed_iff, Cut_lacks by done. cbn [fst snd].
  rewrite Cut_absent by done. cbn [fst]. tauto.
Qed.

Lemma nobody_allowed e : js_lower "" = "" → default "" (env "ALLOWED_EMAIL_DOMAINS") = "" → ¬ allowed e.
Proof.
  intros Hj He [_ (Hd & entry & Hin & E)%ALLOWED_DOMAINS_spec]%allowed_iff. rewrite He in Hin.
  change (Split "" ",") with [""] in Hin. apply list_elem_of_singleton in Hin as ->.
  change (js_trim "") with "" in E. congruence.
Qed.

(** ** Runs *)
Definition logins (rs : list SignIn) : LoginState :=
  fold_left (λ st r, (sign_in env r st).1) rs no_logins.

(** [r] asked for the mail. *)
Definition asked (m : Mail) (r : SignIn) : Prop :=
  si_email r = Some (m_to m) ∧ si_valid r = true ∧ si_url r = m_url m.

Record login_inv (rs : list SignIn) (st : LoginState) : Prop := {
  li_mail m : m ∈ outbox st → devLoginEnabled env = false ∧ smtp_host env ≠ "" ∧
    allowed (m_to m) ∧ ∃ r, r ∈ rs ∧ asked m r;
  li_dev k l : dev_links st !! k = Some l →
    devLoginEnabled env = true ∧ allowed (dl_email l) ∧ k = js_lower (dl_email l);
  li_console : devLoginEnabled env = false →
    console st = map (λ m, "Magic link sent to " +:+ m_to m) (outbox st);
}.

Lemma login_inv_more rs r st : login_inv rs st → login_inv (rs ++ [r]) st.
Proof.
  intros [H1 H2 H3]. split; [|done|done]. intros m Hm.
  destruct (H1 m Hm) as (? & ? & ? & x & Hx & Ha). split_and!; [done..|].
  exists x. split; [|done]. apply elem_of_app. by left.
Qed.

Lemma sign_in_inv rs r st : login_inv rs st → login_inv (rs ++ [r]) (sign_in env r st).1.
Proof.
  intros H. pose proof (login_inv_more rs r st H) as Hk. unfold sign_in, before_hook.
  change (String.eqb _ _) with true. cbn [andb].
  destruct (si_email r) as [email|] eqn:Ee; [|done].
  destruct (isAllowedEmail env (Some email)) eqn:Ea; cbn [negb]; [|done].
  destruct (si_valid r) eqn:Ev; [|done]. unfold sendMagicLink. cbn [dl_email dl_url dl_token].
  destruct (devLoginEnabled env) eqn:Ed; destruct Hk as [H1 H2 H3].
  - split; cbn [recordDevLink log outbox dev_links console fst]; [|intros k l|congruence].
    + intros m Hm. destruct (H1 m Hm). congruence.
    + rewrite lookup_insert_Some. intros [[<- <-]|[_ Hl]]; [by split_and!|by apply H2].
  - unfold sendMagicLinkEmail. destruct (String.eqb_spec (smtp_host env) ""); [by split|].
    destruct (si_smtp r) as [[]|e]; [|by split].
    split; cbn [log outbox dev_links console fst]; [|done|].
    + intros m [Hm| ->%list_elem_of_singleton]%elem_of_app; [by apply H1|]. split_and!; [done..|].
      exists r. split; [apply elem_of_app; right; left|]. by split_and!.
    + intros _. rewrite map_app, H3 by done. done.
Qed.

Lemma logins_inv rs : login_inv rs (logins rs).
Proof.
  induction rs as [|r rs IH] using rev_ind.
  - split; [by intros m ?%not_elem_of_nil|done|done].
  - unfold logins. rewrite fold_left_app. by apply sign_in_inv.
Qed.
End spec.

(** ** Property *)

(** C37: sign-in links reach allowed addresses only (ADR-0009).  After any sequence
    of sign-in requests, with any environment, a mail was sent only if the dev
    login is off and SMTP is configured, to an allowed address, and its link is
    the one that address asked for; no link was sent to anybody else, and the
    console shows only the addresses.  Only with PORTAL_DEV_LOGIN=1 are links kept
    for the login page, again of allowed addresses only, and without it the
    route that shows them answers 404.  A user is created for no other
    address.  An address with one at sign is allowed exactly when its domain, in
    lower case, is one of the entries of ALLOWED_EMAIL_DOMAINS, which are trimmed,
    in lower case and not empty; nobody is when the variable is unset or
    empty. *)
Theorem links_reach_allowed_addresses {JS : JsText} env rs :
  let allowed e := isAllowedEmail env (Some e) = true in
  let st := logins env rs in
  (∀ m, m ∈ outbox st → devLoginEnabled env = false ∧ smtp_host env ≠ "" ∧ allowed (m_to m) ∧
     ∃ r, r ∈ rs ∧ asked m r) ∧
  (∀ email url token at_, (last_link env email st) = (200%Z, LastLink (Some (url, token, at_))) →
     devLoginEnabled env = true ∧
     ∃ l, dl_url l = url ∧ allowed (dl_email l) ∧ js_lower (js_lower (default "" email)) = js_lower (dl_email l)) ∧
  (devLoginEnabled env = false →
     console st = map (λ m, "Magic link sent to " +:+ m_to m) (outbox st) ∧
     ∀ email, last_link env email st = (404%Z, LinkError "disabled")) ∧
  (∀ email e, user_create_before env email = Ok e → allowed e) ∧
  (∀ l d, lacks "@" l = true → lacks "@" d = true →
     (allowed (l +:+ "@" +:+ d) ↔ js_lower d ≠ "" ∧
      ∃ entry, entry ∈ Split (default "" (env "ALLOWED_EMAIL_DOMAINS")) "," ∧
        js_lower d = js_lower (js_trim entry))) ∧
  (js_lower "" = "" → default "" (env "ALLOWED_EMAIL_DOMAINS") = "" → ∀ e, ¬ allowed e).
Proof.
  cbv zeta. destruct (logins_inv env rs) as [H1 H2 H3]. split_and!.
  - exact H1.
  - intros email url token at_. unfold last_link. destruct (devLoginEnabled env) eqn:Ed; [|done].
    cbn [negb]. destruct (String.eqb _ _); [done|]. unfold getDevLink.
    destruct (dev_links _ !! _) as [l|] eqn:El; [|done]. intros [= <- <- <-].
    apply H2 in El as (_ & Ha & E). split; [done|]. by exists l.
  - intros Hd. split; [by apply H3|]. intros email. unfold last_link. by rewrite Hd.
  - intros email e. unfold user_create_before. destruct email as [x|]; [|done].
    destruct (isAllowedEmail env (Some x)) eqn:E; [|done]. by intros [= <-].
  - intros l d Hl Hd. change ("@" +:+ d) with (String "@" d). rewrite allowed_one_at by done.
    apply ALLOWED_DOMAINS_spec.
  - intros Hj He e. by apply nobody_allowed.
Qed.

(** ** An address with two at signs

    Only what is between the first two is looked at; that such an address is no
    address is left to Better Auth. *)
Example two_at_signs :
  isAllowedEmail (JS := string_map ascii_lower)
    (λ k, if String.eqb k "ALLOWED_EMAIL_DOMAINS" then Some " NUS.edu.sg ," else None)
    (Some "mallory@nus.edu.sg@evil.com") = true.
Proof. vm_compute. reflexivity. Qed.
