(* ===== verification/Dashboard.v ===== *)
(** * The portal's dashboard

    The queries of portal/src/lib/dashboard.ts, and GET /api/dashboard.  An
    average is the microseconds to be added up and their number; a timestamp is
    shown as it is stored.  The queries that Promise.all sends at once are taken
    one after the other. *)
From S2P Require Import Prelude Sql Schema Rollup Lifecycle Store Fleet PortalSql Portal.
Local Open Scope Z_scope.

(** ** The rows *)
Record SimulationMetrics := mkSimMetrics {
  d_running : Z; d_queued : Z; d_succeeded24h : Z; d_failed24h : Z; d_avgRun : option (Z * Z);
}.

Record RunningSimulation := mkRunning {
  rs_id : string; rs_engineVersion : string; rs_runnerId : option string;
  rs_startedAt : option Z; rs_attempts : Z; rs_batchId : option string;
}.

Record ClusterHealth := mkCluster { c_running : Z; c_queued : Z }.

Record DashboardData := mkDashboard {
  metrics : SimulationMetrics; runningSimulations : list RunningSimulation; cluster : ClusterHealth;
}.

Definition RUNNING_SIMULATIONS_LIMIT : nat := 25.

(** [interval '24 hours'] *)
Definition day : Z := 86400 * 1000000.

Definition of_user (u : string) (s : SimRow) : bool := String.eqb (s_user_id s) u.
Definition in_state (st : SimState) (s : SimRow) : bool := is_state (s_state s) st.

(** [state = st AND finished_at > now() - interval '24 hours'] *)
Definition recent (now : Z) (st : SimState) (s : SimRow) : bool :=
  in_state st s && match s_finished_at s with Some f => now - day <? f | None => false end.

(** [finished_at - started_at] of the rows avg takes. *)
Definition run_time (now : Z) (s : SimRow) : option Z :=
  if recent now Succeeded s then
    match s_finished_at s, s_started_at s with Some f, Some b => Some (f - b) | _, _ => None end
  else None.

Definition avg (l : list Z) : option (Z * Z) :=
  match l with [] => None | _ => Some (foldr Z.add 0 l, Z.of_nat (length l)) end.

(** ORDER BY started_at DESC NULLS LAST *)
Definition started_desc (a b : SimRow) : Prop :=
  match s_started_at a, s_started_at b with
  | Some x, Some y => y <= x
  | Some _, None | None, None => True
  | None, Some _ => False
  end.
#[export] Instance started_desc_dec a b : Decision (started_desc a b).
Proof. unfold started_desc. repeat case_match; apply _. Defined.

Definition running_item (s : SimRow) : RunningSimulation :=
  mkRunning (s_id s) (s_engine_version s) (s_runner_id s) (s_started_at s) (s_attempts s) (s_batch_id s).

Section queries.
Context {PU : PgUuid}.

Definition pg_user_metrics (now : Z) (user : string) (db : DB) : result error SimulationMetrics :=
  with_uuid user (λ u,
    let mine := List.filter (of_user u) (simulations db) in
    let n p := Z.of_nat (count p mine) in
    Ok (mkSimMetrics (n (in_state Running)) (n (in_state Queued)) (n (recent now Succeeded))
          (n (recent now Failed)) (avg (omap (run_time now) mine)))).

Definition pg_running_simulations (user : string) (db : DB) : result error (list RunningSimulation) :=
  with_uuid user (λ u,
    Ok (map running_item (take RUNNING_SIMULATIONS_LIMIT (order_by started_desc
          (List.filter (λ s, of_user u s && in_state Running s) (simulations db)))))).

Definition pg_count_state (st : SimState) (db : DB) : Z := Z.of_nat (count (in_state st) (simulations db)).

(** ** lib/dashboard.ts *)
Context {JS : JsText} (ticks : nat → tick).

Definition userMetrics (userId : string) : state_t World (result error SimulationMetrics) :=
  exec ticks (λ t d, (d, pg_user_metrics (t_now t) userId d)).

Definition get_running (userId : string) : state_t World (result error (list RunningSimulation)) :=
  query ticks (pg_running_simulations userId).

Definition clusterHealth : state_t World (result error ClusterHealth) :=
  running ← query ticks (λ d, Ok (pg_count_state Running d));
  queued ← query ticks (λ d, Ok (pg_count_state Queued d));
  mret match running, queued with
       | Ok r, Ok q => Ok (mkCluster r q)
       | Err e, _ | _, Err e => Err e
       end.

Definition getDashboardData (userId : string) : state_t World (result error DashboardData) :=
  m ← userMetrics userId;
  l ← get_running userId;
  c ← clusterHealth;
  mret match m, l, c with
       | Ok m, Ok l, Ok c => Ok (mkDashboard m l c)
       | Err e, _, _ | _, Err e, _ | _, _, Err e => Err e
       end.

(** ** app/api/dashboard *)
Inductive dashboard_answer := DUnauthorized | DThrown | DData (d : DashboardData).

Definition GET_dashboard (session : option string) : state_t World dashboard_answer :=
  user ← getPortalUser ticks session;
  match user with
  | Err _ => mret DThrown
  | Ok None => mret DUnauthorized
  | Ok (Some userId) =>
      data ← getDashboardData userId;
      mret match data with Ok d => DData d | Err _ => DThrown end
  end.
End queries.

(** ** Facts *)
#[local] Instance started_desc_total : Total started_desc.
Proof. intros a b. unfold started_desc. repeat case_match; try lia; auto. Qed.
#[local] Instance started_desc_trans : Transitive started_desc.
Proof. intros a b c. unfold started_desc. repeat case_match; lia || done. Qed.

Definition mine (u : string) (db : DB) : list SimRow := List.filter (of_user u) (simulations db).

Lemma running_rows u db :
  List.filter (λ s, of_user u s && in_state Running s) (simulations db) =
  List.filter (in_state Running) (mine u db).
Proof.
  unfold mine. induction (simulations db) as [|s l IH]; [done|]. cbn [List.filter].
  destruct (of_user u s); cbn [andb]; [|done]. cbn [List.filter]. by rewrite IH.
Qed.

Lemma count_mine p u db : (count p (mine u db) <= count p (simulations db))%nat.
Proof.
  unfold mine. rewrite count_filter. apply count_mono. by intros x _ [_ Hp]%andb_true_iff.
Qed.

Lemma avg_rows now l : (length (omap (run_time now) l) <= count (recent now Succeeded) l)%nat.
Proof.
  induction l as [|s l IH]; [done|]. cbn [omap list_omap]. rewrite count_cons. unfold run_time at 1.
  destruct (recent now Succeeded s); [|exact IH]. repeat case_match; simpl; lia.
Qed.

(** What the dashboard shows a user.  The counts and the list are those of the
    user's own rows: any two databases with the same rows of the user give the
    same ones.  In a reachable database the list is of the user's running rows,
    each with its runner and its start, all of them up to 25, and the newest
    first: a running row that is left out started no later than any listed.  The
    user's counts are within the cluster's, and the average is over no more runs
    than have succeeded in the last day. *)
Theorem dashboard_is_of_the_user {PU : PgUuid} user u now db :
  uuid_in user = Some u → reachable db →
  ∃ m rows, pg_user_metrics now user db = Ok m ∧
    pg_running_simulations user db = Ok (map running_item rows) ∧
    (∀ db', mine u db' = mine u db → pg_user_metrics now user db' = Ok m ∧
       pg_running_simulations user db' = Ok (map running_item rows)) ∧
    (∀ s, s ∈ rows → s ∈ simulations db ∧ s_user_id s = u ∧ s_state s = Running ∧
       is_Some (s_runner_id s) ∧ is_Some (s_started_at s)) ∧
    length rows = Nat.min 25 (Z.to_nat (d_running m)) ∧ StronglySorted started_desc rows ∧
    (∀ s r, s ∈ simulations db → s_user_id s = u → s_state s = Running → s ∉ rows →
       r ∈ rows → started_desc r s) ∧
    d_running m <= pg_count_state Running db ∧ d_queued m <= pg_count_state Queued db ∧
    (∀ total n, d_avgRun m = Some (total, n) → 0 < n <= d_succeeded24h m).
Proof.
  intros Hu Hr. unfold pg_user_metrics, pg_running_simulations, with_uuid. rewrite Hu.
  set (all := order_by started_desc (List.filter (in_state Running) (mine u db))).
  assert (Hall : ∀ s, s ∈ all ↔ s ∈ simulations db ∧ s_user_id s = u ∧ s_state s = Running).
  { intros s. unfold all, mine. rewrite elem_of_order_by, !elem_of_filter.
    unfold of_user, in_state, is_state. rewrite String.eqb_eq, bool_decide_eq_true. tauto. }
  assert (Hsort : StronglySorted started_desc all) by apply (StronglySorted_merge_sort started_desc).
  rewrite <-(take_drop 25 all) in Hsort.
  eexists _, (take 25 all). split; [reflexivity|]. split; [by rewrite running_rows|]. split_and!.
  - intros db' E. rewrite running_rows, E. unfold mine in E. by rewrite E.
  - intros s Hs. assert (Hin : s ∈ all) by (rewrite <-(take_drop 25 all); apply elem_of_app; by left).
    apply Hall in Hin as (Hin & Es & Est). split_and!; [done..| |];
      pose proof (rw_phase _ (wf_rows _ (reachable_wf _ Hr) s Hin)) as H; unfold phase_wf in H;
      rewrite Est in H; apply H.
  - rewrite length_take. f_equal. cbn [d_running]. rewrite Nat2Z.id. unfold all.
    by rewrite length_order_by.
  - apply StronglySorted_app in Hsort. tauto.
  - intros s r Hs Es Est Hno Hin. apply StronglySorted_app in Hsort as (Hsort & _ & _).
    apply Hsort; [done|].
    assert (Ha : s ∈ all) by by apply Hall. rewrite <-(take_drop 25 all) in Ha.
    by apply elem_of_app in Ha as [|].
  - cbn [d_running]. apply inj_le, count_mine.
  - cbn [d_queued]. apply inj_le, count_mine.
  - intros total n. cbn [d_avgRun d_succeeded24h]. unfold avg.
    pose proof (avg_rows now (mine u db)) as Hn. unfold mine in Hn.
    destruct (omap _ _) as [|x l]; [done|]. intros [= _ <-]. simpl in Hn. lia.
Qed.
