(* ===== verification/ApiSafe.v ===== *)
(** * The HTTP surface only submits

    Every handler, and every expansion a handler starts, leaves the invariants
    of the database intact: all the apiserver's requests ever do to it is insert
    simulations born queued or succeeded and create batches with a positive
    total.  Proved handler by handler with the [keeps] lemmas, for any
    interference and any failures. *)
From S2P Require Import Prelude GoLib Json JsonText Sql Schema Rollup Lifecycle Store Fleet Session Queue Config Http Auth Handlers Uploads Router.

(** A presigner that leaves the database to itself. *)
Record presigner_keeps (I : DB → Prop) (p : presignClient World) : Prop := {
  pk_put : ∀ b k, keeps I (PresignPut p b k);
  pk_get : ∀ b k, keeps I (PresignGet p b k);
  pk_list : ∀ b k, keeps I (ListObjects p b k);
}.

Section safe.
Context {PU : PgUuid} {UL : UnicodeLib} (ticks : nat → tick) (I : DB → Prop).
Context (HI : invariant ticks I).

(** Closes a [keeps] goal whose computation is a return, by cases. *)
Ltac keeps_ret_tac := repeat case_match; apply keeps_ret.

Lemma keeps_create_simulation s c body :
  keeps I (handleCreateSimulation (H := PgStore ticks) s c body).
Proof.
  unfold handleCreateSimulation. destruct (simulation_request body) as [req|]; [|apply keeps_ret].
  do 2 (case_match; [apply keeps_ret|]). do 2 (case_match; [apply keeps_ret|]). cbv zeta.
  apply keeps_bind_val; [by apply keeps_resolve_cache|].
  intros w w' [st|e] E; [|apply keeps_ret]. apply resolve_cache_state in E.
  apply keeps_bind; [|intros []; apply keeps_ret].
  apply (keeps_insert ticks I HI). unfold good_params. simpl. by destruct E as [-> | ->].
Qed.

Lemma keeps_get_simulation c id : keeps I (handleGetSimulation (H := PgStore ticks) c id).
Proof.
  apply keeps_bind; [by apply keeps_query|]. intros [sim|[]]; try apply keeps_ret.
  case_match; [apply keeps_ret|]. cbv zeta. case_match; [|apply keeps_ret].
  apply keeps_bind; [by apply keeps_query|]. intros r. apply keeps_ret.
Qed.

Lemma keeps_createBatch uid req priority :
  bVariants req ≠ [] → keeps I (createBatch (H := PgStore ticks) uid req priority).
Proof.
  intros Hne. apply keeps_bind.
  { apply (keeps_create_batch ticks I HI). destruct (bVariants req); [done|simpl; lia]. }
  intros [batchID|e]; cbv zeta.
  - case_match; [|apply keeps_ret].
    apply keeps_bind; [by apply keeps_expand_variants|]. intros []; apply keeps_ret.
  - case_match; [apply keeps_ret|].
    apply keeps_bind; [by apply keeps_query|]. intros []; apply keeps_ret.
Qed.

Lemma keeps_handle_create_batch s c body :
  keeps I (handleCreateBatch (H := PgStore ticks) s c body).
Proof.
  unfold handleCreateBatch. destruct (batch_request body) as [req|]; [|apply keeps_ret]. cbv zeta.
  destruct (_ || _) eqn:E; [apply keeps_ret|].
  assert (Hne : bVariants req ≠ []).
  { intros E'. rewrite E', orb_true_r in E. done. }
  clear E. do 2 (case_match; [apply keeps_ret|]). case_match; [apply keeps_ret|].
  case_match; [case_match; apply keeps_ret|]. case_match; [by apply keeps_createBatch|].
  apply keeps_bind; [by apply keeps_query|].
  intros [b|[]]; [apply keeps_ret|by apply keeps_createBatch|apply keeps_ret].
Qed.

Lemma keeps_get_batch c id : keeps I (handleGetBatch (H := PgStore ticks) c id).
Proof.
  apply keeps_bind; [by apply keeps_query|]. intros r. keeps_ret_tac.
Qed.

Lemma keeps_list_batch c id q : keeps I (handleListBatchSimulations (H := PgStore ticks) c id q).
Proof.
  unfold handleListBatchSimulations. destruct (pageParams q) as [l o].
  apply keeps_bind; [by apply keeps_query|]. intros [b|[]]; try apply keeps_ret.
  case_match; [apply keeps_ret|].
  apply keeps_bind; [by apply keeps_list|]. intros r. keeps_ret_tac.
Qed.

Lemma keeps_get_result c id : keeps I (handleGetResult (H := PgStore ticks) c id).
Proof.
  apply keeps_bind; [by apply keeps_query|]. intros [sim|[]]; try apply keeps_ret.
  case_match; [apply keeps_ret|]. case_match; [|apply keeps_ret].
  apply keeps_bind; [by apply keeps_query|]. intros r. keeps_ret_tac.
Qed.

Lemma keeps_create_upload s c body :
  (∀ p, presigner s = Some p → presigner_keeps I p) → keeps I (handleCreateUpload s c body).
Proof.
  intros Hp. unfold handleCreateUpload. destruct (presigner s) as [p|]; [|apply keeps_ret].
  specialize (Hp p eq_refl). destruct (upload_request body) as [req|]; [|apply keeps_ret].
  case_match; [|apply keeps_ret]. cbv zeta. case_match; [apply keeps_ret|].
  apply keeps_bind; [by apply (pk_put I p)|]. intros r. keeps_ret_tac.
Qed.

Lemma keeps_mint p bucket prefix objs :
  presigner_keeps I p → keeps I (mint_artifacts p bucket prefix objs).
Proof.
  intros Hp. induction objs as [|o objs IH]; cbn [mint_artifacts]; [apply keeps_ret|].
  apply keeps_bind; [by apply (pk_get I p)|]. intros [url|e]; [|apply keeps_ret].
  apply keeps_bind; [apply IH|]. intros r. keeps_ret_tac.
Qed.

Lemma keeps_list_artifacts s c id :
  (∀ p, presigner s = Some p → presigner_keeps I p) →
  keeps I (handleListArtifacts (H := PgStore ticks) s c id).
Proof.
  intros Hp. unfold handleListArtifacts. destruct (presigner s) as [p|]; [|apply keeps_ret].
  specialize (Hp p eq_refl).
  apply keeps_bind; [by apply keeps_query|]. intros [sim|[]]; try apply keeps_ret.
  case_match; [apply keeps_ret|]. case_match; [|apply keeps_ret].
  apply keeps_bind; [by apply keeps_query|]. intros [r|[]]; try apply keeps_ret.
  destruct (resultPrefix _ _ _) as [b pre].
  apply keeps_bind; [by apply (pk_list I p)|]. intros [l|e]; [|apply keeps_ret].
  apply keeps_bind; [by apply keeps_mint|]. intros x. keeps_ret_tac.
Qed.

Lemma keeps_respond (m : state_t World response) : keeps I m → keeps I (respond m).
Proof. intros Hm. apply keeps_bind; [done|]. intros r. apply keeps_ret. Qed.

Lemma keeps_v1 s r c :
  (∀ p, presigner s = Some p → presigner_keeps I p) →
  keeps I (v1 (H := PgStore ticks) s r c).
Proof.
  intros Hp. destruct r; cbn [v1]; try apply keeps_respond.
  - apply keeps_create_simulation.
  - apply keeps_get_simulation.
  - apply keeps_handle_create_batch.
  - apply keeps_get_batch.
  - apply keeps_list_batch.
  - apply keeps_get_result.
  - by apply keeps_create_upload.
  - by apply keeps_list_artifacts.
Qed.

Lemma keeps_serve s req :
  (∀ p, presigner s = Some p → presigner_keeps I p) →
  keeps I (serve (H := PgStore ticks) s req).
Proof.
  intros Hp. unfold serve. destruct (req_route req) as [|r]; [apply keeps_ret|].
  unfold authMiddleware. destruct (bearerToken _) as [raw []]; cbn [negb]; [|apply keeps_ret].
  apply keeps_bind; [by apply keeps_query|].
  intros [u|[]]; [by apply keeps_v1|apply keeps_ret..].
Qed.

Lemma keeps_expand_async spec : keeps I (ExpandAsync (W := World) (H := PgStore ticks) spec).
Proof.
  apply keeps_bind; [by apply keeps_expand_variants|]. intros []; apply keeps_ret.
Qed.

Lemma keeps_reaper fires : keeps I (Run ticks fires).
Proof.
  induction fires as [|n IH]; cbn [Run]; [apply keeps_ret|].
  apply keeps_bind; [|intros l; apply keeps_bind; [done|]; intros r; apply keeps_ret].
  apply keeps_bind; [by apply keeps_sweep|]. intros r.
  apply keeps_bind; [by apply keeps_resync|]. intros r'. apply keeps_ret.
Qed.
End safe.
