(* ===== verification/ApiSpec.v ===== *)
(** * What the HTTP surface guarantees

    Authentication, ownership, the outcome of submissions, idempotency, and the
    preservation of every database invariant.  The functional statements are
    about quiet worlds ([Session.quiet]); the invariants, idempotency under a
    race and the authorisation order are about all worlds. *)
From S2P Require Import Prelude GoLib Json JsonText Sha256 Sql Schema Fixtures Rollup Lifecycle Store Fleet Session Queue Config Http Auth Handlers Uploads Router ApiFixtures ApiSafe.
Local Open Scope string_scope.

(** ** A concrete deployment *)
#[local] Instance demo_uuid_instance : PgUuid := demo_uuid.

(** A database whose one user holds the key "secret". *)
Definition demo_keyed : DB :=
  mkDB [demo_user "alice"; demo_user "bob"] [mkKey "k1" "alice" (HashAPIKey "secret") "default" 0 None] [] [] [].

Definition resp_of (o : outcome) : response := o.1.

(** C6: requests only submit.  Whatever the other processes do between its
    statements and wherever a statement fails, no request, no background
    expansion a request starts and no run of the Reaper breaks a database
    property that survives the apiserver's events: inserting simulations born
    queued or succeeded, creating batches with a positive total, and the two
    sweeps.  Reachability is such a property, so every theorem about reachable
    databases holds at every moment of a running apiserver. *)
Theorem requests_preserve_invariants {PU : PgUuid} {UL : UnicodeLib} ticks I s req w fires :
  invariant ticks I →
  (∀ p, presigner s = Some p → presigner_keeps I p) →
  I (w_db w) →
  let '(w', (_, job)) := serve (H := PgStore ticks) s req w in
  I (w_db w') ∧
  (∀ spec w2, job = Some spec → I (w_db w2) →
     I (w_db (ExpandAsync (W := World) (H := PgStore ticks) spec w2).1)) ∧
  I (w_db (Run ticks fires w).1).
Proof.
  intros HI Hp Hw. pose proof (keeps_serve ticks I HI s req Hp w Hw) as H.
  destruct (serve s req w) as [w' [resp job]]. split_and!; [done| |].
  - intros spec w2 _. by apply (keeps_expand_async ticks I HI).
  - by apply (keeps_reaper ticks I HI).
Qed.

Lemma requests_preserve_invariants_witness :
  let w := mkWorld demo_keyed 0 in
  let r := serve (H := PgStore demo_ticks) demo_server
             (mkRequest "Bearer secret" (V1 (PostBatches demo_batch_body))) w in
  status (resp_of r.2) = StatusAccepted ∧ reachable (w_db r.1).
Proof.
  intros w r. split; [vm_compute; reflexivity|].
  pose proof (requests_preserve_invariants demo_ticks reachable demo_server
    (mkRequest "Bearer secret" (V1 (PostBatches demo_batch_body))) w 0
    (invariant_reachable demo_ticks (λ n db H, H)) ltac:(done)
    (reach_init demo_keyed (conj eq_refl eq_refl))) as H.
  fold r in H. destruct r as [w' [resp job]]. apply H.
Defined.

(** C17: a request acts as the owner of a live key, or not at all.  A request to
    a /v1 route whose bearer token hashes to the key_hash of a key that is not
    revoked is handled as that key's user; any other request is answered 401
    and leaves the database as it was, whatever its route and body. *)
Theorem request_runs_as_key_owner {PU : PgUuid} {UL : UnicodeLib} ticks s h r db n :
  quiet ticks →
  let '(tok, ok) := bearerToken h in
  let live k := String.eqb (k_key_hash k) (HashAPIKey tok)
                && bool_decide (k_revoked_at k = None) in
  let run := serve (H := PgStore ticks) s (mkRequest h (V1 r)) (mkWorld db n) in
  (∃ k, ok = true ∧ k ∈ api_keys db ∧ live k = true ∧
     run = v1 (H := PgStore ticks) s r (Some (k_user_id k)) (mkWorld db (S n))) ∨
  ((ok = false ∨ ∀ k, k ∈ api_keys db → live k = false) ∧
   status (resp_of run.2) = StatusUnauthorized ∧ w_db run.1 = db).
Proof.
  intros Hq. destruct (bearerToken h) as [tok ok] eqn:E. cbv zeta.
  unfold serve. cbn [req_route Authorization]. unfold authMiddleware. rewrite E.
  destruct ok; cbn [negb]; [|right; split_and!; [by left|done|done]].
  rewrite state_bind_run. cbn [UserIDForKeyHash PgStore]. rewrite query_quiet by done.
  cbn [fst snd]. unfold pg_user_id_for_key_hash.
  destruct (first_row _) as [k|[]] eqn:Ef; cbn [map_ok].
  - left. apply first_row_filter in Ef as [Hk Hl]. exists k. split_and!; [done..| |done].
    apply andb_true_iff in Hl as [-> Hr]. simpl. by destruct (k_revoked_at k).
  - right. split_and!; [right|done|done]. intros k Hk.
    apply not_true_iff_false. intros Hl.
    destruct (List.filter _ (api_keys db)) as [|k' l] eqn:El; [|done].
    assert (Hin : k ∈ []) by (rewrite <-El; apply elem_of_filter; split; [done|];
      apply andb_true_iff in Hl as [-> Hr%bool_decide_eq_true]; by rewrite Hr).
    by apply not_elem_of_nil in Hin.
  - by destruct (List.filter _ (api_keys db)).
Qed.

Lemma request_runs_as_key_owner_witness :
  let run := serve (H := PgStore demo_ticks) demo_server
    (mkRequest "Bearer guess" (V1 (GetBatchById "b1"))) (mkWorld demo_keyed 0) in
  status (resp_of run.2) = StatusUnauthorized ∧ w_db run.1 = demo_keyed.
Proof.
  pose proof (request_runs_as_key_owner demo_ticks demo_server "Bearer guess"
    (GetBatchById "b1") demo_keyed 0 demo_ticks_quiet) as H.
  destruct H as [(k & _ & [->|[]%not_elem_of_nil]%elem_of_cons & Hl & _)|[_ H]]; [|exact H].
  vm_compute in Hl. discriminate Hl.
Defined.
