(* ===== verification/ApiAuthz.v ===== *)
(** * Object-level authorisation: what one user can learn

    [same_view u db1 db2]: the two databases agree on everything of user [u]'s:
    the simulations, the batches with their children, and the results of the
    content hashes that are on [u]'s own rows.  The results of other rows differ
    as they like.
    The read endpoints answer [u] the same on both, so nothing another user has
    can be told from the answers, not even that it exists. *)
From S2P Require Import Prelude GoLib Json JsonText Sql Schema Fixtures Rollup Lifecycle Store Fleet Session Queue Config Http Auth Handlers Uploads Router ApiFixtures.
Local Open Scope string_scope.

Definition owns_sim (u : string) (s : SimRow) : bool := String.eqb (s_user_id s) u.
Definition owns_batch (u : string) (b : BatchRow) : bool := String.eqb (b_user_id b) u.

Record same_view (u : string) (db1 db2 : DB) : Prop := {
  sv_sims : List.filter (owns_sim u) (simulations db1) = List.filter (owns_sim u) (simulations db2);
  sv_batches : List.filter (owns_batch u) (batches db1) = List.filter (owns_batch u) (batches db2);
  sv_children : ∀ b, b ∈ batches db1 → b_user_id b = u →
    List.filter (is_child (b_id b)) (simulations db1) =
    List.filter (is_child (b_id b)) (simulations db2);
  sv_results : ∀ s h, s ∈ simulations db1 → s_user_id s = u → s_content_hash s = Some h →
    pg_get_result h db1 = pg_get_result h db2;
}.

Definition unique_ids (db : DB) : Prop :=
  NoDup (map s_id (simulations db)) ∧ NoDup (map b_id (batches db)).

(** A presigner whose answers do not depend on the database. *)
Record oblivious (p : presignClient World) : Prop := {
  ob_get : ∀ b k n, ∃ n' r, ∀ db, PresignGet p b k (mkWorld db n) = (mkWorld db n', r);
  ob_list : ∀ b k n, ∃ n' r, ∀ db, ListObjects p b k (mkWorld db n) = (mkWorld db n', r);
}.

Definition is_read (r : v1_route) : bool :=
  match r with
  | PostSimulations _ | PostBatches _ | PostUploads _ => false
  | _ => true
  end.

(** A lookup [u] may not see: nothing, or somebody else's. *)
Definition hidden {A} (user : A → string) (u : string) (r : result error A) : Prop :=
  r = Err ErrNotFound ∨ ∃ a, r = Ok a ∧ user a ≠ u.

(** ** Lookups by id *)
Lemma lookup_owned {A} (key user : A → string) u x (l1 l2 : list A) a :
  NoDup (map key l2) →
  List.filter (λ y, String.eqb (user y) u) l1 = List.filter (λ y, String.eqb (user y) u) l2 →
  first_row (List.filter (λ y, String.eqb (key y) x) l1) = Ok a → user a = u →
  first_row (List.filter (λ y, String.eqb (key y) x) l2) = Ok a.
Proof.
  intros Hnd Hv [Ha Hk%String.eqb_eq]%first_row_filter Hu.
  assert (Ha2 : a ∈ l2).
  { assert (Hin : a ∈ List.filter (λ y, String.eqb (user y) u) l1)
      by (apply elem_of_filter; split; [done|by apply String.eqb_eq]).
    rewrite Hv in Hin. by apply elem_of_filter in Hin as [? _]. }
  subst x. by rewrite (filter_key_NoDup key l2 a).
Qed.

Lemma first_row_cases {A} (l : list A) :
  first_row l = Err ErrNotFound ∨ ∃ a, first_row l = Ok a.
Proof. destruct l as [|a l]; simpl; eauto. Qed.

Lemma lookup_view {A} (key user : A → string) u x (l1 l2 : list A) :
  NoDup (map key l1) → NoDup (map key l2) →
  List.filter (λ y, String.eqb (user y) u) l1 = List.filter (λ y, String.eqb (user y) u) l2 →
  let find l := first_row (List.filter (λ y, String.eqb (key y) x) l) in
  find l1 = find l2 ∨ (hidden user u (find l1) ∧ hidden user u (find l2)).
Proof.
  intros H1 H2 Hv find. unfold find.
  destruct (first_row_cases (List.filter (λ y, String.eqb (key y) x) l1)) as [E1|[a1 E1]];
    destruct (first_row_cases (List.filter (λ y, String.eqb (key y) x) l2)) as [E2|[a2 E2]].
  - left. congruence.
  - destruct (decide (user a2 = u)) as [Hu|Hu].
    + left. by rewrite E2, (lookup_owned key user u x l2 l1 a2).
    + right. split; [by left|right; eauto].
  - destruct (decide (user a1 = u)) as [Hu|Hu].
    + left. by rewrite E1, (lookup_owned key user u x l1 l2 a1).
    + right. split; [right; eauto|by left].
  - destruct (decide (user a1 = u)) as [Hu|Hu].
    + left. by rewrite E1, (lookup_owned key user u x l1 l2 a1).
    + destruct (decide (user a2 = u)) as [Hu2|Hu2]; [|right; split; right; eauto].
      left. by rewrite E2, (lookup_owned key user u x l2 l1 a2).
Qed.

Section views.
Context {PU : PgUuid} (u : string) (db1 db2 : DB).
Context (Hv : same_view u db1 db2) (Hu1 : unique_ids db1) (Hu2 : unique_ids db2).

Lemma view_simulation id :
  pg_get_simulation id db1 = pg_get_simulation id db2 ∨
  (hidden UserID u (pg_get_simulation id db1) ∧ hidden UserID u (pg_get_simulation id db2)).
Proof.
  unfold pg_get_simulation, with_uuid. destruct (uuid_in id) as [x|]; [|by left].
  destruct (lookup_view s_id s_user_id u x (simulations db1) (simulations db2))
    as [->|[H1 H2]]; [apply Hu1|apply Hu2|apply (sv_sims _ _ _ Hv)|by left|right].
  split; [destruct H1 as [->|(a & -> & Ha)]|destruct H2 as [->|(a & -> & Ha)]];
    [by left|right; by eexists..|by left|right; by eexists].
Qed.

(** The result a lookup of [u]'s own simulation leads to is the same. *)
Lemma view_result id a h :
  pg_get_simulation id db1 = Ok a → UserID a = u → Store.ContentHash a = Some h →
  pg_get_result h db1 = pg_get_result h db2.
Proof.
  unfold pg_get_simulation, with_uuid. destruct (uuid_in id) as [x|]; [|done].
  destruct (first_row _) as [s|] eqn:E; [|done]. intros [= <-].
  apply first_row_filter in E as [Hs _]. by apply (sv_results _ _ _ Hv).
Qed.

Definition get_batch (id : string) (db : DB) : result error Batch :=
  with_uuid id (λ x, pg_get_batch_where (λ b, String.eqb (b_id b) x) db).

Lemma view_batch id :
  (get_batch id db1 = get_batch id db2 ∧
   ∀ b, get_batch id db1 = Ok b → BUserID b = u →
     ∃ x, uuid_in id = Some x ∧
       List.filter (is_child x) (simulations db1) = List.filter (is_child x) (simulations db2)) ∨
  (hidden BUserID u (get_batch id db1) ∧ hidden BUserID u (get_batch id db2)).
Proof.
  unfold get_batch, with_uuid, pg_get_batch_where.
  destruct (uuid_in id) as [x|]; [|by left].
  destruct (lookup_view b_id b_user_id u x (batches db1) (batches db2))
    as [E|[H1 H2]]; [apply Hu1|apply Hu2|apply (sv_batches _ _ _ Hv)|left|right].
  - split; [by rewrite E|]. intros b Hb Hb'. exists x. split; [done|].
    destruct (first_row _) as [r|] eqn:Er in Hb; [|done]. injection Hb as <-.
    apply first_row_filter in Er as [Hr <-%String.eqb_eq].
    by apply (sv_children _ _ _ Hv).
  - split; [destruct H1 as [->|(a & -> & Ha)]|destruct H2 as [->|(a & -> & Ha)]];
      [by left|right; by eexists..|by left|right; by eexists].
Qed.
End views.

(** ** The handlers *)
Section reads.
Context {PU : PgUuid} {UL : UnicodeLib} (ticks : nat → tick) (Hq : quiet ticks).
Context (u : string) (db1 db2 : DB).
Context (Hv : same_view u db1 db2) (Hu1 : unique_ids db1) (Hu2 : unique_ids db2).

(** Same answers, and the clock and the presigner are left the same. *)
Definition agree {A} (m : state_t World A) : Prop :=
  ∀ n, ∃ n' a, m (mkWorld db1 n) = (mkWorld db1 n', a) ∧ m (mkWorld db2 n) = (mkWorld db2 n', a).

Lemma agree_ret {A} (a : A) : agree (mret a).
Proof. intros n. by exists n, a. Qed.

Lemma agree_bind {A B} (m : state_t World A) (k : A → state_t World B) :
  agree m → (∀ a, agree (k a)) → agree (x ← m; k x).
Proof.
  intros Hm Hk n. destruct (Hm n) as (n1 & a & E1 & E2).
  destruct (Hk a n1) as (n2 & b & E3 & E4). exists n2, b.
  rewrite !state_bind_run, E1, E2. done.
Qed.

Lemma agree_query {A} (q : DB → result error A) : q db1 = q db2 → agree (query ticks q).
Proof. intros E n. exists (S n), (q db1). rewrite !query_quiet by done. by rewrite E. Qed.

(** The check every read starts with: a lookup, and a 404 unless it is the
    caller's. *)
Lemma agree_lookup {A} (user : A → string) (q : DB → result error A)
    (k : result error A → state_t World response) :
  (q db1 = q db2 ∧ ∀ a, q db1 = Ok a → user a = u → agree (k (Ok a))) ∨
  (hidden user u (q db1) ∧ hidden user u (q db2)) →
  (∀ e, agree (k (Err e))) →
  (∀ a, user a ≠ u → k (Ok a) = k (Err ErrNotFound)) →
  agree (x ← query ticks q; k x).
Proof.
  intros H He Hk n. rewrite !state_bind_run, !query_quiet by done. cbn [fst snd].
  destruct H as [[<- Hok]|[H1 H2]].
  - destruct (q db1) as [a|e]; [|apply He].
    destruct (decide (user a = u)) as [Hu|Hu]; [by apply Hok|].
    rewrite (Hk a Hu). apply He.
  - assert (H : ∀ db, hidden user u (q db) → k (q db) = k (Err ErrNotFound)).
    { intros db [->|(a & -> & Ha)]; [done|by apply Hk]. }
    rewrite (H _ H1), (H _ H2). apply He.
Qed.

Lemma agree_get_result h : pg_get_result h db1 = pg_get_result h db2 →
  agree (GetResult (DataStore := PgStore ticks) h).
Proof. apply agree_query. Qed.

(** Closes an [agree] goal whose computation is a return, by cases. *)
Ltac agree_ret_tac := repeat case_match; apply agree_ret.

Lemma agree_simulation (k : result error Simulation → state_t World response) id :
  (∀ e, agree (k (Err e))) →
  (∀ a, (∀ h, Store.ContentHash a = Some h → pg_get_result h db1 = pg_get_result h db2) →
     agree (k (Ok a))) →
  (∀ a, UserID a ≠ u → k (Ok a) = k (Err ErrNotFound)) →
  agree (x ← GetSimulation (DataStore := PgStore ticks) id; k x).
Proof.
  intros He Hok Hk. apply (agree_lookup UserID); [|auto|done].
  destruct (view_simulation u db1 db2 Hv Hu1 Hu2 id) as [E|H]; [left|by right].
  split; [done|]. intros a Ha Hu. apply Hok. intros h.
  exact (view_result u db1 db2 Hv id a h Ha Hu).
Qed.

Lemma not_owner (a : string) : a ≠ u → negb (String.eqb a u) = true.
Proof. by intros ->%String.eqb_neq. Qed.

Lemma agree_v1_get_simulation id :
  agree (handleGetSimulation (H := PgStore ticks) (Some u) id).
Proof.
  apply agree_simulation.
  - intros []; apply agree_ret.
  - intros sim Hres. case_match; [apply agree_ret|]. cbv zeta.
    case_match; [|apply agree_ret]. apply agree_bind; [by apply agree_get_result, Hres|].
    intros r. apply agree_ret.
  - intros a Ha%not_owner. change (userID (Some u)) with u. by rewrite Ha.
Qed.

Lemma agree_v1_get_result id :
  agree (handleGetResult (H := PgStore ticks) (Some u) id).
Proof.
  apply agree_simulation.
  - intros []; apply agree_ret.
  - intros sim Hres. case_match; [apply agree_ret|].
    case_match; [|apply agree_ret]. apply agree_bind; [by apply agree_get_result, Hres|].
    intros r. agree_ret_tac.
  - intros a Ha%not_owner. change (userID (Some u)) with u. by rewrite Ha.
Qed.

Lemma agree_batch (k : result error Batch → state_t World response) id :
  (∀ e, agree (k (Err e))) →
  (∀ a, (∃ x, uuid_in id = Some x ∧
     List.filter (is_child x) (simulations db1) = List.filter (is_child x) (simulations db2)) →
     agree (k (Ok a))) →
  (∀ a, BUserID a ≠ u → k (Ok a) = k (Err ErrNotFound)) →
  agree (x ← GetBatch (DataStore := PgStore ticks) id; k x).
Proof.
  intros He Hok Hk. apply (agree_lookup BUserID (get_batch id)); [|done..].
  destruct (view_batch u db1 db2 Hv Hu1 Hu2 id) as [[E H]|H]; [left|by right].
  split; [done|]. intros b Hb Hub. eauto.
Qed.

Lemma agree_v1_get_batch id : agree (handleGetBatch (H := PgStore ticks) (Some u) id).
Proof.
  apply agree_batch.
  - intros []; apply agree_ret.
  - intros a _. agree_ret_tac.
  - intros a Ha%not_owner. change (userID (Some u)) with u. by rewrite Ha.
Qed.

Lemma agree_page id l o :
  (∃ x, uuid_in id = Some x ∧
     List.filter (is_child x) (simulations db1) = List.filter (is_child x) (simulations db2)) →
  agree (ListBatchSimulations (DataStore := PgStore ticks) id l o).
Proof.
  intros (x & Ex & E). cbn [ListBatchSimulations PgStore]. unfold st_list_batch_simulations.
  apply agree_bind.
  { apply agree_query. unfold pg_count_batch_simulations, with_uuid, count. by rewrite Ex, E. }
  intros [n|e]; [|apply agree_ret]. apply agree_bind; [|intros []; apply agree_ret].
  apply agree_query. unfold pg_page_batch_simulations, with_uuid. by rewrite Ex, E.
Qed.

Lemma agree_v1_list id q :
  agree (handleListBatchSimulations (H := PgStore ticks) (Some u) id q).
Proof.
  unfold handleListBatchSimulations. destruct (pageParams q) as [l o].
  apply agree_batch.
  - intros []; apply agree_ret.
  - intros a Ha. case_match; [apply agree_ret|].
    apply agree_bind; [by apply agree_page|]. intros r. agree_ret_tac.
  - intros a Ha%not_owner. change (userID (Some u)) with u. by rewrite Ha.
Qed.

Lemma agree_oblivious {A} (m : state_t World A) :
  (∀ n, ∃ n' r, ∀ db, m (mkWorld db n) = (mkWorld db n', r)) → agree m.
Proof. intros H n. destruct (H n) as (n' & r & E). exists n', r. by rewrite !E. Qed.

Lemma agree_v1_artifacts s id :
  (∀ p, presigner s = Some p → oblivious p) →
  agree (handleListArtifacts (H := PgStore ticks) s (Some u) id).
Proof.
  intros Hp. unfold handleListArtifacts. destruct (presigner s) as [p|]; [|apply agree_ret].
  specialize (Hp p eq_refl). apply agree_simulation.
  - intros []; apply agree_ret.
  - intros sim Hres. case_match; [apply agree_ret|].
    case_match; [|apply agree_ret]. apply agree_bind; [by apply agree_get_result, Hres|].
    intros [r|[]]; try apply agree_ret. destruct (resultPrefix _ _ _) as [b pre].
    apply agree_bind; [apply agree_oblivious; intros n; apply (ob_list p Hp)|].
    intros [l|e]; [|apply agree_ret]. apply agree_bind; [|intros x; agree_ret_tac].
    induction l as [|o l IH]; cbn [mint_artifacts]; [apply agree_ret|].
    apply agree_bind; [apply agree_oblivious; intros n; apply (ob_get p Hp)|].
    intros [url|e]; [|apply agree_ret]. apply agree_bind; [apply IH|]. intros y. agree_ret_tac.
  - intros a Ha%not_owner. change (userID (Some u)) with u. by rewrite Ha.
Qed.

Lemma agree_v1 s r :
  (∀ p, presigner s = Some p → oblivious p) → is_read r = true →
  agree (v1 (H := PgStore ticks) s r (Some u)).
Proof.
  intros Hp Hr. destruct r; try done; cbn [v1];
    (apply agree_bind; [|intros x; apply agree_ret]).
  - apply agree_v1_get_simulation.
  - apply agree_v1_get_batch.
  - apply agree_v1_list.
  - apply agree_v1_get_result.
  - by apply agree_v1_artifacts.
Qed.
End reads.

(** ** Property *)
#[local] Instance demo_uuid_instance : PgUuid := demo_uuid.

(** Alice and bob, and a batch of bob's with one simulation, which has a result. *)
Definition demo_bob : DB :=
  with_results
    (run [ECreateBatch "b9" 1 "bob" 1 (Some "key-1");
          EInsertSimulation "s9" 2 2
            (mkParams (Some "b9") "bob" "24.1.0" 1 "s3://models/m.idf" "s3://weather/w.epw"
               None None "" "h" "queued")] (mkDB [demo_user "alice"; demo_user "bob"] [] [] [] []))
    [mkResult "h" "clean" "{}" None None 3].

(** C5: object-level authorisation (audit 1), as non-interference.  If two
    databases hold the same simulations of a user, the same batches of that user
    with the same children, and the same results for the content hashes of that
    user's own simulations, then every read endpoint answers that user with the
    same status and body on both, whatever id is asked for and whatever
    simulations, batches and results there are besides.  In particular the
    answer for somebody else's object, or for the hash of somebody else's
    result, is the answer for one that does not exist. *)
Theorem reads_leak_nothing {PU : PgUuid} {UL : UnicodeLib} ticks s r u db1 db2 n :
  quiet ticks → (∀ p, presigner s = Some p → oblivious p) → is_read r = true →
  same_view u db1 db2 → unique_ids db1 → unique_ids db2 →
  (v1 (H := PgStore ticks) s r (Some u) (mkWorld db1 n)).2 =
  (v1 (H := PgStore ticks) s r (Some u) (mkWorld db2 n)).2.
Proof.
  intros Hq Hp Hr Hv H1 H2.
  destruct (agree_v1 ticks Hq u db1 db2 Hv H1 H2 s r Hp Hr n) as (n' & a & E1 & E2).
  by rewrite E1, E2.
Qed.

Lemma reads_leak_nothing_witness :
  let s := NewServer (W := World) None (LoadConfig (λ _, "")) in
  length (simulations demo_bob) = 1 ∧ length (results demo_bob) = 1 ∧
  (∀ id, id ∈ ["s9"; "h"] →
   (v1 (H := PgStore demo_ticks) s (GetResultBySim id) (Some "alice") (mkWorld demo_bob 0)).2 =
   (v1 (H := PgStore demo_ticks) s (GetResultBySim id) (Some "alice")
      (mkWorld (mkDB [demo_user "alice"; demo_user "bob"] [] [] [] []) 0)).2).
Proof.
  intros s. split; [reflexivity|]. split; [reflexivity|]. intros id _.
  apply (reads_leak_nothing demo_ticks s (GetResultBySim id) "alice" demo_bob).
  - apply demo_ticks_quiet.
  - intros p H. discriminate H.
  - reflexivity.
  - split; try reflexivity.
    + intros b Hb. vm_compute in Hb.
      apply list_elem_of_singleton in Hb as ->. intros H. discriminate H.
    + intros x h Hx. vm_compute in Hx.
      apply list_elem_of_singleton in Hx as ->. intros H. discriminate H.
  - split; apply (bool_decide_unpack _); reflexivity.
  - split; apply (bool_decide_unpack _); reflexivity.
Defined.
