(* ===== verification/RefSpec.v ===== *)
(** * Input references and uploads

    Which references validateInputRef lets through to a Runner that fetches
    them with broad credentials, and that the references POST /v1/uploads mints
    are among them. *)
From S2P Require Import Prelude GoLib Json JsonText Store Queue Config Http Auth Handlers Uploads Router ApiFixtures.
Local Open Scope string_scope.

(** The buckets a kind of input may be in. *)
Definition kind_buckets (c : Config) (kind : string) : list string :=
  if String.eqb kind "model" then ["models"; BucketModels c]
  else if String.eqb kind "weather" then ["weather"; BucketWeather c]
  else [].

(** [s3://bucket/key] with a bucket of the kind and a key. *)
Definition confined (c : Config) (kind ref : string) : Prop :=
  ∃ bucket key, ref = s3_ref bucket key ∧ lacks "/" bucket = true ∧
    bucket ≠ "" ∧ key ≠ "" ∧ bucket ∈ kind_buckets c kind.

Definition demo_presigner : presignClient unit :=
  mkPresign (λ b k w, (w, Ok ("https://s3/" +:+ b +:+ "/" +:+ k)))
    (λ b k w, (w, Ok ("https://s3/" +:+ b +:+ "/" +:+ k))) (λ _ _ w, (w, Ok []))
    (300 * 10 ^ 9).

(** ** Parsing *)
Lemma parseS3URI_ref bucket key :
  lacks "/" bucket = true → parseS3URI (s3_ref bucket key) = (bucket, key).
Proof.
  intros Hb. unfold parseS3URI, s3_ref. rewrite CutPrefix_app. str_norm.
  by rewrite Cut_lacks.
Qed.

Lemma parseS3URI_inv uri bucket key :
  parseS3URI uri = (bucket, key) → key ≠ "" →
  uri = s3_ref bucket key ∧ lacks "/" bucket = true.
Proof.
  unfold parseS3URI, s3_ref. destruct (CutPrefix uri "s3://") as [rest|] eqn:E.
  2: { intros [= <- <-]. done. }
  apply CutPrefix_Some in E as ->.
  destruct (Cut rest "/") as [[b k] f] eqn:Ec. intros [= -> ->] Hk.
  apply Cut_spec in Ec as (Hl & Ht & Hf). split; [|done].
  destruct f; [by rewrite (Ht eq_refl)|]. by destruct (Hf eq_refl) as [_ ->].
Qed.

Lemma string_eqb_or a b : String.eqb a "" || String.eqb b "" = false ↔ a ≠ "" ∧ b ≠ "".
Proof. by rewrite orb_false_iff, !String.eqb_neq. Qed.

Lemma validateInputRef_None {UL : UnicodeLib} c ref kind :
  validateInputRef c ref kind = None ↔ confined c kind ref.
Proof.
  unfold validateInputRef, confined, kind_buckets.
  destruct (parseS3URI ref) as [bucket key] eqn:E. split.
  - destruct (_ || _) eqn:Eb; [done|]. apply string_eqb_or in Eb as [Hb Hk].
    apply parseS3URI_inv in E as [-> Hl]; [|done]. cbv zeta.
    intros H. exists bucket, key. split_and!; [done..|].
    assert (Hpair : ∀ l r, (if negb (String.eqb bucket l) && negb (String.eqb bucket r)
        then Some (kind +:+ ".ref bucket " +:+ Quote bucket +:+ " is not allowed") else None) = None →
        bucket ∈ [l; r]).
    { intros l r. destruct (String.eqb_spec bucket l) as [->|]; [by left|].
      destruct (String.eqb_spec bucket r) as [->|]; [|done]. right. by left. }
    destruct (String.eqb kind "model"); [by apply Hpair|].
    destruct (String.eqb kind "weather"); [by apply Hpair|done].
  - intros (b & k & -> & Hl & Hb & Hk & Hin).
    rewrite parseS3URI_ref in E by done. injection E as <- <-.
    rewrite (proj2 (string_eqb_or _ _)) by done. cbv zeta.
    destruct (String.eqb kind "model"); [|destruct (String.eqb kind "weather"); [|by apply not_elem_of_nil in Hin]];
      apply elem_of_cons in Hin as [-> | ->%list_elem_of_singleton];
      by rewrite !String.eqb_refl, ?andb_false_r.
Qed.

Lemma lacks_basename s : string_forallb basename_char s = true → lacks "/" s = true.
Proof.
  apply string_forallb_impl. intros c Hc. apply negb_true_iff, not_true_iff_false.
  intros <-%Ascii.eqb_eq. by vm_compute in Hc.
Qed.

(** ** File names *)
Lemma string_rev_app_empty s : ∀ acc, string_rev_app s acc = "" → s = "" ∧ acc = "".
Proof.
  induction s as [|c s IH]; intros acc; cbn [string_rev_app]; [done|].
  by intros [_ ?]%IH.
Qed.

Lemma string_rev_empty s : string_rev s = "" → s = "".
Proof. by intros [? _]%string_rev_app_empty. Qed.

Lemma upto_slash_strip s :
  strip_leading_slashes s ≠ "" → upto_slash (strip_leading_slashes s) ≠ "".
Proof.
  induction s as [|c s IH]; cbn [strip_leading_slashes]; [done|].
  destruct (Ascii.eqb c "/") eqn:E; [done|]. cbn [upto_slash]. by rewrite E.
Qed.

Lemma path_Base_nonempty p : path_Base p ≠ "".
Proof.
  unfold path_Base. destruct (decide (p = "")); [done|].
  destruct (decide (strip_leading_slashes (string_rev p) = "")) as [|Hne]; [done|].
  intros H%string_rev_empty. by apply upto_slash_strip in Hne.
Qed.

Lemma upload_base_chars f :
  string_forallb basename_char (upload_base f) = true ∧ upload_base f ≠ "".
Proof.
  split; [by apply replace_outside_allowed|].
  apply replace_outside_nonempty, path_Base_nonempty.
Qed.

Lemma kind_buckets_upload c kind bucket :
  upload_bucket c kind = Some bucket → bucket ∈ kind_buckets c kind.
Proof.
  unfold upload_bucket, kind_buckets.
  destruct (String.eqb kind "model"); [intros [= <-]; right; by left|].
  destruct (String.eqb kind "weather"); [intros [= <-]; right; by left|done].
Qed.

Lemma upload_key_nonempty uid sha base : upload_key uid sha base ≠ "".
Proof. unfold upload_key. by case_decide. Qed.

Lemma lacks_app_sep u v a b :
  lacks "/" u = true → lacks "/" v = true →
  u +:+ "/" +:+ a = v +:+ "/" +:+ b → u = v ∧ a = b.
Proof.
  intros Hu Hv E. apply (f_equal (λ s, Cut s "/")) in E. revert E. str_norm.
  rewrite !Cut_lacks by done. by intros [= -> ->].
Qed.

(** ** Properties *)

(** C18: a reference reaches a Runner only if it is confined (audit 5).  For any
    configuration, validateInputRef accepts exactly the strings s3://bucket/key
    whose bucket is the logical or the configured bucket of the kind and whose
    key is not empty; everything else is refused with the error that says why:
    not an s3 URI with a bucket and a key (file:// and plain paths among them),
    a bucket that is not the kind's, which is quoted, or an unknown kind. *)
Theorem accepted_refs_are_confined {UL : UnicodeLib} c ref kind :
  match validateInputRef c ref kind with
  | None => confined c kind ref
  | Some e =>
      (e = kind +:+ ".ref must be an s3:// URI" ∧ ∀ bucket key,
         ref = s3_ref bucket key → lacks "/" bucket = true → bucket = "" ∨ key = "") ∨
      (∃ b key, e = kind +:+ ".ref bucket " +:+ Quote b +:+ " is not allowed" ∧
         (b ∉ kind_buckets c kind) ∧ ref = s3_ref b key ∧ lacks "/" b = true) ∨
      (e = "unknown ref kind " +:+ Quote kind ∧ kind_buckets c kind = [])
  end ∧
  (confined c kind ref → validateInputRef c ref kind = None).
Proof.
  split; [|apply validateInputRef_None].
  destruct (validateInputRef c ref kind) as [e|] eqn:E; [|by apply validateInputRef_None].
  assert (Hno : ¬ confined c kind ref) by (intros H%validateInputRef_None; congruence).
  unfold validateInputRef in E. destruct (parseS3URI ref) as [bucket key] eqn:Ep.
  destruct (_ || _) eqn:Eb.
  - injection E as <-. left. split; [done|]. intros b k -> Hl.
    rewrite parseS3URI_ref in Ep by done. injection Ep as -> ->.
    destruct (decide (bucket = "")); [by left|]. destruct (decide (key = "")); [by right|].
    by rewrite (proj2 (string_eqb_or _ _)) in Eb.
  - apply string_eqb_or in Eb as [Hb Hk]. apply parseS3URI_inv in Ep as [-> Hl]; [|done].
    cbv zeta in E. assert (Hnot : bucket ∉ kind_buckets c kind).
    { intros Hin. apply Hno. by exists bucket, key. }
    right. destruct (kind_buckets c kind) as [|k0 l0] eqn:Ek; [right|left]; revert E Ek;
      unfold kind_buckets; (destruct (String.eqb kind "model");
        [|destruct (String.eqb kind "weather")]); try done.
    + by intros [= <-].
    + intros E Ek. exists bucket, key. rewrite <-Ek in Hnot.
      case_match; [injection E as <-|discriminate]. by rewrite <-Ek.
    + intros E Ek. exists bucket, key. rewrite <-Ek in Hnot.
      case_match; [injection E as <-|discriminate]. by rewrite <-Ek.
Qed.

(** What POST /v1/uploads mints can be submitted.  For a configuration
    whose buckets are not empty and have no slash, a 200 answer carries the URL
    the presigner gave for one bucket and key, and the reference
    s3://bucket/key of the same object, which validateInputRef accepts for that
    kind; the last segment of the key is a non-empty name of letters, digits,
    dots, underscores and dashes whatever the file name was. *)
Theorem minted_ref_is_accepted {W} {UL : UnicodeLib} (s : Server W) p c body req w :
  presigner s = Some p → upload_request body = Some req →
  (∀ bucket, upload_bucket (cfg s) (Kind req) = Some bucket →
     bucket ≠ "" ∧ lacks "/" bucket = true) →
  let r := (handleCreateUpload s c body w).2 in
  status r = StatusOK →
  ∃ bucket url, let key := upload_key (userID c) (uSHA256 req) (upload_base (Filename req)) in
    upload_bucket (cfg s) (Kind req) = Some bucket ∧
    (PresignPut p bucket key w).2 = Ok url ∧
    resp_body r = Encode (upload_response url (s3_ref bucket key) (ExpiresIn p)) ∧
    validateInputRef (cfg s) (s3_ref bucket key) (Kind req) = None ∧
    string_forallb basename_char (upload_base (Filename req)) = true ∧
    upload_base (Filename req) ≠ "".
Proof.
  intros Hp Hreq Hb. cbv zeta. unfold handleCreateUpload. rewrite Hp, Hreq.
  destruct (upload_bucket (cfg s) (Kind req)) as [bucket|] eqn:Ek; [|done].
  cbv zeta. destruct (_ || _); [done|]. rewrite state_bind_run.
  destruct (PresignPut _ _ _ _) as [w' [url|e]] eqn:Eu; [|done]. intros _. cbn [fst snd].
  destruct (Hb bucket eq_refl) as [Hne Hl].
  exists bucket, url. rewrite Eu.
  split_and!; [done..| |apply upload_base_chars|apply upload_base_chars].
  apply validateInputRef_None.
  eexists bucket, _. split_and!; [done..|apply upload_key_nonempty|].
  by apply kind_buckets_upload.
Qed.

Lemma minted_ref_is_accepted_witness :
  let s := NewServer (Some demo_presigner) (LoadConfig (λ _, "")) in
  let body := json_text "{'kind':'model','filename':'../../etc/my model.idf'}" in
  let req := mkUploadReq "model" "../../etc/my model.idf" "" in
  upload_base (Filename req) = "my_model.idf" ∧
  ∃ bucket url, upload_bucket (cfg s) (Kind req) = Some bucket ∧
    (PresignPut demo_presigner bucket "uploads/alice/my_model.idf" tt).2 = Ok url ∧
    validateInputRef (cfg s) (s3_ref bucket "uploads/alice/my_model.idf") "model" = None.
Proof.
  intros s body req. split; [reflexivity|].
  destruct (minted_ref_is_accepted s demo_presigner (Some "alice") body req tt)
    as (bucket & url & H1 & H2 & _ & H4 & _).
  - reflexivity.
  - vm_compute. reflexivity.
  - intros b H. injection H as <-. by split.
  - reflexivity.
  - exists bucket, url. split; [exact H1|]. split; [exact H2|exact H4].
Defined.

(** Uploads without a digest never share an object between users.  The key
    such an upload gets determines the user and the sanitised file name, as long
    as user ids have no slash; two uploads with the same digest and the same
    sanitised name share one object, whoever uploads; and as long as a digest
    has no slash, its key is never one of a user's own. *)
Theorem upload_keys_are_per_user u1 u2 f1 f2 :
  lacks "/" u1 = true → lacks "/" u2 = true →
  (upload_key u1 "" (upload_base f1) = upload_key u2 "" (upload_base f2) ↔
   u1 = u2 ∧ upload_base f1 = upload_base f2) ∧
  (∀ sha, sha ≠ "" → upload_key u1 sha (upload_base f1) = upload_key u2 sha (upload_base f1)) ∧
  (∀ sha, sha ≠ "" → lacks "/" sha = true →
     upload_key u1 sha (upload_base f1) ≠ upload_key u2 "" (upload_base f2)).
Proof.
  intros H1 H2. unfold upload_key. split; [|split].
  - rewrite !decide_True by done. split; [|by intros [-> ->]].
    intros E%string_app_inj. by apply lacks_app_sep.
  - intros sha Hs. by rewrite !decide_False.
  - intros sha Hs Hl. rewrite decide_False, decide_True by done.
    intros E%string_app_inj. pose proof (upload_base_chars f1) as [Hc _].
    apply lacks_basename in Hc.
    assert (Hcut : Cut (sha +:+ "-" +:+ upload_base f1) "/" =
                   (sha +:+ "-" +:+ upload_base f1, "", false)).
    { destruct (Cut _ "/") as [[b a] f] eqn:Ec. apply Cut_spec in Ec as (_ & Ht & Hf).
      destruct f; [|by destruct (Hf eq_refl) as [-> ->]].
      assert (Hall : lacks "/" (sha +:+ "-" +:+ upload_base f1) = true).
      { unfold lacks in *. rewrite !string_forallb_app, Hl, Hc. done. }
      rewrite (Ht eq_refl) in Hall. unfold lacks in Hall.
      rewrite string_forallb_app in Hall. cbn [string_forallb] in Hall.
      by rewrite Ascii.eqb_refl, andb_false_r in Hall. }
    rewrite E in Hcut. revert Hcut. str_norm. by rewrite Cut_lacks.
Qed.

Lemma upload_keys_are_per_user_witness :
  upload_key "alice" "" (upload_base "m.idf") ≠ upload_key "bob" "" (upload_base "m.idf").
Proof.
  intros E.
  pose proof (upload_keys_are_per_user "alice" "bob" "m.idf" "m.idf" eq_refl eq_refl) as H.
  destruct H as [H _]. apply H in E. destruct E as [E _]. discriminate E.
Defined.

(** The digest is not checked to be one: with an arbitrary string in its place,
    a caller reaches an object under another user's prefix. *)
Example upload_key_forged :
  upload_key "mallory" "alice/x" (upload_base "m.idf") =
  upload_key "alice" "" (upload_base "x-m.idf").
Proof. reflexivity. Qed.
