(* ===== verification/RequestSpec.v ===== *)
(** * Bodies: what a client sends is what the handlers get, what they answer is JSON

    The three request types against any JSON encoder, the bodies that decode
    into each of them ([fits], by their Go types), and the type of every answer
    of a /v1 route. *)
From S2P Require Import Prelude GoLib Json JsonText JsonSpec Sql Schema Lifecycle Store Fleet Session Queue Config Http Auth Handlers Uploads Router ApiFixtures RefSpec.
Local Open Scope string_scope.

(** ** The requests as a client writes them *)
Definition omitempty (name : string) (s : string) : list (string * json) :=
  if decide (s = "") then [] else [(name, JStr s)].

Definition int_member (name : string) (p : option Z) : list (string * json) :=
  match p with Some z => [(name, JInt z)] | None => [] end.

(** A json.RawMessage that holds the text of a value, or none. *)
Definition raw_member (name : string) (spec : option json) : list (string * json) :=
  match spec with Some v => [(name, v)] | None => [] end.
Definition raw_text (D : dialect) (spec : option json) : string :=
  match spec with Some v => write D v | None => "" end.

Definition ref_json (r : artifactRef) : json :=
  JStruct ([("ref", JStr (Ref r))] ++ omitempty "sha256" (SHA256 r)).

Definition simulation_json (req : createSimulationRequest) (spec : option json) : json :=
  JStruct ([("engineVersion", JStr (sEngineVersion req)); ("model", ref_json (sModel req));
            ("weather", ref_json (sWeather req))] ++
           int_member "priority" (sPriority req) ++ raw_member "extractionSpec" spec).

Definition variant_json (v : variantReq) : json :=
  JStruct ([("model", ref_json (qModel v))] ++ omitempty "name" (qName v)).

Definition batch_json (req : createBatchRequest) (spec : option json) : json :=
  JStruct ([("engineVersion", JStr (bEngineVersion req)); ("weather", ref_json (bWeather req));
            ("variants", JArr (map variant_json (bVariants req)))] ++
           int_member "priority" (bPriority req) ++
           int_member "maxParallelism" (bMaxParallelism req) ++
           omitempty "idempotencyKey" (bIdempotencyKey req) ++ raw_member "extractionSpec" spec).

Definition upload_json (req : createUploadRequest) : json :=
  JStruct ([("kind", JStr (Kind req)); ("filename", JStr (Filename req))] ++
           omitempty "sha256" (uSHA256 req)).

(** Strings that are UTF-8, integers that are int64. *)
Definition ref_valid (r : artifactRef) : bool := ValidString (Ref r) && ValidString (SHA256 r).
Definition int_valid (p : option Z) : bool :=
  match p with Some z => (- 2 ^ 63 <=? z)%Z && (z <? 2 ^ 63)%Z | None => true end.
Definition simulation_valid (req : createSimulationRequest) : bool :=
  ValidString (sEngineVersion req) && ref_valid (sModel req) && ref_valid (sWeather req)
  && int_valid (sPriority req).
Definition variant_valid (v : variantReq) : bool := ref_valid (qModel v) && ValidString (qName v).
Definition batch_valid (req : createBatchRequest) : bool :=
  ValidString (bEngineVersion req) && ref_valid (bWeather req)
  && forallb variant_valid (bVariants req) && int_valid (bPriority req)
  && int_valid (bMaxParallelism req) && ValidString (bIdempotencyKey req).
Definition upload_valid (req : createUploadRequest) : bool :=
  ValidString (Kind req) && ValidString (Filename req) && ValidString (uSHA256 req).

Section read_back.
Context (D : dialect) (Hok : dialect_ok D).

(** The members a struct's value has. *)
Abbreviation sent l := (map (λ m : string * json,
  (clean 0 m.1, (write D m.2, value_of D m.2))) l).

(** ** Decoding, member by member *)
Lemma store_members_app {A} (fields : list (string * decoder A)) l1 l2 : ∀ old,
  store_members fields old (l1 ++ l2)%list =
  (new ← store_members fields old l1; store_members fields new l2).
Proof.
  induction l1 as [|[key [raw v]] l1 IH]; intros old; [done|]. cbn [store_members app].
  destruct (lookup_field fields key) as [dec|]; [|apply IH].
  destruct (dec old raw v) as [new|]; [apply IH|done].
Qed.

Lemma store_cons {A B} (fields : list (string * decoder A)) name (get : A → B) set dec
    raw v l old b :
  lookup_field fields name = Some (dec_field get set dec) → dec (get old) raw v = Some b →
  store_members fields old ((name, (raw, v)) :: l) = store_members fields (set b old) l.
Proof. intros El Ed. cbn [store_members]. rewrite El. unfold dec_field. by rewrite Ed. Qed.

Lemma clean_valid s : ValidString s = true → clean 0 s = s.
Proof. by intros H%String.eqb_eq. Qed.

(** An omitted empty string is what the variable holds already. *)
Lemma store_omitempty {A} (fields : list (string * decoder A)) name get set s old :
  lookup_field fields name = Some (dec_field get set dec_string) →
  clean 0 name = name → ValidString s = true → (s = "" → set s old = old) →
  store_members fields old (sent (omitempty name s)) = Some (set s old).
Proof.
  intros El Hn Hs Ho. unfold omitempty.
  destruct (decide (s = "")) as [E|E]; [by rewrite Ho|].
  cbn [map store_members value_of fst snd]. rewrite Hn, El, (clean_valid s Hs).
  by unfold dec_field.
Qed.

Lemma Atoi_pretty64 z : (- 2 ^ 63 <= z < 2 ^ 63)%Z → Atoi (pretty z) = Some z.
Proof.
  intros Hz. destruct (Z.lt_trichotomy z 0) as [Hn|[->|Hp]]; [|done|by apply Atoi_pretty; lia].
  destruct z as [|p|p]; [lia|lia|].
  assert (E : parse_unsigned (pretty (Z.pos p)) = Some (Z.pos p)).
  { destruct (pretty_pos_lead (Z.pos p)) as (c & r & Ep & _); [lia|]. unfold parse_unsigned.
    rewrite decide_False by (by rewrite Ep). etrans; [apply (parse_pretty_N_go (N.pos p) "")|done]. }
  change (pretty (Z.neg p)) with (String "-" (pretty (Z.pos p))). unfold Atoi. rewrite E.
  change (- Z.pos p)%Z with (Z.neg p).
  by rewrite (proj2 (Z.leb_le _ _)), (proj2 (Z.ltb_lt _ _)) by lia.
Qed.

Lemma store_int {A} (fields : list (string * decoder A)) name get set p old :
  lookup_field fields name = Some (dec_field get set dec_int_ptr) →
  clean 0 name = name → int_valid p = true → (p = None → set p old = old) →
  store_members fields old (sent (int_member name p)) = Some (set p old).
Proof.
  intros El Hn Hp Ho. destruct p as [z|]; [|cbn; by rewrite Ho].
  cbn [int_member map store_members value_of fst snd]. rewrite Hn, El.
  unfold dec_field. cbn [dec_int_ptr mbind option_bind int_valid] in *.
  apply andb_true_iff in Hp as [H1%Z.leb_le H2%Z.ltb_lt].
  by rewrite Atoi_pretty64 by lia.
Qed.

Lemma store_raw {A} (fields : list (string * decoder A)) name get set spec old :
  lookup_field fields name = Some (dec_field get set dec_raw) →
  clean 0 name = name → (spec = None → set (raw_text D spec) old = old) →
  store_members fields old (sent (raw_member name spec)) = Some (set (raw_text D spec) old).
Proof.
  intros El Hn Ho. destruct spec as [v|]; [|by rewrite Ho].
  cbn [raw_member map store_members fst snd]. rewrite Hn, El. by unfold dec_field.
Qed.

Lemma dec_string_valid old s raw : ValidString s = true →
  dec_string old raw (value_of D (JStr s)) = Some s.
Proof. intros H. cbn. by rewrite clean_valid. Qed.

(** Stores the next member, whose value decodes by [dec]. *)
Ltac store_member dec :=
  cbn [map app fst snd]; erewrite store_cons; [|reflexivity|by apply dec].

Lemma decode_ref_json r raw : ref_valid r = true →
  decode_artifactRef zeroRef raw (value_of D (ref_json r)) = Some r.
Proof.
  unfold ref_valid. rewrite andb_true_iff. intros [H1 H2]. destruct r as [ref sha].
  unfold ref_json, decode_artifactRef. cbn [value_of dec_struct Ref SHA256] in *.
  store_member dec_string_valid.
  erewrite store_omitempty; [|reflexivity|done|done|by intros ->]. done.
Qed.

Lemma decode_variant_json v raw : variant_valid v = true →
  decode_variant (mkVariantReq zeroRef "") raw (value_of D (variant_json v)) = Some v.
Proof.
  unfold variant_valid. rewrite andb_true_iff. intros [H1 H2]. destruct v as [m name].
  unfold variant_json, decode_variant. cbn [value_of dec_struct qModel qName] in *.
  store_member decode_ref_json.
  erewrite store_omitempty; [|reflexivity|done|done|by intros ->]. done.
Qed.

Lemma decode_variants vs : forallb variant_valid vs = true →
  store_elems (mkVariantReq zeroRef "") decode_variant []
    (map (λ x, (write D x, value_of D x)) (map variant_json vs)) = Some vs.
Proof.
  induction vs as [|v vs IH]; [done|]. cbn [forallb map store_elems].
  rewrite andb_true_iff. intros [Hv Hvs]. cbn [head tail default].
  change (default (mkVariantReq zeroRef "") None) with (mkVariantReq zeroRef "").
  rewrite decode_variant_json by done. cbn [mbind option_bind]. by rewrite IH.
Qed.

Lemma Decode_write {A} (dec : decoder A) zero v rest :
  (nesting v <= maxNestingDepth)%N → delim rest →
  Decode dec zero (write D v +:+ rest) = dec zero "" (value_of D v).
Proof. intros H Hr. unfold Decode. by rewrite write_first. Qed.

Lemma simulation_read_back req spec rest :
  simulation_valid req = true → sExtractionSpec req = raw_text D spec →
  (nesting (simulation_json req spec) <= maxNestingDepth)%N → delim rest →
  simulation_request (write D (simulation_json req spec) +:+ rest) = Some req.
Proof.
  unfold simulation_valid. rewrite !andb_true_iff. intros [[[H1 H2] H3] H4] Hs Hn Hr.
  unfold simulation_request. rewrite Decode_write by done. clear Hn.
  destruct req as [v m w p e]. cbn [sExtractionSpec] in Hs. subst e.
  unfold simulation_json, decode_createSimulationRequest. cbn [value_of].
  cbn [dec_struct sEngineVersion sModel sWeather sPriority] in *.
  store_member dec_string_valid. store_member decode_ref_json. store_member decode_ref_json.
  rewrite map_app, store_members_app.
  erewrite store_int; [|reflexivity|done|done|by intros ->]. cbn [mbind option_bind].
  erewrite store_raw; [|reflexivity|done|by intros ->]. done.
Qed.

Lemma batch_read_back req spec rest :
  batch_valid req = true → bExtractionSpec req = raw_text D spec →
  (nesting (batch_json req spec) <= maxNestingDepth)%N → delim rest →
  batch_request (write D (batch_json req spec) +:+ rest) = Some req.
Proof.
  unfold batch_valid. rewrite !andb_true_iff. intros [[[[[H1 H2] H3] H4] H5] H6] Hs Hn Hr.
  unfold batch_request. rewrite Decode_write by done. clear Hn.
  destruct req as [v w vs p mp k e]. cbn [bExtractionSpec] in Hs. subst e.
  unfold batch_json, decode_createBatchRequest. cbn [value_of].
  cbn [dec_struct bEngineVersion bWeather bVariants bPriority bMaxParallelism bIdempotencyKey] in *.
  store_member dec_string_valid. store_member decode_ref_json.
  assert (Ev : ∀ raw, dec_slice (mkVariantReq zeroRef "") decode_variant nil_slice raw
    (value_of D (JArr (map variant_json vs))) = Some (mkSlice vs (length vs))).
  { intros raw. cbn [value_of]. pose proof (decode_variants vs H3) as Hd.
    destruct vs as [|v0 vs]; [done|]. cbn [map dec_slice] in *. cbn [backing nil_slice].
    rewrite Hd. cbn [mbind option_bind length]. by rewrite !length_map. }
  store_member Ev. cbn [backing].
  rewrite (firstn_all vs : slice_elems (mkSlice vs (length vs)) = vs).
  rewrite map_app, store_members_app.
  erewrite store_int; [|reflexivity|done|done|by intros ->]. cbn [mbind option_bind].
  rewrite map_app, store_members_app.
  erewrite store_int; [|reflexivity|done|done|by intros ->]. cbn [mbind option_bind].
  rewrite map_app, store_members_app.
  erewrite store_omitempty; [|reflexivity|done|done|by intros ->]. cbn [mbind option_bind].
  erewrite store_raw; [|reflexivity|done|by intros ->]. done.
Qed.

Lemma upload_read_back req rest :
  upload_valid req = true → delim rest → upload_request (write D (upload_json req) +:+ rest) = Some req.
Proof.
  unfold upload_valid. rewrite !andb_true_iff. intros [[H1 H2] H3] Hr.
  unfold upload_request. destruct req as [k f sha]. cbn [Kind Filename uSHA256] in *.
  rewrite Decode_write; [| |done].
  2: { unfold upload_json, omitempty. cbn [uSHA256]. by case_decide. }
  unfold upload_json, decode_createUploadRequest. cbn [value_of].
  cbn [dec_struct Kind Filename uSHA256] in *.
  store_member dec_string_valid. store_member dec_string_valid.
  erewrite store_omitempty; [|reflexivity|done|done|by intros ->]. done.
Qed.
End read_back.

(** encoding/json's Encoder, among others. *)
Lemma Encode_simulation req spec : Encode (simulation_json req spec) =
  write go_json (simulation_json req (normalise <$> spec)) +:+ String "010" "".
Proof.
  unfold Encode, simulation_json, ref_json, omitempty. do 2 f_equal.
  by destruct (decide (SHA256 (sModel req) = "")), (decide (SHA256 (sWeather req) = "")),
    (sPriority req), spec.
Qed.

(** C13: a request arrives as it was sent.  Any create-simulation, create-batch or
    upload request whose strings are UTF-8 and whose integers are int64, written
    by a JSON encoder with the tags of its type (absent optional members
    omitted, the extraction spec any JSON value), is decoded to the same
    request: every variant in its place, the priority or its absence, the
    extraction spec as the text that was sent; whatever follows the document in
    the body is ignored, if it starts with a line end.  The encoder is any whose
    strings, spaces and numbers a reader takes for what they are; encoding/json
    is one and Python's json another. *)
Theorem requests_are_read_back D spec rest :
  dialect_ok D → delim rest →
  (∀ req, simulation_valid req = true → sExtractionSpec req = raw_text D spec →
     (nesting (simulation_json req spec) <= maxNestingDepth)%N →
     simulation_request (write D (simulation_json req spec) +:+ rest) = Some req) ∧
  (∀ req, batch_valid req = true → bExtractionSpec req = raw_text D spec →
     (nesting (batch_json req spec) <= maxNestingDepth)%N →
     batch_request (write D (batch_json req spec) +:+ rest) = Some req) ∧
  (∀ req, upload_valid req = true →
     upload_request (write D (upload_json req) +:+ rest) = Some req).
Proof.
  intros Hok Hr. split_and!; intros.
  - by apply simulation_read_back.
  - by apply batch_read_back.
  - by apply upload_read_back.
Qed.

Lemma requests_are_read_back_witness :
  let spec := Some (JObj [("meters", JArr [JStr "a<b"; JInt (-3)]); ("all", JBool true)]) in
  let req := mkBatchReq "24.1.0" (mkRef "s3://weather/w.epw" "")
    [mkVariantReq (mkRef "s3://models/1.idf" "m1") ""] (Some (-1)%Z) None "k"
    (raw_text go_json spec) in
  batch_request (write go_json (batch_json req spec) +:+ String "010" "garbage") = Some req.
Proof.
  intros spec req.
  apply (requests_are_read_back go_json spec (String "010" "garbage") go_json_ok eq_refl); vm_compute; [reflexivity..|].
  discriminate.
Defined.

(** ** The type of a body

    The Go types of the requests, as far as encoding/json looks at them, and
    which JSON values it stores into a variable of such a type. *)
Inductive gotype :=
  | TString
  | TIntPtr
  | TRaw
  | TSlice (t : gotype)
  | TStruct (fields : list (string * gotype)).

(** A member goes to the field of its name, or of its name up to case; one
    without a field is skipped. *)
Definition member_fits (fields : list (string * (value → bool))) (key : string) (v : value) : bool :=
  match List.find (λ f, String.eqb f.1 key) fields with
  | Some f => f.2 v
  | None => match List.find (λ f, String.eqb (foldName f.1) (foldName key)) fields with
            | Some f => f.2 v
            | None => true
            end
  end.

Fixpoint fits (t : gotype) (v : value) {struct t} : bool :=
  match t, v with
  | TRaw, _ | _, VNull => true
  | TString, VStr _ => true
  | TIntPtr, VNum n => match Atoi n with Some _ => true | None => false end
  | TSlice t', VArr l => forallb (λ e, fits t' e.2) l
  | TStruct fs, VObj ms =>
      let fields := map (λ f, (f.1, fits f.2)) fs in forallb (λ m, member_fits fields m.1 m.2.2) ms
  | _, _ => false
  end.

Definition artifactRef_type : gotype := TStruct [("ref", TString); ("sha256", TString)].
Definition simulation_type : gotype :=
  TStruct [("engineVersion", TString); ("model", artifactRef_type); ("weather", artifactRef_type);
           ("priority", TIntPtr); ("extractionSpec", TRaw)].
Definition batch_type : gotype :=
  TStruct [("engineVersion", TString); ("weather", artifactRef_type);
           ("variants", TSlice (TStruct [("model", artifactRef_type); ("name", TString)]));
           ("priority", TIntPtr); ("maxParallelism", TIntPtr); ("idempotencyKey", TString);
           ("extractionSpec", TRaw)].
Definition upload_type : gotype :=
  TStruct [("kind", TString); ("filename", TString); ("sha256", TString)].

(** *** Decoders and types *)
Definition decodes {A} (dec : decoder A) (t : gotype) : Prop :=
  ∀ old raw v, is_Some (dec old raw v) ↔ fits t v = true.

Lemma decodes_string : decodes dec_string TString.
Proof. intros old raw []; cbn; split; try done; by eexists || intros [? ?]. Qed.

Lemma decodes_int_ptr : decodes dec_int_ptr TIntPtr.
Proof.
  intros old raw []; cbn; try (split; try done; by eexists || intros [? ?]).
  destruct (Atoi text); cbn; split; try done; by eexists || intros [? ?].
Qed.

Lemma decodes_raw : decodes dec_raw TRaw.
Proof. intros old raw v. split; [done|]. by eexists. Qed.

Lemma decodes_field {A B} (get : A → B) set dec t :
  decodes dec t → decodes (dec_field get set dec) t.
Proof.
  intros H old raw v. rewrite <-(H (get old) raw v). unfold dec_field.
  destruct (dec (get old) raw v); cbn; [|done]. split; by eexists.
Qed.

Lemma decodes_slice {A} (zero : A) dec t : decodes dec t → decodes (dec_slice zero dec) (TSlice t).
Proof.
  intros H old raw v. destruct v as [|b|n|x|l|l]; cbn; try (split; try done; by eexists || intros [? ?]).
  assert (Hl : ∀ old, is_Some (store_elems zero dec old l) ↔ forallb (λ e, fits t e.2) l = true).
  { induction l as [|[r v] l IH]; intros o; cbn; [split; by eexists|].
    rewrite andb_true_iff, <-(H (default zero (head o)) r v), <-(IH (tail o)).
    destruct (dec _ r v); cbn; [|by split; [intros [? ?]|intros [[? ?] _]]].
    destruct (store_elems _ _ (tail o) l); cbn; [by split; [|eexists]|].
    by split; [intros [? ?]|intros [_ [? ?]]]. }
  destruct l as [|e l]; [by split; [|eexists]|]. rewrite <-(Hl (backing old)).
  destruct (store_elems _ _ _ _); cbn; [by split; eexists|by split; intros [? ?]].
Qed.

(** The fields of a struct, name by name. *)
Definition fields_decode {A} (fields : list (string * decoder A)) (ts : list (string * gotype)) : Prop :=
  Forall2 (λ f t, f.1 = t.1 ∧ decodes f.2 t.2) fields ts.

Lemma find_field {A} (p : string → bool) (fields : list (string * decoder A)) ts :
  fields_decode fields ts →
  match List.filter (λ f, p f.1) fields,
        List.find (λ f, p f.1) (map (λ f : string * gotype, (f.1, fits f.2)) ts) with
  | f :: _, Some g => ∃ t, g.2 = fits t ∧ decodes f.2 t
  | [], None => True
  | _, _ => False
  end.
Proof.
  induction 1 as [|[n d] [n' t] fs ts [E Hd] _ IH]; [done|]. cbn in E, Hd. subst n'.
  cbn [List.filter List.find map fst snd]. destruct (p n); [by exists t|exact IH].
Qed.

Lemma decodes_struct {A} (fields : list (string * decoder A)) ts :
  fields_decode fields ts → decodes (dec_struct fields) (TStruct ts).
Proof.
  intros Hf old raw v. destruct v as [|b|n|x|l|l]; cbn; try (split; try done; by eexists || intros [? ?]).
  revert old. induction l as [|[key [r v]] l IH]; intros old; cbn; [split; by eexists|].
  rewrite andb_true_iff. unfold lookup_field, member_fits.
  pose proof (find_field (λ n, String.eqb n key) fields ts Hf) as H1. cbn beta in H1.
  pose proof (find_field (λ n, String.eqb (foldName n) (foldName key)) fields ts Hf) as H2. cbn beta in H2.
  assert (Hstep : ∀ d t, decodes d t → is_Some (new ← d old r v; store_members fields new l) ↔
    fits t v = true ∧ forallb (λ m, member_fits (map (λ f, (f.1, fits f.2)) ts) m.1 m.2.2) l = true).
  { intros d t Hd. rewrite <-(Hd old r v).
    destruct (d old r v) as [new|]; cbn; [|by split; [intros [? ?]|intros [[? ?] _]]].
    rewrite (IH new). split; [intros H; split; [by eexists|done]|by intros [_ H]]. }
  destruct (List.filter _ fields) as [|f fs], (List.find _ (map _ ts)) as [g|]; try done.
  - clear H1. destruct (List.filter _ fields) as [|f fs], (List.find _ (map _ ts)) as [g|]; try done.
    + rewrite (IH old). tauto.
    + destruct H2 as (t & -> & Hd). by apply Hstep.
  - destruct H1 as (t & -> & Hd). by apply Hstep.
Qed.

(** The decoders of the sources' types. *)
Create HintDb decodes.
#[local] Hint Resolve decodes_string decodes_int_ptr decodes_raw decodes_field decodes_slice : decodes.
Ltac by_fields := apply decodes_struct;
  repeat (apply Forall2_cons; split; [split; [reflexivity|cbn [snd]; auto with decodes]|]);
  apply Forall2_nil_2.

Lemma decodes_ref : decodes decode_artifactRef artifactRef_type.
Proof. by_fields. Qed.
#[local] Hint Resolve decodes_ref : decodes.

Lemma decodes_variant :
  decodes decode_variant (TStruct [("model", artifactRef_type); ("name", TString)]).
Proof. by_fields. Qed.
#[local] Hint Resolve decodes_variant : decodes.

Lemma decodes_simulation : decodes decode_createSimulationRequest simulation_type.
Proof. by_fields. Qed.
Lemma decodes_batch : decodes decode_createBatchRequest batch_type.
Proof. unfold decode_createBatchRequest, batch_field. by_fields. Qed.
Lemma decodes_upload : decodes decode_createUploadRequest upload_type.
Proof. by_fields. Qed.

(** The body starts with a JSON value of the type. *)
Definition body_fits (t : gotype) (body : string) : Prop :=
  ∃ v, first_value body = Some v ∧ fits t v = true.

Lemma Decode_fits {A} (dec : decoder A) zero t body :
  decodes dec t → is_Some (Decode dec zero body) ↔ body_fits t body.
Proof.
  intros H. unfold Decode, body_fits. destruct (first_value body) as [v|]; cbn.
  - rewrite (H zero "" v). split; [eauto|by intros (v' & [= <-] & Hv)].
  - by split; [intros [? ?]|intros (? & ? & _)].
Qed.

Lemma simulation_request_fits body : is_Some (simulation_request body) ↔ body_fits simulation_type body.
Proof. apply Decode_fits, decodes_simulation. Qed.
Lemma batch_request_fits body : is_Some (batch_request body) ↔ body_fits batch_type body.
Proof. unfold batch_request. rewrite fmap_is_Some. apply Decode_fits, decodes_batch. Qed.
Lemma upload_request_fits body : is_Some (upload_request body) ↔ body_fits upload_type body.
Proof. apply Decode_fits, decodes_upload. Qed.

(** C29: a body is taken exactly when it has the type of its request, and any
    other is refused before anything happens.  It is a create-simulation,
    create-batch or upload request exactly when it starts with a JSON value of
    that Go type: null, or an object each of whose members, matched to a field by
    name or by name up to case, is null or a string where the field is one, an
    integer in int64 where it is one, an object of the same kind where it is a
    struct, an array of such objects for the variants, and anything for the
    extraction spec; members without a field do not matter, and neither does what
    is missing.  On any other body POST /v1/simulations and POST /v1/batches
    answer 400 "invalid JSON body" and nothing else happens, no statement, no
    expansion; POST /v1/uploads does the same, but for a server without object
    storage, which answers 503 to every body. *)
Theorem bodies_are_taken_by_type {W} `{DataStore W} {UL : UnicodeLib} (s : Server W) c body w :
  let bad := writeError StatusBadRequest "invalid JSON body" in
  (is_Some (simulation_request body) ↔ body_fits simulation_type body) ∧
  (is_Some (batch_request body) ↔ body_fits batch_type body) ∧
  (is_Some (upload_request body) ↔ body_fits upload_type body) ∧
  (¬ body_fits simulation_type body → handleCreateSimulation s c body w = (w, bad)) ∧
  (¬ body_fits batch_type body → handleCreateBatch s c body w = (w, (bad, None))) ∧
  (¬ body_fits upload_type body → handleCreateUpload s c body w =
     (w, match presigner s with
         | Some _ => bad
         | None => writeError StatusServiceUnavailable
                     "presigned uploads not configured (no S3 endpoint)"
         end)).
Proof.
  split; [apply simulation_request_fits|]. split; [apply batch_request_fits|].
  split; [apply upload_request_fits|].
  rewrite <-simulation_request_fits, <-batch_request_fits, <-upload_request_fits.
  rewrite <-!eq_None_not_Some. split_and!; intros E.
  - unfold handleCreateSimulation. by rewrite E.
  - unfold handleCreateBatch. by rewrite E.
  - unfold handleCreateUpload. destruct (presigner s); [by rewrite E|done].
Qed.

(** A priority that is a string, a variant whose reference is one, and a body in
    other cases with a member more, which is taken. *)
Lemma bodies_are_taken_by_type_witness :
  let S := PgStore (PU := demo_uuid) demo_ticks in
  let w := mkWorld demo_start 0 in
  let bad := writeError StatusBadRequest "invalid JSON body" in
  handleCreateSimulation (H := S) demo_server (Some "alice")
    (json_text "{'engineVersion': '24.1.0', 'priority': '1'}") w = (w, bad) ∧
  handleCreateBatch (H := S) demo_server (Some "alice")
    (json_text "{'variants': [{'model': {'ref': 'm'}}, {'model': 'm'}]}") w = (w, (bad, None)) ∧
  is_Some (simulation_request (json_text "{'ENGINEVERSION': '24.1.0', 'Priority': 1, 'more': [], 'model': null}")).
Proof.
  intros S w bad. split_and!.
  - destruct (bodies_are_taken_by_type (H := S) demo_server (Some "alice")
      (json_text "{'engineVersion': '24.1.0', 'priority': '1'}") w) as (_ & _ & _ & H & _).
    apply H. intros (v & E & Hv). vm_compute in E. injection E as <-. discriminate Hv.
  - destruct (bodies_are_taken_by_type (H := S) demo_server (Some "alice")
      (json_text "{'variants': [{'model': {'ref': 'm'}}, {'model': 'm'}]}") w) as (_ & _ & _ & _ & H & _).
    apply H. intros (v & E & Hv). vm_compute in E. injection E as <-. discriminate Hv.
  - destruct (bodies_are_taken_by_type (H := S) demo_server (Some "alice")
      (json_text "{'ENGINEVERSION': '24.1.0', 'Priority': 1, 'more': [], 'model': null}") w) as [H _].
    apply (proj2 H). clear. eexists. split; [vm_compute; reflexivity|]. vm_compute. reflexivity.
Defined.

(** ** The type of an answer *)
Definition error_answer (st : Z) (v : json) : Prop :=
  (st ∈ [StatusBadRequest; StatusUnauthorized; StatusNotFound; StatusInternalServerError;
         StatusServiceUnavailable]) ∧
  ∃ msg, v = JObj [("error", JStr msg)].

Definition payload_type (v : json) : Prop := ∃ verdict metrics uri,
  v = JObj [("verdict", JStr verdict); ("metrics", metrics); ("artifactUri", opt_json uri)].

Definition item_type (v : json) : Prop := ∃ id state error,
  v = JObj ([("id", JStr id); ("state", JStr state)] ++ match error with
            | Some e => [("error", JStr e)] | None => [] end).

Definition artifact_type (v : json) : Prop := ∃ name url size, v = artifact_entry name url size.

(** The success answers (CONTRACT 3). *)
Definition v1_type (r : v1_route) (st : Z) (v : json) : Prop :=
  match r with
  | PostSimulations _ => st = StatusCreated ∧ ∃ id state,
      v = JObj [("id", JStr id); ("state", JStr state)] ∧ state ∈ ["queued"; "succeeded"]
  | GetSimulationById _ => st = StatusOK ∧ ∃ id state result error,
      v = JObj ([("id", JStr id); ("state", JStr state)] ++ result ++ error)%list ∧
      (result = [] ∨ ∃ verdict payload, payload_type payload ∧
         result = [("verdict", JStr verdict); ("result", payload)]) ∧
      (error = [] ∨ ∃ e, error = [("error", JStr e)])
  | PostBatches _ => st = StatusAccepted ∧ ∃ id state,
      v = JObj [("batchId", JStr id); ("state", JStr state)]
  | GetBatchById _ => st = StatusOK ∧ ∃ id state total succeeded failed,
      v = JObj [("id", JStr id); ("state", JStr state); ("total", JInt total);
                ("succeeded", JInt succeeded); ("failed", JInt failed)]
  | GetBatchSimulations _ _ => st = StatusOK ∧ ∃ items total,
      v = JObj [("items", JArr items); ("total", JInt total)] ∧ Forall item_type items
  | GetResultBySim _ => st = StatusOK ∧ payload_type v
  | PostUploads _ => st = StatusOK ∧ ∃ url ref expires,
      v = JStruct [("url", JStr url); ("ref", JStr ref); ("method", JStr "PUT");
                   ("expiresIn", JInt expires)]
  | GetResultArtifacts _ => st = StatusOK ∧ ∃ l,
      v = JStruct [("artifacts", JArr l)] ∧ Forall artifact_type l
  end.

Definition typed (r : v1_route) (resp : response) : Prop :=
  ∃ st v, resp = writeJSON st v ∧ (v1_type r st v ∨ error_answer st v).

(** What a computation can answer, from any state. *)
Definition gives {W A} (P : A → Prop) (m : state_t W A) : Prop := ∀ w, P (m w).2.

Lemma gives_ret {W A} (P : A → Prop) (a : A) : P a → gives (W := W) P (mret a).
Proof. by intros H w. Qed.

Lemma gives_bind {W A B} (Q : A → Prop) (P : B → Prop) (m : state_t W A) k :
  gives Q m → (∀ a, Q a → gives P (k a)) → gives P (x ← m; k x).
Proof. intros Hm Hk w. rewrite state_bind_run. apply Hk, Hm. Qed.

Lemma gives_bind_any {W A B} (P : B → Prop) (m : state_t W A) k :
  (∀ a, gives P (k a)) → gives P (x ← m; k x).
Proof. intros Hk. by apply (gives_bind (λ _, True)). Qed.

Lemma typed_error r st msg :
  (st ∈ [StatusBadRequest; StatusUnauthorized; StatusNotFound; StatusInternalServerError;
         StatusServiceUnavailable]) → typed r (writeError st msg).
Proof. intros H. eexists st, _. split; [done|]. right. split; [done|by eexists]. Qed.

Lemma typed_ok r st v : v1_type r st v → typed r (writeJSON st v).
Proof. intros H. exists st, v. by split; [|left]. Qed.

Lemma payload_typed r : payload_type (resultPayload r).
Proof. by eexists _, _, _. Qed.

(** Closes an error answer. *)
Ltac refuse :=
  lazymatch goal with
  | |- gives _ (mret (writeError _ _)) =>
      apply gives_ret, typed_error, (bool_decide_unpack _); reflexivity
  | |- gives _ (mret (writeError _ _, _)) =>
      apply gives_ret; cbn [fst]; apply typed_error, (bool_decide_unpack _); reflexivity
  end.

(** Goes through a handler's guards, and through its calls as well. *)
Ltac guards := repeat first [ refuse | progress cbv zeta | case_match ].
Ltac answers := repeat first [ refuse | progress cbv zeta | apply gives_bind_any; intros | case_match ].

Section typed.
Context {W : Type} `{DataStore W} {UL : UnicodeLib} (s : Server W).

Lemma gives_resolve_cache model weather hash :
  gives (λ r, ∀ st, r = Ok st → st ∈ ["queued"; "succeeded"]) (resolve_cache model weather hash).
Proof.
  unfold resolve_cache. case_match; [|by apply gives_ret; intros st [= <-]; left].
  apply gives_bind_any. intros [[]|e]; apply gives_ret; intros st; [..|done]; intros [= <-].
  - right. left.
  - left.
Qed.

Lemma typed_create_simulation c body :
  gives (typed (PostSimulations body)) (handleCreateSimulation s c body).
Proof.
  unfold handleCreateSimulation. guards.
  eapply gives_bind; [apply gives_resolve_cache|]. intros [st|e] Hst; [|refuse].
  apply gives_bind_any. intros [id|e]; [|refuse]. apply gives_ret, typed_ok. split; [done|]. eauto.
Qed.

Lemma typed_get_simulation c id : gives (typed (GetSimulationById id)) (handleGetSimulation c id).
Proof.
  unfold handleGetSimulation. answers; apply gives_ret, typed_ok; (split; [done|]).
  all: eexists _, _, _, _; split; [reflexivity|]; split; [|repeat case_match; eauto].
  all: repeat case_match; eauto using payload_typed.
Qed.

Lemma typed_batches c body :
  gives (λ o, typed (PostBatches body) o.1) (handleCreateBatch s c body).
Proof.
  assert (Hc : ∀ uid req p, gives (λ o, typed (PostBatches body) o.1) (createBatch uid req p)).
  { intros uid req p. unfold createBatch. answers.
    all: apply gives_ret, typed_ok; split; [done|]; eauto. }
  unfold handleCreateBatch. answers; first [apply Hc | apply gives_ret].
  all: apply typed_ok; split; [done|]; eauto.
Qed.

Lemma typed_get_batch c id : gives (typed (GetBatchById id)) (handleGetBatch c id).
Proof.
  unfold handleGetBatch. answers. apply gives_ret, typed_ok. split; [done|].
  by eexists _, _, _, _, _.
Qed.

Lemma typed_list_batch c id q :
  gives (typed (GetBatchSimulations id q)) (handleListBatchSimulations c id q).
Proof.
  unfold handleListBatchSimulations. answers. apply gives_ret, typed_ok. split; [done|].
  eexists _, _. split; [done|]. apply Forall_map, Forall_true. intros sim.
  by eexists _, _, (Error sim).
Qed.

Lemma typed_get_result c id : gives (typed (GetResultBySim id)) (handleGetResult c id).
Proof.
  unfold handleGetResult. answers. apply gives_ret, typed_ok.
  split; [done|apply payload_typed].
Qed.

Lemma typed_upload c body : gives (typed (PostUploads body)) (handleCreateUpload s c body).
Proof.
  unfold handleCreateUpload. answers. apply gives_ret, typed_ok. split; [done|].
  by eexists _, _, _.
Qed.

Lemma gives_mint p bucket prefix objs :
  gives (λ r, ∀ l, r = Ok l → Forall artifact_type l)
    (mint_artifacts (W := W) p bucket prefix objs).
Proof.
  induction objs as [|o objs IH]; cbn [mint_artifacts].
  - apply gives_ret. by intros l [= <-].
  - apply gives_bind_any. intros [url|e]; [|by apply gives_ret].
    eapply gives_bind; [apply IH|]. intros [l|e] Hl; apply gives_ret; [|done].
    intros l' [= <-]. constructor; [by eexists _, _, _|auto].
Qed.

Lemma typed_artifacts c id : gives (typed (GetResultArtifacts id)) (handleListArtifacts s c id).
Proof.
  unfold handleListArtifacts.
  repeat first [ refuse | lazymatch goal with
                          | |- gives _ (mbind _ (mint_artifacts _ _ _ _)) => fail
                          | |- gives _ (mbind _ _) => apply gives_bind_any; intros
                          end | case_match ].
  eapply gives_bind; [apply gives_mint|]. intros [l|e] Hl; [|refuse].
  apply gives_ret, typed_ok. split; [done|]. eauto.
Qed.

Lemma typed_v1 c r : gives (λ o : outcome, typed r o.1) (v1 s r c).
Proof.
  assert (Hresp : ∀ m : state_t W response, gives (typed r) m → gives (λ o : outcome, typed r o.1) (respond m)).
  { intros m Hm. eapply gives_bind; [exact Hm|]. intros a Ha. by apply gives_ret. }
  destruct r; cbn [v1]; try apply Hresp.
  - apply typed_create_simulation.
  - apply typed_get_simulation.
  - apply typed_batches.
  - apply typed_get_batch.
  - apply typed_list_batch.
  - apply typed_get_result.
  - apply typed_upload.
  - apply typed_artifacts.
Qed.

Lemma typed_serve h r w : typed r (serve s (mkRequest h (V1 r)) w).2.1.
Proof.
  revert w. change (gives (λ o : outcome, typed r o.1) (serve s (mkRequest h (V1 r)))).
  unfold serve. cbn [req_route Authorization]. unfold authMiddleware.
  destruct (bearerToken h) as [raw []]; cbn [negb]; [|refuse].
  apply gives_bind_any. intros [u|[]]; [apply typed_v1|refuse..].
Qed.
End typed.

(** C12: every answer has its type (CONTRACT 3).  Whatever the store, the
    presigner, the token and the request, a /v1 route answers
    application/json: either with its success status and an object of exactly
    the members of that endpoint, of their types (a created simulation is
    queued or succeeded, an error is present only when there is one), or with
    one of the five error statuses and an object whose one member is an error
    string.  The bytes are one JSON document that reads back as that value (as
    long as the metrics of a result are not nested beyond the reader's limit of
    10000). *)
Theorem answers_are_typed {W} `{DataStore W} {UL : UnicodeLib} (s : Server W) h r w :
  let resp := (serve s (mkRequest h (V1 r)) w).2.1 in
  ∃ st v, resp = writeJSON st v ∧ (v1_type r st v ∨ error_answer st v) ∧
    content_type resp = "application/json" ∧
    ((nesting (normalise v) <= maxNestingDepth)%N →
     whole_value (resp_body resp) = Some (value_of go_json (normalise v))).
Proof.
  cbv zeta. destruct (typed_serve s h r w) as (st & v & -> & Hv). exists st, v. split_and!; [done..|].
  intros Hn. by apply Encode_whole.
Qed.

(** ** Metrics are read and written again

    resultPayload decodes the metrics column and encodes it anew: keys in
    order, the last of repeated members, and numbers as float64. *)
Example metrics_are_rewritten :
  Encode (resultPayload (mkResultV "h" "ok"
    (json_text "{'steps': 9007199254740993, 'area': 1.50, 'area': 2e0}") None None 0)) =
  json_text "{'artifactUri':null,'metrics':{'area':2,'steps':9007199254740992},'verdict':'ok'}"
  +:+ String "010" "".
Proof. vm_compute. reflexivity. Qed.
