(* ===== verification/PyConfig.v ===== *)
(** * runner/synergy_runner/config.py: the Runner's configuration

    [from_env] as a function of os.environ and the host's name; [Err] is the
    exception (a ValueError, or the SystemExit of a missing variable) that ends
    the process before it claims anything. *)
From S2P Require Import Prelude GoLib PyLib.
Local Open Scope string_scope.

Record RunnerConfig := mkRunnerConfig {
  database_url : string;
  s3_endpoint : option string;
  s3_region : string;
  s3_access_key : option string;
  s3_secret_key : option string;
  bucket_models : string;
  bucket_weather : string;
  bucket_results : string;
  runner_id : string;
  engine_version : string;
  per_user_cap : Z;
  lease_seconds : Z;
  heartbeat_seconds : Z;
  poll_seconds : pyfloat;
  workspace_root : string;
  fetch_attempts : Z;
  fetch_retry_seconds : pyfloat;
  energyplus_bin : string;
  artifact_ttl_days : option Z;
}.

(** [os.environ.get(key) or None] *)
Definition env_nonempty (e : environ) (key : string) : option string :=
  match e key with Some v => if decide (v = "") then None else Some v | None => None end.

Section config.
Context {PyU : PyUnicode}.

(** [parse(os.environ.get(key, default))] *)
Definition env_parse {A} (parse : string → option A) (e : environ) (key def : string) :
    result string A :=
  match parse (default def (e key)) with
  | Some a => Ok a
  | None => Err ("invalid " +:+ key)
  end.

Definition required (e : environ) (key : string) : result string string :=
  match env_nonempty e key with
  | Some v => Ok v
  | None => Err ("missing required env var " +:+ key)
  end.

Definition env_ttl (e : environ) : result string (option Z) :=
  match env_nonempty e "SP_ARTIFACT_TTL_DAYS" with
  | None => Ok None
  | Some raw => match py_int raw with Some z => Ok (Some z) | None => Err "invalid literal for int()" end
  end.

Definition try_let {A B} (r : result string A) (k : A → result string B) : result string B :=
  match r with Ok a => k a | Err e => Err e end.

Definition from_env (e : environ) (hostname : string) : result string RunnerConfig :=
  try_let (env_ttl e) (λ ttl,
  try_let (required e "DATABASE_URL") (λ url,
  try_let (env_parse py_int e "SP_PER_USER_CAP" "50") (λ cap,
  try_let (env_parse py_int e "SP_LEASE_SECONDS" "90") (λ lease,
  try_let (env_parse py_int e "SP_HEARTBEAT_SECONDS" "30") (λ beat,
  try_let (env_parse py_float e "SP_POLL_SECONDS" "2") (λ poll,
  try_let (env_parse py_int e "SP_FETCH_ATTEMPTS" "3") (λ attempts,
  try_let (env_parse py_float e "SP_FETCH_RETRY_SECONDS" "1") (λ retry,
  Ok {|
    database_url := url;
    s3_endpoint := env_nonempty e "S3_ENDPOINT";
    s3_region := default "us-east-1" (e "S3_REGION");
    s3_access_key := env_nonempty e "S3_ACCESS_KEY";
    s3_secret_key := env_nonempty e "S3_SECRET_KEY";
    bucket_models := default "models" (e "S3_BUCKET_MODELS");
    bucket_weather := default "weather" (e "S3_BUCKET_WEATHER");
    bucket_results := default "results" (e "S3_BUCKET_RESULTS");
    runner_id := default hostname (env_nonempty e "SP_RUNNER_ID");
    engine_version := default "24.1.0" (e "SP_ENGINE_VERSION");
    per_user_cap := cap;
    lease_seconds := lease;
    heartbeat_seconds := beat;
    poll_seconds := poll;
    workspace_root := default "/tmp/synergy-runner" (e "SP_WORKSPACE");
    fetch_attempts := attempts;
    fetch_retry_seconds := retry;
    energyplus_bin := default "energyplus" (e "SP_ENERGYPLUS_BIN");
    artifact_ttl_days := ttl;
  |})))))))).
End config.

(** ** Facts *)
Lemma try_let_Ok {A B} (r : result string A) (k : A → result string B) b :
  try_let r k = Ok b ↔ ∃ a, r = Ok a ∧ k a = Ok b.
Proof.
  destruct r as [a|e]; cbn [try_let]; [|by split; [|intros (? & [=] & _)]].
  split; [by exists a|]. by intros (a' & [= ->] & ?).
Qed.

Section facts.
Context {PyU : PyUnicode}.

Lemma env_parse_Ok {A} (parse : string → option A) e key def a :
  env_parse parse e key def = Ok a ↔ parse (default def (e key)) = Some a.
Proof.
  unfold env_parse. destruct (parse _) as [a'|]; [|done]. by split; intros [= ->].
Qed.

(** The fields of a configuration, and the environments that have one. *)
Lemma from_env_Ok e host cfg :
  from_env e host = Ok cfg →
  env_nonempty e "DATABASE_URL" = Some (database_url cfg) ∧
  env_ttl e = Ok (artifact_ttl_days cfg) ∧
  engine_version cfg = default "24.1.0" (e "SP_ENGINE_VERSION") ∧
  py_int (default "50" (e "SP_PER_USER_CAP")) = Some (per_user_cap cfg) ∧
  py_int (default "90" (e "SP_LEASE_SECONDS")) = Some (lease_seconds cfg) ∧
  runner_id cfg = default host (env_nonempty e "SP_RUNNER_ID") ∧
  bucket_models cfg = default "models" (e "S3_BUCKET_MODELS") ∧
  bucket_weather cfg = default "weather" (e "S3_BUCKET_WEATHER") ∧
  bucket_results cfg = default "results" (e "S3_BUCKET_RESULTS").
Proof.
  unfold from_env. intros E.
  apply try_let_Ok in E as (ttl & Ettl & E). apply try_let_Ok in E as (url & Eurl & E).
  do 6 (apply try_let_Ok in E as (? & ?%env_parse_Ok & E)). injection E as <-.
  cbn. split_and!; try done.
  unfold required in Eurl. destruct (env_nonempty e "DATABASE_URL"); [|done]. by injection Eurl as ->.
Qed.

Lemma from_env_starts e host :
  is_Some (env_nonempty e "DATABASE_URL") → e "SP_ARTIFACT_TTL_DAYS" = None →
  is_Some (py_int (default "50" (e "SP_PER_USER_CAP"))) →
  is_Some (py_int (default "90" (e "SP_LEASE_SECONDS"))) →
  is_Some (py_int (default "30" (e "SP_HEARTBEAT_SECONDS"))) →
  e "SP_POLL_SECONDS" = None → e "SP_FETCH_ATTEMPTS" = None →
  e "SP_FETCH_RETRY_SECONDS" = None → ∃ cfg, from_env e host = Ok cfg.
Proof.
  intros [url Hu] Ht [cap Hc] [lease Hl] [beat Hb] Hp Ha Hr. unfold from_env, env_ttl, required, env_parse.
  rewrite Hu, Hc, Hl, Hb, Hp, Ha, Hr. unfold env_nonempty at 1. rewrite Ht. cbn [try_let default id].
  eexists. reflexivity.
Qed.

Lemma from_env_needs e host cfg : from_env e host = Ok cfg →
  is_Some (py_int (default "30" (e "SP_HEARTBEAT_SECONDS"))).
Proof.
  unfold from_env. intros E. do 4 (apply try_let_Ok in E as (? & _ & E)).
  apply try_let_Ok in E as (beat & Eb%env_parse_Ok & _). by exists beat.
Qed.
End facts.
