(* ===== verification/Metrics.v ===== *)
(** * runner/synergy_runner: engine.py and metrics.py

    [run_engine] runs EnergyPlus and reads the Core Metrics from its SQLite
    output: [extract] keeps, for each metric, the number of the last cell of the
    tabular reports that is for it.  Processes, files, SQLite and the clock are
    parameters ([EngineIO]).  The names of a cell are texts or NULL, as
    EnergyPlus's schema declares them. *)
From S2P Require Import Prelude GoLib JsonText NetUrl PyLib PyConfig.
Local Open Scope string_scope.
Local Open Scope py_scope.

(** A value of SQLite; [SBlob] prints as no number does. *)
Inductive sql_value := SNull | SInt (z : Z) | SReal (f : pyfloat) | SText (s : string) | SBlob.

(** (ReportName, TableName, RowName, ColumnName, Value) *)
Record cell := mkCell {
  c_report : option string;
  c_table : option string;
  c_row : option string;
  c_col : option string;
  c_value : sql_value;
}.

(** [run_process cmd cwd] is subprocess.run, whatever the exit code; [stopwatch]
    the seconds since the process was started, rounded; an [Err] of the SQLite
    calls is a sqlite3.Error. *)
Class EngineIO (Y : Type) := {
  sql_con : Type;
  makedirs : string → py Y ();
  run_process : list string → string → py Y ();
  stopwatch : state_t Y float64;
  file_exists : string → state_t Y bool;
  sqlite_connect : string → state_t Y (result string sql_con);
  sqlite_fetch : sql_con → string → state_t Y (result string (list cell));
  sqlite_close : sql_con → state_t Y ();
}.

(** ** metrics.py *)
Definition CORE_KEYS : list string :=
  ["site_eui"; "source_eui"; "total_site_energy"; "total_source_energy";
   "unmet_heating_hours"; "unmet_cooling_hours"; "run_seconds"].

Definition dict := list (string * option pyfloat).

Fixpoint dict_set (k : string) (v : option pyfloat) (d : dict) : dict :=
  match d with
  | [] => [(k, v)]
  | (k', v') :: r => if String.eqb k' k then (k', v) :: r else (k', v') :: dict_set k v r
  end.

Fixpoint dict_get (k : string) (d : dict) : option (option pyfloat) :=
  match d with
  | [] => None
  | (k', v) :: r => if String.eqb k' k then Some v else dict_get k r
  end.

Definition empty_metrics : dict := map (λ k, (k, None)) CORE_KEYS.

(** [needle in s] *)
Fixpoint contains (needle s : string) : bool :=
  HasPrefix s needle || match s with String _ r => contains needle r | EmptyString => false end.

(** [(name or "").strip().lower()].  Lowering ASCII is enough for the texts it is
    compared with: outside ASCII only the Kelvin sign becomes an ASCII letter, a k,
    and the dotted capital I an i with a combining dot. *)
Definition normal (name : option string) : string :=
  string_map ascii_lower (py_strip (default "" name)).

Definition is_comma (c : ascii) : bool := Ascii.eqb c ",".

Section metrics.
Context {PyU : PyUnicode}.

(** [str(val)]; a finite float prints as its repr. *)
Definition py_str (v : sql_value) : string :=
  match v with
  | SNull => "None"
  | SInt z => pretty z
  | SReal (Finite f) => float_repr f
  | SReal (Inf neg) => if neg then "-inf" else "inf"
  | SReal NaN => "nan"
  | SText s => s
  | SBlob => "b''"
  end.

Definition _to_float (v : sql_value) : option pyfloat :=
  py_float (py_strip (remove is_comma (py_str v))).

(** The metric a cell is for. *)
Definition metric_of (c : cell) : option string :=
  let rn := normal (c_row c) in
  let tn := normal (c_table c) in
  let cn := normal (c_col c) in
  if contains "site and source energy" tn then
    let is_total_col := String.eqb cn "total energy" in
    let is_eui_col := contains "energy per total building area" cn in
    if String.eqb rn "total site energy" then
      if is_total_col then Some "total_site_energy"
      else if is_eui_col then Some "site_eui" else None
    else if String.eqb rn "total source energy" then
      if is_total_col then Some "total_source_energy"
      else if is_eui_col then Some "source_eui" else None
    else None
  else if contains "comfort and setpoint not met summary" tn then
    if contains "setpoint not met" rn && contains "heating" rn
    then Some "unmet_heating_hours"
    else if contains "setpoint not met" rn && contains "cooling" rn
    then Some "unmet_cooling_hours" else None
  else None.

Definition read_cell (metrics : dict) (c : cell) : dict :=
  match metric_of c with
  | Some k => dict_set k (_to_float (c_value c)) metrics
  | None => metrics
  end.

Definition read_cells (rows : list cell) : dict := fold_left read_cell rows empty_metrics.

Section io.
Context {Y : Type} {IO : EngineIO Y}.

Definition tabular_view : string :=
  "SELECT ReportName, TableName, RowName, ColumnName, Value FROM TabularDataWithStrings".
Definition tabular_join : string :=
  "SELECT r.Value, t.Value, rn.Value, cn.Value, td.Value FROM TabularData td JOIN Strings r ON td.ReportNameIndex = r.StringIndex JOIN Strings t ON td.TableNameIndex = t.StringIndex JOIN Strings rn ON td.RowNameIndex = rn.StringIndex JOIN Strings cn ON td.ColumnNameIndex = cn.StringIndex".

Definition _query_rows (con : sql_con) : state_t Y (result string (list cell)) :=
  rows ← sqlite_fetch con tabular_view;
  match rows with Ok l => mret (Ok l) | Err _ => sqlite_fetch con tabular_join end.

Definition extract (sql_path : string) : state_t Y dict :=
  con ← sqlite_connect ("file:" +:+ sql_path +:+ "?mode=ro");
  match con with
  | Err _ => mret empty_metrics
  | Ok con =>
      rows ← _query_rows con;
      _ ← sqlite_close con;
      mret match rows with Ok l => read_cells l | Err _ => empty_metrics end
  end.

(** ** engine.py *)
Definition with_defaults (metrics : dict) : dict :=
  fold_left (λ m k, match dict_get k m with Some _ => m | None => dict_set k None m end)
    CORE_KEYS metrics.

Definition run_engine (cfg : RunnerConfig) (model_path weather_path out_dir : string) :
    py Y dict :=
  let sql_path := out_dir +:+ "/eplusout.sql" in
  let* _ := makedirs out_dir in
  let* _ := run_process [energyplus_bin cfg; "-w"; weather_path; "-d"; out_dir; "-r"; model_path]
              out_dir in
  elapsed ← stopwatch;
  there ← file_exists sql_path;
  metrics ← (if there : bool then extract sql_path else mret empty_metrics);
  py_ret (with_defaults (dict_set "run_seconds" (Some (Finite elapsed)) metrics)).
End io.
End metrics.
