(* ===== verification/Runner.v ===== *)
(** * The Python runner (src/runner/synergy_runner): the pull loop

    [process_simulation] and [run_forever] of loop.py, the lease thread of
    heartbeat.py, [classify] of parse_err.py and the object-storage shim of
    storage.py, in the exception style of [PyLib].  The database statements are
    those of Fleet.v's events, run one by one in a [World] whose other processes
    (the heartbeat thread among them) act in between.  What the runner calls
    outside the repository is a parameter ([RunnerIO], and [EngineIO] of
    Metrics.v): the file system, boto3 and the EnergyPlus process. *)
From S2P Require Import Prelude GoLib Json JsonText Sha256 PyLib PyConfig Metrics Sql Schema.
From S2P Require Import Lifecycle Store Fleet.
Local Open Scope string_scope.
Local Open Scope py_scope.

(** ** parse_err.py *)

(** What a lower-case letter matches under re.IGNORECASE. *)
Definition folded (c : ascii) : list string :=
  [String c ""; String (ascii_of_N (N_of_ascii c - 32)) ""] ++
  (if Ascii.eqb c "s" then [bytes_str [197; 191]%Z]
   else if Ascii.eqb c "i" then [bytes_str [196; 176]; bytes_str [196; 177]]%Z else []).

Fixpoint match_word (word s : string) : option string :=
  match word with
  | EmptyString => Some s
  | String c w => r ← cut_any s (folded c); match_word w r
  end.

(** The pattern [**\s*word\s**] (its stars escaped) at the start of [s]; the
    greedy runs of spaces need no backtracking, as none of them can match what
    follows. *)
Definition match_marker (word s : string) : bool :=
  let skip r := trim_left (String.length r) py_spaces r in
  match CutPrefix s "**" with
  | None => false
  | Some r => match match_word word (skip r) with
              | None => false
              | Some r' => HasPrefix (skip r') "**"
              end
  end.

(** re.search *)
Fixpoint search (word s : string) : bool :=
  match_marker word s ||
  match s with String _ r => search word r | EmptyString => false end.

Record VerdictRec := mkVerdict { verdict : string; v_warnings : Z; v_severe : Z; v_fatal : Z }.

Definition v_succeeded (v : VerdictRec) : bool :=
  String.eqb (verdict v) "clean" || String.eqb (verdict v) "warnings".

(** The loop over the lines: (warnings, severe, fatal). *)
Fixpoint count_markers (lines : list string) (acc : Z * Z * Z) : Z * Z * Z :=
  match lines with
  | [] => acc
  | line :: rest =>
      let '(w, s, f) := acc in
      count_markers rest
        (if search "fatal" line then (w, s, f + 1)
         else if search "severe" line then (w, s + 1, f)
         else if search "warning" line then (w + 1, s, f) else (w, s, f))%Z
  end.

(** [None]: there is no eplusout.err. *)
Definition classify (err_file : option (list string)) : VerdictRec :=
  match err_file with
  | None => mkVerdict "fatal" 0 0 1
  | Some lines =>
      let '(w, s, f) := count_markers lines (0, 0, 0)%Z in
      mkVerdict (if negb (f =? 0)%Z then "fatal" else if negb (s =? 0)%Z then "severe"
                 else if negb (w =? 0)%Z then "warnings" else "clean") w s f
  end.

(** content_hash *)
Definition py_content_hash (model weather version : string) : string :=
  sha256_hex (model +:+ ":" +:+ weather +:+ ":" +:+ version).

(** ** Outside the repository

    [make_parent p] is os.makedirs(os.path.dirname(p) or ".", exist_ok=True),
    [mkdtemp p] the workspace made under workspace_root with that prefix,
    [db_connect] a new connection, [read_bytes] a whole file, [err_lines] the lines
    of a text file, [None] when there is no such file, [walk dir] the paths of the
    files under [dir], relative to it, and [sleep] any of the waits. *)
Class RunnerIO (Y : Type) := {
  py_repr : string → string;
  make_parent : string → py Y ();
  mkdtemp : string → py Y string;
  db_connect : py Y ();
  download_file : string → string → string → py Y ();
  upload_file : string → string → string → py Y ();
  walk : string → py Y (list string);
  copyfile : string → string → py Y ();
  read_bytes : string → py Y string;
  err_lines : string → py Y (option (list string));
  write_summary : string → string → VerdictRec → dict → py Y ();
  copytree : string → string → py Y ();
  rmtree : string → state_t Y ();
  sleep : state_t Y ();
}.

Section runner.
Context {PU : PgUuid} (ticks : nat → tick) {PyU : PyUnicode} {NL : NetlocLib}.
Context {Y : Type} {IO : RunnerIO Y} {EIO : EngineIO Y} (cfg : RunnerConfig).

(** The database, and everything else. *)
Definition RW : Type := World * Y.

Definition on_db {A} (m : state_t World A) : state_t RW A :=
  λ '(w, σ), let '(w', a) := m w in ((w', σ), a).
Definition on_io {A} (m : state_t Y A) : state_t RW A :=
  λ '(w, σ), let '(σ', a) := m σ in ((w, σ'), a).

(** A statement, whose failure is an exception. *)
Definition statement {A} (q : tick → DB → DB * A) : py RW A :=
  r ← on_db (exec ticks (λ t db, let '(db', a) := q t db in (db', Ok a)));
  match r with
  | Ok a => py_ret a
  | Err (PgErr (Unavailable msg)) => raise msg
  | Err _ => raise "database error"
  end.

(** *** db.py *)
Definition db_claim (lock : string → bool) : py RW (option SimRow) :=
  statement (λ t db,
    let '(r, db') := claim_simulation (runner_id cfg) (engine_version cfg) (per_user_cap cfg)
                       (lease_seconds cfg) lock (t_now t) db in (db', head r)).

Definition db_renew_lease (sim : string) : py RW Z :=
  statement (λ t db,
    let '(n, db') := renew_lease sim (runner_id cfg) (lease_seconds cfg) (t_now t) db in (db', n)).

Definition db_backfill_hashes (sim model weather hash : string) : py RW () :=
  statement (λ t db, (backfill_hashes sim model weather hash db, tt)).

(** The column is jsonb: a text that is not JSON makes the statement fail. *)
Definition db_upsert_result (hash vd : string) (metrics : dict) (uri : option string) : py RW () :=
  let text := dumps_dict metrics in
  match whole_value text with
  | None => raise "invalid input syntax for type json"
  | Some _ =>
      statement (λ t db,
        (upsert_result hash vd text uri (artifact_ttl_days cfg) (t_now t) db, tt))
  end.

Definition db_finish_simulation (sim : string) (succeeded : bool) (err : option string) :
    py RW Z :=
  statement (λ t db,
    let '(n, db') := finish_simulation sim (runner_id cfg) succeeded err (t_now t) db in (db', n)).

(** *** storage.py *)
Definition _resolve_bucket (netloc : string) : string :=
  if String.eqb netloc "models" then bucket_models cfg
  else if String.eqb netloc "weather" then bucket_weather cfg
  else if String.eqb netloc "results" then bucket_results cfg else netloc.

(** [s.lstrip("/")] is [strip_leading_slashes]. *)
Definition py_strip_slashes (s : string) : string :=
  string_rev (strip_leading_slashes (string_rev (strip_leading_slashes s))).

Definition storage_download (ref dest : string) : py Y () :=
  match urlparse ref with
  | Err e => raise e
  | Ok p =>
      let* _ := make_parent dest in
      if String.eqb (u_scheme p) "s3" then
        download_file (_resolve_bucket (u_netloc p)) (strip_leading_slashes (u_path p)) dest
      else if String.eqb (u_scheme p) "file" || String.eqb (u_scheme p) "" then
        copyfile (if String.eqb (u_path p) "" then ref else u_path p) dest
      else raise ("unsupported storage scheme: " +:+ py_repr (Y := Y) ref)
  end.

(** Uploads every file of [dir]; the first failure ends it. *)
Fixpoint upload_files (dir bucket base : string) (files : list string) : py Y () :=
  match files with
  | [] => py_ret tt
  | rel :: rest =>
      let* _ := upload_file (dir +:+ "/" +:+ rel) bucket
                  (if String.eqb base "" then rel else base +:+ "/" +:+ rel) in
      upload_files dir bucket base rest
  end.

Definition storage_upload_dir (dir ref_prefix : string) : py Y () :=
  match urlparse ref_prefix with
  | Err e => raise e
  | Ok p =>
      if String.eqb (u_scheme p) "s3" then
        let* files := walk dir in
        upload_files dir (_resolve_bucket (u_netloc p)) (py_strip_slashes (u_path p)) files
      else if String.eqb (u_scheme p) "file" || String.eqb (u_scheme p) "" then
        copytree dir (if String.eqb (u_path p) "" then ref_prefix else u_path p)
      else raise ("unsupported storage scheme: " +:+ py_repr (Y := Y) ref_prefix)
  end.

Definition sha256_file (path : string) : py Y string :=
  let* bytes := read_bytes path in py_ret (sha256_hex bytes).

(** *** heartbeat.py: one round of the lease thread, which runs beside the loop on
    a connection of its own; a failed renewal only reconnects. *)
Definition heartbeat_round (sim : string) : state_t RW () :=
  renewed ← db_renew_lease sim;
  _ ← match renewed with Ok _ => mret (Ok tt) | Err _ => on_io db_connect end;
  on_io sleep.

(** *** loop.py *)

(** The attempts that are left after the first [i]. *)
Fixpoint fetch_loop (left : nat) (ref dest last : string) : py Y () :=
  match left with
  | O => raise ("could not fetch input " +:+ ref +:+ ": " +:+ last)
  | S left' =>
      r ← storage_download ref dest;
      match r with
      | Ok _ => py_ret tt
      | Err e => if Nat.eqb left' 0 then fetch_loop left' ref dest e
                 else _ ← sleep; fetch_loop left' ref dest e
      end
  end.

Definition _fetch_input (ref dest : string) : py Y () :=
  fetch_loop (Z.to_nat (Z.max 1 (fetch_attempts cfg))) ref dest "None".

(** The body of the try. *)
Definition work (sim : SimRow) (workspace : string) : py RW bool :=
  let model_path := workspace +:+ "/model.idf" in
  let weather_path := workspace +:+ "/weather.epw" in
  let out_dir := workspace +:+ "/out" in
  let* _ := on_io (_fetch_input (s_model_ref sim) model_path) in
  let* _ := on_io (_fetch_input (s_weather_ref sim) weather_path) in
  let* model_sha := on_io (sha256_file model_path) in
  let* weather_sha := on_io (sha256_file weather_path) in
  let ch := py_content_hash model_sha weather_sha (s_engine_version sim) in
  let* _ := db_backfill_hashes (s_id sim) model_sha weather_sha ch in
  let* metrics := on_io (run_engine cfg model_path weather_path out_dir) in
  let* lines := on_io (err_lines (out_dir +:+ "/eplusout.err")) in
  let v := classify lines in
  let* _ := on_io (write_summary (out_dir +:+ "/synergy-summary.json") ch v metrics) in
  let artifact_uri := "s3://" +:+ bucket_results cfg +:+ "/" +:+ ch +:+ "/" in
  uploaded ← on_io (storage_upload_dir out_dir artifact_uri);
  let uri := match uploaded with Ok _ => Some artifact_uri | Err _ => None end in
  let* _ := db_upsert_result ch (verdict v) metrics uri in
  let succeeded := v_succeeded v in
  let* n := db_finish_simulation (s_id sim) succeeded
              (if succeeded then None else Some ("verdict=" +:+ verdict v)) in
  py_ret succeeded.

(** The handler: the simulation is failed, if that statement goes through. *)
Definition fail_sim (sim : SimRow) (exc : string) : py RW bool :=
  _ ← db_finish_simulation (s_id sim) false (Some (take_runes 1000 0 exc));
  py_ret false.

(** [Err]: an exception before the try, which leaves the function. *)
Definition process_simulation (sim : SimRow) : py RW bool :=
  let* workspace := on_io (mkdtemp (slice_to 8 (s_id sim))) in
  let* _ := on_io db_connect in
  let* b := try_except (work sim workspace) (fail_sim sim) in
  _ ← on_io (rmtree workspace);
  py_ret b.

(** One round of run_forever; [Err] ends the process. *)
Definition run_once (lock : string → bool) : py RW () :=
  claimed ← db_claim lock;
  match claimed with
  | Err _ =>                                  (* reconnect and retry *)
      let* _ := on_io db_connect in
      _ ← on_io sleep; py_ret tt
  | Ok None => _ ← on_io sleep; py_ret tt
  | Ok (Some sim) => let* _ := process_simulation sim in py_ret tt
  end.

(** Rounds until a shutdown is requested, at most [rounds]. *)
Fixpoint run_forever (rounds : nat) (lock : nat → string → bool) : py RW () :=
  match rounds with
  | O => py_ret tt
  | S k => let* _ := run_once (lock k) in run_forever k lock
  end.
End runner.

Example classify_ex : map (verdict ∘ classify)
  [None; Some []; Some ["** Warning ** a"]; Some ["  ** Severe  ** b"; "** Warning **"];
   Some ["**  FATAL**"; "** Severe ** c"]; Some ["* Fatal *"]] =
  ["fatal"; "clean"; "warnings"; "severe"; "fatal"; "clean"].
Proof. vm_compute. reflexivity. Qed.
