(* ===== verification/RunnerSpec.v ===== *)
(** * What a Runner does to the simulation it claimed

    [triple P m Q] is a Hoare triple over the database for a computation of the
    runner: the other processes act before every statement, and any statement
    may fail, before or after it took effect.  [friendly] and [leaves_digests]:
    what the others leave alone while the lease is held.  [fetched_inputs]: the
    bytes the storage calls put into the workspace.  The row's digests are a
    parameter of the triples ([tag_laws]), for what needs nothing of them. *)
From S2P Require Import Prelude GoLib Json JsonText Sha256 PyLib PyConfig Metrics Sql Schema.
From S2P Require Import Lifecycle Store Fleet Session Queue Runner.
Local Open Scope string_scope.
Local Open Scope py_scope.

Section spec.
Context {PU : PgUuid} (ticks : nat → tick) {PyU : PyUnicode} {NL : NetlocLib}.
Context {Y : Type} {IO : RunnerIO Y} {EIO : EngineIO Y} (cfg : RunnerConfig).
Context (sim : SimRow).

Abbreviation x := (s_id sim).

(** The row is this Runner's; it has succeeded, and the result of its inputs is
    there; it has failed. *)
Definition mine (db : DB) : Prop :=
  ∃ s, find_sim x db = Some s ∧ fence x (runner_id cfg) s = true.

Definition has_state (st : SimState) (err : option string → Prop) (db : DB) : Prop :=
  ∃ s, find_sim x db = Some s ∧ s_state s = st ∧ err (s_error s) ∧
    s_lease_expires_at s = None ∧ is_Some (s_finished_at s).

Definition succeeded : DB → Prop := has_state Succeeded (λ e, e = None).
Definition lost (db : DB) : Prop := has_state Failed is_Some db.

(** A submission with these digests is accepted as succeeded. *)
Definition cached (m w : string) (db : DB) : Prop :=
  born db m w (ContentHash m w (s_engine_version sim)) = Succeeded.

(** The three columns the Runner fills in. *)
Definition digests (s : SimRow) : option string * option string * option string :=
  (s_model_sha256 s, s_weather_sha256 s, s_content_hash s).

Definition tagged (m w : string) (db : DB) : Prop := ∃ s, find_sim x db = Some s ∧
  digests s = (Some m, Some w, Some (ContentHash m w (s_engine_version sim))).

(** *** The bytes that were fetched *)

(** At most [n] attempts, with a pause after each that failed. *)
Inductive fetches (ref dest : string) : nat → Y → Y → Prop :=
  | fetch_done n σ σ' : storage_download cfg ref dest σ = (σ', Ok tt) → fetches ref dest (S n) σ σ'
  | fetch_again n σ σ1 e σ2 σ' : storage_download cfg ref dest σ = (σ1, Err e) →
      sleep σ1 = (σ2, tt) → fetches ref dest n σ2 σ' → fetches ref dest (S n) σ σ'.

(** From [σ], both inputs of the simulation are fetched into [ws], and the two
    files then have these bytes. *)
Definition fetched_into (ws : string) (σ : Y) (model weather : string) : Prop :=
  let n := Z.to_nat (Z.max 1 (fetch_attempts cfg)) in ∃ σ1 σ2 σ3 σ4,
    fetches (s_model_ref sim) (ws +:+ "/model.idf") n σ σ1 ∧
    fetches (s_weather_ref sim) (ws +:+ "/weather.epw") n σ1 σ2 ∧
    read_bytes (ws +:+ "/model.idf") σ2 = (σ3, Ok model) ∧
    read_bytes (ws +:+ "/weather.epw") σ3 = (σ4, Ok weather).

Definition fetched_inputs (σ : Y) (model weather : string) : Prop := ∃ ws σ1 σ2,
  mkdtemp (slice_to 8 x) σ = (σ1, Ok ws) ∧ db_connect σ1 = (σ2, Ok tt) ∧
  fetched_into ws σ2 model weather.

(** The other processes: the row stays this Runner's while it is (no Reaper gets
    hold of an expired lease), a finished row stays as it is, and no result is
    deleted. *)
Record friendly : Prop := {
  fr_mine : ∀ n db, mine db → mine (t_env (ticks n) db);
  fr_won : ∀ n db, succeeded db → succeeded (t_env (ticks n) db);
  fr_lost : ∀ n db, lost db → lost (t_env (ticks n) db);
  fr_results : ∀ n h db, pg_has_result h db = true → pg_has_result h (t_env (ticks n) db) = true;
}.

(** They do not write the row's digests either, while it is this Runner's or has
    succeeded. *)
Definition leaves_digests : Prop := ∀ n db s, find_sim x db = Some s →
  fence x (runner_id cfg) s = true ∨ s_state s = Succeeded →
  ∃ s', find_sim x (t_env (ticks n) db) = Some s' ∧ digests s' = digests s.

(** What is known of the row's digests, which only the back-fill writes. *)
Record tag_laws (G : string → string → DB → Prop) : Prop := {
  tg_env : ∀ n m w db, mine db ∨ succeeded db → G m w db → G m w (t_env (ticks n) db);
  tg_backfill : ∀ m w db, mine db →
    G m w (backfill_hashes x m w (ContentHash m w (s_engine_version sim)) db);
  tg_upsert : ∀ m w h vd metrics uri ttl now db, G m w db →
    G m w (upsert_result h vd metrics uri ttl now db);
  tg_finish : ∀ m w ok err now db, G m w db →
    G m w (finish_simulation x (runner_id cfg) ok err now db).2;
}.

Context (Hfr : friendly) (G : string → string → DB → Prop) (HG : tag_laws G).

Definition mine_of (m w : string) (db : DB) : Prop := mine db ∧ G m w db.
Definition won_of (m w : string) (db : DB) : Prop := succeeded db ∧ cached m w db ∧ G m w db.

(** It succeeded, for the bytes fetched from [σ] on. *)
Definition won (σ : Y) (db : DB) : Prop := ∃ model weather,
  fetched_inputs σ model weather ∧ won_of (sha256_hex model) (sha256_hex weather) db.

(** ** Triples *)
Definition triple {A} (P : DB → Prop) (m : py (RW (Y := Y)) A)
    (Q : result string A → DB → Prop) : Prop :=
  ∀ w σ, P (w_db w) → Q (m (w, σ)).2 (w_db (m (w, σ)).1.1).

Lemma triple_ret {A} (a : A) (P : DB → Prop) Q :
  (∀ db, P db → Q (Ok a) db) → triple P (py_ret a) Q.
Proof. intros H w σ. apply H. Qed.

Lemma triple_io {A} (P : DB → Prop) (m : py Y A) : triple P (on_io m) (λ _, P).
Proof. intros w σ HP. cbn. by destruct (m σ). Qed.

Lemma triple_bind {A B} P (m : py RW A) (k : A → py RW B) Q R :
  triple P m Q → (∀ a, triple (Q (Ok a)) (k a) R) → (∀ e db, Q (Err e) db → R (Err e) db) →
  triple P (py_bind m k) R.
Proof.
  intros Hm Hk He w σ HP. specialize (Hm w σ HP). unfold py_bind. rewrite state_bind_run.
  destruct (m (w, σ)) as [[w' σ'] [a|e]]; cbn [fst snd] in *; [by apply Hk|by apply He].
Qed.

(** A call outside the database, whose answer does not matter. *)
Lemma triple_bind_io {A B} P (m : py Y A) (k : A → py RW B) (R : result string B → DB → Prop) :
  (∀ a, triple P (k a) R) → (∀ e db, P db → R (Err e) db) →
  triple P (py_bind (on_io m) k) R.
Proof. intros Hk He. eapply triple_bind; [apply triple_io|exact Hk|exact He]. Qed.

Lemma triple_weaken {A} (P P' : DB → Prop) (m : py RW A) Q :
  (∀ db, P' db → P db) → triple P m Q → triple P' m Q.
Proof. intros H Hm w σ HP. apply Hm. auto. Qed.

Definition stable (P : DB → Prop) : Prop := ∀ n db, P db → P (t_env (ticks n) db).

(** A statement: done, or failed with or without its effect. *)
Lemma triple_statement {A} (P : DB → Prop) (q : tick → DB → DB * A) (post : A → DB → Prop) :
  stable P → (∀ t db, P db → post (q t db).2 (q t db).1) →
  triple P (statement ticks (Y := Y) q) (λ r db,
    match r with Ok a => post a db | Err _ => ¬ faultless ticks ∧ (P db ∨ ∃ a, post a db) end).
Proof.
  intros HP Hq w σ Hw. apply (HP (w_time w)) in Hw.
  unfold statement. rewrite state_bind_run. unfold on_db, exec.
  specialize (Hq (ticks (w_time w)) _ Hw).
  destruct (q (ticks (w_time w)) _) as [db' a]. cbn [fst snd] in *.
  destruct (t_fault (ticks (w_time w))) as [f|] eqn:Ef; cbn [fst snd]; [|done].
  split; [intros H; by rewrite H in Ef|]. destruct (applied f); cbn [w_db]; eauto.
Qed.

(** ** The statements *)
Lemma find_sim_ids p f db : (∀ s, s_id (f s) = s_id s) →
  find_sim x (update_simulations p f db).2 = (λ s, if p s then f s else s) <$> find_sim x db.
Proof. intros Hf. unfold find_sim. cbn. by apply find_sim_update. Qed.

Lemma find_sim_finish ok err now db :
  find_sim x (finish_simulation x (runner_id cfg) ok err now db).2 =
  (λ s, if fence x (runner_id cfg) s then finish_row ok err now s else s) <$> find_sim x db.
Proof.
  unfold find_sim. rewrite simulations_finish. by apply find_sim_update.
Qed.

Lemma results_finish ok err now db :
  results (finish_simulation x (runner_id cfg) ok err now db).2 = results db.
Proof.
  unfold finish_simulation, update_simulations_state. cbn [snd]. by rewrite results_fire.
Qed.

Lemma pg_has_result_upsert h v m u ttl now db h' :
  pg_has_result h' (upsert_result h v m u ttl now db) =
  String.eqb h h' || pg_has_result h' db.
Proof.
  unfold pg_has_result, upsert_result. cbn [results with_results].
  destruct (existsb (λ r, String.eqb (r_content_hash r) h) (results db)) eqn:E.
  - assert (Hu : ∀ l, existsb (λ r, String.eqb (r_content_hash r) h')
        (update_where (λ r, String.eqb (r_content_hash r) h)
           (λ r, mkResult h v m u ((λ d, (now + secs (d * 86400))%Z) <$> ttl) (r_created_at r)) l) =
      existsb (λ r, String.eqb (r_content_hash r) h') l).
    { induction l as [|r l IH]; [done|]. cbn [update_where map existsb].
      unfold update_where in IH. rewrite IH. f_equal.
      by destruct (String.eqb_spec (r_content_hash r) h) as [->|]. }
    rewrite Hu. destruct (String.eqb_spec h h') as [<-|]; [|done]. by rewrite E.
  - rewrite existsb_app. cbn. rewrite orb_false_r. apply orb_comm.
Qed.

Lemma cached_stable m w : stable (cached m w).
Proof.
  intros n db H. unfold cached, born in *.
  destruct (has_digests _ _); [|done]. cbn [andb] in *.
  destruct (pg_has_result _ db) eqn:E; [|done]. by rewrite (fr_results Hfr n _ _ E).
Qed.

Lemma mine_stable : stable mine.
Proof. exact (fr_mine Hfr). Qed.
Lemma mine_of_stable m w : stable (mine_of m w).
Proof. intros n db [H1 H2]. split; [by apply mine_stable|]. apply (tg_env _ HG); auto. Qed.
Lemma won_of_stable m w : stable (won_of m w).
Proof.
  intros n db (H1 & H2 & H3). split_and!; [by apply (fr_won Hfr)|by apply cached_stable|].
  apply (tg_env _ HG); auto.
Qed.
Lemma won_stable σ : stable (won σ).
Proof. intros n db (m & w & Hf & H). exists m, w. split; [done|]. by apply won_of_stable. Qed.

Lemma triple_post {A} P (m : py RW A) (Q R : result string A → DB → Prop) :
  triple P m Q → (∀ r db, Q r db → R r db) → triple P m R.
Proof. intros Hm H w σ HP. by apply H, Hm. Qed.

Lemma backfill_mine m w h db : mine db → mine (backfill_hashes x m w h db).
Proof.
  intros (s & Es & Hs). exists (set_hashes s m w h).
  unfold backfill_hashes. rewrite find_sim_ids by done. rewrite Es. cbn.
  apply fence_true in Hs as Hs'. destruct Hs' as (E1 & E2 & E3).
  rewrite E1, String.eqb_refl. split; [done|]. by apply fence_true.
Qed.

Lemma triple_backfill m w :
  triple mine (db_backfill_hashes ticks x m w (py_content_hash m w (s_engine_version sim)))
    (λ r db, match r with Ok _ => mine_of m w db | Err _ => mine db end).
Proof.
  eapply triple_post.
  - apply (triple_statement mine _ (λ _, mine_of m w)); [apply mine_stable|].
    intros t db H. split; [by apply backfill_mine|by apply (tg_backfill _ HG)].
  - intros [a|e] db; [done|]. by intros [_ [H|[_ [H _]]]].
Qed.

(** After the upsert the inputs are in the cache. *)
Lemma triple_upsert model weather vd metrics uri :
  let m := sha256_hex model in let w := sha256_hex weather in
  triple (mine_of m w)
    (db_upsert_result ticks cfg (py_content_hash m w (s_engine_version sim)) vd metrics uri) (λ r db,
    match r with Ok _ => mine_of m w db ∧ cached m w db | Err _ => mine db end).
Proof.
  intros m w. unfold db_upsert_result. cbv zeta.
  destruct (whole_value _) as [v|]; [|by intros ? ? []].
  eapply triple_post.
  - apply (triple_statement (mine_of m w) _ (λ _ db, mine_of m w db ∧ cached m w db));
      [apply mine_of_stable|].
    intros t db [H Ht]. split; [split; [exact H|by apply (tg_upsert _ HG)]|].
    unfold cached, born, has_digests. cbn [fst].
    rewrite pg_has_result_upsert. unfold m, w. rewrite !sha256_hex_nonempty. cbn [negb andb].
    change (ContentHash ?a ?b ?c) with (py_content_hash a b c). by rewrite String.eqb_refl.
  - intros [a|e] db; [done|]. by intros [_ [[H _]|[_ [[H _] _]]]].
Qed.

(** The finish, as the owner. *)
Lemma finish_mine ok err now db : mine db →
  (finish_simulation x (runner_id cfg) ok err now db).1 ≠ 0%Z ∧
  has_state (if ok then Succeeded else Failed) (λ e, e = err)
    (finish_simulation x (runner_id cfg) ok err now db).2.
Proof.
  intros (s & Es & Hs). split.
  - rewrite finish_count. intros E. assert (H : 0 < count (fence x (runner_id cfg)) (simulations db)).
    { apply count_pos. exists s. split; [|done]. by apply find_Some_elem in Es as [? _]. }
    lia.
  - exists (finish_row ok err now s). rewrite find_sim_finish, Es. cbn. rewrite Hs.
    by split_and!; [|destruct ok| | |eexists].
Qed.

Lemma triple_finish_ok m w : triple (λ db, mine_of m w db ∧ cached m w db)
  (db_finish_simulation ticks cfg x true None) (λ r db,
    match r with Ok n => n ≠ 0%Z ∧ won_of m w db
    | Err _ => ¬ faultless ticks ∧ (mine db ∨ won_of m w db) end).
Proof.
  eapply triple_post.
  - apply (triple_statement _ _ (λ n db, n ≠ 0%Z ∧ won_of m w db)).
    + intros n db [H1 H2]. split; [by apply mine_of_stable|by apply cached_stable].
    + intros t db [[H1 Ht] H2]. pose proof (finish_mine true None (t_now t) db H1) as [Hn Hs].
      pose proof (results_finish true None (t_now t) db) as Hr.
      apply (tg_finish _ HG m w true None (t_now t)) in Ht.
      destruct (finish_simulation _ _ _ _ _ _) as [n db']. cbn [fst snd] in *.
      split; [done|]. split_and!; [done| |done].
      unfold cached, born, pg_has_result in *. by rewrite Hr.
  - intros [a|e] db; [done|]. intros [? [[[H _] _]|[_ [_ H]]]]; auto.
Qed.

Lemma triple_finish_failed e : triple mine
  (db_finish_simulation ticks cfg x false (Some e)) (λ r db,
    match r with Ok n => n ≠ 0%Z ∧ lost db | Err _ => ¬ faultless ticks ∧ (mine db ∨ lost db) end).
Proof.
  eapply triple_post.
  - apply (triple_statement _ _ (λ n db, n ≠ 0%Z ∧ lost db)); [apply mine_stable|].
    intros t db H1. pose proof (finish_mine false (Some e) (t_now t) db H1) as [Hn Hs].
    destruct (finish_simulation _ _ _ _ _ _) as [n db']. cbn [fst snd] in *.
    split; [done|]. destruct Hs as (s & H & H' & E & Hrest). exists s. rewrite E. eauto.
  - intros [a|e'] db; [done|]. intros [? [H|[_ [_ H]]]]; auto.
Qed.

(** A finish changes nothing when the row is finished. *)
Lemma finish_terminal st P ok err now db : has_state st P db → st ≠ Running →
  has_state st P (finish_simulation x (runner_id cfg) ok err now db).2.
Proof.
  intros (s & Es & E & Hrest) Hst. exists s. rewrite find_sim_finish, Es. cbn.
  assert (Hf : fence x (runner_id cfg) s = false).
  { apply not_true_iff_false. intros (_ & _ & H)%fence_true. congruence. }
  by rewrite Hf.
Qed.

(** ** The function *)
Lemma triple_mbind_io {A B} P (m : state_t Y A) (k : A → py RW B) (R : result string B → DB → Prop) :
  (∀ a, triple P (k a) R) → triple P (r ← on_io m; k r) R.
Proof.
  intros Hk w σ HP. rewrite state_bind_run. unfold on_io. destruct (m σ) as [σ' a]. by apply Hk.
Qed.

Definition outcome_of (W : DB → Prop) (r : result string bool) (db : DB) : Prop :=
  match r with
  | Ok true => W db
  | Ok false => lost db
  | Err _ => mine db ∨ (¬ faultless ticks ∧ (W db ∨ lost db))
  end.

Lemma outcome_of_mono (W W' : DB → Prop) r db :
  (W db → W' db) → outcome_of W r db → outcome_of W' r db.
Proof. intros H. destruct r as [[]|e]; cbn; tauto. Qed.

(** A call before the first statement: an exception leaves the row alone. *)
Lemma io_then {A} (W : DB → Prop) (m : py Y A) (k : A → py RW bool) w σ :
  mine (w_db w) →
  (∀ a σ', m σ = (σ', Ok a) → outcome_of W (k a (w, σ')).2 (w_db (k a (w, σ')).1.1)) →
  let out := py_bind (on_io m) k (w, σ) in outcome_of W out.2 (w_db out.1.1).
Proof.
  intros Hw Hk. cbv zeta. unfold py_bind. rewrite state_bind_run. unfold on_io.
  destruct (m σ) as [σ' [a|e]] eqn:E; cbn [fst snd]; [by apply Hk|by left].
Qed.

Lemma fetch_loop_Ok ref dest n : ∀ last σ σ' u,
  fetch_loop cfg n ref dest last σ = (σ', Ok u) → fetches ref dest n σ σ'.
Proof.
  induction n as [|n IH]; intros last σ σ' u; cbn [fetch_loop]; [done|].
  rewrite state_bind_run. destruct (storage_download cfg ref dest σ) as [σ1 [[]|e]] eqn:E; cbn [fst snd].
  - intros [= <- _]. by apply fetch_done.
  - destruct (Nat.eqb_spec n 0) as [->|Hn]; [done|]. rewrite state_bind_run.
    destruct (sleep σ1) as [σ2 []] eqn:Es. cbn [fst snd]. intros H%IH. by eapply fetch_again.
Qed.

Lemma sha256_file_Ok path σ σ' h : sha256_file path σ = (σ', Ok h) →
  ∃ bytes, read_bytes path σ = (σ', Ok bytes) ∧ h = sha256_hex bytes.
Proof.
  unfold sha256_file. intros (bytes & σ1 & E & [= <- <-])%py_bind_inv. eauto.
Qed.

Lemma run_work ws w σ : mine (w_db w) →
  let out := work ticks cfg sim ws (w, σ) in
  outcome_of (λ db, ∃ model weather, fetched_into ws σ model weather ∧
                won_of (sha256_hex model) (sha256_hex weather) db) out.2 (w_db out.1.1).
Proof.
  intros Hw. unfold work. cbv zeta.
  apply io_then; [done|]. intros _ σ1 E1%fetch_loop_Ok.
  apply io_then; [done|]. intros _ σ2 E2%fetch_loop_Ok.
  apply io_then; [done|]. intros ? σ3 (model & E3 & ->)%sha256_file_Ok.
  apply io_then; [done|]. intros ? σ4 (weather & E4 & ->)%sha256_file_Ok.
  eapply outcome_of_mono.
  { intros H. exists model, weather. split; [by exists σ1, σ2, σ3, σ4|exact H]. }
  revert w σ4 Hw E4. intros w σ4 Hw _. revert w σ4 Hw.
  match goal with |- ∀ w σ, _ → outcome_of _ (?m (w, σ)).2 _ =>
    change (triple mine m (outcome_of (won_of (sha256_hex model) (sha256_hex weather)))) end.
  assert (Hio : ∀ db e, mine_of (sha256_hex model) (sha256_hex weather) db →
    outcome_of (won_of (sha256_hex model) (sha256_hex weather)) (Err e) db) by (intros ? ? [? _]; by left).
  eapply triple_bind; [apply triple_backfill| |by left]. intros []. cbn beta iota.
  do 3 (apply triple_bind_io; [intros ?|by auto]).
  apply triple_mbind_io. intros uploaded.
  eapply triple_bind; [apply triple_upsert| |by left].
  intros []. cbn beta iota. destruct (v_succeeded _).
  - eapply triple_bind; [apply triple_finish_ok| |].
    + intros n. apply triple_ret. by intros db [_ H].
    + intros e db [? [H|H]]; [by left|right; split; auto].
  - eapply triple_bind; [eapply triple_weaken; [|apply triple_finish_failed]| |].
    + by intros db [[H _] _].
    + intros n. apply triple_ret. by intros db [_ H].
    + intros e db [? [H|H]]; [by left|right; split; auto].
Qed.

(** A finish changes nothing of a simulation that succeeded. *)
Lemma finish_won σ ok err now db : won σ db →
  won σ (finish_simulation x (runner_id cfg) ok err now db).2.
Proof.
  intros (m & w & Hf & H1 & H2 & H3). exists m, w. split; [done|].
  split_and!; [by apply finish_terminal| |by apply (tg_finish _ HG)].
  pose proof (results_finish ok err now db) as Hr.
  unfold cached, born, pg_has_result in *. by rewrite Hr.
Qed.

(** The handler, wherever the exception came from. *)
Lemma triple_fail_sim σ0 e : triple (outcome_of (won σ0) (Err e)) (fail_sim ticks cfg sim e) (λ r db,
  r = Ok false ∧ (lost db ∨ (¬ faultless ticks ∧ (mine db ∨ won σ0 db)))).
Proof.
  intros w σ Hw. unfold fail_sim. rewrite state_bind_run. cbn [fst snd py_ret]. split; [done|].
  pose proof (triple_finish_failed (take_runes 1000 0 e)) as Hm.
  destruct Hw as [Hw|[Hnf Hw]].
  - specialize (Hm w σ Hw).
    destruct (db_finish_simulation _ _ _ _ _ _) as [[w' σ'] [n|e']]; cbn [fst snd] in *.
    + left. apply Hm.
    + destruct Hm as [? [H|H]]; auto.
  - assert (H : triple (λ db, won σ0 db ∨ lost db)
      (db_finish_simulation ticks cfg x false (Some (take_runes 1000 0 e)))
      (λ _ db, won σ0 db ∨ lost db)).
    { eapply triple_post.
      - apply (triple_statement _ _ (λ _ db, won σ0 db ∨ lost db)).
        + intros n db [H|H]; [left; by apply won_stable|right; by apply (fr_lost Hfr)].
        + intros t db H.
          pose proof (finish_won σ0 false (Some (take_runes 1000 0 e)) (t_now t) db) as Hwon.
          pose proof (λ st P, finish_terminal st P false (Some (take_runes 1000 0 e)) (t_now t) db) as Ht.
          destruct (finish_simulation _ _ _ _ _ _) as [n db']. cbn [fst snd] in *.
          destruct H as [H|H]; [left; by apply Hwon|right; by apply Ht].
      - intros [a|e'] db; [done|]. by intros [_ [H|[_ H]]]. }
    specialize (H w σ Hw).
    destruct (db_finish_simulation _ _ _ _ _ _) as [[w' σ'] r]. cbn [fst snd] in *.
    destruct H; [right|left]; auto.
Qed.

Lemma run_process_simulation w σ : mine (w_db w) →
  let out := process_simulation ticks cfg sim (w, σ) in
  match out.2 with
  | Err _ => mine (w_db out.1.1)
  | Ok true => won σ (w_db out.1.1)
  | Ok false => lost (w_db out.1.1) ∨ (¬ faultless ticks ∧ (mine (w_db out.1.1) ∨ won σ (w_db out.1.1)))
  end.
Proof.
  intros Hw. unfold process_simulation, py_bind, on_io. cbv zeta. rewrite state_bind_run.
  destruct (mkdtemp _ σ) as [σ1 [ws|e]] eqn:E1; cbn [fst snd]; [|done]. rewrite state_bind_run.
  destruct (db_connect σ1) as [σ2 [[]|e]] eqn:E2; cbn [fst snd]; [|done]. rewrite state_bind_run.
  unfold try_except. rewrite state_bind_run.
  pose proof (run_work ws w σ2 Hw) as H. cbv zeta in H. apply (outcome_of_mono _ (won σ)) in H.
  2: { intros (m & wh & Hf & Hwon). exists m, wh. split; [by exists ws, σ1, σ2|done]. }
  destruct (work ticks cfg sim ws (w, σ2)) as [[w' σ'] [b|e]]; cbn [fst snd mret state_ret] in *.
  - rewrite state_bind_run. destruct (rmtree ws σ') as [σ3 []]. cbn. destruct b; [done|by left].
  - destruct (triple_fail_sim σ e w' σ' H) as [Er H'].
    destruct (fail_sim ticks cfg sim e (w', σ')) as [[w2 σ2'] r]. cbn [fst snd] in *. subst r.
    rewrite state_bind_run. by destruct (rmtree ws σ2') as [σ3 []].
Qed.

(** *** What can be known of the digests *)
Lemma no_tags : tag_laws (λ _ _ _, True).
Proof. by split. Qed.

Lemma tagged_laws : leaves_digests → tag_laws tagged.
Proof.
  intros Hl. split.
  - intros n m w db Hdb (s & Es & E).
    destruct (Hl n db s Es) as (s' & Es' & E'); [|exists s'; split; [done|congruence]].
    destruct Hdb as [(s0 & E0 & H)|(s0 & E0 & H & _)]; rewrite Es in E0; injection E0 as <-; auto.
  - intros m w db (s & Es & _). exists (set_hashes s m w (ContentHash m w (s_engine_version sim))).
    unfold backfill_hashes. rewrite find_sim_ids, Es by done. cbn.
    unfold find_sim in Es. apply find_Some_elem in Es as [_ ->]. by split.
  - intros m w h vd metrics uri ttl now db H. exact H.
  - intros m w ok err now db (s & Es & E). eexists. rewrite find_sim_finish, Es. split; [done|].
    by destruct (fence _ _ s).
Qed.
End spec.

(** ** Property *)

(** What a row and the cache say after a success on these bytes. *)
Record finished_with (sim s : SimRow) (model weather : string) (db : DB) : Prop := {
  fw_row : find_sim (s_id sim) db = Some s;
  fw_state : s_state s = Succeeded ∧ s_error s = None;
  fw_lease : s_lease_expires_at s = None ∧ is_Some (s_finished_at s);
  fw_model : s_model_sha256 s = Some (sha256_hex model);
  fw_weather : s_weather_sha256 s = Some (sha256_hex weather);
  fw_hash : s_content_hash s =
    Some (ContentHash (sha256_hex model) (sha256_hex weather) (s_engine_version sim));
  fw_cached : born db (sha256_hex model) (sha256_hex weather)
    (ContentHash (sha256_hex model) (sha256_hex weather) (s_engine_version sim)) = Succeeded;
}.

(** C21: a Runner's answer is what happened to the simulation, and a success is
    cached for the bytes that ran.  Let the row be this Runner's when it starts,
    and the other processes leave it, its digests included, to its owner
    meanwhile.  Whatever object storage, the file system, EnergyPlus and the
    database answer: if process_simulation returns True, then both of the row's
    references were downloaded, within the configured attempts, and with the
    bytes the two files then held the row has succeeded without an error, its
    lease cleared; its model and weather digests are those of these bytes, its
    content hash is the one the apiserver computes from the two in this order and
    the row's version, and a result is stored under that hash, so that submitting
    the digests again is accepted as succeeded.  If it returns False the row has
    failed with an error text; only when a statement of its own did not get an
    answer can it still be running under this Runner (for the Reaper to take), or
    have succeeded as above.  If it raises, nothing was changed.  There is no
    other outcome. *)
Theorem runner_reports_what_happened ticks {PyU : PyUnicode} {NL : NetlocLib} {Y} {IO : RunnerIO Y}
    {EIO : EngineIO Y} cfg sim w σ :
  friendly ticks cfg sim → leaves_digests ticks cfg sim → mine cfg sim (w_db w) →
  let out := process_simulation ticks cfg sim (w, σ) in
  let db := w_db out.1.1 in
  let done := ∃ model weather s,
    fetched_inputs cfg sim σ model weather ∧ finished_with sim s model weather db in
  match out.2 with
  | Ok true => done
  | Ok false => lost sim db ∨ (¬ faultless ticks ∧ (mine cfg sim db ∨ done))
  | Err _ => mine cfg sim db
  end.
Proof.
  intros Hfr Hl Hw.
  pose proof (run_process_simulation ticks cfg sim Hfr _ (tagged_laws ticks cfg sim Hl) w σ Hw) as H.
  cbv zeta in *. generalize dependent (w_db (process_simulation ticks cfg sim (w, σ)).1.1). intros db H.
  assert (Hdone : won cfg sim (tagged sim) σ db → ∃ model weather s,
    fetched_inputs cfg sim σ model weather ∧ finished_with sim s model weather db).
  { intros (m & wh & Hf & (s & Es & H1 & H2 & H3) & Hc & s' & Es' & E).
    rewrite Es in Es'. injection Es' as <-. injection E as E1 E2 E3.
    exists m, wh, s. split; [done|]. by constructor. }
  destruct (process_simulation ticks cfg sim (w, σ)).2 as [[]|e]; [exact (Hdone H)| |exact H].
  destruct H as [H|[Hf [H|H]]]; [by left|right; split; [done|by left]|].
  right. split; [done|]. right. exact (Hdone H).
Qed.

(** A world in which only this Runner's heartbeat acts, and a machine on which
    everything works. *)
Definition demo_heartbeat (x r : string) (n : nat) : tick :=
  mkTick (λ db, (renew_lease x r 90 (Z.of_nat n) db).2) None (Z.of_nat n) (Z.of_nat n) "u".

Lemma find_sim_heartbeat cfg sim n db :
  find_sim (s_id sim) (t_env (demo_heartbeat (s_id sim) (runner_id cfg) n) db) =
  (λ s, if fence (s_id sim) (runner_id cfg) s then renew_row 90 (Z.of_nat n) s else s)
    <$> find_sim (s_id sim) db.
Proof. unfold renew_lease. by apply (find_sim_ids sim). Qed.

Lemma heartbeat_friendly cfg sim :
  friendly (demo_heartbeat (s_id sim) (runner_id cfg)) cfg sim.
Proof.
  assert (Hdone : ∀ n db st P, st ≠ Running → has_state sim st P db →
    has_state sim st P (t_env (demo_heartbeat (s_id sim) (runner_id cfg) n) db)).
  { intros n db st P Hst (s & Es & E & Hrest). exists s. rewrite find_sim_heartbeat, Es. cbn.
    assert (Hf : fence (s_id sim) (runner_id cfg) s = false).
    { apply not_true_iff_false. intros (_ & _ & H)%fence_true. congruence. }
    by rewrite Hf. }
  split.
  - intros n db (s & Es & Hs). exists (renew_row 90 (Z.of_nat n) s).
    rewrite find_sim_heartbeat, Es. cbn. rewrite Hs. split; [done|].
    apply fence_true in Hs. by apply fence_true.
  - intros n db. by apply Hdone.
  - intros n db. by apply Hdone.
  - done.
Qed.

Lemma heartbeat_leaves_digests cfg sim :
  leaves_digests (demo_heartbeat (s_id sim) (runner_id cfg)) cfg sim.
Proof.
  intros n db s Es _. eexists. rewrite find_sim_heartbeat, Es. split; [done|].
  by destruct (fence _ _ s).
Qed.

#[export] Instance demo_uuid_instance : PgUuid := demo_uuid.

#[export] Instance demo_io : RunnerIO unit := {|
  py_repr s := s;
  make_parent _ := py_ret tt;
  mkdtemp p := py_ret ("/tmp/sim-" +:+ p);
  db_connect := py_ret tt;
  download_file _ _ _ := py_ret tt;
  copyfile _ _ := py_ret tt;
  read_bytes p := py_ret p;
  err_lines _ := py_ret (Some ["   ** Warning ** Zone has no surfaces"; "done"]);
  write_summary _ _ _ _ := py_ret tt;
  upload_file _ _ _ := raise "403";
  walk _ := py_ret ["eplusout.err"];
  copytree _ _ := py_ret tt;
  rmtree _ := mret tt;
  sleep := mret tt;
|}.

#[export] Instance demo_engine : EngineIO unit := {|
  sql_con := unit;
  makedirs _ := py_ret tt;
  run_process _ _ := py_ret tt;
  stopwatch := mret (mkFloat false 3 (-1));
  file_exists _ := mret true;
  sqlite_connect _ := mret (Ok tt);
  sqlite_fetch _ _ := mret (Ok [mkCell None (Some "Site and Source Energy")
    (Some "Total Site Energy") (Some "Total Energy") (SText "1,234.5")]);
  sqlite_close _ := mret tt;
|}.

#[export] Instance demo_digits : PyUnicode := λ s, s.
#[export] Instance demo_netloc : NetlocLib := λ _, None.

Definition demo_runner : RunnerConfig :=
  mkRunnerConfig "postgres://db" None "us-east-1" None None "models" "weather" "results" "r1"
    "24.1.0" 50 90 30 NaN "/tmp/synergy-runner" 3 NaN "energyplus" None.

Definition demo_claimed : DB :=
  run [EInsertSimulation "s1" 1 1 (demo_params None "queued");
       EClaim "r1" "24.1.0" 50 90 (λ _, false) 2] demo_start.

Lemma runner_reports_what_happened_witness :
  ∃ sim, find_sim "s1" demo_claimed = Some sim ∧
  let out := process_simulation (demo_heartbeat "s1" "r1") demo_runner sim
               (mkWorld demo_claimed 0, tt) in
  out.2 = Ok true ∧ ∃ model weather s, fetched_inputs demo_runner sim tt model weather ∧
    finished_with sim s model weather (w_db out.1.1).
Proof.
  destruct (find_sim "s1" demo_claimed) as [sim|] eqn:Es; [|vm_compute in Es; discriminate].
  exists sim. split; [reflexivity|]. intros out.
  assert (E : out.2 = Ok true).
  { vm_compute in Es. injection Es as <-. vm_compute. reflexivity. }
  split; [exact E|].
  assert (Hid : s_id sim = "s1") by (vm_compute in Es; injection Es as <-; reflexivity).
  pose proof (runner_reports_what_happened (demo_heartbeat "s1" "r1") demo_runner sim
    (mkWorld demo_claimed 0) tt) as H.
  rewrite <-Hid in H at 1 2.
  specialize (H (heartbeat_friendly demo_runner sim) (heartbeat_leaves_digests demo_runner sim)).
  cbv zeta in H. fold out in H. rewrite E in H. apply H.
  exists sim. split; [by rewrite Hid|]. vm_compute in Es. injection Es as <-. reflexivity.
Defined.
