(* ===== verification/MetricsSpec.v ===== *)
(** * What the Runner's metrics are

    Which cells of EnergyPlus's reports the Core Metrics come from ([cell_for],
    with EnergyPlus's own names in [eplus_report]), where the cells are read
    ([rows_read]), and that the
    document the Runner stores is JSON, with the numbers and nulls of the dict,
    exactly when every metric is a finite number: a cell that says NaN, or more
    than a float64 holds, makes the simulation fail. *)
From S2P Require Import Prelude GoLib Json JsonText JsonSpec PyLib PyJson PyConfig Metrics Sql Schema.
From S2P Require Import Lifecycle Store Fleet Session Runner RunnerSpec.
Local Open Scope string_scope.
Local Open Scope py_scope.
Local Open Scope nat_scope.

(** ** Cells *)

(** EnergyPlus's Annual Building Utility Performance Summary: the metric, and the
    table, row and column it is in. *)
Definition eplus_report : list (string * (string * string * string)) :=
  [("total_site_energy", ("Site and Source Energy", "Total Site Energy", "Total Energy"));
   ("site_eui", ("Site and Source Energy", "Total Site Energy", "Energy Per Total Building Area"));
   ("total_source_energy", ("Site and Source Energy", "Total Source Energy", "Total Energy"));
   ("source_eui", ("Site and Source Energy", "Total Source Energy", "Energy Per Total Building Area"));
   ("unmet_heating_hours", ("Comfort and Setpoint Not Met Summary",
      "Time Setpoint Not Met During Occupied Heating", "Facility"));
   ("unmet_cooling_hours", ("Comfort and Setpoint Not Met Summary",
      "Time Setpoint Not Met During Occupied Cooling", "Facility"))].

(** What a normalised name has to be, or to contain, for each metric; the tables
    of energy and of comfort are apart, and so are heating and cooling. *)
Definition cell_for (k : string) (c : cell) : bool :=
  let table := normal (c_table c) in
  let row := normal (c_row c) in
  let column := normal (c_col c) in
  let energy := contains "site and source energy" table in
  let comfort := contains "comfort and setpoint not met summary" table && negb energy in
  let total := String.eqb column "total energy" in
  let per_area := contains "energy per total building area" column in
  let unmet := contains "setpoint not met" row in
  let heating := contains "heating" row in
  existsb (λ p : string * bool, String.eqb p.1 k && p.2)
    [("site_eui", energy && String.eqb row "total site energy" && per_area);
     ("source_eui", energy && String.eqb row "total source energy" && per_area);
     ("total_site_energy", energy && String.eqb row "total site energy" && total);
     ("total_source_energy", energy && String.eqb row "total source energy" && total);
     ("unmet_heating_hours", comfort && unmet && heating);
     ("unmet_cooling_hours", comfort && unmet && contains "cooling" row && negb heating)].

Section cells.
Context {PyU : PyUnicode}.

(** The names EnergyPlus uses are those the Runner looks for. *)
Lemma eplus_report_read report v :
  Forall (λ '(k, (table, row, column)),
    metric_of (mkCell report (Some table) (Some row) (Some column) v) = Some k) eplus_report.
Proof. repeat constructor. Qed.

Lemma some_key x k : Some x = Some k ↔ String.eqb x k = true.
Proof. rewrite String.eqb_eq. by split; [intros [= <-]|intros <-]. Qed.

Lemma metric_of_cell_for c k : metric_of c = Some k ↔ cell_for k c = true.
Proof.
  assert (Hc : contains "energy per total building area" "total energy" = false) by done.
  assert (Hr : String.eqb "total site energy" "total source energy" = false) by done.
  unfold metric_of, cell_for. cbv zeta. cbn [existsb fst snd].
  generalize (normal (c_table c)) (normal (c_row c)) (normal (c_col c)). intros t row col.
  destruct (contains "site and source energy" t).
  - destruct (String.eqb_spec row "total site energy") as [->|_];
      [rewrite Hr|destruct (String.eqb row "total source energy")];
      destruct (String.eqb_spec col "total energy") as [->|_]; rewrite ?Hc;
      try destruct (contains "energy per total building area" col);
      cbn [andb negb]; rewrite ?andb_false_r; cbn [andb orb];
      rewrite ?andb_false_r, ?andb_true_r, ?orb_false_r; first [done|apply some_key].
  - destruct (contains "comfort and setpoint not met summary" t), (contains "setpoint not met" row),
      (contains "heating" row), (contains "cooling" row);
      cbn [andb negb]; rewrite ?andb_false_r, ?andb_true_r, ?orb_false_r; first [done|apply some_key].
Qed.

(** The cells a metric comes from, and its value. *)
Definition cells_of (k : string) (rows : list cell) : list cell :=
  List.filter (cell_for k) rows.

Definition last_value (k : string) (rows : list cell) : option pyfloat :=
  match last (cells_of k rows) with Some c => _to_float (c_value c) | None => None end.

Lemma dict_get_set k k' v d :
  dict_get k' (dict_set k v d) =
  if String.eqb k k' then Some v else dict_get k' d.
Proof.
  induction d as [|[k0 v0] d IH]; cbn [dict_set dict_get].
  - destruct (String.eqb_spec k k'); done.
  - destruct (String.eqb_spec k0 k) as [->|Hne]; cbn [dict_get].
    + by destruct (String.eqb k k').
    + rewrite IH. destruct (String.eqb_spec k0 k') as [->|]; [|done].
      by rewrite (proj2 (String.eqb_neq k k')).
Qed.

Lemma dict_set_keys k v d : k ∈ map fst d → map fst (dict_set k v d) = map fst d.
Proof.
  induction d as [|[k0 v0] d IH]; cbn [dict_set map fst]; [by intros ?%not_elem_of_nil|].
  intros Hk. destruct (String.eqb_spec k0 k) as [->|Hne]; [done|]. cbn [map fst].
  rewrite IH; [done|]. by apply elem_of_cons in Hk as [->|].
Qed.

Lemma cell_for_other c k : metric_of c ≠ Some k → cell_for k c = false.
Proof. intros H. apply not_true_iff_false. by rewrite <-metric_of_cell_for. Qed.

(** A cell is for one of the metrics, but not for the clock. *)
Lemma metric_of_key c k : metric_of c = Some k → k ∈ CORE_KEYS ∧ k ≠ "run_seconds".
Proof.
  unfold metric_of. cbv zeta. intros H.
  repeat case_match; simplify_eq; (split; [apply (bool_decide_unpack _); reflexivity|done]).
Qed.

Lemma read_cells_fold rows : ∀ d, map fst d = CORE_KEYS →
  let d' := fold_left read_cell rows d in
  map fst d' = CORE_KEYS ∧
  ∀ k, dict_get k d' =
    match last (cells_of k rows) with
    | Some c => Some (_to_float (c_value c))
    | None => dict_get k d
    end.
Proof.
  induction rows as [|c rows IH] using rev_ind; intros d Hd; [done|].
  cbv zeta. rewrite fold_left_app. cbn [fold_left].
  destruct (IH d Hd) as [Hk Hg]. set (d1 := fold_left read_cell rows d) in *.
  unfold read_cell, cells_of in *. destruct (metric_of c) as [k'|] eqn:E.
  - split.
    + rewrite dict_set_keys; [done|]. rewrite Hk. by apply metric_of_key in E as [? _].
    + intros k. rewrite dict_get_set, List.filter_app. cbn [List.filter].
      destruct (String.eqb_spec k' k) as [->|Hne].
      * rewrite (proj1 (metric_of_cell_for c k) E). by rewrite last_snoc.
      * rewrite (cell_for_other c k) by congruence. by rewrite app_nil_r.
  - split; [done|]. intros k. rewrite List.filter_app. cbn [List.filter].
    rewrite (cell_for_other c k) by congruence. by rewrite app_nil_r.
Qed.

Lemma read_cells_spec rows :
  map fst (read_cells rows) = CORE_KEYS ∧
  ∀ k, k ∈ CORE_KEYS → dict_get k (read_cells rows) = Some (last_value k rows).
Proof.
  destruct (read_cells_fold rows empty_metrics eq_refl) as [Hk Hg]. split; [exact Hk|].
  intros k Hin. unfold read_cells. rewrite Hg. unfold last_value.
  destruct (last (cells_of k rows)); [done|].
  assert (H : Forall (λ k, dict_get k empty_metrics = Some None) CORE_KEYS)
    by (repeat constructor).
  by apply (proj1 (Forall_forall _ _) H).
Qed.

End cells.

(** ** The document *)
(** What a reader gets for a metric. *)
Definition number_value (v : option pyfloat) : option value :=
  match v with
  | None => Some VNull
  | Some (Finite f) => Some (VNum (float_repr f))
  | Some _ => None
  end.

Definition finite (v : option pyfloat) : bool :=
  match v with None | Some (Finite _) => true | Some _ => false end.

Lemma dumps_number_starts v : starts (dumps_number v).
Proof.
  destruct v as [[f|[]|]|]; cbn [dumps_number]; try by eexists _, _.
  apply number_starts, number_repr.
Qed.

Lemma parse_number_value v d f rest : delim rest → 0 < f →
  parse_value f d (dumps_number v +:+ rest) =
  match number_value v with Some x => POk x rest | None => PBad end.
Proof.
  intros Hr Hf. destruct f as [|f]; [lia|]. destruct v as [[x|[]|]|]; [|done|done|done|done].
  cbn [dumps_number number_value]. pose proof (number_repr x) as Ht.
  pose proof (scan_number_app _ rest Ht Hr) as Hs.
  destruct (number_head _ Ht) as (c & r & E & Hc). rewrite E in *.
  pose proof (number_char c Hc) as (_ & _ & _ & H1 & H2 & H3 & H4 & H5 & H6).
  rewrite string_app_cons in *. cbn [parse_value]. rewrite H1, H2, H3, H4, H5, H6, Hc.
  by rewrite Hs.
Qed.

(** Keys json.dumps writes as they are. *)
Definition key_byte (c : ascii) : bool := in_range 97 122 c || Ascii.eqb c "_".

Lemma key_byte_plain c : key_byte c = true →
  Ascii.eqb c quote = false ∧ Ascii.eqb c backslash = false ∧ (byte_val c <? 32)%Z = false ∧
  (byte_val c <? 128)%Z = true.
Proof.
  intros H. pose proof (all_bytes (λ c, implb (key_byte c) (negb (Ascii.eqb c quote) &&
    negb (Ascii.eqb c backslash) && negb (byte_val c <? 32)%Z && (byte_val c <? 128)%Z))
    eq_refl c) as E. cbv beta in E. rewrite H in E. cbn [implb] in E.
  rewrite !andb_true_iff, !negb_true_iff in E. tauto.
Qed.

Lemma scan_key k t : string_forallb key_byte k = true →
  scan_string (k +:+ String quote t) = Some (k, t) ∧ unquote 0 k = k.
Proof.
  induction k as [|c k IH]; [done|]. cbn [string_forallb]. intros [Hc Hk]%andb_true_iff.
  apply key_byte_plain in Hc as (H1 & H2 & H3 & H4). destruct (IH Hk) as [E1 E2]. split.
  - rewrite string_app_cons. cbn [scan_string]. by rewrite H1, H2, H3, E1.
  - cbn [unquote]. by rewrite H2, H4, E2.
Qed.

Abbreviation member := (λ m : string * option pyfloat,
  String quote m.1 +:+ String quote ": " +:+ dumps_number m.2).

Definition member_value (m : string * option pyfloat) : option (string * (string * value)) :=
  v ← number_value m.2; Some (m.1, (dumps_number m.2, v)).

(** One member, or a syntax error when it is not finite. *)
Lemma parse_member f d k v tail : 0 < f → string_forallb key_byte k = true → delim tail →
  parse_members (S f) d (member (k, v) +:+ tail) =
  match number_value v with
  | None => PBad
  | Some x =>
      match skip_ws tail with
      | String c r =>
          if Ascii.eqb c "," then pmap (cons (k, (dumps_number v, x)))
                                    (parse_members f d (skip_ws r))
          else if Ascii.eqb c "}" then POk [(k, (dumps_number v, x))] r else PBad
      | EmptyString => PBad
      end
  end.
Proof.
  intros Hf Hk Ht. cbn [fst snd].
  change (String quote ": " +:+ dumps_number v) with (String quote (": " +:+ dumps_number v)).
  rewrite <-string_app_assoc, !string_app_cons, <-string_app_assoc, string_app_nil_l.
  destruct (scan_key k (String ":" (String " " (dumps_number v +:+ tail))) Hk) as [E1 E2].
  cbn [parse_members]. rewrite Ascii.eqb_refl, E1.
  change (skip_ws (String ":" ?z)) with (String ":" z). cbv iota beta zeta.
  change (Ascii.eqb ":" ":") with true. cbv iota.
  change (skip_ws (String " " ?z)) with (skip_ws z).
  rewrite skip_ws_starts by apply starts_app, dumps_number_starts.
  rewrite parse_number_value; [|done|lia]. rewrite E2. destruct (number_value v); [|done].
  by rewrite source_text_app.
Qed.

(** The members, or a syntax error when one is not finite. *)
Lemma parse_dict_members d rest l : l ≠ [] →
  Forall (λ m, string_forallb key_byte m.1 = true) l → ∀ fuel, 2 * List.length l ≤ fuel →
  parse_members fuel d (join ", " (map member l) +:+ String "}" rest) =
  match mapM member_value l with Some ms => POk ms rest | None => PBad end.
Proof.
  intros Hne Hl. induction Hl as [|[k v] l Hk Hl IH]; [done|]. intros [|f] Hf; simpl in Hf; [lia|].
  cbn [fst] in Hk.
  cbn [mapM].
  assert (Em : member_value (k, v) =
    match number_value v with Some x => Some (k, (dumps_number v, x)) | None => None end) by done.
  rewrite Em. destruct l as [|m l].
  - cbn [map join]. rewrite parse_member by (done || lia). by destruct (number_value v).
  - change (join ", " (map member ((k, v) :: m :: l)))
      with (member (k, v) +:+ ", " +:+ join ", " (map member (m :: l))).
    rewrite <-(string_app_assoc (member (k, v))), parse_member by (done || lia). destruct (number_value v) as [x|]; [|done].
    str_norm. change (skip_ws (String "," ?z)) with (String "," z). cbv iota beta zeta.
    change (Ascii.eqb "," ",") with true. cbv iota.
    change (skip_ws (String " " ?z)) with (skip_ws z).
    assert (Hst : starts (join ", " (map member (m :: l)))).
    { destruct l; cbn [map join]; [by eexists _, _|]. apply starts_app. by eexists _, _. }
    rewrite skip_ws_starts by by apply starts_app.
    rewrite IH by (done || simpl in *; lia). cbn [mbind option_bind].
    by destruct (mapM member_value (m :: l)).
Qed.

Lemma whole_value_dumps l : l ≠ [] → Forall (λ m, string_forallb key_byte m.1 = true) l →
  whole_value (dumps_dict l) = VObj <$> mapM member_value l.
Proof.
  intros Hne Hl. unfold whole_value, dumps_dict. str_norm.
  change (skip_ws (String "{" ?z)) with (String "{" z).
  assert (Hst : ∃ r, join ", " (map member l) = String quote r).
  { destruct l as [|m [|]]; [done| |]; cbn [map join]; by eexists. }
  assert (Hlen : List.length l ≤ String.length (join ", " (map member l))).
  { clear. induction l as [|m l IH]; [simpl; lia|]. destruct l as [|m' l]; [simpl; lia|].
    change (join ", " (map member (m :: m' :: l)))
      with (member m +:+ ", " +:+ join ", " (map member (m' :: l))).
    rewrite !string_length_app. simpl in *. lia. }
  unfold enough. set (n := String.length _). assert (Hn : List.length l ≤ n).
  { unfold n. rewrite length_cons, string_length_app. lia. }
  replace (2 * n + 2) with (S (2 * n + 1)) by lia. cbn [parse_value].
  change (Ascii.eqb "{" "{") with true. change (maxNestingDepth <=? 0)%N with false. cbv iota.
  destruct Hst as [r E]. pose proof (parse_dict_members (0 + 1) "" l Hne Hl (2 * n + 1) ltac:(lia)) as H.
  rewrite E in *. change (String "}" "") with "}" in H. rewrite string_app_cons in *.
  change (skip_ws (String quote ?z)) with (String quote z). cbv iota.
  change (Ascii.eqb quote "}") with false. cbv iota. rewrite H.
  destruct (mapM member_value l); [|done]. cbn [pmap fmap option_fmap option_map].
  by rewrite decide_True.
Qed.

(** ** The engine's answer *)
Lemma CORE_KEYS_plain d : map fst d = CORE_KEYS →
  d ≠ [] ∧ Forall (λ m : string * option pyfloat, string_forallb key_byte m.1 = true) d.
Proof.
  intros E. split; [by intros ->|]. apply Forall_forall. intros [k v] Hin.
  apply (elem_of_map_1 fst) in Hin. rewrite E in Hin. cbn [fst] in *. revert k Hin.
  apply (proj1 (Forall_forall _ _)). repeat constructor.
Qed.

Lemma dict_get_keys k d : k ∈ map fst d → is_Some (dict_get k d).
Proof.
  induction d as [|[k' v'] d IH]; cbn [map fst dict_get]; [by intros ?%not_elem_of_nil|].
  destruct (String.eqb_spec k' k) as [->|]; [done|]. intros [->|]%elem_of_cons; [done|]. auto.
Qed.

Lemma with_defaults_id d : map fst d = CORE_KEYS → with_defaults d = d.
Proof.
  intros E. unfold with_defaults. rewrite <-E.
  assert (H : ∀ ks, (∀ k, k ∈ ks → k ∈ map fst d) →
    fold_left (λ m k, match dict_get k m with Some _ => m | None => dict_set k None m end) ks d = d).
  { induction ks as [|k ks IH]; intros Hk; [done|]. cbn [fold_left].
    destruct (dict_get_keys k d) as [v ->]; [apply Hk; left|]. apply IH. intros. apply Hk. by right. }
  by apply H.
Qed.

Lemma mapM_None {A B} (f : A → option B) l : mapM f l = None ↔ ∃ x, x ∈ l ∧ f x = None.
Proof.
  rewrite mapM_None, Exists_exists. done.
Qed.

Section engine.
Context {PyU : PyUnicode} {Y : Type} {EIO : EngineIO Y}.

(** The rows that are read from the database at [path], which is opened read-only:
    those of the view, or of the join when there is no such view; none when there
    is no file, it is no database, or neither query is answered. *)
Inductive rows_read (path : string) (σ : Y) : list cell → Prop :=
  | no_file : (file_exists path σ).2 = false → rows_read path σ []
  | no_database σ1 e :
      file_exists path σ = (σ1, true) →
      (sqlite_connect ("file:" +:+ path +:+ "?mode=ro") σ1).2 = Err e → rows_read path σ []
  | by_view σ1 σ2 con rows :
      file_exists path σ = (σ1, true) →
      sqlite_connect ("file:" +:+ path +:+ "?mode=ro") σ1 = (σ2, Ok con) →
      (sqlite_fetch con tabular_view σ2).2 = Ok rows → rows_read path σ rows
  | by_join σ1 σ2 σ3 con e answer :
      file_exists path σ = (σ1, true) →
      sqlite_connect ("file:" +:+ path +:+ "?mode=ro") σ1 = (σ2, Ok con) →
      sqlite_fetch con tabular_view σ2 = (σ3, Err e) →
      (sqlite_fetch con tabular_join σ3).2 = answer →
      rows_read path σ (match answer with Ok rows => rows | Err _ => [] end).

Lemma query_rows_run con σ : (_query_rows con σ).2 =
  match sqlite_fetch con tabular_view σ with
  | (_, Ok rows) => Ok rows
  | (σ', Err _) => (sqlite_fetch con tabular_join σ').2
  end.
Proof.
  unfold _query_rows. rewrite state_bind_run.
  by destruct (sqlite_fetch con tabular_view σ) as [σ2 [l'|e]].
Qed.

Lemma extract_rows path σ σ1 : file_exists path σ = (σ1, true) →
  ∃ rows, rows_read path σ rows ∧ (extract path σ1).2 = read_cells rows.
Proof.
  intros Ef. unfold extract. rewrite state_bind_run.
  destruct (sqlite_connect _ σ1) as [σ2 [con|e]] eqn:Ec; cbn [fst snd].
  2: { exists []. split; [eapply no_database; [done|by rewrite Ec]|done]. }
  rewrite state_bind_run. pose proof (query_rows_run con σ2) as H.
  destruct (_query_rows con σ2) as [σ3 l]; cbn [fst snd] in *.
  rewrite state_bind_run. cbn [mret state_ret snd].
  destruct (sqlite_fetch con tabular_view σ2) as [σ4 [rows|e]] eqn:Ev; subst l.
  - exists rows. split; [eapply by_view; [done..|by rewrite Ev]|done].
  - eexists. split; [by eapply by_join|]. by destruct (sqlite_fetch con tabular_join σ4).2.
Qed.

(** What a run that gave metrics did: the directory, the process, the clock, then
    the rows. *)
Definition ran (cfg : RunnerConfig) (model weather out : string) (σ : Y)
    (secs : float64) (rows : list cell) : Prop :=
  ∃ σ1 σ2 σ3, makedirs out σ = (σ1, Ok tt) ∧
    run_process [energyplus_bin cfg; "-w"; weather; "-d"; out; "-r"; model] out σ1 = (σ2, Ok tt) ∧
    stopwatch σ2 = (σ3, secs) ∧ rows_read (out +:+ "/eplusout.sql") σ3 rows.

Lemma run_engine_Ok cfg model weather out σ m :
  (run_engine cfg model weather out σ).2 = Ok m →
  ∃ rows secs, ran cfg model weather out σ secs rows ∧
    m = dict_set "run_seconds" (Some (Finite secs)) (read_cells rows).
Proof.
  unfold run_engine, py_bind. cbv zeta. rewrite state_bind_run.
  destruct (makedirs out σ) as [σ1 [[]|e]] eqn:E1; cbn [fst snd]; [|done]. rewrite state_bind_run.
  destruct (run_process _ _ σ1) as [σ2 [[]|e]] eqn:E2; cbn [fst snd]; [|done]. rewrite state_bind_run.
  destruct (stopwatch σ2) as [σ3 secs] eqn:E3. cbn [fst snd]. rewrite state_bind_run.
  destruct (file_exists _ σ3) as [σ4 there] eqn:E4. cbn [fst snd]. rewrite state_bind_run.
  cbn [py_ret mret state_ret snd]. intros [= <-].
  assert (H : ∃ rows, rows_read (out +:+ "/eplusout.sql") σ3 rows ∧
    ((if there then extract (out +:+ "/eplusout.sql") else mret empty_metrics) σ4).2 =
      read_cells rows).
  { destruct there; [by apply extract_rows|]. exists []. split; [apply no_file; by rewrite E4|done]. }
  destruct H as (rows & Hf & ->). exists rows, secs. split; [by eexists _, _, _|].
  apply with_defaults_id. pose proof (read_cells_spec rows) as [Hk _].
  rewrite dict_set_keys; [done|]. rewrite Hk. apply (bool_decide_unpack _). reflexivity.
Qed.

(** The document of a run's metrics. *)
Lemma document_of m : map fst m = CORE_KEYS →
  whole_value (dumps_dict m) = VObj <$> mapM member_value m ∧
  (whole_value (dumps_dict m) = None ↔ ∃ k v, (k, v) ∈ m ∧ finite v = false).
Proof.
  intros Hk. destruct (CORE_KEYS_plain _ Hk) as [Hne Hp].
  rewrite (whole_value_dumps _ Hne Hp). split; [done|]. rewrite fmap_None, mapM_None. split.
  - intros ([k v] & Hin & E). exists k, v. split; [done|]. unfold member_value in E. cbn [snd] in E.
    by destruct v as [[]|].
  - intros (k & v & Hin & E). exists (k, v). split; [done|]. by destruct v as [[]|].
Qed.

Lemma run_engine_keys cfg model weather out σ m :
  (run_engine cfg model weather out σ).2 = Ok m → map fst m = CORE_KEYS.
Proof.
  intros (rows & secs & _ & ->)%run_engine_Ok. pose proof (read_cells_spec rows) as [Hk _].
  rewrite dict_set_keys; [done|]. rewrite Hk. apply (bool_decide_unpack _). reflexivity.
Qed.
End engine.

(** ** Properties *)

(** C26: where a Runner's metrics come from, and what is stored of them.
    Whatever the machine and SQLite answer, when a run gives metrics the output
    directory was made, EnergyPlus ran there on these two files, and the rows are
    those of eplusout.sql's tabular reports, none when they cannot be read.  The
    metrics have the seven Core Metric keys in order: the clock's seconds, and for
    each other key the number of the last of these rows that is in the metric's
    place, null when there is none or it is not a number.  The place of a metric
    is a table, a row and a column of EnergyPlus's summary: energy in the column
    of totals and EUI in the one per building area, of the row for site or source;
    unmet hours in the row for heating or cooling; up to case and spaces, and
    EnergyPlus's own names for the six are found.  The document that is stored is
    a JSON object with these members, numbers as Python prints them; it is no JSON
    at all exactly when one of them is infinite or not a number. *)
Theorem metrics_are_extracted {PyU : PyUnicode} {Y} {EIO : EngineIO Y} cfg model weather out σ m :
  (run_engine cfg model weather out σ).2 = Ok m →
  map fst m = CORE_KEYS ∧
  (∃ rows secs, ran cfg model weather out σ secs rows ∧
     dict_get "run_seconds" m = Some (Some (Finite secs)) ∧
     ∀ k, k ∈ map fst eplus_report → dict_get k m =
       Some match last (List.filter (cell_for k) rows) with
            | Some c => _to_float (c_value c)
            | None => None
            end) ∧
  (∀ report v, Forall (λ '(k, (table, row, column)),
     metric_of (mkCell report (Some table) (Some row) (Some column) v) = Some k) eplus_report) ∧
  whole_value (dumps_dict m) = VObj <$> mapM member_value m ∧
  (whole_value (dumps_dict m) = None ↔ ∃ k v, (k, v) ∈ m ∧ finite v = false).
Proof.
  intros E. pose proof (run_engine_keys _ _ _ _ _ _ E) as Hkeys.
  split; [done|]. split; [|split; [apply eplus_report_read|by apply document_of]].
  apply run_engine_Ok in E as (rows & secs & Hf & ->).
  pose proof (read_cells_spec rows) as [_ Hg].
  exists rows, secs. split; [done|]. split; [by rewrite dict_get_set|].
  intros k Hin.
  assert (Hk : k ∈ CORE_KEYS ∧ k ≠ "run_seconds").
  { revert k Hin. apply (proj1 (Forall_forall _ _)).
    repeat constructor; try done; apply (bool_decide_unpack _); reflexivity. }
  destruct Hk as [Hk Hnk]. rewrite dict_get_set, (proj2 (String.eqb_neq _ _)) by done. by apply Hg.
Qed.

(** A report with every metric, in other cases and with spaces, and rows that are
    for none. *)
Definition report_engine : EngineIO unit := {|
  sql_con := unit;
  makedirs _ := py_ret tt;
  run_process _ _ := py_ret tt;
  stopwatch := mret (mkFloat false 3 (-1));
  file_exists _ := mret true;
  sqlite_connect _ := mret (Ok tt);
  sqlite_fetch _ q := mret (if String.eqb q tabular_view then Err "no such table" else Ok (
    let energy := mkCell None (Some "Site and Source Energy") in
    let comfort := mkCell None (Some "Comfort and Setpoint Not Met Summary") in
    [energy (Some "Total Site Energy") (Some "Total Energy") (SText "1,234.5");
     energy (Some " total site energy ") (Some "Energy Per Total Building Area") (SText "354.8");
     energy (Some "Net Site Energy") (Some "Total Energy") (SText "1");
     energy (Some "Total Source Energy") (Some "TOTAL ENERGY") (SInt 3900);
     energy (Some "Total Source Energy") (Some "Energy Per Total Building Area") (SText "1120");
     comfort (Some "Time Setpoint Not Met During Occupied Heating") (Some "Facility") (SText "12");
     comfort (Some "Time Setpoint Not Met During Occupied Cooling") (Some "Facility") (SText "7.5");
     comfort (Some "Time Not Comfortable Based on Simple ASHRAE 55-2004") (Some "Facility")
       (SText "99")]));
  sqlite_close _ := mret tt;
|}.

Lemma metrics_are_extracted_witness :
  ∃ m, (run_engine (IO := report_engine) demo_runner "m.idf" "w.epw" "out" tt).2 = Ok m ∧
    map fst m = CORE_KEYS ∧ is_Some (whole_value (dumps_dict m)) ∧
    m = [("site_eui", py_float "354.8"); ("source_eui", py_float "1120");
         ("total_site_energy", py_float "1234.5"); ("total_source_energy", py_float "3900");
         ("unmet_heating_hours", py_float "12"); ("unmet_cooling_hours", py_float "7.5");
         ("run_seconds", Some (Finite (mkFloat false 3 (-1))))].
Proof.
  destruct (run_engine (IO := report_engine) demo_runner "m.idf" "w.epw" "out" tt).2 as [m|e] eqn:E;
    [|vm_compute in E; discriminate E].
  exists m. split; [reflexivity|].
  destruct (metrics_are_extracted (EIO := report_engine) demo_runner "m.idf" "w.epw" "out" tt m E)
    as (Hk & _ & _ & Hn & _).
  split; [exact Hk|]. rewrite Hn. vm_compute in E. injection E as <-.
  split; [vm_compute; eauto|vm_compute; reflexivity].
Defined.

(** ** A metric that is no number *)
Lemma on_io_run {Y A} (m : state_t Y A) w σ : (on_io m (w, σ)).2 = (m σ).2.
Proof. unfold on_io. by destruct (m σ). Qed.

(** C25: one metric that is not a finite number fails the whole simulation.  If
    the run's metrics hold an infinity or a NaN (a cell that says so, or whose
    number is beyond a float64), process_simulation does not return True,
    whatever else happens: the document is not JSON, the statement that would
    store it is refused, and the handler records a failure. *)
Theorem non_finite_metric_fails_run ticks {PyU : PyUnicode} {NL : NetlocLib} {Y} {IO : RunnerIO Y}
    {EIO : EngineIO Y} cfg sim w σ :
  friendly ticks cfg sim → mine cfg sim (w_db w) →
  (∀ model weather out σ m, (run_engine cfg model weather out σ).2 = Ok m →
     ∃ k v, (k, v) ∈ m ∧ finite v = false) →
  let out := process_simulation ticks cfg sim (w, σ) in
  out.2 ≠ Ok true ∧ (faultless ticks → out.2 = Ok false → lost sim (w_db out.1.1)).
Proof.
  intros Hfr Hw Hnf. cbv zeta. split.
  - intros E. unfold process_simulation in E.
    apply py_bind_Ok in E as (ws & w1 & _ & E). apply py_bind_Ok in E as ([] & w2 & _ & E).
    apply py_bind_Ok in E as (b & w3 & E & Eb).
    assert (b = true) as ->.
    { revert Eb. rewrite state_bind_run. cbn [py_ret mret state_ret snd]. by intros [= ->]. }
    clear Eb. unfold try_except in E. rewrite state_bind_run in E.
    destruct (work ticks cfg sim ws w2) as [w4 [b|e]] eqn:Ew; cbn [fst snd mret state_ret] in E.
    2: { unfold fail_sim in E. rewrite state_bind_run in E. discriminate E. }
    apply (f_equal snd) in Ew. cbn [snd] in Ew. unfold work in Ew. cbv zeta in Ew.
    do 5 (apply py_bind_Ok in Ew as (? & ? & _ & Ew)).
    apply py_bind_Ok in Ew as (m & w5 & Em & Ew).
    apply py_bind_Ok in Ew as (? & ? & _ & Ew). apply py_bind_Ok in Ew as (? & ? & _ & Ew).
    rewrite state_bind_run in Ew. apply py_bind_Ok in Ew as (? & ? & Eu & _).
    match type of Em with (on_io _ ?w6).2 = _ => destruct w6 as [w6 σ6] end.
    rewrite on_io_run in Em. pose proof (Hnf _ _ _ _ _ Em) as Hbad.
    apply run_engine_keys, document_of in Em as [_ [_ Hno]].
    unfold db_upsert_result in Eu. cbv zeta in Eu. by rewrite (Hno Hbad) in Eu.
  - intros Hfl E.
    pose proof (run_process_simulation ticks cfg sim Hfr _ (no_tags ticks cfg sim) w σ Hw) as H.
    cbv zeta in H. rewrite E in H. by destruct H as [H|[? _]].
Qed.

(** EnergyPlus wrote NaN into one cell; everything else works. *)
Definition nan_engine : EngineIO unit := {|
  sql_con := unit;
  makedirs _ := py_ret tt;
  run_process _ _ := py_ret tt;
  stopwatch := mret (mkFloat false 3 (-1));
  file_exists _ := mret true;
  sqlite_connect _ := mret (Ok tt);
  sqlite_fetch _ _ := mret (Ok [mkCell None (Some "Site and Source Energy")
    (Some "Total Site Energy") (Some "Energy Per Total Building Area") (SText "NaN")]);
  sqlite_close _ := mret tt;
|}.

Lemma non_finite_metric_fails_run_witness :
  ∃ sim, find_sim "s1" demo_claimed = Some sim ∧
  let out := process_simulation (EIO := nan_engine) (demo_heartbeat "s1" "r1") demo_runner sim
               (mkWorld demo_claimed 0, tt) in
  out.2 = Ok false ∧ lost sim (w_db out.1.1).
Proof.
  destruct (find_sim "s1" demo_claimed) as [sim|] eqn:Es; [|vm_compute in Es; discriminate].
  exists sim. split; [reflexivity|]. intros out.
  assert (E : out.2 = Ok false).
  { vm_compute in Es. injection Es as <-. vm_compute. reflexivity. }
  split; [exact E|].
  assert (Hid : s_id sim = "s1") by (vm_compute in Es; injection Es as <-; reflexivity).
  pose proof (non_finite_metric_fails_run (EIO := nan_engine) (demo_heartbeat "s1" "r1")
    demo_runner sim (mkWorld demo_claimed 0) tt) as H.
  rewrite <-Hid in H at 1.
  specialize (H (heartbeat_friendly demo_runner sim)).
  cbv zeta in H. fold out in H. apply H; [|clear H|done|exact E].
  - exists sim. split; [by rewrite Hid|]. vm_compute in Es. injection Es as <-. reflexivity.
  - intros model weather outd [] m Hm. vm_compute in Hm. injection Hm as <-.
    exists "site_eui", (Some NaN). split; [left|reflexivity].
Defined.
