(* ===== verification/SubmitSpec.v ===== *)
(** * What a submission does, and what a listing shows

    POST /v1/simulations and POST /v1/batches on every branch, the idempotency
    of batches, and the pages of GET /v1/batches/{id}/simulations. *)
From S2P Require Import Prelude GoLib Json JsonText Sha256 Sql Schema Rollup Lifecycle Store Fleet Session Queue Config Http Auth Handlers Uploads Router ApiFixtures RefSpec.
Local Open Scope string_scope.

(** The guards of handleCreateSimulation. *)
Definition valid_simulation {UL : UnicodeLib} (c : Config) (req : createSimulationRequest) : bool :=
  negb (String.eqb (sEngineVersion req) "")
  && EngineVersionAllowed c (sEngineVersion req)
  && bool_decide (validateInputRef c (Ref (sModel req)) "model" = None)
  && bool_decide (validateInputRef c (Ref (sWeather req)) "weather" = None).

(** The guards of handleCreateBatch. *)
Definition valid_batch {W} {UL : UnicodeLib} (s : Server W) (req : createBatchRequest) : bool :=
  negb (String.eqb (bEngineVersion req) "")
  && negb (Nat.eqb (length (bVariants req)) 0)
  && (Z.of_nat (length (bVariants req)) <=? MaxBatchVariants (cfg s))%Z
  && EngineVersionAllowed (cfg s) (bEngineVersion req)
  && bool_decide (validateInputRef (cfg s) (Ref (bWeather req)) "weather" = None)
  && forallb (λ v, bool_decide (validateInputRef (cfg s) (Ref (qModel v)) "model" = None))
       (bVariants req).

Lemma confined_nonempty {UL : UnicodeLib} c kind ref : validateInputRef c ref kind = None → ref ≠ "".
Proof. intros (b & k & -> & _)%validateInputRef_None. done. Qed.

(** ** POST /v1/simulations *)
Lemma normalizePriority_range p : (0 <= normalizePriority p <= 2)%Z.
Proof.
  destruct p as [p|]; simpl; [|done].
  destruct (Z.ltb_spec p 0); [done|]. destruct (Z.ltb_spec 2 p); lia.
Qed.

Lemma valid_simulation_true {UL : UnicodeLib} c req :
  valid_simulation c req = true ↔
  sEngineVersion req ≠ "" ∧ EngineVersionAllowed c (sEngineVersion req) = true ∧
  validateInputRef c (Ref (sModel req)) "model" = None ∧
  validateInputRef c (Ref (sWeather req)) "weather" = None.
Proof.
  unfold valid_simulation.
  rewrite !andb_true_iff, negb_true_iff, String.eqb_neq, !bool_decide_eq_true. tauto.
Qed.

(** With the guards passed, the handler is the cache lookup and the insert. *)
Lemma create_simulation_valid {W} `{DataStore W} {UL : UnicodeLib} (s : Server W) c body req :
  simulation_request body = Some req → valid_simulation (cfg s) req = true →
  handleCreateSimulation s c body =
  (let hash := ContentHash (SHA256 (sModel req)) (SHA256 (sWeather req)) (sEngineVersion req) in
   resolved ← resolve_cache (SHA256 (sModel req)) (SHA256 (sWeather req)) hash;
   match resolved with
   | Err _ => mret (writeError StatusInternalServerError "cache lookup failed")
   | Ok state =>
       inserted ← InsertSimulation (simulation_params (userID c) req
         (normalizePriority (sPriority req)) hash state);
       match inserted with
       | Err _ => mret (writeError StatusInternalServerError "could not create simulation")
       | Ok id => mret (writeJSON StatusCreated (JObj [("id", JStr id); ("state", JStr state)]))
       end
   end).
Proof.
  rewrite valid_simulation_true. intros Hreq (H1 & H2 & H3 & H4).
  unfold handleCreateSimulation. rewrite Hreq.
  rewrite (proj2 (String.eqb_neq _ _) H1).
  rewrite (proj2 (String.eqb_neq _ _) (confined_nonempty _ _ _ H3)).
  rewrite (proj2 (String.eqb_neq _ _) (confined_nonempty _ _ _ H4)).
  cbn [orb]. by rewrite H2, H3, H4.
Qed.

Lemma create_simulation_invalid {W} `{DataStore W} {UL : UnicodeLib} (s : Server W) c body w :
  (∀ req, simulation_request body = Some req → valid_simulation (cfg s) req = false) →
  (handleCreateSimulation s c body w).1 = w ∧
  status (handleCreateSimulation s c body w).2 = StatusBadRequest.
Proof.
  intros Hv. unfold handleCreateSimulation.
  destruct (simulation_request body) as [req|]; [specialize (Hv req eq_refl)|done].
  destruct (_ || _) eqn:E0; [done|].
  destruct (EngineVersionAllowed _ _) eqn:E1; cbn [negb]; [|done].
  destruct (validateInputRef _ _ "model") eqn:E2; [done|].
  destruct (validateInputRef _ _ "weather") eqn:E3; [done|].
  exfalso. apply not_true_iff_false in Hv. apply Hv, valid_simulation_true.
  apply orb_false_iff in E0 as [[E0%String.eqb_neq _]%orb_false_iff _]. done.
Qed.

(** C28: POST /v1/simulations, on every branch of a store that answers.  A valid
    request of an existing user is answered 201 with the id of the one row it
    appends: owned by the user, in no batch, with no attempt made, the
    priority brought into 0..2 (kept when it is there already, 1 when absent),
    the content hash of its inputs, and succeeded if both digests were given
    and a result with that hash exists, else queued; nothing else changes.  An
    invalid request, or a body that does not decode to one, is answered 400 and
    changes nothing. *)
Theorem create_simulation_outcome {PU : PgUuid} {UL : UnicodeLib} ticks s uid u body db n :
  quiet ticks → fresh_uuids ticks n db → uuid_in uid = Some u → u ∈ user_ids db →
  let r := handleCreateSimulation (H := PgStore ticks) s (Some uid) body (mkWorld db n) in
  let refused := status r.2 = StatusBadRequest ∧ w_db r.1 = db in
  match simulation_request body with
  | None => refused
  | Some req =>
  let hash := ContentHash (SHA256 (sModel req)) (SHA256 (sWeather req)) (sEngineVersion req) in
  let st := born db (SHA256 (sModel req)) (SHA256 (sWeather req)) hash in
  if valid_simulation (cfg s) req then
    ∃ row, w_db r.1 = with_simulations db (simulations db ++ [row])%list ∧
      r.2 = writeJSON StatusCreated (JObj [("id", JStr (s_id row));
                                           ("state", JStr (sim_state_text st))]) ∧
      s_user_id row = u ∧ s_batch_id row = None ∧ s_state row = st ∧ s_attempts row = 0%Z ∧
      s_runner_id row = None ∧ s_content_hash row = Some hash ∧
      s_engine_version row = sEngineVersion req ∧
      s_model_ref row = Ref (sModel req) ∧ s_weather_ref row = Ref (sWeather req) ∧
      (0 <= s_priority row <= 2)%Z ∧
      (∀ p, sPriority req = Some p → (0 <= p <= 2)%Z → s_priority row = p) ∧
      (sPriority req = None → s_priority row = 1%Z)
  else refused
  end.
Proof.
  intros Hq [Hinj Hf] Hu Hin. cbv zeta.
  assert (Href : (∀ req, simulation_request body = Some req →
                         valid_simulation (cfg s) req = false) →
    status (handleCreateSimulation (H := PgStore ticks) s (Some uid) body (mkWorld db n)).2 =
    StatusBadRequest ∧
    w_db (handleCreateSimulation (H := PgStore ticks) s (Some uid) body (mkWorld db n)).1 = db).
  { by intros [-> H]%(create_simulation_invalid (H := PgStore ticks) s (Some uid) body
      (mkWorld db n)). }
  destruct (simulation_request body) as [req|] eqn:Hreq; [|by apply Href].
  destruct (valid_simulation (cfg s) req) eqn:Hv; [|apply Href; by intros ? [= <-]].
  clear Href. rewrite (create_simulation_valid s _ body req) by done. cbv zeta.
  set (hash := ContentHash _ _ _). rewrite state_bind_run.
  destruct (resolve_cache_quiet ticks Hq (SHA256 (sModel req)) (SHA256 (sWeather req)) hash db n)
    as (n1 & Hn1 & ->). cbn [fst snd]. set (st := born db _ _ hash).
  set (p := simulation_params _ _ _ _ _). set (t := ticks n1).
  set (row := insert_row (t_uuid t) (t_now t) (t_clock t) None u st p).
  assert (Hins : pg_insert_simulation (t_uuid t) (t_now t) (t_clock t) p db =
    (insert_simulations [row] db, Ok (t_uuid t))).
  { unfold pg_insert_simulation, insert_values, with_uuid. cbn [pUserID pBatchID p simulation_params].
    change (userID (Some uid)) with uid. rewrite Hu. cbn [with_uuid_opt].
    rewrite (check_insert_accepts _ _ _ _ _ st); [done| |].
    - split; [|done|done|done]. intros s' Hs'. by apply (Hf n1).
    - cbn [p pPriority simulation_params]. pose proof (normalizePriority_range (sPriority req)).
      unfold int4. apply andb_true_iff. rewrite Z.leb_le, Z.ltb_lt. lia. }
  rewrite state_bind_run. cbn [InsertSimulation PgStore]. unfold st_insert_simulation.
  rewrite exec_quiet by done. fold t. rewrite Hins. cbn [fst snd].
  exists row. split_and!; try done.
  - apply normalizePriority_range.
  - apply normalizePriority_range.
  - intros q Hq' Hr. cbn [row insert_row s_priority p simulation_params pPriority].
    rewrite Hq'. unfold normalizePriority.
    destruct (Z.ltb_spec q 0); [lia|]. destruct (Z.ltb_spec 2 q); [lia|done].
  - intros E. cbn [row insert_row s_priority p simulation_params pPriority]. by rewrite E.
Qed.

#[local] Instance demo_uuid_instance : PgUuid := demo_uuid.

Lemma create_simulation_outcome_witness :
  valid_simulation (cfg demo_server) demo_sim_req = true ∧
  ∃ row, w_db (handleCreateSimulation (H := PgStore demo_ticks) demo_server (Some "alice")
                 demo_sim_body (mkWorld demo_start 0)).1 =
         with_simulations demo_start [row] ∧ s_state row = Queued ∧ s_user_id row = "alice".
Proof.
  assert (Hv : valid_simulation (cfg demo_server) demo_sim_req = true)
    by (vm_compute; reflexivity).
  split; [exact Hv|].
  pose proof (create_simulation_outcome (PU := demo_uuid) demo_ticks demo_server "alice" "alice" demo_sim_body
    demo_start 0 demo_ticks_quiet (demo_fresh demo_start 0 eq_refl) eq_refl
    (list_elem_of_here _ _)) as H.
  cbv zeta in H. rewrite demo_sim_body_decodes, Hv in H.
  destruct H as (row & E & _ & Hu & _ & Hst & _).
  exists row. split_and!; [exact E|rewrite Hst; vm_compute; reflexivity|exact Hu].
Defined.

(** ** POST /v1/batches *)
Lemma validateVariants_None {W} {UL : UnicodeLib} (s : Server W) vs : ∀ i,
  validateVariants s i vs = None ↔
  forallb (λ v, bool_decide (validateInputRef (cfg s) (Ref (qModel v)) "model" = None)) vs = true.
Proof.
  induction vs as [|v vs IH]; intros i; cbn [validateVariants forallb]; [done|].
  rewrite andb_true_iff, bool_decide_eq_true, <-(IH (S i)).
  destruct (validateInputRef _ _ _); [|tauto]. split; [done|by intros [? _]].
Qed.

(** The handler after its guards, for a request with an idempotency key. *)
Lemma create_batch_valid {W} `{DataStore W} {UL : UnicodeLib} (s : Server W) c body req :
  batch_request body = Some req → valid_batch s req = true → bIdempotencyKey req ≠ "" →
  handleCreateBatch s c body =
  (existing ← FindBatchByIdempotencyKey (userID c) (bIdempotencyKey req);
   match existing with
   | Ok b => mret (writeJSON StatusAccepted (accepted (BID b) (BState b)), None)
   | Err ErrNotFound => createBatch (userID c) req (normalizePriority (bPriority req))
   | Err _ => mret (writeError StatusInternalServerError "idempotency lookup failed", None)
   end).
Proof.
  unfold valid_batch. rewrite !andb_true_iff. intros Hreq [[[[[H1 H2] H3] H4] H5] H6] Hk.
  unfold handleCreateBatch. cbv zeta. rewrite Hreq.
  apply bool_decide_eq_true in H5. apply negb_true_iff in H1, H2. apply Z.leb_le in H3.
  rewrite H1, H2, (proj2 (String.eqb_neq _ _) (confined_nonempty _ _ _ H5)). cbn [orb].
  rewrite (proj2 (Z.ltb_ge _ _)) by done. rewrite H4, H5. cbn [negb].
  rewrite (proj2 (validateVariants_None s (bVariants req) 0)) by done.
  by rewrite (proj2 (String.eqb_neq _ _) Hk).
Qed.

(** In a reachable database the lookup by key finds the one batch. *)
Lemma find_batch_unique {PU : PgUuid} u k db b :
  reachable db → b ∈ batches db → same_key u (Some k) b = true →
  pg_get_batch_where (same_key u (Some k)) db = Ok (scanBatch b).
Proof.
  intros Hr Hb Hk. unfold pg_get_batch_where.
  destruct (List.filter (same_key u (Some k)) (batches db)) as [|b' l] eqn:E.
  - assert (Hin : b ∈ List.filter (same_key u (Some k)) (batches db))
      by (by apply elem_of_filter).
    rewrite E in Hin. by apply not_elem_of_nil in Hin.
  - assert (Hin : b' ∈ List.filter (same_key u (Some k)) (batches db)) by (rewrite E; left).
    apply elem_of_filter in Hin as [Hb' Hk']. simpl. do 2 f_equal.
    unfold same_key in Hk, Hk'. apply andb_true_iff in Hk as [Eu%String.eqb_eq Ek%sql_eq_true].
    apply andb_true_iff in Hk' as [Eu'%String.eqb_eq Ek'%sql_eq_true].
    apply (wf_keys _ (reachable_wf _ Hr) b' b k); [done..| |done].
    unfold same_key. rewrite Eu, Eu', Ek, String.eqb_refl. apply String.eqb_refl.
Qed.

(** No batch has the key. *)
Lemma find_batch_none u k db :
  (∀ b, b ∈ batches db → same_key u (Some k) b = false) →
  pg_get_batch_where (same_key u (Some k)) db = Err ErrNotFound.
Proof. intros H. unfold pg_get_batch_where. by rewrite filter_none. Qed.

(** The unique index refuses a second batch with a key. *)
Lemma create_batch_conflict {PU : PgUuid} id now uid total u k db b :
  uuid_in uid = Some u → b ∈ batches db → same_key u (Some k) b = true →
  ∃ e, pg_create_batch id now uid total (Some k) db = (db, Err e).
Proof.
  intros Hu Hb Hk. unfold pg_create_batch, with_uuid. rewrite Hu.
  destruct (int4 total); cbn [negb]; [|by eexists].
  assert (E : existsb (same_key u (Some k)) (batches db) = true)
    by (apply existsb_elem; by exists b).
  rewrite E, orb_true_r. by eexists.
Qed.

(** C11: batch submission is idempotent (CONTRACT 3), also under a race.  Take a
    valid request whose key some batch of the user has already: the answer is
    202 with that batch's id and current state, and the database is left as the
    other processes made it, whatever the rest of the request says.  And if the
    key is free when it is looked up, but another request of the user creates
    the batch before this one does, this one loses on the unique index and
    answers with the winner's batch, having inserted nothing.  (The database
    between the statements is arbitrary, up to being reachable.) *)
Theorem resubmission_returns_the_batch {PU : PgUuid} {UL : UnicodeLib} ticks
    (s : Server World) uid u body req w b :
  let key := bIdempotencyKey req in
  let t i := ticks (w_time w + i) in
  let db0 := t_env (t 0) (w_db w) in
  let db2 := t_env (t 2) (t_env (t 1) db0) in
  let answer := writeJSON StatusAccepted
                  (accepted (b_id b) (batch_state_text (b_state b))) in
  let r := handleCreateBatch (H := PgStore ticks) s (Some uid) body w in
  batch_request body = Some req → valid_batch s req = true → key ≠ "" → uuid_in uid = Some u →
  (∀ i, i < 3 → t_fault (t i) = None) → same_key u (Some key) b = true →
  (reachable db0 → b ∈ batches db0 → r = (mkWorld db0 (S (w_time w)), (answer, None))) ∧
  ((∀ b', b' ∈ batches db0 → same_key u (Some key) b' = false) →
   (∃ b', b' ∈ batches (t_env (t 1) db0) ∧ same_key u (Some key) b' = true) →
   reachable db2 → b ∈ batches db2 →
   r = (mkWorld db2 (S (S (S (w_time w)))), (answer, None))).
Proof.
  cbv zeta. intros Hreq Hv Hk Hu Hnf Hb.
  rewrite (create_batch_valid s _ body req) by done. cbn [FindBatchByIdempotencyKey PgStore].
  change (userID (Some uid)) with uid.
  assert (Hfind : ∀ i db, i < 3 → st_find_batch ticks uid (bIdempotencyKey req)
    (mkWorld db (w_time w + i)) =
    (mkWorld (t_env (ticks (w_time w + i)) db) (S (w_time w + i)),
     pg_get_batch_where (same_key u (Some (bIdempotencyKey req)))
       (t_env (ticks (w_time w + i)) db))).
  { intros i db Hi. unfold st_find_batch, query, exec, with_uuid. cbn [w_db w_time].
    by rewrite Hnf, Hu. }
  pose proof (Hfind 0 (w_db w) ltac:(lia)) as H0. rewrite Nat.add_0_r in *.
  rewrite state_bind_run.
  replace (mkWorld (w_db w) (w_time w)) with w in H0 by (by destruct w).
  rewrite H0. cbn [fst snd]. split.
  - intros Hr Hin. by rewrite (find_batch_unique u _ _ b).
  - intros Hfree (b1 & Hb1 & Hk1) Hr Hin. rewrite (find_batch_none u) by done.
    unfold createBatch. rewrite state_bind_run. cbn [CreateBatch PgStore].
    set (db0 := t_env (ticks (w_time w)) (w_db w)) in *.
    assert (Ek : optStr (bIdempotencyKey req) = Some (bIdempotencyKey req))
      by (unfold optStr; by rewrite decide_False).
    rewrite Nat.add_1_r in *.
    destruct (create_batch_conflict (t_uuid (ticks (S (w_time w)))) (t_now (ticks (S (w_time w))))
      uid (Z.of_nat (length (bVariants req))) u (bIdempotencyKey req)
      (t_env (ticks (S (w_time w))) db0) b1 Hu Hb1 Hk1) as [e Ee].
    assert (Hc : st_create_batch ticks uid (Z.of_nat (length (bVariants req)))
        (optStr (bIdempotencyKey req)) (mkWorld db0 (S (w_time w))) =
      (mkWorld (t_env (ticks (S (w_time w))) db0) (S (S (w_time w))), Err e)).
    { unfold st_create_batch, exec. cbn [w_db w_time]. rewrite Ek, Ee.
      pose proof (Hnf 1 ltac:(lia)) as H1. cbv beta in H1. rewrite Nat.add_1_r in H1. by rewrite H1. }
    rewrite Hc. cbn [fst snd]. rewrite (proj2 (String.eqb_neq _ _) Hk).
    rewrite state_bind_run. cbn [FindBatchByIdempotencyKey PgStore].
    pose proof (Hfind 2 (t_env (ticks (S (w_time w))) db0) ltac:(lia)) as H2.
    replace (w_time w + 2) with (S (S (w_time w))) in * by lia.
    rewrite H2. cbn [fst snd]. by rewrite (find_batch_unique u _ _ b).
Qed.

(** Another request of alice's creates batch b7 with the same key between the
    lookup and the insert. *)
Definition demo_race (n : nat) : tick :=
  mkTick (if Nat.eqb n 1 then apply (ECreateBatch "b7" 5 "alice" 2 (Some "key-1")) else id)
    None 6 6 ("u" +:+ pretty n).

Lemma resubmission_returns_the_batch_witness :
  handleCreateBatch (H := PgStore demo_race) demo_server (Some "alice") demo_batch_body
    (mkWorld demo_start 0) =
  (mkWorld (apply (ECreateBatch "b7" 5 "alice" 2 (Some "key-1")) demo_start) 3,
   (writeJSON StatusAccepted (accepted "b7" "expanding"), None)).
Proof.
  set (b := mkBatch "b7" "alice" Expanding 2 0 0 (Some "key-1") 5).
  assert (Hr : reachable (apply (ECreateBatch "b7" 5 "alice" 2 (Some "key-1")) demo_start))
    by (apply reach_step; [by apply reach_init|reflexivity]).
  apply (resubmission_returns_the_batch demo_race demo_server "alice" "alice" demo_batch_body
    demo_batch_req (mkWorld demo_start 0) b); [apply demo_batch_body_decodes|vm_compute; reflexivity|discriminate|reflexivity|reflexivity
    |reflexivity| | |exact Hr|].
  - intros b' Hb'. by apply not_elem_of_nil in Hb'.
  - exists b. split; [left|reflexivity].
  - left.
Defined.

(** ** A failed expansion is not resumed

    A submission of two variants whose second insert fails: the answer is 500,
    the batch stays expanding with one row, the client's retry with the same key
    is answered 202 with that batch, and no sweep moves it on (in general:
    [FleetSpec.incomplete_batch_stays_expanding]). *)
Definition demo_faulty (n : nat) : tick :=
  mkTick id (if Nat.eqb n 5 then Some (mkFault false "connection reset") else None)
    (Z.of_nat n) (Z.of_nat n) ("u" +:+ pretty n).

Example failed_expansion_is_not_resumed :
  let submit w := handleCreateBatch (H := PgStore demo_faulty) demo_server (Some "alice")
                    demo_batch_body w in
  let first := submit (mkWorld demo_start 0) in
  let retry := submit first.1 in
  status first.2.1 = StatusInternalServerError ∧
  length (simulations (w_db first.1)) = 1 ∧
  retry.2 = (writeJSON StatusAccepted (accepted "u1" "expanding"), None) ∧
  w_db retry.1 = w_db first.1 ∧
  ResyncStuckBatches (w_db retry.1) = (0%Z, w_db retry.1).
Proof. vm_compute. done. Qed.

(** ** A failed run is a cache hit

    A Runner finishes alice's simulation as failed with verdict severe, writing
    the result first as it does for every verdict; submitting the same inputs
    again, digests included, is answered 201 with state succeeded, because
    HasResult asks for existence only. *)
Definition demo_failed_run : DB :=
  let h := ContentHash "mm" "ww" "24.1.0" in
  run [EInsertSimulation "s1" 1 1
         (mkParams None "alice" "24.1.0" 1 "s3://models/m.idf" "s3://weather/w.epw"
            (Some "mm") (Some "ww") "" h "queued");
       EClaim "r1" "24.1.0" 1 90 (λ _, false) 2;
       EUpsertResult h "severe" "{}" None None 3;
       EFinish "s1" "r1" false (Some "verdict=severe") 4] demo_start.

Example cached_failure_is_reported_succeeded :
  let r := handleCreateSimulation (H := PgStore demo_ticks) demo_server (Some "alice")
    (json_text "{'engineVersion':'24.1.0','model':{'ref':'s3://models/m.idf','sha256':'mm'},
                 'weather':{'ref':'s3://weather/w.epw','sha256':'ww'}}") (mkWorld demo_failed_run 0) in
  map s_state (simulations demo_failed_run) = [Failed] ∧
  r.2 = writeJSON StatusCreated (JObj [("id", JStr "u1"); ("state", JStr "succeeded")]) ∧
  map s_state (simulations (w_db r.1)) = [Failed; Succeeded].
Proof. vm_compute. done. Qed.

(** ** GET /v1/batches/{id}/simulations *)
Lemma page_params_spec q :
  (1 <= (pageParams q).1 <= 500)%Z ∧ (0 <= (pageParams q).2)%Z.
Proof.
  unfold pageParams. cbv zeta. cbn [fst snd].
  destruct (Z.leb_spec (queryInt q "limit" 50) 0); cbn [orb];
    [|destruct (Z.ltb_spec 500 (queryInt q "limit" 50))];
    destruct (Z.ltb_spec (queryInt q "offset" 0) 0); lia.
Qed.

Lemma concat_pages {A} (L n : nat) (l : list A) :
  concat (map (λ k, take L (drop (k * L) l)) (seq 0 n)) = take (n * L) l.
Proof.
  induction n as [|n IH]; [done|].
  rewrite seq_S, map_app, concat_app, IH. cbn [map concat]. rewrite app_nil_r.
  rewrite take_take_drop. f_equal. simpl. lia.
Qed.

(** C31: the pages of a batch partition its simulations.  For every query the
    limit asked of the store is between 1 and 500 and the offset not negative,
    a limit that is absent, not a number or outside that range counting as 50
    and an offset that is absent, not a number or negative as 0; and for every
    page size, as many pages as the number of simulations needs are, one after
    the other, all simulations of the batch, each once, ordered by creation
    time and id, and the count returned with a page is their number. *)
Theorem pages_partition_batch {PU : PgUuid} q batch u db L n :
  (1 <= (pageParams q).1 <= 500)%Z ∧ (0 <= (pageParams q).2)%Z ∧
  (∀ l, Atoi (query_get q "limit") = Some l → (1 <= l <= 500)%Z → (pageParams q).1 = l) ∧
  (∀ l, Atoi (query_get q "limit") = Some l → ¬ (1 <= l <= 500)%Z → (pageParams q).1 = 50%Z) ∧
  (uuid_in batch = Some u → count (is_child u) (simulations db) <= n * L →
   ∃ pages children,
     map (λ k, pg_page_batch_simulations batch (Z.of_nat L) (Z.of_nat (k * L)) db) (seq 0 n) =
       map Ok pages ∧
     concat pages = map scanSimulation children ∧
     children ≡ₚ List.filter (is_child u) (simulations db) ∧
     Sorted page_le children ∧
     pg_count_batch_simulations batch db = Ok (Z.of_nat (length children))).
Proof.
  split_and!; try apply page_params_spec.
  - intros l E Hl. unfold pageParams, queryInt. cbv zeta. cbn [fst].
    destruct (decide _) as [E0|_]; [by rewrite E0 in E|]. rewrite E. simpl.
    destruct (Z.leb_spec l 0); [lia|]. destruct (Z.ltb_spec 500 l); [lia|done].
  - intros l E Hl. unfold pageParams, queryInt. cbv zeta. cbn [fst].
    destruct (decide _) as [E0|_]; [by rewrite E0 in E|]. rewrite E. simpl.
    destruct (Z.leb_spec l 0); [done|]. destruct (Z.ltb_spec 500 l); [done|lia].
  - intros Hu Hn. set (children := order_by page_le (List.filter (is_child u) (simulations db))).
    exists (map (λ k, map scanSimulation (take L (drop (k * L) children))) (seq 0 n)), children.
    assert (Hp : children ≡ₚ List.filter (is_child u) (simulations db)) by apply merge_sort_Permutation.
    split_and!; [| |done|apply Sorted_merge_sort, _|].
    + rewrite map_map. apply map_ext. intros k.
      unfold pg_page_batch_simulations, with_uuid. rewrite Hu.
      destruct (Z.ltb_spec (Z.of_nat L) 0); [lia|].
      destruct (Z.ltb_spec (Z.of_nat (k * L)) 0); [lia|]. cbn [orb].
      by rewrite !Nat2Z.id.
    + rewrite <-(map_map (λ k, take L (drop (k * L) children)) (map scanSimulation)).
      rewrite <-concat_map, concat_pages. f_equal. apply take_ge.
      rewrite Hp. done.
    + unfold pg_count_batch_simulations, with_uuid. rewrite Hu, Hp. done.
Qed.
