(* ===== verification/OwnerSpec.v ===== *)
(** * What one submits one can read

    [later]: the databases the fleet can make of one.  No event takes a row
    away or changes what was submitted in it, so the row a POST inserts is there
    for every later GET of the same user, among whatever other processes do,
    and for nobody else. *)
From S2P Require Import Prelude GoLib Json JsonText Sha256 Sql Schema Fixtures Rollup Lifecycle Store.
From S2P Require Import PortalSql Fleet Session Queue Config Http Auth Handlers Uploads Router.
From S2P Require Import ApiFixtures ApiSafe RefSpec SubmitSpec.
Local Open Scope string_scope.

(** ** What no event changes *)

(** The columns of a simulation that come from its submission. *)
Definition submission (s : SimRow) :=
  (s_id s, s_batch_id s, s_user_id s, s_engine_version s, s_priority s,
   s_model_ref s, s_weather_ref s, s_extraction_spec s, s_created_at s).

(** [db] has the row of that submission, with a content hash, and if [done] it
    is a success. *)
Definition holds sub (done : bool) (db : DB) : Prop :=
  ∃ s, s ∈ simulations db ∧ submission s = sub ∧ is_Some (s_content_hash s) ∧
    (done = true → s_state s = Succeeded).

Definition holds_batch key (db : DB) : Prop := key ∈ map batch_key (batches db).

Section later.
Context {PU : PgUuid}.

(** Postgres generates the ids of new rows. *)
Definition new_ids (e : event) : Prop :=
  match e with
  | EInsertSimulation id _ _ _ | ECreateBatch id _ _ _ _ => canonical id
  | _ => True
  end.

Definition legit (e : event) : Prop := admissible e = true ∧ new_ids e.

Definition later (db db' : DB) : Prop := ∃ es, Forall legit es ∧ db' = run es db.

(** The other processes are those of the fleet. *)
Definition among_fleet (ticks : nat → tick) : Prop := ∀ n db, later db (t_env (ticks n) db).

Lemma later_reachable db db' : later db db' → reachable db → reachable db'.
Proof.
  intros (es & Hes & ->) H. apply reachable_run; [done|].
  eapply Forall_impl; [exact Hes|]. by intros e [].
Qed.

Definition canonical_ids (db : DB) : Prop := ∀ b, b ∈ batches db → canonical (b_id b).

(** What the events keep, runs keep. *)
Lemma later_keeps (I : DB → Prop) db db' :
  (∀ e d, legit e → I d → I (apply e d)) → later db db' → I db → I db'.
Proof.
  intros HI (es & Hes & ->). revert db. induction Hes as [|e es He _ IH]; [done|].
  intros db H. apply IH. by apply HI.
Qed.

(** And so does the apiserver among the fleet. *)
Lemma fleet_invariant ticks (I : DB → Prop) :
  among_fleet ticks → (∀ e d, admissible e = true → I d → I (apply e d)) → invariant ticks I.
Proof.
  intros Hf HI. split.
  - intros e db He. apply HI. by destruct e.
  - intros n db. apply later_keeps, Hf. intros e d [He _]. by apply HI.
Qed.

Lemma holds_update sub done p f db db' :
  simulations db' = update_where p f (simulations db) →
  (∀ s, submission (f s) = submission s) →
  (∀ s, is_Some (s_content_hash s) → is_Some (s_content_hash (f s))) →
  (∀ s, s ∈ simulations db → p s = true → s_state s = Succeeded → s_state (f s) = Succeeded) →
  holds sub done db → holds sub done db'.
Proof.
  intros E Hf Hh Hst (s & Hs & Es & Hc & Hd). exists (if p s then f s else s). split_and!.
  - rewrite E. apply elem_of_update_where. by exists s.
  - by destruct (p s); rewrite ?Hf.
  - destruct (p s); auto.
  - intros Hd'. destruct (p s) eqn:Ep; auto.
Qed.

Lemma holds_apply sub done e db :
  admissible e = true → reachable db ∧ holds sub done db →
  reachable (apply e db) ∧ holds sub done (apply e db).
Proof.
  intros Ha [Hr H]. split; [by apply reach_step|]. apply reachable_wf in Hr as Hwf.
  destruct e as [id now clock p|id now user total key
    |runner v cap lease locked now|sim runner lease now|sim runner ok err now
    |now| |sim m w h|h v m uri ttl now|q]; cbn [apply]; try done.
  - destruct H as (s & Hs & H). exists s. split; [|done].
    destruct (simulations_insert id now clock p db) as [->|(user & batch & st & _ & ->)]; [done|].
    apply elem_of_app. by left.
  - destruct H as (s & Hs & H). exists s. by rewrite simulations_create_batch.
  - destruct (claim_simulation_cases runner v cap lease locked now db (wf_sim_ids _ Hwf))
      as [[-> _]|(r & _ & Hr' & He & _ & E)]; [done|].
    eapply holds_update; [exact E|done|done| |done].
    intros s Hs Ei%String.eqb_eq Hst. apply eligible_true in He as (Hq & _).
    assert (s = r) as -> by (apply (NoDup_key_inj s_id (simulations db)); [apply Hwf|done..]).
    congruence.
  - eapply holds_update; [done|done|done| |done]. by intros s _ _.
  - eapply holds_update; [apply simulations_finish|done|done| |done].
    intros s _ (_ & _ & Hst)%fence_true. congruence.
  - eapply holds_update; [apply simulations_reap| | | |done].
    1,2: intros s; unfold reap_row; by case_match.
    intros s _ (Hst & _)%expired_true. congruence.
  - eapply holds_update; [done|done|by intros; eexists| |done]. by intros s _ _.
  - by destruct (portal_apply_queue q db) as (us & ks & ->).
Qed.

Lemma holds_batch_apply key e db :
  admissible e = true → reachable db ∧ holds_batch key db →
  reachable (apply e db) ∧ holds_batch key (apply e db).
Proof. intros Ha [Hr H]. split; [by apply reach_step|by apply batch_key_apply]. Qed.

Lemma b_ids_fire rows db : map b_id (batches (fire_triggers rows db)) = map b_id (batches db).
Proof. apply map_b_id, batch_keys_fire. Qed.

(** New ids are those of CreateBatch's events. *)
Lemma canonical_ids_apply e db : new_ids e → canonical_ids db → canonical_ids (apply e db).
Proof.
  assert (Hm : ∀ d d', map b_id (batches d') = map b_id (batches d) → canonical_ids d → canonical_ids d').
  { intros d d' E H b Hb. apply (elem_of_map_1 b_id) in Hb. rewrite E in Hb.
    apply elem_of_map_2 in Hb as (b0 & Hb0 & <-). auto. }
  intros Hg H. destruct e as [id now clock p|id now user total key
    |runner v cap lease locked now|sim runner lease now|sim runner ok err now
    |now| |sim m w h|h v m uri ttl now|q]; cbn [apply]; try done.
  - apply (Hm db); [|done]. unfold pg_insert_simulation. case_match; [|done].
    unfold insert_simulations. cbn [fst]. by rewrite b_ids_fire.
  - destruct (pg_create_batch id now user total key db) as [db' [r|e]] eqn:E.
    2: { unfold pg_create_batch in E. by case_match; simplify_eq. }
    apply pg_create_batch_Ok in E as (u & _ & _ & _ & _ & _ & ->). cbn [fst].
    intros b [Hb| ->%list_elem_of_singleton]%elem_of_app; [by apply H|done].
  - apply (Hm db); [|done]. unfold claim_simulation. case_match; [|done].
    apply map_b_id, batch_keys_update_state.
  - apply (Hm db); [|done]. apply map_b_id, batch_keys_update_state.
  - apply (Hm db); [|done]. apply map_b_id. unfold reap_expired_leases. cbn [snd].
    by rewrite !batch_keys_update_state.
  - apply (Hm db); [|done]. unfold ResyncStuckBatches. cbn [snd batches with_batches].
    by apply map_update_where.
  - by destruct (portal_apply_queue q db) as (us & ks & ->).
Qed.

Lemma later_ids db db' : later db db' → canonical_ids db → canonical_ids db'.
Proof. apply later_keeps. intros e d [_ He]. by apply canonical_ids_apply. Qed.
End later.

(** ** Statements among the fleet *)
Section statements.
Context {PU : PgUuid} (ticks : nat → tick) (Hfl : among_fleet ticks).

Lemma env_reachable n db : reachable db → reachable (t_env (ticks n) db).
Proof. by apply later_reachable. Qed.

Lemma env_ids n db : canonical_ids db → canonical_ids (t_env (ticks n) db).
Proof. by apply later_ids. Qed.

(** *** Creating *)
Context (s : Server World) {UL : UnicodeLib} (uid : string).

(** What 201 means: the row is inserted. *)
Lemma inserted_simulation body w :
  let r := handleCreateSimulation (H := PgStore ticks) s (Some uid) body w in
  status r.2 = StatusCreated →
  ∃ req u n st, simulation_request body = Some req ∧ uuid_in uid = Some u ∧
    let t := ticks n in
    let hash := ContentHash (SHA256 (sModel req)) (SHA256 (sWeather req)) (sEngineVersion req) in
    r.2 = writeJSON StatusCreated
            (JObj [("id", JStr (t_uuid t)); ("state", JStr (sim_state_text st))]) ∧
    insert_row (t_uuid t) (t_now t) (t_clock t) None u st
      (simulation_params uid req (normalizePriority (sPriority req)) hash (sim_state_text st))
    ∈ simulations (w_db r.1).
Proof.
  cbv zeta. intros Hst. destruct (simulation_request body) as [req|] eqn:Hreq.
  2: { unfold handleCreateSimulation in Hst. by rewrite Hreq in Hst. }
  destruct (valid_simulation (cfg s) req) eqn:Hv.
  2: { destruct (create_simulation_invalid (H := PgStore ticks) s (Some uid) body w) as [_ E];
       [|by rewrite E in Hst]. intros req' E. congruence. }
  revert Hst. rewrite (create_simulation_valid s _ body req) by done. cbv zeta.
  set (hash := ContentHash _ _ _). rewrite state_bind_run.
  destruct (resolve_cache _ _ hash w) as [w1 [st|e]]; [|done].
  cbn [fst snd]. set (p := simulation_params _ _ _ _ _).
  rewrite state_bind_run. cbn [InsertSimulation PgStore].
  destruct (st_insert_simulation ticks p w1) as [w2 [id|e]] eqn:Ei; [|done].
  cbn [fst snd]. intros _. unfold st_insert_simulation in Ei. apply exec_Ok in Ei.
  apply pg_insert_simulation_Ok in Ei as (u & batch & st' & -> & Eu & Eb & Hins & Edb).
  assert (batch = None) as -> by exact Eb.
  assert (E : st = sim_state_text st') by exact (ins_state _ _ _ _ _ _ Hins).
  exists req, u, (w_time w1), st'. rewrite <-E. split_and!; [done|exact Eu|done|].
  cbn [fst mret state_ret]. rewrite Edb. unfold insert_simulations. rewrite simulations_fire.
  apply elem_of_app. right. left.
Qed.

Context (Hids : ids_generated ticks) (Hu : canonical uid).

Lemma reachable_invariant : invariant ticks reachable.
Proof. apply fleet_invariant; [done|]. intros e d He Hd. by apply reach_step. Qed.

Lemma created_simulation body w :
  reachable (w_db w) →
  let r := handleCreateSimulation (H := PgStore ticks) s (Some uid) body w in
  status r.2 = StatusCreated →
  ∃ req id st now, simulation_request body = Some req ∧ canonical id ∧
    r.2 = writeJSON StatusCreated (JObj [("id", JStr id); ("state", JStr st)]) ∧
    reachable (w_db r.1) ∧
    holds (id, None, uid, sEngineVersion req, normalizePriority (sPriority req), Ref (sModel req),
           Ref (sWeather req), nullableJSON (rawJSON (sExtractionSpec req)), now)
      (String.eqb st "succeeded") (w_db r.1).
Proof.
  intros Hr. cbv zeta. intros Hst.
  assert (Hkeep : reachable (w_db (handleCreateSimulation (H := PgStore ticks) s (Some uid) body w).1))
    by by apply (keeps_create_simulation ticks reachable reachable_invariant).
  destruct (inserted_simulation body w Hst) as (req & u & n & st & Hreq & Eu & Ea & Hin).
  unfold canonical in Hu. rewrite Hu in Eu. injection Eu as <-.
  exists req, (t_uuid (ticks n)), (sim_state_text st), (t_now (ticks n)).
  split_and!; [done|apply Hids|done..|]. eexists. split_and!; [exact Hin|done|by eexists|].
  by destruct st.
Qed.

Lemma batch_invariant key : invariant ticks (λ db, reachable db ∧ holds_batch key db).
Proof. apply fleet_invariant; [done|]. apply holds_batch_apply. Qed.

Lemma create_batch_ids total key w :
  canonical_ids (w_db w) → canonical_ids (w_db (st_create_batch ticks uid total key w).1).
Proof.
  intros H. unfold st_create_batch, exec. set (t := ticks (w_time w)).
  assert (H1 : canonical_ids (t_env t (w_db w))) by by apply env_ids.
  pose proof (canonical_ids_apply (ECreateBatch (t_uuid t) (t_now t) uid total key) _ (Hids _) H1) as H2.
  cbn [apply] in H2. destruct (pg_create_batch _ _ _ _ _ _) as [d r].
  destruct (t_fault t) as [f|]; [|done]. by destruct (applied f).
Qed.

Lemma found_batch k db b :
  canonical_ids db → pg_get_batch_where (same_key uid (Some k)) db = Ok b →
  canonical (BID b) ∧ ∃ total now, holds_batch (BID b, uid, total, Some k, now) db.
Proof.
  intros Hc. unfold pg_get_batch_where. destruct (first_row _) as [row|] eqn:E; [|done].
  intros [= <-]. apply first_row_filter in E as [Hrow [Eu%String.eqb_eq Ek%sql_eq_true]%andb_true_iff].
  split; [by apply Hc|]. exists (b_total row), (b_created_at row).
  unfold holds_batch. replace (_, _, _, _, _) with (batch_key row); [by apply elem_of_map_1|].
  unfold batch_key. cbn. by rewrite Eu, Ek.
Qed.

(** What an accepted submission leaves. *)
Definition batch_held (req : createBatchRequest) (o : World * (response * option ExpandSpec)) : Prop :=
  ∃ id st total now, canonical id ∧ o.2.1 = writeJSON StatusAccepted (accepted id st) ∧
    holds_batch (id, uid, total, optStr (bIdempotencyKey req), now) (w_db o.1) ∧
    (bIdempotencyKey req = "" → total = Z.of_nat (length (bVariants req))).

Lemma find_batch_held req w w' b (x : option ExpandSpec) :
  canonical_ids (w_db w) → bIdempotencyKey req ≠ "" →
  st_find_batch ticks uid (bIdempotencyKey req) w = (w', Ok b) →
  batch_held req (w', (writeJSON StatusAccepted (accepted (BID b) (BState b)), x)).
Proof.
  intros Hc Hk Ef. unfold st_find_batch, query in Ef. apply exec_Ok in Ef. injection Ef as Edb Ef.
  unfold with_uuid in Ef. unfold canonical in Hu. rewrite Hu, Edb in Ef.
  apply found_batch in Ef as (Hcb & total & now & Hh).
  2: { rewrite <-Edb. by apply env_ids. }
  exists (BID b), (BState b), total, now. split_and!; [done|done| |done].
  cbn [fst]. unfold optStr. by rewrite decide_False.
Qed.

Lemma createBatch_held req prio w :
  reachable (w_db w) → canonical_ids (w_db w) → bVariants req ≠ [] →
  let o := createBatch (H := PgStore ticks) uid req prio w in
  status o.2.1 = StatusAccepted → batch_held req o.
Proof.
  intros Hr Hc Hne. cbv zeta. unfold createBatch. rewrite state_bind_run. cbn [CreateBatch PgStore].
  set (total := Z.of_nat _). set (key := optStr _).
  assert (Hr1 : reachable (w_db (st_create_batch ticks uid total key w).1)).
  { apply (keeps_create_batch ticks reachable reachable_invariant); [|done].
    unfold total. destruct (bVariants req); [done|simpl; lia]. }
  pose proof (create_batch_ids total key w Hc) as Hc1.
  destruct (st_create_batch ticks uid total key w) as [w1 [id|e]] eqn:Ec; cbn [fst snd] in *.
  - unfold st_create_batch in Ec. apply exec_Ok in Ec.
    apply pg_create_batch_Ok in Ec as (u & -> & Eu & _ & _ & _ & Edb).
    unfold canonical in Hu. rewrite Hu in Eu. injection Eu as <-.
    set (t := ticks (w_time w)) in *. cbv zeta.
    assert (Hh : reachable (w_db w1) ∧ holds_batch (t_uuid t, uid, total, key, t_now t) (w_db w1)).
    { split; [done|]. unfold holds_batch. rewrite Edb. cbn [batches with_batches]. rewrite map_app.
      apply elem_of_app. right. left. }
    case_match.
    + rewrite state_bind_run.
      pose proof (keeps_expand_variants ticks _ (batch_invariant _)
        (expand_spec (t_uuid t) uid req prio)
        (eVariants (expand_spec (t_uuid t) uid req prio)) w1 Hh) as [_ H2].
      unfold Expand. destruct (expand_variants _ _ w1) as [w2 [[]|e]]; [|done]. intros _.
      exists (t_uuid t), "expanding", total, (t_now t). split_and!; [apply Hids|done..].
    + intros _. exists (t_uuid t), "expanding", total, (t_now t).
      split_and!; [apply Hids|done|apply Hh|done].
  - destruct (String.eqb_spec (bIdempotencyKey req) "") as [|Hk]; [done|].
    rewrite state_bind_run. cbn [FindBatchByIdempotencyKey PgStore].
    destruct (st_find_batch _ _ _ w1) as [w2 [b|e2]] eqn:Ef; [|done]. intros _.
    by apply (find_batch_held req w1).
Qed.

Lemma accepted_batch body w :
  reachable (w_db w) → canonical_ids (w_db w) →
  let o := handleCreateBatch (H := PgStore ticks) s (Some uid) body w in
  status o.2.1 = StatusAccepted →
  ∃ req, batch_request body = Some req ∧ reachable (w_db o.1) ∧ batch_held req o.
Proof.
  intros Hr Hc. cbv zeta.
  assert (Hkeep : reachable (w_db (handleCreateBatch (H := PgStore ticks) s (Some uid) body w).1))
    by by apply (keeps_handle_create_batch ticks reachable reachable_invariant).
  revert Hkeep. unfold handleCreateBatch. cbv zeta.
  destruct (batch_request body) as [req|]; [|done]. destruct (_ || _) eqn:E0; [done|].
  assert (Hne : bVariants req ≠ []).
  { intros E. rewrite E, orb_true_r in E0. done. }
  do 2 (case_match; [done|]). do 2 (case_match; [repeat case_match; done|]).
  change (userID (Some uid)) with uid. intros Hkeep Hst. exists req. split; [done|]. split; [done|].
  revert Hkeep Hst. destruct (String.eqb_spec (bIdempotencyKey req) "") as [|Hk];
    [intros _; by apply createBatch_held|].
  rewrite state_bind_run. cbn [FindBatchByIdempotencyKey PgStore].
  destruct (st_find_batch ticks uid (bIdempotencyKey req) w) as [w1 [b|[|e]]] eqn:Ef; [..|done].
  - intros _ _. by apply (find_batch_held req w).
  - assert (Ew : w_db w1 = t_env (ticks (w_time w)) (w_db w)).
    { unfold st_find_batch, query, exec in Ef. destruct (t_fault _); by simplify_eq. }
    intros _. cbn [fst snd]. apply createBatch_held; [..|done]; rewrite Ew.
    + by apply env_reachable.
    + by apply env_ids.
Qed.
End statements.

(** ** Reading *)
Definition simulation_answer (row : SimRow) (found : result error Result) : response :=
  writeJSON StatusOK (JObj ([("id", JStr (s_id row)); ("state", JStr (sim_state_text (s_state row)))]
    ++ match found with
       | Ok r => [("verdict", JStr (Verdict r)); ("result", resultPayload r)]
       | Err _ => []
       end
    ++ match s_error row with Some e => [("error", JStr e)] | None => [] end)%list).

Definition result_answer (found : result error Result) : response :=
  match found with
  | Ok r => writeJSON StatusOK (resultPayload r)
  | Err _ => writeError StatusNotFound "no result yet"
  end.

Definition batch_answer (b : BatchRow) : response :=
  writeJSON StatusOK
    (JObj [("id", JStr (b_id b)); ("state", JStr (batch_state_text (b_state b)));
           ("total", JInt (b_total b)); ("succeeded", JInt (b_succeeded b));
           ("failed", JInt (b_failed b))]).

Definition page_answer {PU : PgUuid} (id : string) (q : Values) (counted paged : DB) : response :=
  let '(limit, offset) := pageParams q in
  let rows := order_by page_le (List.filter (is_child id) (simulations paged)) in
  writeJSON StatusOK
    (JObj [("items", JArr (map sim_item (map scanSimulation
              (take (Z.to_nat limit) (drop (Z.to_nat offset) rows)))));
           ("total", JInt (Z.of_nat (count (is_child id) (simulations counted))))]).

Section reading.
Context {PU : PgUuid} {UL : UnicodeLib} (ticks : nat → tick) (Hfl : among_fleet ticks).
Context (Hnf : faultless ticks) (s : Server World) (db : DB) (n : nat) (u : string).
Hypothesis Hr : reachable db.

Abbreviation db1 := (t_env (ticks n) db).
Abbreviation db2 := (t_env (ticks (S n)) db1).
Abbreviation db3 := (t_env (ticks (S (S n))) db2).

(** The answer of a GET, when nothing fails. *)
Definition get (r : v1_route) : response :=
  (v1 (H := PgStore ticks) s r (Some u) (mkWorld db n)).2.1.

Lemma env_wf : db_wf db1.
Proof. by apply reachable_wf, env_reachable. Qed.

Lemma get_simulation_row row : row ∈ simulations db1 → canonical (s_id row) →
  GetSimulation (DataStore := PgStore ticks) (s_id row) (mkWorld db n) =
  (mkWorld db1 (S n), Ok (scanSimulation row)).
Proof.
  intros Hin Hc. cbn [GetSimulation PgStore]. rewrite query_faultless by done. f_equal.
  unfold pg_get_simulation, with_uuid. rewrite Hc.
  by rewrite (filter_key_NoDup s_id _ _ (wf_sim_ids _ env_wf) Hin).
Qed.

Lemma get_batch_row b : b ∈ batches db1 → canonical (b_id b) →
  GetBatch (DataStore := PgStore ticks) (b_id b) (mkWorld db n) =
  (mkWorld db1 (S n), Ok (scanBatch b)).
Proof.
  intros Hin Hc. cbn [GetBatch PgStore]. unfold st_get_batch. rewrite query_faultless by done. f_equal.
  unfold with_uuid, pg_get_batch_where. rewrite Hc.
  by rewrite (filter_key_NoDup b_id _ _ (wf_batch_ids _ env_wf) Hin).
Qed.

Lemma pg_get_result_error h d e : pg_get_result h d = Err e → e = ErrNotFound.
Proof. unfold pg_get_result. destruct (List.filter _ _); [by intros [= <-]|done]. Qed.

Lemma read_simulation row hash :
  row ∈ simulations db1 → canonical (s_id row) → s_content_hash row = Some hash →
  let own (answer : response) :=
    if String.eqb (s_user_id row) u then answer
    else writeError StatusNotFound "simulation not found" in
  let found := pg_get_result hash db2 in
  get (GetSimulationById (s_id row)) = own (simulation_answer row found) ∧
  get (GetResultBySim (s_id row)) = own (result_answer found).
Proof.
  intros Hin Hc Eh. cbv zeta. unfold get. cbn [v1]. unfold respond. rewrite !state_bind_run.
  unfold handleGetSimulation, handleGetResult. rewrite !state_bind_run, get_simulation_row by done.
  cbn [fst snd]. change (UserID (scanSimulation row)) with (s_user_id row).
  change (userID (Some u)) with u. change (Store.ContentHash (scanSimulation row)) with (s_content_hash row).
  destruct (String.eqb (s_user_id row) u); cbn [negb]; [|done]. rewrite Eh.
  cbv zeta. rewrite !state_bind_run. cbn [GetResult PgStore]. rewrite query_faultless by done.
  cbn [fst snd]. split; [done|]. destruct (pg_get_result hash db2) as [r|e] eqn:E; [done|].
  by apply pg_get_result_error in E as ->.
Qed.

Lemma read_batch b q :
  b ∈ batches db1 → canonical (b_id b) →
  let own (answer : response) :=
    if String.eqb (b_user_id b) u then answer
    else writeError StatusNotFound "batch not found" in
  get (GetBatchById (b_id b)) = own (batch_answer b) ∧
  get (GetBatchSimulations (b_id b) q) = own (page_answer (b_id b) q db2 db3).
Proof.
  intros Hin Hc. cbv zeta. unfold get. cbn [v1]. unfold respond. rewrite !state_bind_run.
  unfold handleGetBatch, handleListBatchSimulations, page_answer.
  pose proof (page_params_spec q) as Hp. destruct (pageParams q) as [limit offset]. cbn [fst snd] in Hp.
  rewrite !state_bind_run, get_batch_row by done.
  cbn [fst snd]. change (BUserID (scanBatch b)) with (b_user_id b).
  change (userID (Some u)) with u.
  destruct (String.eqb (b_user_id b) u); cbn [negb]; [|done]. split; [done|].
  rewrite state_bind_run. cbn [ListBatchSimulations PgStore]. unfold st_list_batch_simulations.
  rewrite state_bind_run, query_faultless by done. cbn [fst snd].
  unfold pg_count_batch_simulations at 1, with_uuid at 1. rewrite Hc.
  rewrite state_bind_run, query_faultless by done. cbn [fst snd].
  unfold pg_page_batch_simulations, with_uuid. rewrite Hc.
  destruct (Z.ltb_spec limit 0); [lia|]. destruct (Z.ltb_spec offset 0); [lia|]. done.
Qed.
End reading.

(** ** Property *)

(** C9: what one submits one can read, and nobody else can.  When the apiserver
    answers 201 to a user's POST /v1/simulations, the id it answers is, in every
    later database, that of a row of the user with the version, inputs,
    extraction spec and (normalised) priority of the request, a success already
    if the answer said so; and whenever a GET of the simulation or of its
    result finds the database up, it answers this user with the row's state and
    error and the cached result of its hash, and every other user as if there
    were no such simulation.  The same of 202 to POST /v1/batches, whether the
    batch is new, known by its key or the winner of a race: it is the user's,
    has the key (and the number of variants as its total, if there is no key),
    and the owner, and nobody else, reads its counts, its state and its pages.
    The other processes of the fleet may act before every statement of the POST
    and the GETs, and any statement of the POST may fail. *)
Theorem what_one_submits_one_can_read {PU : PgUuid} {UL : UnicodeLib} ticks s uid w :
  reachable (w_db w) → canonical_ids (w_db w) → among_fleet ticks → ids_generated ticks →
  canonical uid →
  let reader ticks' db' db := among_fleet ticks' ∧ faultless ticks' ∧ later db' db in
  (∀ body, let o := handleCreateSimulation (H := PgStore ticks) s (Some uid) body w in
     status o.2 = StatusCreated →
     ∃ req id st, simulation_request body = Some req ∧
       o.2 = writeJSON StatusCreated (JObj [("id", JStr id); ("state", JStr st)]) ∧
     ∀ ticks' db n, reader ticks' (w_db o.1) db →
       let db1 := t_env (ticks' n) db in
       let db2 := t_env (ticks' (S n)) db1 in
       ∃ row hash, row ∈ simulations db1 ∧ s_id row = id ∧ s_user_id row = uid ∧
         s_batch_id row = None ∧ s_engine_version row = sEngineVersion req ∧
         s_priority row = normalizePriority (sPriority req) ∧
         s_model_ref row = Ref (sModel req) ∧ s_weather_ref row = Ref (sWeather req) ∧
         s_extraction_spec row = nullableJSON (rawJSON (sExtractionSpec req)) ∧
         s_content_hash row = Some hash ∧ (st = "succeeded" → s_state row = Succeeded) ∧
         ∀ s' u, let own answer :=
             if String.eqb uid u then answer
             else writeError StatusNotFound "simulation not found" in
           get ticks' s' db n u (GetSimulationById id) =
             own (simulation_answer row (pg_get_result hash db2)) ∧
           get ticks' s' db n u (GetResultBySim id) = own (result_answer (pg_get_result hash db2))) ∧
  (∀ body, let o := handleCreateBatch (H := PgStore ticks) s (Some uid) body w in
     status o.2.1 = StatusAccepted →
     ∃ req id st, batch_request body = Some req ∧
       o.2.1 = writeJSON StatusAccepted (accepted id st) ∧
     ∀ ticks' db n, reader ticks' (w_db o.1) db →
       let db1 := t_env (ticks' n) db in
       let db2 := t_env (ticks' (S n)) db1 in
       let db3 := t_env (ticks' (S (S n))) db2 in
       ∃ b, b ∈ batches db1 ∧ b_id b = id ∧ b_user_id b = uid ∧
         b_idempotency_key b = optStr (bIdempotencyKey req) ∧
         (bIdempotencyKey req = "" → b_total b = Z.of_nat (length (bVariants req))) ∧
         ∀ s' u q, let own answer :=
             if String.eqb uid u then answer
             else writeError StatusNotFound "batch not found" in
           get ticks' s' db n u (GetBatchById id) = own (batch_answer b) ∧
           get ticks' s' db n u (GetBatchSimulations id q) = own (page_answer id q db2 db3)).
Proof.
  intros Hr Hc Hfl Hids Hu reader. split; intros body o Hst.
  - destruct (created_simulation ticks Hfl s uid Hids Hu body w Hr Hst)
      as (req & id & st & now & Hreq & Hid & Ho & Hr1 & Hh).
    exists req, id, st. split; [done|]. split; [done|].
    intros ticks' db n (Hfl' & Hnf & Hl). cbv zeta.
    assert (Hk : reachable (w_db o.1) ∧ holds _ (String.eqb st "succeeded") (w_db o.1)) by by split.
    apply (later_keeps _ _ db (λ e d He, holds_apply _ _ e d (proj1 He)) Hl) in Hk as Hk1.
    apply (later_keeps _ _ _ (λ e d He, holds_apply _ _ e d (proj1 He)) (Hfl' n db)) in Hk1
      as [_ (row & Hrow & Es & [hash Eh] & Hd)].
    injection Es as Ei Eb Eu Ev Ep Em Ew Ex _. exists row, hash.
    split_and!; try done; [by intros ->; apply Hd|].
    intros s' u. rewrite <-Ei, <-Eu.
    apply (read_simulation ticks' Hfl' Hnf s' db n u); [by apply (later_reachable (w_db o.1))|done| |done].
    by rewrite Ei.
  - destruct (accepted_batch ticks Hfl s uid Hids Hu body w Hr Hc Hst)
      as (req & Hreq & Hr1 & id & st & total & now & Hid & Ho & Hh & Ht).
    exists req, id, st. split; [done|]. split; [done|].
    intros ticks' db n (Hfl' & Hnf & Hl). cbv zeta.
    assert (Hk : reachable (w_db o.1) ∧ holds_batch _ (w_db o.1)) by by split.
    apply (later_keeps _ _ db (λ e d He, holds_batch_apply _ e d (proj1 He)) Hl) in Hk as Hk1.
    apply (later_keeps _ _ _ (λ e d He, holds_batch_apply _ e d (proj1 He)) (Hfl' n db)) in Hk1
      as [_ (b & Hb & Ek)%elem_of_map_2].
    injection Ek as Ei Eu Et Ekey _. exists b. split_and!; [done..|by intros ?; rewrite Et; apply Ht|].
    intros s' u q. rewrite <-Ei, <-Eu.
    apply (read_batch ticks' Hfl' Hnf s' db n u); [by apply (later_reachable (w_db o.1))|done|].
    by rewrite Ei.
Qed.

Lemma demo_env k d : t_env (demo_ticks k) d = d.
Proof. done. Qed.

(** Alice submits, a Runner runs it, she reads it and bob does not. *)
Lemma what_one_submits_one_can_read_witness :
  let o := handleCreateSimulation (H := PgStore (PU := demo_uuid) demo_ticks) demo_server
             (Some "alice") demo_sim_body (mkWorld demo_start 0) in
  let db := run (PU := demo_uuid) [EClaim "r1" "24.1.0" 1 90 (λ _, false) 10;
                 EFinish "u1" "r1" true None 20] (w_db o.1) in
  ∃ id st row hash, o.2 = writeJSON StatusCreated (JObj [("id", JStr id); ("state", JStr st)]) ∧
    s_id row = id ∧ s_model_ref row = Ref (sModel demo_sim_req) ∧
    get (PU := demo_uuid) demo_ticks demo_server db 7 "alice" (GetSimulationById id) =
      simulation_answer row (pg_get_result hash db) ∧
    get (PU := demo_uuid) demo_ticks demo_server db 7 "bob" (GetSimulationById id) =
      writeError StatusNotFound "simulation not found".
Proof.
  intros o db.
  assert (Hf : among_fleet (PU := demo_uuid) demo_ticks) by (intros n d; by exists []).
  destruct (what_one_submits_one_can_read (PU := demo_uuid) demo_ticks demo_server "alice"
    (mkWorld demo_start 0)) as [H _].
  - by apply reach_init.
  - intros b Hb. by apply not_elem_of_nil in Hb.
  - exact Hf.
  - intros n. done.
  - reflexivity.
  - destruct (H demo_sim_body) as (req & id & st & Hreq & Ho & Hread); [by vm_compute|].
    rewrite demo_sim_body_decodes in Hreq. injection Hreq as <-.
    destruct (Hread demo_ticks db 7) as (row & hash & _ & Ei & _ & _ & _ & _ & Em & _ & _ & _ & _ & Hget).
    + split; [exact Hf|]. split; [done|]. eexists. split; [|reflexivity]. by repeat constructor.
    + exists id, st, row, hash.
      destruct (Hget demo_server "alice") as [Ha _], (Hget demo_server "bob") as [Hb _].
      rewrite String.eqb_refl, (demo_env 7 db), (demo_env 8 db) in Ha.
      rewrite (proj2 (String.eqb_neq "alice" "bob")) in Hb by done.
      exact (conj Ho (conj Ei (conj Em (conj Ha Hb)))).
Defined.
