(* ===== verification/Storage.v ===== *)
(** * internal/storage/presign.go, and its wiring in cmd/apiserver/main.go

    [New] builds a [Presigner] from two clients of the minio library, which is a
    parameter ([Minio]): what its constructor accepts, the URLs it signs and the
    objects it lists.  Endpoints are read by net/url ([NetUrl]).
    [presigner_of] is the switch of main that decides whether there is a
    presigner, [PresignerAdapter] (uploads.go) the view of it the handlers
    have. *)
From S2P Require Import Prelude GoLib JsonText NetUrl Config Http.
Local Open Scope string_scope.

Inductive credentials := StaticV4 (access secret : string) | IAM.

Record options := mkOptions { Creds : credentials; Secure : bool; Region : string }.

(** One element of the channel ListObjects returns. *)
Inductive object_info := ObjInfo (key : string) (size : Z) | ObjErr (err : string).

(** The minio client library: minio.New, presigning and listing. *)
Class Minio (W : Type) := {
  Client : Type;
  minio_New : string → options → result string Client;
  PresignedPutObject : Client → string → string → Z → state_t W (result string string);
  PresignedGetObject : Client → string → string → Z → state_t W (result string string);
  minio_ListObjects : Client → string → string → state_t W (list object_info);
}.

(** storage.Config *)
Record StorageConfig := mkStorageConfig {
  Endpoint : string;
  PublicEndpoint : string;
  AccessKey : string;
  SecretKey : string;
  cRegion : string;
  Expiry : Z;
}.

Record Object := mkObj { oKey : string; oSize : Z }.

Definition awsS3Endpoint (region : string) : string :=
  let region := if decide (region = "") then "us-east-1" else region in
  "https://s3." +:+ region +:+ ".amazonaws.com".

Section presign.
Context {W : Type} {UL : UnicodeLib} {IP : IPLiteral} {M : Minio W}.

Record Presigner := mkPresigner {
  signClient : Client;
  listClient : Client;
  expiry : Z;
}.

(** (host, secure) *)
Definition parseEndpoint (endpoint : string) : result string (string * bool) :=
  if decide (endpoint = "") then Err "empty S3 endpoint"
  else match url_Parse endpoint with
  | Err e => Err ("parse endpoint " +:+ Quote endpoint +:+ ": " +:+ e)
  | Ok u =>
      if decide (url_Host u = "") then Ok (endpoint, false)
      else Ok (url_Host u, String.eqb (url_Scheme u) "https")
  end.

Definition newClient (endpoint : string) (creds : credentials) (region : string) :
    result string Client :=
  match parseEndpoint endpoint with
  | Err e => Err e
  | Ok (host, secure) => minio_New host (mkOptions creds secure region)
  end.

(** The credentials, endpoints and lifetime New settles on. *)
Definition choose_creds (cfg : StorageConfig) : credentials :=
  if decide (AccessKey cfg = "") then IAM else StaticV4 (AccessKey cfg) (SecretKey cfg).
Definition choose_endpoint (cfg : StorageConfig) : string :=
  if decide (Endpoint cfg = "") then awsS3Endpoint (cRegion cfg) else Endpoint cfg.
Definition choose_public (cfg : StorageConfig) : string :=
  if decide (PublicEndpoint cfg = "") then choose_endpoint cfg else PublicEndpoint cfg.
Definition choose_expiry (cfg : StorageConfig) : Z :=
  if (Expiry cfg <=? 0)%Z then (5 * Minute)%Z else Expiry cfg.

Definition New (cfg : StorageConfig) : result string Presigner :=
  let creds := choose_creds cfg in
  let endpoint := choose_endpoint cfg in
  let pub := choose_public cfg in
  match newClient pub creds (cRegion cfg) with
  | Err e => Err ("build sign client: " +:+ e)
  | Ok signc =>
      match newClient endpoint creds (cRegion cfg) with
      | Err e => Err ("build list client: " +:+ e)
      | Ok listc => Ok (mkPresigner signc listc (choose_expiry cfg))
      end
  end.

Definition s_ExpiresIn (p : Presigner) : Z := expiry p.

Definition s_PresignPut (p : Presigner) (bucket key : string) :
    state_t W (result string string) :=
  u ← PresignedPutObject (signClient p) bucket key (expiry p);
  match u with
  | Err e => mret (Err ("presign put " +:+ bucket +:+ "/" +:+ key +:+ ": " +:+ e))
  | Ok url => mret (Ok url)
  end.

Definition s_PresignGet (p : Presigner) (bucket key : string) :
    state_t W (result string string) :=
  u ← PresignedGetObject (signClient p) bucket key (expiry p);
  match u with
  | Err e => mret (Err ("presign get " +:+ bucket +:+ "/" +:+ key +:+ ": " +:+ e))
  | Ok url => mret (Ok url)
  end.

(** The loop of List: the first error ends it, keys that end in a slash are
    skipped. *)
Fixpoint collect (bucket prefix : string) (objs : list object_info) :
    result string (list Object) :=
  match objs with
  | [] => Ok []
  | ObjErr e :: _ => Err ("list " +:+ bucket +:+ "/" +:+ prefix +:+ ": " +:+ e)
  | ObjInfo key size :: rest =>
      match collect bucket prefix rest with
      | Err e => Err e
      | Ok out => Ok (if HasSuffix key "/" then out else mkObj key size :: out)
      end
  end.

Definition s_List (p : Presigner) (bucket prefix : string) :
    state_t W (result string (list Object)) :=
  objs ← minio_ListObjects (listClient p) bucket prefix;
  mret (collect bucket prefix objs).

(** ** uploads.go: PresignerAdapter *)
Definition PresignerAdapter (p : Presigner) : presignClient W :=
  mkPresign (s_PresignPut p) (s_PresignGet p)
    (λ bucket prefix,
       objs ← s_List p bucket prefix;
       match objs with
       | Err e => mret (Err e)
       | Ok l => mret (Ok (map (λ o, mkObject (oKey o) (oSize o)) l))
       end)
    (s_ExpiresIn p).

Definition NewPresignerAdapter (p : option Presigner) : option (presignClient W) :=
  PresignerAdapter <$> p.

(** ** cmd/apiserver/main.go: the presigner of the process

    [Ok None] when uploads are disabled, [Err] when main exits. *)
Definition presigner_of (e : env) : result string (option Presigner) :=
  let cfg := LoadConfig e in
  let build c := match New c with Ok p => Ok (Some p) | Err err => Err err end in
  if negb (String.eqb (S3AccessKey cfg) "") then
    build (mkStorageConfig (S3Endpoint cfg) (S3PublicEndpoint cfg) (S3AccessKey cfg)
             (S3SecretKey cfg) (S3Region cfg) (PresignExpiry cfg))
  else if negb (String.eqb (e "AWS_WEB_IDENTITY_TOKEN_FILE") "") then
    build (mkStorageConfig "" "" "" "" (S3Region cfg) (PresignExpiry cfg))
  else Ok None.

(** main: the server main builds, [None] when it exits before. *)
Definition main_server (e : env) : option (Server W) :=
  if String.eqb (DatabaseURL (LoadConfig e)) "" then None
  else match presigner_of e with
  | Err _ => None
  | Ok p => Some (NewServer (NewPresignerAdapter p) (LoadConfig e))
  end.
End presign.
