(* ===== verification/StorageSpec.v ===== *)
(** * What the presigner guarantees

    From the environment of the process to the lifetime, the endpoints and the
    credentials of every presigned URL, and which objects a listing shows. *)
From S2P Require Import Prelude GoLib Json JsonText NetUrl Store Queue Config Http Auth Handlers Uploads Storage ApiFixtures.
Local Open Scope string_scope.

(** A minio library that accepts every endpoint and lists three objects; its URLs
    name the host and the lifetime in seconds. *)
Definition demo_minio : Minio unit := {|
  Client := string * options;
  minio_New host o := Ok (host, o);
  PresignedPutObject c b k e w :=
    (w, Ok (c.1 +:+ "/" +:+ b +:+ "/" +:+ k +:+ "?put&expires=" +:+ pretty (e / Second)%Z));
  PresignedGetObject c b k e w :=
    (w, Ok (c.1 +:+ "/" +:+ b +:+ "/" +:+ k +:+ "?get&expires=" +:+ pretty (e / Second)%Z));
  minio_ListObjects c b p w :=
    (w, [ObjInfo (p +:+ "eplusout.sql") 7; ObjInfo (p +:+ "sub/") 0; ObjInfo (p +:+ "run.err") 2]);
|}.

(** A reader that takes any bracketed literal. *)
#[export] Instance demo_ip : IPLiteral := λ s, Ok s.

Definition demo_env : env := λ k,
  if String.eqb k "DATABASE_URL" then "postgres://db"
  else if String.eqb k "S3_ACCESS_KEY" then "minio"
  else if String.eqb k "S3_ENDPOINT" then "http://minio:9000"
  else if String.eqb k "S3_PUBLIC_ENDPOINT" then "https://s3.example.org"
  else if String.eqb k "SP_PRESIGN_EXPIRY_SECONDS" then "86400" else "".

(** The object of a listed element, unless it is a directory placeholder. *)
Definition file_of (o : object_info) : option Object :=
  match o with
  | ObjInfo k size => if HasSuffix k "/" then None else Some (mkObj k size)
  | ObjErr _ => None
  end.

(** ** Facts *)
Lemma New_Ok {W} {UL : UnicodeLib} {IP : IPLiteral} {M : Minio W} cfg p :
  New (W := W) cfg = Ok p →
  expiry p = choose_expiry cfg ∧
  newClient (choose_public cfg) (choose_creds cfg) (cRegion cfg) = Ok (signClient p) ∧
  newClient (choose_endpoint cfg) (choose_creds cfg) (cRegion cfg) = Ok (listClient p).
Proof.
  unfold New. cbv zeta. destruct (newClient (choose_public cfg) _ _) as [c1|] eqn:E1; [|done].
  destruct (newClient (choose_endpoint cfg) _ _) as [c2|] eqn:E2; [|done].
  by intros [= <-].
Qed.

Lemma collect_Ok bucket prefix objs : ∀ l,
  collect bucket prefix objs = Ok l ↔ (∀ e, ObjErr e ∉ objs) ∧ l = omap file_of objs.
Proof.
  induction objs as [|[key size|e] objs IH]; intros l; cbn [collect].
  - split; [intros [= <-]; split; [by intros e ?%not_elem_of_nil|done]|]. by intros [_ ->].
  - assert (Hin : (∀ e, ObjErr e ∉ ObjInfo key size :: objs) ↔ (∀ e, ObjErr e ∉ objs)).
    { split; intros H e Hx; apply (H e); [by right|]. by inversion Hx. }
    rewrite Hin. cbn [omap list_omap file_of]. fold (omap file_of objs).
    destruct (collect bucket prefix objs) as [out|err].
    + destruct (proj1 (IH out) eq_refl) as [Hno ->].
      split; [intros [= <-]; split; [done|]; by destruct (HasSuffix key "/")|].
      intros [_ ->]. by destruct (HasSuffix key "/").
    + split; [done|]. intros [Hno _]. discriminate (proj2 (IH (omap file_of objs)) (conj Hno eq_refl)).
  - split; [done|]. intros [H _]. destruct (H e). left.
Qed.

Lemma artifact_name_app prefix c rest :
  c ≠ "/"%char → artifact_name prefix (prefix +:+ String c rest) = String c rest.
Proof.
  intros Hc. unfold artifact_name.
  assert (E : TrimPrefix (prefix +:+ String c rest) prefix = String c rest)
    by (unfold TrimPrefix; by rewrite CutPrefix_app).
  rewrite E. unfold TrimPrefix. cbn [CutPrefix].
  by destruct (Ascii.eqb_spec "/" c) as [<-|].
Qed.

(** ** Properties *)

(** A client minio made for the host and the scheme of an endpoint. *)
Definition client_of {W} {UL : UnicodeLib} {IP : IPLiteral} {M : Minio W}
    (endpoint : string) (creds : credentials) (region : string) (c : Client) : Prop :=
  ∃ host secure, parseEndpoint endpoint = Ok (host, secure) ∧
    minio_New host (mkOptions creds secure region) = Ok c.

Lemma newClient_client_of {W} {UL : UnicodeLib} {IP : IPLiteral} {M : Minio W} endpoint creds region c :
  newClient (W := W) endpoint creds region = Ok c → client_of endpoint creds region c.
Proof.
  unfold newClient, client_of. destruct (parseEndpoint endpoint) as [[host secure]|]; [|done]. eauto.
Qed.

(** [m] answers a URL exactly when [m'] does, the same, and does nothing else. *)
Definition mints_as {W} (m m' : state_t W (result string string)) : Prop :=
  ∀ w, (m w).1 = (m' w).1 ∧ ∀ url, (m w).2 = Ok url ↔ (m' w).2 = Ok url.

(** The presigner's three calls are calls of its clients. *)
Lemma adapter_calls {W} {M : Minio W} (p : Presigner) :
  (∀ bucket key, mints_as (PresignPut (PresignerAdapter p) bucket key)
                   (PresignedPutObject (signClient p) bucket key (expiry p))) ∧
  (∀ bucket key, mints_as (PresignGet (PresignerAdapter p) bucket key)
                   (PresignedGetObject (signClient p) bucket key (expiry p))) ∧
  (∀ bucket prefix w, let objs := (minio_ListObjects (listClient p) bucket prefix w).2 in
     (ListObjects (PresignerAdapter p) bucket prefix w).1 =
       (minio_ListObjects (listClient p) bucket prefix w).1 ∧
     ∀ l, (ListObjects (PresignerAdapter p) bucket prefix w).2 = Ok l ↔
       (∀ e, ObjErr e ∉ objs) ∧ l = map (λ o, mkObject (oKey o) (oSize o)) (omap file_of objs)).
Proof.
  cbn [PresignerAdapter PresignPut PresignGet ListObjects]. split_and!.
  - intros bucket key w. unfold s_PresignPut. rewrite state_bind_run.
    by destruct (PresignedPutObject _ _ _ _ w) as [w' []].
  - intros bucket key w. unfold s_PresignGet. rewrite state_bind_run.
    by destruct (PresignedGetObject _ _ _ _ w) as [w' []].
  - intros bucket prefix w. unfold s_List. rewrite !state_bind_run.
    destruct (minio_ListObjects _ _ _ w) as [w' objs]. cbn [fst snd mret state_ret].
    destruct (collect bucket prefix objs) as [out|err] eqn:E; (split; [done|]); intros l.
    + apply collect_Ok in E as [Hno ->]. cbn [snd mret state_ret].
      by split; [intros [= <-]|intros [_ ->]].
    + split; [done|]. intros [Hno _].
      pose proof (proj2 (collect_Ok bucket prefix objs _) (conj Hno eq_refl)) as E'. congruence.
Qed.

(** C35: from the environment to the URL.  In every environment in which main
    builds a server with a presigner, every URL the handlers mint, for a PUT or a
    GET of any bucket and key, is the one minio signs for that bucket and key
    with the client of the public endpoint and one fixed lifetime: the configured
    one, more than zero and at most fifteen minutes (ACCEPTANCE A6), which is
    also what the upload response reports.  Objects are listed by a client of the
    in-cluster endpoint, and a listing is all the files of an answer without an
    error.  Both clients have the same credentials and region (A4).  With
    S3_ACCESS_KEY these are the static key, the public endpoint falling back to
    the in-cluster one and that to the regional AWS host; without it no static
    secret is used and both endpoints are the regional AWS host. *)
Theorem presigned_urls_are_short_lived {W} {UL : UnicodeLib} {IP : IPLiteral} {M : Minio W} e s a :
  main_server (W := W) e = Some s → presigner s = Some a →
  let region := S3Region (LoadConfig e) in
  let lifetime := PresignExpiry (LoadConfig e) in
  (0 < lifetime <= 15 * Minute)%Z ∧ ExpiresIn a = lifetime ∧
  ∃ pub ep creds signc listc,
    client_of pub creds region signc ∧ client_of ep creds region listc ∧
    (∀ bucket key, mints_as (PresignPut a bucket key)
                     (PresignedPutObject signc bucket key lifetime)) ∧
    (∀ bucket key, mints_as (PresignGet a bucket key)
                     (PresignedGetObject signc bucket key lifetime)) ∧
    (∀ bucket prefix w, let objs := (minio_ListObjects listc bucket prefix w).2 in
       (ListObjects a bucket prefix w).1 = (minio_ListObjects listc bucket prefix w).1 ∧
       ∀ l, (ListObjects a bucket prefix w).2 = Ok l ↔
         (∀ e, ObjErr e ∉ objs) ∧ l = map (λ o, mkObject (oKey o) (oSize o)) (omap file_of objs)) ∧
    if decide (e "S3_ACCESS_KEY" = "") then
      creds = IAM ∧ pub = awsS3Endpoint region ∧ ep = pub
    else
      creds = StaticV4 (e "S3_ACCESS_KEY") (e "S3_SECRET_KEY") ∧
      ep = (if decide (e "S3_ENDPOINT" = "") then awsS3Endpoint region else e "S3_ENDPOINT") ∧
      pub = (if decide (e "S3_PUBLIC_ENDPOINT" = "") then ep else e "S3_PUBLIC_ENDPOINT").
Proof.
  unfold main_server. destruct (String.eqb _ _); [done|].
  destruct (presigner_of e) as [[p|]|err] eqn:E; intros [= <-]; cbn [presigner]; [|done].
  intros [= <-]. cbv zeta. pose proof (presign_expiry_range e) as Hr. split; [lia|].
  assert (H : expiry p = PresignExpiry (LoadConfig e) ∧ ∃ pub ep creds,
    client_of pub creds (S3Region (LoadConfig e)) (signClient p) ∧
    client_of ep creds (S3Region (LoadConfig e)) (listClient p) ∧
    if decide (e "S3_ACCESS_KEY" = "") then
      creds = IAM ∧ pub = awsS3Endpoint (S3Region (LoadConfig e)) ∧ ep = pub
    else
      creds = StaticV4 (e "S3_ACCESS_KEY") (e "S3_SECRET_KEY") ∧
      ep = (if decide (e "S3_ENDPOINT" = "") then awsS3Endpoint (S3Region (LoadConfig e))
            else e "S3_ENDPOINT") ∧
      pub = (if decide (e "S3_PUBLIC_ENDPOINT" = "") then ep else e "S3_PUBLIC_ENDPOINT")).
  2: { destruct H as (Ee & pub & ep & creds & H1 & H2 & H3).
       destruct (adapter_calls p) as (Hput & Hget & Hlist). rewrite Ee in *.
       split; [exact Ee|]. eexists pub, ep, creds, _, _. by split_and!. }
  revert E. unfold presigner_of. cbv zeta.
  change (S3AccessKey (LoadConfig e)) with (e "S3_ACCESS_KEY").
  destruct (String.eqb_spec (e "S3_ACCESS_KEY") "") as [Hk|Hk]; cbn [negb].
  - destruct (String.eqb_spec (e "AWS_WEB_IDENTITY_TOKEN_FILE") ""); cbn [negb]; [done|].
    destruct (New _) as [p'|] eqn:En; [|done]. intros [= ->].
    apply New_Ok in En as (Ee & E1%newClient_client_of & E2%newClient_client_of).
    unfold choose_expiry in Ee. cbn [Expiry] in Ee. rewrite (proj2 (Z.leb_gt _ _)) in Ee by lia.
    split; [exact Ee|]. eexists _, _, _. split; [exact E1|]. split; [exact E2|].
    by rewrite decide_True.
  - destruct (New _) as [p'|] eqn:En; [|done]. intros [= ->].
    apply New_Ok in En as (Ee & E1%newClient_client_of & E2%newClient_client_of).
    unfold choose_expiry in Ee. cbn [Expiry] in Ee. rewrite (proj2 (Z.leb_gt _ _)) in Ee by lia.
    split; [exact Ee|]. eexists _, _, _. split; [exact E1|]. split; [exact E2|].
    rewrite decide_False by done. split; [|done]. unfold choose_creds. cbn [AccessKey SecretKey].
    change (S3AccessKey (LoadConfig e)) with (e "S3_ACCESS_KEY"). by rewrite decide_False.
Qed.

(** A lifetime of a day is replaced by the default, and a PUT goes to the public
    host. *)
Lemma presigned_urls_are_short_lived_witness :
  ∃ s a, main_server (M := demo_minio) demo_env = Some s ∧ presigner s = Some a ∧
    (ExpiresIn a <= 15 * Minute)%Z ∧
    (PresignPut a "models" "uploads/m.idf" tt).2 =
      Ok "s3.example.org/models/uploads/m.idf?put&expires=300".
Proof.
  destruct (main_server (M := demo_minio) demo_env) as [s|] eqn:E;
    [|vm_compute in E; discriminate E].
  destruct (presigner s) as [a|] eqn:Ea.
  2: { vm_compute in E. injection E as <-. discriminate Ea. }
  destruct (presigned_urls_are_short_lived (M := demo_minio) demo_env s a E Ea)
    as (Hr & El & pub & ep & creds & signc & listc & H1 & _ & Hput & _ & _ & Hk).
  exists s, a. split; [reflexivity|]. split; [exact Ea|]. split; [rewrite El; apply Hr|].
  apply (Hput "models" "uploads/m.idf" tt). rewrite decide_False in Hk by (vm_compute; discriminate).
  destruct Hk as (_ & _ & ->). destruct H1 as (host & secure & H2 & H3).
  vm_compute in H2. injection H2 as <- <-. injection H3 as <-. vm_compute. reflexivity.
Defined.

(** A listing shows the files up to the first error.  List returns every
    object the store sends, in its order, with its key and size, except the
    directory placeholders; it fails exactly when the store reports an error;
    and an object below the prefix is shown to the client under the rest of its
    key. *)
Theorem listing_shows_files bucket prefix objs :
  (∀ l, collect bucket prefix objs = Ok l ↔ (∀ e, ObjErr e ∉ objs) ∧ l = omap file_of objs) ∧
  (∀ c rest, c ≠ "/"%char → artifact_name prefix (prefix +:+ String c rest) = String c rest).
Proof.
  split; [apply collect_Ok|]. intros c rest. apply artifact_name_app.
Qed.

(** C36: which endpoints a deployment can name.  For a DNS name or an IPv4
    address, with or without a port of digits: behind http:// or https://, and
    with any plain path, the client is built for that host and port, with TLS
    exactly for https; the regional AWS host is such an https endpoint, for
    every region; a bare host, and a bare host:port whose host starts with a
    letter, is taken as it is, without TLS; but a bare host:port whose
    host has not the form of a URL scheme, an IPv4 address say, is an error, and no presigner is
    built. *)
Theorem endpoint_forms {W} {UL : UnicodeLib} {IP : IPLiteral} {M : Minio W} host port :
  host ≠ "" → string_forallb dns_byte host = true →
  from_option (string_forallb is_digit) true port = true →
  let hp := host_port host port in
  (∀ scheme path, scheme ∈ ["http"; "https"] →
     path = "" ∨ HasPrefix path "/" = true → string_forallb path_byte path = true →
     parseEndpoint (scheme +:+ "://" +:+ hp +:+ path) = Ok (hp, String.eqb scheme "https")) ∧
  (∀ region, string_forallb dns_byte region = true →
     parseEndpoint (awsS3Endpoint region) =
     Ok ("s3." +:+ (if decide (region = "") then "us-east-1" else region) +:+ ".amazonaws.com",
         true)) ∧
  match parseEndpoint hp with
  | Ok r => r = (hp, false) ∧ (port = None ∨ scheme_like host = true)
  | Err e =>
      e = "parse endpoint " +:+ Quote hp +:+ ": parse " +:+ Quote hp +:+ ": " +:+ colon_error ∧
      port ≠ None ∧ scheme_like host = false ∧
      ∀ cfg, PublicEndpoint cfg = hp → New (W := W) cfg = Err ("build sign client: " +:+ e)
  end.
Proof.
  intros Hne Hh Hp. cbv zeta. split; [|split].
  - intros scheme path Hs Hsl Hpb. unfold parseEndpoint.
    rewrite (url_Parse_http host port) by done. cbn [url_Host url_Scheme].
    rewrite (decide_False (P := host_port host port = "")).
    2: { destruct host; [done|]. by destruct port. }
    apply elem_of_cons in Hs as [->| ->%list_elem_of_singleton]; done.
  - intros region Hr. unfold parseEndpoint, awsS3Endpoint. cbv zeta.
    set (rg := if decide (region = "") then "us-east-1" else region).
    assert (Hrg : string_forallb dns_byte rg = true) by (unfold rg; by destruct (decide _)).
    pose proof (url_Parse_http ("s3." +:+ rg +:+ ".amazonaws.com") None) as H.
    cbn [host_port from_option] in H.
    specialize (H ltac:(by rewrite !string_forallb_app, Hrg) eq_refl "https" "").
    rewrite string_app_nil_r in H.
    assert (E : "https://s3." +:+ rg +:+ ".amazonaws.com" =
                "https" +:+ "://" +:+ "s3." +:+ rg +:+ ".amazonaws.com") by (str_norm; done).
    rewrite E, H; [|by right; left|by left|done]. cbn [url_Host url_Scheme].
    rewrite !decide_False by done. done.
  - pose proof (url_Parse_bare host port Hh Hp Hne) as H. revert H.
    assert (Hhp : host_port host port ≠ "") by (destruct host; [done|]; by destruct port).
    generalize dependent (host_port host port). intros hp Hhp. unfold parseEndpoint.
    rewrite decide_False by done. destruct (url_Parse hp) as [u|e] eqn:E; intros H.
    + destruct H as [Hu H]. by rewrite decide_True.
    + destruct H as (-> & Hport & Hs). split_and!; try done.
      intros cfg Hc. unfold New. cbv zeta. unfold choose_public. rewrite Hc.
      rewrite decide_False by done. unfold newClient, parseEndpoint.
      rewrite decide_False by done. by rewrite E.
Qed.

(** A node's address, without and with a scheme. *)
Lemma endpoint_forms_witness :
  ∃ err, New (M := demo_minio) (mkStorageConfig "" "10.0.0.5:9000" "k" "s" "" 0) = Err err ∧
  parseEndpoint "https://10.0.0.5:9000/" = Ok ("10.0.0.5:9000", true).
Proof.
  destruct (endpoint_forms (M := demo_minio) "10.0.0.5" (Some "9000") ltac:(done) eq_refl eq_refl)
    as (H1 & _ & H2).
  destruct (parseEndpoint (host_port "10.0.0.5" (Some "9000"))) as [r|e].
  - destruct H2 as [_ [H2|H2]]; discriminate H2.
  - destruct H2 as (_ & _ & _ & H2). eexists.
    split; [exact (H2 (mkStorageConfig "" "10.0.0.5:9000" "k" "s" "" 0) eq_refl)|].
    apply (H1 "https" "/"); [by right; left|by right|reflexivity].
Defined.
