(* ===== verification/ObjectSpec.v ===== *)
(** * The apiserver and the Runners name the same objects

    Object storage joins the two: the apiserver presigns uploads and accepts
    references, a Runner resolves a reference with urllib's parser and downloads
    it; a Runner uploads its artifacts, the apiserver lists and presigns them.
    The two ends read references with different parsers ([parseS3URI] and
    [urlparse]) and bucket names from their own configurations. *)
From S2P Require Import Prelude GoLib Json JsonText NetUrl Sha256 PyLib PyConfig Metrics Sql.
From S2P Require Import Schema Lifecycle Store Fleet Queue Config Http Auth Handlers Uploads.
From S2P Require Import ApiFixtures RefSpec Runner RunnerSpec Storage StorageSpec.
Local Open Scope string_scope.
Local Open Scope py_scope.

(** ** References *)

(** The bucket the apiserver is configured with for a kind of input. *)
Definition kind_bucket (c : Config) (kind : string) : string :=
  if String.eqb kind "model" then BucketModels c else BucketWeather c.

(** Both processes have the same buckets, with names of S3's alphabet, and none
    has the logical name of another. *)
Record coherent (c : Config) (r : RunnerConfig) : Prop := {
  co_models : bucket_models r = BucketModels c;
  co_weather : bucket_weather r = BucketWeather c;
  co_results : bucket_results r = BucketResults c;
  co_dns : Forall (λ b, b ≠ "" ∧ string_forallb dns_byte b = true)
             [BucketModels c; BucketWeather c; BucketResults c];
  co_model_name : BucketModels c ∉ ["weather"; "results"];
  co_weather_name : BucketWeather c ∉ ["models"; "results"];
  co_results_name : BucketResults c ∉ ["models"; "weather"];
}.

(** The key urllib leaves of one: without tabs and line ends, cut at the first
    number sign and the first question mark, without slashes in front. *)
Definition clean_key (key : string) : string :=
  strip_leading_slashes (Cut (Cut (remove unsafe_byte key) "#").1.1 "?").1.1.

(** Keys it leaves as they are. *)
Definition key_ok (c : ascii) : bool := negb (unsafe_byte c || has c "#?").
Definition plain_key (key : string) : bool :=
  string_forallb key_ok key && negb (HasPrefix key "/").

Lemma remove_id p s : string_forallb (λ c, negb (p c)) s = true → remove p s = s.
Proof.
  induction s as [|c s IH]; [done|]. cbn [string_forallb remove].
  intros [Hc%negb_true_iff Hs]%andb_true_iff. by rewrite Hc, IH.
Qed.

Lemma remove_app p a b : remove p (a +:+ b) = remove p a +:+ remove p b.
Proof.
  induction a as [|c a IH]; [done|]. str_norm. cbn [remove].
  destruct (p c); [done|]. by rewrite IH.
Qed.

Lemma remove_lacks p s : string_forallb (λ c, negb (p c)) (remove p s) = true.
Proof.
  induction s as [|c s IH]; [done|]. cbn [remove]. destruct (p c) eqn:E; [done|].
  cbn [string_forallb]. by rewrite E.
Qed.

Lemma Cut_forallb p s c : string_forallb p s = true → string_forallb p (Cut s c).1.1 = true.
Proof.
  induction s as [|d s IH]; [done|]. cbn [string_forallb Cut]. intros [Hd Hs]%andb_true_iff.
  destruct (Ascii.eqb d c); [done|]. specialize (IH Hs).
  destruct (Cut s c) as [[b a] f]. cbn [fst string_forallb] in *. by rewrite Hd.
Qed.

Lemma Cut_lacks_fst s c : lacks c (Cut s c).1.1 = true.
Proof. destruct (Cut s c) as [[b a] f] eqn:E. by apply Cut_spec in E as [? _]. Qed.

Lemma strip_slashes_forallb p s :
  string_forallb p s = true → string_forallb p (strip_leading_slashes s) = true.
Proof.
  induction s as [|c s IH]; [done|]. cbn [string_forallb strip_leading_slashes].
  intros [Hc Hs]%andb_true_iff. destruct (Ascii.eqb c "/"); [auto|]. cbn. by rewrite Hc.
Qed.

Lemma strip_slashes_id s : HasPrefix s "/" = false → strip_leading_slashes s = s.
Proof.
  destruct s as [|c s]; [done|]. unfold HasPrefix. cbn [CutPrefix strip_leading_slashes].
  destruct (Ascii.eqb_spec c "/") as [->|]; [|done]. by rewrite Ascii.eqb_refl.
Qed.

Lemma strip_slashes_head s : HasPrefix (strip_leading_slashes s) "/" = false.
Proof.
  induction s as [|c s IH]; [done|]. cbn [strip_leading_slashes].
  destruct (Ascii.eqb_spec c "/") as [->|Hne]; [done|]. unfold HasPrefix. cbn [CutPrefix].
  by rewrite (proj2 (Ascii.eqb_neq _ _)).
Qed.

(** A key is left alone exactly when it is plain. *)
Lemma clean_key_plain key : clean_key key = key ↔ plain_key key = true.
Proof.
  split.
  - intros E. assert (H : plain_key (clean_key key) = true); [|by rewrite E in H].
    clear E. unfold plain_key, clean_key. rewrite strip_slashes_head, andb_true_r.
    apply strip_slashes_forallb.
    set (k := remove unsafe_byte key).
    assert (H1 : string_forallb (λ c, negb (unsafe_byte c)) (Cut (Cut k "#").1.1 "?").1.1 = true)
      by (do 2 apply Cut_forallb; apply remove_lacks).
    assert (H2 : lacks "#" (Cut (Cut k "#").1.1 "?").1.1 = true)
      by (apply Cut_forallb, Cut_lacks_fst).
    pose proof (Cut_lacks_fst (Cut k "#").1.1 "?") as H3.
    revert H1 H2 H3. generalize (Cut (Cut k "#").1.1 "?").1.1. clear. intros s.
    unfold lacks. induction s as [|c s IH]; [done|]. cbn [string_forallb].
    rewrite !andb_true_iff. intros [H1 H1'] [H2 H2'] [H3 H3'].
    split; [|by apply IH]. unfold key_ok, has, lacks. cbn [string_forallb].
    rewrite (Ascii.eqb_sym c "#"), (Ascii.eqb_sym c "?").
    apply negb_true_iff in H1, H2, H3. by rewrite H1, H2, H3.
  - unfold clean_key, plain_key. intros [Hk Hs%negb_true_iff]%andb_true_iff.
    rewrite remove_id; [|revert Hk; by apply bytes_impl].
    rewrite (Cut_absent key "#"); [|revert Hk; by apply forallb_lacks]. cbn [fst].
    rewrite (Cut_absent key "?"); [by apply strip_slashes_id|]. revert Hk. by apply forallb_lacks.
Qed.

(** ** urllib on an s3 reference *)
Lemma split_netloc_app b k : string_forallb dns_byte b = true →
  split_netloc (b +:+ String "/" k) = (b, String "/" k).
Proof.
  induction b as [|c b IH]; [done|]. cbn [string_forallb]. intros [Hc Hb]%andb_true_iff.
  str_norm. cbn [split_netloc]. rewrite IH by done.
  assert (E : has c "/?#" = false); [|by rewrite E].
  apply not_true_iff_false. intros H. revert Hc H.
  pose proof (all_bytes (λ c, implb (dns_byte c) (negb (has c "/?#"))) eq_refl c) as E.
  cbv beta in E. intros Hc. rewrite Hc in E. cbn [implb] in E. by apply negb_true_iff in E as ->.
Qed.

Lemma urlparse_s3 {NL : NetlocLib} b k :
  string_forallb dns_byte b = true →
  urlparse (s3_ref b k) =
  Ok (mkUrl "s3" b (String "/" (Cut (Cut (remove unsafe_byte k) "#").1.1 "?").1.1)).
Proof.
  intros Hb. unfold urlparse, s3_ref. str_norm.
  assert (El : ∀ s, lstrip ctl_or_space (String "s" s) = String "s" s) by done. rewrite El.
  assert (Er : remove unsafe_byte (String "s" (String "3" (String ":" (String "/" (String "/"
      (b +:+ String "/" k)))))) =
    String "s" (String "3" (String ":" (String "/" (String "/"
      (b +:+ String "/" (remove unsafe_byte k))))))).
  { cbn [remove]. change (unsafe_byte "s") with false. change (unsafe_byte "3") with false.
    change (unsafe_byte ":") with false. change (unsafe_byte "/") with false. cbv iota.
    do 5 f_equal. rewrite remove_app. cbn [remove]. change (unsafe_byte "/") with false. cbv iota.
    rewrite remove_id; [done|]. revert Hb. by apply bytes_impl. }
  rewrite Er. clear Er El. set (k' := remove unsafe_byte k). cbn [Cut].
  change (Ascii.eqb "s" ":") with false. change (Ascii.eqb "3" ":") with false.
  change (Ascii.eqb ":" ":") with true. cbv iota.
  change (negb (String.eqb "s3" "") && string_forallb scheme_byte "s3") with true. cbv iota.
  change (string_map ascii_lower "s3") with "s3". cbn [CutPrefix].
  change (Ascii.eqb "/" "/") with true. cbv iota. rewrite split_netloc_app by done.
  assert (H1 : has "[" b = false) by (unfold has; apply negb_false_iff; revert Hb; by apply forallb_lacks).
  assert (H2 : has "]" b = false) by (unfold has; apply negb_false_iff; revert Hb; by apply forallb_lacks).
  assert (H3 : is_ascii b = true) by (revert Hb; by apply bytes_impl).
  rewrite H1, H2, H3. cbn [xorb orb negb].
  rewrite bool_decide_false by (intros H; by apply (bool_decide_pack _) in H). cbn [andb].
  assert (Ec : ∀ c s, Ascii.eqb "/" c = false →
    (Cut (String "/" s) c).1.1 = String "/" (Cut s c).1.1).
  { intros c s Hc. cbn [Cut]. rewrite Hc. by destruct (Cut s c) as [[? ?] ?]. }
  by rewrite !Ec.
Qed.

(** The bucket a Runner resolves an accepted reference to. *)
Lemma resolve_kind c r kind b :
  coherent c r → b ∈ kind_buckets c kind → _resolve_bucket r b = kind_bucket c kind.
Proof.
  intros [Hm Hw Hr _ Hmn Hwn _]. unfold kind_buckets, kind_bucket, _resolve_bucket.
  rewrite Hm, Hw, Hr. rewrite !not_elem_of_cons in Hmn, Hwn.
  destruct Hmn as (Hm1 & Hm2 & _), Hwn as (Hw1 & Hw2 & _).
  destruct (String.eqb kind "model").
  - intros [-> | ->%list_elem_of_singleton]%elem_of_cons; [done|].
    destruct (String.eqb_spec (BucketModels c) "models") as [E|_]; [done|].
    by rewrite !(proj2 (String.eqb_neq _ _)).
  - destruct (String.eqb kind "weather"); [|by intros ?%not_elem_of_nil].
    intros [-> | ->%list_elem_of_singleton]%elem_of_cons; [done|].
    rewrite (proj2 (String.eqb_neq (BucketWeather c) "models")) by done.
    destruct (String.eqb_spec (BucketWeather c) "weather") as [E|_]; [done|].
    by rewrite (proj2 (String.eqb_neq (BucketWeather c) "results")).
Qed.

Lemma kind_buckets_dns c r kind b :
  coherent c r → b ∈ kind_buckets c kind → b ≠ "" ∧ string_forallb dns_byte b = true.
Proof.
  intros [_ _ _ Hd _ _ _]. unfold kind_buckets.
  rewrite !Forall_cons in Hd. destruct Hd as (H1 & H2 & _).
  destruct (String.eqb kind "model"); [|destruct (String.eqb kind "weather")];
    [..|by intros ?%not_elem_of_nil]; by intros [-> | ->%list_elem_of_singleton]%elem_of_cons.
Qed.

(** urllib has nothing to cut from the key of an upload. *)
Lemma upload_key_plain uid sha base :
  string_forallb key_ok sha = true → (sha = "" → string_forallb key_ok uid = true) →
  string_forallb basename_char base = true → plain_key (upload_key uid sha base) = true.
Proof.
  intros Hsha Huid Hb. unfold plain_key, upload_key.
  assert (string_forallb key_ok base = true) by (revert Hb; by apply bytes_impl).
  destruct (decide _) as [E|E]; apply andb_true_iff; split; try done;
    rewrite !string_forallb_app; repeat (apply andb_true_iff; split); auto.
Qed.

(** ** The two directions *)
Section objects.
Context {NL : NetlocLib} {Y : Type} {IO : RunnerIO Y} (c : Config) (r : RunnerConfig).
Hypothesis Hc : coherent c r.

Lemma download_accepted kind b key dest : b ∈ kind_buckets c kind →
  storage_download r (s3_ref b key) dest =
  (let* _ := make_parent dest in download_file (kind_bucket c kind) (clean_key key) dest).
Proof.
  intros Hb. destruct (kind_buckets_dns c r kind b Hc Hb) as [_ Hd].
  unfold storage_download. rewrite urlparse_s3 by done. cbn [u_scheme u_netloc u_path].
  change (String.eqb "s3" "s3") with true. cbv iota.
  by rewrite (resolve_kind c r kind b Hc Hb).
Qed.

Lemma minted_downloaded kind bucket key dest :
  upload_bucket c kind = Some bucket → plain_key key = true →
  storage_download r (s3_ref bucket key) dest =
  (let* _ := make_parent dest in download_file bucket key dest).
Proof.
  intros Hb Hk. rewrite (download_accepted kind) by by apply kind_buckets_upload.
  rewrite (proj2 (clean_key_plain _)) by done. do 2 f_equal.
  assert (E : kind_bucket c kind = bucket); [|by rewrite E]. revert Hb.
  unfold upload_bucket, kind_bucket. destruct (String.eqb kind "model"); [by intros [= <-]|].
  by destruct (String.eqb kind "weather"); [intros [= <-]|].
Qed.

(** Where process_simulation puts a run's artifacts. *)
Definition artifact_uri (hash : string) : string :=
  "s3://" +:+ bucket_results r +:+ "/" +:+ hash +:+ "/".

(** Calls one after the other, up to the first exception. *)
Fixpoint in_turn (calls : list (py Y ())) : py Y () :=
  match calls with [] => py_ret tt | m :: rest => let* _ := m in in_turn rest end.

(** The key of a run's file, and the upload of it. *)
Definition artifact_key (hash rel : string) : string := hash +:+ "/" +:+ rel.
Definition artifact_upload (dir hash rel : string) : py Y () :=
  upload_file (dir +:+ "/" +:+ rel) (BucketResults c) (artifact_key hash rel).

Lemma upload_files_in_turn dir hash files : hash ≠ "" →
  upload_files dir (BucketResults c) hash files = in_turn (map (artifact_upload dir hash) files).
Proof.
  intros Hh. induction files as [|rel files IH]; [done|]. cbn [upload_files map in_turn].
  rewrite IH. unfold artifact_upload, artifact_key. by rewrite (proj2 (String.eqb_neq _ _) Hh).
Qed.

Lemma hex_key_ok s : string_forallb is_hex s = true → string_forallb key_ok s = true.
Proof. by apply bytes_impl. Qed.

Lemma strip_slashes_none s : lacks "/" s = true → strip_leading_slashes s = s.
Proof.
  intros Hs. apply strip_slashes_id. destruct s as [|d s]; [done|]. unfold lacks in Hs.
  cbn [string_forallb] in Hs. apply andb_true_iff in Hs as [Hd%negb_true_iff _].
  unfold HasPrefix. cbn [CutPrefix]. by rewrite Hd.
Qed.

Lemma upload_artifacts hash dir : string_forallb is_hex hash = true →
  storage_upload_dir r dir (artifact_uri hash) =
  (let* files := walk dir in upload_files dir (BucketResults c) hash files).
Proof.
  intros Hh. destruct Hc as [Hm Hw Hr Hd _ _ Hrn].
  rewrite !Forall_cons in Hd. destruct Hd as (_ & _ & [_ Hd] & _).
  rewrite !not_elem_of_cons in Hrn. destruct Hrn as (Hr1 & Hr2 & _).
  unfold storage_upload_dir. change (artifact_uri hash) with (s3_ref (bucket_results r) (hash +:+ "/")).
  rewrite Hr, urlparse_s3 by done. cbn [u_scheme u_netloc u_path].
  change (String.eqb "s3" "s3") with true. cbv iota.
  assert (Hres : _resolve_bucket r (BucketResults c) = BucketResults c).
  { unfold _resolve_bucket. rewrite Hr, !(proj2 (String.eqb_neq _ _)) by done.
    by destruct (String.eqb _ _). }
  assert (Hk : string_forallb key_ok (hash +:+ "/") = true)
    by (rewrite string_forallb_app, hex_key_ok by done; done).
  rewrite Hres, remove_id by (revert Hk; by apply bytes_impl).
  rewrite (Cut_absent _ "#") by (revert Hk; by apply forallb_lacks). cbn [fst].
  rewrite (Cut_absent _ "?") by (revert Hk; by apply forallb_lacks). cbn [fst].
  assert (Hs : py_strip_slashes (String "/" (hash +:+ "/")) = hash).
  { assert (Hl : lacks "/" hash = true) by (revert Hh; by apply forallb_lacks).
    unfold py_strip_slashes. cbn [strip_leading_slashes]. change (Ascii.eqb "/" "/") with true. cbv iota.
    destruct (decide (hash = "")) as [->|Hne]; [done|].
    rewrite (strip_slashes_id (hash +:+ "/")).
    - rewrite string_rev_snoc. cbn [strip_leading_slashes]. change (Ascii.eqb "/" "/") with true.
      cbv iota. rewrite strip_slashes_none; [apply string_rev_involutive|].
      unfold lacks. by rewrite string_rev_forallb.
    - destruct hash as [|d h]; [done|]. unfold lacks in Hl. cbn [string_forallb] in Hl.
      apply andb_true_iff in Hl as [Hd'%negb_true_iff _].
      unfold HasPrefix. str_norm. cbn [CutPrefix]. by rewrite Hd'. }
  by rewrite Hs.
Qed.

Lemma result_prefix_of res hash :
  ArtifactURI res = Some (artifact_uri hash) ∨ ArtifactURI res = None →
  resultPrefix res hash (BucketResults c) = (BucketResults c, hash +:+ "/").
Proof.
  intros [E|E]; unfold resultPrefix; rewrite E; [|done].
  destruct Hc as [_ _ Hr Hd _ _ _]. rewrite !Forall_cons in Hd. destruct Hd as (_ & _ & [Hb Hd] & _).
  change (artifact_uri hash) with (s3_ref (bucket_results r) (hash +:+ "/")).
  assert (Hp : HasPrefix (s3_ref (bucket_results r) (hash +:+ "/")) "s3://" = true)
    by (apply HasPrefix_true; by eexists).
  rewrite Hp, parseS3URI_ref by (rewrite Hr; revert Hd; by apply forallb_lacks).
  rewrite Hr, (proj2 (String.eqb_neq _ _)) by done.
  assert (Hs : HasSuffix (hash +:+ "/") "/" = true).
  { unfold HasSuffix. rewrite string_rev_snoc. done. }
  by rewrite Hs, andb_false_r.
Qed.
End objects.

(** ** Properties *)

(** C34: a Runner and the apiserver mean the same objects.  Let both have the
    same buckets, with names of S3's alphabet that are not each other's logical
    names.  Then every reference validateInputRef accepts, logical or with the
    real name, is downloaded from the configured bucket of its kind and no other,
    under its key as urllib leaves it; that is the key itself exactly when the key
    has no tab, line end, number sign or question mark and does not start with a
    slash, and otherwise another one.  A run's artifacts are the files found under
    its directory, each uploaded in turn to the results bucket under the content
    hash, a slash and its path in the directory.  The bucket and the prefix are
    where the apiserver looks for the run, whether or not the URI was stored, and
    each of these keys is below that prefix and shown under the path alone. *)
Theorem runner_and_apiserver_name_the_same_objects {UL : UnicodeLib} {NL : NetlocLib} {Y}
    {IO : RunnerIO Y} c r :
  coherent c r →
  (∀ kind ref, validateInputRef c ref kind = None → ∃ b key,
     ref = s3_ref b key ∧ b ∈ kind_buckets c kind ∧
     (∀ dest, storage_download r ref dest =
        (let* _ := make_parent dest in download_file (kind_bucket c kind) (clean_key key) dest)) ∧
     (clean_key key = key ↔ plain_key key = true)) ∧
  (∀ model weather version dir σ,
     let hash := py_content_hash model weather version in
     storage_upload_dir r dir (artifact_uri r hash) σ =
     (let* files := walk dir in
      in_turn (map (λ rel, upload_file (dir +:+ "/" +:+ rel) (BucketResults c)
                             (hash +:+ "/" +:+ rel)) files)) σ ∧
     ∀ res, ArtifactURI res = Some (artifact_uri r hash) ∨ ArtifactURI res = None →
     ∃ prefix, resultPrefix res hash (BucketResults c) = (BucketResults c, prefix) ∧
     ∀ rel, rel ≠ "" → HasPrefix rel "/" = false →
       HasPrefix (hash +:+ "/" +:+ rel) prefix = true ∧
       artifact_name prefix (hash +:+ "/" +:+ rel) = rel).
Proof.
  intros Hc. split.
  - intros kind ref (b & key & -> & _ & _ & _ & Hin)%validateInputRef_None.
    exists b, key. split; [done|]. split; [done|]. split; [|apply clean_key_plain].
    intros dest. by apply download_accepted.
  - intros model weather version dir σ. cbv zeta. set (hash := py_content_hash _ _ _).
    assert (Hh : hash ≠ "") by (apply String.eqb_neq, sha256_hex_nonempty).
    split.
    { rewrite (upload_artifacts c r Hc) by by apply sha256_hex_shape.
      unfold py_bind. rewrite !state_bind_run. destruct (walk dir σ) as [σ' [files|e]]; [|done].
      cbn [fst snd]. by rewrite (upload_files_in_turn c). }
    intros res Hres. exists (hash +:+ "/"). split; [by apply (result_prefix_of c r)|].
    intros rel Hne Hrel. rewrite (string_app_assoc hash "/" rel). split.
    + apply HasPrefix_true. by eexists.
    + destruct rel as [|ch rest]; [done|]. apply artifact_name_app. intros ->.
      unfold HasPrefix in Hrel. cbn [CutPrefix] in Hrel. by rewrite Ascii.eqb_refl in Hrel.
Qed.

Definition demo_buckets : env := λ k,
  if String.eqb k "S3_BUCKET_MODELS" then "acme-models"
  else if String.eqb k "S3_BUCKET_WEATHER" then "acme-weather"
  else if String.eqb k "S3_BUCKET_RESULTS" then "acme-results" else "".

Definition demo_bucket_runner : RunnerConfig :=
  mkRunnerConfig "postgres://db" None "us-east-1" None None "acme-models" "acme-weather"
    "acme-results" "r1" "24.1.0" 50 90 30 NaN "/tmp/synergy-runner" 3 NaN "energyplus" None.

Lemma demo_coherent : coherent (LoadConfig demo_buckets) demo_bucket_runner.
Proof.
  split; try reflexivity; try (apply (bool_decide_unpack _); reflexivity).
Qed.

(** A machine that notes the uploads, of a run with two files. *)
Definition noting : RunnerIO (list (string * string * string)) := {|
  py_repr s := s;
  make_parent _ := py_ret tt;
  mkdtemp p := py_ret p;
  db_connect := py_ret tt;
  download_file _ _ _ := py_ret tt;
  upload_file path bucket key := λ σ, ((σ ++ [(path, bucket, key)])%list, Ok tt);
  walk _ := py_ret ["eplusout.err"; "tables/eplustbl.csv"];
  copyfile _ _ := py_ret tt;
  read_bytes p := py_ret p;
  err_lines _ := py_ret None;
  write_summary _ _ _ _ := py_ret tt;
  copytree _ _ := py_ret tt;
  rmtree _ := mret tt;
  sleep := mret tt;
|}.

(** A logical reference, whose key has a number sign and loses its end; and the
    artifacts of a run. *)
Lemma runner_and_apiserver_name_the_same_objects_witness :
  let ref := "s3://models/plant#2.idf" in
  let hash := py_content_hash "m" "w" "24.1.0" in
  validateInputRef (LoadConfig demo_buckets) ref "model" = None ∧
  storage_download (IO := noting) demo_bucket_runner ref "m.idf" =
    (let* _ := make_parent (RunnerIO := noting) "m.idf" in
     download_file (RunnerIO := noting) "acme-models" "plant" "m.idf") ∧
  storage_upload_dir (IO := noting) demo_bucket_runner "/run/out" (artifact_uri demo_bucket_runner hash) [] =
    ([("/run/out/eplusout.err", "acme-results", hash +:+ "/eplusout.err");
      ("/run/out/tables/eplustbl.csv", "acme-results", hash +:+ "/tables/eplustbl.csv")], Ok tt).
Proof.
  intros ref hash.
  assert (E : validateInputRef (LoadConfig demo_buckets) ref "model" = None) by reflexivity.
  split; [exact E|].
  destruct (runner_and_apiserver_name_the_same_objects (IO := noting) _ _ demo_coherent) as [H Hup].
  split.
  - destruct (H "model" ref E) as (b & key & Er & Hb & Hd & _). rewrite Hd.
    change (kind_buckets (LoadConfig demo_buckets) "model") with ["models"; "acme-models"] in Hb.
    apply elem_of_cons in Hb as [-> | ->%list_elem_of_singleton]; [|discriminate Er].
    apply (string_app_inj "s3://models/" "plant#2.idf") in Er. by rewrite <-Er.
  - etrans; [apply (Hup "m" "w" "24.1.0" "/run/out" [])|reflexivity].
Defined.

(** What is uploaded is what runs.  For a presigner and a Runner whose
    buckets are the apiserver's, a 200 answer of POST /v1/uploads carries the URL
    that was presigned for one bucket and key and the reference s3://bucket/key
    of the same object; validateInputRef accepts it for that kind, and a Runner
    that fetches it downloads that very bucket and key, as long as the caller's
    user id and the digest it sent have nothing urllib would cut.  The last
    segment of the key is a non-empty name of letters, digits, dots, underscores
    and dashes whatever the file name was. *)
Theorem uploaded_input_is_fetched {W} {UL : UnicodeLib} {NL : NetlocLib} {Y} {IO : RunnerIO Y}
    (s : Server W) r p cx body req w :
  presigner s = Some p → upload_request body = Some req → coherent (cfg s) r →
  string_forallb key_ok (userID cx) = true → string_forallb key_ok (uSHA256 req) = true →
  let out := (handleCreateUpload s cx body w).2 in
  status out = StatusOK →
  ∃ bucket url, let key := upload_key (userID cx) (uSHA256 req) (upload_base (Filename req)) in
    upload_bucket (cfg s) (Kind req) = Some bucket ∧
    (PresignPut p bucket key w).2 = Ok url ∧
    resp_body out = Encode (upload_response url (s3_ref bucket key) (ExpiresIn p)) ∧
    validateInputRef (cfg s) (s3_ref bucket key) (Kind req) = None ∧
    (∀ dest, storage_download r (s3_ref bucket key) dest =
       (let* _ := make_parent dest in download_file bucket key dest)) ∧
    string_forallb basename_char (upload_base (Filename req)) = true ∧
    upload_base (Filename req) ≠ "".
Proof.
  intros Hp Hreq Hc Huid Hsha. cbv zeta. intros Hst.
  destruct (minted_ref_is_accepted s p cx body req w Hp Hreq) as (bucket & url & H); [|exact Hst|].
  { intros b Hb%kind_buckets_upload. apply (kind_buckets_dns _ r _ _ Hc) in Hb as [Hne Hd].
    split; [done|]. revert Hd. by apply forallb_lacks. }
  cbv zeta in H. destruct H as (Hb & Hu & Hbody & Hv & Hn & Hne).
  exists bucket, url. split_and!; [done..| |done|done]. intros dest.
  apply (minted_downloaded _ _ Hc (Kind req)); [done|]. by apply upload_key_plain.
Qed.

(** A user's upload under a file name with a path in it. *)
Lemma uploaded_input_is_fetched_witness :
  let s := NewServer (Some demo_presigner) (LoadConfig demo_buckets) in
  let key := "uploads/alice/my_model.idf" in
  validateInputRef (cfg s) (s3_ref "acme-models" key) "model" = None ∧
  ∀ dest, storage_download demo_bucket_runner (s3_ref "acme-models" key) dest =
    (let* _ := make_parent dest in download_file "acme-models" key dest).
Proof.
  intros s key.
  destruct (uploaded_input_is_fetched s demo_bucket_runner demo_presigner (Some "alice")
    (json_text "{'kind':'model','filename':'../../etc/my model.idf'}")
    (mkUploadReq "model" "../../etc/my model.idf" "") tt) as (b & url & H).
  - reflexivity.
  - vm_compute. reflexivity.
  - exact demo_coherent.
  - reflexivity.
  - reflexivity.
  - reflexivity.
  - cbv zeta in H. destruct H as (Hb & _ & _ & Hv & Hd & _).
    injection Hb as <-. split; [exact Hv|exact Hd].
Defined.
