(* ===== verification/Sdk.v ===== *)
(** * The Python SDK (src/sdk/python/synergyplus)

    models.py, storage.py and client.py: how a client turns local files into
    references, submits, polls and downloads.  A value that is a [str] or a dict
    in one call and an ArtifactRef in another is a [pyval]; a dict is a JSON
    object in insertion order.  Files, requests and boto3 are a parameter
    ([SdkIO]); timeouts are left out, and the texts of two exceptions are shortened. *)
From S2P Require Import Prelude GoLib Json JsonText NetUrl Sha256 PyLib PyJson.
Local Open Scope string_scope.
Local Open Scope py_scope.

(** ** Python *)

(** [sub in s] *)
Fixpoint py_in (sub s : string) : bool :=
  HasPrefix s sub || match s with String _ r => py_in sub r | EmptyString => false end.

Definition truthy (v : json) : bool :=
  match v with
  | JNull => false
  | JBool b => b
  | JInt z => negb (z =? 0)%Z
  | JFloat f => negb (N.eqb (f_m f) 0)
  | JStr s => negb (String.eqb s "")
  | JArr l => negb (Nat.eqb (length l) 0)
  | JObj l | JStruct l => negb (Nat.eqb (length l) 0)
  end.

(** [v.get(key)] *)
Definition py_get {Y} (v : json) (key : string) : py Y json :=
  match v with
  | JObj l | JStruct l =>
      py_ret match List.find (λ m, String.eqb m.1 key) l with Some m => m.2 | None => JNull end
  | _ => raise "AttributeError: get"
  end.

(** A method of [str] on a value. *)
Definition py_str {Y} (v : json) : py Y string :=
  match v with JStr s => py_ret s | _ => raise "AttributeError: str" end.

(** str.upper and str.lower beyond ASCII. *)
Class PyCase := { upper_unicode : string → string; lower_unicode : string → string }.

Definition py_upper {PC : PyCase} (s : string) : string :=
  if is_ascii s then string_map ascii_upper s else upper_unicode s.
Definition py_lower {PC : PyCase} (s : string) : string :=
  if is_ascii s then string_map ascii_lower s else lower_unicode s.

(** [s.rstrip("/")], [s.strip("/")] *)
Definition rstrip_slashes (s : string) : string :=
  string_rev (strip_leading_slashes (string_rev s)).
Definition strip_slashes (s : string) : string := rstrip_slashes (strip_leading_slashes s).

(** ** posixpath *)
Definition path_basename (p : string) : string := string_rev (upto_slash (string_rev p)).

(** The part before the last slash, which goes too unless there are only slashes. *)
Definition path_dirname (p : string) : string :=
  let head := slice_to (String.length p - String.length (path_basename p)) p in
  if String.eqb (rstrip_slashes head) "" then head else rstrip_slashes head.

Definition path_join (a b : string) : string :=
  if HasPrefix b "/" then b
  else if String.eqb a "" || HasSuffix a "/" then a +:+ b else a +:+ "/" +:+ b.

(** The loop of normpath; [acc] is new_comps, the last one first. *)
Fixpoint norm_comps (rooted : bool) (acc comps : list string) : list string :=
  match comps with
  | [] => rev acc
  | c :: rest =>
      if String.eqb c "" || String.eqb c "." then norm_comps rooted acc rest
      else if negb (String.eqb c "..")
              || match acc with [] => negb rooted | top :: _ => String.eqb top ".." end
      then norm_comps rooted (c :: acc) rest
      else norm_comps rooted (tl acc) rest
  end.

Definition path_normpath (p : string) : string :=
  let slashes := if HasPrefix p "//" && negb (HasPrefix p "///") then "//"
                 else if HasPrefix p "/" then "/" else "" in
  let path := slashes +:+ join "/" (norm_comps (negb (String.eqb slashes "")) [] (Split p "/")) in
  if String.eqb path "" then "." else path.

Definition path_abspath (cwd p : string) : string :=
  path_normpath (if HasPrefix p "/" then p else path_join cwd p).

(** ** models.py *)

(** [a_ref] and [a_sha256] are whatever was passed; None is null. *)
Record ArtifactRef := mkARef { a_ref : json; a_sha256 : json }.

Definition to_dict (r : ArtifactRef) : json :=
  JStruct ([("ref", a_ref r)] ++ if truthy (a_sha256 r) then [("sha256", a_sha256 r)] else [])%list.

Inductive pyval := PV (v : json) | PR (r : ArtifactRef).

Definition as_ref (value : pyval) (sha256 : json) : json :=
  match value with
  | PR r => to_dict r
  | PV v => to_dict (mkARef v sha256)
  end.

Definition is_local_path (value : pyval) : bool :=
  match value with PV (JStr s) => negb (py_in "://" s) | _ => false end.

(** [Variant] (its name is None or a str), or a dict. *)
Inductive variant :=
  | VVariant (model : pyval) (name : json)
  | VDict (members : list (string * pyval)).

(** Variant.to_dict *)
Definition variant_dict (model : pyval) (name : json) : json :=
  JStruct ([("model", as_ref model JNull)] ++ if truthy name then [("name", name)] else [])%list.

(** ** What is outside *)

(** A response of requests: its [json()] is a value or an exception. *)
Record Response := mkResp {
  status_code : Z; resp_text : string; resp_json : result string json; resp_content : list string;
}.

Definition ok (r : Response) : bool := negb ((400 <=? status_code r)%Z && (status_code r <? 600)%Z).

(** Errors of [session_*] and [http_*] are RequestExceptions, other errors any
    exception.  [session_*] carry the Authorization header of the client's session;
    [http_stream] and [s3_pages] (the keys of list_objects_v2, page by page) also
    say what breaks the chunks or the pages off, if anything does; [s3_client] is
    boto3's, made on first use. *)
Class SdkIO (Y : Type) := {
  sdk_repr : string → string;
  fs_isfile : string → state_t Y bool;
  fs_read : string → py Y string;
  fs_getcwd : state_t Y string;
  fs_makedirs : string → py Y ();
  fs_create : string → py Y ();
  fs_append : string → string → py Y ();
  clock : state_t Y Z;
  pause : Z → state_t Y ();
  session_post : string → json → py Y Response;
  session_get : string → list (string * string) → py Y Response;
  http_request : string → string → string → json → py Y Response;
  http_stream : string → py Y (Response * option string);
  s3_client : py Y ();
  s3_head_bucket : string → py Y ();
  s3_create_bucket : string → py Y ();
  s3_head_object : string → string → py Y ();
  s3_upload_file : string → string → string → py Y ();
  s3_pages : string → string → py Y (list (list string) * option string);
  s3_download_file : string → string → string → py Y ();
}.

(** The interface of storage.py that the client is written against. *)
Record StorageBackend (Y : Type) := mkBackend {
  upload_input : string → string → string → py Y (json * string);
  download_result : string → json → string → py Y (list string);
}.
Arguments upload_input {Y}.
Arguments download_result {Y}.

Section sdk.
Context {Y : Type} {IO : SdkIO Y} {PC : PyCase} {NL : NetlocLib}.

(** A call that cannot raise. *)
Definition always {A} (m : state_t Y A) : py Y A := x ← m; py_ret x.

Definition raise_for_status (r : Response) : py Y () :=
  if ok r then py_ret tt else raise ("HTTPError " +:+ pretty (status_code r)).

Definition json_of (r : Response) : py Y json := mret (resp_json r).

Definition local_sha256 (path : string) : py Y string :=
  let* bytes := fs_read path in py_ret (sha256_hex bytes).

(** ArtifactRef.from_file *)
Definition from_file (ref : json) (path : string) : py Y ArtifactRef :=
  let* digest := local_sha256 path in py_ret (mkARef ref (JStr digest)).

(** ** storage.py *)

(** [{x!r}] *)
Definition quoted_name (x : string) : string := sdk_repr (Y := Y) x.

Definition parse_s3_uri (uri : string) : py Y (string * string) :=
  match urlparse uri with
  | Err e => raise e
  | Ok u =>
      if negb (String.eqb (u_scheme u) "s3") then raise ("expected an s3:// URI, got " +:+ quoted_name uri)
      else if String.eqb (u_netloc u) ""
      then raise ("s3:// URI is missing a bucket: " +:+ quoted_name uri)
      else py_ret (u_netloc u, strip_leading_slashes (u_path u))
  end.

Definition not_found (path : string) : string := "local file not found: " +:+ quoted_name path.

(** *** S3StorageBackend *)
Definition _ensure_bucket (bucket : string) : py Y () :=
  let* _ := s3_client in
  try_except (s3_head_bucket bucket) (λ _,
    try_except (s3_create_bucket bucket) (λ _, py_ret tt)).

Definition s3_upload_input (local_path bucket prefix : string) : py Y (json * string) :=
  let* there := always (fs_isfile local_path) in
  if negb there then raise (not_found local_path)
  else
    let* digest := local_sha256 local_path in
    let key := strip_slashes prefix +:+ "/" +:+ digest +:+ "-" +:+ path_basename local_path in
    let ref := "s3://" +:+ bucket +:+ "/" +:+ key in
    let* _ := s3_client in
    let* _ := _ensure_bucket bucket in
    try_except (let* _ := s3_head_object bucket key in py_ret (JStr ref, digest)) (λ _,
      let* _ := try_except (s3_upload_file local_path bucket key) (λ exc,
        raise ("failed to upload " +:+ quoted_name local_path +:+ " to " +:+ ref +:+ ": " +:+ exc)) in
      py_ret (JStr ref, digest)).

(** The loop over the keys: the paths written. *)
Fixpoint download_keys (bucket prefix dest_dir : string) (keys : list string) : py Y (list string) :=
  match keys with
  | [] => py_ret []
  | key :: rest =>
      if HasSuffix key "/" then download_keys bucket prefix dest_dir rest
      else
        let below := if String.eqb prefix "" then key
                     else strip_leading_slashes (slice_from (String.length prefix) key) in
        let rel := if String.eqb below "" then path_basename key else below in
        let local := path_join dest_dir rel in
        let dir := path_dirname local in
        let* _ := fs_makedirs (if String.eqb dir "" then dest_dir else dir) in
        let* _ := s3_download_file bucket key local in
        let* more := download_keys bucket prefix dest_dir rest in
        py_ret (local :: more)
  end.

Definition _download_prefix (s3_uri dest_dir : string) : py Y (list string) :=
  let* (bucket, prefix) := parse_s3_uri s3_uri in
  let* _ := s3_client in
  let* _ := fs_makedirs dest_dir in
  let* (pages, broken) := s3_pages bucket prefix in
  let* written := download_keys bucket prefix dest_dir (concat pages) in
  let* _ := match broken with Some e => raise e | None => py_ret tt end in
  match written with
  | [] => raise ("no objects found under " +:+ s3_uri)
  | _ => py_ret written
  end.

Definition s3_download_result (sim_id : string) (artifact_uri : json) (dest_dir : string) :
    py Y (list string) :=
  if negb (truthy artifact_uri)
  then raise ("simulation " +:+ sim_id +:+ " has no artifactUri yet; is it finished?")
  else let* uri := py_str artifact_uri in _download_prefix uri dest_dir.

Definition S3StorageBackend : StorageBackend Y := mkBackend Y s3_upload_input s3_download_result.

(** *** PresignedURLBackend *)
Definition _BUCKET_KIND (bucket : string) : option string :=
  if String.eqb bucket "models" then Some "model"
  else if String.eqb bucket "weather" then Some "weather" else None.

Definition disabled (what : string) : string :=
  "the apiserver has presigned " +:+ what +:+ " disabled (no S3 endpoint configured)".

Definition failed (call : string) (r : Response) : string :=
  call +:+ " failed: " +:+ pretty (status_code r) +:+ " " +:+ take_runes 200 0 (resp_text r).

Section presigned.
Context (base_url : string).

Definition _mint_upload (kind filename sha256 : string) : py Y json :=
  let body := JStruct [("kind", JStr kind); ("filename", JStr filename); ("sha256", JStr sha256)] in
  let* resp := try_except (session_post (base_url +:+ "/v1/uploads") body) (λ exc,
    raise ("POST /v1/uploads failed: " +:+ exc)) in
  if (status_code resp =? 503)%Z
  then raise (disabled "uploads" +:+ "; use the direct-S3 backend instead")
  else if negb (ok resp) then raise (failed "POST /v1/uploads" resp)
  else json_of resp.

Definition p_upload_input (local_path bucket prefix : string) : py Y (json * string) :=
  let* there := always (fs_isfile local_path) in
  if negb there then raise (not_found local_path)
  else match _BUCKET_KIND bucket with
  | None => raise ("presigned upload supports the models/weather buckets, got "
                   +:+ quoted_name bucket)
  | Some kind =>
      let* digest := local_sha256 local_path in
      let* minted := _mint_upload kind (path_basename local_path) digest in
      let* url := py_get minted "url" in
      let* ref := py_get minted "ref" in
      let* named := py_get minted "method" in
      let* method := py_str (if truthy named then named else JStr "PUT") in
      let* given := py_get minted "headers" in
      let headers := if truthy given then given else JStruct [] in
      if negb (truthy url) || negb (truthy ref)
      then raise "apiserver returned an incomplete upload mint"
      else
        let* data := fs_read local_path in
        let* target := py_str url in
        let* resp := try_except (http_request (py_upper method) target data headers) (λ exc,
          raise ("failed to upload " +:+ quoted_name local_path +:+ " to presigned URL: " +:+ exc)) in
        if negb (ok resp)
        then raise (failed ("presigned upload of " +:+ quoted_name local_path) resp)
        else py_ret (ref, digest)
  end.

Definition _list_artifacts (sim_id : string) : py Y json :=
  let call := "GET /v1/results/" +:+ sim_id +:+ "/artifacts" in
  let* resp := try_except (session_get (base_url +:+ "/v1/results/" +:+ sim_id +:+ "/artifacts") [])
    (λ exc, raise (call +:+ " failed: " +:+ exc)) in
  if (status_code resp =? 404)%Z
  then raise ("no result artifacts for simulation " +:+ sim_id +:+ " (not finished or not yours)")
  else if (status_code resp =? 503)%Z then raise (disabled "downloads")
  else if negb (ok resp) then raise (failed call resp)
  else
    let* doc := json_of resp in
    let* artifacts := py_get doc "artifacts" in
    py_ret (if truthy artifacts then artifacts else JArr []).

Fixpoint write_chunks (local : string) (chunks : list string) : py Y () :=
  match chunks with
  | [] => py_ret tt
  | chunk :: rest =>
      let* _ := if String.eqb chunk "" then py_ret tt else fs_append local chunk in
      write_chunks local rest
  end.

Definition _download_to (url local : string) : py Y () :=
  let failure exc := "failed to download " +:+ quoted_name url +:+ ": " +:+ exc in
  let* (resp, broken) := try_except (http_stream url) (λ exc, raise (failure exc)) in
  if negb (ok resp) then raise (failure ("HTTPError " +:+ pretty (status_code resp)))
  else
    let* _ := fs_create local in
    let* _ := write_chunks local (resp_content resp) in
    match broken with Some exc => raise (failure exc) | None => py_ret tt end.

(** The loop over the artifacts: the paths written. *)
Fixpoint download_artifacts (dest_dir : string) (artifacts : list json) : py Y (list string) :=
  match artifacts with
  | [] => py_ret []
  | art :: rest =>
      let* name := py_get art "name" in
      let* url := py_get art "url" in
      if negb (truthy name) || negb (truthy url) then download_artifacts dest_dir rest
      else
        let* text := py_str name in
        let local := path_normpath (path_join dest_dir (strip_leading_slashes text)) in
        let* cwd := always fs_getcwd in
        if negb (HasPrefix (path_abspath cwd local) (path_abspath cwd dest_dir))
        then raise ("artifact name escapes dest dir: " +:+ quoted_name text)
        else
          let dir := path_dirname local in
          let* _ := fs_makedirs (if String.eqb dir "" then dest_dir else dir) in
          let* target := py_str url in
          let* _ := _download_to target local in
          let* more := download_artifacts dest_dir rest in
          py_ret (local :: more)
  end.

Definition p_download_result (sim_id : string) (artifact_uri : json) (dest_dir : string) :
    py Y (list string) :=
  let* artifacts := _list_artifacts sim_id in
  if negb (truthy artifacts) then raise ("no artifacts found for simulation " +:+ sim_id)
  else
    let* _ := fs_makedirs dest_dir in
    let* written := match artifacts with
                    | JArr l => download_artifacts dest_dir l
                    | _ => raise "TypeError: artifacts"
                    end in
    match written with
    | [] => raise ("no artifacts downloaded for simulation " +:+ sim_id)
    | _ => py_ret written
    end.

Definition PresignedURLBackend : StorageBackend Y := mkBackend Y p_upload_input p_download_result.
End presigned.

(** ** client.py *)

(** The values of S3_ENDPOINT, S3_ACCESS_KEY and S3_SECRET_KEY that an argument
    does not override: any that is not empty makes the transfers direct. *)
Definition _s3_configured (env : environ) (endpoint access_key secret_key : option string) : bool :=
  let given arg name := negb (String.eqb (default "" arg) "") || negb (String.eqb (default "" (env name)) "") in
  given endpoint "S3_ENDPOINT" || given access_key "S3_ACCESS_KEY" || given secret_key "S3_SECRET_KEY".

(** [direct]: the storage is an S3StorageBackend. *)
Record SynergyClient := mkClient {
  base_url : string; storage : StorageBackend Y; direct : bool;
}.

(** SynergyClient.__init__; the token is in the session. *)
Definition new_client (env : environ) (url : string) (endpoint access_key secret_key : option string)
    (injected : option (StorageBackend Y * bool)) : SynergyClient :=
  let base := rstrip_slashes url in
  match injected with
  | Some (b, is_s3) => mkClient base b is_s3
  | None => if _s3_configured env endpoint access_key secret_key
            then mkClient base S3StorageBackend true
            else mkClient base (PresignedURLBackend base) false
  end.

Section client.
Context (c : SynergyClient).

(** [str(value)] is only taken of a str. *)
Definition _resolve_input (value : pyval) (bucket : string) : py Y pyval :=
  match value with
  | PV (JStr path) =>
      if is_local_path value then
        let* (ref, digest) := upload_input (storage c) path bucket "uploads" in
        py_ret (PR (mkARef ref (JStr digest)))
      else py_ret value
  | _ => py_ret value
  end.

(** [ArtifactRef( **members )] *)
Definition ref_of_members (l : list (string * json)) : py Y ArtifactRef :=
  let get k := snd <$> List.find (λ m, String.eqb m.1 k) l in
  if forallb (λ m, String.eqb m.1 "ref" || String.eqb m.1 "sha256") l then
    match get "ref" with
    | Some r => py_ret (mkARef r (default JNull (get "sha256")))
    | None => raise "TypeError: missing ref"
    end
  else raise "TypeError: unexpected member".

(** [out[key] = x] *)
Fixpoint set_key (key : string) (x : pyval) (l : list (string * pyval)) : list (string * pyval) :=
  match l with
  | [] => [(key, x)]
  | (k, y) :: r => if String.eqb k key then (k, x) :: r else (k, y) :: set_key key x r
  end.

Definition _resolve_variant (v : variant) : py Y (list (string * pyval)) :=
  match v with
  | VVariant model name =>
      let* resolved := _resolve_input model "models" in
      py_ret (("model", PV (as_ref resolved JNull))
              :: if truthy name then [("name", PV name)] else [])
  | VDict members =>
      let model := match List.find (λ m, String.eqb m.1 "model") members with
                   | Some m => m.2 | None => PV JNull end in
      let* model := match model with
                    | PV (JObj l) | PV (JStruct l) => let* r := ref_of_members l in py_ret (PR r)
                    | _ => py_ret model
                    end in
      let* resolved := _resolve_input model "models" in
      py_ret (set_key "model" (PV (as_ref resolved JNull)) members)
  end.

Fixpoint _resolve_variants (vs : list variant) : py Y (list (list (string * pyval))) :=
  match vs with
  | [] => py_ret []
  | v :: rest => let* x := _resolve_variant v in let* more := _resolve_variants rest in py_ret (x :: more)
  end.

(** A dict as json.dumps takes it: an ArtifactRef is not serializable. *)
Definition plain_dict (l : list (string * pyval)) : option json :=
  JStruct <$> mapM (λ m, match m.2 with PV x => Some (m.1, x) | PR _ => None end) l.

Definition optional {A} (name : string) (f : A → json) (x : option A) : list (string * json) :=
  match x with Some a => [(name, f a)] | None => [] end.

Definition simulation_body (engine_version : string) (model weather : pyval)
    (priority : option Z) (extraction_spec : option json) : json :=
  JStruct ([("engineVersion", JStr engine_version); ("model", as_ref model JNull);
            ("weather", as_ref weather JNull)]
           ++ optional "priority" JInt priority
           ++ optional "extractionSpec" id extraction_spec)%list.

Definition submit_simulation (engine_version : string) (model weather : pyval)
    (priority : option Z) (extraction_spec : option json) : py Y json :=
  let* model := _resolve_input model "models" in
  let* weather := _resolve_input weather "weather" in
  let* resp := session_post (base_url c +:+ "/v1/simulations")
                 (simulation_body engine_version model weather priority extraction_spec) in
  let* _ := raise_for_status resp in
  json_of resp.

(** A GET of the API: its document. *)
Definition get_json (path : string) (params : list (string * string)) : py Y json :=
  let* resp := session_get (base_url c +:+ path) params in
  let* _ := raise_for_status resp in
  json_of resp.

Definition healthz : py Y bool :=
  let* resp := session_get (base_url c +:+ "/healthz") [] in py_ret (ok resp).

Definition get_simulation (sim_id : string) : py Y json := get_json ("/v1/simulations/" +:+ sim_id) [].
Definition get_results (sim_id : string) : py Y json := get_json ("/v1/results/" +:+ sim_id) [].

Definition get_metrics (sim_id : string) : py Y json :=
  let* results := get_results sim_id in
  let* metrics := py_get results "metrics" in
  py_ret (if truthy metrics then metrics else JStruct []).

Definition download_results (sim_id dest_dir : string) : py Y (list string) :=
  let* results := get_results sim_id in
  let* uri := py_get results "artifactUri" in
  download_result (storage c) sim_id uri dest_dir.

Definition _TERMINAL (state : string) : bool :=
  String.eqb state "succeeded" || String.eqb state "failed".

(** The loop of wait, for [polls] rounds: [None] is still waiting. *)
Fixpoint wait_loop (sim_id : string) (poll : Z) (deadline : option Z) (start : Z) (polls : nat) :
    py Y (option json) :=
  match polls with
  | O => py_ret None
  | S n =>
      let* sim := get_simulation sim_id in
      let* field := py_get sim "state" in
      let* text := py_str (if truthy field then field else JStr "") in
      let state := py_lower text in
      if _TERMINAL state then py_ret (Some sim)
      else
        let* now := match deadline with Some _ => always clock | None => py_ret start end in
        if match deadline with Some d => (d <? now - start)%Z | None => false end
        then raise ("simulation " +:+ sim_id +:+ " still " +:+ quoted_name state)
        else
          let* _ := always (pause poll) in
          wait_loop sim_id poll deadline start n
  end.

Definition wait (sim_id : string) (poll : Z) (deadline : option Z) (polls : nat) : py Y (option json) :=
  let* start := always clock in wait_loop sim_id poll deadline start polls.

Definition batch_body (engine_version : string) (weather : pyval) (variants : list json)
    (priority max_parallelism : option Z) (idempotency_key : option string) : json :=
  JStruct ([("engineVersion", JStr engine_version); ("weather", as_ref weather JNull);
            ("variants", JArr variants)]
           ++ optional "priority" JInt priority
           ++ optional "maxParallelism" JInt max_parallelism
           ++ optional "idempotencyKey" JStr idempotency_key)%list.

Definition submit_batch (engine_version : string) (weather : pyval) (variants : list variant)
    (priority max_parallelism : option Z) (idempotency_key : option string) : py Y json :=
  let* weather := _resolve_input weather "weather" in
  let* dicts := _resolve_variants variants in
  let* vs := match mapM plain_dict dicts with
             | Some vs => py_ret vs
             | None => raise "TypeError: not JSON serializable"
             end in
  let* resp := session_post (base_url c +:+ "/v1/batches")
                 (batch_body engine_version weather vs priority max_parallelism idempotency_key) in
  let* _ := raise_for_status resp in
  json_of resp.

Definition get_batch (batch_id : string) : py Y json := get_json ("/v1/batches/" +:+ batch_id) [].

Definition list_batch_simulations (batch_id : string) (limit offset : Z) : py Y json :=
  get_json ("/v1/batches/" +:+ batch_id +:+ "/simulations")
    [("limit", pretty limit); ("offset", pretty offset)].

(** SynergyClient.upload_input, to a bucket and to an explicit destination. *)
Definition client_upload_input (local_path : string) (ref bucket : option string) (prefix : string) :
    py Y ArtifactRef :=
  match ref with
  | Some ref =>
      let* (dest_bucket, key) := parse_s3_uri ref in
      if negb (direct c)
      then raise "explicit-ref upload_input(path, 's3://...') requires the default S3 storage backend"
      else
        let* _ := s3_client in
        let* _ := _ensure_bucket dest_bucket in
        let* there := always (fs_isfile local_path) in
        if negb there then raise (not_found local_path)
        else
          let* _ := s3_upload_file local_path dest_bucket key in
          let* digest := local_sha256 local_path in
          py_ret (mkARef (JStr ref) (JStr digest))
  | None =>
      let named := default "" bucket in
      let* (uploaded, digest) := upload_input (storage c) local_path
        (if String.eqb named "" then "models" else named) prefix in
      py_ret (mkARef uploaded (JStr digest))
  end.
End client.
End sdk.
