(* ===== verification/SdkSpec.v ===== *)
(** * From a file on the client's disk to the run

    The Python SDK, the apiserver, object storage and the Runners, each from its
    own source: what SynergyClient.submit_simulation leaves when it is given the
    paths of two files.  What is between the processes (HTTP, S3, the client's
    disk) has laws ([site_laws]). *)
From S2P Require Import Prelude GoLib Json JsonText JsonSpec NetUrl Sha256 PyLib PyJson PyConfig Metrics.
From S2P Require Import Sql Schema Fixtures Rollup Lifecycle Store PortalSql Fleet Session Queue Config Http.
From S2P Require Import Auth Handlers Uploads Router ApiFixtures RefSpec RequestSpec SubmitSpec OwnerSpec.
From S2P Require Import Runner RunnerSpec Storage StorageSpec ObjectSpec Sdk.
Local Open Scope string_scope.
Local Open Scope py_scope.

(** ** UTF-8 *)
Lemma clean_ascii s : is_ascii s = true → clean 0 s = s.
Proof.
  induction s as [|c s IH]; [done|]. unfold is_ascii. cbn [string_forallb].
  intros [Hc Hs]%andb_true_iff. cbn [clean]. rewrite Hc. by rewrite IH.
Qed.

Lemma ascii_valid s : is_ascii s = true → ValidString s = true.
Proof. intros H. unfold ValidString. by apply String.eqb_eq, clean_ascii. Qed.

(** ** The site *)

(** What is observed of the client's surroundings: its files, the apiserver's
    database, the objects by bucket and key, and what a presigned URL is for. *)
Record Site (Y : Type) := mkSite {
  files : Y → string → option string;
  world : Y → World;
  objects : Y → string → string → option string;
  put_target : string → option (string * string);
}.
Arguments files {Y}.
Arguments world {Y}.
Arguments objects {Y}.
Arguments put_target {Y}.

(** The two requests of a submission. *)
Inductive sent_to : string → (string → v1_route) → Prop :=
  | to_uploads : sent_to "/v1/uploads" PostUploads
  | to_simulations : sent_to "/v1/simulations" PostSimulations.

Definition unchanged {Y} (S : Site Y) (y y' : Y) : Prop :=
  files S y' = files S y ∧ world S y' = world S y ∧ objects S y' = objects S y.

(** The disk is read; a request that is answered ran in the apiserver, with the
    body json.dumps writes, and is answered with its bytes; presigning a PUT
    reads nothing and gives a URL for that object; a PUT to it that is answered
    without an error stored the data. *)
Record site_laws {PU : PgUuid} {UL : UnicodeLib} {Y} {IO : SdkIO Y} (S : Site Y)
    (ticks : nat → tick) (s : Server World) (base token : string) : Prop := {
  isfile_law path y y' b : fs_isfile path y = (y', b) → unchanged S y y';
  read_law path y y' bytes : fs_read path y = (y', Ok bytes) →
    unchanged S y y' ∧ files S y path = Some bytes;
  post_law path route v y y' resp : sent_to path route →
    session_post (base +:+ path) v y = (y', Ok resp) →
    let o := serve (H := PgStore ticks) s
               (mkRequest ("Bearer " +:+ token) (V1 (route (dumps v)))) (world S y) in
    world S y' = o.1 ∧ status_code resp = status o.2.1 ∧ resp_json resp = loads (resp_body o.2.1) ∧
    files S y' = files S y ∧ objects S y' = objects S y;
  presign_law p bucket key w w' url : presigner s = Some p →
    string_forallb dns_byte bucket = true → string_forallb path_byte key = true →
    PresignPut p bucket key w = (w', Ok url) →
    w' = w ∧ url ≠ "" ∧ ValidString url = true ∧ put_target S url = Some (bucket, key);
  put_law url data headers y y' resp bucket key : put_target S url = Some (bucket, key) →
    http_request "PUT" url data headers y = (y', Ok resp) → ok resp = true →
    files S y' = files S y ∧ world S y' = world S y ∧
    objects S y' bucket key = Some data ∧
    ∀ b k, (b, k) ≠ (bucket, key) → objects S y' b k = objects S y b k;
}.

Section submission.
Context {PU : PgUuid} {UL : UnicodeLib} {NL : NetlocLib} {PC : PyCase} {Y : Type} {IO : SdkIO Y}.
Context (S : Site Y) (ticks : nat → tick) (s : Server World) (base token : string).
Context (L : site_laws S ticks s base token) (r : RunnerConfig) (Hc : coherent (cfg s) r).

Lemma unchanged_trans y1 y2 y3 : unchanged S y1 y2 → unchanged S y2 y3 → unchanged S y1 y3.
Proof. unfold unchanged. intros (-> & -> & ->) (-> & -> & ->). done. Qed.

(** *** The apiserver's side *)
Lemma serve_below_400 auth route w :
  let o := serve (H := PgStore ticks) s (mkRequest auth (V1 route)) w in
  (status o.2.1 < 400)%Z → ∃ uid w', o = v1 (H := PgStore ticks) s route (Some uid) w'.
Proof.
  cbv zeta. unfold serve, authMiddleware. cbn [req_route Authorization].
  destruct (bearerToken auth) as [raw []]; cbn [negb]; [|done].
  rewrite state_bind_run. destruct (UserIDForKeyHash _ w) as [w' [uid|[|e]]]; cbn [fst snd]; [|done..].
  intros _. by exists uid, w'.
Qed.

(** An answer requests takes for a success ran a handler as some user. *)
Lemma served_ok auth route w resp :
  let o := serve (H := PgStore ticks) s (mkRequest auth (V1 route)) w in
  status_code resp = status o.2.1 → ok resp = true →
  ∃ uid w', o = v1 (H := PgStore ticks) s route (Some uid) w' ∧ (status o.2.1 < 400)%Z.
Proof.
  cbv zeta. intros Est Hok.
  assert (H : (status (serve (H := PgStore ticks) s (mkRequest auth (V1 route)) w).2.1 < 400)%Z).
  { destruct (typed_serve (H := PgStore ticks) s auth route w) as (st & v & E & Hv).
    assert (Hst : (st < 600)%Z).
    { destruct Hv as [Hv|[Hst _]]; [by destruct route; destruct Hv as [-> _]|].
      clear E. revert st Hst. apply Forall_forall. by repeat constructor. }
    revert Hok. unfold ok. rewrite Est, E. cbn [status writeJSON].
    rewrite negb_true_iff, andb_false_iff, Z.leb_gt, Z.ltb_ge. lia. }
  destruct (serve_below_400 auth route w H) as (uid & w' & E). by exists uid, w'.
Qed.

(** An upload with a digest does not depend on who uploads. *)
Definition digest_key (digest name : string) : string := upload_key "" digest (upload_base name).

Lemma digest_key_path digest name : string_forallb is_hex digest = true → digest ≠ "" →
  string_forallb path_byte (digest_key digest name) = true.
Proof.
  intros Hd Hne. unfold digest_key, upload_key. rewrite decide_False by done.
  destruct (upload_base_chars name) as [Hb _].
  assert (H1 : string_forallb path_byte digest = true) by (revert Hd; by apply bytes_impl).
  assert (H2 : string_forallb path_byte (upload_base name) = true) by (revert Hb; by apply bytes_impl).
  by rewrite !string_forallb_app, H1, H2.
Qed.

Lemma minted_upload kind name digest uid w :
  upload_valid (mkUploadReq kind name digest) = true →
  string_forallb is_hex digest = true → digest ≠ "" →
  let body := dumps (upload_json (mkUploadReq kind name digest)) in
  let o := v1 (H := PgStore ticks) s (PostUploads body) (Some uid) w in
  (status o.2.1 < 400)%Z → ∃ bucket url expires, let key := digest_key digest name in
    o = (w, (writeJSON StatusOK (upload_response url (s3_ref bucket key) expires), None)) ∧
    upload_bucket (cfg s) kind = Some bucket ∧ url ≠ "" ∧ ValidString url = true ∧
    put_target S url = Some (bucket, key).
Proof.
  intros Hv Hd Hne. cbv zeta. cbn [v1]. unfold respond. rewrite state_bind_run.
  unfold handleCreateUpload. destruct (presigner s) as [p|] eqn:Ep; [|done].
  assert (Hreq : upload_request (dumps (upload_json (mkUploadReq kind name digest))) =
                 Some (mkUploadReq kind name digest)).
  { pose proof (upload_read_back py_json py_json_ok _ "" Hv I) as E.
    by rewrite string_app_nil_r in E. }
  rewrite Hreq. cbn [Kind Filename uSHA256].
  destruct (upload_bucket (cfg s) kind) as [bucket|] eqn:Eb; [|done]. cbv zeta.
  destruct (_ || _); [done|]. rewrite state_bind_run.
  assert (Ekey : upload_key (userID (Some uid)) digest (upload_base name) = digest_key digest name).
  { unfold digest_key, upload_key. by rewrite !decide_False by done. }
  rewrite Ekey. destruct (PresignPut p bucket _ w) as [w' [url|e]] eqn:Eu; [|done].
  intros _. apply (presign_law _ _ _ _ _ L p) in Eu as (-> & Hu); [|done| |by apply digest_key_path].
  - exists bucket, url, (ExpiresIn p). by split_and!; try apply Hu.
  - by apply (kind_buckets_dns _ r kind bucket Hc), kind_buckets_upload.
Qed.
(** *** The client's side *)
Lemma always_inv {A} (m : state_t Y A) y y' a : always m y = (y', Ok a) → m y = (y', a).
Proof. unfold always. rewrite state_bind_run. destruct (m y). by intros [= -> ->]. Qed.

Lemma loads_Encode v : (nesting (normalise v) <= maxNestingDepth)%N →
  loads (Encode v) = Ok (read_value py_number (value_of go_json (normalise v))).
Proof. intros H. unfold loads. by rewrite Encode_whole. Qed.

Lemma s3_ref_ascii bucket key : string_forallb dns_byte bucket = true →
  string_forallb path_byte key = true → ValidString (s3_ref bucket key) = true.
Proof.
  intros Hb Hk. apply ascii_valid. unfold is_ascii, s3_ref.
  assert (H1 : is_ascii bucket = true) by (revert Hb; by apply bytes_impl).
  assert (H2 : is_ascii key = true) by (revert Hk; by apply bytes_impl).
  unfold is_ascii in H1, H2. by rewrite !string_forallb_app, H1, H2.
Qed.

Lemma loads_upload url ref expires : ValidString url = true → ValidString ref = true →
  loads (Encode (upload_response url ref expires)) =
  Ok (JObj [("url", JStr url); ("ref", JStr ref); ("method", JStr "PUT");
            ("expiresIn", py_number (pretty (Z.quot expires Second)))]).
Proof.
  intros Hu Hr. rewrite loads_Encode by done.
  cbn [normalise upload_response map value_of fst snd]. by rewrite (clean_valid url), (clean_valid ref).
Qed.

Lemma loads_created id st : ValidString id = true → ValidString st = true →
  loads (Encode (JObj [("id", JStr id); ("state", JStr st)])) =
  Ok (JObj [("id", JStr id); ("state", JStr st)]).
Proof.
  intros Hi Hs. rewrite loads_Encode by done.
  change (normalise _) with (JStruct [("id", JStr id); ("state", JStr st)]).
  cbn [map value_of fst snd]. by rewrite (clean_valid id), (clean_valid st).
Qed.

Lemma mint_done kind name data y y' doc :
  ValidString kind = true → ValidString name = true →
  _mint_upload base kind name (sha256_hex data) y = (y', Ok doc) →
  ∃ bucket url expires, let key := digest_key (sha256_hex data) name in
    upload_bucket (cfg s) kind = Some bucket ∧ url ≠ "" ∧ put_target S url = Some (bucket, key) ∧
    doc = JObj [("url", JStr url); ("ref", JStr (s3_ref bucket key)); ("method", JStr "PUT");
                ("expiresIn", expires)] ∧
    files S y' = files S y ∧ objects S y' = objects S y.
Proof.
  intros Hk Hn. set (digest := sha256_hex data).
  assert (Hd : string_forallb is_hex digest = true) by apply sha256_hex_shape.
  assert (Hne : digest ≠ "") by (apply String.eqb_neq, sha256_hex_nonempty).
  unfold _mint_upload. cbv zeta. intros E.
  apply py_bind_inv in E as (resp & y1 & E1%try_except_raise & E).
  destruct (_ =? 503)%Z; [done|]. destruct (ok resp) eqn:Eok; cbn [negb] in E; [|done].
  assert (Hj : y' = y1 ∧ resp_json resp = Ok doc) by by injection E as <- <-.
  destruct Hj as [-> Hj]. clear E.
  assert (Hv : upload_valid (mkUploadReq kind name digest) = true).
  { unfold upload_valid. cbn [Kind Filename uSHA256]. rewrite Hk, Hn. apply ascii_valid.
    revert Hd. by apply bytes_impl. }
  assert (Ebody : JStruct [("kind", JStr kind); ("filename", JStr name); ("sha256", JStr digest)] =
    upload_json (mkUploadReq kind name digest)).
  { unfold upload_json, omitempty. cbn [Kind Filename uSHA256]. by rewrite decide_False by done. }
  rewrite Ebody in E1.
  apply (post_law _ _ _ _ _ L _ _ _ _ _ _ to_uploads) in E1. cbv zeta in E1.
  destruct E1 as (_ & Est & Ej & HF & HO). rewrite Hj in Ej.
  destruct (served_ok _ _ _ _ Est Eok) as (uid & w' & Eo & Hlt). rewrite Eo in Hlt, Ej.
  destruct (minted_upload kind name digest uid w' Hv Hd Hne Hlt) as (bucket & url & x & Eu & Hb & Hu & Hvu & Ht).
  rewrite Eu in Ej. cbn [fst snd resp_body writeJSON] in Ej.
  rewrite loads_upload in Ej; [|done|].
  - injection Ej as ->. exists bucket, url. eexists. by split_and!.
  - apply s3_ref_ascii; [|by apply digest_key_path].
    by apply (kind_buckets_dns _ r kind bucket Hc), kind_buckets_upload.
Qed.
(** The client's upload of a file: its reference and its object. *)
Definition uploaded (kind path ref digest data : string) (y : Y) : Prop :=
  ∃ bucket, upload_bucket (cfg s) kind = Some bucket ∧
    let key := digest_key digest (path_basename path) in
    ref = s3_ref bucket key ∧ digest = sha256_hex data ∧ objects S y bucket key = Some data.

Lemma upload_done kind bucket prefix path y y' ref digest :
  _BUCKET_KIND bucket = Some kind → ValidString (path_basename path) = true →
  p_upload_input base path bucket prefix y = (y', Ok (ref, digest)) →
  ∃ text data, ref = JStr text ∧ files S y path = Some data ∧ uploaded kind path text digest data y' ∧
    files S y' = files S y ∧
    ∀ b k, upload_bucket (cfg s) kind ≠ Some b → objects S y' b k = objects S y b k.
Proof.
  intros Hk Hname. unfold p_upload_input. intros E.
  apply py_bind_inv in E as (there & y1 & E1%always_inv & E). destruct there; cbn [negb] in E; [|done].
  rewrite Hk in E. apply py_bind_inv in E as (dig & y2 & E2 & E).
  unfold local_sha256 in E2. apply py_bind_inv in E2 as (data & y2' & E2 & [= -> <-]).
  apply (isfile_law _ _ _ _ _ L) in E1 as (F1 & W1 & O1).
  apply (read_law _ _ _ _ _ L) in E2 as ((F2 & W2 & O2) & Hdata). rewrite F1 in *.
  apply py_bind_inv in E as (doc & y3 & E3 & E).
  assert (Hvk : ValidString kind = true).
  { revert Hk. unfold _BUCKET_KIND. repeat case_match; by intros [= <-]. }
  apply mint_done in E3 as (b & url & x & Hb & Hne & Ht & -> & F3 & O3); [|done..].
  do 2 (apply py_bind_inv in E as (? & ? & [= <- <-] & E)).
  do 2 (apply py_bind_inv in E as (? & ? & [= <- <-] & E)).
  apply py_bind_inv in E as (? & ? & [= <- <-] & E).
  match type of E with context [if ?c then _ else _] => destruct c; [done|] end.
  apply py_bind_inv in E as (data' & y4 & E4 & E).
  apply (read_law _ _ _ _ _ L) in E4 as ((F4 & W4 & O4) & Hdata').
  apply py_bind_inv in E as (? & ? & [= <- <-] & E).
  apply py_bind_inv in E as (resp & y5 & E5%try_except_raise & E).
  destruct (ok resp) eqn:Eok; cbn [negb] in E; [|done]. injection E as <- <- <-.
  change (py_upper "PUT") with "PUT" in E5.
  apply (put_law _ _ _ _ _ L _ _ _ _ _ _ _ _ Ht) in E5 as (F5 & _ & Hobj & Hother); [|done].
  assert (data' = data) as -> by (rewrite F3, F2 in Hdata'; congruence).
  eexists _, data. split; [reflexivity|]. split; [done|]. split; [by exists b|].
  split; [congruence|]. intros b' k Hb'. rewrite Hother by congruence. congruence.
Qed.

(** *** What is sent *)
Definition sim_req (ev mref mdigest wref wdigest : string) (prio : option Z) (spec : option json) :=
  mkSimReq ev (mkRef mref mdigest) (mkRef wref wdigest) prio (raw_text py_json spec).

Lemma simulation_body_json ev mref m wref w prio spec : m ≠ "" → w ≠ "" →
  let ref r digest := PR (mkARef (JStr r) (JStr digest)) in
  simulation_body ev (ref mref m) (ref wref w) prio spec =
  simulation_json (sim_req ev mref m wref w prio spec) spec.
Proof.
  intros Hm Hw. cbv zeta. unfold simulation_body, simulation_json, ref_json, as_ref, to_dict, omitempty.
  cbn [a_ref a_sha256 truthy sim_req Ref SHA256 sModel sWeather sEngineVersion sPriority].
  rewrite !(proj2 (String.eqb_neq _ _)), !decide_False by done. by destruct prio, spec.
Qed.

Lemma simulation_body_read ev mref m wref w prio spec :
  let req := sim_req ev mref m wref w prio spec in
  simulation_valid req = true → m ≠ "" → w ≠ "" →
  (∀ v, spec = Some v → (nesting v < maxNestingDepth)%N) →
  simulation_request (dumps (simulation_json req spec)) = Some req.
Proof.
  cbv zeta. intros Hv Hm Hw Hs. set (req := sim_req _ _ _ _ _ _ _) in *.
  pose proof (simulation_read_back py_json py_json_ok req spec "" Hv eq_refl) as E.
  rewrite string_app_nil_r in E. apply E; [|exact I].
  assert (Hn : (foldr N.max 0 (map (λ m, nesting m.2) (raw_member "extractionSpec" spec))
                < maxNestingDepth)%N).
  { destruct spec as [v|]; [|done]. cbn. specialize (Hs v eq_refl). lia. }
  unfold simulation_json, ref_json, omitempty. cbn [req sim_req Ref SHA256 sModel sWeather].
  rewrite !decide_False by done. assert (1 < maxNestingDepth)%N by done.
  destruct prio; cbn [nesting map app foldr snd int_member sPriority sim_req req sEngineVersion]; lia.
Qed.

Lemma v1_simulations body c w :
  let h := handleCreateSimulation (H := PgStore ticks) s c body w in
  v1 (H := PgStore ticks) s (PostSimulations body) c w = (h.1, (h.2, None)).
Proof. cbn [v1]. unfold respond. by rewrite state_bind_run. Qed.

Lemma created_below body c w :
  let h := handleCreateSimulation (H := PgStore ticks) s c body w in
  (status h.2 < 400)%Z → status h.2 = StatusCreated.
Proof.
  cbv zeta. destruct (typed_create_simulation (H := PgStore ticks) s c body w)
    as (st & v & -> & [[-> _]|[Hst _]]); [done|]. cbn [status writeJSON]. intros Hlt. exfalso.
  apply Z.lt_nge in Hlt. apply Hlt. clear -Hst. revert st Hst. apply Forall_forall.
  by repeat constructor.
Qed.

Definition created_row (uid u : string) (n : nat) (st : SimState) (req : createSimulationRequest) : SimRow :=
  let t := ticks n in
  insert_row (t_uuid t) (t_now t) (t_clock t) None u st
    (simulation_params uid req (normalizePriority (sPriority req))
       (ContentHash (SHA256 (sModel req)) (SHA256 (sWeather req)) (sEngineVersion req))
       (sim_state_text st)).

Context (Hids : ∀ n, is_ascii (t_uuid (ticks n)) = true).

Lemma created_answer body req uid w :
  simulation_request body = Some req →
  let o := v1 (H := PgStore ticks) s (PostSimulations body) (Some uid) w in
  (status o.2.1 < 400)%Z →
  ∃ u n st, created_row uid u n st req ∈ simulations (w_db o.1) ∧
    loads (resp_body o.2.1) =
    Ok (JObj [("id", JStr (t_uuid (ticks n))); ("state", JStr (sim_state_text st))]).
Proof.
  intros Hb. cbv zeta. rewrite v1_simulations. cbn [fst snd]. intros Hlt%created_below.
  destruct (inserted_simulation ticks s uid body w Hlt) as (req' & u & n & st & Hreq & _ & Ea & Hin).
  rewrite Hb in Hreq. injection Hreq as <-. exists u, n, st. split; [exact Hin|].
  rewrite Ea. apply loads_created; [apply ascii_valid, Hids|by destruct st].
Qed.

Lemma simulation_created ev mref m wref w prio spec y y' answer :
  let req := sim_req ev mref m wref w prio spec in
  simulation_valid req = true → m ≠ "" → w ≠ "" →
  (∀ v, spec = Some v → (nesting v < maxNestingDepth)%N) →
  (let* resp := session_post (base +:+ "/v1/simulations") (simulation_json req spec) in
   let* _ := raise_for_status resp in json_of resp) y = (y', Ok answer) →
  ∃ uid u n st, created_row uid u n st req ∈ simulations (w_db (world S y')) ∧
    answer = JObj [("id", JStr (t_uuid (ticks n))); ("state", JStr (sim_state_text st))] ∧
    objects S y' = objects S y.
Proof.
  cbv zeta. intros Hv Hm Hw Hs E.
  pose proof (simulation_body_read _ _ _ _ _ _ _ Hv Hm Hw Hs) as Hb. clear Hv.
  revert E Hb. generalize (sim_req ev mref m wref w prio spec). intros req E Hb.
  apply py_bind_inv in E as (resp & y1 & E1 & E). apply py_bind_inv in E as ([] & y2 & E2 & E).
  unfold raise_for_status in E2. destruct (ok resp) eqn:Eok; [|done]. injection E2 as <-.
  assert (Hj : y' = y1 ∧ resp_json resp = Ok answer) by by injection E as <- <-.
  destruct Hj as [-> Hj]. clear E.
  apply (post_law _ _ _ _ _ L _ _ _ _ _ _ to_simulations) in E1. cbv zeta in E1.
  destruct E1 as (Ew & Est & Ej & HF & HO). rewrite Hj in Ej.
  destruct (served_ok _ _ _ _ Est Eok) as (uid & w' & Eo & Hlt). rewrite Eo in Hlt, Ej, Ew.
  destruct (created_answer _ _ _ _ Hb Hlt) as (u & n & st & Hin & El).
  exists uid, u, n, st. rewrite Ew. split; [exact Hin|]. split; [congruence|done].
Qed.
Lemma raw_text_column spec : nullableJSON (raw_text py_json spec) = dumps <$> spec.
Proof.
  destruct spec as [v|]; [|done]. unfold nullableJSON. cbn [raw_text].
  destruct (write_starts py_json py_json_ok v) as (ch & rest & E & _).
  by rewrite decide_False by (by rewrite E).
Qed.

(** *** The two inputs *)
Lemma uploaded_valid kind path ref digest data y : uploaded kind path ref digest data y →
  ref_valid (mkRef ref digest) = true ∧ digest ≠ "".
Proof.
  intros (bucket & Hb & -> & -> & _). pose proof (proj2 (sha256_hex_shape data)) as Hd.
  assert (Hne : sha256_hex data ≠ "") by (apply String.eqb_neq, sha256_hex_nonempty).
  split; [|done]. unfold ref_valid. cbn [Ref SHA256]. apply andb_true_iff. split.
  - apply s3_ref_ascii; [|by apply digest_key_path].
    by apply (kind_buckets_dns _ r kind bucket Hc), kind_buckets_upload.
  - apply ascii_valid. revert Hd. by apply bytes_impl.
Qed.

(** A Runner that downloads [ref] downloads an object with the bytes [data]. *)
Definition fetched {Z} {RIO : RunnerIO Z} (ref data : string) (y : Y) : Prop :=
  ∃ bucket key, objects S y bucket key = Some data ∧ ∀ dest,
    storage_download r ref dest = (let* _ := make_parent dest in download_file bucket key dest).

Lemma uploaded_fetched {Z} {RIO : RunnerIO Z} kind path ref digest data y :
  uploaded kind path ref digest data y → fetched ref data y.
Proof.
  intros (bucket & Hb & -> & -> & Ho). eexists bucket, _. split; [exact Ho|]. intros dest.
  apply (minted_downloaded _ _ Hc kind); [done|]. apply upload_key_plain.
  - pose proof (proj2 (sha256_hex_shape data)) as Hd. revert Hd. by apply bytes_impl.
  - intros E. by pose proof (sha256_hex_nonempty data) as H; rewrite E in H.
  - apply upload_base_chars.
Qed.
End submission.

(** ** Property *)

(** C10: the files one submits are the files that run.  SynergyClient without S3
    credentials is given the paths of a model and a weather file.  If
    submit_simulation returns, then what it returns is the id and the state of a
    row of the database whose version, priority and extraction spec are those
    of the call; whose content hash is the one a Runner computes from the two
    files' bytes, so that the digests the client sent are true; and whose
    references name objects that hold exactly the two files' bytes, which is
    what a Runner with the apiserver's buckets downloads.  The file names can be
    anything in UTF-8, other processes may act between all statements, and
    every request, upload and statement may fail (submit_simulation then raises,
    or what failed did not matter). *)
Theorem submitted_files_are_what_runs {PU : PgUuid} {UL : UnicodeLib} {NL : NetlocLib} {PC : PyCase}
    {Y} {IO : SdkIO Y} {Z} {RIO : RunnerIO Z} (S : Site Y) ticks s env url token r
    ev mpath wpath prio spec y answer :
  let c := new_client env url None None None None in
  let o := submit_simulation c ev (PV (JStr mpath)) (PV (JStr wpath)) prio spec y in
  site_laws S ticks s (rstrip_slashes url) token → coherent (cfg s) r →
  BucketModels (cfg s) ≠ BucketWeather (cfg s) → (∀ n, is_ascii (t_uuid (ticks n)) = true) →
  _s3_configured env None None None = false →
  Forall (λ path, is_local_path (PV (JStr path)) = true ∧ ValidString (path_basename path) = true)
    [mpath; wpath] →
  ValidString ev = true → int_valid prio = true →
  (∀ v, spec = Some v → (nesting v < maxNestingDepth)%N) →
  o.2 = Ok answer →
  ∃ model weather row, files S y mpath = Some model ∧ files S y wpath = Some weather ∧
    row ∈ simulations (w_db (world S o.1)) ∧
    answer = JObj [("id", JStr (s_id row)); ("state", JStr (sim_state_text (s_state row)))] ∧
    s_engine_version row = ev ∧ s_priority row = normalizePriority prio ∧
    s_extraction_spec row = dumps <$> spec ∧
    s_content_hash row = Some (py_content_hash (sha256_hex model) (sha256_hex weather) ev) ∧
    fetched S r (s_model_ref row) model o.1 ∧ fetched S r (s_weather_ref row) weather o.1.
Proof.
  cbv zeta. intros L Hc Hbk Hids Henv Hpaths Hev Hp Hs.
  rewrite !Forall_cons in Hpaths. destruct Hpaths as ([Hlm Hnm] & [Hlw Hnw] & _).
  unfold new_client. rewrite Henv. set (base := rstrip_slashes url) in *.
  destruct (submit_simulation _ _ _ _ _ _ y) as [y' res] eqn:E. cbn [fst snd]. intros ->.
  unfold submit_simulation, _resolve_input in E. rewrite Hlm, Hlw in E. cbn [storage base_url] in E.
  apply py_bind_inv in E as (rm & y1 & Em & E).
  apply py_bind_inv in Em as ([mref m] & y1' & Em & [= -> <-]).
  apply py_bind_inv in E as (rw & y2 & Ew & E).
  apply py_bind_inv in Ew as ([wref w] & y2' & Ew & [= -> <-]).
  change (upload_input (PresignedURLBackend base)) with (p_upload_input base) in Em, Ew.
  apply (upload_done S ticks s base token L r Hc "model") in Em as (mt & model & -> & Hfm & Hum & HF1 & HO1);
    [|done..].
  apply (upload_done S ticks s base token L r Hc "weather") in Ew as (wt & weather & -> & Hfw & Huw & HF2 & HO2);
    [|done..].
  rewrite HF1 in Hfw.
  assert (Hum' : uploaded S s "model" mpath mt m model y2).
  { destruct Hum as (b & Hb & -> & -> & Ho). exists b. cbv zeta.
    rewrite HO2; [done|]. intros Hb'. injection Hb as <-. injection Hb' as Hb'. congruence. }
  destruct (uploaded_valid S s r Hc _ _ _ _ _ _ Hum') as [Hvm Hnem].
  destruct (uploaded_valid S s r Hc _ _ _ _ _ _ Huw) as [Hvw Hnew].
  rewrite simulation_body_json in E by done.
  apply (simulation_created S ticks s base token L Hids) in E as (uid & u & n & st & Hin & -> & HO3);
    [|by unfold simulation_valid, sim_req; cbn [sEngineVersion sModel sWeather sPriority];
       rewrite Hev, Hvm, Hvw, Hp|done..].
  exists model, weather. eexists. split_and!; [done|done|exact Hin|done|done|done| | | |].
  - by apply raw_text_column.
  - destruct Hum as (? & _ & _ & -> & _), Huw as (? & _ & _ & -> & _). done.
  - unfold fetched. rewrite HO3. by apply (uploaded_fetched S s r Hc _ _ _ _ _ _ Hum').
  - unfold fetched. rewrite HO3. by apply (uploaded_fetched S s r Hc _ _ _ _ _ _ Huw).
Qed.

(** ** A deployment for the witness *)
Definition site_ticks (n : nat) : tick :=
  quiet_tick (Z.of_nat n + 1) (Z.of_nat n + 1) "5b1c0f9e-0000-4000-8000-000000000001".

Definition s3_url (bucket key : string) : string := "https://s3.test/" +:+ bucket +:+ String "/" key.

Definition site_presigner : presignClient World :=
  mkPresign (λ b k w, (w, Ok (s3_url b k))) (λ b k w, (w, Ok (s3_url b k))) (λ _ _ w, (w, Ok []))
    (300 * 10 ^ 9).

Definition site_server : Server World := NewServer (Some site_presigner) (LoadConfig demo_buckets).

Definition site_files (path : string) : option string :=
  if String.eqb path "runs/plant #2.idf" then Some "Version,24.1;"
  else if String.eqb path "w.epw" then Some "LOCATION" else None.

Definition site_target (url : string) : option (string * string) :=
  rest ← CutPrefix url "https://s3.test/";
  let '(bucket, key, cut) := Cut rest "/" in if cut : bool then Some (bucket, key) else None.

(** The apiserver's database and the objects. *)
Definition site_state : Type := World * (string → string → option string).

Definition demo_site : Site site_state :=
  mkSite site_state (λ _, site_files) fst snd site_target.

Definition site_route (url : string) : option (string → v1_route) :=
  if String.eqb url "https://api.test/v1/uploads" then Some PostUploads
  else if String.eqb url "https://api.test/v1/simulations" then Some PostSimulations else None.

Definition site_post (url : string) (v : json) : py site_state Response := λ y,
  match site_route url with
  | Some route =>
      let o := serve (H := PgStore (PU := demo_uuid) site_ticks) site_server
                 (mkRequest ("Bearer " +:+ "k1") (V1 (route (dumps v)))) y.1 in
      let resp := o.2.1 in
      ((o.1, y.2), Ok (mkResp (status resp) (resp_body resp) (loads (resp_body resp)) []))
  | None => (y, Err "ConnectionError")
  end.

Definition site_put (method url data : string) (_ : json) : py site_state Response := λ y,
  match site_target url with
  | Some (bucket, key) =>
      ((y.1, λ b k, if decide ((b, k) = (bucket, key)) then Some data else y.2 b k),
       Ok (mkResp 200 "" (Err "JSONDecodeError") []))
  | None => (y, Err "ConnectionError")
  end.

#[local] Instance demo_case : PyCase := {| upper_unicode s := s; lower_unicode s := s |}.

#[local] Instance site_io : SdkIO site_state := {|
  sdk_repr s := s;
  fs_isfile path y := (y, bool_decide (is_Some (site_files path)));
  fs_read path y := (y, match site_files path with
                        | Some data => Ok data | None => Err "FileNotFoundError" end);
  fs_getcwd y := (y, "/");
  fs_makedirs _ := py_ret tt;
  fs_create _ := raise "PermissionError";
  fs_append _ _ := raise "PermissionError";
  clock y := (y, 0%Z);
  pause _ y := (y, tt);
  session_post := site_post;
  session_get _ _ := raise "ConnectionError";
  http_request := site_put;
  http_stream _ := raise "ConnectionError";
  s3_client := raise "ImportError";
  s3_head_bucket _ := raise "ImportError";
  s3_create_bucket _ := raise "ImportError";
  s3_head_object _ _ := raise "ImportError";
  s3_upload_file _ _ _ := raise "ImportError";
  s3_pages _ _ := raise "ImportError";
  s3_download_file _ _ _ := raise "ImportError";
|}.

Lemma demo_site_laws :
  site_laws (PU := demo_uuid) demo_site site_ticks site_server (rstrip_slashes "https://api.test/") "k1".
Proof.
  change (rstrip_slashes "https://api.test/") with "https://api.test". split.
  - intros path y y' b. cbn [fs_isfile site_io]. by intros [= <- _].
  - intros path y y' bytes. cbn [fs_read site_io files demo_site].
    destruct (site_files path); [by intros [= <- <-]|done].
  - intros path route v y y' resp Hto. cbn [session_post site_io]. unfold site_post.
    assert (site_route ("https://api.test" +:+ path) = Some route) as -> by by destruct Hto.
    by intros [= <- <-].
  - intros p bucket key w w' url [= <-] Hb Hk. cbn [PresignPut site_presigner]. intros [= <- <-].
    split_and!; [done|done| |].
    + apply ascii_valid. unfold s3_url, is_ascii.
      assert (H1 : is_ascii bucket = true) by (revert Hb; by apply bytes_impl).
      assert (H2 : is_ascii (String "/" key) = true) by (cbn; revert Hk; by apply bytes_impl).
      unfold is_ascii in H1, H2. by rewrite !string_forallb_app, H1, H2.
    + cbn [put_target demo_site]. unfold site_target, s3_url. rewrite CutPrefix_app.
      cbn [mbind option_bind]. rewrite Cut_lacks; [done|]. revert Hb. by apply forallb_lacks.
  - intros url data headers y y' resp bucket key Ht. cbn [http_request site_io]. unfold site_put.
    cbn [put_target demo_site] in Ht. rewrite Ht. intros [= <- <-] _.
    cbn [files world objects demo_site fst snd]. split_and!; [done..|by rewrite decide_True|].
    intros b k Hne. by rewrite decide_False.
Qed.

Definition site_start : site_state :=
  (mkWorld (mkDB [demo_user "alice"] [mkKey "k" "alice" (HashAPIKey "k1") "default" 0 None] [] [] []) 0,
   λ _ _, None).

(** Two files, one with a number sign in its name, end up as a queued row. *)
Lemma submitted_files_are_what_runs_witness :
  let o := submit_simulation (new_client (λ _, None) "https://api.test/" None None None None)
             "24.1.0" (PV (JStr "runs/plant #2.idf")) (PV (JStr "w.epw")) (Some 2%Z) None site_start in
  ∃ row, row ∈ simulations (w_db (world demo_site o.1)) ∧ s_priority row = 2%Z ∧
    s_content_hash row = Some (py_content_hash (sha256_hex "Version,24.1;") (sha256_hex "LOCATION") "24.1.0") ∧
    fetched demo_site demo_bucket_runner (RIO := demo_io) (s_model_ref row) "Version,24.1;" o.1.
Proof.
  cbv zeta.
  destruct (submitted_files_are_what_runs (PU := demo_uuid) (RIO := demo_io) demo_site site_ticks site_server
    (λ _, None) "https://api.test/" "k1" demo_bucket_runner "24.1.0" "runs/plant #2.idf" "w.epw"
    (Some 2%Z) None site_start
    (JObj [("id", JStr "5b1c0f9e-0000-4000-8000-000000000001"); ("state", JStr "queued")]))
    as (model & weather & row & Hm & Hw & Hin & _ & _ & Hp & _ & Hh & Hf & _).
  - exact demo_site_laws.
  - exact demo_coherent.
  - discriminate.
  - reflexivity.
  - reflexivity.
  - repeat constructor.
  - reflexivity.
  - reflexivity.
  - discriminate.
  - vm_compute. reflexivity.
  - exists row. injection Hm as <-. injection Hw as <-. split_and!; [exact Hin|exact Hp|exact Hh|exact Hf].
Defined.

(** ** Two corners *)

(** The check of download_result compares texts: a name may leave the directory
    for one whose name starts like it. *)
Example download_leaves_its_directory :
  let local := path_normpath (path_join "out" (strip_leading_slashes "../out2/x")) in
  local = "out2/x" ∧
  HasPrefix (path_abspath "/home/me" local) (path_abspath "/home/me" "out") = true.
Proof. vm_compute. done. Qed.

(** With S3 credentials the file's own name is in the key, and a Runner reads
    only what is before a number sign. *)
Example direct_upload_is_not_found dest :
  storage_download (IO := demo_io) demo_bucket_runner (s3_ref "models" "uploads/d-plant #2.idf") dest =
  (let* _ := make_parent dest in download_file "acme-models" "uploads/d-plant " dest).
Proof.
  rewrite (download_accepted (LoadConfig demo_buckets) _ demo_coherent "model"); [done|].
  apply (bool_decide_unpack _). reflexivity.
Qed.
