(* ===== verification/Controller.v ===== *)
(** * api/v1 and internal/controller: the RunnerPool operator

    [reconcileDeployment], [reconcileScaledObject] and [Reconcile] of
    runnerpool_controller.go over the Kubernetes client interface ([Kube]): the
    reads and writes the code makes through controller-runtime, and client-go's
    RetryOnConflict.  resource.ParseQuantity and SetControllerReference are
    library functions ([KubeLib]).  Objects have the fields the code reads or
    writes; the object metadata the API server fills in is the resource
    version.  Log calls are dropped. *)
From S2P Require Import Prelude GoLib.
Local Open Scope string_scope.

(** ** api/v1/runnerpool_types.go *)
Record RunnerResources := mkResources { CPU : string; Memory : string }.

(** int32 fields. *)
Record RunnerPoolSpec := mkPoolSpec {
  EngineVersion : string;
  Image : string;
  Resources : RunnerResources;
  MinReplicas : Z;
  MaxReplicas : Z;
  DefaultUserConcurrency : Z;
}.

Record RunnerPoolStatus := mkPoolStatus { ReadyReplicas : Z; EligibleQueued : Z }.

Record RunnerPool := mkPool {
  Name : string;
  Namespace : string;
  Spec : RunnerPoolSpec;
  Status : RunnerPoolStatus;
}.

(** ** Kubernetes objects *)
Definition labels_t := gmap string string.
Definition object_key : Type := string * string.  (* namespace, name *)

Class KubeLib := {
  Quantity : Type;
  Toleration : Type;
  OwnerReference : Type;
  ParseQuantity : string → result string Quantity;
  SetControllerReference : RunnerPool → object_key → result string OwnerReference;
}.

(** An environment variable: a literal, or a field of the pod. *)
Inductive EnvVar := EnvValue (name value : string) | EnvField (name path : string).

Inductive kube_error := NotFound | Conflict | OtherError (msg : string).

(** How a reconcile fails, and at which step. *)
Inductive reconcile_error :=
  | ParseCPU (msg : string)
  | ParseMemory (msg : string)
  | OwnerError (msg : string)
  | ClientError (e : kube_error)
  | InDeployment (e : reconcile_error)
  | InScaledObject (e : reconcile_error).

Section objects.
Context {KL : KubeLib}.

Record Container := mkContainer {
  cName : string;
  cImage : string;
  cEnv : list EnvVar;
  cRequestCPU : Quantity;
  cRequestMemory : Quantity;
  cLimitMemory : Quantity;
}.

Record PodTemplateSpec := mkTemplate {
  tLabels : labels_t;
  tServiceAccountName : string;
  tTolerations : list Toleration;
  tContainers : list Container;
}.

Record Deployment := mkDeployment {
  dName : string;
  dNamespace : string;
  dLabels : labels_t;
  dOwner : option OwnerReference;
  dSelector : labels_t;
  dTemplate : PodTemplateSpec;
  dReplicas : option Z;
  dReadyReplicas : Z;
  dResourceVersion : string;
}.

Record Trigger := mkTrigger {
  gType : string;
  gConnectionFromEnv : string;
  gQuery : string;
  gTargetQueryValue : string;
}.

(** Only the fields the code writes.  What others add to the object, KEDA its
    finalizer and annotations, is replaced by an Update and has no place here. *)
Record ScaledObject := mkScaledObject {
  oName : string;
  oNamespace : string;
  oLabels : labels_t;
  oOwner : option OwnerReference;
  oScaleTargetRef : string;
  oMinReplicaCount : Z;
  oMaxReplicaCount : Z;
  oTriggers : list Trigger;
  oResourceVersion : string;
}.

Record RunnerPoolReconciler := mkReconciler {
  RunnerEnv : list EnvVar;
  RunnerServiceAccount : string;
  RunnerTolerations : list Toleration;
}.

(** ** The client *)
Class Kube (W : Type) := {
  GetPool : object_key → state_t W (result kube_error RunnerPool);
  GetDeployment : object_key → state_t W (result kube_error Deployment);
  CreateDeployment : Deployment → state_t W (result kube_error unit);
  UpdateDeployment : Deployment → state_t W (result kube_error unit);
  GetScaledObject : object_key → state_t W (result kube_error ScaledObject);
  CreateScaledObject : ScaledObject → state_t W (result kube_error unit);
  UpdateScaledObject : ScaledObject → state_t W (result kube_error unit);
  UpdatePoolStatus : RunnerPool → state_t W (result kube_error unit);
  RetryOnConflict : state_t W (result kube_error unit) → state_t W (result kube_error unit);
}.

(** ** Names, defaults and images *)
Definition orDefault (v def : Z) : Z := if (v <=? 0)%Z then def else v.

Definition resourceName (p : RunnerPool) : string := "runner-" +:+ Name p.
Definition deployKey (p : RunnerPool) : object_key := (Namespace p, resourceName p).

Definition runnerImageRepo : string := "ghcr.io/city-syntax/synergyplus-runner".

Definition runnerImage (p : RunnerPool) : string :=
  if decide (Image (Spec p) = "")
  then runnerImageRepo +:+ ":" +:+ EngineVersion (Spec p) else Image (Spec p).

(** ** The Deployment *)
Definition deployment_labels (p : RunnerPool) : labels_t :=
  list_to_map
    [("app.kubernetes.io/name", "synergyplus-runner");
     ("app.kubernetes.io/managed-by", "synergyplus-operator");
     ("synergyplus.io/pool", Name p);
     ("synergyplus.io/engine", EngineVersion (Spec p))].

Definition runner_env (r : RunnerPoolReconciler) (p : RunnerPool) : list EnvVar :=
  (RunnerEnv r ++
   [EnvValue "SP_ENGINE_VERSION" (EngineVersion (Spec p));
    EnvValue "SP_PER_USER_CAP" (pretty (orDefault (DefaultUserConcurrency (Spec p)) 50));
    EnvField "SP_RUNNER_ID" "metadata.name"])%list.

Definition desired_deployment (r : RunnerPoolReconciler) (p : RunnerPool)
    (cpu mem : Quantity) (owner : option OwnerReference) : Deployment :=
  mkDeployment (resourceName p) (Namespace p) (deployment_labels p) owner
    {[ "synergyplus.io/pool" := Name p ]}
    (mkTemplate (deployment_labels p) (RunnerServiceAccount r) (RunnerTolerations r)
       [mkContainer "runner" (runnerImage p) (runner_env r p) cpu mem mem])
    None 0 "".

(** existing with its labels, selector and template replaced *)
Definition merge_deployment (existing desired : Deployment) : Deployment :=
  mkDeployment (dName existing) (dNamespace existing) (dLabels desired) (dOwner existing)
    (dSelector desired) (dTemplate desired) (dReplicas existing) (dReadyReplicas existing)
    (dResourceVersion existing).

(** ** The ScaledObject *)
Definition eligible_query (p : RunnerPool) : string :=
  "SELECT count(*) FROM app.eligible_simulations('" +:+ EngineVersion (Spec p)
    +:+ "', " +:+ pretty (orDefault (DefaultUserConcurrency (Spec p)) 50) +:+ ")".

Definition desired_scaled_object (p : RunnerPool) (owner : option OwnerReference) :
    ScaledObject :=
  mkScaledObject (resourceName p) (Namespace p) {[ "synergyplus.io/pool" := Name p ]} owner
    (resourceName p) (MinReplicas (Spec p)) (orDefault (MaxReplicas (Spec p)) 200)
    [mkTrigger "postgresql" "DATABASE_URL" (eligible_query p) "1"] "".

Definition with_version (so : ScaledObject) (rv : string) : ScaledObject :=
  mkScaledObject (oName so) (oNamespace so) (oLabels so) (oOwner so) (oScaleTargetRef so)
    (oMinReplicaCount so) (oMaxReplicaCount so) (oTriggers so) rv.
End objects.

Section reconciler.
Context {KL : KubeLib} {W : Type} `{Kube W}.

Definition lift_client (m : state_t W (result kube_error unit)) :
    state_t W (result reconcile_error unit) :=
  r ← m;
  match r with
  | Ok _ => mret (Ok tt)
  | Err e => mret (Err (ClientError e))
  end.

(** One read-modify-write, the function RetryOnConflict is given. *)
Definition write_deployment (desired : Deployment) : state_t W (result kube_error unit) :=
  got ← GetDeployment (dNamespace desired, dName desired);
  match got with
  | Err NotFound => CreateDeployment desired
  | Err e => mret (Err e)
  | Ok existing => UpdateDeployment (merge_deployment existing desired)
  end.

Definition reconcileDeployment (r : RunnerPoolReconciler) (p : RunnerPool) :
    state_t W (result reconcile_error unit) :=
  let cpu := if decide (CPU (Resources (Spec p)) = "") then "1" else CPU (Resources (Spec p)) in
  let mem := if decide (Memory (Resources (Spec p)) = "") then "2Gi"
             else Memory (Resources (Spec p)) in
  match ParseQuantity cpu with
  | Err e => mret (Err (ParseCPU e))
  | Ok cpuQ =>
  match ParseQuantity mem with
  | Err e => mret (Err (ParseMemory e))
  | Ok memQ =>
  match SetControllerReference p (deployKey p) with
  | Err e => mret (Err (OwnerError e))
  | Ok owner =>
      lift_client (RetryOnConflict
        (write_deployment (desired_deployment r p cpuQ memQ (Some owner))))
  end
  end
  end.

Definition reconcileScaledObject (p : RunnerPool) : state_t W (result reconcile_error unit) :=
  match SetControllerReference p (deployKey p) with
  | Err e => mret (Err (OwnerError e))
  | Ok owner =>
      let so := desired_scaled_object p (Some owner) in
      got ← GetScaledObject (oNamespace so, oName so);
      match got with
      | Err NotFound => lift_client (CreateScaledObject so)
      | Err e => mret (Err (ClientError e))
      | Ok existing =>
          lift_client (UpdateScaledObject (with_version so (oResourceVersion existing)))
      end
  end.

(** The best-effort status update at the end of Reconcile. *)
Definition reflect_status (p : RunnerPool) : state_t W unit :=
  got ← GetDeployment (deployKey p);
  match got with
  | Err _ => mret tt
  | Ok dep =>
      if (ReadyReplicas (Status p) =? dReadyReplicas dep)%Z then mret tt
      else
        _ ← UpdatePoolStatus (mkPool (Name p) (Namespace p) (Spec p)
               (mkPoolStatus (dReadyReplicas dep) (EligibleQueued (Status p))));
        mret tt
  end.

Definition Reconcile (r : RunnerPoolReconciler) (req : object_key) :
    state_t W (result reconcile_error unit) :=
  got ← GetPool req;
  match got with
  | Err NotFound => mret (Ok tt)
  | Err e => mret (Err (ClientError e))
  | Ok pool =>
      dep ← reconcileDeployment r pool;
      match dep with
      | Err e => mret (Err (InDeployment e))
      | Ok _ =>
          so ← reconcileScaledObject pool;
          match so with
          | Err e => mret (Err (InScaledObject e))
          | Ok _ => _ ← reflect_status pool; mret (Ok tt)
          end
      end
  end.
End reconciler.
