(* ===== verification/Operator.v ===== *)
(** * cmd/operator/main.go: what the operator reads from its environment

    [newRunnerPoolReconciler] and its parts.  json.Unmarshal into a list of
    tolerations is a parameter ([TolerationJson]). *)
From S2P Require Import Prelude GoLib Controller.
Local Open Scope string_scope.

Definition Getenv (e : environ) (k : string) : string := default "" (e k).

Definition runner_env_keys : list string :=
  ["DATABASE_URL"; "S3_ENDPOINT"; "S3_REGION"; "S3_ACCESS_KEY"; "S3_SECRET_KEY";
   "S3_BUCKET_MODELS"; "S3_BUCKET_WEATHER"; "S3_BUCKET_RESULTS";
   "SP_LEASE_SECONDS"; "SP_HEARTBEAT_SECONDS"].

Definition runnerEnv (e : environ) : list EnvVar :=
  omap (λ k, EnvValue k <$> e k) runner_env_keys.

Definition runnerServiceAccount (e : environ) : string := Getenv e "SP_RUNNER_SERVICE_ACCOUNT".

Class TolerationJson {KL : KubeLib} :=
  unmarshal_tolerations : string → result string (list Toleration).

Section operator.
Context {KL : KubeLib} {TJ : TolerationJson}.

Definition parseTolerations (raw : string) : result string (list Toleration) :=
  if decide (raw = "") then Ok []
  else match unmarshal_tolerations raw with
  | Err e => Err ("parse SP_RUNNER_TOLERATIONS: " +:+ e)
  | Ok out => Ok out
  end.

(** [None]: the process has exited. *)
Definition runnerTolerations (e : environ) : option (list Toleration) :=
  match parseTolerations (Getenv e "SP_RUNNER_TOLERATIONS") with
  | Err _ => None
  | Ok out => Some out
  end.

Definition newRunnerPoolReconciler (e : environ) : option RunnerPoolReconciler :=
  tolerations ← runnerTolerations e;
  mret (mkReconciler (runnerEnv e) (runnerServiceAccount e) tolerations).
End operator.
