(* ===== verification/ControllerSpec.v ===== *)
(** * What the operator guarantees

    The scaler and the runners of a pool work with the same version and cap;
    the environment of a runner pod is the operator's; and what a reconcile
    writes, for any behaviour of the API server.

    The last is stated over [oracle] clients: every call is logged and answered
    by an arbitrary function of the calls so far, so the theorems hold for
    whatever other writers do to the objects in between. *)
From S2P Require Import Prelude GoLib PyLib PyConfig Sql Schema Rollup Lifecycle Controller Operator.
Local Open Scope string_scope.

(** ** Reading the trigger's query back

    The query PostgreSQL runs for KEDA, when its text is the one call of
    app.eligible_simulations with a string literal (no quote inside) and an
    integer; [None] for any other text. *)
Definition read_query (q : string) : option (string * Z) :=
  rest ← CutPrefix q "SELECT count(*) FROM app.eligible_simulations('";
  let '(version, after, found) := Cut rest "'" in
  if negb found then None
  else
    args ← CutPrefix after ", ";
    let '(num, tail, closed) := Cut args ")" in
    if negb closed || negb (String.eqb tail "") then None
    else cap ← Atoi num; mret (version, cap).

(** The number KEDA scales the pool on. *)
Definition keda_value (q : string) (db : DB) : option Z :=
  '(version, cap) ← read_query q; mret (eligible_depth version cap db).

(** The value of a variable in a pod's environment (a later entry wins). *)
Definition env_name (v : EnvVar) : string :=
  match v with EnvValue n _ | EnvField n _ => n end.

Fixpoint pod_env (vars : list EnvVar) (name : string) : option EnvVar :=
  match vars with
  | [] => None
  | v :: rest =>
      match pod_env rest name with
      | Some w => Some w
      | None => if String.eqb (env_name v) name then Some v else None
      end
  end.

(** os.environ in a pod of that name: the pod's variables over the image's.  The
    kubelet's expansion of $(NAME) in a value is left out: values without a dollar
    sign are passed on as they are. *)
Definition pod_environ (image : environ) (vars : list EnvVar) (pod : string) : environ := λ k,
  match pod_env vars k with
  | Some (EnvValue _ v) => Some v
  | Some (EnvField _ _) => Some pod     (* metadata.name, the only field used *)
  | None => image k
  end.

(** ** Facts *)
Lemma pod_env_app l k n v : pod_env k n = Some v → pod_env (l ++ k)%list n = Some v.
Proof. intros E. induction l as [|x l IH]; [done|]. simpl. by rewrite IH. Qed.

Lemma read_eligible_query p :
  lacks "'" (EngineVersion (Spec p)) = true → (DefaultUserConcurrency (Spec p) < 2 ^ 31)%Z →
  read_query (eligible_query p) =
  Some (EngineVersion (Spec p), orDefault (DefaultUserConcurrency (Spec p)) 50).
Proof.
  intros Hl Hc. unfold read_query, eligible_query.
  set (cap := orDefault (DefaultUserConcurrency (Spec p)) 50).
  assert (Hcap : (0 < cap < 2 ^ 31)%Z).
  { unfold cap, orDefault. destruct (Z.leb_spec (DefaultUserConcurrency (Spec p)) 0); lia. }
  rewrite CutPrefix_app. cbn [mbind option_bind]. str_norm. rewrite Cut_lacks by done.
  cbn [negb].
  pose proof (CutPrefix_app ", " (pretty cap +:+ ")")) as E. revert E. str_norm. intros ->.
  cbn [mbind option_bind]. rewrite Cut_lacks.
  - cbn [negb orb]. rewrite Atoi_pretty by lia. done.
  - unfold lacks. apply (string_forallb_impl is_digit); [|apply pretty_pos_digits; lia].
    intros c Hd. apply negb_true_iff, not_true_iff_false. intros <-%Ascii.eqb_eq.
    by vm_compute in Hd.
Qed.

(** ** Properties *)

(** C22: the scaler and the Runners of a pool are in lockstep (ADR-0005,
    ADR-0011).  For every pool whose engine version has no quote, a Runner that
    starts in a pod of the pool's Deployment, whatever its image and the
    operator's base environment set, claims for the version and with the cap
    that the KEDA trigger counts with: the trigger's query, read back from its
    text, evaluates to the eligible depth for the configuration of the Runner.
    The cap is at least 1, 50 when the spec leaves it unset; the Runner's id is
    its pod's name; and the ScaledObject targets the Deployment by its name. *)
Theorem scaler_and_runners_in_lockstep {KL : KubeLib} {PyU : PyUnicode} r p cpu mem owner db :
  lacks "'" (EngineVersion (Spec p)) = true →
  (- 2 ^ 31 <= DefaultUserConcurrency (Spec p) < 2 ^ 31)%Z →
  let d := desired_deployment r p cpu mem owner in
  let so := desired_scaled_object p owner in
  let cap := orDefault (DefaultUserConcurrency (Spec p)) 50 in
  (1 <= cap)%Z ∧ (DefaultUserConcurrency (Spec p) <= 0 → cap = 50)%Z ∧
  (0 < DefaultUserConcurrency (Spec p) → cap = DefaultUserConcurrency (Spec p))%Z ∧
  oScaleTargetRef so = dName d ∧ oNamespace so = dNamespace d ∧
  deployKey p = (dNamespace d, dName d) ∧
  ∃ c t, tContainers (dTemplate d) = [c] ∧ oTriggers so = [t] ∧
    ∀ image pod host cfg, from_env (pod_environ image (cEnv c) pod) host = Ok cfg →
      engine_version cfg = EngineVersion (Spec p) ∧ per_user_cap cfg = cap ∧
      (pod ≠ "" → runner_id cfg = pod) ∧
      keda_value (gQuery t) db = Some (eligible_depth (engine_version cfg) (per_user_cap cfg) db).
Proof.
  intros Hl Hc. cbv zeta. set (cap := orDefault (DefaultUserConcurrency (Spec p)) 50).
  assert (Hcap : (0 < cap < 2 ^ 31)%Z).
  { unfold cap, orDefault. destruct (Z.leb_spec (DefaultUserConcurrency (Spec p)) 0); lia. }
  split_and!; try done.
  - lia.
  - intros H. unfold cap, orDefault. by destruct (Z.leb_spec (DefaultUserConcurrency (Spec p)) 0); [|lia].
  - intros H. unfold cap, orDefault. by destruct (Z.leb_spec (DefaultUserConcurrency (Spec p)) 0); [lia|].
  - eexists _, _. split; [done|]. split; [done|]. cbn [cEnv gQuery].
    intros image pod host cfg (_ & _ & Ev & Ec & _ & Eid & _)%from_env_Ok.
    unfold pod_environ, env_nonempty, runner_env in *. fold cap in Ec.
    rewrite (pod_env_app _ _ _ (EnvValue "SP_ENGINE_VERSION" (EngineVersion (Spec p)))) in Ev by done.
    rewrite (pod_env_app _ _ _ (EnvValue "SP_PER_USER_CAP" (pretty cap))) in Ec by done.
    rewrite (pod_env_app _ _ _ (EnvField "SP_RUNNER_ID" "metadata.name")) in Eid by done.
    cbn [default id] in Ev, Ec. rewrite py_int_pretty in Ec by done. injection Ec as Ec.
    split; [done|]. split; [done|]. split.
    + intros Hpod. rewrite Eid. by rewrite decide_False.
    + unfold keda_value. rewrite read_eligible_query by (done || lia). cbn [mbind option_bind].
      fold cap. by rewrite Ev, Ec.
Qed.

(** ** Concrete libraries, for the witnesses *)
#[local] Instance demo_lib : KubeLib := {|
  Quantity := string; Toleration := string; OwnerReference := string;
  ParseQuantity := λ s, Ok s;
  SetControllerReference := λ p k, Ok (Name p);
|}.

Definition demo_pool : RunnerPool :=
  mkPool "eplus-24-1-0" "synergy" (mkPoolSpec "24.1.0" "" (mkResources "" "") 0 0 7)
    (mkPoolStatus 0 0).

#[local] Instance demo_digits : PyUnicode := λ s, s.

(** The environment of the image: src/runner/Dockerfile sets one variable. *)
Definition demo_image : environ := λ k,
  if String.eqb k "SP_WORKSPACE" then Some "/tmp/synergy-runner" else None.

Lemma scaler_and_runners_in_lockstep_witness :
  ∃ cfg, from_env (pod_environ demo_image
      (runner_env (mkReconciler [EnvValue "DATABASE_URL" "postgres://db"] "" []) demo_pool)
      "runner-eplus-24-1-0-abc12") "host" = Ok cfg ∧ runner_id cfg = "runner-eplus-24-1-0-abc12" ∧
    per_user_cap cfg = 7%Z ∧
    keda_value (eligible_query demo_pool) empty_db =
      Some (eligible_depth (engine_version cfg) (per_user_cap cfg) empty_db).
Proof.
  destruct (scaler_and_runners_in_lockstep (KL := demo_lib)
      (mkReconciler [EnvValue "DATABASE_URL" "postgres://db"] "" []) demo_pool
      ("1" : @Quantity demo_lib) ("2Gi" : @Quantity demo_lib) None empty_db)
    as (_ & _ & Hcap & _ & _ & _ & c & t & Ec & Et & H).
  - reflexivity.
  - split; [discriminate|reflexivity].
  - injection Ec as <-. injection Et as <-. cbn [cEnv gQuery] in H.
    destruct (from_env (pod_environ demo_image (runner_env (mkReconciler (KL := demo_lib)
      [EnvValue "DATABASE_URL" "postgres://db"] "" []) demo_pool)
      "runner-eplus-24-1-0-abc12") "host") as [cfg|e] eqn:E; [|vm_compute in E; discriminate E].
    destruct (H _ _ _ _ E) as (_ & Hc & Hid & Hk). exists cfg.
    split; [reflexivity|]. split; [by apply Hid|]. split; [rewrite Hc; by apply Hcap|exact Hk].
Defined.

(** ** Arbitrary API servers *)
Section oracle.
Context {KL : KubeLib}.

Inductive call :=
  | CGetPool (k : object_key)
  | CGetDeployment (k : object_key)
  | CCreateDeployment (d : Deployment)
  | CUpdateDeployment (d : Deployment)
  | CGetScaledObject (k : object_key)
  | CCreateScaledObject (so : ScaledObject)
  | CUpdateScaledObject (so : ScaledObject)
  | CUpdatePoolStatus (p : RunnerPool).

(** The calls so far, the newest first. *)
Definition log := list call.

(** What the API server answers, given the calls so far, and how client-go
    retries. *)
Record oracle := mkOracle {
  a_pool : log → result kube_error RunnerPool;
  a_deployment : log → result kube_error Deployment;
  a_scaled_object : log → result kube_error ScaledObject;
  a_write : log → result kube_error unit;
  a_retry : state_t log (result kube_error unit) → state_t log (result kube_error unit);
}.

Definition ask {A} (c : call) (answer : log → result kube_error A) :
    state_t log (result kube_error A) :=
  λ l, (c :: l, answer l).

#[export] Instance OracleKube (o : oracle) : Kube log := {|
  GetPool k := ask (CGetPool k) (a_pool o);
  GetDeployment k := ask (CGetDeployment k) (a_deployment o);
  CreateDeployment d := ask (CCreateDeployment d) (a_write o);
  UpdateDeployment d := ask (CUpdateDeployment d) (a_write o);
  GetScaledObject k := ask (CGetScaledObject k) (a_scaled_object o);
  CreateScaledObject so := ask (CCreateScaledObject so) (a_write o);
  UpdateScaledObject so := ask (CUpdateScaledObject so) (a_write o);
  UpdatePoolStatus p := ask (CUpdatePoolStatus p) (a_write o);
  RetryOnConflict := a_retry o;
|}.

(** retry.RetryOnConflict as documented: the function is run again while it
    fails with a conflict, [retries] times more at most. *)
Fixpoint attempts {W} (retries : nat) (fn : state_t W (result kube_error unit)) :
    state_t W (result kube_error unit) :=
  λ w, match fn w with
       | (w', Err Conflict) =>
           match retries with
           | O => (w', Err Conflict)
           | S n => attempts n fn w'
           end
       | r => r
       end.

Definition retries_conflicts (o : oracle) (retries : nat) : Prop :=
  ∀ fn l, a_retry o fn l = attempts retries fn l.

(** The calls of a reconcile of [desired], made after [base]: reads of the one
    Deployment; creations of the desired object after a read that found none;
    and updates that carry the object just read with nothing but the labels,
    selector and template changed. *)
Fixpoint sound_writes (o : oracle) (desired : Deployment) (base calls : log) : Prop :=
  match calls with
  | [] => True
  | CGetDeployment k :: rest =>
      k = (dNamespace desired, dName desired) ∧ sound_writes o desired base rest
  | CCreateDeployment d :: rest =>
      d = desired ∧ dReplicas d = None ∧
      (∃ k older, rest = CGetDeployment k :: older ∧
         a_deployment o (older ++ base)%list = Err NotFound) ∧
      sound_writes o desired base rest
  | CUpdateDeployment d :: rest =>
      (∃ k older existing, rest = CGetDeployment k :: older ∧
         a_deployment o (older ++ base)%list = Ok existing ∧
         (dReplicas d, dOwner d, dResourceVersion d, dName d, dNamespace d) =
         (dReplicas existing, dOwner existing, dResourceVersion existing, dName existing,
          dNamespace existing) ∧
         (dLabels d, dSelector d, dTemplate d) =
         (dLabels desired, dSelector desired, dTemplate desired)) ∧
      sound_writes o desired base rest
  | _ => False
  end.

Definition is_get (c : call) : bool :=
  match c with CGetDeployment _ => true | _ => false end.

Definition reads (l : log) : nat := length (List.filter is_get l).

Lemma write_deployment_sound o desired base calls :
  dReplicas desired = None → sound_writes o desired base calls →
  let '(l, res) := write_deployment (W := log) (H := OracleKube o) desired (calls ++ base)%list in
  ∃ calls', l = (calls' ++ base)%list ∧ sound_writes o desired base calls' ∧
    reads calls' = S (reads calls) ∧ length calls' <= length calls + 2 ∧
    (res = Ok tt → ∃ d older, a_write o older = Ok tt ∧ dTemplate d = dTemplate desired ∧
       (l = CUpdateDeployment d :: older ∨ l = CCreateDeployment d :: older)).
Proof.
  intros Hd Hs. unfold write_deployment. rewrite state_bind_run.
  cbn [GetDeployment OracleKube ask fst snd].
  destruct (a_deployment o (calls ++ base)%list) as [ex|[]] eqn:E;
    cbn [UpdateDeployment CreateDeployment OracleKube ask mret state_ret].
  - eexists (CUpdateDeployment (merge_deployment ex desired) :: CGetDeployment _ :: calls).
    split; [done|]. split; [|split; [done|split; [simpl; lia|]]].
    + cbn [sound_writes]. split; [|done]. by eexists _, calls, ex.
    + intros Hw. eexists (merge_deployment ex desired), _.
      split; [exact Hw|]. split; [done|by left].
  - eexists (CCreateDeployment desired :: CGetDeployment _ :: calls).
    split; [done|]. split; [|split; [done|split; [simpl; lia|]]].
    + cbn [sound_writes]. split_and!; try done. by eexists _, calls.
    + intros Hw. eexists desired, _. split; [exact Hw|]. split; [done|by right].
  - eexists (CGetDeployment _ :: calls). split_and!; try done. simpl. lia.
  - eexists (CGetDeployment _ :: calls). split_and!; try done. simpl. lia.
Qed.

Lemma attempts_sound o desired base retries : ∀ calls,
  dReplicas desired = None → sound_writes o desired base calls →
  let '(l, res) := attempts retries (write_deployment (W := log) (H := OracleKube o) desired)
                     (calls ++ base)%list in
  ∃ calls', l = (calls' ++ base)%list ∧ sound_writes o desired base calls' ∧
    length calls' <= length calls + 2 * S retries ∧
    (res = Err Conflict → reads calls' = S retries + reads calls) ∧
    (res = Ok tt → ∃ d older, a_write o older = Ok tt ∧ dTemplate d = dTemplate desired ∧
       (l = CUpdateDeployment d :: older ∨ l = CCreateDeployment d :: older)).
Proof.
  induction retries as [|n IH]; intros calls Hd Hs; cbn [attempts];
    pose proof (write_deployment_sound o desired base calls Hd Hs) as H;
    destruct (write_deployment (W := log) (H := OracleKube o) desired (calls ++ base)%list) as [l res];
    destruct H as (calls' & -> & Hs' & Hr & Hl & Hok).
  - destruct res as [[]|[]]; exists calls'; split_and!; try done; lia.
  - assert (Hdone : res ≠ Err Conflict → ∃ calls'0, (calls' ++ base)%list = (calls'0 ++ base)%list ∧
      sound_writes o desired base calls'0 ∧ length calls'0 <= length calls + 2 * S (S n) ∧
      (res = Err Conflict → reads calls'0 = S (S n) + reads calls) ∧
      (res = Ok tt → ∃ d older, a_write o older = Ok tt ∧ dTemplate d = dTemplate desired ∧
         ((calls' ++ base)%list = CUpdateDeployment d :: older ∨
          (calls' ++ base)%list = CCreateDeployment d :: older))).
    { intros Hne. exists calls'. split_and!; try done. lia. }
    destruct res as [[]|[]]; try (by apply Hdone).
    specialize (IH calls' Hd Hs'). destruct (attempts n _ _) as [l2 res2].
    destruct IH as (calls2 & -> & Hs2 & Hl2 & Hr2 & Hok2).
    exists calls2. split_and!; try done; [lia|]. intros Hc. rewrite (Hr2 Hc). lia.
Qed.
End oracle.

(** What a reconcile of the Deployment calls and answers. *)
Lemma reconcileDeployment_sound {KL : KubeLib} o retries r p base cpu mem owner :
  retries_conflicts o retries →
  ParseQuantity (if decide (CPU (Resources (Spec p)) = "") then "1"
                 else CPU (Resources (Spec p))) = Ok cpu →
  ParseQuantity (if decide (Memory (Resources (Spec p)) = "") then "2Gi"
                 else Memory (Resources (Spec p))) = Ok mem →
  SetControllerReference p (deployKey p) = Ok owner →
  let desired := desired_deployment r p cpu mem (Some owner) in
  let '(l, res) := reconcileDeployment (W := log) (H := OracleKube o) r p base in
  ∃ calls, l = (calls ++ base)%list ∧ sound_writes o desired base calls ∧
    length calls <= 2 * S retries ∧
    (res = Err (ClientError Conflict) → reads calls = S retries) ∧
    (res = Ok tt → ∃ d older, a_write o older = Ok tt ∧ dTemplate d = dTemplate desired ∧
       (l = CUpdateDeployment d :: older ∨ l = CCreateDeployment d :: older)).
Proof.
  intros Hr Hc Hm Ho. cbv zeta. unfold reconcileDeployment. rewrite Hc, Hm, Ho.
  unfold lift_client. rewrite state_bind_run. cbn [RetryOnConflict OracleKube]. rewrite !Hr.
  pose proof (attempts_sound o (desired_deployment r p cpu mem (Some owner)) base retries []
    eq_refl I) as H. cbn [app] in H.
  destruct (attempts _ _ base) as [l res]. destruct H as (calls & -> & Hs & Hl & Hconf & Hok).
  cbn [fst snd]. destruct res as [[]|e]; cbn [mret state_ret]; exists calls.
  - split_and!; try done. intros _. by apply Hok.
  - split_and!; try done. intros [= ->]. rewrite Hconf by done. unfold reads. simpl. lia.
Qed.

(** The calls and the answer of the ScaledObject's half, made after [base]: one
    read and then one write, of the whole object, with the version just read
    when there is one; nothing is tried again. *)
Definition scaled_object_calls {KL : KubeLib} (o : oracle) (so : ScaledObject) (base : log) :
    log * result kube_error unit :=
  let get := CGetScaledObject (oNamespace so, oName so) in
  match a_scaled_object o base with
  | Ok existing =>
      ([CUpdateScaledObject (with_version so (oResourceVersion existing)); get],
       a_write o (get :: base))
  | Err NotFound => ([CCreateScaledObject so; get], a_write o (get :: base))
  | Err e => ([get], Err e)
  end.

(** The calls of the status update: a read, and a write when the count of ready
    replicas read is another one, of the pool with that count. *)
Definition status_calls {KL : KubeLib} (o : oracle) (p : RunnerPool) (base : log) : log :=
  match a_deployment o base with
  | Ok dep =>
      if (ReadyReplicas (Status p) =? dReadyReplicas dep)%Z then [CGetDeployment (deployKey p)]
      else [CUpdatePoolStatus (mkPool (Name p) (Namespace p) (Spec p)
              (mkPoolStatus (dReadyReplicas dep) (EligibleQueued (Status p))));
            CGetDeployment (deployKey p)]
  | Err _ => [CGetDeployment (deployKey p)]
  end.

Lemma reconcileScaledObject_calls {KL : KubeLib} o p owner base :
  SetControllerReference p (deployKey p) = Ok owner →
  let so := desired_scaled_object p (Some owner) in
  reconcileScaledObject (W := log) (H := OracleKube o) p base =
  let '(calls, res) := scaled_object_calls o so base in
  ((calls ++ base)%list, match res with Ok _ => Ok tt | Err e => Err (ClientError e) end).
Proof.
  intros Ho. cbv zeta. unfold reconcileScaledObject, scaled_object_calls. rewrite Ho. cbv zeta.
  rewrite state_bind_run. cbn [GetScaledObject OracleKube ask fst snd].
  destruct (a_scaled_object o base) as [ex|[]]; [| |done|done]; unfold lift_client;
    rewrite state_bind_run; cbn [UpdateScaledObject CreateScaledObject OracleKube ask fst snd];
    by destruct (a_write o _) as [[]|].
Qed.

Lemma reflect_status_calls {KL : KubeLib} o p base :
  reflect_status (W := log) (H := OracleKube o) p base = ((status_calls o p base ++ base)%list, tt).
Proof.
  unfold reflect_status, status_calls. rewrite state_bind_run.
  cbn [GetDeployment OracleKube ask fst snd]. destruct (a_deployment o base) as [dep|e]; [|done].
  by destruct (_ =? _)%Z.
Qed.

(** C23: a reconcile neither fights the autoscaler nor hides a failure.  However
    the API server answers, the calls of a Reconcile are: those of the
    Deployment, each a read of that one object or a write after such a read, an
    update carrying the object as just read, its replicas, owner, name and
    version included, with the labels, selector and template of the spec, and a
    creation leaving replicas unset, so KEDA's replicas are never written; then,
    only when the last of these was a write that was accepted, one read and one
    write of the ScaledObject the spec says; then, only when that was accepted,
    the update of the pool's status, which leaves its spec alone and whose
    failure does not matter.  The answer is an error exactly when one of the
    first two failed, and says which; a conflict of the Deployment is only
    reported after the write has been tried, from a fresh read each time, once
    more than the number of retries. *)
Theorem reconcile_writes_are_sound {KL : KubeLib} o retries r req p base cpu mem owner :
  retries_conflicts o retries → a_pool o base = Ok p →
  ParseQuantity (if decide (CPU (Resources (Spec p)) = "") then "1"
                 else CPU (Resources (Spec p))) = Ok cpu →
  ParseQuantity (if decide (Memory (Resources (Spec p)) = "") then "2Gi"
                 else Memory (Resources (Spec p))) = Ok mem →
  SetControllerReference p (deployKey p) = Ok owner →
  let desired := desired_deployment r p cpu mem (Some owner) in
  let start := CGetPool req :: base in
  let '(l, res) := Reconcile (W := log) (H := OracleKube o) r req base in
  ∃ calls, sound_writes o desired start calls ∧ length calls <= 2 * S retries ∧
    let l1 := (calls ++ start)%list in
    let '(so_calls, so_res) := scaled_object_calls o (desired_scaled_object p (Some owner)) l1 in
    let l2 := (so_calls ++ l1)%list in
    match res with
    | Err (InDeployment e) => l = l1 ∧ (e = ClientError Conflict → reads calls = S retries)
    | Err (InScaledObject (ClientError e)) => l = l2 ∧ so_res = Err e
    | Err _ => False
    | Ok _ => l = (status_calls o p l2 ++ l2)%list ∧ so_res = Ok tt
    end ∧
    ((∀ e, res ≠ Err (InDeployment e)) → ∃ d older, a_write o older = Ok tt ∧
       dTemplate d = dTemplate desired ∧
       (l1 = CUpdateDeployment d :: older ∨ l1 = CCreateDeployment d :: older)).
Proof.
  intros Hr Hp Hc Hm Ho. cbv zeta. unfold Reconcile. rewrite state_bind_run.
  cbn [GetPool OracleKube ask fst snd]. rewrite Hp, state_bind_run.
  pose proof (reconcileDeployment_sound o retries r p (CGetPool req :: base) cpu mem owner
    Hr Hc Hm Ho) as H. cbv zeta in H.
  destruct (reconcileDeployment _ _ _) as [l1 dep].
  destruct H as (calls & -> & Hs & Hl & Hconf & Hok). cbn [fst snd].
  destruct dep as [[]|e].
  - rewrite state_bind_run, (reconcileScaledObject_calls _ _ owner) by done.
    destruct (scaled_object_calls _ _ _) as [so_calls so_res] eqn:Eso. cbn [fst snd].
    destruct so_res as [[]|e].
    + rewrite state_bind_run, reflect_status_calls. cbn [fst snd mret state_ret].
      exists calls. rewrite Eso. split_and!; try done. intros _. by apply Hok.
    + cbn [mret state_ret]. exists calls. rewrite Eso. split_and!; try done. intros _. by apply Hok.
  - cbn [mret state_ret]. exists calls. destruct (scaled_object_calls _ _ _) as [so_calls so_res].
    split_and!; try done; [by intros ->; apply Hconf|]. intros H. by destruct (H e).
Qed.

(** An API server whose first two updates lose the race against KEDA. *)
Definition demo_existing (replicas : Z) : @Deployment demo_lib :=
  mkDeployment "runner-eplus-24-1-0" "synergy" ∅ None ∅ (mkTemplate ∅ "" [] [])
    (Some replicas) 0 "42".

Definition demo_oracle : @oracle demo_lib :=
  mkOracle (λ _, Ok demo_pool) (λ l, Ok (demo_existing (Z.of_nat (length l))))
    (λ _, Err NotFound)
    (λ l, if (length l <? 6)%nat then Err Conflict else Ok tt) (attempts 4).

Lemma reconcile_writes_are_sound_witness :
  let run := Reconcile (H := OracleKube demo_oracle) (mkReconciler [] "" []) ("synergy", "eplus-24-1-0") [] in
  run.2 = Ok tt ∧ ∃ calls d older, length calls <= 10 ∧ a_write demo_oracle older = Ok tt ∧
    ((calls ++ [CGetPool ("synergy", "eplus-24-1-0")])%list = CUpdateDeployment d :: older ∨
     (calls ++ [CGetPool ("synergy", "eplus-24-1-0")])%list = CCreateDeployment d :: older).
Proof.
  intros run.
  pose proof (reconcile_writes_are_sound demo_oracle 4 (mkReconciler (KL := demo_lib) [] "" [])
    ("synergy", "eplus-24-1-0") demo_pool []
    ("1" : @Quantity demo_lib) ("2Gi" : @Quantity demo_lib)
    ("eplus-24-1-0" : @OwnerReference demo_lib)
    (λ fn l, eq_refl) eq_refl eq_refl eq_refl eq_refl) as H.
  cbv zeta in H. fold run in H.
  assert (Er : run.2 = Ok tt) by (vm_compute; reflexivity).
  split; [exact Er|]. clearbody run. destruct run as [l res].
  destruct H as (calls & _ & Hl & H). exists calls.
  destruct (scaled_object_calls _ _ _) as [so_calls so_res]. destruct H as [_ H].
  cbn [snd] in Er. subst res. destruct H as (d & older & Hw & _ & Hd); [discriminate|].
  exists d, older. split; [exact Hl|]. split; [exact Hw|exact Hd].
Defined.

(** ** The Runner's environment *)
Lemma pod_env_elem vars v :
  NoDup (map env_name vars) → v ∈ vars → pod_env vars (env_name v) = Some v.
Proof.
  intros Hnd Hv. induction Hv as [v vars|v w vars Hv IH]; cbn [pod_env map] in *;
    inversion_clear Hnd as [|?? Hx Hnd'].
  - assert (E : pod_env vars (env_name v) = None).
    { clear -Hx. induction vars as [|x vars IH]; cbn [pod_env map] in *; [done|].
      apply not_elem_of_cons in Hx as [Hne Hx]. rewrite IH by done.
      by rewrite (proj2 (String.eqb_neq _ _)). }
    by rewrite E, String.eqb_refl.
  - by rewrite IH.
Qed.

Lemma pod_env_Some vars n v : pod_env vars n = Some v → v ∈ vars ∧ env_name v = n.
Proof.
  induction vars as [|x vars IH]; cbn [pod_env]; [done|].
  destruct (pod_env vars n) as [w|].
  - intros [= ->]. destruct IH as [? ?]; [done|]. split; [by right|done].
  - destruct (String.eqb_spec (env_name x) n); [|done]. intros [= ->]. split; [left|done].
Qed.

Lemma runnerEnv_names e keys :
  map env_name (omap (λ k, EnvValue k <$> e k) keys) =
  List.filter (λ k, match e k with Some _ => true | None => false end) keys.
Proof.
  induction keys as [|k keys IH]; [done|].
  cbn [omap list_omap List.filter map]. fold (omap (λ k, EnvValue k <$> e k) keys).
  destruct (e k) as [v|]; simpl; by rewrite IH.
Qed.

Lemma NoDup_list_filter {A} (p : A → bool) l : NoDup l → NoDup (List.filter p l).
Proof.
  induction 1 as [|x l Hx Hl IH]; cbn [List.filter]; [constructor|].
  destruct (p x); [|done]. constructor; [|done]. rewrite elem_of_filter. tauto.
Qed.

Lemma runner_env_names {KL : KubeLib} {TJ : TolerationJson} e r p :
  newRunnerPoolReconciler e = Some r → NoDup (map env_name (runner_env r p)).
Proof.
  unfold newRunnerPoolReconciler, runnerTolerations.
  destruct (parseTolerations _) as [tol|]; [|done]. cbn [mbind option_bind].
  intros [= <-]. unfold runner_env, runnerEnv. cbn [RunnerEnv].
  rewrite map_app, runnerEnv_names. cbn [map env_name]. apply NoDup_app. split_and!.
  - apply NoDup_list_filter. apply (bool_decide_unpack _). reflexivity.
  - intros x [Hx _]%elem_of_filter Hy.
    assert (Hdis : bool_decide (Forall (λ k, k ∉ ["SP_ENGINE_VERSION"; "SP_PER_USER_CAP"; "SP_RUNNER_ID"])
      runner_env_keys) = true) by reflexivity.
    apply bool_decide_eq_true, Forall_forall with (x := x) in Hdis; done.
  - apply (bool_decide_unpack _). reflexivity.
Qed.

Lemma RunnerEnv_of {KL : KubeLib} {TJ : TolerationJson} e r :
  newRunnerPoolReconciler e = Some r → RunnerEnv r = runnerEnv e.
Proof.
  unfold newRunnerPoolReconciler, runnerTolerations.
  destruct (parseTolerations _) as [tol|]; [|done]. by intros [= <-].
Qed.

Lemma runner_env_base {KL : KubeLib} {TJ : TolerationJson} e r p k v :
  newRunnerPoolReconciler e = Some r → k ∈ runner_env_keys →
  pod_env (runner_env r p) k = Some v ↔ ∃ t, e k = Some t ∧ v = EnvValue k t.
Proof.
  intros E Hk. pose proof (runner_env_names e r p E) as Hnd.
  pose proof (RunnerEnv_of e r E) as Hr.
  split.
  - intros (Hv & En)%pod_env_Some. unfold runner_env in Hv.
    apply elem_of_app in Hv as [Hv|Hv].
    + rewrite Hr in Hv. apply list_elem_of_omap in Hv as (k' & _ & Ek').
      destruct (e k') as [t|] eqn:Et; [|done]. injection Ek' as <-. simpl in En. subst k'. eauto.
    + exfalso. assert (Hdis : bool_decide (Forall (λ k, k ∉ ["SP_ENGINE_VERSION";
         "SP_PER_USER_CAP"; "SP_RUNNER_ID"]) runner_env_keys) = true) by reflexivity.
      apply bool_decide_eq_true, Forall_forall with (x := k) in Hdis; [|done].
      apply Hdis. rewrite <-En. apply (elem_of_map_1 env_name) in Hv. exact Hv.
  - intros (t & Et & ->). apply (pod_env_elem _ (EnvValue k t)); [done|].
    unfold runner_env. rewrite Hr. apply elem_of_app. left.
    apply list_elem_of_omap. exists k. by rewrite Et.
Qed.

(** A variable the pod does not get, or gets from the operator. *)
Lemma pod_environ_base {KL : KubeLib} {TJ : TolerationJson} e r p image pod k :
  newRunnerPoolReconciler e = Some r → k ∈ runner_env_keys → image k = None →
  pod_environ image (runner_env r p) pod k = e k.
Proof.
  intros E Hk Hi. pose proof (λ v, runner_env_base e r p k v E Hk) as H. unfold pod_environ.
  destruct (pod_env (runner_env r p) k) as [v|].
  - destruct (proj1 (H v) eq_refl) as (t & -> & ->). done.
  - rewrite Hi. destruct (e k) as [t|]; [|done].
    discriminate (proj2 (H (EnvValue k t)) (ex_intro _ t (conj eq_refl eq_refl))).
Qed.

Lemma pod_environ_other {KL : KubeLib} {TJ : TolerationJson} e r p image pod k :
  newRunnerPoolReconciler e = Some r → image k = None →
  k ∉ "SP_ENGINE_VERSION" :: "SP_PER_USER_CAP" :: "SP_RUNNER_ID" :: runner_env_keys →
  pod_environ image (runner_env r p) pod k = None.
Proof.
  intros E Hi Hk. unfold pod_environ.
  destruct (pod_env (runner_env r p) k) as [v|] eqn:Ev; [|done]. exfalso. apply Hk.
  apply pod_env_Some in Ev as [Hv <-]. unfold runner_env in Hv. apply elem_of_app in Hv as [Hv|Hv].
  - rewrite (RunnerEnv_of e r E) in Hv. apply list_elem_of_omap in Hv as (k' & Hk' & Ek').
    destruct (e k') as [t|]; [|done]. injection Ek' as <-. cbn [env_name]. by do 3 right.
  - repeat (apply elem_of_cons in Hv as [->|Hv]); cbn [env_name];
      [left|right; left|do 2 right; left|by apply not_elem_of_nil in Hv].
Qed.

(** The variables whose defaults a Runner of a pool uses. *)
Definition unset_keys : list string :=
  ["SP_ARTIFACT_TTL_DAYS"; "SP_POLL_SECONDS"; "SP_FETCH_ATTEMPTS"; "SP_FETCH_RETRY_SECONDS"].

(** The three variables a pod has of its pool. *)
Lemma pod_environ_own {KL : KubeLib} {PyU : PyUnicode} r p image pod :
  (- 2 ^ 31 <= DefaultUserConcurrency (Spec p) < 2 ^ 31)%Z →
  let env := pod_environ image (runner_env r p) pod in
  env "SP_ENGINE_VERSION" = Some (EngineVersion (Spec p)) ∧ env "SP_RUNNER_ID" = Some pod ∧
  py_int (default "50" (env "SP_PER_USER_CAP")) =
    Some (orDefault (DefaultUserConcurrency (Spec p)) 50).
Proof.
  intros Hc. cbv zeta. unfold pod_environ, runner_env. split_and!.
  - by rewrite (pod_env_app _ _ _ (EnvValue "SP_ENGINE_VERSION" (EngineVersion (Spec p)))).
  - by rewrite (pod_env_app _ _ _ (EnvField "SP_RUNNER_ID" "metadata.name")).
  - rewrite (pod_env_app _ _ _
      (EnvValue "SP_PER_USER_CAP" (pretty (orDefault (DefaultUserConcurrency (Spec p)) 50)))) by done.
    cbn [default id]. apply py_int_pretty. unfold orDefault.
    destruct (Z.leb_spec (DefaultUserConcurrency (Spec p)) 0); lia.
Qed.

(** What it has of the operator, and what it has not at all. *)
Lemma pod_environ_of {KL : KubeLib} {TJ : TolerationJson} e r p image pod :
  newRunnerPoolReconciler e = Some r →
  Forall (λ k, image k = None) (runner_env_keys ++ unset_keys)%list →
  let env := pod_environ image (runner_env r p) pod in
  Forall (λ k, env k = e k) runner_env_keys ∧ Forall (λ k, env k = None) unset_keys.
Proof.
  intros E [Hi Hi']%Forall_app. cbv zeta. split; apply Forall_forall; intros k Hk.
  - eapply pod_environ_base; [done|done|]. revert k Hk. by apply Forall_forall.
  - eapply pod_environ_other; [done| |].
    + revert k Hk. by apply Forall_forall.
    + revert k Hk. apply Forall_forall. apply (bool_decide_unpack _). reflexivity.
Qed.

(** C39: what a Runner of a pool is configured with.  The operator starts unless
    SP_RUNNER_TOLERATIONS is set and malformed.  The pods of its pools get each
    of the ten base variables exactly when the operator has it, with the same
    value, no name occurring twice.  A Runner in such a pod, of an image that
    leaves the variables alone, starts exactly when the operator has a
    DATABASE_URL and its lease and heartbeat seconds are numbers or unset; it
    then has the operator's lease and bucket names, the pool's version and cap,
    the pod's name as its id, and no artifact retention, whatever the operator's
    SP_ARTIFACT_TTL_DAYS says. *)
Theorem runner_pod_environment {KL : KubeLib} {TJ : TolerationJson} {PyU : PyUnicode} e p image pod host :
  (- 2 ^ 31 <= DefaultUserConcurrency (Spec p) < 2 ^ 31)%Z →
  Forall (λ k, image k = None) (runner_env_keys ++ unset_keys)%list → pod ≠ "" →
  match newRunnerPoolReconciler e with
  | None => Getenv e "SP_RUNNER_TOLERATIONS" ≠ "" ∧
      ∃ err, unmarshal_tolerations (Getenv e "SP_RUNNER_TOLERATIONS") = Err err
  | Some r =>
      NoDup (map env_name (runner_env r p)) ∧
      (∀ k v, k ∈ runner_env_keys →
         pod_env (runner_env r p) k = Some v ↔ ∃ t, e k = Some t ∧ v = EnvValue k t) ∧
      let run := from_env (pod_environ image (runner_env r p) pod) host in
      ((∃ cfg, run = Ok cfg) ↔
         is_Some (env_nonempty e "DATABASE_URL") ∧
         is_Some (py_int (default "90" (e "SP_LEASE_SECONDS"))) ∧
         is_Some (py_int (default "30" (e "SP_HEARTBEAT_SECONDS")))) ∧
      ∀ cfg, run = Ok cfg →
        engine_version cfg = EngineVersion (Spec p) ∧
        per_user_cap cfg = orDefault (DefaultUserConcurrency (Spec p)) 50 ∧ runner_id cfg = pod ∧
        py_int (default "90" (e "SP_LEASE_SECONDS")) = Some (lease_seconds cfg) ∧
        bucket_models cfg = default "models" (e "S3_BUCKET_MODELS") ∧
        bucket_weather cfg = default "weather" (e "S3_BUCKET_WEATHER") ∧
        bucket_results cfg = default "results" (e "S3_BUCKET_RESULTS") ∧
        artifact_ttl_days cfg = None
  end.
Proof.
  intros Hc Hi Hpod. destruct (newRunnerPoolReconciler e) as [r|] eqn:E.
  2: { revert E. unfold newRunnerPoolReconciler, runnerTolerations, parseTolerations.
    destruct (decide _) as [|Hne]; [done|].
    destruct (unmarshal_tolerations _) as [out|err]; [done|]. eauto. }
  split; [by eapply runner_env_names|].
  split; [intros k v Hk; by apply (runner_env_base e)|]. cbv zeta.
  pose proof (pod_environ_of e r p image pod E Hi) as [Hbase Hunset].
  pose proof (pod_environ_own r p image pod Hc) as (Hver & Hid & Hcap).
  set (env := pod_environ image (runner_env r p) pod) in *.
  unfold runner_env_keys in Hbase. rewrite !Forall_cons in Hbase.
  unfold unset_keys in Hunset. rewrite !Forall_cons in Hunset.
  destruct Hbase as (Edb & _ & _ & _ & _ & Em & Ew & Er & El & Eh & _).
  destruct Hunset as (Ht & Hp & Ha & Hs & _).
  unfold env_nonempty. rewrite <-Edb, <-El, <-Eh, <-Em, <-Ew, <-Er.
  fold (env_nonempty env "DATABASE_URL"). split; [split|].
  - intros [cfg Ecfg]. pose proof (from_env_needs _ _ _ Ecfg) as Hh.
    apply from_env_Ok in Ecfg as (-> & _ & _ & _ & -> & _). by split_and!.
  - intros (H1 & H2 & H3). by apply from_env_starts.
  - intros cfg (_ & Ettl & -> & Ec & -> & -> & -> & -> & ->)%from_env_Ok.
    rewrite Hver, Hcap in *. injection Ec as <-. unfold env_nonempty. rewrite Hid.
    rewrite decide_False by done. split_and!; try done.
    unfold env_ttl, env_nonempty in Ettl. rewrite Ht in Ettl. by injection Ettl as <-.
Qed.

Definition demo_tolerations : TolerationJson (KL := demo_lib) := λ _, Ok [].

(** An operator that forgot nothing but asks for a retention of thirty days. *)
Definition demo_operator : environ := λ k,
  if String.eqb k "DATABASE_URL" then Some "postgres://db"
  else if String.eqb k "SP_ARTIFACT_TTL_DAYS" then Some "30" else None.

Lemma runner_pod_environment_witness :
  ∃ r cfg, newRunnerPoolReconciler (TJ := demo_tolerations) demo_operator = Some r ∧
    from_env (pod_environ demo_image (runner_env r demo_pool) "runner-a") "host" = Ok cfg ∧
    per_user_cap cfg = 7%Z ∧ artifact_ttl_days cfg = None.
Proof.
  pose proof (runner_pod_environment (TJ := demo_tolerations) demo_operator demo_pool demo_image
    "runner-a" "host") as H.
  assert (H1 : (- 2 ^ 31 <= DefaultUserConcurrency (Spec demo_pool) < 2 ^ 31)%Z)
    by (split; [discriminate|reflexivity]).
  assert (H2 : Forall (λ k, demo_image k = None) (runner_env_keys ++ unset_keys)%list)
    by (repeat constructor).
  specialize (H H1 H2 ltac:(discriminate)).
  destruct (newRunnerPoolReconciler (TJ := demo_tolerations) demo_operator) as [r|] eqn:E;
    [|discriminate E].
  destruct H as (_ & _ & [_ Hs] & Hf).
  destruct Hs as [cfg Ec]; [by split_and!; eexists|].
  destruct (Hf cfg Ec) as (_ & Hcap & _ & _ & _ & _ & _ & Ht).
  exists r, cfg. split; [reflexivity|]. split; [exact Ec|]. split; [exact Hcap|exact Ht].
Defined.
