(* ===== verification/ConvergeSpec.v ===== *)
(** * Reconcile converges

    Over an API server that behaves as documented ([KubeServer]: reads see what is
    stored; a write is refused unless it carries the stored resource version; a
    Deployment's selector is immutable; a write that changes nothing stores
    nothing; status is a resource of its own) and while nobody else writes, one
    Reconcile brings a pool's objects to what its spec says from whatever state
    they were in, and the next one changes nothing.  [Sim] is such a server. *)
From S2P Require Import Prelude GoLib Controller ControllerSpec.
Local Open Scope string_scope.

(** ** The objects of a cluster *)
Section cluster.
Context {KL : KubeLib}.

Record Cluster := mkCluster {
  pools : gmap object_key RunnerPool;
  deployments : gmap object_key Deployment;
  scaled : gmap object_key ScaledObject;
}.

Definition pool_key (p : RunnerPool) : object_key := (Namespace p, Name p).
Definition dep_key (d : Deployment) : object_key := (dNamespace d, dName d).
Definition so_key (so : ScaledObject) : object_key := (oNamespace so, oName so).

Definition set_pool (p : RunnerPool) (cl : Cluster) : Cluster :=
  mkCluster (<[pool_key p := p]> (pools cl)) (deployments cl) (scaled cl).
Definition set_dep (d : Deployment) (cl : Cluster) : Cluster :=
  mkCluster (pools cl) (<[dep_key d := d]> (deployments cl)) (scaled cl).
Definition set_so (so : ScaledObject) (cl : Cluster) : Cluster :=
  mkCluster (pools cl) (deployments cl) (<[so_key so := so]> (scaled cl)).

(** What is stored of an object: the version is the server's, and so are the
    replicas of a new Deployment without any, and its status. *)
Definition stored_dep (d : Deployment) (replicas : option Z) (ready : Z) (rv : string) : Deployment :=
  mkDeployment (dName d) (dNamespace d) (dLabels d) (dOwner d) (dSelector d) (dTemplate d)
    replicas ready rv.

(** Objects are stored under their own names. *)
Definition well_keyed (cl : Cluster) : Prop :=
  map_Forall (λ k p, pool_key p = k) (pools cl) ∧
  map_Forall (λ k d, dep_key d = k) (deployments cl) ∧
  map_Forall (λ k so, so_key so = k) (scaled cl).

Lemma well_keyed_set_pool p cl : well_keyed cl → well_keyed (set_pool p cl).
Proof. intros (? & ? & ?). split_and!; try done. by apply map_Forall_insert_2. Qed.
Lemma well_keyed_set_dep d cl : well_keyed cl → well_keyed (set_dep d cl).
Proof. intros (? & ? & ?). split_and!; try done. by apply map_Forall_insert_2. Qed.
Lemma well_keyed_set_so so cl : well_keyed cl → well_keyed (set_so so cl).
Proof. intros (? & ? & ?). split_and!; try done. by apply map_Forall_insert_2. Qed.

Definition answer {A} (o : option A) : result kube_error A :=
  match o with Some a => Ok a | None => Err NotFound end.

(** The API server as its documentation has it, idealised in that it refuses no
    object: a create succeeds where there is none, an update with the current
    version succeeds. *)
Class KubeServer (W : Type) {K : Kube W} := {
  cluster : W → Cluster;
  retries : nat;
  ks_get_pool : ∀ k w, cluster (GetPool k w).1 = cluster w ∧
    (GetPool k w).2 = answer (pools (cluster w) !! k);
  ks_get_dep : ∀ k w, cluster (GetDeployment k w).1 = cluster w ∧
    (GetDeployment k w).2 = answer (deployments (cluster w) !! k);
  ks_get_so : ∀ k w, cluster (GetScaledObject k w).1 = cluster w ∧
    (GetScaledObject k w).2 = answer (scaled (cluster w) !! k);
  ks_create_dep : ∀ d w, deployments (cluster w) !! dep_key d = None →
    (CreateDeployment d w).2 = Ok tt ∧ ∃ rv,
    cluster (CreateDeployment d w).1 =
      set_dep (stored_dep d (Some (default 1%Z (dReplicas d))) 0 rv) (cluster w);
  ks_update_dep : ∀ d old w, deployments (cluster w) !! dep_key d = Some old →
    dResourceVersion d = dResourceVersion old → dSelector d = dSelector old →
    (UpdateDeployment d w).2 = Ok tt ∧ ∃ rv, (d = old → rv = dResourceVersion old) ∧
    cluster (UpdateDeployment d w).1 =
      set_dep (stored_dep d (dReplicas d) (dReadyReplicas old) rv) (cluster w);
  ks_create_so : ∀ so w, scaled (cluster w) !! so_key so = None →
    (CreateScaledObject so w).2 = Ok tt ∧ ∃ rv,
    cluster (CreateScaledObject so w).1 = set_so (with_version so rv) (cluster w);
  ks_update_so : ∀ so old w, scaled (cluster w) !! so_key so = Some old →
    oResourceVersion so = oResourceVersion old →
    (UpdateScaledObject so w).2 = Ok tt ∧ ∃ rv, (so = old → rv = oResourceVersion old) ∧
    cluster (UpdateScaledObject so w).1 = set_so (with_version so rv) (cluster w);
  ks_status : ∀ p old w, pools (cluster w) !! pool_key p = Some old →
    (UpdatePoolStatus p w).2 = Ok tt ∧
    cluster (UpdatePoolStatus p w).1 =
      set_pool (mkPool (Name p) (Namespace p) (Spec old) (Status p)) (cluster w);
  ks_retry : ∀ fn w, RetryOnConflict fn w = attempts retries fn w;
}.

(** ** What a reconcile brings about *)

(** The Deployment is what the spec says, with the replicas, the owner and the
    status it had, or new. *)
Definition dep_synced (desired : Deployment) (before after : option Deployment) : Prop :=
  ∃ d, after = Some d ∧ dep_key d = dep_key desired ∧
    (dLabels d, dSelector d, dTemplate d) =
    (dLabels desired, dSelector desired, dTemplate desired) ∧
    match before with
    | Some old => (dReplicas d, dOwner d, dReadyReplicas d) =
                  (dReplicas old, dOwner old, dReadyReplicas old)
    | None => (dReplicas d, dOwner d, dReadyReplicas d) = (Some 1%Z, dOwner desired, 0%Z)
    end.

Definition so_synced (desired : ScaledObject) (after : option ScaledObject) : Prop :=
  ∃ rv, after = Some (with_version desired rv).

Section server.
Context {W : Type} {K : Kube W} {S : KubeServer W}.
Context (r : RunnerPoolReconciler) (p : RunnerPool) (cpu mem : Quantity) (owner : OwnerReference).

Abbreviation desired := (desired_deployment r p cpu mem (Some owner)).
Abbreviation desired_so := (desired_scaled_object p (Some owner)).

Hypothesis Hcpu : ParseQuantity (if decide (CPU (Resources (Spec p)) = "") then "1"
  else CPU (Resources (Spec p))) = Ok cpu.
Hypothesis Hmem : ParseQuantity (if decide (Memory (Resources (Spec p)) = "") then "2Gi"
  else Memory (Resources (Spec p))) = Ok mem.
Hypothesis Howner : SetControllerReference p (deployKey p) = Ok owner.

Lemma attempts_Ok n (fn : state_t W (result kube_error unit)) w :
  (fn w).2 = Ok tt → attempts n fn w = fn w.
Proof. intros E. destruct n; cbn [attempts]; destruct (fn w) as [w' [[]|[]]]; done. Qed.

Lemma reconcileDeployment_run w :
  well_keyed (cluster w) →
  (∀ d, deployments (cluster w) !! deployKey p = Some d → dSelector d = dSelector desired) →
  let out := reconcileDeployment r p w in
  out.2 = Ok tt ∧ ∃ d, cluster out.1 = set_dep d (cluster w) ∧
    dep_synced desired (deployments (cluster w) !! deployKey p) (Some d) ∧
    (∀ old, deployments (cluster w) !! deployKey p = Some old →
       merge_deployment old desired = old → d = old).
Proof.
  intros (_ & Hkeys & _) Hsel. cbv zeta. unfold reconcileDeployment. rewrite Hcpu, Hmem, Howner.
  unfold lift_client. rewrite state_bind_run, !ks_retry.
  destruct (ks_get_dep (deployKey p) w) as [Hcl Hget].
  assert (Hw : (write_deployment desired w).2 = Ok tt ∧ ∃ d,
    cluster (write_deployment desired w).1 = set_dep d (cluster w) ∧
    dep_synced desired (deployments (cluster w) !! deployKey p) (Some d) ∧
    (∀ old, deployments (cluster w) !! deployKey p = Some old →
       merge_deployment old desired = old → d = old)).
  { unfold write_deployment. rewrite state_bind_run.
    change (dNamespace desired, dName desired) with (deployKey p).
    destruct (GetDeployment (deployKey p) w) as [w1 got]. cbn [fst snd] in *. rewrite Hget. clear Hget.
    destruct (deployments (cluster w) !! deployKey p) as [old|] eqn:E; cbn [answer].
    - pose proof (Hkeys _ _ E) as Hk. cbv beta in Hk.
      destruct (ks_update_dep (merge_deployment old desired) old w1) as (Hok & rv & Hrv & Hc).
      + rewrite Hcl. by change (dep_key (merge_deployment old desired)) with (dep_key old); rewrite Hk.
      + done.
      + symmetry. by apply Hsel.
      + split; [done|]. eexists. split; [by rewrite Hc, Hcl|]. split.
        * eexists. split; [done|]. split; [exact Hk|]. split; done.
        * intros ? [= <-] Em. rewrite (Hrv Em). rewrite <-Em at 3. by destruct old.
    - destruct (ks_create_dep desired w1) as (Hok & rv & Hc); [by rewrite Hcl|].
      split; [done|]. eexists. split; [by rewrite Hc, Hcl|]. split; [|done]. by eexists. }
  destruct Hw as [Hok Hw]. rewrite attempts_Ok, Hok by done. by split.
Qed.

Lemma reconcileScaledObject_run w :
  let out := reconcileScaledObject p w in
  out.2 = Ok tt ∧ ∃ rv, cluster out.1 = set_so (with_version desired_so rv) (cluster w) ∧
    (∀ old, scaled (cluster w) !! deployKey p = Some old →
       with_version desired_so (oResourceVersion old) = old → rv = oResourceVersion old).
Proof.
  cbv zeta. unfold reconcileScaledObject. rewrite Howner. cbv zeta. rewrite state_bind_run.
  change (oNamespace desired_so, oName desired_so) with (deployKey p).
  destruct (ks_get_so (deployKey p) w) as [Hcl Hget].
  destruct (GetScaledObject (deployKey p) w) as [w1 got]. cbn [fst snd] in *. rewrite Hget. clear Hget.
  unfold lift_client. destruct (scaled (cluster w) !! deployKey p) as [old|] eqn:E; cbn [answer].
  - set (so := with_version desired_so (oResourceVersion old)).
    destruct (ks_update_so so old w1) as (Hok & rv & Hrv & Hc); [by rewrite Hcl|done|].
    rewrite state_bind_run, Hok. split; [done|]. exists rv.
    split; [cbn [fst mret state_ret]; by rewrite Hc, Hcl|]. intros ? [= <-] Em. by apply Hrv.
  - destruct (ks_create_so desired_so w1) as (Hok & rv & Hc); [by rewrite Hcl|].
    rewrite state_bind_run, Hok. split; [done|]. exists rv.
    split; [cbn [fst mret state_ret]; by rewrite Hc, Hcl|]. done.
Qed.

(** The pool with the ready replicas of its Deployment in its status. *)
Definition reflected (d : Deployment) : RunnerPool :=
  mkPool (Name p) (Namespace p) (Spec p)
    (mkPoolStatus (dReadyReplicas d) (EligibleQueued (Status p))).

Lemma reflect_status_run w d :
  pools (cluster w) !! pool_key p = Some p → deployments (cluster w) !! deployKey p = Some d →
  cluster (reflect_status p w).1 = set_pool (reflected d) (cluster w).
Proof.
  intros Hp Hd. unfold reflect_status. rewrite state_bind_run.
  destruct (ks_get_dep (deployKey p) w) as [Hcl Hget].
  destruct (GetDeployment (deployKey p) w) as [w1 got]. cbn [fst snd] in *. rewrite Hget, Hd.
  cbn [answer]. destruct (Z.eqb_spec (ReadyReplicas (Status p)) (dReadyReplicas d)) as [E|Hne].
  - cbn [fst mret state_ret]. rewrite Hcl. unfold set_pool, reflected.
    assert (Ep : mkPool (Name p) (Namespace p) (Spec p)
      (mkPoolStatus (dReadyReplicas d) (EligibleQueued (Status p))) = p).
    { rewrite <-E. by destruct p as [n ns sp []]. }
    rewrite Ep, insert_id by done. by destruct (cluster w).
  - rewrite state_bind_run. cbn [fst mret state_ret].
    destruct (ks_status (mkPool (Name p) (Namespace p) (Spec p)
      (mkPoolStatus (dReadyReplicas d) (EligibleQueued (Status p)))) p w1) as [_ Hc].
    { by rewrite Hcl. }
    rewrite Hc, Hcl. done.
Qed.

Lemma Reconcile_run w req :
  well_keyed (cluster w) → pools (cluster w) !! req = Some p →
  (∀ d, deployments (cluster w) !! deployKey p = Some d → dSelector d = dSelector desired) →
  let out := Reconcile r req w in
  out.2 = Ok tt ∧ ∃ d rv,
    cluster out.1 = set_pool (reflected d) (set_so (with_version desired_so rv)
                      (set_dep d (cluster w))) ∧
    dep_synced desired (deployments (cluster w) !! deployKey p) (Some d) ∧
    (∀ old, deployments (cluster w) !! deployKey p = Some old →
       merge_deployment old desired = old → d = old) ∧
    (∀ old, scaled (cluster w) !! deployKey p = Some old →
       with_version desired_so (oResourceVersion old) = old → rv = oResourceVersion old).
Proof.
  intros Hwk Hp Hsel. cbv zeta. unfold Reconcile. rewrite state_bind_run.
  destruct (ks_get_pool req w) as [Hcl Hget].
  destruct (GetPool req w) as [w1 got]. cbn [fst snd] in *. rewrite Hget, Hp. cbn [answer].
  rewrite state_bind_run.
  destruct (reconcileDeployment_run w1) as (Hok & d & Hc & Hd & Hnd); [by rewrite Hcl..|].
  destruct (reconcileDeployment r p w1) as [w2 res]. cbn [fst snd] in *. rewrite Hok.
  rewrite state_bind_run. destruct (reconcileScaledObject_run w2) as (Hok' & rv & Hc' & Hns).
  destruct (reconcileScaledObject p w2) as [w3 res']. cbn [fst snd] in *. rewrite Hok'.
  rewrite state_bind_run. cbn [fst snd mret state_ret]. split; [done|]. rewrite Hcl in *.
  exists d, rv. destruct Hd as (? & [= <-] & Hk & Hd).
  pose proof (proj1 Hwk _ _ Hp) as Hreq. cbv beta in Hreq.
  rewrite (reflect_status_run w3 d).
  - split; [by rewrite Hc', Hc|]. split; [by exists d|]. split; [done|].
    intros old Ho. apply Hns. by rewrite Hc.
  - rewrite Hc', Hc. cbn [pools set_so set_dep]. by rewrite Hreq.
  - rewrite Hc', Hc. cbn [deployments set_so set_dep].
    change (deployKey p) with (dep_key desired). rewrite Hk. by rewrite lookup_insert_eq.
Qed.
End server.

(** The pool a cluster has under a key is the one the objects were made for, up
    to its status. *)
Lemma merge_synced d desired : 
  (dLabels d, dSelector d, dTemplate d) =
  (dLabels desired, dSelector desired, dTemplate desired) → merge_deployment d desired = d.
Proof. intros [= E1 E2 E3]. unfold merge_deployment. rewrite <-E1, <-E2, <-E3. by destruct d. Qed.

(** Writing again what is stored changes nothing. *)
Lemma set_same p d so cl :
  pools cl !! pool_key p = Some p → deployments cl !! dep_key d = Some d →
  scaled cl !! so_key so = Some so → set_pool p (set_so so (set_dep d cl)) = cl.
Proof.
  intros Hp Hd Hs. unfold set_pool, set_so, set_dep. cbn [pools deployments scaled].
  rewrite !insert_id by done. by destruct cl.
Qed.

(** What the three writes of a reconcile leave. *)
Lemma set_all_lookup p d so cl :
  let after := set_pool p (set_so so (set_dep d cl)) in
  deployments after !! dep_key d = Some d ∧ scaled after !! so_key so = Some so ∧
  pools after !! pool_key p = Some p ∧
  (∀ k, k ≠ dep_key d → deployments after !! k = deployments cl !! k) ∧
  (∀ k, k ≠ so_key so → scaled after !! k = scaled cl !! k) ∧
  (∀ k, k ≠ pool_key p → pools after !! k = pools cl !! k).
Proof.
  cbn [pools deployments scaled set_pool set_so set_dep].
  split_and!; [apply lookup_insert_eq..| | |]; intros k Hk; by rewrite lookup_insert_ne.
Qed.
End cluster.

(** ** Property *)

(** C24: Reconcile converges, and then rests.  Let the API server behave as
    documented (it stores every object that is created where there is none, and
    every update that carries the current version; validation and admission that
    refuse an object are not in these laws) and nobody else write meanwhile; let the pool exist, its
    quantities parse, the owner reference be computable (from its name, not its
    status), and a Deployment of the pool's name, if there is one, have the
    pool's selector.  Whatever state the pool's objects were left in, missing
    ones included, one Reconcile succeeds and leaves a Deployment with the labels
    and the template of the spec, its replicas, owner and status untouched (a new
    one gets the server's default replicas), a ScaledObject exactly as the spec
    says, and the pool with its spec and the Deployment's ready replicas in its
    status; it writes no other object; and a second Reconcile changes nothing at
    all. *)
Theorem reconcile_converges {KL : KubeLib} {W} {K : Kube W} {S : KubeServer W} r p cpu mem owner w :
  let desired := desired_deployment r p cpu mem (Some owner) in
  let before := cluster w in
  well_keyed before → pools before !! pool_key p = Some p →
  ParseQuantity (if decide (CPU (Resources (Spec p)) = "") then "1"
                 else CPU (Resources (Spec p))) = Ok cpu →
  ParseQuantity (if decide (Memory (Resources (Spec p)) = "") then "2Gi"
                 else Memory (Resources (Spec p))) = Ok mem →
  (∀ status, SetControllerReference (mkPool (Name p) (Namespace p) (Spec p) status) (deployKey p) =
     Ok owner) →
  (∀ d, deployments before !! deployKey p = Some d → dSelector d = dSelector desired) →
  let out := Reconcile r (pool_key p) w in
  let after := cluster out.1 in
  out.2 = Ok tt ∧
  dep_synced desired (deployments before !! deployKey p) (deployments after !! deployKey p) ∧
  so_synced (desired_scaled_object p (Some owner)) (scaled after !! deployKey p) ∧
  (∃ status, pools after !! pool_key p = Some (mkPool (Name p) (Namespace p) (Spec p) status) ∧
     ∀ d, deployments after !! deployKey p = Some d → ReadyReplicas status = dReadyReplicas d) ∧
  (∀ k, k ≠ deployKey p → deployments after !! k = deployments before !! k ∧
     scaled after !! k = scaled before !! k) ∧
  (∀ k, k ≠ pool_key p → pools after !! k = pools before !! k) ∧
  let again := Reconcile r (pool_key p) out.1 in
  again.2 = Ok tt ∧ cluster again.1 = after.
Proof.
  cbv zeta. intros Hwk Hp Hcpu Hmem Howner Hsel.
  assert (Ho : SetControllerReference p (deployKey p) = Ok owner).
  { specialize (Howner (Status p)). by destruct p. }
  destruct (Reconcile_run r p cpu mem owner Hcpu Hmem Ho w _ Hwk Hp Hsel)
    as (Hok & d & rv & Hc & Hd & _ & _).
  destruct (Reconcile r (pool_key p) w) as [w1 res]. cbn [fst snd] in *. split; [done|].
  destruct Hd as (? & [= <-] & Hk & Hsync & Hrest).
  set (so := with_version (desired_scaled_object p (Some owner)) rv) in *.
  set (p1 := reflected p d) in *. change (dep_key (desired_deployment r p cpu mem (Some owner)))
    with (deployKey p) in Hk.
  destruct (set_all_lookup p1 d so (cluster w)) as (Edep & Eso & Epool & Rd & Rs & Rp).
  rewrite <-Hc, Hk in *. split; [by eexists|]. split; [by eexists|].
  split; [eexists; split; [exact Epool|by rewrite Edep; intros ? [= <-]]|].
  split; [intros k Hne; by rewrite Rd, Rs|]. split; [exact Rp|].
  destruct (Reconcile_run r p1 cpu mem owner Hcpu Hmem (Howner _) w1 (pool_key p))
    as (Hok2 & d2 & rv2 & Hc2 & _ & Hd2 & Hs2).
  - rewrite Hc. by apply well_keyed_set_pool, well_keyed_set_so, well_keyed_set_dep.
  - done.
  - change (deployKey p1) with (deployKey p). rewrite Edep. intros ? [= <-]. by injection Hsync.
  - split; [done|]. rewrite Hc2.
    assert (d2 = d) as ->.
    { apply Hd2; [by change (deployKey p1) with (deployKey p)|]. by apply merge_synced. }
    assert (with_version (desired_scaled_object p1 (Some owner)) rv2 = so) as ->.
    { rewrite (Hs2 so); [done|done|]. done. }
    assert (reflected p1 d = p1) as -> by done.
    apply set_same; [done|by rewrite Hk|done].
Qed.

(** ** A server *)
Module Sim.
#[local] Existing Instance demo_lib.

#[local] Instance quantity_eq : EqDecision (@Quantity demo_lib) := String.string_dec.
#[local] Instance toleration_eq : EqDecision (@Toleration demo_lib) := String.string_dec.
#[local] Instance owner_eq : EqDecision (@OwnerReference demo_lib) := String.string_dec.
#[local] Instance env_eq : EqDecision EnvVar.
Proof. solve_decision. Defined.
#[local] Instance container_eq : EqDecision Container.
Proof. solve_decision. Defined.
#[local] Instance template_eq : EqDecision PodTemplateSpec.
Proof. solve_decision. Defined.
#[local] Instance deployment_eq : EqDecision Deployment.
Proof. solve_decision. Defined.
#[local] Instance trigger_eq : EqDecision Trigger.
Proof. solve_decision. Defined.
#[local] Instance scaled_eq : EqDecision ScaledObject.
Proof. solve_decision. Defined.

(** The objects, and the next resource version. *)
Definition state : Type := Cluster * Z.

Definition read {A} (get : Cluster → option A) : state_t state (result kube_error A) :=
  λ w, (w, answer (get w.1)).
Definition commit (cl : Cluster) : state_t state (result kube_error ()) :=
  λ w, ((cl, w.2 + 1)%Z, Ok tt).
Definition refuse (e : kube_error) : state_t state (result kube_error ()) := λ w, (w, Err e).

Definition create_dep (d : Deployment) : state_t state (result kube_error ()) := λ w,
  match deployments w.1 !! dep_key d with
  | Some _ => refuse (OtherError "already exists") w
  | None => commit (set_dep (stored_dep d (Some (default 1%Z (dReplicas d))) 0 (pretty w.2)) w.1) w
  end.

Definition update_dep (d : Deployment) : state_t state (result kube_error ()) := λ w,
  match deployments w.1 !! dep_key d with
  | None => refuse NotFound w
  | Some old =>
      if negb (String.eqb (dResourceVersion d) (dResourceVersion old)) then refuse Conflict w
      else if decide (dSelector d = dSelector old) then
        let rv := if decide (d = old) then dResourceVersion old else pretty w.2 in
        commit (set_dep (stored_dep d (dReplicas d) (dReadyReplicas old) rv) w.1) w
      else refuse (OtherError "field is immutable") w
  end.

Definition create_so (so : ScaledObject) : state_t state (result kube_error ()) := λ w,
  match scaled w.1 !! so_key so with
  | Some _ => refuse (OtherError "already exists") w
  | None => commit (set_so (with_version so (pretty w.2)) w.1) w
  end.

Definition update_so (so : ScaledObject) : state_t state (result kube_error ()) := λ w,
  match scaled w.1 !! so_key so with
  | None => refuse NotFound w
  | Some old =>
      if negb (String.eqb (oResourceVersion so) (oResourceVersion old)) then refuse Conflict w
      else commit (set_so (with_version so
                     (if decide (so = old) then oResourceVersion old else pretty w.2)) w.1) w
  end.

Definition update_status (p : RunnerPool) : state_t state (result kube_error ()) := λ w,
  match pools w.1 !! pool_key p with
  | None => refuse NotFound w
  | Some old => commit (set_pool (mkPool (Name p) (Namespace p) (Spec old) (Status p)) w.1) w
  end.

#[export] Instance kube : Kube state := {|
  GetPool k := read (λ cl, pools cl !! k);
  GetDeployment k := read (λ cl, deployments cl !! k);
  CreateDeployment := create_dep;
  UpdateDeployment := update_dep;
  GetScaledObject k := read (λ cl, scaled cl !! k);
  CreateScaledObject := create_so;
  UpdateScaledObject := update_so;
  UpdatePoolStatus := update_status;
  RetryOnConflict := attempts 4;
|}.

#[export] Program Instance server : KubeServer state := {| cluster := fst; retries := 4 |}.
Next Obligation. done. Qed.
Next Obligation. done. Qed.
Next Obligation. done. Qed.
Next Obligation. intros d w E. cbn. unfold create_dep. rewrite E. split; [done|]. by eexists. Qed.
Next Obligation.
  intros d old w E Hv Hs. cbn. unfold update_dep. rewrite E, Hv, String.eqb_refl. cbn [negb].
  rewrite decide_True by done. split; [done|]. eexists. split; [|done]. intros ->.
  by rewrite decide_True.
Qed.
Next Obligation. intros so w E. cbn. unfold create_so. rewrite E. split; [done|]. by eexists. Qed.
Next Obligation.
  intros so old w E Hv. cbn. unfold update_so. rewrite E, Hv, String.eqb_refl. cbn [negb].
  split; [done|]. eexists. split; [|done]. intros ->. by rewrite decide_True.
Qed.
Next Obligation. intros p old w E. cbn. unfold update_status. by rewrite E. Qed.
Next Obligation. done. Qed.

(** The pool of the examples, with a Deployment somebody edited and no
    ScaledObject. *)
Definition drifted : Deployment :=
  mkDeployment "runner-eplus-24-1-0" "synergy" ∅ None {[ "synergyplus.io/pool" := "eplus-24-1-0" ]}
    (mkTemplate ∅ "" [] []) (Some 12%Z) 9 "41".

Definition start : state := (set_pool demo_pool (set_dep drifted (mkCluster ∅ ∅ ∅)), 42%Z).
End Sim.

#[local] Existing Instances demo_lib Sim.kube Sim.server.

Lemma reconcile_converges_witness :
  let r := mkReconciler (KL := demo_lib) [] "" [] in
  let out := Reconcile r (pool_key demo_pool) Sim.start in
  out.2 = Ok tt ∧ (Reconcile r (pool_key demo_pool) out.1).2 = Ok tt ∧
  cluster (Reconcile r (pool_key demo_pool) out.1).1 = cluster out.1 ∧
  (dReplicas <$> deployments (cluster out.1) !! deployKey demo_pool) = Some (Some 12%Z).
Proof.
  intros r out.
  assert (E : (dReplicas <$> deployments (cluster out.1) !! deployKey demo_pool) = Some (Some 12%Z))
    by (vm_compute; reflexivity).
  pose proof (reconcile_converges (KL := demo_lib) r demo_pool ("1" : @Quantity demo_lib)
    ("2Gi" : @Quantity demo_lib) ("eplus-24-1-0" : @OwnerReference demo_lib) Sim.start) as H.
  cbv zeta in H. fold out in H.
  destruct H as (H1 & _ & _ & _ & _ & _ & H2 & H3).
  - apply well_keyed_set_pool, well_keyed_set_dep. split; [|split]; apply map_Forall_empty.
  - reflexivity.
  - reflexivity.
  - reflexivity.
  - reflexivity.
  - intros d Hd. vm_compute in Hd. injection Hd as <-. reflexivity.
  - split; [exact H1|]. split; [exact H2|]. split; [exact H3|exact E].
Defined.
