(* ===== verification/DeepCopySpec.v ===== *)
(** * Deep copies are equal and share nothing

    [Deep]: what a Go value denotes once every slice and pointer in it is
    followed, and the cells it reaches.  [copy_spec] is the contract of a
    DeepCopyInto: afterwards the target denotes what the source denotes,
    everything it reaches is new, and no old cell but the target's changed.
    Taken for apimachinery's three methods ([MetaLaws]), it is proved here for
    the generated ones, of slices first ([copy_slice_spec]) and then of the
    structs, field by field ([field_copied]). *)
From S2P Require Import Prelude Controller DeepCopy.
From stdpp Require Import gmap fin_maps.

(** ** Reading and writing through pointers *)
Section pointers.
Context {MT : MetaTypes}.

Definition reads {T} (p : ptr T) (m : mem) (v : T) : Prop :=
  ∃ c, m !! base p = Some c ∧ get p c = Some v.

Record lens_ok {T} (p : ptr T) : Prop := {
  get_set : ∀ v c, is_Some (get p c) → get p (set p v c) = Some v;
  set_set : ∀ v w c, is_Some (get p c) → set p v (set p w c) = set p v c;
  set_get : ∀ v c, get p c = Some v → set p v c = c;
}.

(** Writing through [q] does not change what [p] reads. *)
Definition apart {S T} (p : ptr S) (q : ptr T) : Prop :=
  base p = base q → ∀ v c, get p (set q v c) = get p c.

(** From [m] to [m'] only new cells and the target of [out] changed. *)
Record only_target {T} (out : ptr T) (m m' : mem) : Prop := {
  ot_frame : ∀ l c, l ≠ base out → m !! l = Some c → m' !! l = Some c;
  ot_target : ∀ c, m !! base out = Some c → ∃ w, m' !! base out = Some (set out w c);
}.

Lemma load_reads {T} (p : ptr T) m v : reads p m v → load p m = Some (v, m).
Proof. intros (c & H1 & H2). unfold load. by rewrite H1, H2. Qed.

Lemma store_reads {T} (p : ptr T) m v w :
  lens_ok p → reads p m v →
  ∃ m', store p w m = Some (tt, m') ∧ reads p m' w ∧ only_target p m m' ∧ dom m' = dom m.
Proof.
  intros Hok (c & H1 & H2). exists (<[base p := set p w c]> m). split_and!.
  - unfold store. by rewrite H1, H2.
  - exists (set p w c). rewrite lookup_insert_eq. split; [done|]. by apply (get_set p Hok).
  - split.
    + intros l c' Hne Hl. by rewrite lookup_insert_ne.
    + intros c'. rewrite H1. intros [= <-]. exists w. by rewrite lookup_insert_eq.
  - apply dom_insert_lookup_L. by rewrite H1.
Qed.

Lemma only_target_trans {T} (out : ptr T) m1 m2 m3 v :
  lens_ok out → reads out m1 v →
  only_target out m1 m2 → only_target out m2 m3 → only_target out m1 m3.
Proof.
  intros Hok (c & H1 & H2) [F1 T1] [F2 T2]. split; [eauto|].
  intros c'. rewrite H1. intros [= <-]. destruct (T1 c H1) as [w Hw].
  destruct (T2 _ Hw) as [w' Hw']. exists w'. rewrite Hw'. f_equal.
  apply (set_set out Hok). by eexists.
Qed.

Lemma only_target_dom {T} (out : ptr T) m m' :
  only_target out m m' → dom m ⊆ dom m'.
Proof.
  intros [F Tt] l [c Hc]%elem_of_dom. apply elem_of_dom.
  destruct (decide (l = base out)) as [->|Hne]; [|eauto].
  destruct (Tt c Hc) as [w ->]. by eexists.
Qed.

Lemma reads_apart {S T} (p : ptr S) (out : ptr T) m m' v :
  only_target out m m' → apart p out → reads p m v → reads p m' v.
Proof.
  intros [F Tt] Ha (c & H1 & H2). destruct (decide (base p = base out)) as [E|Hne].
  - rewrite E in H1. destruct (Tt c H1) as [w Hw]. exists (set out w c).
    rewrite E. split; [done|]. by rewrite (Ha E).
  - exists c. eauto.
Qed.

(** *** Fields *)
Record field_ok {S T} (gf : S → T) (sf : S → T → S) : Prop := {
  fd_get : ∀ s t, gf (sf s t) = t;
  fd_set : ∀ s t u, sf (sf s t) u = sf s u;
  fd_id : ∀ s, sf s (gf s) = s;
}.

Lemma lens_field {S T} (p : ptr S) (gf : S → T) sf :
  lens_ok p → field_ok gf sf → lens_ok (field p gf sf).
Proof.
  intros [G1 G2 G3] [F1 F2 F3]. split; simpl.
  - intros v c [t E]. destruct (get p c) as [s|] eqn:Es; [|done].
    rewrite G1 by (by eexists). simpl. by rewrite F1.
  - intros v w c [t E]. destruct (get p c) as [s|] eqn:Es; [|done].
    rewrite G1 by (by eexists). rewrite G2 by (by eexists). by rewrite F2.
  - intros v c E. destruct (get p c) as [s|] eqn:Es; [|done]. simpl in E.
    injection E as <-. rewrite F3. by apply G3.
Qed.

Lemma reads_field {S T} (p : ptr S) (gf : S → T) sf m s :
  reads p m s → reads (field p gf sf) m (gf s).
Proof. intros (c & H1 & H2). exists c. simpl. by rewrite H2. Qed.

Lemma apart_field {S T U V} (p : ptr S) (q : ptr U) (gf : S → T) sf (gg : U → V) sg :
  apart p q → apart (field p gf sf) (field q gg sg).
Proof.
  intros H E v c. simpl in *. destruct (get q c) as [u|] eqn:Eu; [|done].
  by rewrite (H E).
Qed.

Lemma apart_field_r {S U V} (p : ptr S) (q : ptr U) (gg : U → V) sg :
  apart p q → apart p (field q gg sg).
Proof.
  intros H E v c. simpl in *. destruct (get q c) as [u|] eqn:Eu; [|done]. by apply (H E).
Qed.

Lemma only_target_field {S T} (out : ptr S) (gf : S → T) sf m m' s :
  reads out m s → only_target (field out gf sf) m m' → only_target out m m'.
Proof.
  intros (c0 & H1 & H2) [F Tt]. split; [done|]. intros c Hc.
  simpl in *. rewrite Hc in H1. injection H1 as <-.
  destruct (Tt c Hc) as [w Hw]. rewrite H2 in Hw. eauto.
Qed.

(** What the whole struct reads after a field of it was written. *)
Lemma reads_struct {S T} (out : ptr S) (gf : S → T) sf m m' s t :
  lens_ok out → field_ok gf sf → reads out m s →
  only_target (field out gf sf) m m' → reads (field out gf sf) m' t → reads out m' (sf s t).
Proof.
  intros Ho Hf (c & H1 & H2) [F Tt] (c' & H3 & H4). simpl in *.
  destruct (Tt c H1) as [w Hw]. rewrite H2 in Hw. rewrite Hw in H3. injection H3 as <-.
  rewrite (get_set out Ho) in H4 by (by eexists). simpl in H4. injection H4 as H4.
  rewrite (fd_get _ _ Hf) in H4. subst t.
  exists (set out (sf s w) c). split; [done|]. apply (get_set out Ho). by eexists.
Qed.
End pointers.

(** ** What a value denotes, and the cells it reaches *)
Class Deep {MT : MetaTypes} (T V : Type) := {
  deep : mem → T → option V;
  fp : mem → T → gset positive;
}.

Class DeepOk {MT : MetaTypes} (T V : Type) `{!Deep T V} := {
  deep_local m m' x a :
    deep m x = Some a → (∀ l, l ∈ fp m x → m' !! l = m !! l) →
    deep m' x = Some a ∧ fp m' x = fp m x;
  fp_dom m x a : deep m x = Some a → fp m x ⊆ dom m;
}.

Class ArrayOk {MT : MetaTypes} (T : Type) `{!ArrayOf T} := {
  of_to_array (a : list T) : of_array (to_array a) = Some a;
  to_of_array c (a : list T) : of_array c = Some a → to_array a = c;
}.

(** The contract of a DeepCopyInto. *)
Definition copy_spec {MT : MetaTypes} {T V} `{!Deep T V} (f : ptr T → ptr T → M unit) : Prop :=
  ∀ inp out m v o a,
    lens_ok out → apart inp out → reads inp m v → reads out m o →
    deep m v = Some a → base out ∉ fp m v →
    ∃ m' v', f inp out m = Some (tt, m') ∧ reads out m' v' ∧ deep m' v' = Some a ∧
             fp m' v' ## dom m ∧ only_target out m m'.

Section deep.
Context {MT : MetaTypes}.

(** A struct without references denotes itself. *)
Definition plain_deep (T : Type) : Deep T T :=
  {| deep _ x := Some x; fp _ _ := ∅ |}.

#[export] Instance TypeMeta_deep : Deep TypeMeta TypeMeta := plain_deep TypeMeta.
#[export] Instance Spec_deep : Deep RunnerPoolSpec RunnerPoolSpec := plain_deep RunnerPoolSpec.
#[export] Instance Resources_deep : Deep RunnerResources RunnerResources :=
  plain_deep RunnerResources.

Section slices.
Context {T V : Type} `{!ArrayOf T, !Deep T V}.

Definition window (m : mem) (s : slice) : option (list T) :=
  match m !! sl_array s with
  | Some c => match of_array c with
              | Some a => let vs := take (sl_len s) (drop (sl_off s) a) in
                          if decide (length vs = sl_len s) then Some vs else None
              | None => None
              end
  | None => None
  end.

#[export] Instance slice_deep : Deep (sliceOf T) (option (list V)) := {|
  deep m s := match s with
              | None => Some None
              | Some s => vs ← window m s; Some <$> mapM (deep m) vs
              end;
  fp m s := match s with
            | None => ∅
            | Some s => {[sl_array s]} ∪ ⋃ (fp m <$> default [] (window m s))
            end;
|}.
End slices.
End deep.

Section deep_laws.
Context {MT : MetaTypes}.

Lemma plain_ok T : @DeepOk MT T T (plain_deep T).
Proof. split; [done|]. intros m x a _. apply empty_subseteq. Qed.

#[export] Instance TypeMeta_ok : DeepOk TypeMeta TypeMeta := plain_ok TypeMeta.
#[export] Instance Spec_ok : DeepOk RunnerPoolSpec RunnerPoolSpec := plain_ok RunnerPoolSpec.
#[export] Instance Resources_ok : DeepOk RunnerResources RunnerResources :=
  plain_ok RunnerResources.

Section generic.
Context {T V : Type} `{!Deep T V, !DeepOk T V}.

(** A value is untouched by what changes only cells it does not reach. *)
Lemma deep_kept {S} (out : ptr S) m m' x a :
  only_target out m m' → deep m x = Some a → base out ∉ fp m x →
  deep m' x = Some a ∧ fp m' x = fp m x.
Proof.
  intros [F _] Hd Hb. apply deep_local; [done|]. intros l Hl.
  pose proof (fp_dom _ _ _ Hd l Hl) as [c Hc]%elem_of_dom.
  rewrite Hc. apply F; [|done]. by intros ->.
Qed.

Lemma mapM_deep_local m m' (vs : list T) las :
  mapM (deep m) vs = Some las → (∀ l, l ∈ ⋃ (fp m <$> vs) → m' !! l = m !! l) →
  mapM (deep m') vs = Some las ∧ fp m' <$> vs = fp m <$> vs.
Proof.
  rewrite !mapM_Some. intros Hd. induction Hd as [|v a vs las Ha Hd IH]; intros Hl; [done|].
  destruct (deep_local m m' v a Ha) as [E1 E2].
  { intros l H. apply Hl. rewrite fmap_cons. apply elem_of_union. by left. }
  destruct IH as [E3 E4].
  { intros l H. apply Hl. rewrite fmap_cons. apply elem_of_union. by right. }
  rewrite !fmap_cons, E2, E4. split; [by constructor|done].
Qed.

Lemma window_local `{!ArrayOf T} m m' s :
  m' !! sl_array s = m !! sl_array s → window (T := T) m' s = window m s.
Proof. unfold window. by intros ->. Qed.

#[export] Instance slice_ok `{!ArrayOf T} : DeepOk (sliceOf T) (option (list V)).
Proof.
  split.
  - intros m m' [s|] a; [|done]. simpl. intros (vs & Hw & Ha)%bind_Some Hl.
    rewrite Hw in Hl. simpl in Hl.
    assert (Hw' : window m' s = Some vs).
    { rewrite <-Hw. apply window_local, Hl, elem_of_union. left. by apply elem_of_singleton. }
    apply fmap_Some in Ha as (las & Ha & ->).
    destruct (mapM_deep_local m m' vs las Ha) as [E1 E2].
    { intros l H. apply Hl, elem_of_union. by right. }
    by rewrite Hw', Hw; simpl; rewrite E1, E2.
  - intros m [s|] a; [|by intros _ ? ?%not_elem_of_empty].
    simpl. intros (vs & Hw & Ha)%bind_Some. rewrite Hw. simpl.
    apply fmap_Some in Ha as (las & Ha%mapM_Some & _).
    intros l [->%elem_of_singleton|Hl]%elem_of_union.
    + unfold window in Hw. apply elem_of_dom. by destruct (m !! sl_array s).
    + apply elem_of_union_list in Hl as (X & HX & Hl).
      apply list_elem_of_fmap in HX as (v & -> & Hv).
      apply list_elem_of_lookup in Hv as [i Hi].
      destruct (Forall2_lookup_l _ _ _ _ _ Ha Hi) as (b & _ & Hb).
      by apply (fp_dom m v b).
Qed.

(** *** assign, and a field of a struct *)
Lemma field_copied {S} (f : ptr T → ptr T → M unit) (inp out : ptr S)
    (gf : S → T) sf m v o a :
  copy_spec f → field_ok gf sf → lens_ok out → apart inp out →
  reads inp m v → reads out m o → deep m (gf v) = Some a → base out ∉ fp m (gf v) →
  ∃ m' t, f (field inp gf sf) (field out gf sf) m = Some (tt, m') ∧
    reads out m' (sf o t) ∧ reads inp m' v ∧ deep m' t = Some a ∧ fp m' t ## dom m ∧
    only_target out m m'.
Proof.
  intros Hf Hfd Hl Ha Hi Ho Hd Hb.
  destruct (Hf (field inp gf sf) (field out gf sf) m (gf v) (gf o) a)
    as (m' & t & H1 & H2 & H3 & H4 & H5); [by apply lens_field|by apply apart_field
      |by apply reads_field|by apply reads_field|done..|].
  pose proof (only_target_field out gf sf m m' o Ho H5) as H6.
  exists m', t. split_and!; try done.
  - by eapply reads_struct.
  - by eapply reads_apart.
Qed.
End generic.

Lemma assign_run {T} (inp out : ptr T) m v o :
  lens_ok out → apart inp out → reads inp m v → reads out m o →
  ∃ m', assign inp out m = Some (tt, m') ∧ reads out m' v ∧ reads inp m' v ∧
        only_target out m m' ∧ dom m' = dom m.
Proof.
  intros Hl Ha Hi Ho. destruct (store_reads out m o v Hl Ho) as (m' & H1 & H2 & H3 & H4).
  exists m'. split_and!; try done; [|by eapply reads_apart].
  unfold assign, mbind, M_bind. by rewrite (load_reads _ _ _ Hi).
Qed.

Lemma assign_spec T : copy_spec (Deep0 := plain_deep T) (assign (T := T)).
Proof.
  intros inp out m v o a Hl Ha Hi Ho Hd _.
  destruct (assign_run inp out m v o Hl Ha Hi Ho) as (m' & H1 & H2 & _ & H3 & _).
  exists m', v. split_and!; done.
Qed.
End deep_laws.

(** ** Slices *)
Section slice_copy.
Context {MT : MetaTypes} {T V : Type} `{!ArrayOf T, !ArrayOk T, !Deep T V, !DeepOk T V}.
Context (f : ptr T → ptr T → M unit) (Hf : copy_spec f).
Context (inp out : ptr (sliceOf T)) (s : slice) (lo : positive).
Context (vs : list T) (las : list V) (D : gset positive).

(** The slice make returns. *)
Definition made : slice := mkSlice lo 0 (sl_len s).

(** After [i] rounds of the loop. *)
Record loop_inv (i : nat) (m : mem) : Prop := {
  li_inp : reads inp m (Some s);
  li_out : reads out m (Some made);
  li_dom : D ⊆ dom m;
  li_src : ∀ j v a, vs !! j = Some v → las !! j = Some a →
    reads (elem s j) m v ∧ deep m v = Some a ∧ lo ∉ fp m v;
  li_dst : ∃ arr, m !! lo = Some (to_array arr) ∧ length arr = sl_len s ∧
    ∀ j w a, j < i → arr !! j = Some w → las !! j = Some a →
      deep m w = Some a ∧ fp m w ## D;
}.

Hypothesis Hlen : length vs = sl_len s.
Hypothesis Hlen' : length las = sl_len s.
Hypothesis HlD : lo ∈ D.
Hypothesis Hlo : base inp ≠ lo ∧ base out ≠ lo ∧ sl_array s ≠ lo.

Lemma lens_elem (s' : slice) i : lens_ok (elem (T := T) s' i).
Proof.
  split; unfold elem; cbn [get set].
  - intros v c. case_match; [|by intros []]. destruct (of_array c) as [a|]; [|by intros []].
    cbn [mbind option_bind]. intros H'%lookup_lt_is_Some. rewrite of_to_array.
    cbn [mbind option_bind]. by apply list_lookup_insert_eq.
  - intros v w c. case_match; [|by intros []]. destruct (of_array c) as [a|]; [|by intros []].
    intros _. rewrite of_to_array. f_equal. apply list_insert_insert_eq.
  - intros v c. case_match; [|done]. destruct (of_array c) as [a|] eqn:E; [|done].
    cbn [mbind option_bind]. intros H'. rewrite list_insert_id by done.
    by apply to_of_array.
Qed.

Lemma reads_made m i arr v :
  m !! lo = Some (to_array arr) → i < sl_len s → arr !! i = Some v →
  reads (elem made i) m v.
Proof.
  intros Hm Hi Ha. exists (to_array arr). split; [done|].
  unfold elem, made. cbn [get sl_len sl_off].
  by rewrite (proj2 (Nat.ltb_lt i (sl_len s)) Hi), of_to_array.
Qed.

(** One round writes element [i] of the new array and nothing else old. *)
Lemma loop_step i m :
  i < sl_len s → loop_inv i m →
  ∃ m', f (elem s i) (elem made i) m = Some (tt, m') ∧ loop_inv (S i) m' ∧
        (∀ l c, l ≠ lo → m !! l = Some c → m' !! l = Some c).
Proof.
  intros Hi [Hinp Hout Hdom Hsrc (arr & Harr & Hlarr & Hdst)].
  destruct Hlo as (Hlo1 & Hlo2 & Hlo3).
  destruct (lookup_lt_is_Some_2 vs i) as [v Hv]; [lia|].
  destruct (lookup_lt_is_Some_2 las i) as [a Ha]; [lia|].
  destruct (lookup_lt_is_Some_2 arr i) as [w Hw]; [lia|].
  destruct (Hsrc i v a Hv Ha) as (Hr & Hd & Hfp).
  destruct (Hf (elem s i) (elem made i) m v w a) as (m' & v' & H1 & H2 & H3 & H4 & H5);
    [apply lens_elem|by intros E|done|by eapply reads_made|done|done|].
  pose proof (ot_frame _ _ _ H5) as Hfr. cbn [base elem made sl_array] in Hfr.
  destruct (ot_target _ _ _ H5 _ Harr) as [w' Harr'].
  cbn [base sl_array set elem made sl_off] in Harr'. rewrite of_to_array in Harr'. cbn [Nat.add] in Harr'.
  assert (w' = v') as ->.
  { destruct H2 as (c & Hc & Hg). unfold elem, made in Hc. cbn [base sl_array] in Hc.
    unfold elem, made in Hg. cbn [get sl_len sl_off Nat.add] in Hg.
    rewrite Harr' in Hc. injection Hc as <-.
    rewrite (proj2 (Nat.ltb_lt _ _) Hi), of_to_array in Hg. cbn [mbind option_bind] in Hg.
    rewrite list_lookup_insert_eq in Hg by lia. congruence. }
  assert (Hkeep : ∀ x b, deep m x = Some b → lo ∉ fp m x →
                         deep m' x = Some b ∧ fp m' x = fp m x).
  { intros x b Hx Hn. by eapply deep_kept. }
  exists m'. split_and!; [done| |done]. split.
  - destruct Hinp as (c & Hc & Hg). exists c. eauto.
  - destruct Hout as (c & Hc & Hg). exists c. eauto.
  - etrans; [done|]. by eapply only_target_dom.
  - intros j u b Hu Hb. destruct (Hsrc j u b Hu Hb) as (Hr' & Hd' & Hfp').
    destruct (Hkeep u b Hd' Hfp') as [-> ->]. split_and!; [|done..].
    destruct Hr' as (c & Hc & Hg). exists c. eauto.
  - exists (<[i:=v']> arr). split_and!; [done|by rewrite length_insert|].
    intros j u b Hj Hu Hb. destruct (decide (j = i)) as [->|Hne].
    + rewrite list_lookup_insert_eq in Hu by lia. simplify_eq. split; [done|]. clear -H4 Hdom.
      intros l Hl HD. by apply (H4 l Hl), Hdom.
    + rewrite list_lookup_insert_ne in Hu by done.
      destruct (Hdst j u b) as [E1 E2]; [lia|done..|].
      destruct (Hkeep u b E1) as [-> ->]; [|done]. intros Hn. by apply (E2 lo).
Qed.

Lemma loop_run n : ∀ i m,
  i + n = sl_len s → loop_inv i m →
  ∃ m', copy_elems f inp out i n m = Some (tt, m') ∧ loop_inv (sl_len s) m' ∧
        (∀ l c, l ≠ lo → m !! l = Some c → m' !! l = Some c).
Proof.
  induction n as [|n IH]; intros i m Hin Hinv.
  - exists m. rewrite <-Hin, Nat.add_0_r. done.
  - destruct (loop_step i m) as (m1 & E & Hinv1 & Hfr1); [lia|done|].
    destruct (IH (S i) m1) as (m2 & E2 & Hinv2 & Hfr2); [lia|done|].
    exists m2. split_and!; [|done|eauto]. cbn [copy_elems].
    unfold mbind, M_bind.
    rewrite (load_reads _ _ _ (li_inp _ _ Hinv)), (load_reads _ _ _ (li_out _ _ Hinv)), E.
    done.
Qed.

(** The finished array denotes the source, and its elements reach nothing of
    [D]. *)
Lemma loop_done m :
  loop_inv (sl_len s) m →
  deep m (Some made : sliceOf T) = Some (Some las) ∧
  ∀ l, l ∈ fp m (Some made : sliceOf T) → l = lo ∨ l ∉ D.
Proof.
  clear Hlen Hlo HlD. intros [_ _ _ _ (arr & Harr & Hlarr & Hdst)].
  assert (Hw : window m made = Some arr).
  { unfold window, made. cbn [sl_array sl_off sl_len]. rewrite Harr, of_to_array, drop_0.
    rewrite take_ge by lia. by rewrite decide_True. }
  cbn [deep fp slice_deep]. rewrite Hw. split.
  - cbn [mbind option_bind]. enough (mapM (deep m) arr = Some las) as -> by done.
    apply mapM_Some, Forall2_same_length_lookup_2; [lia|].
    intros j w a Hj Ha. apply (Hdst j w a); [|done..].
    apply lookup_lt_Some in Hj. lia.
  - cbn [default from_option id sl_array made]. intros l [->%elem_of_singleton|Hl]%elem_of_union; [by left|right].
    apply elem_of_union_list in Hl as (X & HX & Hl).
    apply list_elem_of_fmap in HX as (w & -> & Hx).
    apply list_elem_of_lookup in Hx as [j Hj].
    pose proof (lookup_lt_Some _ _ _ Hj).
    destruct (lookup_lt_is_Some_2 las j) as [a Ha]; [lia|].
    destruct (Hdst j w a) as [_ Hdis]; [lia|done..|]. by intros ?%(Hdis l Hl).
Qed.
End slice_copy.

(** New cells change nothing that was there. *)
Lemma reads_ext {MT : MetaTypes} {T} (p : ptr T) (m m' : mem) v :
  m ⊆ m' → reads p m v → reads p m' v.
Proof. intros Hm (c & H1 & H2). exists c. split; [by eapply lookup_weaken|done]. Qed.

Lemma deep_ext {MT : MetaTypes} {T V} `{!Deep T V, !DeepOk T V} (m m' : mem) x a :
  m ⊆ m' → deep m x = Some a → deep m' x = Some a ∧ fp m' x = fp m x.
Proof.
  intros Hm Hd. apply deep_local; [done|]. intros l Hl.
  pose proof (fp_dom _ _ _ Hd l Hl) as [c Hc]%elem_of_dom.
  rewrite Hc. by eapply lookup_weaken.
Qed.

Lemma alloc_run {MT : MetaTypes} c (m : mem) :
  ∃ l, alloc c m = Some (l, <[l:=c]> m) ∧ (l ∉ dom m) ∧ m ⊆ <[l:=c]> m.
Proof.
  exists (fresh (dom m)). split_and!; [done|apply is_fresh|].
  apply insert_subseteq, not_elem_of_dom, is_fresh.
Qed.

Section slice_spec.
Context {MT : MetaTypes} {T V : Type} `{!ArrayOf T, !ArrayOk T, !Deep T V, !DeepOk T V}.

Lemma window_elem m s (vs : list T) j v :
  window m s = Some vs → vs !! j = Some v → reads (elem s j) m v.
Proof.
  unfold window, reads, elem. cbn [base get].
  destruct (m !! sl_array s) as [c|]; [|done].
  destruct (of_array c) as [a|] eqn:Ea; [|done].
  case_decide as Hlen; [|done]. intros [= <-] Hj. exists c. split; [done|].
  pose proof (lookup_lt_Some _ _ _ Hj) as Hlt. rewrite Hlen in Hlt.
  rewrite (proj2 (Nat.ltb_lt _ _) Hlt), Ea. cbn [mbind option_bind].
  by rewrite lookup_take_lt, lookup_drop in Hj.
Qed.

Lemma window_length m s (vs : list T) : window m s = Some vs → length vs = sl_len s.
Proof. unfold window. repeat case_match; try done. by intros [= <-]. Qed.

Lemma fp_window m s (vs : list T) j v l :
  window m s = Some vs → vs !! j = Some v → l ∈ fp m v → l ∈ fp m (Some s : sliceOf T).
Proof.
  intros Hw Hj Hl. cbn [fp slice_deep]. rewrite Hw. cbn [default from_option id].
  apply elem_of_union. right. apply elem_of_union_list. exists (fp m v). split; [|done].
  apply list_elem_of_fmap. exists v. split; [done|]. by eapply list_elem_of_lookup_2.
Qed.

(** The loop's invariant before its first round: [m1] has the new array, [m2]
    the target's new slice header. *)
Lemma loop_start (inp out : ptr (sliceOf T)) (m m1 m2 : mem) s lo (vs : list T) las :
  window m s = Some vs → Forall2 (λ v a, deep m v = Some a) vs las →
  deep m (Some s : sliceOf T) = Some (Some las) → base out ∉ fp m (Some s : sliceOf T) →
  apart inp out → (lo ∉ dom m) →
  m1 = <[lo:=to_array (replicate (sl_len s) zero_elem)]> m →
  reads inp m (Some s) → reads out m (Some s) → reads out m2 (Some (made s lo)) →
  only_target out m1 m2 → dom m2 = dom m1 →
  loop_inv inp out s lo vs las ({[lo]} ∪ dom m) 0 m2.
Proof.
  intros Hw Hlas Hd Hb Ha Hlo E1 Hi Ho Ho2 Hot Hdom2.
  assert (Hext : m ⊆ m1) by (rewrite E1; by apply insert_subseteq, not_elem_of_dom).
  split.
  - eapply reads_apart; [done..|]. by eapply reads_ext.
  - done.
  - rewrite Hdom2, E1. by rewrite dom_insert_L.
  - intros j v b Hj Hbj.
    destruct (Forall2_lookup_l _ _ _ _ _ Hlas Hj) as (b' & Hbj' & Hdv).
    rewrite Hbj in Hbj'. injection Hbj' as <-.
    assert (Hbv : base out ∉ fp m v) by (intros ?; by eapply Hb, fp_window).
    destruct (deep_ext m m1 v b Hext Hdv) as [Hd1 Hf1].
    destruct (deep_kept out m1 m2 v b Hot Hd1) as [Hd2 Hf2]; [by rewrite Hf1|].
    split_and!; [|done|].
    + eapply reads_apart; [exact Hot| |by eapply reads_ext, window_elem].
      intros E. exfalso. apply Hb. cbn [fp slice_deep]. apply elem_of_union. left.
      apply elem_of_singleton. by rewrite <-E.
    + rewrite Hf2, Hf1. intros Hn. by apply Hlo, (fp_dom m v b).
  - exists (replicate (sl_len s) zero_elem). split_and!; [|by rewrite length_replicate|lia].
    apply (ot_frame _ _ _ Hot); [|by rewrite E1, lookup_insert_eq].
    destruct Ho as (c & Hc & _). intros ->. apply Hlo. by eapply elem_of_dom_2.
Qed.

(** The block on a slice field, after the struct was assigned. *)
Lemma copy_slice_spec (f : ptr T → ptr T → M unit) inp out m (s : sliceOf T) a :
  copy_spec f → lens_ok out → apart inp out → reads inp m s → reads out m s →
  deep m s = Some a → base out ∉ fp m s →
  ∃ m' s', copy_slice f inp out m = Some (tt, m') ∧ reads out m' s' ∧
    deep m' s' = Some a ∧ fp m' s' ## dom m ∧ only_target out m m'.
Proof.
  intros Hf Hl Ha Hi Ho Hd Hb. unfold copy_slice, mbind at 1, M_bind at 1.
  rewrite (load_reads _ _ _ Hi).
  destruct s as [s|].
  2: { exists m, None. split_and!; [done..|]. split; [done|].
       intros c Hc. exists None. destruct Ho as (c' & Hc' & Hg).
       rewrite Hc in Hc'. injection Hc' as <-. by rewrite (set_get out Hl). }
  pose proof Hd as Hd'. cbn [deep slice_deep] in Hd'.
  apply bind_Some in Hd' as (vs & Hw & Hd'). apply fmap_Some in Hd' as (las & Hlas & ->).
  apply mapM_Some in Hlas.
  destruct (alloc_run (to_array (T := T) (replicate (sl_len s) zero_elem)) m)
    as (lo & Halloc & Hlo & Hext).
  unfold make, mbind, M_bind, mret, M_ret. rewrite Halloc. set (m1 := <[lo:=_]> m) in *.
  pose proof (reads_ext _ _ _ _ Hext Ho) as Ho1.
  destruct (store_reads out m1 (Some s) (Some (made s lo)) Hl Ho1) as (m2 & Hst & Ho2 & Hot & Hdom2).
  unfold made in Hst. rewrite Hst.
  assert (Hin : ∀ p v, reads (T := sliceOf T) p m v → base p ≠ lo).
  { intros p v (c & Hc & _) E. apply Hlo. rewrite <-E. by eapply elem_of_dom_2. }
  assert (Harr : sl_array s ∈ dom m).
  { apply (fp_dom _ _ _ Hd). cbn [fp slice_deep]. apply elem_of_union. left.
    by apply elem_of_singleton. }
  pose proof (loop_start inp out m m1 m2 s lo vs las Hw Hlas Hd Hb Ha Hlo eq_refl
                Hi Ho Ho2 Hot Hdom2) as Hinv.
  pose proof (window_length _ _ _ Hw) as Hlen.
  pose proof (Forall2_length _ _ _ Hlas) as Hlen2.
  destruct (loop_run f Hf inp out s lo vs las ({[lo]} ∪ dom m) Hlen) with (n := sl_len s) (i := 0) (m := m2)
    as (m3 & Hrun & Hinv3 & Hfr); [lia|apply elem_of_union; left; by apply elem_of_singleton
      | |done|done|].
  { split_and!; [by eapply Hin..|]. intros E. by rewrite E in Harr. }
  destruct (loop_done inp out s lo vs las ({[lo]} ∪ dom m) ltac:(lia) m3 Hinv3) as [Hd3 Hf3].
  exists m3, (Some (made s lo)). split_and!; [done|apply Hinv3|done| |].
  - intros l Hl3 Hlm. apply Hf3 in Hl3 as [->|Hn]; [done|]. apply Hn, elem_of_union. by right.
  - split.
    + intros l c Hne Hc. assert (l ≠ lo) by (intros ->; by apply Hlo; eapply elem_of_dom_2).
      apply Hfr; [done|]. apply (ot_frame _ _ _ Hot); [done|]. by eapply lookup_weaken.
    + intros c Hc. destruct (ot_target _ _ _ Hot c) as [w Hw2]; [by eapply lookup_weaken|].
      exists w. apply Hfr; [by apply (Hin _ _ Ho)|done].
Qed.
End slice_spec.

(** ** The structs of api/v1 *)

(** apimachinery's three DeepCopyInto methods keep the contract. *)
Class MetaLaws {MT : MetaTypes} {ML : MetaLib} (VO VL VC : Type)
    `{!Deep ObjectMeta VO, !Deep ListMeta VL, !Deep Condition VC} := {
  ObjectMeta_ok :: DeepOk ObjectMeta VO;
  ListMeta_ok :: DeepOk ListMeta VL;
  Condition_ok :: DeepOk Condition VC;
  ObjectMeta_spec : copy_spec ObjectMeta_DeepCopyInto;
  ListMeta_spec : copy_spec ListMeta_DeepCopyInto;
  Condition_spec : copy_spec Condition_DeepCopyInto;
}.

Section structs.
Context {MT : MetaTypes} {ML : MetaLib} {VO VL VC : Type}.
Context `{!Deep ObjectMeta VO, !Deep ListMeta VL, !Deep Condition VC, !MetaLaws VO VL VC}.

#[export] Instance pool_array_ok : ArrayOk Pool.
Proof. split; [done|]. intros [] arr; try done. by intros [= ->]. Qed.
#[export] Instance condition_array_ok : ArrayOk Condition.
Proof. split; [done|]. intros [] arr; try done. by intros [= ->]. Qed.

#[export] Instance status_deep : Deep PoolStatus (Z * Z * option (list VC)) := {|
  deep m s := (λ c, (stReadyReplicas s, stEligibleQueued s, c)) <$> deep m (stConditions s);
  fp m s := fp m (stConditions s);
|}.

#[export] Instance pool_deep :
  Deep Pool (TypeMeta * VO * RunnerPoolSpec * (Z * Z * option (list VC))) := {|
  deep m p := o ← deep m (plObjectMeta p); s ← deep m (plStatus p);
              Some (plTypeMeta p, o, plSpec p, s);
  fp m p := fp m (plObjectMeta p) ∪ fp m (plStatus p);
|}.

#[export] Instance pool_list_deep :
  Deep PoolList (TypeMeta * VL * option (list (TypeMeta * VO * RunnerPoolSpec *
                                               (Z * Z * option (list VC))))) := {|
  deep m l := o ← deep m (llListMeta l); s ← deep m (llItems l);
              Some (llTypeMeta l, o, s);
  fp m l := fp m (llListMeta l) ∪ fp m (llItems l);
|}.

#[export] Instance status_ok : DeepOk PoolStatus (Z * Z * option (list VC)).
Proof.
  split; cbn [deep fp status_deep].
  - intros m m' s a (c & Hc & ->)%fmap_Some Hl.
    by destruct (deep_local m m' (stConditions s) c Hc Hl) as [-> ->].
  - intros m s a (c & Hc & _)%fmap_Some. by eapply fp_dom.
Qed.

#[export] Instance pool_ok : DeepOk Pool (TypeMeta * VO * RunnerPoolSpec *
                                          (Z * Z * option (list VC))).
Proof.
  split; cbn [deep fp pool_deep].
  - intros m m' p a (o & Ho & (s & Hs & [= <-])%bind_Some)%bind_Some Hl.
    destruct (deep_local m m' (plObjectMeta p) o Ho) as [-> ->].
    { intros l H. apply Hl, elem_of_union. by left. }
    destruct (deep_local m m' (plStatus p) s Hs) as [-> ->]; [|done].
    intros l H. apply Hl, elem_of_union. by right.
  - intros m p a (o & Ho & (s & Hs & _)%bind_Some)%bind_Some.
    apply union_least; by eapply fp_dom.
Qed.

#[export] Instance pool_list_ok : DeepOk PoolList
  (TypeMeta * VL * option (list (TypeMeta * VO * RunnerPoolSpec * (Z * Z * option (list VC))))).
Proof.
  split; cbn [deep fp pool_list_deep].
  - intros m m' p a (o & Ho & (s & Hs & [= <-])%bind_Some)%bind_Some Hl.
    destruct (deep_local m m' (llListMeta p) o Ho) as [-> ->].
    { intros l H. apply Hl, elem_of_union. by left. }
    destruct (deep_local m m' (llItems p) s Hs) as [-> ->]; [|done].
    intros l H. apply Hl, elem_of_union. by right.
  - intros m p a (o & Ho & (s & Hs & _)%bind_Some)%bind_Some.
    apply union_least; by eapply fp_dom.
Qed.

(** *** Sequencing *)
Lemma bind_run {A B} (c : M A) (k : A → M B) m a m' :
  c m = Some (a, m') → (x ← c; k x) m = k a m'.
Proof. unfold mbind, M_bind. by intros ->. Qed.

(** What an earlier step copied is untouched by a later one. *)
Lemma copied_kept {T V S} `{!Deep T V, !DeepOk T V} (out : ptr S) D m m' (x : T) a :
  only_target out m m' → base out ∈ D → deep m x = Some a → fp m x ## D →
  deep m' x = Some a ∧ fp m' x ## D.
Proof.
  intros Hot Hb Hd Hf. destruct (deep_kept out m m' x a Hot Hd) as [-> ->]; [|done].
  intros H. by apply (Hf (base out)).
Qed.

Lemma reads_dom {S} (p : ptr S) m v : reads p m v → base p ∈ dom m.
Proof. intros (c & Hc & _). by eapply elem_of_dom_2. Qed.

(** *** The methods *)
Lemma Resources_spec : copy_spec RunnerResources_DeepCopyInto.
Proof. apply assign_spec. Qed.

(** Assigning a field again after the whole struct changes nothing. *)
Lemma reassign_noop {S T} (inp out : ptr S) (gf : S → T) sf m v s :
  lens_ok out → field_ok gf sf → reads inp m v → reads out m s → gf s = gf v →
  assign (field inp gf sf) (field out gf sf) m = Some (tt, m).
Proof.
  intros Hl Hf Hi Ho E. unfold assign.
  rewrite (bind_run _ _ _ _ _ (load_reads _ _ _ (reads_field inp gf sf m v Hi))).
  destruct Ho as (c & Hc & Hg). unfold store. cbn [base field get set]. rewrite Hc, Hg.
  cbn [fmap option_fmap option_map]. do 2 f_equal.
  rewrite <-E, (fd_id _ _ Hf), (set_get out Hl) by done. by apply insert_id.
Qed.

Lemma Spec_spec : copy_spec RunnerPoolSpec_DeepCopyInto.
Proof.
  intros inp out m v o a Hl Ha Hi Ho [= <-] _. unfold RunnerPoolSpec_DeepCopyInto.
  destruct (assign_run inp out m v o Hl Ha Hi Ho) as (m1 & E1 & Ho1 & Hi1 & Hot1 & _).
  rewrite (bind_run _ _ _ _ _ E1). exists m1, v.
  split_and!; [|done|done|apply disjoint_empty_l|done].
  eapply reassign_noop; [done| |done..]. by split; [..|intros []].
Qed.

Lemma Status_spec : copy_spec RunnerPoolStatus_DeepCopyInto.
Proof.
  intros inp out m v o a Hl Ha Hi Ho Hd Hb. unfold RunnerPoolStatus_DeepCopyInto.
  destruct (assign_run inp out m v o Hl Ha Hi Ho) as (m1 & E1 & Ho1 & Hi1 & Hot1 & Ed1).
  rewrite (bind_run _ _ _ _ _ E1).
  cbn [deep fp status_deep] in *. apply fmap_Some in Hd as (c & Hc & ->).
  destruct (deep_kept out m m1 _ c Hot1 Hc Hb) as [Hc1 Hf1].
  assert (Hfd : field_ok stConditions with_Conditions) by (by split; [..|intros []]).
  destruct (copy_slice_spec Condition_DeepCopyInto
    (field inp stConditions with_Conditions) (field out stConditions with_Conditions)
    m1 (stConditions v) c) as (m2 & s' & E2 & Ho2 & Hc2 & Hf2 & Hot2);
    [apply Condition_spec|by apply lens_field|by apply apart_field|by apply reads_field
    |by apply reads_field|done|by rewrite Hf1|].
  exists m2, (with_Conditions v s'). split_and!.
  - done.
  - by eapply reads_struct.
  - cbn [stConditions with_Conditions stReadyReplicas stEligibleQueued]. by rewrite Hc2.
  - by rewrite <-Ed1.
  - eapply only_target_trans; [done..|]. by eapply only_target_field.
Qed.

Lemma Pool_spec : copy_spec RunnerPool_DeepCopyInto.
Proof.
  intros inp out m v o a Hl Ha Hi Ho Hd Hb. unfold RunnerPool_DeepCopyInto.
  destruct (assign_run inp out m v o Hl Ha Hi Ho) as (m1 & E1 & Ho1 & Hi1 & Hot1 & Ed1).
  rewrite (bind_run _ _ _ _ _ E1).
  cbn [deep fp pool_deep] in Hd, Hb.
  apply bind_Some in Hd as (aO & HO & Hd). apply bind_Some in Hd as (aS & HS & [= <-]).
  rewrite not_elem_of_union in Hb. destruct Hb as [HbO HbS].
  rewrite (bind_run _ _ _ _ _ (reassign_noop inp out plTypeMeta with_TypeMeta m1 v v Hl
             ltac:(by split; [..|intros []]) Hi1 Ho1 eq_refl)).
  destruct (deep_kept out m m1 _ aO Hot1 HO HbO) as [HO1 HfO1].
  destruct (field_copied ObjectMeta_DeepCopyInto inp out plObjectMeta with_ObjectMeta m1 v v aO)
    as (m2 & om & E2 & Ho2 & Hi2 & HO2 & HfO2 & Hot2);
    [apply ObjectMeta_spec|by split; [..|intros []]|done..|by rewrite HfO1|].
  rewrite (bind_run _ _ _ _ _ E2).
  rewrite (bind_run _ _ _ _ _ (reassign_noop inp out plSpec with_Spec m2 v
             (with_ObjectMeta v om) Hl ltac:(by split; [..|intros []]) Hi2 Ho2 eq_refl)).
  pose proof (only_target_trans _ _ _ _ _ Hl Ho Hot1 Hot2) as Hot12.
  destruct (deep_kept out m m2 _ aS Hot12 HS HbS) as [HS2 HfS2].
  destruct (field_copied RunnerPoolStatus_DeepCopyInto inp out plStatus with_Status m2 v
              (with_ObjectMeta v om) aS)
    as (m3 & st & E3 & Ho3 & _ & HS3 & HfS3 & Hot3);
    [apply Status_spec|by split; [..|intros []]|done..|by rewrite HfS2|].
  rewrite Ed1 in HfO2. pose proof (reads_dom _ _ _ Ho) as Hbase.
  destruct (copied_kept out (dom m) m2 m3 om aO Hot3 Hbase HO2 HfO2) as [HO3 HfO3].
  exists m3, (with_Status (with_ObjectMeta v om) st). split_and!; [done|done| | |].
  - cbn [deep pool_deep plObjectMeta plStatus with_Status with_ObjectMeta plTypeMeta plSpec].
    by rewrite HO3, HS3.
  - cbn [fp pool_deep plObjectMeta plStatus with_Status with_ObjectMeta].
    intros l [Hl3|Hl3]%elem_of_union Hlm; [by apply (HfO3 l)|].
    apply (HfS3 l Hl3). by apply (only_target_dom _ _ _ Hot12).
  - by eapply only_target_trans.
Qed.

Lemma List_spec : copy_spec RunnerPoolList_DeepCopyInto.
Proof.
  intros inp out m v o a Hl Ha Hi Ho Hd Hb. unfold RunnerPoolList_DeepCopyInto.
  destruct (assign_run inp out m v o Hl Ha Hi Ho) as (m1 & E1 & Ho1 & Hi1 & Hot1 & Ed1).
  rewrite (bind_run _ _ _ _ _ E1).
  cbn [deep fp pool_list_deep] in Hd, Hb.
  apply bind_Some in Hd as (aO & HO & Hd). apply bind_Some in Hd as (aS & HS & [= <-]).
  rewrite not_elem_of_union in Hb. destruct Hb as [HbO HbS].
  rewrite (bind_run _ _ _ _ _ (reassign_noop inp out llTypeMeta with_ListTypeMeta m1 v v Hl
             ltac:(by split; [..|intros []]) Hi1 Ho1 eq_refl)).
  destruct (deep_kept out m m1 _ aO Hot1 HO HbO) as [HO1 HfO1].
  destruct (field_copied ListMeta_DeepCopyInto inp out llListMeta with_ListMeta m1 v v aO)
    as (m2 & om & E2 & Ho2 & Hi2 & HO2 & HfO2 & Hot2);
    [apply ListMeta_spec|by split; [..|intros []]|done..|by rewrite HfO1|].
  rewrite (bind_run _ _ _ _ _ E2).
  pose proof (only_target_trans _ _ _ _ _ Hl Ho Hot1 Hot2) as Hot12.
  destruct (deep_kept out m m2 _ aS Hot12 HS HbS) as [HS2 HfS2].
  assert (Hfd : field_ok llItems with_Items) by (by split; [..|intros []]).
  destruct (copy_slice_spec RunnerPool_DeepCopyInto
    (field inp llItems with_Items) (field out llItems with_Items) m2 (llItems v) aS)
    as (m3 & s' & E3 & Ho3 & HS3 & HfS3 & Hot3);
    [apply Pool_spec|by apply lens_field|by apply apart_field|by apply reads_field
    |by apply (reads_field out llItems with_Items m2 (with_ListMeta v om))|done
    |by rewrite HfS2|].
  rewrite Ed1 in HfO2. pose proof (reads_dom _ _ _ Ho) as Hbase.
  pose proof (only_target_field out llItems with_Items m2 m3 _ Ho2 Hot3) as Hot3'.
  destruct (copied_kept out (dom m) m2 m3 om aO Hot3' Hbase HO2 HfO2) as [HO3 HfO3].
  exists m3, (with_Items (with_ListMeta v om) s'). split_and!; [done| | | |].
  - by eapply reads_struct.
  - cbn [deep pool_list_deep llListMeta llItems with_Items with_ListMeta llTypeMeta].
    by rewrite HO3, HS3.
  - cbn [fp pool_list_deep llListMeta llItems with_Items with_ListMeta].
    intros l [Hl3|Hl3]%elem_of_union Hlm; [by apply (HfO3 l)|].
    apply (HfS3 l Hl3). by apply (only_target_dom _ _ _ Hot12).
  - by eapply only_target_trans.
Qed.

(** *** DeepCopy and DeepCopyObject *)

(** A copy of [T]: nil for nil; otherwise a new struct that denotes the same
    value, whatever is written later to the cells of the original, and the
    original denotes its value whatever is written to the copy. *)
Definition independent_copy {T V} `{!CellOf T, !Deep T V}
    (copy : option (ptr T) → M (option positive)) : Prop :=
  (∀ m, copy None m = Some (None, m)) ∧
  ∀ p m v a, reads p m v → deep m v = Some a →
    ∃ m' l v', copy (Some p) m = Some (Some l, m') ∧ (l ∉ dom m) ∧
      reads (whole (T := T) l) m' v' ∧ deep m' v' = Some a ∧
      (∀ m'' : mem, (∀ k, k ∉ dom m → m'' !! k = m' !! k) →
         reads (whole (T := T) l) m'' v' ∧ deep m'' v' = Some a) ∧
      (∀ m'' : mem, (∀ k, k ∈ dom m → m'' !! k = m' !! k) →
         reads p m'' v ∧ deep m'' v = Some a).

Lemma deep_copy_independent {T V} `{!CellOf T, !Deep T V, !DeepOk T V} (zero : T) into :
  (∀ v : T, of_cell (to_cell v) = Some v) →
  (∀ c (v : T), of_cell c = Some v → to_cell v = c) →
  copy_spec into → independent_copy (deep_copy zero into).
Proof.
  intros H1 H2 Hs. split; [done|]. intros p m v a Hp Hd.
  destruct (alloc_run (to_cell zero) m) as (l & Ea & Hl & Hext).
  set (m1 := <[l:=to_cell zero]> m) in *.
  destruct (deep_ext m m1 v a Hext Hd) as [Hd1 Hf1].
  assert (Hpl : base p ≠ l) by (intros E; apply Hl; rewrite <-E; by eapply reads_dom).
  destruct (Hs p (whole l) m1 v zero a) as (m2 & v' & E2 & Hr2 & Hd2 & Hf2 & Hot2).
  - by split; unfold whole; cbn [get set]; intros; [..|apply H2].
  - by intros E.
  - by eapply reads_ext.
  - exists (to_cell zero). unfold whole. cbn [base get]. unfold m1. by rewrite lookup_insert_eq.
  - done.
  - rewrite Hf1. intros Hn. by apply Hl, (fp_dom m v a).
  - exists m2, l, v'. split_and!; try done.
    + unfold deep_copy. rewrite (bind_run _ _ _ _ _ Ea), (bind_run _ _ _ _ _ E2). done.
    + intros m'' Hm. split.
      * destruct Hr2 as (c & Hc & Hg). exists c. by rewrite Hm.
      * apply (deep_local m2 m'' v' a Hd2). intros k Hk. apply Hm. intros Hkm.
        apply (Hf2 k Hk). unfold m1. rewrite dom_insert_L. apply elem_of_union. by right.
    + intros m'' Hm.
      assert (Hkeep : ∀ k c, m !! k = Some c → m'' !! k = Some c).
      { intros k c Hc. rewrite Hm by by eapply elem_of_dom_2.
        apply (ot_frame _ _ _ Hot2); [|by eapply lookup_weaken].
        intros ->. apply Hl. by eapply elem_of_dom_2. }
      split.
      * destruct Hp as (c & Hc & Hg). exists c. eauto.
      * apply (deep_ext m m'' v a); [|done]. apply map_subseteq_spec. eauto.
Qed.

Lemma copy_object_id (c : M (option positive)) m : copy_object c m = c m.
Proof.
  unfold copy_object, mbind, M_bind. destruct (c m) as [[[l|] m']|]; done.
Qed.

(** C40: the copies controller-runtime hands out are equal to the cached objects
    and share nothing with them.  For a pool, a list of pools and their parts:
    a nil pointer copies to nil (DeepCopyObject to a nil object); any other
    copy succeeds, is a new struct that denotes the same value (conditions and
    items element by element, a nil slice as nil), keeps that value whatever is
    later written to any cell of the memory the original lived in, and leaves
    the original unharmed by anything written to the copy.  Of apimachinery's
    ObjectMeta, ListMeta and Condition only the same contract is assumed. *)
Theorem deep_copies_are_independent :
  independent_copy RunnerPool_DeepCopyObject ∧ independent_copy RunnerPoolList_DeepCopyObject ∧
  independent_copy RunnerPool_DeepCopy ∧ independent_copy RunnerPoolList_DeepCopy ∧
  independent_copy RunnerPoolStatus_DeepCopy ∧ independent_copy RunnerPoolSpec_DeepCopy ∧
  independent_copy RunnerResources_DeepCopy.
Proof.
  assert (HP : independent_copy RunnerPool_DeepCopy)
    by (apply deep_copy_independent; [done|by intros [] ?; intros [= <-]|apply Pool_spec]).
  assert (HL : independent_copy RunnerPoolList_DeepCopy)
    by (apply deep_copy_independent; [done|by intros [] ?; intros [= <-]|apply List_spec]).
  split_and!; [| |done|done|..].
  - destruct HP as [H1 H2]. split; intros; unfold RunnerPool_DeepCopyObject;
      setoid_rewrite copy_object_id; eauto.
  - destruct HL as [H1 H2]. split; intros; unfold RunnerPoolList_DeepCopyObject;
      setoid_rewrite copy_object_id; eauto.
  - apply deep_copy_independent; [done|by intros [] ?; intros [= <-]|apply Status_spec].
  - apply deep_copy_independent; [done|by intros [] ?; intros [= <-]|apply Spec_spec].
  - apply deep_copy_independent; [done|by intros [] ?; intros [= <-]|apply Resources_spec].
Qed.
End structs.

(** ** A concrete library: labels behind a pointer *)
#[export] Instance demo_types : MetaTypes := {|
  ObjectMeta := string * option positive;
  ListMeta := string;
  Condition := string;
  LibObject := list (string * string);
  zero_ObjectMeta := (EmptyString, None);
  zero_ListMeta := EmptyString;
  zero_Condition := EmptyString;
|}.

Definition lib_ptr (l : positive) : ptr (list (string * string)) :=
  mkPtr l (λ c, match c with CLib o => Some o | _ => None end) (λ o _, CLib o).

Definition demo_meta_copy (inp out : ptr (string * option positive)) : M unit :=
  v ← load inp;
  match v.2 with
  | None => store out v
  | Some l =>
      o ← load (lib_ptr l);
      l' ← alloc (CLib o);
      store out (v.1, Some l')
  end.

#[export] Instance demo_lib : MetaLib := {|
  ObjectMeta_DeepCopyInto := demo_meta_copy;
  ListMeta_DeepCopyInto := assign;
  Condition_DeepCopyInto := assign;
|}.

#[export] Instance demo_meta_deep :
  Deep (string * option positive) (string * option (list (string * string))) := {|
  deep m v := match v.2 with
              | None => Some (v.1, None)
              | Some l => match m !! l with Some (CLib o) => Some (v.1, Some o) | _ => None end
              end;
  fp m v := match v.2 with None => ∅ | Some l => {[l]} end;
|}.

#[export] Instance demo_string_deep : Deep string string := plain_deep string.

Lemma demo_meta_ok : DeepOk (string * option positive) (string * option (list (string * string))).
Proof.
  split; intros m; [intros m'|]; intros [n [l|]] a; cbn; try done.
  - intros Hd Hl. by rewrite (Hl l) by by apply elem_of_singleton.
  - destruct (m !! l) eqn:E; [|done]. intros _ k ->%elem_of_singleton.
    by apply elem_of_dom_2 in E.
Qed.

Lemma demo_meta_spec : copy_spec demo_meta_copy.
Proof.
  intros inp out m [n [l|]] o a Hl Ha Hi Ho Hd Hb; unfold demo_meta_copy;
    rewrite (bind_run _ _ _ _ _ (load_reads _ _ _ Hi)); cbn [fst snd]; cbn in Hd.
  - destruct (m !! l) as [[]|] eqn:El; simplify_eq.
    assert (Hlib : reads (lib_ptr l) m o0) by (by eexists).
    rewrite (bind_run _ _ _ _ _ (load_reads _ _ _ Hlib)).
    destruct (alloc_run (CLib o0) m) as (l' & E & Hl' & Hext).
    rewrite (bind_run _ _ _ _ _ E).
    pose proof (reads_ext _ _ _ _ Hext Ho) as Ho1.
    destruct (store_reads out _ o (n, Some l') Hl Ho1) as (m' & E' & Hr & Hot & Hdom).
    assert (Hne : base out ≠ l') by (intros <-; by apply Hl'; eapply reads_dom).
    exists m', (n, Some l'). split_and!; [done|done| |..].
    + cbn. by rewrite (ot_frame _ _ _ Hot l' (CLib o0)); [|done|by rewrite lookup_insert_eq].
    + cbn. by intros k ->%elem_of_singleton.
    + split.
      * intros k c Hk Hc. apply (ot_frame _ _ _ Hot); [done|by eapply lookup_weaken].
      * intros c Hc. apply (ot_target _ _ _ Hot). by eapply lookup_weaken.
  - destruct (store_reads out m o (n, None) Hl Ho) as (m' & E' & Hr & Hot & _).
    simplify_eq. exists m', (n, None). by split_and!.
Qed.

#[export] Instance demo_laws :
  MetaLaws (string * option (list (string * string))) string string.
Proof.
  split; [apply demo_meta_ok|apply (plain_ok string)|apply (plain_ok string)
         |apply demo_meta_spec|apply (assign_spec string)|apply (assign_spec string)].
Qed.

(** A pool with labels and two conditions in the store. *)
Definition demo_pool : Pool :=
  mkPoolObj (mkTypeMeta "RunnerPool" "synergyplus.io/v1") ("pool-a", Some 2%positive)
    (mkPoolSpec "24.1.0" "" (mkResources "1" "2Gi") 0 10 5)
    (mkStatus 1 0 (Some (mkSlice 3 1 2))).

Definition demo_mem : mem :=
  {[1%positive := CPool demo_pool;
    2%positive := CLib [("app", "runner")];
    3%positive := CConditions ["stale"; "Ready"; "Scaled"]]}.

Lemma deep_copies_are_independent_witness :
  ∃ m' l v', RunnerPool_DeepCopy (Some (whole 1%positive)) demo_mem = Some (Some l, m') ∧
    reads (whole (T := Pool) l) m' v' ∧
    deep m' v' = Some (plTypeMeta demo_pool, ("pool-a", Some [("app", "runner")]),
                       plSpec demo_pool, (1%Z, 0%Z, Some ["Ready"; "Scaled"])).
Proof.
  destruct deep_copies_are_independent as (_ & _ & [_ H] & _).
  destruct (H (whole 1%positive) demo_mem demo_pool
    (plTypeMeta demo_pool, ("pool-a", Some [("app", "runner")]),
     plSpec demo_pool, (1%Z, 0%Z, Some ["Ready"; "Scaled"])))
    as (m' & l & v' & E & _ & Hr & Hd & _);
    [by exists (CPool demo_pool)|by vm_compute|].
  exists m', l, v'. split_and!; [exact E|exact Hr|exact Hd].
Defined.
