(* ===== verification/Migrate.v ===== *)
(** * internal/store: Migrate and ResolveMigrationsDir

    The boot-time schema migration over the operating system and the database
    ([BootIO]): os.ReadDir, os.ReadFile of a file of the directory, os.Stat's
    IsDir, and Pool.Exec.  Error texts keep the step and the file. *)
From S2P Require Import Prelude GoLib Sql Config.
Local Open Scope string_scope.

Record DirEntry := mkEntry { eName : string; eIsDir : bool }.

Class BootIO (W : Type) := {
  ReadDir : string → state_t W (result string (list DirEntry));
  ReadFile : string → string → state_t W (result string string);
  StatIsDir : string → bool;
  ExecSQL : string → state_t W (result string unit);
}.

(** filepath.Ext: from the last dot of the last path element on. *)
Fixpoint ext_rev (s acc : string) : string :=
  match s with
  | EmptyString => ""
  | String c r =>
      if Ascii.eqb c "/" then ""
      else if Ascii.eqb c "." then String c acc
      else ext_rev r (String c acc)
  end.
Definition filepath_Ext (s : string) : string := ext_rev (string_rev s) "".

Inductive migrate_error :=
  | ReadDirFailed (err : string)
  | NoMigrations
  | ReadFailed (file err : string)
  | ApplyFailed (file err : string).

(** The file names Migrate applies, sort.Strings over the .sql files. *)
Definition migration_files (entries : list DirEntry) : list string :=
  merge_sort String.le
    (map eName (List.filter (λ e, negb (eIsDir e) && String.eqb (filepath_Ext (eName e)) ".sql")
                  entries)).

Section migrate.
Context {W : Type} `{BootIO W}.

Fixpoint apply_files (dir : string) (files : list string) :
    state_t W (result migrate_error unit) :=
  match files with
  | [] => mret (Ok tt)
  | f :: rest =>
      sql ← ReadFile dir f;
      match sql with
      | Err e => mret (Err (ReadFailed f e))
      | Ok text =>
          done ← ExecSQL text;
          match done with
          | Err e => mret (Err (ApplyFailed f e))
          | Ok _ => apply_files dir rest
          end
      end
  end.

Definition Migrate (dir : string) : state_t W (result migrate_error unit) :=
  entries ← ReadDir dir;
  match entries with
  | Err e => mret (Err (ReadDirFailed e))
  | Ok l =>
      let files := migration_files l in
      if Nat.eqb (length files) 0 then mret (Err NoMigrations)
      else apply_files dir files
  end.

Definition ResolveMigrationsDir (e : env) : string :=
  if negb (String.eqb (e "MIGRATIONS_DIR") "") then e "MIGRATIONS_DIR"
  else if StatIsDir "/app/db/migrations" then "/app/db/migrations"
  else if StatIsDir "./db/migrations" then "./db/migrations"
  else "/app/db/migrations".
End migrate.

(** ** A disk, and a database that logs what it executes *)
Record disk := mkDisk {
  dir_entries : list DirEntry;
  contents : string → option string;
  accepts : string → bool;
}.

#[export] Instance DiskIO (d : disk) : BootIO (list string) := {|
  ReadDir dir w := (w, Ok (dir_entries d));
  ReadFile dir f w := (w, match contents d f with Some t => Ok t | None => Err "not found" end);
  StatIsDir dir := true;
  ExecSQL sql w := if accepts d sql then ((w ++ [sql])%list, Ok tt) else (w, Err "failed");
|}.

(** ** Facts *)
Lemma apply_files_log d dir files : ∀ w,
  let '(w', res) := apply_files (W := list string) (H := DiskIO d) dir files w in
  ∃ k, w' = (w ++ omap (contents d) (take k files))%list ∧
    Forall (λ f, ∃ t, contents d f = Some t ∧ accepts d t = true) (take k files) ∧
    match res with
    | Ok _ => k = length files
    | Err (ReadFailed f _) => files !! k = Some f ∧ contents d f = None
    | Err (ApplyFailed f _) => files !! k = Some f ∧
        ∃ t, contents d f = Some t ∧ accepts d t = false
    | Err _ => False
    end.
Proof.
  induction files as [|f files IH]; intros w; cbn [apply_files].
  { exists 0. simpl. by rewrite app_nil_r. }
  rewrite state_bind_run. cbn [ReadFile DiskIO fst snd].
  destruct (contents d f) as [t|] eqn:Ef.
  2: { exists 0. simpl. by rewrite app_nil_r. }
  rewrite state_bind_run. cbn [ExecSQL DiskIO].
  destruct (accepts d t) eqn:Ea; cbn [fst snd].
  2: { exists 0. simpl. rewrite app_nil_r. split_and!; try done. eauto. }
  specialize (IH (w ++ [t])%list). destruct (apply_files dir files _) as [w' res].
  destruct IH as (k & -> & Hall & Hres). exists (S k). split_and!.
  - cbn [take omap list_omap]. rewrite Ef, <-app_assoc. done.
  - constructor; [eauto|done].
  - destruct res as [[]|[]]; simpl; auto.
Qed.

(** ** Property *)

(** Migrations run in order and stop at the first failure.  Migrate applies
    the .sql files of the directory that are not directories themselves, in
    ascending order of their names, each once; it succeeds exactly when there
    is one and every one of them was read and accepted by the database, and on
    failure the statements executed are those of the files before the one it
    reports. *)
Theorem migrations_in_order d dir w :
  let files := migration_files (dir_entries d) in
  let '(w', res) := Migrate (W := list string) (H := DiskIO d) dir w in
  Sorted String.le files ∧
  (∀ f, f ∈ files ↔ ∃ e, e ∈ dir_entries d ∧ eName e = f ∧ eIsDir e = false ∧
                         filepath_Ext f = ".sql") ∧
  ∃ k, w' = (w ++ omap (contents d) (take k files))%list ∧
    match res with
    | Ok _ => files ≠ [] ∧ k = length files ∧
        Forall (λ f, ∃ t, contents d f = Some t ∧ accepts d t = true) files
    | Err NoMigrations => files = [] ∧ k = 0
    | Err (ReadFailed f _) => files !! k = Some f ∧ contents d f = None
    | Err (ApplyFailed f _) => files !! k = Some f ∧
        ∃ t, contents d f = Some t ∧ accepts d t = false
    | Err (ReadDirFailed _) => False
    end.
Proof.
  cbv zeta. unfold Migrate. rewrite state_bind_run. cbn [ReadDir DiskIO fst snd].
  set (files := migration_files (dir_entries d)).
  assert (Hs : Sorted String.le files).
  { unfold files, migration_files. apply Sorted_merge_sort. apply _. }
  assert (Hin : ∀ f, f ∈ files ↔ ∃ e, e ∈ dir_entries d ∧ eName e = f ∧ eIsDir e = false ∧
                         filepath_Ext f = ".sql").
  { intros f. unfold files, migration_files. rewrite merge_sort_Permutation. split.
    - intros (e & He & <-)%elem_of_map_2. apply elem_of_filter in He as [He Hc].
      apply andb_true_iff in Hc as [Hd%negb_true_iff Hx%String.eqb_eq]. eauto.
    - intros (e & He & <- & Hd & Hx). apply elem_of_map_1, elem_of_filter.
      split; [done|]. by rewrite Hd, Hx. }
  cbv zeta. destruct (Nat.eqb_spec (length files) 0) as [E|Hne].
  - split_and!; [done..|]. exists 0. simpl. rewrite app_nil_r. split_and!; try done.
    by apply nil_length_inv.
  - pose proof (apply_files_log d dir files w) as H.
    destruct (apply_files dir files w) as [w' res]. destruct H as (k & -> & Hall & Hres).
    split_and!; [done..|]. exists k. split; [done|].
    destruct res as [[]|[]]; try done. subst k. rewrite take_ge in Hall by done.
    split_and!; [|done|done]. intros E. by rewrite E in Hne.
Qed.
