(* ===== verification/Boot.v ===== *)
(** * The two processes: cmd/apiserver/main.go and cmd/operator/main.go

    A main runs to its exit code and leaves a trace of what it started
    ([api_action], [op_action]) on the way.  pgx's pool ([PoolIO]) and
    controller-runtime's manager ([ManagerLib]) are parameters; what ends a
    served process (a signal, or the failure of the listener) and the parsed
    flags are arguments.  Log calls are dropped.  Properties of both close the
    file. *)
From S2P Require Import Prelude GoLib JsonText NetUrl Sql Config Http Migrate Storage Controller Operator.
Local Open Scope string_scope.

(** ** internal/store: New and Close *)
Class PoolIO (W : Type) := {
  pool_config : Type;
  pool : Type;
  ParseConfig : string → result string pool_config;
  NewWithConfig : pool_config → state_t W (result string pool);
  Ping : pool → state_t W (result string ());
  pool_Close : pool → state_t W ();
}.

(** ** Processes: a state, a trace, and a value or an exit *)
Definition proc (W E A : Type) : Type := W → list E → W * list E * (A + Z).

#[export] Instance proc_ret W E : MRet (proc W E) := λ A a w tr, (w, tr, inl a).
#[export] Instance proc_bind W E : MBind (proc W E) := λ A B k m w tr,
  let '(w', tr', r) := m w tr in
  match r with inl a => k a w' tr' | inr code => (w', tr', inr code) end.

Definition lift {W E A} (m : state_t W A) : proc W E A := λ w tr,
  let '(w', a) := m w in (w', tr, inl a).
Definition start {W E} (e : E) : proc W E () := λ w tr, (w, (tr ++ [e])%list, inl tt).
Definition os_Exit {W E A} (code : Z) : proc W E A := λ w tr, (w, tr, inr code).

(** The exit code of a main: 0 when it returns. *)
Definition exit_code {A} (r : A + Z) : Z := match r with inl _ => 0 | inr code => code end.

(** ** cmd/apiserver *)
Inductive api_action {W} :=
  | RunReaper
  | ListenAndServe (addr : string) (srv : Server W)
  | Shutdown
  | ClosePool.
Arguments api_action : clear implicits.

Section apiserver.
Context {W : Type} `{BootIO W} {UL : UnicodeLib} {IP : IPLiteral} {M : Minio W} {PL : PoolIO W}.

Definition store_New (databaseURL : string) : state_t W (result string pool) :=
  match ParseConfig databaseURL with
  | Err e => mret (Err ("parse DATABASE_URL: " +:+ e))
  | Ok c =>
      made ← NewWithConfig c;
      match made with
      | Err e => mret (Err ("connect: " +:+ e))
      | Ok p =>
          pinged ← Ping p;
          match pinged with
          | Err e => _ ← pool_Close p; mret (Err ("ping: " +:+ e))
          | Ok _ => mret (Ok p)
          end
      end
  end.

Definition store_Close (p : pool) : state_t W () := pool_Close p.

(** What ctx.Done() is closed by: a signal, or stop() after the listener
    failed.  Either way main goes on to shut down. *)
Inductive ending := Signalled | ServerFailed (err : string).

Definition api_main (e : env) (why : ending) : proc W (api_action W) () :=
  let cfg := LoadConfig e in
  if String.eqb (DatabaseURL cfg) "" then os_Exit 1
  else
    opened ← lift (store_New (DatabaseURL cfg));
    match opened with
    | Err _ => os_Exit 1
    | Ok st =>
        migrated ← lift (Migrate (ResolveMigrationsDir e));
        match migrated with
        | Err _ => os_Exit 1
        | Ok _ =>
            _ ← start RunReaper;
            match presigner_of e with
            | Err _ => os_Exit 1
            | Ok p =>
                _ ← start (ListenAndServe (Addr cfg) (NewServer (NewPresignerAdapter p) cfg));
                match why with
                | Signalled | ServerFailed _ =>
                    _ ← start Shutdown;
                    _ ← lift (store_Close st);
                    start ClosePool
                end
            end
        end
    end.
End apiserver.

(** ** api/v1: the group and its kinds; the operator's scheme *)
Record GVK := mkGVK { gvk_group : string; gvk_version : string; gvk_kind : string }.

#[export] Instance GVK_eq_dec : EqDecision GVK.
Proof. solve_decision. Defined.

Definition GroupVersion : string * string := ("synergyplus.io", "v1").

(** SchemeBuilder.Register(&RunnerPool{}, &RunnerPoolList{}) *)
Definition registered : list GVK :=
  map (mkGVK GroupVersion.1 GroupVersion.2) ["RunnerPool"; "RunnerPoolList"].

(** init: client-go's kinds and the API group's. *)
Definition scheme (clientgo : list GVK) : list GVK := (clientgo ++ registered)%list.

(** ** cmd/operator *)
Record flags := mkFlags { metricsAddr : string; probeAddr : string; leaderElect : bool }.
Definition default_flags : flags := mkFlags ":8080" ":8081" false.

Record manager_options := mkManagerOptions {
  o_scheme : list GVK;
  o_metrics : string;
  o_probe : string;
  o_leader_election : bool;
  o_leader_id : string;
}.

Record controller_spec := mkController {
  for_kind : GVK;
  owned_kinds : list GVK;
}.

Inductive op_action {KL : KubeLib} :=
  | AddController (r : RunnerPoolReconciler) (c : controller_spec)
  | AddHealthz (name : string)
  | AddReadyz (name : string)
  | StartManager.

Class ManagerLib (W : Type) := {
  manager : Type;
  NewManager : manager_options → state_t W (result string manager);
  Complete : manager → controller_spec → state_t W (result string ());
  AddHealthzCheck : manager → string → state_t W (result string ());
  AddReadyzCheck : manager → string → state_t W (result string ());
  Start : manager → state_t W (result string ());
}.

Section operator_main.
Context {W : Type} {KL : KubeLib} {TJ : TolerationJson} {ML : ManagerLib W}.

Definition watched : controller_spec :=
  mkController (mkGVK "synergyplus.io" "v1" "RunnerPool") [mkGVK "apps" "v1" "Deployment"].

Definition SetupWithManager (r : RunnerPoolReconciler) (mgr : manager) :
    proc W op_action (result string ()) :=
  done ← lift (Complete mgr watched);
  match done with
  | Err e => mret (Err e)
  | Ok _ => _ ← start (AddController r watched); mret (Ok tt)
  end.

(** A step that exits when it fails. *)
Definition must {A} (m : state_t W (result string A)) : proc W op_action A :=
  r ← lift m; match r with Ok a => mret a | Err _ => os_Exit 1 end.

Definition options_of (clientgo : list GVK) (f : flags) : manager_options :=
  mkManagerOptions (scheme clientgo) (metricsAddr f) (probeAddr f) (leaderElect f)
    "synergyplus.synergyplus.io".

Definition op_main (clientgo : list GVK) (e : environ) (f : flags) : proc W op_action () :=
  mgr ← must (NewManager (options_of clientgo f));
  match newRunnerPoolReconciler e with
  | None => os_Exit 1                       (* inside runnerTolerations *)
  | Some r =>
      set ← SetupWithManager r mgr;
      match set with
      | Err _ => os_Exit 1
      | Ok _ =>
          _ ← must (AddHealthzCheck mgr "healthz");
          _ ← start (AddHealthz "healthz");
          _ ← must (AddReadyzCheck mgr "readyz");
          _ ← start (AddReadyz "readyz");
          _ ← start StartManager;
          must (Start mgr)
      end
  end.
End operator_main.

(** ** Facts *)
Lemma proc_bind_run {W E A B} (m : proc W E A) (k : A → proc W E B) w tr :
  (x ← m; k x) w tr =
  match m w tr with
  | (w', tr', inl a) => k a w' tr'
  | (w', tr', inr code) => (w', tr', inr code)
  end.
Proof. unfold mbind, proc_bind. by destruct (m w tr) as [[w' tr'] [a|code]]. Qed.

Lemma lift_run {W E A} (m : state_t W A) w (tr : list E) :
  lift m w tr = ((m w).1, tr, inl (m w).2).
Proof. unfold lift. by destruct (m w). Qed.

(** A step that failed, or not, of a process that has left the trace [tr]. *)
Lemma must_run {W} {KL : KubeLib} {A B} (m : state_t W (result string A))
    (k : A → proc W op_action B) w tr :
  (∃ a, (m w).2 = Ok a ∧ (x ← must m; k x) w tr = k a (m w).1 tr) ∨
  (∃ e, (m w).2 = Err e ∧ (x ← must m; k x) w tr = ((m w).1, tr, inr 1%Z)).
Proof.
  rewrite proc_bind_run. unfold must. rewrite proc_bind_run, lift_run.
  destruct (m w) as [w' [a|e]]; cbn [fst snd]; [left|right]; by eexists.
Qed.

(** How main of the operator ends: before the manager starts, or with it. *)
Lemma op_main_cases {W} {KL : KubeLib} {TJ : TolerationJson} {ML : ManagerLib W}
    clientgo e f (w : W) :
  (∃ w' acts, op_main clientgo e f w [] = (w', acts, inr 1%Z) ∧ (StartManager ∉ acts)) ∨
  (∃ w' r rec, op_main clientgo e f w [] =
     (w', [AddController rec watched; AddHealthz "healthz"; AddReadyz "readyz"; StartManager], r) ∧
   newRunnerPoolReconciler e = Some rec ∧ (r = inl () ∨ r = inr 1%Z)).
Proof.
  unfold op_main.
  destruct (must_run (NewManager (options_of clientgo f)) (λ mgr, match newRunnerPoolReconciler e with
    | None => os_Exit 1
    | Some r => set ← SetupWithManager r mgr;
        match set with
        | Err _ => os_Exit 1
        | Ok _ =>
            _ ← must (AddHealthzCheck mgr "healthz"); _ ← start (AddHealthz "healthz");
            _ ← must (AddReadyzCheck mgr "readyz"); _ ← start (AddReadyz "readyz");
            _ ← start StartManager; must (Start mgr)
        end
    end) w []) as [(mgr & _ & ->)|(err & _ & ->)].
  2: { left. eexists _, _. split; [done|apply not_elem_of_nil]. }
  destruct (newRunnerPoolReconciler e) as [rec|].
  2: { left. eexists _, _. split; [done|apply not_elem_of_nil]. }
  rewrite proc_bind_run. unfold SetupWithManager. rewrite proc_bind_run, lift_run.
  destruct (Complete mgr watched _) as [w2 [u|err]]; cbn [fst snd].
  2: { left. eexists _, _. split; [done|apply not_elem_of_nil]. }
  rewrite proc_bind_run. cbn [start app]. unfold mret, proc_ret. cbv beta iota.
  destruct (must_run (AddHealthzCheck mgr "healthz") (λ _ : (), _ ← start (AddHealthz "healthz");
    _ ← must (AddReadyzCheck mgr "readyz"); _ ← start (AddReadyz "readyz");
    _ ← start StartManager; must (Start mgr)) w2 [AddController rec watched])
    as [([] & _ & ->)|(err & _ & ->)].
  2: { left. eexists _, _. split; [done|]. rewrite elem_of_cons. by intros [?|?%not_elem_of_nil]. }
  rewrite proc_bind_run. cbn [start app].
  destruct (must_run (AddReadyzCheck mgr "readyz") (λ _ : (), _ ← start (AddReadyz "readyz");
    _ ← start StartManager; must (Start mgr)) (AddHealthzCheck mgr "healthz" w2).1
    [AddController rec watched; AddHealthz "healthz"]) as [([] & _ & ->)|(err & _ & ->)].
  2: { left. eexists _, _. split; [done|]. rewrite !elem_of_cons.
       by intros [?|[?|?%not_elem_of_nil]]. }
  do 2 (rewrite proc_bind_run; cbn [start app]).
  right. unfold must. rewrite proc_bind_run, lift_run.
  destruct (Start mgr _) as [w5 [[]|err]]; cbn [fst snd]; eexists _, _, rec; split; eauto.
Qed.

(** ** Property *)

